(* ===== verification/_CoqProject ===== *)
-Q . S2P
Prelude.v
Errors.v
Enums.v
Numbers.v
Wire.v
Schema.v
Effects.v
Framing.v
Transport.v
Messages.v
Models.v
Requests.v
Session.v
Protocol.v
Registration.v
Heartbeat.v
Activity.v
Supervisor.v
Link.v
Events.v
EventFields.v
Exports.v
ProtoTools.v
Emitter.v
Router.v
Delivery.v
Exchange.v
Connection.v
Status.v
Shutdown.v
World.v
MarketData.v
Conformance.v
Auth.v
Recovery.v
Refresh.v
Api.v
Trading.v
Lifecycle.v
Client.v
Composition.v
Healing.v
