(* ===== verification/Prelude.v ===== *)
(** * ctrader-api-client: a verification development

    The client of the cTrader Open API under [src/src/ctrader_api_client/]: asynchronous
    Python on [anyio], protobuf messages over TLS, automatic reconnection, token rotation and
    session recovery. This library models its implementation files and proves what makes
    them correct. This first file has what the others share: units, automation, and Python
    dictionaries and strings.

    ** The program's parts and the files that model them

    Data, no state:
    - [Errors]: [exceptions.py]; every exception as a constructor of [exn], [py_str] for
      [str(e)], and the predicates the handlers branch on.
    - [Enums]: [enums.py], and the numbers the generated enums have on the wire.
    - [Numbers]: [_internal/conversions.py] with the [Decimal], [float] and [datetime]
      arithmetic the models use; a time outside [datetime]'s years raises.
    - [Wire]: the generated message classes of [_internal/proto/] as records, with the fields
      the client uses.
    - [Schema]: the declarations of all the generated classes, as data: every field with its
      number and type, every member of every enumeration.
    - [Conformance]: that the registry of [Messages] and the tables of the models agree with
      the schema, name by name.
    - [Models], [Requests]: [models/]; each model with its [from_proto] and its methods, each
      request with its [to_proto].
    - [Events]: [events/types.py]; [EventFields]: the fields its classes declare, as data, and
      what the events of a session's life carry.
    - [Exports]: the [__init__] files; what each package imports and lists in [__all__].
    - [ProtoTools]: [scripts/fix_proto_imports.py], which adds the imports to the generated
      modules and writes their package.

    From bytes to requests:
    - [Framing]: [_internal/serialization.py], over any byte stream ([ByteReceiveStream]).
    - [Messages]: [_internal/messages.py]; registry, envelopes, message ids.
    - [Protocol]: [connection/protocol.py], requests and dispatch: an interleaving step
      relation of callers and reader.
    - [Registration]: [on_event] and its disposers as a component uses them; the router's and
      the heartbeat's registrations are instances.

    The link:
    - [Transport]: [connection/transport.py].
    - [Heartbeat]: [connection/heartbeat.py], the loop with its clock.
    - [Activity]: [serve] of the same file, and which messages reset the timer.
    - [Supervisor]: [connection/supervisor.py] and [listener.py], telling listeners.
    - [Link]: the life of the link over [protocol.py], [heartbeat.py] and [supervisor.py]: a
      step relation of reader tasks, heartbeat loops and reconnection tasks.
    - [Connection]: the callers of [Protocol] and the tasks of [Link] together, over the one
      protocol object they share; each of the two is a projection of it.
    - [Shutdown]: the cancellation of the tasks of a link that was stopped, and what it leaves
      for the next time the client is entered.
    - [Status]: the [is_connected] properties of protocol, supervisor and client, over it.

    Events to the consumer:
    - [Emitter]: [events/emitter.py].
    - [Router]: [events/router.py] and [events/_execution.py]; and [message_means], the
      contract of the two: what subscribers are told of a message, from the side of the wire.
    - [Delivery]: the reader loop of [protocol.py] over a stream, with the tasks of the
      router's handlers: from the wire to the subscribers.
    - [Exchange]: the same stream, from the wire to the callers of [send_request].

    Sessions:
    - [Session]: [auth/credentials.py] and [auth/_session.py]; the store the rest share.
    - [World]: the state all session tasks share, the requests they make, and their ports as
      classes: [SessionRestorer], [SessionAuthenticator], [TokenStore], each with the laws
      ([Lawful...]) its clients rely on and its implementation proves.
    - [MarketData]: [api/market_data.py], a [SessionRestorer].
    - [Auth]: [auth/manager.py], a [SessionAuthenticator] over any restorer.
    - [Recovery]: [auth/_recovery.py], over any authenticator.
    - [Refresh]: [auth/_refresh.py], over any authenticator and token store.
    - [Api]: [api/trading.py], [accounts.py], [symbols.py].
    - [Trading]: its five operations that trade, from the request object to the wire and back.

    The whole:
    - [Lifecycle]: [_lifecycle], [__aenter__] and [__aexit__] of [client.py], and [serving],
      with task groups that wait for their services, for ever if nobody stops them.
    - [Client]: [config.py], [composition.py]; the same wiring instantiates the ports, so the
      theorems proved against them hold of the client.
    - [Composition]: [composition.py] and the constructors, on a heap of objects: that the
      code wires the ports in that way.
    - [Healing]: what the assembled tasks do, one after the other, about a dropped session and
      about an outage.

    ** How it is modelled

    Code that does not suspend is a function of the state. An [async] method is a coroutine
    of [Effects]: a function of an oracle, the list of its [await]s, that says for each what
    the other tasks did to the shared state meanwhile and how the operation ended. A theorem
    for all oracles is a theorem for all interleavings and all answers; [always] is the logic
    for those. Where many tasks of one kind matter ([Protocol], [Link]) the tasks are in the
    state of a step relation and the theorems are about its reachable states. An exception is
    a value of [res] or the [Raised] outcome of a coroutine; the cancellation is the one
    exception that is no [Exception]. Shared mutable objects are behind references where the
    code relies on it: refresh events and subscription records are numbers into a table.
    Integers are [Z], their width stated where it matters; seconds are a whole number of
    microseconds.

    ** What is proved, by group

    - Link: it is never lost silently ([Link.link_never_stranded]), a reconnection under way
      can always be completed ([Link.reconnection_completes]), it is abandoned only when the
      budget is spent and then leaves no caller waiting ([Link.abandon_only_when_spent]), and a heartbeat that noticed the drop does not come back
      ([Link.heartbeat_lost_after_outage]); a silent server is noticed, and only a silent one
      ([Heartbeat]), where every message but the answer to a request counts as a sign of life
      ([Activity.activity_tracked]); listeners cannot break each other ([Supervisor]). Callers
      and link compose: a run of both is a run of each, and neither can hold the other up
      ([Connection.connection_refines]); and a consumer that polls is told the truth
      ([Status.status_honest]). A link that is stopped winds down, whatever it was doing
      ([Shutdown.winding_down_ends]), and can be served again like a new one, unless it was
      stopped while a listener was being told of a drop ([Shutdown.served_again_exactly]).
    - Requests: a caller gets the answer to its own request, no slot leaks, nobody waits on a
      dead protocol ([Protocol]); the answers of a stream reach their callers in whatever order
      they come ([Exchange.answers_reach_callers]), and over whichever link they come: an outage
      neither fails nor forgets a request in flight ([Connection.requests_across_outages]).
    - Bytes: framing and envelopes round-trip over any split of the stream, truncated and
      oversized frames are errors ([Framing], [Messages]); the events of a stream reach the
      subscribers that want them, once and in order, saying what the messages say
      ([Delivery.events_delivered]).
    - Events: the tasks that look after sessions publish only the events of a session's life,
      with the errors and triggers a consumer may rely on ([Client.published_events_sound],
      through the laws of the ports).
    - Sessions: the store refines a finite map ([Session.store_refines]), establishing a
      session on every branch and announcing it last ([Auth]), restoring exactly what was
      asked for, each subscription once, in order ([MarketData]), checking disconnects, reporting reconnections, backing off
      and never spinning ([Recovery]), rotating tokens with bounded retries ([Refresh]), and
      all of it keeps the shared store sound ([Client.sessions_sound]). Put together: after an outage
      every account returns, however long the application is refused
      ([Healing.outage_healed]), and a dropped account comes back, with its subscriptions,
      however often that fails at first ([Healing.dropped_session_returns]).
    - Life: the statement always ends, what was opened is closed in reverse order whatever
      fails, and the caller sees what went wrong: the very exception, or all of them
      ([Lifecycle]).
    - Values: money, prices, ticks, volumes, deals and orders are decoded and encoded exactly
      ([Models], [Requests], [Router]); a trade says on the wire what was asked for and its caller
      gets what the server made of it ([Trading.trades_exact]); handlers are called once each
      and isolated ([Emitter]).
    - Schema: it is sound ([Schema.schema_sound]); the registry is complete, and every table
      of the models pairs the members of an enumeration with the values of their names
      ([Conformance]); the script rebuilds the package that exports it
      ([ProtoTools.main_rebuilds]) and every package exports what it claims ([Exports]).
    - Wiring: within a client there is one of each part, and two clients share nothing but
      what the caller gave both ([Composition]).
    Several theorems state a defect of the code as it is: the overflow of the backoff after
    1024 failures, the lost heartbeat, the mark a cancelled detector leaves behind, a deal
    that closes at a balance of zero, a rotated pair that is not saved again.

    ** Bounds and fuel

    [read_exact_loop] takes as many iterations as bytes are wanted, which is enough because
    a chunk is never empty ([read_exact_loop_enough]). Loops that run until they are stopped
    ([reauth_loop], [refresh_loop], [heartbeat_loop]) take a number of passes after which
    they are [Suspended], still running; theorems hold for any number of them. The retries of
    a refresh take [attempt_budget] passes and more change nothing ([retries_bounded]). The
    digits of a [Decimal] or a [float] are counted with fuel from the operand's logarithm.

    ** What is not modelled, and why

    - The byte encoding of protobuf messages: the [betterproto] package, which the generated
      classes only declare their fields to.
      [Codec] is a parameter, [LawfulCodec] its round trips, with a toy instance.
    - [anyio], [tenacity], sockets and TLS: parameters ([ByteReceiveStream],
      [StopStrategies], [WaitStrategies]) or answers of the oracle.
    - [pydantic]'s validation of model fields, beyond the bounds of [ClientConfig].
    - A cancellation from around the client that reaches the tasks of the link before they are
      stopped ([Shutdown] has those after; [Lifecycle] the order of stopping).
    - Logging and the prints of the script; the monotonic clock itself; [FrozenModel], which
      makes pydantic freeze the models (records are values). *)

From stdpp Require Export strings pretty base numbers gmap list fin_maps.
From stdpp Require Import options.
Set Default Proof Using "Type".

(** ** Units

    Python's [float] seconds are carried as a whole number of microseconds. *)
Abbreviation seconds := Z (only parsing).

(** One second, in the unit of [seconds]. *)
Definition second : Z := 1000000.

(** ** Automation *)

Create HintDb ctrader.
Create HintDb always.
Create Rewrite HintDb ctrader.

(** Split a goal or hypotheses along [if]s and [match]es. *)
Ltac split_matches :=
  repeat (case_match; simplify_eq/=).

(** Close a goal by case analysis on the booleans it tests. *)
Ltac crush :=
  repeat (case_match || case_decide || case_bool_decide); simplify_eq/=; eauto with ctrader;
  try done; try lia.

(** ** Lists *)

Lemma NoDup_snoc {A} (l : list A) (x : A) :
  NoDup l -> x ∉ l -> NoDup (l ++ [x]).
Proof.
  intros Hl Hx. apply NoDup_app. split_and!; [done| |apply NoDup_singleton].
  intros y Hy ->%list_elem_of_singleton. done.
Qed.

Lemma elem_of_snoc {A} (l : list A) (x y : A) : x ∈ l -> x ∈ l ++ [y].
Proof. intros. apply elem_of_app. by left. Qed.

Lemma elem_of_snoc_last {A} (l : list A) (y : A) : y ∈ l ++ [y].
Proof. apply elem_of_app. right. apply list_elem_of_here. Qed.

Lemma filter_id {A} (P : A -> Prop) `{forall x, Decision (P x)} (l : list A) : Forall P l -> filter P l = l.
Proof. induction 1; [done|]. rewrite filter_cons_True by done. by f_equal. Qed.

Lemma filter_none {A} (P : A -> Prop) `{forall x, Decision (P x)} (l : list A) :
  Forall (fun x => ~ P x) l -> filter P l = [].
Proof. induction 1; [done|]. by rewrite filter_cons_False. Qed.

Lemma omap_Some_map {A B C} (f : A -> option B) (g : A -> C) (h : B -> C) (l : list A) :
  (forall a b, f a = Some b -> h b = g a) ->
  sublist (h <$> omap f l) (g <$> l).
Proof.
  intros Hfg. induction l as [|a l IH]; simpl; [constructor|].
  destruct (f a) as [b|] eqn:E; simpl.
  - rewrite (Hfg _ _ E). by constructor.
  - by constructor.
Qed.

(** ** Strings *)

(** [s.upper()], of ASCII characters; the others are left as they are. *)
Definition ascii_upper (a : Ascii.ascii) : Ascii.ascii :=
  let n := Ascii.nat_of_ascii a in
  if decide (97 <= n <= 122)%nat then Ascii.ascii_of_nat (n - 32) else a.

Fixpoint str_upper (s : string) : string :=
  match s with
  | EmptyString => EmptyString
  | String a s' => String (ascii_upper a) (str_upper s')
  end.

(** [a in b] for strings: [a] is a contiguous part of [b]. *)
Fixpoint str_in (a b : string) : bool :=
  String.prefix a b || match b with EmptyString => false | String _ b' => str_in a b' end.

Lemma ascii_upper_idemp (a : Ascii.ascii) : ascii_upper (ascii_upper a) = ascii_upper a.
Proof. by destruct a as [[] [] [] [] [] [] [] []]. Qed.

Lemma str_upper_idemp (s : string) : str_upper (str_upper s) = str_upper s.
Proof. induction s as [|a s IH]; cbn; [done|]. by rewrite ascii_upper_idemp, IH. Qed.

Lemma prefix_spec (a b : string) : String.prefix a b = true <-> exists post, b = a +:+ post.
Proof.
  revert b. induction a as [|x a IH]; intros b.
  - split; [by exists b|by destruct b].
  - destruct b as [|y b]; [split; [done|by intros [? [=]]]|].
    change (String.prefix (String x a) (String y b)) with
      (if Ascii.ascii_dec x y then String.prefix a b else false).
    destruct (Ascii.ascii_dec x y) as [->|Hne].
    + rewrite IH. split; intros [post Hp]; exists post; [by rewrite Hp|by injection Hp].
    + split; [done|]. intros [post [= ??]]. congruence.
Qed.

Lemma str_in_spec (a b : string) : str_in a b = true <-> exists pre post, b = pre +:+ a +:+ post.
Proof.
  induction b as [|y b IH].
  - change (str_in a EmptyString) with (String.prefix a EmptyString || false). rewrite orb_false_r. split.
    + intros [post Hp]%prefix_spec. by exists EmptyString, post.
    + intros ([|] & post & Hp); [|done]. apply prefix_spec. by exists post.
  - change (str_in a (String y b)) with (String.prefix a (String y b) || str_in a b).
    rewrite orb_true_iff, prefix_spec, IH. split.
    + intros [[post Hp]|(pre & post & Hp)]; [by exists EmptyString, post|].
      exists (String y pre), post. by rewrite Hp.
    + intros ([|x pre] & post & Hp); [left; by exists post|right]. injection Hp as -> Hp. by exists pre, post.
Qed.

Lemma forallb_elem {A} (f : A -> bool) (l : list A) (x : A) : forallb f l = true -> x ∈ l -> f x = true.
Proof. rewrite forallb_forall. intros Hall Hx. by apply Hall, list_elem_of_In. Qed.

(** ** Python dictionaries

    A [dict] remembers the order in which its keys were first inserted: assigning to
    a key it already holds keeps the key's place, and a popped key that comes back
    goes to the end. It is therefore an association list, and the finite map it
    denotes is its abstraction. *)
Abbreviation dict K V := (list (K * V)).

Section dict.
Context {K V : Type} `{EqDecision K}.
Implicit Types (d : dict K V) (k : K) (v : V).

(** [d.get(k)] *)
Fixpoint dict_get (k : K) (d : dict K V) : option V :=
  match d with
  | [] => None
  | (k', v) :: d' => if decide (k = k') then Some v else dict_get k d'
  end.

(** [d[k] = v] *)
Fixpoint dict_set (k : K) (v : V) (d : dict K V) : dict K V :=
  match d with
  | [] => [(k, v)]
  | (k', v') :: d' =>
      if decide (k = k') then (k', v) :: d' else (k', v') :: dict_set k v d'
  end.

(** [d.pop(k, None)], the dictionary that is left *)
Fixpoint dict_pop (k : K) (d : dict K V) : dict K V :=
  match d with
  | [] => []
  | (k', v') :: d' => if decide (k = k') then d' else (k', v') :: dict_pop k d'
  end.

(** [d.setdefault(k, v)], the dictionary that is left *)
Definition dict_setdefault (k : K) (v : V) (d : dict K V) : dict K V :=
  match dict_get k d with Some _ => d | None => dict_set k v d end.

(** [k in d] *)
Definition dict_has (k : K) (d : dict K V) : bool :=
  match dict_get k d with Some _ => true | None => false end.

(** Keys are distinct: what every dictionary reached from [{}] satisfies. *)
Definition dict_wf (d : dict K V) : Prop := NoDup d.*1.

Lemma dict_get_set_eq k v d : dict_get k (dict_set k v d) = Some v.
Proof. induction d as [|[k' v'] d IH]; simpl; repeat case_decide; simpl; by repeat case_decide. Qed.

Lemma dict_get_set_ne k k' v d : k ≠ k' -> dict_get k (dict_set k' v d) = dict_get k d.
Proof.
  intros ?. induction d as [|[k2 v2] d IH]; simpl; repeat case_decide; simplify_eq; simpl;
    repeat case_decide; congruence.
Qed.

Lemma dict_set_set k v v' d : dict_set k v (dict_set k v' d) = dict_set k v d.
Proof.
  induction d as [|[k' u] d IH]; simpl; [by rewrite decide_True|].
  destruct (decide (k = k')) as [->|]; simpl; [by rewrite decide_True|]. by rewrite decide_False, IH.
Qed.

Lemma dict_set_get k v d : dict_get k d = Some v -> dict_set k v d = d.
Proof.
  induction d as [|[k' u] d IH]; simpl; [done|]. destruct (decide (k = k')) as [->|]; [by intros [= ->]|].
  intros ?. by rewrite IH.
Qed.

Lemma dict_get_app_r k d1 d2 : k ∉ d1.*1 -> dict_get k (d1 ++ d2) = dict_get k d2.
Proof.
  induction d1 as [|[k' u] d1 IH]; [done|]. intros [Hk Hd]%not_elem_of_cons. cbn. by rewrite decide_False, IH.
Qed.

Lemma dict_set_app_r k v d1 d2 : k ∉ d1.*1 -> dict_set k v (d1 ++ d2) = d1 ++ dict_set k v d2.
Proof.
  induction d1 as [|[k' u] d1 IH]; [done|]. intros [Hk Hd]%not_elem_of_cons. cbn. by rewrite decide_False, IH.
Qed.

(** Assigning to a key that is there changes its value in place. *)
Lemma dict_set_in_place k v d :
  dict_get k d = Some v -> exists l1 l2, d = l1 ++ (k, v) :: l2 /\ forall v', dict_set k v' d = l1 ++ (k, v') :: l2.
Proof.
  induction d as [|[k' u] d IH]; simpl; [done|]. destruct (decide (k = k')) as [<-|].
  - intros [= ->]. by exists [], d.
  - intros (l1 & l2 & -> & Hset)%IH. exists ((k', u) :: l1), l2. split; [done|]. intros v'. by rewrite Hset.
Qed.

Lemma dict_get_set k k' v d :
  dict_get k (dict_set k' v d) = if decide (k = k') then Some v else dict_get k d.
Proof. case_decide; subst; auto using dict_get_set_eq, dict_get_set_ne. Qed.

Lemma dict_get_pop_ne k k' d : k ≠ k' -> dict_get k (dict_pop k' d) = dict_get k d.
Proof.
  intros ?. induction d as [|[k2 v2] d IH]; simpl; repeat case_decide; simplify_eq; simpl;
    repeat case_decide; congruence.
Qed.

Lemma dict_get_None k d : dict_get k d = None <-> k ∉ d.*1.
Proof.
  induction d as [|[k' v'] d IH]; simpl; [split; [intros _; apply not_elem_of_nil|done]|].
  rewrite not_elem_of_cons. case_decide; [split; [done|by intros [? _]]|].
  rewrite IH. split; [by intros|by intros [_ ?]].
Qed.

Lemma dict_get_Some_in k v d : dict_get k d = Some v -> (k, v) ∈ d.
Proof. induction d as [|[k' v'] d IH]; simpl; [done|]. case_decide; simplify_eq; set_solver. Qed.

Lemma dict_in_get k v d : dict_wf d -> (k, v) ∈ d -> dict_get k d = Some v.
Proof.
  unfold dict_wf. induction d as [|[k' v'] d IH]; simpl; [set_solver|].
  intros [Hk Hd]%NoDup_cons [[= -> ->]|Hin]%elem_of_cons; case_decide; subst; try done; auto.
  exfalso. apply Hk. by eapply list_elem_of_fmap_2' in Hin.
Qed.

Lemma dict_get_pop_eq k d : dict_wf d -> dict_get k (dict_pop k d) = None.
Proof.
  unfold dict_wf. induction d as [|[k' v'] d IH]; simpl; [done|].
  intros [Hk Hd]%NoDup_cons. case_decide; subst; simpl.
  - by apply dict_get_None.
  - case_decide; [done|]. auto.
Qed.

Lemma dict_get_pop k k' d :
  dict_wf d -> dict_get k (dict_pop k' d) = if decide (k = k') then None else dict_get k d.
Proof. intros. case_decide; subst; auto using dict_get_pop_eq, dict_get_pop_ne. Qed.

Lemma dict_set_keys k v d :
  (dict_set k v d).*1 = if decide (k ∈ d.*1) then d.*1 else d.*1 ++ [k].
Proof.
  induction d as [|[k' v'] d IH]; [done|].
  destruct (decide (k = k')) as [<-|Hne].
  - rewrite decide_True by apply list_elem_of_here. simpl. by rewrite decide_True.
  - simpl dict_set. rewrite decide_False by done. rewrite !fmap_cons, IH. simpl fst.
    destruct (decide (k ∈ d.*1)) as [Hin|Hin].
    + rewrite decide_True; [done|]. by apply list_elem_of_further.
    + rewrite decide_False; [done|]. by apply not_elem_of_cons.
Qed.

Lemma dict_pop_keys_sublist k d : sublist (dict_pop k d).*1 d.*1.
Proof. induction d as [|[k' v'] d IH]; simpl; [constructor|]. case_decide; by constructor. Qed.

Lemma Forall_dict_pop (P : K * V -> Prop) k d : Forall P d -> Forall P (dict_pop k d).
Proof. induction 1 as [|[k' v'] d]; simpl; [constructor|]. case_decide; [done|by constructor]. Qed.

Lemma dict_wf_nil : dict_wf ([] : dict K V).
Proof. constructor. Qed.

Lemma dict_wf_set k v d : dict_wf d -> dict_wf (dict_set k v d).
Proof. unfold dict_wf. rewrite dict_set_keys. case_decide; auto using NoDup_snoc. Qed.

Lemma dict_wf_pop k d : dict_wf d -> dict_wf (dict_pop k d).
Proof. unfold dict_wf. intros. eapply sublist_NoDup; [done|]. apply dict_pop_keys_sublist. Qed.

Lemma dict_wf_setdefault k v d : dict_wf d -> dict_wf (dict_setdefault k v d).
Proof. unfold dict_setdefault. destruct (dict_get k d); auto using dict_wf_set. Qed.

Lemma dict_get_setdefault k k' v d :
  dict_get k (dict_setdefault k' v d) =
  if decide (k = k') then Some (default v (dict_get k d)) else dict_get k d.
Proof.
  unfold dict_setdefault. case_decide; subst.
  - destruct (dict_get k' d) eqn:E; simpl; [done|]. by rewrite dict_get_set_eq.
  - destruct (dict_get k' d) eqn:E; simpl; [done|]. by rewrite dict_get_set_ne.
Qed.

Lemma dict_pop_absent k d : dict_get k d = None -> dict_pop k d = d.
Proof. induction d as [|[k' v'] d IH]; simpl; [done|]. case_decide; intros; simplify_eq; f_equal; auto. Qed.

Lemma dict_has_spec k d : dict_has k d = true <-> k ∈ d.*1.
Proof.
  unfold dict_has. pose proof (dict_get_None k d). destruct (dict_get k d); split; try done.
  - intros _. destruct (decide (k ∈ d.*1)) as [|Hn]; [done|]. apply H in Hn. done.
  - intros. destruct H as [H _]. by destruct H.
Qed.

(** Mapping over the values keeps the keys and their order. *)
Lemma dict_map_keys {W} (f : V -> W) d : (prod_map id f <$> d).*1 = d.*1.
Proof. induction d as [|[k v] d IH]; simpl; f_equal; done. Qed.
End dict.

Lemma dict_get_map {K V W} `{EqDecision K} (f : V -> W) (d : dict K V) (k : K) :
  dict_get k (prod_map id f <$> d) = f <$> dict_get k d.
Proof. induction d as [|[k' v'] d IH]; simpl; [done|]. by case_decide. Qed.

(** The finite map a dictionary denotes, forgetting the order of its keys. *)
Definition dict_to_map {K V} `{Countable K} (d : dict K V) : gmap K V :=
  foldr (fun kv m => <[kv.1 := kv.2]> m) ∅ d.

Section dict_map.
Context {K V : Type} `{Countable K}.
Implicit Types (d : dict K V) (k : K) (v : V).

Lemma lookup_dict_to_map d k : dict_to_map d !! k = dict_get k d.
Proof.
  induction d as [|[k' v'] d IH]; simpl; [apply lookup_empty|].
  rewrite lookup_insert. repeat case_decide; congruence.
Qed.

Lemma dict_to_map_set k v d : dict_to_map (dict_set k v d) = <[k := v]> (dict_to_map d).
Proof.
  apply map_eq. intros i. rewrite lookup_dict_to_map, dict_get_set, lookup_insert, lookup_dict_to_map.
  repeat case_decide; congruence.
Qed.

Lemma dict_to_map_pop k d : dict_wf d -> dict_to_map (dict_pop k d) = delete k (dict_to_map d).
Proof.
  intros. apply map_eq. intros i.
  rewrite lookup_dict_to_map, dict_get_pop, lookup_delete, lookup_dict_to_map by done.
  repeat case_decide; congruence.
Qed.
End dict_map.

Lemma dict_to_map_fmap {K V W} `{Countable K} (f : V -> W) (d : dict K V) :
  dict_to_map (prod_map id f <$> d) = f <$> dict_to_map d.
Proof.
  apply map_eq. intros k. by rewrite lookup_fmap, !lookup_dict_to_map, dict_get_map.
Qed.

#[export] Hint Resolve elem_of_snoc elem_of_snoc_last : ctrader.
#[export] Hint Resolve dict_wf_nil dict_wf_set dict_wf_pop dict_wf_setdefault : ctrader.
#[export] Hint Rewrite @dict_get_set_eq @dict_to_map_set @lookup_dict_to_map : ctrader.
