(* ===== verification/Errors.v ===== *)
(** * The exceptions of the client ([exceptions.py])

    Every exception the library raises is a constructor of [exn], next to the
    built-in and third-party ones its code catches by name. [py_str] is what [str(e)]
    renders for each of the library's own. *)

From S2P Require Import Prelude.
From stdpp Require Import options.
Open Scope string_scope.
Open Scope Z_scope.

(** ** Rendering *)

(** [str(n)] of an [int]. *)
Definition str_int (n : Z) : string := pretty n.

(** [str(l)] of a list of [int]s: [[1, 2]]. *)
Definition str_int_list (l : list Z) : string :=
  "[" +:+ String.concat ", " (str_int <$> l) +:+ "]".

(** The digits of a fraction below one, [fuel] of them, without trailing zeros. *)
Fixpoint str_fraction (fuel : nat) (unit n : Z) : string :=
  match fuel with
  | O => ""
  | S fuel' =>
      if n =? 0 then ""
      else str_int (n / (unit / 10)) +:+ str_fraction fuel' (unit / 10) (n mod (unit / 10))
  end.

(** [str(s)] of a [float] number of seconds that is a whole number of microseconds:
    [30.0], [0.25]. (Python switches to an exponent below [1e-4] and from [1e16] on;
    no timeout is in either range.) *)
Definition str_seconds (s : seconds) : string :=
  let n := Z.abs s in
  (if s <? 0 then "-" else "") +:+ str_int (n / second) +:+ "." +:+
  (if n mod second =? 0 then "0" else str_fraction 6 second (n mod second)).

(** An [int] attribute that is shown only when it is truthy: [if x: ...]. *)
Definition int_truthy (x : option Z) : option Z :=
  match x with Some 0 => None | Some n => Some n | None => None end.

(** Likewise for a [str] attribute. *)
Definition str_truthy (x : option string) : option string :=
  match x with Some "" => None | Some s => Some s | None => None end.

(** [x or None] for a [str] and for an [int] field that is never [None]. *)
Definition str_or_None (s : string) : option string := str_truthy (Some s).
Definition int_or_None (n : Z) : option Z := int_truthy (Some n).

(** ** The attributes of an [APIError] *)
Record api_error := mk_api_error {
  error_code : string;
  description : option string;
  err_ctid_trader_account_id : option Z;
  err_maintenance_end_timestamp : option Z;
  err_retry_after : option Z;
}.

(** An [APIError] raised with only a code and a description. *)
Definition api_error_of (code : string) (desc : option string) : api_error :=
  mk_api_error code desc None None None.

(** ** Exceptions *)
Inductive exn :=
  (* connection *)
  | CTraderConnectionFailedError (host : string) (port : Z) (cause : option exn)
  | CTraderConnectionClosedError (reason : option string) (was_clean : bool)
  | CTraderConnectionTimeoutError (timeout_seconds : seconds) (operation : string)
  | CTraderReconnectAbandonedError (reason : string) (cause : option exn)
  (* authentication *)
  | ApplicationAuthError (code : string) (desc : option string)
  | AccountAuthError (code : string) (desc : option string) (account : option Z)
  | TokenExpiredError (account : option Z)
  | TokenRefreshError (account : option Z) (cause : option exn)
  | AccountNotFoundError (trader_login : Z) (available_logins : option (list Z))
  (* API and protocol *)
  | APIError (e : api_error)
  | FramingError (expected_bytes received_bytes : Z)
  | DeserializationError (payload_type : Z) (raw_data : list Byte.byte)
  | UnknownPayloadTypeError (payload_type : Z)
  (* Python *)
  | ValueError (msg : string)
  | RuntimeError (msg : string)
  | KeyError (msg : string)
  | OverflowError (msg : string)
  | StructError (msg : string)
  | TimeoutError
  | OSError (msg : string)
  (* anyio *)
  | EndOfStream
  | ClosedResourceError
  | BrokenResourceError
  (* any other [Exception], by its class and its [str] *)
  | OtherException (cls msg : string)
  (* the cancellation anyio raises, a [BaseException] *)
  | Cancelled.

(** What a call that does not suspend leaves: a value, or the exception it raised. *)
Inductive res (A : Type) :=
  | Ok (a : A)
  | Err (e : exn).
Arguments Ok {A} a.
Arguments Err {A} e.

#[export] Instance res_ret : MRet res := fun A a => Ok a.
#[export] Instance res_bind : MBind res := fun A B f m =>
  match m with Ok a => f a | Err e => Err e end.
#[export] Instance res_fmap : FMap res := fun A B f m =>
  match m with Ok a => Ok (f a) | Err e => Err e end.

(** A list comprehension whose element may raise: the first exception ends it. *)
Fixpoint res_map {A B} (f : A -> res B) (l : list A) : res (list B) :=
  match l with
  | [] => Ok []
  | a :: l' => b ← f a; bs ← res_map f l'; Ok (b :: bs)
  end.

(** [isinstance(e, Exception)]: everything but the cancellation. *)
Definition is_Exception (e : exn) : bool :=
  match e with Cancelled => false | _ => true end.

(** [isinstance(e, APIError)], with the attributes. *)
Definition as_APIError (e : exn) : option api_error :=
  match e with APIError a => Some a | _ => None end.

(** [isinstance(e, AuthenticationError)] *)
Definition is_AuthenticationError (e : exn) : bool :=
  match e with
  | ApplicationAuthError _ _ | AccountAuthError _ _ _ | TokenExpiredError _
  | TokenRefreshError _ _ | AccountNotFoundError _ _ => true
  | _ => false
  end.

(** [isinstance(e, CTraderConnectionError)] *)
Definition is_CTraderConnectionError (e : exn) : bool :=
  match e with
  | CTraderConnectionFailedError _ _ _ | CTraderConnectionClosedError _ _
  | CTraderConnectionTimeoutError _ _ | CTraderReconnectAbandonedError _ _ => true
  | _ => false
  end.

(** [isinstance(e, ProtocolError)] *)
Definition is_ProtocolError (e : exn) : bool :=
  match e with
  | FramingError _ _ | DeserializationError _ _ | UnknownPayloadTypeError _ => true
  | _ => false
  end.

(** [isinstance(e, CTraderError)] *)
Definition is_CTraderError (e : exn) : bool :=
  is_CTraderConnectionError e || is_AuthenticationError e || is_ProtocolError e ||
  match e with APIError _ => true | _ => false end.

(** The suffix [f" ({label}: {n})"] of an account-carrying message. *)
Definition account_suffix (label : string) (account : option Z) : string :=
  match int_truthy account with Some n => " (" +:+ label +:+ ": " +:+ str_int n +:+ ")" | None => "" end.

Definition description_suffix (desc : option string) : string :=
  match str_truthy desc with Some d => " - " +:+ d | None => "" end.

(** [str(e)] *)
Fixpoint py_str (e : exn) : string :=
  let caused (pre : string) (c : option exn) (post : string) :=
    match c with Some e' => pre +:+ py_str e' +:+ post | None => "" end in
  match e with
  | CTraderConnectionFailedError host port cause =>
      "Failed to connect to " +:+ host +:+ ":" +:+ str_int port +:+ caused ": " cause ""
  | CTraderConnectionClosedError reason was_clean =>
      "Connection closed" +:+ (if was_clean then " cleanly" else "") +:+
      match str_truthy reason with Some r => ": " +:+ r | None => "" end
  | CTraderConnectionTimeoutError t op =>
      op +:+ " timed out after " +:+ str_seconds t +:+ "s"
  | CTraderReconnectAbandonedError reason cause =>
      "Reconnection abandoned: " +:+ reason +:+ caused " (" cause ")"
  | ApplicationAuthError code desc =>
      "Application authentication failed: " +:+ code +:+ description_suffix desc
  | AccountAuthError code desc account =>
      "Account authentication failed: " +:+ code +:+ account_suffix "account" account +:+
      description_suffix desc
  | TokenExpiredError account =>
      "Access token has expired" +:+
      match int_truthy account with Some n => " for account " +:+ str_int n | None => "" end
  | TokenRefreshError account cause =>
      "Failed to refresh access token" +:+
      match int_truthy account with Some n => " for account " +:+ str_int n | None => "" end +:+
      caused ": " cause ""
  | AccountNotFoundError login logins =>
      "No account found with trader login " +:+ str_int login +:+
      match logins with
      | Some (_ :: _ as l) => ". Available logins: " +:+ str_int_list l
      | _ => ""
      end
  | APIError a =>
      "API error: " +:+ error_code a +:+
      account_suffix "account" (err_ctid_trader_account_id a) +:+ description_suffix (description a)
  | FramingError expected received =>
      "Framing error: expected " +:+ str_int expected +:+ " bytes, received " +:+ str_int received
  | DeserializationError pt raw =>
      "Failed to deserialize message with payload type " +:+ str_int pt +:+ " (" +:+
      str_int (Z.of_nat (length raw)) +:+ " bytes)"
  | UnknownPayloadTypeError pt => "Unknown payload type: " +:+ str_int pt
  | ValueError m | RuntimeError m | KeyError m | OverflowError m | StructError m | OSError m => m
  | OtherException _ m => m
  | TimeoutError | EndOfStream | ClosedResourceError | BrokenResourceError | Cancelled => ""
  end.

(** ** Reading the server's error codes *)

(** [_TOKEN_ERROR_CODES] *)
Definition TOKEN_ERROR_CODES : list string := ["OA_AUTH_TOKEN_EXPIRED"; "CH_ACCESS_TOKEN_INVALID"].

(** [APIError.is_token_failure] *)
Definition is_token_failure (e : api_error) : bool :=
  bool_decide (error_code e ∈ TOKEN_ERROR_CODES).

(** [APIError.is_rate_limited] *)
Definition is_rate_limited (e : api_error) : bool :=
  (error_code e =? "REQUEST_FREQUENCY_EXCEEDED")%string ||
  match err_retry_after e with Some _ => true | None => false end.

(** [APIError.is_maintenance] *)
Definition is_maintenance (e : api_error) : bool :=
  (error_code e =? "SERVER_IS_UNDER_MAINTENANCE")%string ||
  match err_maintenance_end_timestamp e with Some _ => true | None => false end.

(** [AccountAuthError.is_already_authorized], of its [error_code] *)
Definition is_already_authorized (code : string) : bool := (code =? "ALREADY_LOGGED_IN")%string.

(** The sentences of the documentation page on exceptions. *)
Example py_str_timeout :
  py_str (CTraderConnectionTimeoutError (30 * second) "request") = "request timed out after 30.0s".
Proof. reflexivity. Qed.

Example py_str_token :
  py_str (TokenRefreshError (Some 7) (Some (APIError (api_error_of "X" (Some "why"))))) =
  "Failed to refresh access token for account 7: API error: X - why".
Proof. reflexivity. Qed.

Lemma str_truthy_nonempty (o : option string) (s : string) :
  str_truthy o = Some s -> s ≠ "".
Proof. destruct o as [[|]|]; simpl; congruence. Qed.

(** The classes of the hierarchy are disjoint, and only the cancellation is not an
    [Exception]. *)
Lemma CTraderError_is_Exception (e : exn) : is_CTraderError e = true -> is_Exception e = true.
Proof. by destruct e. Qed.

(** A comprehension that returns has produced one element per source element, in order. *)
Lemma res_map_Ok {A B} (f : A -> res B) (l : list A) (bs : list B) :
  res_map f l = Ok bs <-> Forall2 (fun a b => f a = Ok b) l bs.
Proof.
  revert bs. induction l as [|a l IH]; intros bs; simpl.
  - split; [intros [= <-]; constructor|by inversion 1].
  - split.
    + destruct (f a) eqn:Ea; simpl; [|done]. destruct (res_map f l) eqn:El; simpl; [|done].
      intros [= <-]. constructor; [done|]. by apply IH.
    + inversion 1 as [|? b ? bs' Hb Hbs]; subst. rewrite Hb. simpl.
      apply IH in Hbs. by rewrite Hbs.
Qed.

(** One that raises has met an element that does. *)
Lemma res_map_Err {A B} (f : A -> res B) (l : list A) (e : exn) :
  res_map f l = Err e -> exists a, a ∈ l /\ f a = Err e.
Proof.
  induction l as [|a l IH]; [done|]. simpl. destruct (f a) as [b|x] eqn:Ha; simpl.
  - destruct (res_map f l); simpl; [done|]. intros H. destruct (IH H) as (a' & ? & ?). exists a'. split; [by right|done].
  - intros [= <-]. exists a. split; [by left|done].
Qed.

(** A comprehension that cannot raise is a plain [map]. *)
Lemma res_map_total {A B} (f : A -> res B) (g : A -> B) (l : list A) :
  (forall a, f a = Ok (g a)) -> res_map f l = Ok (g <$> l).
Proof. intros Hf. induction l as [|a l IH]; simpl; [done|]. by rewrite Hf; simpl; rewrite IH. Qed.

Lemma res_map_succeeds {A B} (f : A -> res B) (l : list A) :
  (forall a, exists b, f a = Ok b) -> exists bs, res_map f l = Ok bs.
Proof.
  intros Hf. induction l as [|a l [bs IH]]; simpl; [eauto|].
  destruct (Hf a) as [b ->]. simpl. rewrite IH. simpl. eauto.
Qed.
