(* ===== verification/Enums.v ===== *)
(** * Enumerations

    One module per [Enum] class of [enums.py], its members as constructors, so that
    [OrderSide.BUY] is written as in the source; then the numbers the generated
    [betterproto.Enum] classes give the members on the wire. A wire enum field is an
    [int]: [betterproto] keeps the number of a member it does not know. *)

From S2P Require Import Prelude.
From stdpp Require Import options.
Open Scope string_scope.
Open Scope Z_scope.

(** ** [enums.py] *)

Module AuthTrigger.
Inductive auth_trigger :=
  | INITIAL | RECONNECT | TOKEN_REFRESH | ACCOUNT_REAUTH.
#[global] Instance auth_trigger_eq_dec : EqDecision auth_trigger.
Proof. solve_decision. Defined.
End AuthTrigger.

Module ExecutionType.
Inductive execution_type :=
  | ORDER_ACCEPTED | ORDER_FILLED | ORDER_REPLACED | ORDER_CANCELLED | ORDER_EXPIRED
  | ORDER_REJECTED | ORDER_CANCEL_REJECTED | ORDER_PARTIAL_FILL | SWAP | DEPOSIT_WITHDRAW
  | BONUS_DEPOSIT_WITHDRAW.
#[global] Instance execution_type_eq_dec : EqDecision execution_type.
Proof. solve_decision. Defined.
End ExecutionType.

Module OrderSide.
Inductive order_side :=
  | BUY | SELL.
#[global] Instance order_side_eq_dec : EqDecision order_side.
Proof. solve_decision. Defined.
End OrderSide.

Module OrderType.
Inductive order_type :=
  | MARKET | LIMIT | STOP | STOP_LIMIT | MARKET_RANGE | STOP_LOSS_TAKE_PROFIT.
#[global] Instance order_type_eq_dec : EqDecision order_type.
Proof. solve_decision. Defined.
End OrderType.

Module OrderStatus.
Inductive order_status :=
  | ACCEPTED | FILLED | REJECTED | EXPIRED | CANCELLED.
#[global] Instance order_status_eq_dec : EqDecision order_status.
Proof. solve_decision. Defined.
End OrderStatus.

Module PositionStatus.
Inductive position_status :=
  | OPEN | CLOSED | CREATED | ERROR.
#[global] Instance position_status_eq_dec : EqDecision position_status.
Proof. solve_decision. Defined.
End PositionStatus.

Module TimeInForce.
Inductive time_in_force :=
  | GOOD_TILL_CANCEL | GOOD_TILL_DATE | IMMEDIATE_OR_CANCEL | FILL_OR_KILL | MARKET_ON_OPEN.
#[global] Instance time_in_force_eq_dec : EqDecision time_in_force.
Proof. solve_decision. Defined.
End TimeInForce.

Module DealStatus.
Inductive deal_status :=
  | FILLED | PARTIALLY_FILLED | REJECTED | INTERNALLY_REJECTED | ERROR | MISSED.
#[global] Instance deal_status_eq_dec : EqDecision deal_status.
Proof. solve_decision. Defined.
End DealStatus.

Module AccessRights.
Inductive access_rights :=
  | FULL_ACCESS | CLOSE_ONLY | NO_TRADING | NO_LOGIN.
#[global] Instance access_rights_eq_dec : EqDecision access_rights.
Proof. solve_decision. Defined.
End AccessRights.

Module AccountType.
Inductive account_type :=
  | HEDGED | NETTED | SPREAD_BETTING.
#[global] Instance account_type_eq_dec : EqDecision account_type.
Proof. solve_decision. Defined.
End AccountType.

Module TradingMode.
Inductive trading_mode :=
  | ENABLED | DISABLED_WITHOUT_PENDINGS_EXECUTION | DISABLED_WITH_PENDINGS_EXECUTION
  | CLOSE_ONLY.
#[global] Instance trading_mode_eq_dec : EqDecision trading_mode.
Proof. solve_decision. Defined.
End TradingMode.

Module TrendbarPeriod.
Inductive trendbar_period :=
  | M1 | M2 | M3 | M4 | M5 | M10 | M15 | M30 | H1 | H4 | H12 | D1 | W1 | MN1.
#[global] Instance trendbar_period_eq_dec : EqDecision trendbar_period.
Proof. solve_decision. Defined.
(** [period.name] *)
Definition period_name (p : trendbar_period) : string :=
  match p with
  | M1 => "M1" | M2 => "M2" | M3 => "M3" | M4 => "M4" | M5 => "M5" | M10 => "M10"
  | M15 => "M15" | M30 => "M30" | H1 => "H1" | H4 => "H4" | H12 => "H12" | D1 => "D1"
  | W1 => "W1" | MN1 => "MN1"
  end.
End TrendbarPeriod.

Module StopTriggerMethod.
Inductive stop_trigger_method :=
  | TRADE | OPPOSITE | DOUBLE_TRADE | DOUBLE_OPPOSITE.
#[global] Instance stop_trigger_method_eq_dec : EqDecision stop_trigger_method.
Proof. solve_decision. Defined.
End StopTriggerMethod.

(** ** The numbers on the wire ([_internal/proto/OpenApiModelMessages.py]) *)

Module ProtoOATradingMode.
Definition ENABLED : Z := 0.
Definition DISABLED_WITHOUT_PENDINGS_EXECUTION : Z := 1.
Definition DISABLED_WITH_PENDINGS_EXECUTION : Z := 2.
Definition CLOSE_ONLY_MODE : Z := 3.
End ProtoOATradingMode.

Module ProtoOAAccessRights.
Definition FULL_ACCESS : Z := 0.
Definition CLOSE_ONLY : Z := 1.
Definition NO_TRADING : Z := 2.
Definition NO_LOGIN : Z := 3.
End ProtoOAAccessRights.

Module ProtoOAAccountType.
Definition HEDGED : Z := 0.
Definition NETTED : Z := 1.
Definition SPREAD_BETTING : Z := 2.
End ProtoOAAccountType.

Module ProtoOAPositionStatus.
Definition POSITION_STATUS_OPEN : Z := 1.
Definition POSITION_STATUS_CLOSED : Z := 2.
Definition POSITION_STATUS_CREATED : Z := 3.
Definition POSITION_STATUS_ERROR : Z := 4.
End ProtoOAPositionStatus.

Module ProtoOATradeSide.
Definition BUY : Z := 1.
Definition SELL : Z := 2.
End ProtoOATradeSide.

Module ProtoOAOrderType.
Definition MARKET : Z := 1.
Definition LIMIT : Z := 2.
Definition STOP : Z := 3.
Definition STOP_LOSS_TAKE_PROFIT : Z := 4.
Definition MARKET_RANGE : Z := 5.
Definition STOP_LIMIT : Z := 6.
End ProtoOAOrderType.

Module ProtoOATimeInForce.
Definition GOOD_TILL_DATE : Z := 1.
Definition GOOD_TILL_CANCEL : Z := 2.
Definition IMMEDIATE_OR_CANCEL : Z := 3.
Definition FILL_OR_KILL : Z := 4.
Definition MARKET_ON_OPEN : Z := 5.
End ProtoOATimeInForce.

Module ProtoOAOrderStatus.
Definition ORDER_STATUS_ACCEPTED : Z := 1.
Definition ORDER_STATUS_FILLED : Z := 2.
Definition ORDER_STATUS_REJECTED : Z := 3.
Definition ORDER_STATUS_EXPIRED : Z := 4.
Definition ORDER_STATUS_CANCELLED : Z := 5.
End ProtoOAOrderStatus.

Module ProtoOAOrderTriggerMethod.
Definition TRADE : Z := 1.
Definition OPPOSITE : Z := 2.
Definition DOUBLE_TRADE : Z := 3.
Definition DOUBLE_OPPOSITE : Z := 4.
End ProtoOAOrderTriggerMethod.

Module ProtoOAExecutionType.
Definition ORDER_ACCEPTED : Z := 2.
Definition ORDER_FILLED : Z := 3.
Definition ORDER_REPLACED : Z := 4.
Definition ORDER_CANCELLED : Z := 5.
Definition ORDER_EXPIRED : Z := 6.
Definition ORDER_REJECTED : Z := 7.
Definition ORDER_CANCEL_REJECTED : Z := 8.
Definition SWAP : Z := 9.
Definition DEPOSIT_WITHDRAW : Z := 10.
Definition ORDER_PARTIAL_FILL : Z := 11.
Definition BONUS_DEPOSIT_WITHDRAW : Z := 12.
End ProtoOAExecutionType.

Module ProtoOADealStatus.
Definition FILLED : Z := 2.
Definition PARTIALLY_FILLED : Z := 3.
Definition REJECTED : Z := 4.
Definition INTERNALLY_REJECTED : Z := 5.
Definition ERROR : Z := 6.
Definition MISSED : Z := 7.
End ProtoOADealStatus.

Module ProtoOATrendbarPeriod.
Definition M1 : Z := 1.
Definition M2 : Z := 2.
Definition M3 : Z := 3.
Definition M4 : Z := 4.
Definition M5 : Z := 5.
Definition M10 : Z := 6.
Definition M15 : Z := 7.
Definition M30 : Z := 8.
Definition H1 : Z := 9.
Definition H4 : Z := 10.
Definition H12 : Z := 11.
Definition D1 : Z := 12.
Definition W1 : Z := 13.
Definition MN1 : Z := 14.
End ProtoOATrendbarPeriod.

Module ProtoOAQuoteType.
Definition BID : Z := 1.
Definition ASK : Z := 2.
End ProtoOAQuoteType.
