(* ===== verification/Numbers.v ===== *)
(** * Numbers: [decimal.Decimal], [float] and the conversions of [_internal/conversions.py]

    Prices travel as [double]s or as integers scaled by [100000], money as integers
    scaled by [10 ** money_digits]; the models hold [Decimal]s. A [Decimal] is kept as
    Python keeps it, a coefficient and an exponent (the sign is the coefficient's;
    negative zero is not told apart), and arithmetic rounds to the default context's
    28 digits, half to even. The exponent is not bounded here; the default context's is, by
    [EMAX] either way, and the theorems about money stay within it. A [double] is [SpecFloat]'s [spec_float] at 53/1024. *)

From Stdlib Require Import SpecFloat.
From S2P Require Import Prelude Errors.
From stdpp Require Import options.
Open Scope string_scope.
Open Scope Z_scope.

(** ** Decimals *)
Inductive decimal :=
  | Dec (coef exp : Z)
  | DecInf (neg : bool)
  | DecNaN.

#[export] Instance decimal_eq_dec : EqDecision decimal.
Proof. solve_decision. Defined.

(** [Decimal(n)] of an [int]. *)
Definition Decimal_int (n : Z) : decimal := Dec n 0.

(** [bool(d)] *)
Definition dec_truthy (d : decimal) : bool :=
  match d with Dec c _ => negb (c =? 0) | _ => true end.

(** [d > 0] *)
Definition dec_pos (d : decimal) : bool :=
  match d with Dec c _ => 0 <? c | DecInf neg => negb neg | DecNaN => false end.

(** Numeric equality: the same rational, whatever the exponent it is written at. *)
Definition dec_eqv (a b : decimal) : Prop :=
  match a, b with
  | Dec c1 e1, Dec c2 e2 =>
      let m := Z.min e1 e2 in c1 * 10 ^ (e1 - m) = c2 * 10 ^ (e2 - m)
  | DecInf n1, DecInf n2 => n1 = n2
  | _, _ => False
  end.

(** How many decimal digits a positive integer has (one for zero). *)
Fixpoint ndigits_aux (fuel : nat) (n : Z) : Z :=
  match fuel with
  | O => 1
  | S fuel' => if n <? 10 then 1 else 1 + ndigits_aux fuel' (n / 10)
  end.

Definition ndigits (n : Z) : Z := ndigits_aux (Z.to_nat (Z.log2 n)) n.

(** [n / d] rounded to an integer, half to even ([0 < d]). *)
Definition round_half_even (n d : Z) : Z :=
  let q := n / d in
  let r := n mod d in
  match 2 * r ?= d with
  | Lt => q
  | Gt => q + 1
  | Eq => if Z.even q then q else q + 1
  end.

(** The default context's precision, and the bound of its exponents. *)
Definition PREC : Z := 28.
Definition EMAX : Z := 999999.

(** [d._fix(context)]: round the coefficient to the precision. *)
Definition dec_fix (neg : bool) (c e : Z) : decimal :=
  let sgn := if neg then -1 else 1 in
  let drop := ndigits c - PREC in
  if drop <=? 0 then Dec (sgn * c) e
  else
    let c' := round_half_even c (10 ^ drop) in
    if ndigits c' <=? PREC then Dec (sgn * c') (e + drop)
    else Dec (sgn * (c' / 10)) (e + drop + 1).

(** The loop of the division that moves an exact quotient towards its ideal exponent. *)
Fixpoint strip_zeros (fuel : nat) (c e ideal : Z) : Z * Z :=
  match fuel with
  | O => (c, e)
  | S fuel' =>
      if (e <? ideal) && (c mod 10 =? 0) then strip_zeros fuel' (c / 10) (e + 1) ideal else (c, e)
  end.

(** [a / b] *)
Definition dec_div (a b : decimal) : res decimal :=
  match a, b with
  | Dec c1 e1, Dec c2 e2 =>
      if c2 =? 0 then
        Err (OtherException (if c1 =? 0 then "InvalidOperation" else "DivisionByZero") "")
      else if c1 =? 0 then Ok (Dec 0 (e1 - e2))
      else
        let neg := xorb (c1 <? 0) (c2 <? 0) in
        let i1 := Z.abs c1 in
        let i2 := Z.abs c2 in
        let shift := ndigits i2 - ndigits i1 + PREC + 1 in
        let exp := e1 - e2 - shift in
        let num := if 0 <=? shift then i1 * 10 ^ shift else i1 in
        let den := if 0 <=? shift then i2 else i2 * 10 ^ (- shift) in
        let coeff := num / den in
        let rem := num mod den in
        if rem =? 0 then
          let '(c, e) := strip_zeros (Z.to_nat (e1 - e2 - exp)) coeff exp (e1 - e2) in
          Ok (dec_fix neg c e)
        else Ok (dec_fix neg (if coeff mod 5 =? 0 then coeff + 1 else coeff) exp)
  | DecNaN, _ | _, DecNaN => Ok DecNaN
  | DecInf _, DecInf _ => Err (OtherException "InvalidOperation" "")
  | DecInf s, Dec c _ => Ok (DecInf (xorb s (c <? 0)))
  | Dec _ _, DecInf _ => Ok (Dec 0 0)
  end.

(** [a * n] by an [int]. *)
Definition dec_mul_int (a : decimal) (n : Z) : res decimal :=
  match a with
  | Dec c e => Ok (dec_fix (c * n <? 0) (Z.abs (c * n)) e)
  | DecInf s =>
      if n =? 0 then Err (OtherException "InvalidOperation" "") else Ok (DecInf (xorb s (n <? 0)))
  | DecNaN => Ok DecNaN
  end.

(** [int(d)]: truncation towards zero. *)
Definition dec_to_int (d : decimal) : res Z :=
  match d with
  | Dec c e => Ok (if 0 <=? e then c * 10 ^ e else Z.quot c (10 ^ (- e)))
  | DecInf _ => Err (OverflowError "cannot convert Infinity to integer")
  | DecNaN => Err (ValueError "cannot convert NaN to integer")
  end.

(** [Decimal(10) ** (-digits)] *)
Definition dec_pow10_neg (digits : Z) : decimal :=
  if 0 <=? digits then Dec 1 (- digits) else Dec (10 ^ (- digits)) 0.

(** [d.quantize(exp)]: [d] written at the exponent of [exp]. *)
Definition dec_quantize (d e : decimal) : res decimal :=
  match d, e with
  | Dec c1 e1, Dec _ e2 =>
      let c :=
        if e2 <=? e1 then Z.abs c1 * 10 ^ (e1 - e2) else round_half_even (Z.abs c1) (10 ^ (e2 - e1)) in
      if PREC <? ndigits c then Err (OtherException "InvalidOperation" "")
      else Ok (Dec (Z.sgn c1 * c) e2)
  | DecNaN, _ | _, DecNaN => Ok DecNaN
  | DecInf s, DecInf _ => Ok (DecInf s)
  | _, _ => Err (OtherException "InvalidOperation" "")
  end.

(** ** Doubles *)
Abbreviation double := spec_float.

Definition f53 : Z := 53.
Definition f1024 : Z := 1024.

(** [0.0] *)
Definition float_zero : double := S754_zero false.

(** [bool(x)]: only the zeros are falsy. *)
Definition float_truthy (x : double) : bool :=
  match x with S754_zero _ => false | _ => true end.

(** The double nearest to [num / den], ties to even ([0 < num], [0 < den]). *)
Definition float_of_ratio (neg : bool) (num den : Z) : double :=
  let '(m, e, l) := SFdiv_core_binary f53 f1024 num 0 den 0 in
  binary_round_aux f53 f1024 neg m e l.

(** [n / d] of two [int]s, a correctly rounded [float] ([0 < d]). *)
Definition float_of_int_ratio (n d : Z) : double :=
  if n =? 0 then float_zero else float_of_ratio (n <? 0) (Z.abs n) d.

(** [int(x)] of a finite double. *)
Definition float_trunc (x : double) : Z :=
  match x with
  | S754_finite neg m e =>
      (if neg then -1 else 1) * (if 0 <=? e then Z.pos m * 2 ^ e else Z.pos m / 2 ^ (- e))
  | _ => 0
  end.

(** The nearest integer to a finite double, half to even. *)
Definition float_round (x : double) : Z :=
  match x with
  | S754_finite neg m e =>
      (if neg then -1 else 1) *
      (if 0 <=? e then Z.pos m * 2 ^ e else round_half_even (Z.pos m) (2 ^ (- e)))
  | _ => 0
  end.

(** [float(d)] *)
Definition float_of_decimal (d : decimal) : double :=
  match d with
  | Dec c e =>
      if c =? 0 then float_zero
      else if 0 <=? e then float_of_ratio (c <? 0) (Z.abs c * 10 ^ e) 1
      else float_of_ratio (c <? 0) (Z.abs c) (10 ^ (- e))
  | DecInf neg => S754_infinity neg
  | DecNaN => S754_nan
  end.

(** The least [d] with [num / den < 10 ^ d]. *)
Definition decimal_point (num den : Z) : Z :=
  if den <=? num then ndigits (num / den)
  else
    let t := ndigits (den / num) in
    if num * 10 ^ (t - 1) <? den then 1 - t else 2 - t.

(** The shortest decimal that reads back as the double [num / den]: the digits [repr]
    prints, from [n] digits up. Of two candidates of one length the nearer is taken. *)
Fixpoint shortest_digits (fuel : nat) (num den n : Z) : Z * Z :=
  match fuel with
  | O => (num, 0)
  | S fuel' =>
      let scale := n - decimal_point num den in
      let up := if 0 <=? scale then num * 10 ^ scale else num in
      let dn := if 0 <=? scale then den else den * 10 ^ (- scale) in
      let lo := up / dn in
      let x := float_of_ratio false num den in
      let reads c := 
        match SFcompare (float_of_decimal (Dec c (- scale))) x with Some Eq => true | _ => false end in
      let lo_ok := reads lo in
      let hi_ok := reads (lo + 1) in
      if lo_ok && (negb hi_ok || (2 * (up mod dn) <=? dn)) then (lo, - scale)
      else if hi_ok then (lo + 1, - scale)
      else shortest_digits fuel' num den (n + 1)
  end.

(** [Decimal(str(x))] *)
Definition decimal_of_float (x : double) : decimal :=
  match x with
  | S754_zero _ => Dec 0 (-1)
  | S754_infinity neg => DecInf neg
  | S754_nan => DecNaN
  | S754_finite neg m e =>
      let num := if 0 <=? e then Z.pos m * 2 ^ e else Z.pos m in
      let den := if 0 <=? e then 1 else 2 ^ (- e) in
      let '(c, e10) := shortest_digits 17 num den 1 in
      let c := if neg then - c else c in
      (* [str] writes the digits out, with a final [.0], up to sixteen places *)
      if (0 <=? e10) && (ndigits (Z.abs c) + e10 <=? 16) then Dec (c * 10 ^ (e10 + 1)) (-1)
      else Dec c e10
  end.

(** ** [_internal/conversions.py] *)

Definition DEFAULT_MONEY_DIGITS : Z := 2.

(** [money_digits or DEFAULT_MONEY_DIGITS] *)
Definition money_digits_or_default (money_digits : Z) : Z :=
  if money_digits =? 0 then DEFAULT_MONEY_DIGITS else money_digits.

Definition money_divisor (money_digits : Z) : Z := 10 ^ money_digits_or_default money_digits.

(** An aware UTC [datetime], by its microseconds since the epoch. *)
Record datetime := mk_datetime { epoch_us : Z }.

#[export] Instance datetime_eq_dec : EqDecision datetime.
Proof. solve_decision. Defined.

(** The first and the last microsecond of [datetime]'s years, [1] to [9999]. *)
Definition DATETIME_MIN : Z := -62135596800000000.
Definition DATETIME_MAX : Z := 253402300799999999.

Definition datetime_in_range (us : Z) : bool := (DATETIME_MIN <=? us) && (us <=? DATETIME_MAX).

(** The year, in the Gregorian calendar of [gmtime], of a number of seconds since the epoch. *)
Definition year_of (seconds : Z) : Z :=
  let days := seconds / 86400 + 719468 in
  let era := days / 146097 in
  let doe := days mod 146097 in
  let yoe := (doe - doe / 1460 + doe / 36524 - doe / 146096) / 365 in
  let doy := doe - (365 * yoe + yoe / 4 - yoe / 100) in
  yoe + era * 400 + (if (5 * doy + 2) / 153 <? 10 then 0 else 1).

(** What [fromtimestamp] raises for seconds out of range, by the first of the platform's
    steps that fails: [time_t], the [int] of [tm_year], the years of [datetime]. *)
Definition fromtimestamp_error (seconds : Z) : exn :=
  if negb ((- 2 ^ 63 <=? seconds) && (seconds <? 2 ^ 63))
  then OverflowError "timestamp out of range for platform time_t"
  else
    let year := year_of seconds in
    if negb ((- 2 ^ 31 <=? year - 1900) && (year - 1900 <? 2 ^ 31))
    then OSError "Value too large for defined data type"
    else ValueError ("year " +:+ str_int year +:+ " is out of range").

Definition datetime_at (us : Z) : res datetime :=
  if datetime_in_range us then Ok (mk_datetime us) else Err (fromtimestamp_error (us / 1000000)).

(** [datetime.fromtimestamp(n, tz=UTC)] of an [int] number of seconds. *)
Definition datetime_of_int_seconds (n : Z) : res datetime := datetime_at (n * 1000000).

(** [datetime.fromtimestamp(x, tz=UTC)] of a [float]: the integral part is kept, the
    fractional part is scaled by [1e6] in doubles and rounded half to even. *)
Definition datetime_of_float (x : double) : res datetime :=
  match x with
  | S754_zero _ => datetime_at 0
  | S754_finite neg m e =>
      let den := 2 ^ (- Z.min e 0) in
      let num := Z.pos m * 2 ^ (Z.max e 0) in
      let frac := float_of_ratio false (num mod den) den in
      let us := if num mod den =? 0 then 0
                else float_round (SFmul f53 f1024 frac (float_of_ratio false 1000000 1)) in
      datetime_at ((if neg then -1 else 1) * (num / den * 1000000 + us))
  | S754_infinity _ => Err (OverflowError "integer division result too large for a float")
  | S754_nan => Err (ValueError "Invalid value NaN (not a number)")
  end.

(** [timestamp_to_datetime]: it raises outside the years of [datetime]. *)
Definition timestamp_to_datetime (timestamp_ms : Z) : res datetime :=
  datetime_of_float (float_of_int_ratio timestamp_ms 1000).

(** [dt.timestamp()] of an aware datetime. *)
Definition datetime_timestamp (dt : datetime) : double := float_of_int_ratio (epoch_us dt) 1000000.

(** [int(dt.timestamp() * 1000)], the milliseconds a request carries. *)
Definition datetime_to_ms (dt : datetime) : Z :=
  float_trunc (SFmul f53 f1024 (datetime_timestamp dt) (float_of_ratio false 1000 1)).

(** [Decimal(n) / divisor] for the integer divisors of the models, none of them zero. *)
Definition scaled (n divisor : Z) : decimal :=
  match dec_div (Decimal_int n) (Decimal_int divisor) with Ok d => d | Err _ => DecNaN end.

(** The scale of prices and ticks. *)
Definition PRICE_SCALE : Z := 100000.

Example decimal_of_float_half : decimal_of_float (float_of_decimal (Dec 5 (-1))) = Dec 5 (-1).
Proof. vm_compute. reflexivity. Qed.
Example decimal_of_float_price : decimal_of_float (float_of_decimal (Dec 108765 (-5))) = Dec 108765 (-5).
Proof. vm_compute. reflexivity. Qed.
Example decimal_of_float_hundred : decimal_of_float (float_of_decimal (Dec 100 0)) = Dec 1000 (-1).
Proof. vm_compute. reflexivity. Qed.
Example decimal_of_float_big : decimal_of_float (float_of_decimal (Dec 1 22)) = Dec 1 22.
Proof. vm_compute. reflexivity. Qed.
Example decimal_of_float_third :
  decimal_of_float (float_of_ratio false 1 3) = Dec 3333333333333333 (-16).
Proof. vm_compute. reflexivity. Qed.
Example decimal_of_float_sum :
  decimal_of_float (float_of_decimal (Dec 30000000000000004 (-17))) = Dec 30000000000000004 (-17).
Proof. vm_compute. reflexivity. Qed.
Example datetime_2024 : timestamp_to_datetime 1717171717123 = Ok (mk_datetime 1717171717123000).
Proof. vm_compute. reflexivity. Qed.
Example datetime_last : timestamp_to_datetime 253402300799000 = Ok (mk_datetime 253402300799000000).
Proof. vm_compute. reflexivity. Qed.
Example datetime_too_late : timestamp_to_datetime 253402300800000 = Err (ValueError "year 10000 is out of range").
Proof. vm_compute. reflexivity. Qed.
Example datetime_too_early : timestamp_to_datetime (-62135596800001) = Err (ValueError "year 0 is out of range").
Proof. vm_compute. reflexivity. Qed.
Example datetime_int64_max :
  timestamp_to_datetime (2 ^ 63 - 1) = Err (ValueError "year 292278994 is out of range").
Proof. vm_compute. reflexivity. Qed.
Example datetime_huge : datetime_of_int_seconds (2 ^ 62) = Err (OSError "Value too large for defined data type").
Proof. vm_compute. reflexivity. Qed.
Example datetime_ms_2024 : datetime_to_ms (mk_datetime 1717171717123000) = 1717171717123.
Proof. vm_compute. reflexivity. Qed.

(** What the conversions raise is an [Exception]. *)
Lemma datetime_at_Exception (us : Z) (x : exn) : datetime_at us = Err x -> is_Exception x = true.
Proof.
  unfold datetime_at, fromtimestamp_error. case_match; [done|]. intros [= <-]. by repeat case_match.
Qed.

Lemma datetime_of_float_Exception (f : double) (x : exn) : datetime_of_float f = Err x -> is_Exception x = true.
Proof. destruct f; cbn -[Z.mul Z.pow]; try (by intros [= <-]); apply datetime_at_Exception. Qed.

(** ** Digits *)

Lemma ndigits_aux_bounds (fuel : nat) (n : Z) :
  0 < n < 10 ^ (Z.of_nat fuel + 1) ->
  0 < ndigits_aux fuel n /\ 10 ^ (ndigits_aux fuel n - 1) <= n < 10 ^ ndigits_aux fuel n.
Proof.
  revert n. induction fuel as [|fuel IH]; intros n Hn; simpl.
  - change (10 ^ (0 + 1)) with 10 in Hn. change (10 ^ (1 - 1)) with 1. lia.
  - destruct (Z.ltb_spec n 10) as [Hlt|Hge].
    + change (10 ^ (1 - 1)) with 1. lia.
    + replace (Z.of_nat (S fuel) + 1) with (Z.succ (Z.of_nat fuel + 1)) in Hn by lia.
      rewrite Z.pow_succ_r in Hn by lia.
      assert (Hq : 0 < n / 10 < 10 ^ (Z.of_nat fuel + 1)).
      { split; [apply Z.div_str_pos; lia|apply Z.div_lt_upper_bound; lia]. }
      destruct (IH _ Hq) as (Hpos & Hlo & Hhi).
      set (d := ndigits_aux fuel (n / 10)) in *.
      replace (1 + d - 1) with (Z.succ (d - 1)) by lia. replace (1 + d) with (Z.succ d) by lia.
      rewrite !Z.pow_succ_r by lia. pose proof (Z.div_mod n 10). pose proof (Z.mod_pos_bound n 10).
      lia.
Qed.

(** [ndigits n] is the number of decimal digits of [n]. *)
Lemma ndigits_bounds (n : Z) :
  0 < n -> 0 < ndigits n /\ 10 ^ (ndigits n - 1) <= n < 10 ^ ndigits n.
Proof.
  intros Hn. apply ndigits_aux_bounds. split; [done|].
  pose proof (Z.log2_nonneg n). rewrite Z2Nat.id by done.
  apply Z.lt_le_trans with (2 ^ (Z.log2 n + 1)).
  - apply Z.log2_lt_pow2; lia.
  - apply Z.pow_le_mono_l. lia.
Qed.

Lemma ndigits_le (n k : Z) : 0 < n < 10 ^ k -> ndigits n <= k.
Proof.
  intros Hn. destruct (ndigits_bounds n) as (Hpos & Hlo & _); [lia|].
  destruct (Z.le_gt_cases (ndigits n) k); [done|].
  assert (10 ^ k <= 10 ^ (ndigits n - 1)) by (apply Z.pow_le_mono_r; lia). lia.
Qed.

Lemma ndigits_pow10 (k : Z) : 0 <= k -> ndigits (10 ^ k) = k + 1.
Proof.
  intros Hk. assert (0 < 10 ^ k) by (apply Z.pow_pos_nonneg; lia).
  destruct (ndigits_bounds (10 ^ k)) as (Hpos & Hlo & Hhi); [done|].
  apply Z.pow_lt_mono_r_iff in Hhi; [|lia..]. apply Z.pow_le_mono_r_iff in Hlo; lia.
Qed.

(** ** Division by a power of ten *)

(** The loop keeps the number and stops at the ideal exponent or at a nonzero digit. *)
Lemma strip_zeros_spec (fuel : nat) (c e ideal c' e' : Z) :
  e <= ideal -> ideal - e <= Z.of_nat fuel ->
  strip_zeros fuel c e ideal = (c', e') ->
  c = c' * 10 ^ (e' - e) /\ e <= e' <= ideal /\ (e' = ideal \/ c' mod 10 ≠ 0).
Proof.
  assert (Hstay : forall c0 e0 : Z, c0 = c0 * 10 ^ (e0 - e0)).
  { intros c0 e0. rewrite Z.sub_diag, Z.pow_0_r. lia. }
  revert c e. induction fuel as [|fuel IH]; intros c e He Hfuel; simpl.
  - intros [= <- <-]. split; [apply Hstay|lia].
  - destruct (Z.ltb_spec e ideal) as [Hlt|]; simpl; [|intros [= <- <-]; split; [apply Hstay|split; [lia|left; lia]]].
    destruct (Z.eqb_spec (c mod 10) 0) as [H0|H0];
      [|intros [= <- <-]; split; [apply Hstay|split; [lia|by right]]].
    intros (Hc & He' & Hstop)%IH; [|lia..].
    split_and!; [|lia|lia|done].
    replace (e' - e) with (Z.succ (e' - (e + 1))) by lia.
    rewrite Z.pow_succ_r by lia. rewrite (Z.div_mod c 10) at 1 by lia. rewrite H0, Hc. lia.
Qed.

(** Stripping an exact quotient [i * 10 ^ s] undoes the scaling at least. *)
Lemma strip_zeros_le (i s c' e' e ideal : Z) :
  0 < i -> 0 <= s -> e + s <= ideal ->
  i * 10 ^ s = c' * 10 ^ (e' - e) -> e <= e' <= ideal -> (e' = ideal \/ c' mod 10 ≠ 0) ->
  e + s <= e' /\ 0 < c' <= i.
Proof.
  intros Hi Hs Hideal Heq He' Hstop.
  assert (0 < 10 ^ s) by (apply Z.pow_pos_nonneg; lia).
  assert (0 < 10 ^ (e' - e)) by (apply Z.pow_pos_nonneg; lia).
  assert (Hge : e + s <= e').
  { destruct Hstop as [->|Hmod]; [lia|]. destruct (Z.le_gt_cases (e + s) e'); [done|].
    exfalso. apply Hmod. replace s with ((e' - e) + Z.succ (e + s - e' - 1)) in Heq by lia.
    rewrite Z.pow_add_r, Z.pow_succ_r in Heq by lia.
    assert (c' = i * 10 ^ (e + s - e' - 1) * 10) as -> by nia.
    apply Z_mod_mult. }
  split; [done|].
  replace (e' - e) with (s + (e' - e - s)) in Heq by lia. rewrite Z.pow_add_r in Heq by lia.
  assert (0 < 10 ^ (e' - e - s)) by (apply Z.pow_pos_nonneg; lia).
  assert (i = c' * 10 ^ (e' - e - s)) as -> by (apply (Z.mul_cancel_r _ _ (10 ^ s)); lia).
  nia.
Qed.

Lemma dec_fix_id (neg : bool) (c e : Z) :
  0 < c < 10 ^ PREC -> dec_fix neg c e = Dec ((if neg then -1 else 1) * c) e.
Proof.
  intros Hc. unfold dec_fix. pose proof (ndigits_le c PREC Hc).
  by destruct (Z.leb_spec (ndigits c - PREC) 0); [|lia].
Qed.

(** Scaling an integer of up to 28 digits down by a power of ten is exact. *)
Lemma scaled_exact (n k : Z) :
  Z.abs n < 10 ^ PREC -> 0 <= k -> dec_eqv (scaled n (10 ^ k)) (Dec n (- k)).
Proof.
  intros Hn Hk. assert (Hp : 0 < 10 ^ k) by (apply Z.pow_pos_nonneg; lia).
  unfold scaled, dec_div, Decimal_int.
  destruct (Z.eqb_spec (10 ^ k) 0); [lia|].
  destruct (Z.eqb_spec n 0) as [->|Hn0]; [simpl; lia|].
  rewrite (Z.abs_eq (10 ^ k)) by lia. rewrite ndigits_pow10 by done.
  set (i := Z.abs n). assert (Hi : 0 < i < 10 ^ PREC) by lia.
  pose proof (ndigits_le i PREC Hi) as Hd.
  set (shift := k + 1 - ndigits i + PREC + 1).
  assert (Hshift : k < shift) by lia.
  destruct (Z.leb_spec 0 shift); [|lia].
  assert (Hnum : i * 10 ^ shift = i * 10 ^ (shift - k) * 10 ^ k).
  { rewrite <- Z.mul_assoc, <- Z.pow_add_r by lia. f_equal. f_equal. lia. }
  rewrite Hnum, Z.mod_mul, Z.div_mul by lia. simpl (0 =? 0).
  destruct (strip_zeros _ _ _ _) as [c e] eqn:E.
  apply strip_zeros_spec in E as (Hc & He & Hstop); [|lia..].
  destruct (strip_zeros_le i (shift - k) c e (0 - 0 - shift) (0 - 0)) as [He2 Hle];
    [lia..|done|done|].
  rewrite dec_fix_id by lia. unfold dec_eqv.
  replace (Z.min e (- k)) with (- k) by lia. replace (- k - - k) with 0 by lia.
  rewrite Z.pow_0_r, Z.mul_1_r.
  replace (e - (0 - 0 - shift)) with ((shift - k) + (e - - k)) in Hc by lia.
  rewrite Z.pow_add_r in Hc by lia.
  assert (0 < 10 ^ (shift - k)) by (apply Z.pow_pos_nonneg; lia).
  assert (i = c * 10 ^ (e - - k)) by nia.
  destruct (Z.ltb_spec n 0), (Z.ltb_spec (10 ^ k) 0); simpl; lia.
Qed.

(** ** Numeric equality *)

Lemma dec_eqv_at (m c1 e1 c2 e2 : Z) :
  m <= e1 -> m <= e2 -> dec_eqv (Dec c1 e1) (Dec c2 e2) <-> c1 * 10 ^ (e1 - m) = c2 * 10 ^ (e2 - m).
Proof.
  intros H1 H2. simpl. set (m' := Z.min e1 e2).
  assert (0 < 10 ^ (m' - m)) by (apply Z.pow_pos_nonneg; lia).
  replace (e1 - m) with ((e1 - m') + (m' - m)) by lia.
  replace (e2 - m) with ((e2 - m') + (m' - m)) by lia.
  rewrite !Z.pow_add_r, !Z.mul_assoc by lia. split; intros Heq; nia.
Qed.

Lemma dec_eqv_elim (m c1 e1 c2 e2 : Z) :
  m <= e1 -> m <= e2 -> dec_eqv (Dec c1 e1) (Dec c2 e2) -> c1 * 10 ^ (e1 - m) = c2 * 10 ^ (e2 - m).
Proof. intros. by apply dec_eqv_at. Qed.

#[export] Instance dec_eqv_symmetric : Symmetric dec_eqv.
Proof. intros [c1 e1|?|] [c2 e2|?|]; simpl; try done. intros Heq. by rewrite Z.min_comm. Qed.

#[export] Instance dec_eqv_transitive : Transitive dec_eqv.
Proof.
  intros [c1 e1|?|] [c2 e2|?|] [c3 e3|?|]; try (simpl; intros; by simplify_eq).
  set (m := Z.min e1 (Z.min e2 e3)).
  rewrite (dec_eqv_at m c1), (dec_eqv_at m c2), (dec_eqv_at m c1) by lia. congruence.
Qed.

Lemma dec_eqv_refl (c e : Z) : dec_eqv (Dec c e) (Dec c e).
Proof. done. Qed.

Lemma dec_to_int_at (m c e : Z) :
  m <= e -> m <= 0 -> dec_to_int (Dec c e) = Ok (Z.quot (c * 10 ^ (e - m)) (10 ^ (- m))).
Proof.
  intros He Hm. simpl. f_equal.
  assert (0 < 10 ^ (- m)) by (apply Z.pow_pos_nonneg; lia).
  destruct (Z.leb_spec 0 e).
  - replace (e - m) with (e + - m) by lia. rewrite Z.pow_add_r, Z.mul_assoc, Z.quot_mul by lia. done.
  - assert (0 < 10 ^ (e - m)) by (apply Z.pow_pos_nonneg; lia).
    assert (0 < 10 ^ (- e)) by (apply Z.pow_pos_nonneg; lia).
    replace (- m) with (- e + (e - m)) by lia. rewrite Z.pow_add_r by lia.
    by rewrite Z.quot_mul_cancel_r by lia.
Qed.

(** [int(d)] sees only the number, not how it is written. *)
#[export] Instance dec_to_int_proper : Proper (dec_eqv ==> eq) dec_to_int.
Proof.
  intros [c1 e1|n1|] [c2 e2|n2|] H; try done.
  set (m := Z.min 0 (Z.min e1 e2)). apply (dec_eqv_elim m) in H; [|lia..].
  rewrite (dec_to_int_at m c1 e1), (dec_to_int_at m c2 e2) by lia. by rewrite H.
Qed.

#[export] Instance dec_pos_proper : Proper (dec_eqv ==> eq) dec_pos.
Proof.
  intros [c1 e1|n1|] [c2 e2|n2|] H; simpl in *; try done; [|by subst].
  set (m := Z.min e1 e2) in *.
  assert (0 < 10 ^ (e1 - m)) by (apply Z.pow_pos_nonneg; lia).
  assert (0 < 10 ^ (e2 - m)) by (apply Z.pow_pos_nonneg; lia).
  destruct (Z.ltb_spec 0 c1), (Z.ltb_spec 0 c2); nia.
Qed.

Lemma round_half_even_exact (q d : Z) : 0 < d -> round_half_even (q * d) d = q.
Proof.
  intros. unfold round_half_even. rewrite Z.mod_mul, Z.div_mul by lia. by destruct d.
Qed.

(** Rounding to the context leaves a number of up to 28 significant digits alone. *)
Lemma dec_fix_exact (neg : bool) (c0 j e : Z) :
  0 < c0 < 10 ^ PREC -> 0 <= j ->
  dec_eqv (dec_fix neg (c0 * 10 ^ j) e) (Dec ((if neg then -1 else 1) * (c0 * 10 ^ j)) e).
Proof.
  intros Hc0 Hj. assert (Hp : 0 < 10 ^ j) by (apply Z.pow_pos_nonneg; lia). unfold dec_fix.
  set (c := c0 * 10 ^ j). assert (Hc : 0 < c) by (unfold c; nia).
  set (drop := ndigits c - PREC). destruct (Z.leb_spec drop 0); [apply dec_eqv_refl|].
  assert (Hd : drop <= j).
  { assert (ndigits c <= PREC + j); [|unfold drop; lia].
    apply ndigits_le. split; [done|]. rewrite Z.pow_add_r by (unfold PREC; lia). unfold c. nia. }
  assert (0 < 10 ^ drop) by (apply Z.pow_pos_nonneg; lia).
  assert (0 < 10 ^ (j - drop)) by (apply Z.pow_pos_nonneg; lia).
  assert (Hq : c = c0 * 10 ^ (j - drop) * 10 ^ drop).
  { unfold c. rewrite <- Z.mul_assoc, <- Z.pow_add_r by lia. do 2 f_equal. lia. }
  rewrite Hq, round_half_even_exact by done.
  assert (Hn : ndigits (c0 * 10 ^ (j - drop)) <= PREC).
  { apply ndigits_le. split; [nia|]. destruct (ndigits_bounds c Hc) as (_ & _ & Hhi).
    replace (ndigits c) with (PREC + drop) in Hhi by (unfold drop; lia).
    rewrite Z.pow_add_r in Hhi by (unfold PREC; lia). nia. }
  destruct (Z.leb_spec (ndigits (c0 * 10 ^ (j - drop))) PREC); [|lia].
  apply (dec_eqv_at e); [lia|lia|]. rewrite Z.sub_diag, Z.pow_0_r.
  replace (e + drop - e) with drop by lia. lia.
Qed.

(** Multiplying [n / 10 ^ k] by [10 ^ k] and truncating gives [n] back, exactly, for up to
    28 digits and however the number was written. *)
Lemma dec_mul_pow10_to_int (d : decimal) (n k : Z) :
  Z.abs n < 10 ^ PREC -> 0 <= k -> dec_eqv d (Dec n (- k)) ->
  (p ← dec_mul_int d (10 ^ k); dec_to_int p) = Ok n.
Proof.
  intros Hn Hk Hd. destruct d as [c e|?|]; [|done..].
  assert (Hp : 0 < 10 ^ k) by (apply Z.pow_pos_nonneg; lia).
  assert (Hgoal : dec_eqv (Dec (c * 10 ^ k) e) (Dec n 0)).
  { set (m := Z.min e (- k)). apply (dec_eqv_elim m) in Hd; [|lia..]. apply (dec_eqv_at m); [lia..|].
    replace (10 ^ (0 - m)) with (10 ^ (- k - m) * 10 ^ k) by (rewrite <- Z.pow_add_r by lia; f_equal; lia).
    rewrite Z.mul_assoc, <- Hd. ring. }
  unfold dec_mul_int. cbn [mbind res_bind].
  assert (Hint : dec_to_int (Dec n 0) = Ok n) by (simpl; f_equal; lia). rewrite <- Hint.
  apply dec_to_int_proper. etrans; [|exact Hgoal]. clear Hgoal Hint.
  destruct (decide (c = 0)) as [->|Hc]; [reflexivity|].
  assert (Hc0 : exists c0 j, 0 <= j /\ Z.abs (c * 10 ^ k) = c0 * 10 ^ j /\ 0 < c0 < 10 ^ PREC).
  { destruct (Z.le_gt_cases (- k) e).
    - exists (Z.abs c), k. apply (dec_eqv_elim (- k)) in Hd; [|lia..].
      rewrite Z.sub_diag, Z.pow_0_r in Hd.
      assert (0 < 10 ^ (e - - k)) by (apply Z.pow_pos_nonneg; lia). split_and!; nia.
    - exists (Z.abs n), (- k - e + k). apply (dec_eqv_elim e) in Hd; [|lia..].
      rewrite Z.sub_diag, Z.pow_0_r in Hd.
      assert (0 < 10 ^ (- k - e)) by (apply Z.pow_pos_nonneg; lia).
      rewrite Z.pow_add_r by lia. split_and!; nia. }
  destruct Hc0 as (c0 & j & Hj & Heq & Hc0). rewrite Heq.
  destruct (Z.ltb_spec (c * 10 ^ k) 0) as [Hs|Hs].
  - replace (c * 10 ^ k) with (-1 * (c0 * 10 ^ j)) by lia. by apply (dec_fix_exact true).
  - replace (c * 10 ^ k) with (1 * (c0 * 10 ^ j)) by lia. by apply (dec_fix_exact false).
Qed.

(** ** Money and prices *)

(** The values an [int64] field can hold. *)
Definition in_int64 (n : Z) : Prop := - 2 ^ 63 <= n < 2 ^ 63.

#[export] Instance in_int64_dec (n : Z) : Decision (in_int64 n).
Proof. unfold in_int64. apply _. Defined.

(** [d] is [n] units of [10 ** -k]. *)
Definition is_scaled (d : decimal) (n k : Z) : Prop := dec_eqv d (Dec n (- k)).

Lemma in_int64_digits (n : Z) : in_int64 n -> Z.abs n < 10 ^ PREC.
Proof. unfold in_int64, PREC. lia. Qed.

(** The sum of two [int64]s still has fewer than 28 digits. *)
Lemma in_int64_add_digits (a b : Z) : in_int64 a -> in_int64 b -> Z.abs (a + b) < 10 ^ PREC.
Proof. unfold in_int64, PREC. lia. Qed.

Lemma scaled_money (n md : Z) :
  in_int64 n -> 0 <= md -> is_scaled (scaled n (money_divisor md)) n (money_digits_or_default md).
Proof.
  intros Hn Hmd. apply scaled_exact; [by apply in_int64_digits|].
  unfold money_digits_or_default, DEFAULT_MONEY_DIGITS. case_match; lia.
Qed.

(** A number of units that is absent when it is zero. *)
Definition is_scaled_or_None (d : option decimal) (n k : Z) : Prop :=
  match d with Some d => n ≠ 0 /\ is_scaled d n k | None => n = 0 end.

(** Dividing two integers raises only on a zero divisor. *)
Lemma dec_div_int (n d : Z) : d ≠ 0 -> dec_div (Decimal_int n) (Decimal_int d) = Ok (scaled n d).
Proof.
  intros Hd. unfold scaled, dec_div, Decimal_int. destruct (Z.eqb_spec d 0); [done|]. crush.
Qed.

Lemma scaled_price (n : Z) : Z.abs n < 10 ^ PREC -> is_scaled (scaled n PRICE_SCALE) n 5.
Proof. intros. by apply (scaled_exact n 5). Qed.

Lemma round_half_even_nearest (n d : Z) :
  0 < d -> 2 * Z.abs (round_half_even n d * d - n) <= d.
Proof.
  intros Hd. unfold round_half_even. pose proof (Z.div_mod n d). pose proof (Z.mod_pos_bound n d).
  destruct (Z.compare_spec (2 * (n mod d)) d); [destruct (Z.even _)| |]; nia.
Qed.

#[export] Hint Resolve in_int64_digits scaled_money scaled_price : ctrader.
