(* ===== verification/Wire.v ===== *)
(** * The messages on the wire

    The generated [betterproto] classes under [_internal/proto/], as records, with the
    fields the client reads or sets (a message it only receives and ignores has none).
    A scalar field that the server left out holds its proto3 default. A sub-message is
    an [option], [None] when it was not on the wire: [serialized_on_wire] asks exactly
    that, and reading a field of an absent one sees the default instance. *)

From S2P Require Import Prelude Errors Enums Numbers.
From stdpp Require Import options.
Open Scope string_scope.
Open Scope Z_scope.

(** [betterproto.serialized_on_wire(m)] *)
Definition serialized_on_wire {A} (m : option A) : bool :=
  match m with Some _ => true | None => false end.

(** ** Sub-messages ([OpenApiModelMessages.py]) *)

Record ProtoOATrader := {
  tr_ctid_trader_account_id : Z;
  tr_balance : Z;
  tr_balance_version : Z;
  tr_manager_bonus : Z;
  tr_ib_bonus : Z;
  tr_non_withdrawable_bonus : Z;
  tr_access_rights : Z;
  tr_deposit_asset_id : Z;
  tr_swap_free : bool;
  tr_leverage_in_cents : Z;
  tr_max_leverage : Z;
  tr_trader_login : Z;
  tr_account_type : Z;
  tr_broker_name : string;
  tr_registration_timestamp : Z;
  tr_is_limited_risk : bool;
  tr_money_digits : Z;
}.

Definition default_trader : ProtoOATrader :=
  Build_ProtoOATrader 0 0 0 0 0 0 0 0 false 0 0 0 0 "" 0 false 0.

Record ProtoOATradeData := {
  td_symbol_id : Z;
  td_volume : Z;
  td_trade_side : Z;
  td_open_timestamp : Z;
  td_label : string;
  td_guaranteed_stop_loss : bool;
  td_comment : string;
  td_close_timestamp : Z;
}.

Definition default_trade_data : ProtoOATradeData := Build_ProtoOATradeData 0 0 0 0 "" false "" 0.

Record ProtoOAPosition := {
  po_position_id : Z;
  po_trade_data : option ProtoOATradeData;
  po_position_status : Z;
  po_swap : Z;
  po_price : double;
  po_stop_loss : double;
  po_take_profit : double;
  po_utc_last_update_timestamp : Z;
  po_commission : Z;
  po_margin_rate : double;
  po_guaranteed_stop_loss : bool;
  po_used_margin : Z;
  po_stop_loss_trigger_method : Z;
  po_money_digits : Z;
  po_trailing_stop_loss : bool;
}.

Definition default_position : ProtoOAPosition :=
  Build_ProtoOAPosition 0 None 0 0 float_zero float_zero float_zero 0 0 float_zero false 0 0 0 false.

Record ProtoOAOrder := {
  or_order_id : Z;
  or_trade_data : option ProtoOATradeData;
  or_order_type : Z;
  or_order_status : Z;
  or_expiration_timestamp : Z;
  or_execution_price : double;
  or_executed_volume : Z;
  or_utc_last_update_timestamp : Z;
  or_base_slippage_price : double;
  or_slippage_in_points : Z;
  or_closing_order : bool;
  or_limit_price : double;
  or_stop_price : double;
  or_stop_loss : double;
  or_take_profit : double;
  or_client_order_id : string;
  or_time_in_force : Z;
  or_position_id : Z;
  or_relative_stop_loss : Z;
  or_relative_take_profit : Z;
  or_is_stop_out : bool;
  or_trailing_stop_loss : bool;
  or_stop_trigger_method : Z;
}.

Definition default_order : ProtoOAOrder :=
  Build_ProtoOAOrder 0 None 0 0 0 float_zero 0 0 float_zero 0 false float_zero float_zero
    float_zero float_zero "" 0 0 0 0 false false 0.

Record ProtoOAClosePositionDetail := {
  cd_entry_price : double;
  cd_gross_profit : Z;
  cd_swap : Z;
  cd_commission : Z;
  cd_balance : Z;
  cd_quote_to_deposit_conversion_rate : double;
  cd_closed_volume : Z;
  cd_balance_version : Z;
  cd_money_digits : Z;
  cd_pnl_conversion_fee : Z;
}.

Definition default_close_detail : ProtoOAClosePositionDetail :=
  Build_ProtoOAClosePositionDetail float_zero 0 0 0 0 float_zero 0 0 0 0.

Record ProtoOADeal := {
  de_deal_id : Z;
  de_order_id : Z;
  de_position_id : Z;
  de_volume : Z;
  de_filled_volume : Z;
  de_symbol_id : Z;
  de_create_timestamp : Z;
  de_execution_timestamp : Z;
  de_utc_last_update_timestamp : Z;
  de_execution_price : double;
  de_trade_side : Z;
  de_deal_status : Z;
  de_margin_rate : double;
  de_commission : Z;
  de_base_to_usd_conversion_rate : double;
  de_close_position_detail : option ProtoOAClosePositionDetail;
  de_money_digits : Z;
}.

Definition default_deal : ProtoOADeal :=
  Build_ProtoOADeal 0 0 0 0 0 0 0 0 0 float_zero 0 0 float_zero 0 float_zero None 0.

Record ProtoOATrendbar := {
  tb_volume : Z;
  tb_period : Z;
  tb_low : Z;
  tb_delta_open : Z;
  tb_delta_close : Z;
  tb_delta_high : Z;
  tb_utc_timestamp_in_minutes : Z;
}.

Record ProtoOATickData := { tk_timestamp : Z; tk_tick : Z }.

Record ProtoOADepthQuote := { dq_id : Z; dq_size : Z; dq_bid : Z; dq_ask : Z }.

Record ProtoOASymbol := {
  sy_symbol_id : Z;
  sy_digits : Z;
  sy_pip_position : Z;
  sy_enable_short_selling : bool;
  sy_guaranteed_stop_loss : bool;
  sy_swap_long : double;
  sy_swap_short : double;
  sy_max_volume : Z;
  sy_min_volume : Z;
  sy_step_volume : Z;
  sy_max_exposure : Z;
  sy_commission : Z;
  sy_sl_distance : Z;
  sy_tp_distance : Z;
  sy_schedule_time_zone : string;
  sy_trading_mode : Z;
  sy_lot_size : Z;
  sy_leverage_id : Z;
  sy_measurement_units : string;
}.

Record ProtoOALightSymbol := {
  ls_symbol_id : Z;
  ls_symbol_name : string;
  ls_enabled : bool;
  ls_base_asset_id : Z;
  ls_quote_asset_id : Z;
  ls_symbol_category_id : Z;
  ls_description : string;
}.

Record ProtoOACtidTraderAccount := {
  ca_ctid_trader_account_id : Z;
  ca_is_live : bool;
  ca_trader_login : Z;
  ca_last_closing_deal_timestamp : Z;
  ca_last_balance_update_timestamp : Z;
  ca_broker_title_short : string;
}.

Record ProtoOAMarginCall := { mc_margin_call_type : Z; mc_margin_level_threshold : double }.

Definition default_margin_call : ProtoOAMarginCall := Build_ProtoOAMarginCall 0 float_zero.

Record ProtoOAPositionUnrealizedPnL := {
  pnl_position_id : Z;
  pnl_gross_unrealized_pn_l : Z;
  pnl_net_unrealized_pn_l : Z;
}.

(** ** Messages with many fields ([OpenApiMessages.py]) *)

Record ProtoOAErrorRes := {
  er_ctid_trader_account_id : Z;
  er_error_code : string;
  er_description : string;
  er_maintenance_end_timestamp : Z;
  er_retry_after : Z;
}.

Record ProtoOAExecutionEvent := {
  ex_ctid_trader_account_id : Z;
  ex_execution_type : Z;
  ex_position : option ProtoOAPosition;
  ex_order : option ProtoOAOrder;
  ex_deal : option ProtoOADeal;
  ex_error_code : string;
  ex_is_server_event : bool;
}.

Record ProtoOAOrderErrorEvent := {
  oe_ctid_trader_account_id : Z;
  oe_error_code : string;
  oe_order_id : Z;
  oe_position_id : Z;
  oe_description : string;
}.

Record ProtoOASpotEvent := {
  sp_ctid_trader_account_id : Z;
  sp_symbol_id : Z;
  sp_bid : Z;
  sp_ask : Z;
  sp_trendbar : list ProtoOATrendbar;
  sp_timestamp : Z;
}.

Record ProtoOADepthEvent := {
  dp_ctid_trader_account_id : Z;
  dp_symbol_id : Z;
  dp_new_quotes : list ProtoOADepthQuote;
  dp_deleted_quotes : list Z;
}.

Record ProtoOATrailingSLChangedEvent := {
  ts_ctid_trader_account_id : Z;
  ts_position_id : Z;
  ts_order_id : Z;
  ts_stop_price : double;
  ts_utc_last_update_timestamp : Z;
}.

Record ProtoOANewOrderReq := {
  no_ctid_trader_account_id : Z;
  no_symbol_id : Z;
  no_order_type : Z;
  no_trade_side : Z;
  no_volume : Z;
  no_limit_price : double;
  no_stop_price : double;
  no_time_in_force : Z;
  no_expiration_timestamp : Z;
  no_stop_loss : double;
  no_take_profit : double;
  no_comment : string;
  no_base_slippage_price : double;
  no_slippage_in_points : Z;
  no_label : string;
  no_position_id : Z;
  no_client_order_id : string;
  no_relative_stop_loss : Z;
  no_relative_take_profit : Z;
  no_guaranteed_stop_loss : bool;
  no_trailing_stop_loss : bool;
  no_stop_trigger_method : option Z;
}.

Record ProtoOAAmendOrderReq := {
  ao_ctid_trader_account_id : Z;
  ao_order_id : Z;
  ao_volume : Z;
  ao_limit_price : double;
  ao_stop_price : double;
  ao_expiration_timestamp : Z;
  ao_stop_loss : double;
  ao_take_profit : double;
  ao_slippage_in_points : Z;
  ao_relative_stop_loss : Z;
  ao_relative_take_profit : Z;
  ao_guaranteed_stop_loss : bool;
  ao_trailing_stop_loss : bool;
  ao_stop_trigger_method : option Z;
}.

Record ProtoOAAmendPositionSLTPReq := {
  ap_ctid_trader_account_id : Z;
  ap_position_id : Z;
  ap_stop_loss : double;
  ap_take_profit : double;
  ap_guaranteed_stop_loss : bool;
  ap_trailing_stop_loss : bool;
  ap_stop_loss_trigger_method : Z;
}.

(** ** Message classes

    [type(m)] for the classes of the registry of [messages.py], and any other class by
    its name. *)
Module Cls.
Inductive msg_class :=
  | ProtoErrorRes | ProtoHeartbeatEvent | ProtoOAApplicationAuthReq | ProtoOAApplicationAuthRes
  | ProtoOAAccountAuthReq | ProtoOAAccountAuthRes | ProtoOAVersionReq | ProtoOAVersionRes
  | ProtoOANewOrderReq | ProtoOATrailingSLChangedEvent | ProtoOACancelOrderReq
  | ProtoOAAmendOrderReq | ProtoOAAmendPositionSLTPReq | ProtoOAClosePositionReq
  | ProtoOAAssetListReq | ProtoOAAssetListRes | ProtoOASymbolsListReq | ProtoOASymbolsListRes
  | ProtoOASymbolByIdReq | ProtoOASymbolByIdRes | ProtoOASymbolsForConversionReq
  | ProtoOASymbolsForConversionRes | ProtoOASymbolChangedEvent | ProtoOATraderReq
  | ProtoOATraderRes | ProtoOATraderUpdatedEvent | ProtoOAReconcileReq | ProtoOAReconcileRes
  | ProtoOAExecutionEvent | ProtoOASubscribeSpotsReq | ProtoOASubscribeSpotsRes
  | ProtoOAUnsubscribeSpotsReq | ProtoOAUnsubscribeSpotsRes | ProtoOASpotEvent
  | ProtoOAOrderErrorEvent | ProtoOADealListReq | ProtoOADealListRes
  | ProtoOASubscribeLiveTrendbarReq | ProtoOAUnsubscribeLiveTrendbarReq | ProtoOAGetTrendbarsReq
  | ProtoOAGetTrendbarsRes | ProtoOAExpectedMarginReq | ProtoOAExpectedMarginRes
  | ProtoOAMarginChangedEvent | ProtoOAErrorRes | ProtoOACashFlowHistoryListReq
  | ProtoOACashFlowHistoryListRes | ProtoOAGetTickDataReq | ProtoOAGetTickDataRes
  | ProtoOAAccountsTokenInvalidatedEvent | ProtoOAClientDisconnectEvent
  | ProtoOAGetAccountListByAccessTokenReq | ProtoOAGetAccountListByAccessTokenRes
  | ProtoOAGetCtidProfileByTokenReq | ProtoOAGetCtidProfileByTokenRes | ProtoOAAssetClassListReq
  | ProtoOAAssetClassListRes | ProtoOADepthEvent | ProtoOASubscribeDepthQuotesReq
  | ProtoOASubscribeDepthQuotesRes | ProtoOAUnsubscribeDepthQuotesReq
  | ProtoOAUnsubscribeDepthQuotesRes | ProtoOASymbolCategoryListReq
  | ProtoOASymbolCategoryListRes | ProtoOAAccountLogoutReq | ProtoOAAccountLogoutRes
  | ProtoOAAccountDisconnectEvent | ProtoOASubscribeLiveTrendbarRes
  | ProtoOAUnsubscribeLiveTrendbarRes | ProtoOAMarginCallListReq | ProtoOAMarginCallListRes
  | ProtoOAMarginCallUpdateReq | ProtoOAMarginCallUpdateRes | ProtoOAMarginCallUpdateEvent
  | ProtoOAMarginCallTriggerEvent | ProtoOARefreshTokenReq | ProtoOARefreshTokenRes
  | ProtoOAOrderListReq | ProtoOAOrderListRes | ProtoOAGetDynamicLeverageByIDReq
  | ProtoOAGetDynamicLeverageByIDRes | ProtoOADealListByPositionIdReq
  | ProtoOADealListByPositionIdRes | ProtoOAOrderDetailsReq | ProtoOAOrderDetailsRes
  | ProtoOAOrderListByPositionIdReq | ProtoOAOrderListByPositionIdRes | ProtoOADealOffsetListReq
  | ProtoOADealOffsetListRes | ProtoOAGetPositionUnrealizedPnLReq
  | ProtoOAGetPositionUnrealizedPnLRes | Unregistered (name : string).
#[global] Instance msg_class_eq_dec : EqDecision msg_class.
Proof. solve_decision. Defined.

(** [cls.__name__] *)
Definition class_name (c : msg_class) : string :=
  match c with
  | ProtoErrorRes => "ProtoErrorRes" | ProtoHeartbeatEvent => "ProtoHeartbeatEvent"
  | ProtoOAApplicationAuthReq => "ProtoOAApplicationAuthReq"
  | ProtoOAApplicationAuthRes => "ProtoOAApplicationAuthRes"
  | ProtoOAAccountAuthReq => "ProtoOAAccountAuthReq"
  | ProtoOAAccountAuthRes => "ProtoOAAccountAuthRes" | ProtoOAVersionReq => "ProtoOAVersionReq"
  | ProtoOAVersionRes => "ProtoOAVersionRes" | ProtoOANewOrderReq => "ProtoOANewOrderReq"
  | ProtoOATrailingSLChangedEvent => "ProtoOATrailingSLChangedEvent"
  | ProtoOACancelOrderReq => "ProtoOACancelOrderReq"
  | ProtoOAAmendOrderReq => "ProtoOAAmendOrderReq"
  | ProtoOAAmendPositionSLTPReq => "ProtoOAAmendPositionSLTPReq"
  | ProtoOAClosePositionReq => "ProtoOAClosePositionReq"
  | ProtoOAAssetListReq => "ProtoOAAssetListReq" | ProtoOAAssetListRes => "ProtoOAAssetListRes"
  | ProtoOASymbolsListReq => "ProtoOASymbolsListReq"
  | ProtoOASymbolsListRes => "ProtoOASymbolsListRes"
  | ProtoOASymbolByIdReq => "ProtoOASymbolByIdReq"
  | ProtoOASymbolByIdRes => "ProtoOASymbolByIdRes"
  | ProtoOASymbolsForConversionReq => "ProtoOASymbolsForConversionReq"
  | ProtoOASymbolsForConversionRes => "ProtoOASymbolsForConversionRes"
  | ProtoOASymbolChangedEvent => "ProtoOASymbolChangedEvent"
  | ProtoOATraderReq => "ProtoOATraderReq" | ProtoOATraderRes => "ProtoOATraderRes"
  | ProtoOATraderUpdatedEvent => "ProtoOATraderUpdatedEvent"
  | ProtoOAReconcileReq => "ProtoOAReconcileReq" | ProtoOAReconcileRes => "ProtoOAReconcileRes"
  | ProtoOAExecutionEvent => "ProtoOAExecutionEvent"
  | ProtoOASubscribeSpotsReq => "ProtoOASubscribeSpotsReq"
  | ProtoOASubscribeSpotsRes => "ProtoOASubscribeSpotsRes"
  | ProtoOAUnsubscribeSpotsReq => "ProtoOAUnsubscribeSpotsReq"
  | ProtoOAUnsubscribeSpotsRes => "ProtoOAUnsubscribeSpotsRes"
  | ProtoOASpotEvent => "ProtoOASpotEvent" | ProtoOAOrderErrorEvent => "ProtoOAOrderErrorEvent"
  | ProtoOADealListReq => "ProtoOADealListReq" | ProtoOADealListRes => "ProtoOADealListRes"
  | ProtoOASubscribeLiveTrendbarReq => "ProtoOASubscribeLiveTrendbarReq"
  | ProtoOAUnsubscribeLiveTrendbarReq => "ProtoOAUnsubscribeLiveTrendbarReq"
  | ProtoOAGetTrendbarsReq => "ProtoOAGetTrendbarsReq"
  | ProtoOAGetTrendbarsRes => "ProtoOAGetTrendbarsRes"
  | ProtoOAExpectedMarginReq => "ProtoOAExpectedMarginReq"
  | ProtoOAExpectedMarginRes => "ProtoOAExpectedMarginRes"
  | ProtoOAMarginChangedEvent => "ProtoOAMarginChangedEvent"
  | ProtoOAErrorRes => "ProtoOAErrorRes"
  | ProtoOACashFlowHistoryListReq => "ProtoOACashFlowHistoryListReq"
  | ProtoOACashFlowHistoryListRes => "ProtoOACashFlowHistoryListRes"
  | ProtoOAGetTickDataReq => "ProtoOAGetTickDataReq"
  | ProtoOAGetTickDataRes => "ProtoOAGetTickDataRes"
  | ProtoOAAccountsTokenInvalidatedEvent => "ProtoOAAccountsTokenInvalidatedEvent"
  | ProtoOAClientDisconnectEvent => "ProtoOAClientDisconnectEvent"
  | ProtoOAGetAccountListByAccessTokenReq => "ProtoOAGetAccountListByAccessTokenReq"
  | ProtoOAGetAccountListByAccessTokenRes => "ProtoOAGetAccountListByAccessTokenRes"
  | ProtoOAGetCtidProfileByTokenReq => "ProtoOAGetCtidProfileByTokenReq"
  | ProtoOAGetCtidProfileByTokenRes => "ProtoOAGetCtidProfileByTokenRes"
  | ProtoOAAssetClassListReq => "ProtoOAAssetClassListReq"
  | ProtoOAAssetClassListRes => "ProtoOAAssetClassListRes"
  | ProtoOADepthEvent => "ProtoOADepthEvent"
  | ProtoOASubscribeDepthQuotesReq => "ProtoOASubscribeDepthQuotesReq"
  | ProtoOASubscribeDepthQuotesRes => "ProtoOASubscribeDepthQuotesRes"
  | ProtoOAUnsubscribeDepthQuotesReq => "ProtoOAUnsubscribeDepthQuotesReq"
  | ProtoOAUnsubscribeDepthQuotesRes => "ProtoOAUnsubscribeDepthQuotesRes"
  | ProtoOASymbolCategoryListReq => "ProtoOASymbolCategoryListReq"
  | ProtoOASymbolCategoryListRes => "ProtoOASymbolCategoryListRes"
  | ProtoOAAccountLogoutReq => "ProtoOAAccountLogoutReq"
  | ProtoOAAccountLogoutRes => "ProtoOAAccountLogoutRes"
  | ProtoOAAccountDisconnectEvent => "ProtoOAAccountDisconnectEvent"
  | ProtoOASubscribeLiveTrendbarRes => "ProtoOASubscribeLiveTrendbarRes"
  | ProtoOAUnsubscribeLiveTrendbarRes => "ProtoOAUnsubscribeLiveTrendbarRes"
  | ProtoOAMarginCallListReq => "ProtoOAMarginCallListReq"
  | ProtoOAMarginCallListRes => "ProtoOAMarginCallListRes"
  | ProtoOAMarginCallUpdateReq => "ProtoOAMarginCallUpdateReq"
  | ProtoOAMarginCallUpdateRes => "ProtoOAMarginCallUpdateRes"
  | ProtoOAMarginCallUpdateEvent => "ProtoOAMarginCallUpdateEvent"
  | ProtoOAMarginCallTriggerEvent => "ProtoOAMarginCallTriggerEvent"
  | ProtoOARefreshTokenReq => "ProtoOARefreshTokenReq"
  | ProtoOARefreshTokenRes => "ProtoOARefreshTokenRes"
  | ProtoOAOrderListReq => "ProtoOAOrderListReq" | ProtoOAOrderListRes => "ProtoOAOrderListRes"
  | ProtoOAGetDynamicLeverageByIDReq => "ProtoOAGetDynamicLeverageByIDReq"
  | ProtoOAGetDynamicLeverageByIDRes => "ProtoOAGetDynamicLeverageByIDRes"
  | ProtoOADealListByPositionIdReq => "ProtoOADealListByPositionIdReq"
  | ProtoOADealListByPositionIdRes => "ProtoOADealListByPositionIdRes"
  | ProtoOAOrderDetailsReq => "ProtoOAOrderDetailsReq"
  | ProtoOAOrderDetailsRes => "ProtoOAOrderDetailsRes"
  | ProtoOAOrderListByPositionIdReq => "ProtoOAOrderListByPositionIdReq"
  | ProtoOAOrderListByPositionIdRes => "ProtoOAOrderListByPositionIdRes"
  | ProtoOADealOffsetListReq => "ProtoOADealOffsetListReq"
  | ProtoOADealOffsetListRes => "ProtoOADealOffsetListRes"
  | ProtoOAGetPositionUnrealizedPnLReq => "ProtoOAGetPositionUnrealizedPnLReq"
  | ProtoOAGetPositionUnrealizedPnLRes => "ProtoOAGetPositionUnrealizedPnLRes"
  | Unregistered name => name
  end.
End Cls.
Import Cls(msg_class).

(** ** Messages *)
Inductive message :=
  (* requests *)
  | MApplicationAuthReq (client_id client_secret : string)
  | MAccountAuthReq (ctid_trader_account_id : Z) (access_token : string)
  | MTraderReq (ctid_trader_account_id : Z)
  | MRefreshTokenReq (refresh_token : string)
  | MSubscribeSpotsReq (ctid_trader_account_id : Z) (symbol_id : list Z)
      (subscribe_to_spot_timestamp : bool)
  | MUnsubscribeSpotsReq (ctid_trader_account_id : Z) (symbol_id : list Z)
  | MSubscribeLiveTrendbarReq (ctid_trader_account_id symbol_id period : Z)
  | MUnsubscribeLiveTrendbarReq (ctid_trader_account_id symbol_id period : Z)
  | MSubscribeDepthQuotesReq (ctid_trader_account_id : Z) (symbol_id : list Z)
  | MUnsubscribeDepthQuotesReq (ctid_trader_account_id : Z) (symbol_id : list Z)
  | MGetTrendbarsReq (ctid_trader_account_id symbol_id period from_timestamp to_timestamp : Z)
  | MGetTickDataReq (ctid_trader_account_id symbol_id type from_timestamp to_timestamp : Z)
  | MGetAccountListByAccessTokenReq (access_token : string)
  | MSymbolsListReq (ctid_trader_account_id : Z)
  | MSymbolByIdReq (ctid_trader_account_id : Z) (symbol_id : list Z)
  | MNewOrderReq (r : ProtoOANewOrderReq)
  | MAmendOrderReq (r : ProtoOAAmendOrderReq)
  | MCancelOrderReq (ctid_trader_account_id order_id : Z)
  | MAmendPositionSLTPReq (r : ProtoOAAmendPositionSLTPReq)
  | MClosePositionReq (ctid_trader_account_id position_id volume : Z)
  | MGetPositionUnrealizedPnLReq (ctid_trader_account_id : Z)
  | MReconcileReq (ctid_trader_account_id : Z)
  | MOrderListReq (ctid_trader_account_id : Z) (from_timestamp to_timestamp : option Z)
  | MDealListReq (ctid_trader_account_id from_timestamp to_timestamp : Z)
  | MDealListByPositionIdReq (ctid_trader_account_id position_id : Z)
  (* responses *)
  | MApplicationAuthRes
  | MAccountAuthRes (ctid_trader_account_id : Z)
  | MTraderRes (trader : option ProtoOATrader)
  | MRefreshTokenRes (access_token refresh_token : string) (expires_in : Z)
  | MSubscribeSpotsRes | MUnsubscribeSpotsRes
  | MSubscribeLiveTrendbarRes | MUnsubscribeLiveTrendbarRes
  | MSubscribeDepthQuotesRes | MUnsubscribeDepthQuotesRes
  | MGetTrendbarsRes (trendbar : list ProtoOATrendbar)
  | MGetTickDataRes (tick_data : list ProtoOATickData)
  | MGetAccountListByAccessTokenRes (ctid_trader_account : list ProtoOACtidTraderAccount)
  | MSymbolsListRes (symbol : list ProtoOALightSymbol)
  | MSymbolByIdRes (symbol : list ProtoOASymbol)
  | MGetPositionUnrealizedPnLRes (pnl : list ProtoOAPositionUnrealizedPnL) (money_digits : Z)
  | MReconcileRes (position : list ProtoOAPosition)
  | MOrderListRes (order : list ProtoOAOrder)
  | MDealListRes (deal : list ProtoOADeal)
  | MDealListByPositionIdRes (deal : list ProtoOADeal)
  | MErrorRes (r : ProtoOAErrorRes)
  (* events *)
  | MHeartbeatEvent
  | MExecutionEvent (r : ProtoOAExecutionEvent)
  | MOrderErrorEvent (r : ProtoOAOrderErrorEvent)
  | MSpotEvent (r : ProtoOASpotEvent)
  | MTraderUpdatedEvent (ctid_trader_account_id : Z) (trader : option ProtoOATrader)
  | MMarginChangedEvent (ctid_trader_account_id position_id used_margin money_digits : Z)
  | MDepthEvent (r : ProtoOADepthEvent)
  | MAccountsTokenInvalidatedEvent (ctid_trader_account_ids : list Z) (reason : string)
  | MClientDisconnectEvent (reason : string)
  | MAccountDisconnectEvent (ctid_trader_account_id : Z)
  | MSymbolChangedEvent (ctid_trader_account_id : Z) (symbol_id : list Z)
  | MTrailingSLChangedEvent (r : ProtoOATrailingSLChangedEvent)
  | MMarginCallTriggerEvent (ctid_trader_account_id : Z) (margin_call : option ProtoOAMarginCall)
  (* a message of one of the classes the client has no use for, as its bytes *)
  | MOther (c : msg_class) (raw : list Byte.byte).

(** [type(m)] *)
Definition class_of (m : message) : msg_class :=
  match m with
  | MApplicationAuthReq _ _ => Cls.ProtoOAApplicationAuthReq
  | MAccountAuthReq _ _ => Cls.ProtoOAAccountAuthReq | MTraderReq _ => Cls.ProtoOATraderReq
  | MRefreshTokenReq _ => Cls.ProtoOARefreshTokenReq
  | MSubscribeSpotsReq _ _ _ => Cls.ProtoOASubscribeSpotsReq
  | MUnsubscribeSpotsReq _ _ => Cls.ProtoOAUnsubscribeSpotsReq
  | MSubscribeLiveTrendbarReq _ _ _ => Cls.ProtoOASubscribeLiveTrendbarReq
  | MUnsubscribeLiveTrendbarReq _ _ _ => Cls.ProtoOAUnsubscribeLiveTrendbarReq
  | MSubscribeDepthQuotesReq _ _ => Cls.ProtoOASubscribeDepthQuotesReq
  | MUnsubscribeDepthQuotesReq _ _ => Cls.ProtoOAUnsubscribeDepthQuotesReq
  | MGetTrendbarsReq _ _ _ _ _ => Cls.ProtoOAGetTrendbarsReq
  | MGetTickDataReq _ _ _ _ _ => Cls.ProtoOAGetTickDataReq
  | MGetAccountListByAccessTokenReq _ => Cls.ProtoOAGetAccountListByAccessTokenReq
  | MSymbolsListReq _ => Cls.ProtoOASymbolsListReq
  | MSymbolByIdReq _ _ => Cls.ProtoOASymbolByIdReq | MNewOrderReq _ => Cls.ProtoOANewOrderReq
  | MAmendOrderReq _ => Cls.ProtoOAAmendOrderReq
  | MCancelOrderReq _ _ => Cls.ProtoOACancelOrderReq
  | MAmendPositionSLTPReq _ => Cls.ProtoOAAmendPositionSLTPReq
  | MClosePositionReq _ _ _ => Cls.ProtoOAClosePositionReq
  | MGetPositionUnrealizedPnLReq _ => Cls.ProtoOAGetPositionUnrealizedPnLReq
  | MReconcileReq _ => Cls.ProtoOAReconcileReq | MOrderListReq _ _ _ => Cls.ProtoOAOrderListReq
  | MDealListReq _ _ _ => Cls.ProtoOADealListReq
  | MDealListByPositionIdReq _ _ => Cls.ProtoOADealListByPositionIdReq
  | MApplicationAuthRes => Cls.ProtoOAApplicationAuthRes
  | MAccountAuthRes _ => Cls.ProtoOAAccountAuthRes | MTraderRes _ => Cls.ProtoOATraderRes
  | MRefreshTokenRes _ _ _ => Cls.ProtoOARefreshTokenRes
  | MSubscribeSpotsRes => Cls.ProtoOASubscribeSpotsRes
  | MUnsubscribeSpotsRes => Cls.ProtoOAUnsubscribeSpotsRes
  | MSubscribeLiveTrendbarRes => Cls.ProtoOASubscribeLiveTrendbarRes
  | MUnsubscribeLiveTrendbarRes => Cls.ProtoOAUnsubscribeLiveTrendbarRes
  | MSubscribeDepthQuotesRes => Cls.ProtoOASubscribeDepthQuotesRes
  | MUnsubscribeDepthQuotesRes => Cls.ProtoOAUnsubscribeDepthQuotesRes
  | MGetTrendbarsRes _ => Cls.ProtoOAGetTrendbarsRes
  | MGetTickDataRes _ => Cls.ProtoOAGetTickDataRes
  | MGetAccountListByAccessTokenRes _ => Cls.ProtoOAGetAccountListByAccessTokenRes
  | MSymbolsListRes _ => Cls.ProtoOASymbolsListRes
  | MSymbolByIdRes _ => Cls.ProtoOASymbolByIdRes
  | MGetPositionUnrealizedPnLRes _ _ => Cls.ProtoOAGetPositionUnrealizedPnLRes
  | MReconcileRes _ => Cls.ProtoOAReconcileRes | MOrderListRes _ => Cls.ProtoOAOrderListRes
  | MDealListRes _ => Cls.ProtoOADealListRes
  | MDealListByPositionIdRes _ => Cls.ProtoOADealListByPositionIdRes
  | MErrorRes _ => Cls.ProtoOAErrorRes | MHeartbeatEvent => Cls.ProtoHeartbeatEvent
  | MExecutionEvent _ => Cls.ProtoOAExecutionEvent
  | MOrderErrorEvent _ => Cls.ProtoOAOrderErrorEvent | MSpotEvent _ => Cls.ProtoOASpotEvent
  | MTraderUpdatedEvent _ _ => Cls.ProtoOATraderUpdatedEvent
  | MMarginChangedEvent _ _ _ _ => Cls.ProtoOAMarginChangedEvent
  | MDepthEvent _ => Cls.ProtoOADepthEvent
  | MAccountsTokenInvalidatedEvent _ _ => Cls.ProtoOAAccountsTokenInvalidatedEvent
  | MClientDisconnectEvent _ => Cls.ProtoOAClientDisconnectEvent
  | MAccountDisconnectEvent _ => Cls.ProtoOAAccountDisconnectEvent
  | MSymbolChangedEvent _ _ => Cls.ProtoOASymbolChangedEvent
  | MTrailingSLChangedEvent _ => Cls.ProtoOATrailingSLChangedEvent
  | MMarginCallTriggerEvent _ _ => Cls.ProtoOAMarginCallTriggerEvent | MOther c _ => c
  end.

(** ** Narrowing a response to the type a caller expects

    [isinstance(response, response_type)] together with the attributes it gives access
    to. *)
Record response_type (A : Type) := mk_response_type {
  rt_class : msg_class;
  rt_narrow : message -> option A;
}.
Arguments mk_response_type {A} rt_class rt_narrow.
Arguments rt_class {A} _.
Arguments rt_narrow {A} _ _.
