(* ===== verification/Schema.v ===== *)
(** * The schema of the messages ([_internal/proto/])

    What the generated classes declare: the fields of every message, each with its number
    and its type, and the members of every enumeration. [Wire] has the part of it the
    client uses as records; [Conformance] shows that the two agree. Here the schema itself
    is shown to be sound. *)

From S2P Require Import Prelude.
From stdpp Require Import options.
Open Scope string_scope.
Open Scope list_scope.
Open Scope Z_scope.

(** ** Declarations *)

(** [betterproto.int32_field] and its like; an [enum_field] and a [message_field] name the
    class of their annotation. *)
Inductive field_type :=
  | TInt32 | TInt64 | TUInt32 | TUInt64 | TBool | TString | TBytes | TDouble
  | TEnum (name : string)
  | TMessage (name : string).

#[export] Instance field_type_eq_dec : EqDecision field_type.
Proof. solve_decision. Defined.

Record field := mk_field {
  f_name : string;
  f_number : Z;
  f_type : field_type;
  f_repeated : bool;
}.

(** A field of a type, and one annotated with a [list] of it. *)
Definition one (name : string) (number : Z) (t : field_type) : field := mk_field name number t false.
Definition many (name : string) (number : Z) (t : field_type) : field := mk_field name number t true.

(** ** Enumerations of the envelope ([OpenApiCommonModelMessages.py]) *)

Definition ProtoPayloadType_members : dict string Z := [
  ("PROTO_MESSAGE", 5);
  ("ERROR_RES", 50);
  ("HEARTBEAT_EVENT", 51)].

Definition ProtoErrorCode_members : dict string Z := [
  ("UNKNOWN_ERROR", 1);
  ("UNSUPPORTED_MESSAGE", 2);
  ("INVALID_REQUEST", 3);
  ("TIMEOUT_ERROR", 5);
  ("ENTITY_NOT_FOUND", 6);
  ("CANT_ROUTE_REQUEST", 7);
  ("FRAME_TOO_LONG", 8);
  ("MARKET_CLOSED", 9);
  ("CONCURRENT_MODIFICATION", 10);
  ("BLOCKED_PAYLOAD_TYPE", 11)].

(** ** The envelope ([OpenApiCommonMessages.py]) *)

Definition ProtoMessage_fields : list field := [
  one "payload_type" 1 TUInt32;
  one "payload" 2 TBytes;
  one "client_msg_id" 3 TString].

Definition ProtoErrorRes_fields : list field := [
  one "payload_type" 1 (TEnum "ProtoPayloadType");
  one "error_code" 2 TString;
  one "description" 3 TString;
  one "maintenance_end_timestamp" 4 TUInt64].

Definition ProtoHeartbeatEvent_fields : list field := [
  one "payload_type" 1 (TEnum "ProtoPayloadType")].

(** ** The trading data ([OpenApiModelMessages.py]) *)

Definition ProtoOAPayloadType_members : dict string Z := [
  ("PROTO_OA_APPLICATION_AUTH_REQ", 2100);
  ("PROTO_OA_APPLICATION_AUTH_RES", 2101);
  ("PROTO_OA_ACCOUNT_AUTH_REQ", 2102);
  ("PROTO_OA_ACCOUNT_AUTH_RES", 2103);
  ("PROTO_OA_VERSION_REQ", 2104);
  ("PROTO_OA_VERSION_RES", 2105);
  ("PROTO_OA_NEW_ORDER_REQ", 2106);
  ("PROTO_OA_TRAILING_SL_CHANGED_EVENT", 2107);
  ("PROTO_OA_CANCEL_ORDER_REQ", 2108);
  ("PROTO_OA_AMEND_ORDER_REQ", 2109);
  ("PROTO_OA_AMEND_POSITION_SLTP_REQ", 2110);
  ("PROTO_OA_CLOSE_POSITION_REQ", 2111);
  ("PROTO_OA_ASSET_LIST_REQ", 2112);
  ("PROTO_OA_ASSET_LIST_RES", 2113);
  ("PROTO_OA_SYMBOLS_LIST_REQ", 2114);
  ("PROTO_OA_SYMBOLS_LIST_RES", 2115);
  ("PROTO_OA_SYMBOL_BY_ID_REQ", 2116);
  ("PROTO_OA_SYMBOL_BY_ID_RES", 2117);
  ("PROTO_OA_SYMBOLS_FOR_CONVERSION_REQ", 2118);
  ("PROTO_OA_SYMBOLS_FOR_CONVERSION_RES", 2119);
  ("PROTO_OA_SYMBOL_CHANGED_EVENT", 2120);
  ("PROTO_OA_TRADER_REQ", 2121);
  ("PROTO_OA_TRADER_RES", 2122);
  ("PROTO_OA_TRADER_UPDATE_EVENT", 2123);
  ("PROTO_OA_RECONCILE_REQ", 2124);
  ("PROTO_OA_RECONCILE_RES", 2125);
  ("PROTO_OA_EXECUTION_EVENT", 2126);
  ("PROTO_OA_SUBSCRIBE_SPOTS_REQ", 2127);
  ("PROTO_OA_SUBSCRIBE_SPOTS_RES", 2128);
  ("PROTO_OA_UNSUBSCRIBE_SPOTS_REQ", 2129);
  ("PROTO_OA_UNSUBSCRIBE_SPOTS_RES", 2130);
  ("PROTO_OA_SPOT_EVENT", 2131);
  ("PROTO_OA_ORDER_ERROR_EVENT", 2132);
  ("PROTO_OA_DEAL_LIST_REQ", 2133);
  ("PROTO_OA_DEAL_LIST_RES", 2134);
  ("PROTO_OA_SUBSCRIBE_LIVE_TRENDBAR_REQ", 2135);
  ("PROTO_OA_UNSUBSCRIBE_LIVE_TRENDBAR_REQ", 2136);
  ("PROTO_OA_GET_TRENDBARS_REQ", 2137);
  ("PROTO_OA_GET_TRENDBARS_RES", 2138);
  ("PROTO_OA_EXPECTED_MARGIN_REQ", 2139);
  ("PROTO_OA_EXPECTED_MARGIN_RES", 2140);
  ("PROTO_OA_MARGIN_CHANGED_EVENT", 2141);
  ("PROTO_OA_ERROR_RES", 2142);
  ("PROTO_OA_CASH_FLOW_HISTORY_LIST_REQ", 2143);
  ("PROTO_OA_CASH_FLOW_HISTORY_LIST_RES", 2144);
  ("PROTO_OA_GET_TICKDATA_REQ", 2145);
  ("PROTO_OA_GET_TICKDATA_RES", 2146);
  ("PROTO_OA_ACCOUNTS_TOKEN_INVALIDATED_EVENT", 2147);
  ("PROTO_OA_CLIENT_DISCONNECT_EVENT", 2148);
  ("PROTO_OA_GET_ACCOUNTS_BY_ACCESS_TOKEN_REQ", 2149);
  ("PROTO_OA_GET_ACCOUNTS_BY_ACCESS_TOKEN_RES", 2150);
  ("PROTO_OA_GET_CTID_PROFILE_BY_TOKEN_REQ", 2151);
  ("PROTO_OA_GET_CTID_PROFILE_BY_TOKEN_RES", 2152);
  ("PROTO_OA_ASSET_CLASS_LIST_REQ", 2153);
  ("PROTO_OA_ASSET_CLASS_LIST_RES", 2154);
  ("PROTO_OA_DEPTH_EVENT", 2155);
  ("PROTO_OA_SUBSCRIBE_DEPTH_QUOTES_REQ", 2156);
  ("PROTO_OA_SUBSCRIBE_DEPTH_QUOTES_RES", 2157);
  ("PROTO_OA_UNSUBSCRIBE_DEPTH_QUOTES_REQ", 2158);
  ("PROTO_OA_UNSUBSCRIBE_DEPTH_QUOTES_RES", 2159);
  ("PROTO_OA_SYMBOL_CATEGORY_REQ", 2160);
  ("PROTO_OA_SYMBOL_CATEGORY_RES", 2161);
  ("PROTO_OA_ACCOUNT_LOGOUT_REQ", 2162);
  ("PROTO_OA_ACCOUNT_LOGOUT_RES", 2163);
  ("PROTO_OA_ACCOUNT_DISCONNECT_EVENT", 2164);
  ("PROTO_OA_SUBSCRIBE_LIVE_TRENDBAR_RES", 2165);
  ("PROTO_OA_UNSUBSCRIBE_LIVE_TRENDBAR_RES", 2166);
  ("PROTO_OA_MARGIN_CALL_LIST_REQ", 2167);
  ("PROTO_OA_MARGIN_CALL_LIST_RES", 2168);
  ("PROTO_OA_MARGIN_CALL_UPDATE_REQ", 2169);
  ("PROTO_OA_MARGIN_CALL_UPDATE_RES", 2170);
  ("PROTO_OA_MARGIN_CALL_UPDATE_EVENT", 2171);
  ("PROTO_OA_MARGIN_CALL_TRIGGER_EVENT", 2172);
  ("PROTO_OA_REFRESH_TOKEN_REQ", 2173);
  ("PROTO_OA_REFRESH_TOKEN_RES", 2174);
  ("PROTO_OA_ORDER_LIST_REQ", 2175);
  ("PROTO_OA_ORDER_LIST_RES", 2176);
  ("PROTO_OA_GET_DYNAMIC_LEVERAGE_REQ", 2177);
  ("PROTO_OA_GET_DYNAMIC_LEVERAGE_RES", 2178);
  ("PROTO_OA_DEAL_LIST_BY_POSITION_ID_REQ", 2179);
  ("PROTO_OA_DEAL_LIST_BY_POSITION_ID_RES", 2180);
  ("PROTO_OA_ORDER_DETAILS_REQ", 2181);
  ("PROTO_OA_ORDER_DETAILS_RES", 2182);
  ("PROTO_OA_ORDER_LIST_BY_POSITION_ID_REQ", 2183);
  ("PROTO_OA_ORDER_LIST_BY_POSITION_ID_RES", 2184);
  ("PROTO_OA_DEAL_OFFSET_LIST_REQ", 2185);
  ("PROTO_OA_DEAL_OFFSET_LIST_RES", 2186);
  ("PROTO_OA_GET_POSITION_UNREALIZED_PNL_REQ", 2187);
  ("PROTO_OA_GET_POSITION_UNREALIZED_PNL_RES", 2188)].

Definition ProtoOADayOfWeek_members : dict string Z := [
  ("NONE", 0);
  ("MONDAY", 1);
  ("TUESDAY", 2);
  ("WEDNESDAY", 3);
  ("THURSDAY", 4);
  ("FRIDAY", 5);
  ("SATURDAY", 6);
  ("SUNDAY", 7)].

Definition ProtoOACommissionType_members : dict string Z := [
  ("USD_PER_MILLION_USD", 1);
  ("USD_PER_LOT", 2);
  ("PERCENTAGE_OF_VALUE", 3);
  ("QUOTE_CCY_PER_LOT", 4)].

Definition ProtoOASymbolDistanceType_members : dict string Z := [
  ("SYMBOL_DISTANCE_IN_POINTS", 1);
  ("SYMBOL_DISTANCE_IN_PERCENTAGE", 2)].

Definition ProtoOAMinCommissionType_members : dict string Z := [
  ("CURRENCY", 1);
  ("QUOTE_CURRENCY", 2)].

Definition ProtoOATradingMode_members : dict string Z := [
  ("ENABLED", 0);
  ("DISABLED_WITHOUT_PENDINGS_EXECUTION", 1);
  ("DISABLED_WITH_PENDINGS_EXECUTION", 2);
  ("CLOSE_ONLY_MODE", 3)].

Definition ProtoOASwapCalculationType_members : dict string Z := [
  ("PIPS", 0);
  ("PERCENTAGE", 1);
  ("POINTS", 2)].

Definition ProtoOAAccessRights_members : dict string Z := [
  ("FULL_ACCESS", 0);
  ("CLOSE_ONLY", 1);
  ("NO_TRADING", 2);
  ("NO_LOGIN", 3)].

Definition ProtoOATotalMarginCalculationType_members : dict string Z := [
  ("MAX", 0);
  ("SUM", 1);
  ("NET", 2)].

Definition ProtoOAAccountType_members : dict string Z := [
  ("HEDGED", 0);
  ("NETTED", 1);
  ("SPREAD_BETTING", 2)].

Definition ProtoOAPositionStatus_members : dict string Z := [
  ("POSITION_STATUS_OPEN", 1);
  ("POSITION_STATUS_CLOSED", 2);
  ("POSITION_STATUS_CREATED", 3);
  ("POSITION_STATUS_ERROR", 4)].

Definition ProtoOATradeSide_members : dict string Z := [
  ("BUY", 1);
  ("SELL", 2)].

Definition ProtoOAOrderType_members : dict string Z := [
  ("MARKET", 1);
  ("LIMIT", 2);
  ("STOP", 3);
  ("STOP_LOSS_TAKE_PROFIT", 4);
  ("MARKET_RANGE", 5);
  ("STOP_LIMIT", 6)].

Definition ProtoOATimeInForce_members : dict string Z := [
  ("GOOD_TILL_DATE", 1);
  ("GOOD_TILL_CANCEL", 2);
  ("IMMEDIATE_OR_CANCEL", 3);
  ("FILL_OR_KILL", 4);
  ("MARKET_ON_OPEN", 5)].

Definition ProtoOAOrderStatus_members : dict string Z := [
  ("ORDER_STATUS_ACCEPTED", 1);
  ("ORDER_STATUS_FILLED", 2);
  ("ORDER_STATUS_REJECTED", 3);
  ("ORDER_STATUS_EXPIRED", 4);
  ("ORDER_STATUS_CANCELLED", 5)].

Definition ProtoOAOrderTriggerMethod_members : dict string Z := [
  ("TRADE", 1);
  ("OPPOSITE", 2);
  ("DOUBLE_TRADE", 3);
  ("DOUBLE_OPPOSITE", 4)].

Definition ProtoOAExecutionType_members : dict string Z := [
  ("ORDER_ACCEPTED", 2);
  ("ORDER_FILLED", 3);
  ("ORDER_REPLACED", 4);
  ("ORDER_CANCELLED", 5);
  ("ORDER_EXPIRED", 6);
  ("ORDER_REJECTED", 7);
  ("ORDER_CANCEL_REJECTED", 8);
  ("SWAP", 9);
  ("DEPOSIT_WITHDRAW", 10);
  ("ORDER_PARTIAL_FILL", 11);
  ("BONUS_DEPOSIT_WITHDRAW", 12)].

Definition ProtoOAChangeBonusType_members : dict string Z := [
  ("BONUS_DEPOSIT", 0);
  ("BONUS_WITHDRAW", 1)].

Definition ProtoOAChangeBalanceType_members : dict string Z := [
  ("BALANCE_DEPOSIT", 0);
  ("BALANCE_WITHDRAW", 1);
  ("BALANCE_DEPOSIT_STRATEGY_COMMISSION_INNER", 3);
  ("BALANCE_WITHDRAW_STRATEGY_COMMISSION_INNER", 4);
  ("BALANCE_DEPOSIT_IB_COMMISSIONS", 5);
  ("BALANCE_WITHDRAW_IB_SHARED_PERCENTAGE", 6);
  ("BALANCE_DEPOSIT_IB_SHARED_PERCENTAGE_FROM_SUB_IB", 7);
  ("BALANCE_DEPOSIT_IB_SHARED_PERCENTAGE_FROM_BROKER", 8);
  ("BALANCE_DEPOSIT_REBATE", 9);
  ("BALANCE_WITHDRAW_REBATE", 10);
  ("BALANCE_DEPOSIT_STRATEGY_COMMISSION_OUTER", 11);
  ("BALANCE_WITHDRAW_STRATEGY_COMMISSION_OUTER", 12);
  ("BALANCE_WITHDRAW_BONUS_COMPENSATION", 13);
  ("BALANCE_WITHDRAW_IB_SHARED_PERCENTAGE_TO_BROKER", 14);
  ("BALANCE_DEPOSIT_DIVIDENDS", 15);
  ("BALANCE_WITHDRAW_DIVIDENDS", 16);
  ("BALANCE_WITHDRAW_GSL_CHARGE", 17);
  ("BALANCE_WITHDRAW_ROLLOVER", 18);
  ("BALANCE_DEPOSIT_NONWITHDRAWABLE_BONUS", 19);
  ("BALANCE_WITHDRAW_NONWITHDRAWABLE_BONUS", 20);
  ("BALANCE_DEPOSIT_SWAP", 21);
  ("BALANCE_WITHDRAW_SWAP", 22);
  ("BALANCE_DEPOSIT_MANAGEMENT_FEE", 27);
  ("BALANCE_WITHDRAW_MANAGEMENT_FEE", 28);
  ("BALANCE_DEPOSIT_PERFORMANCE_FEE", 29);
  ("BALANCE_WITHDRAW_FOR_SUBACCOUNT", 30);
  ("BALANCE_DEPOSIT_TO_SUBACCOUNT", 31);
  ("BALANCE_WITHDRAW_FROM_SUBACCOUNT", 32);
  ("BALANCE_DEPOSIT_FROM_SUBACCOUNT", 33);
  ("BALANCE_WITHDRAW_COPY_FEE", 34);
  ("BALANCE_WITHDRAW_INACTIVITY_FEE", 35);
  ("BALANCE_DEPOSIT_TRANSFER", 36);
  ("BALANCE_WITHDRAW_TRANSFER", 37);
  ("BALANCE_DEPOSIT_CONVERTED_BONUS", 38);
  ("BALANCE_DEPOSIT_NEGATIVE_BALANCE_PROTECTION", 39)].

Definition ProtoOADealStatus_members : dict string Z := [
  ("FILLED", 2);
  ("PARTIALLY_FILLED", 3);
  ("REJECTED", 4);
  ("INTERNALLY_REJECTED", 5);
  ("ERROR", 6);
  ("MISSED", 7)].

Definition ProtoOATrendbarPeriod_members : dict string Z := [
  ("M1", 1);
  ("M2", 2);
  ("M3", 3);
  ("M4", 4);
  ("M5", 5);
  ("M10", 6);
  ("M15", 7);
  ("M30", 8);
  ("H1", 9);
  ("H4", 10);
  ("H12", 11);
  ("D1", 12);
  ("W1", 13);
  ("MN1", 14)].

Definition ProtoOAQuoteType_members : dict string Z := [
  ("BID", 1);
  ("ASK", 2)].

Definition ProtoOAClientPermissionScope_members : dict string Z := [
  ("SCOPE_VIEW", 0);
  ("SCOPE_TRADE", 1)].

Definition ProtoOANotificationType_members : dict string Z := [
  ("MARGIN_LEVEL_THRESHOLD_1", 61);
  ("MARGIN_LEVEL_THRESHOLD_2", 62);
  ("MARGIN_LEVEL_THRESHOLD_3", 63)].

Definition ProtoOAErrorCode_members : dict string Z := [
  ("OA_AUTH_TOKEN_EXPIRED", 1);
  ("ACCOUNT_NOT_AUTHORIZED", 2);
  ("RET_NO_SUCH_LOGIN", 12);
  ("ALREADY_LOGGED_IN", 14);
  ("RET_ACCOUNT_DISABLED", 64);
  ("CH_CLIENT_AUTH_FAILURE", 101);
  ("CH_CLIENT_NOT_AUTHENTICATED", 102);
  ("CH_CLIENT_ALREADY_AUTHENTICATED", 103);
  ("CH_ACCESS_TOKEN_INVALID", 104);
  ("CH_SERVER_NOT_REACHABLE", 105);
  ("CH_CTID_TRADER_ACCOUNT_NOT_FOUND", 106);
  ("CH_OA_CLIENT_NOT_FOUND", 107);
  ("REQUEST_FREQUENCY_EXCEEDED", 108);
  ("SERVER_IS_UNDER_MAINTENANCE", 109);
  ("CHANNEL_IS_BLOCKED", 110);
  ("CONNECTIONS_LIMIT_EXCEEDED", 67);
  ("WORSE_GSL_NOT_ALLOWED", 68);
  ("SYMBOL_HAS_HOLIDAY", 69);
  ("NOT_SUBSCRIBED_TO_SPOTS", 112);
  ("ALREADY_SUBSCRIBED", 113);
  ("SYMBOL_NOT_FOUND", 114);
  ("UNKNOWN_SYMBOL", 115);
  ("INCORRECT_BOUNDARIES", 35);
  ("NO_QUOTES", 117);
  ("NOT_ENOUGH_MONEY", 118);
  ("MAX_EXPOSURE_REACHED", 119);
  ("POSITION_NOT_FOUND", 120);
  ("ORDER_NOT_FOUND", 121);
  ("POSITION_NOT_OPEN", 122);
  ("POSITION_LOCKED", 123);
  ("TOO_MANY_POSITIONS", 124);
  ("TRADING_BAD_VOLUME", 125);
  ("TRADING_BAD_STOPS", 126);
  ("TRADING_BAD_PRICES", 127);
  ("TRADING_BAD_STAKE", 128);
  ("PROTECTION_IS_TOO_CLOSE_TO_MARKET", 129);
  ("TRADING_BAD_EXPIRATION_DATE", 130);
  ("PENDING_EXECUTION", 131);
  ("TRADING_DISABLED", 132);
  ("TRADING_NOT_ALLOWED", 133);
  ("UNABLE_TO_CANCEL_ORDER", 134);
  ("UNABLE_TO_AMEND_ORDER", 135);
  ("SHORT_SELLING_NOT_ALLOWED", 136)].

Definition ProtoOALimitedRiskMarginCalculationStrategy_members : dict string Z := [
  ("ACCORDING_TO_LEVERAGE", 0);
  ("ACCORDING_TO_GSL", 1);
  ("ACCORDING_TO_GSL_AND_LEVERAGE", 2)].

Definition ProtoOAStopOutStrategy_members : dict string Z := [
  ("MOST_MARGIN_USED_FIRST", 0);
  ("MOST_LOSING_FIRST", 1)].

Definition ProtoOAAsset_fields : list field := [
  one "asset_id" 1 TInt64;
  one "name" 2 TString;
  one "display_name" 3 TString;
  one "digits" 4 TInt32].

Definition ProtoOASymbol_fields : list field := [
  one "symbol_id" 1 TInt64;
  one "digits" 2 TInt32;
  one "pip_position" 3 TInt32;
  one "enable_short_selling" 4 TBool;
  one "guaranteed_stop_loss" 5 TBool;
  one "swap_rollover3_days" 6 (TEnum "ProtoOADayOfWeek");
  one "swap_long" 7 TDouble;
  one "swap_short" 8 TDouble;
  one "max_volume" 9 TInt64;
  one "min_volume" 10 TInt64;
  one "step_volume" 11 TInt64;
  one "max_exposure" 12 TUInt64;
  many "schedule" 13 (TMessage "ProtoOAInterval");
  one "commission" 14 TInt64;
  one "commission_type" 15 (TEnum "ProtoOACommissionType");
  one "sl_distance" 16 TUInt32;
  one "tp_distance" 17 TUInt32;
  one "gsl_distance" 18 TUInt32;
  one "gsl_charge" 19 TInt64;
  one "distance_set_in" 20 (TEnum "ProtoOASymbolDistanceType");
  one "min_commission" 21 TInt64;
  one "min_commission_type" 22 (TEnum "ProtoOAMinCommissionType");
  one "min_commission_asset" 23 TString;
  one "rollover_commission" 24 TInt64;
  one "skip_rollover_days" 25 TInt32;
  one "schedule_time_zone" 26 TString;
  one "trading_mode" 27 (TEnum "ProtoOATradingMode");
  one "rollover_commission3_days" 28 (TEnum "ProtoOADayOfWeek");
  one "swap_calculation_type" 29 (TEnum "ProtoOASwapCalculationType");
  one "lot_size" 30 TInt64;
  one "precise_trading_commission_rate" 31 TInt64;
  one "precise_min_commission" 32 TInt64;
  many "holiday" 33 (TMessage "ProtoOAHoliday");
  one "pnl_conversion_fee_rate" 34 TInt32;
  one "leverage_id" 35 TInt64;
  one "swap_period" 36 TInt32;
  one "swap_time" 37 TInt32;
  one "skip_s_w_a_p_periods" 38 TInt32;
  one "charge_swap_at_weekends" 39 TBool;
  one "measurement_units" 40 TString].

Definition ProtoOALightSymbol_fields : list field := [
  one "symbol_id" 1 TInt64;
  one "symbol_name" 2 TString;
  one "enabled" 3 TBool;
  one "base_asset_id" 4 TInt64;
  one "quote_asset_id" 5 TInt64;
  one "symbol_category_id" 6 TInt64;
  one "description" 7 TString;
  one "sorting_number" 8 TDouble].

Definition ProtoOAArchivedSymbol_fields : list field := [
  one "symbol_id" 1 TInt64;
  one "name" 2 TString;
  one "utc_last_update_timestamp" 3 TInt64;
  one "description" 4 TString].

Definition ProtoOASymbolCategory_fields : list field := [
  one "id" 1 TInt64;
  one "asset_class_id" 2 TInt64;
  one "name" 3 TString;
  one "sorting_number" 4 TDouble].

Definition ProtoOAInterval_fields : list field := [
  one "start_second" 3 TUInt32;
  one "end_second" 4 TUInt32].

Definition ProtoOATrader_fields : list field := [
  one "ctid_trader_account_id" 1 TInt64;
  one "balance" 2 TInt64;
  one "balance_version" 3 TInt64;
  one "manager_bonus" 4 TInt64;
  one "ib_bonus" 5 TInt64;
  one "non_withdrawable_bonus" 6 TInt64;
  one "access_rights" 7 (TEnum "ProtoOAAccessRights");
  one "deposit_asset_id" 8 TInt64;
  one "swap_free" 9 TBool;
  one "leverage_in_cents" 10 TUInt32;
  one "total_margin_calculation_type" 11 (TEnum "ProtoOATotalMarginCalculationType");
  one "max_leverage" 12 TUInt32;
  one "french_risk" 13 TBool;
  one "trader_login" 14 TInt64;
  one "account_type" 15 (TEnum "ProtoOAAccountType");
  one "broker_name" 16 TString;
  one "registration_timestamp" 17 TInt64;
  one "is_limited_risk" 18 TBool;
  one "limited_risk_margin_calculation_strategy" 19 (TEnum "ProtoOALimitedRiskMarginCalculationStrategy");
  one "money_digits" 20 TUInt32;
  one "fair_stop_out" 21 TBool;
  one "stop_out_strategy" 22 (TEnum "ProtoOAStopOutStrategy")].

Definition ProtoOAPosition_fields : list field := [
  one "position_id" 1 TInt64;
  one "trade_data" 2 (TMessage "ProtoOATradeData");
  one "position_status" 3 (TEnum "ProtoOAPositionStatus");
  one "swap" 4 TInt64;
  one "price" 5 TDouble;
  one "stop_loss" 6 TDouble;
  one "take_profit" 7 TDouble;
  one "utc_last_update_timestamp" 8 TInt64;
  one "commission" 9 TInt64;
  one "margin_rate" 10 TDouble;
  one "mirroring_commission" 11 TInt64;
  one "guaranteed_stop_loss" 12 TBool;
  one "used_margin" 13 TUInt64;
  one "stop_loss_trigger_method" 14 (TEnum "ProtoOAOrderTriggerMethod");
  one "money_digits" 15 TUInt32;
  one "trailing_stop_loss" 16 TBool].

Definition ProtoOATradeData_fields : list field := [
  one "symbol_id" 1 TInt64;
  one "volume" 2 TInt64;
  one "trade_side" 3 (TEnum "ProtoOATradeSide");
  one "open_timestamp" 4 TInt64;
  one "label" 5 TString;
  one "guaranteed_stop_loss" 6 TBool;
  one "comment" 7 TString;
  one "measurement_units" 8 TString;
  one "close_timestamp" 9 TUInt64].

Definition ProtoOAOrder_fields : list field := [
  one "order_id" 1 TInt64;
  one "trade_data" 2 (TMessage "ProtoOATradeData");
  one "order_type" 3 (TEnum "ProtoOAOrderType");
  one "order_status" 4 (TEnum "ProtoOAOrderStatus");
  one "expiration_timestamp" 6 TInt64;
  one "execution_price" 7 TDouble;
  one "executed_volume" 8 TInt64;
  one "utc_last_update_timestamp" 9 TInt64;
  one "base_slippage_price" 10 TDouble;
  one "slippage_in_points" 11 TInt64;
  one "closing_order" 12 TBool;
  one "limit_price" 13 TDouble;
  one "stop_price" 14 TDouble;
  one "stop_loss" 15 TDouble;
  one "take_profit" 16 TDouble;
  one "client_order_id" 17 TString;
  one "time_in_force" 18 (TEnum "ProtoOATimeInForce");
  one "position_id" 19 TInt64;
  one "relative_stop_loss" 20 TInt64;
  one "relative_take_profit" 21 TInt64;
  one "is_stop_out" 22 TBool;
  one "trailing_stop_loss" 23 TBool;
  one "stop_trigger_method" 24 (TEnum "ProtoOAOrderTriggerMethod")].

Definition ProtoOABonusDepositWithdraw_fields : list field := [
  one "operation_type" 1 (TEnum "ProtoOAChangeBonusType");
  one "bonus_history_id" 2 TInt64;
  one "manager_bonus" 3 TInt64;
  one "manager_delta" 4 TInt64;
  one "ib_bonus" 5 TInt64;
  one "ib_delta" 6 TInt64;
  one "change_bonus_timestamp" 7 TInt64;
  one "external_note" 8 TString;
  one "introducing_broker_id" 9 TInt64;
  one "money_digits" 10 TUInt32].

Definition ProtoOADepositWithdraw_fields : list field := [
  one "operation_type" 1 (TEnum "ProtoOAChangeBalanceType");
  one "balance_history_id" 2 TInt64;
  one "balance" 3 TInt64;
  one "delta" 4 TInt64;
  one "change_balance_timestamp" 5 TInt64;
  one "external_note" 6 TString;
  one "balance_version" 7 TInt64;
  one "equity" 8 TInt64;
  one "money_digits" 9 TUInt32].

Definition ProtoOADeal_fields : list field := [
  one "deal_id" 1 TInt64;
  one "order_id" 2 TInt64;
  one "position_id" 3 TInt64;
  one "volume" 4 TInt64;
  one "filled_volume" 5 TInt64;
  one "symbol_id" 6 TInt64;
  one "create_timestamp" 7 TInt64;
  one "execution_timestamp" 8 TInt64;
  one "utc_last_update_timestamp" 9 TInt64;
  one "execution_price" 10 TDouble;
  one "trade_side" 11 (TEnum "ProtoOATradeSide");
  one "deal_status" 12 (TEnum "ProtoOADealStatus");
  one "margin_rate" 13 TDouble;
  one "commission" 14 TInt64;
  one "base_to_usd_conversion_rate" 15 TDouble;
  one "close_position_detail" 16 (TMessage "ProtoOAClosePositionDetail");
  one "money_digits" 17 TUInt32].

Definition ProtoOADealOffset_fields : list field := [
  one "deal_id" 1 TInt64;
  one "volume" 2 TInt64;
  one "execution_timestamp" 3 TInt64;
  one "execution_price" 4 TDouble].

Definition ProtoOAClosePositionDetail_fields : list field := [
  one "entry_price" 1 TDouble;
  one "gross_profit" 2 TInt64;
  one "swap" 3 TInt64;
  one "commission" 4 TInt64;
  one "balance" 5 TInt64;
  one "quote_to_deposit_conversion_rate" 6 TDouble;
  one "closed_volume" 7 TInt64;
  one "balance_version" 8 TInt64;
  one "money_digits" 9 TUInt32;
  one "pnl_conversion_fee" 10 TInt64].

Definition ProtoOATrendbar_fields : list field := [
  one "volume" 3 TInt64;
  one "period" 4 (TEnum "ProtoOATrendbarPeriod");
  one "low" 5 TInt64;
  one "delta_open" 6 TUInt64;
  one "delta_close" 7 TUInt64;
  one "delta_high" 8 TUInt64;
  one "utc_timestamp_in_minutes" 9 TUInt32].

Definition ProtoOAExpectedMargin_fields : list field := [
  one "volume" 1 TInt64;
  one "buy_margin" 2 TInt64;
  one "sell_margin" 3 TInt64].

Definition ProtoOATickData_fields : list field := [
  one "timestamp" 1 TInt64;
  one "tick" 2 TInt64].

Definition ProtoOACtidProfile_fields : list field := [
  one "user_id" 1 TInt64].

Definition ProtoOACtidTraderAccount_fields : list field := [
  one "ctid_trader_account_id" 1 TUInt64;
  one "is_live" 2 TBool;
  one "trader_login" 3 TInt64;
  one "last_closing_deal_timestamp" 4 TInt64;
  one "last_balance_update_timestamp" 5 TInt64;
  one "broker_title_short" 6 TString].

Definition ProtoOAAssetClass_fields : list field := [
  one "id" 1 TInt64;
  one "name" 2 TString;
  one "sorting_number" 3 TDouble].

Definition ProtoOADepthQuote_fields : list field := [
  one "id" 1 TUInt64;
  one "size" 3 TUInt64;
  one "bid" 4 TUInt64;
  one "ask" 5 TUInt64].

Definition ProtoOAMarginCall_fields : list field := [
  one "margin_call_type" 1 (TEnum "ProtoOANotificationType");
  one "margin_level_threshold" 2 TDouble;
  one "utc_last_update_timestamp" 3 TInt64].

Definition ProtoOAHoliday_fields : list field := [
  one "holiday_id" 1 TInt64;
  one "name" 2 TString;
  one "description" 3 TString;
  one "schedule_time_zone" 4 TString;
  one "holiday_date" 5 TInt64;
  one "is_recurring" 6 TBool;
  one "start_second" 7 TInt32;
  one "end_second" 8 TInt32].

Definition ProtoOADynamicLeverage_fields : list field := [
  one "leverage_id" 1 TInt64;
  many "tiers" 2 (TMessage "ProtoOADynamicLeverageTier")].

Definition ProtoOADynamicLeverageTier_fields : list field := [
  one "volume" 1 TInt64;
  one "leverage" 2 TInt32].

Definition ProtoOAPositionUnrealizedPnL_fields : list field := [
  one "position_id" 1 TInt64;
  one "gross_unrealized_pn_l" 2 TInt64;
  one "net_unrealized_pn_l" 3 TInt64].

(** ** Requests, responses and events ([OpenApiMessages.py]) *)

Definition ProtoOAApplicationAuthReq_fields : list field := [
  one "payload_type" 1 (TEnum "ProtoOAPayloadType");
  one "client_id" 2 TString;
  one "client_secret" 3 TString].

Definition ProtoOAApplicationAuthRes_fields : list field := [
  one "payload_type" 1 (TEnum "ProtoOAPayloadType")].

Definition ProtoOAAccountAuthReq_fields : list field := [
  one "payload_type" 1 (TEnum "ProtoOAPayloadType");
  one "ctid_trader_account_id" 2 TInt64;
  one "access_token" 3 TString].

Definition ProtoOAAccountAuthRes_fields : list field := [
  one "payload_type" 1 (TEnum "ProtoOAPayloadType");
  one "ctid_trader_account_id" 2 TInt64].

Definition ProtoOAErrorRes_fields : list field := [
  one "payload_type" 1 (TEnum "ProtoOAPayloadType");
  one "ctid_trader_account_id" 2 TInt64;
  one "error_code" 3 TString;
  one "description" 4 TString;
  one "maintenance_end_timestamp" 5 TInt64;
  one "retry_after" 6 TUInt64].

Definition ProtoOAClientDisconnectEvent_fields : list field := [
  one "payload_type" 1 (TEnum "ProtoOAPayloadType");
  one "reason" 2 TString].

Definition ProtoOAAccountsTokenInvalidatedEvent_fields : list field := [
  one "payload_type" 1 (TEnum "ProtoOAPayloadType");
  many "ctid_trader_account_ids" 2 TInt64;
  one "reason" 3 TString].

Definition ProtoOAVersionReq_fields : list field := [
  one "payload_type" 1 (TEnum "ProtoOAPayloadType")].

Definition ProtoOAVersionRes_fields : list field := [
  one "payload_type" 1 (TEnum "ProtoOAPayloadType");
  one "version" 2 TString].

Definition ProtoOANewOrderReq_fields : list field := [
  one "payload_type" 1 (TEnum "ProtoOAPayloadType");
  one "ctid_trader_account_id" 2 TInt64;
  one "symbol_id" 3 TInt64;
  one "order_type" 4 (TEnum "ProtoOAOrderType");
  one "trade_side" 5 (TEnum "ProtoOATradeSide");
  one "volume" 6 TInt64;
  one "limit_price" 7 TDouble;
  one "stop_price" 8 TDouble;
  one "time_in_force" 9 (TEnum "ProtoOATimeInForce");
  one "expiration_timestamp" 10 TInt64;
  one "stop_loss" 11 TDouble;
  one "take_profit" 12 TDouble;
  one "comment" 13 TString;
  one "base_slippage_price" 14 TDouble;
  one "slippage_in_points" 15 TInt32;
  one "label" 16 TString;
  one "position_id" 17 TInt64;
  one "client_order_id" 18 TString;
  one "relative_stop_loss" 19 TInt64;
  one "relative_take_profit" 20 TInt64;
  one "guaranteed_stop_loss" 21 TBool;
  one "trailing_stop_loss" 22 TBool;
  one "stop_trigger_method" 23 (TEnum "ProtoOAOrderTriggerMethod")].

Definition ProtoOAExecutionEvent_fields : list field := [
  one "payload_type" 1 (TEnum "ProtoOAPayloadType");
  one "ctid_trader_account_id" 2 TInt64;
  one "execution_type" 3 (TEnum "ProtoOAExecutionType");
  one "position" 4 (TMessage "ProtoOAPosition");
  one "order" 5 (TMessage "ProtoOAOrder");
  one "deal" 6 (TMessage "ProtoOADeal");
  one "bonus_deposit_withdraw" 7 (TMessage "ProtoOABonusDepositWithdraw");
  one "deposit_withdraw" 8 (TMessage "ProtoOADepositWithdraw");
  one "error_code" 9 TString;
  one "is_server_event" 10 TBool].

Definition ProtoOACancelOrderReq_fields : list field := [
  one "payload_type" 1 (TEnum "ProtoOAPayloadType");
  one "ctid_trader_account_id" 2 TInt64;
  one "order_id" 3 TInt64].

Definition ProtoOAAmendOrderReq_fields : list field := [
  one "payload_type" 1 (TEnum "ProtoOAPayloadType");
  one "ctid_trader_account_id" 2 TInt64;
  one "order_id" 3 TInt64;
  one "volume" 4 TInt64;
  one "limit_price" 5 TDouble;
  one "stop_price" 6 TDouble;
  one "expiration_timestamp" 7 TInt64;
  one "stop_loss" 8 TDouble;
  one "take_profit" 9 TDouble;
  one "slippage_in_points" 10 TInt32;
  one "relative_stop_loss" 11 TInt64;
  one "relative_take_profit" 12 TInt64;
  one "guaranteed_stop_loss" 13 TBool;
  one "trailing_stop_loss" 14 TBool;
  one "stop_trigger_method" 15 (TEnum "ProtoOAOrderTriggerMethod")].

Definition ProtoOAAmendPositionSLTPReq_fields : list field := [
  one "payload_type" 1 (TEnum "ProtoOAPayloadType");
  one "ctid_trader_account_id" 2 TInt64;
  one "position_id" 3 TInt64;
  one "stop_loss" 4 TDouble;
  one "take_profit" 5 TDouble;
  one "guaranteed_stop_loss" 7 TBool;
  one "trailing_stop_loss" 8 TBool;
  one "stop_loss_trigger_method" 9 (TEnum "ProtoOAOrderTriggerMethod")].

Definition ProtoOAClosePositionReq_fields : list field := [
  one "payload_type" 1 (TEnum "ProtoOAPayloadType");
  one "ctid_trader_account_id" 2 TInt64;
  one "position_id" 3 TInt64;
  one "volume" 4 TInt64].

Definition ProtoOATrailingSLChangedEvent_fields : list field := [
  one "payload_type" 1 (TEnum "ProtoOAPayloadType");
  one "ctid_trader_account_id" 2 TInt64;
  one "position_id" 3 TInt64;
  one "order_id" 4 TInt64;
  one "stop_price" 5 TDouble;
  one "utc_last_update_timestamp" 6 TInt64].

Definition ProtoOAAssetListReq_fields : list field := [
  one "payload_type" 1 (TEnum "ProtoOAPayloadType");
  one "ctid_trader_account_id" 2 TInt64].

Definition ProtoOAAssetListRes_fields : list field := [
  one "payload_type" 1 (TEnum "ProtoOAPayloadType");
  one "ctid_trader_account_id" 2 TInt64;
  many "asset" 3 (TMessage "ProtoOAAsset")].

Definition ProtoOASymbolsListReq_fields : list field := [
  one "payload_type" 1 (TEnum "ProtoOAPayloadType");
  one "ctid_trader_account_id" 2 TInt64;
  one "include_archived_symbols" 3 TBool].

Definition ProtoOASymbolsListRes_fields : list field := [
  one "payload_type" 1 (TEnum "ProtoOAPayloadType");
  one "ctid_trader_account_id" 2 TInt64;
  many "symbol" 3 (TMessage "ProtoOALightSymbol");
  many "archived_symbol" 4 (TMessage "ProtoOAArchivedSymbol")].

Definition ProtoOASymbolByIdReq_fields : list field := [
  one "payload_type" 1 (TEnum "ProtoOAPayloadType");
  one "ctid_trader_account_id" 2 TInt64;
  many "symbol_id" 3 TInt64].

Definition ProtoOASymbolByIdRes_fields : list field := [
  one "payload_type" 1 (TEnum "ProtoOAPayloadType");
  one "ctid_trader_account_id" 2 TInt64;
  many "symbol" 3 (TMessage "ProtoOASymbol");
  many "archived_symbol" 4 (TMessage "ProtoOAArchivedSymbol")].

Definition ProtoOASymbolsForConversionReq_fields : list field := [
  one "payload_type" 1 (TEnum "ProtoOAPayloadType");
  one "ctid_trader_account_id" 2 TInt64;
  one "first_asset_id" 3 TInt64;
  one "last_asset_id" 4 TInt64].

Definition ProtoOASymbolsForConversionRes_fields : list field := [
  one "payload_type" 1 (TEnum "ProtoOAPayloadType");
  one "ctid_trader_account_id" 2 TInt64;
  many "symbol" 3 (TMessage "ProtoOALightSymbol")].

Definition ProtoOASymbolChangedEvent_fields : list field := [
  one "payload_type" 1 (TEnum "ProtoOAPayloadType");
  one "ctid_trader_account_id" 2 TInt64;
  many "symbol_id" 3 TInt64].

Definition ProtoOAAssetClassListReq_fields : list field := [
  one "payload_type" 1 (TEnum "ProtoOAPayloadType");
  one "ctid_trader_account_id" 2 TInt64].

Definition ProtoOAAssetClassListRes_fields : list field := [
  one "payload_type" 1 (TEnum "ProtoOAPayloadType");
  one "ctid_trader_account_id" 2 TInt64;
  many "asset_class" 3 (TMessage "ProtoOAAssetClass")].

Definition ProtoOATraderReq_fields : list field := [
  one "payload_type" 1 (TEnum "ProtoOAPayloadType");
  one "ctid_trader_account_id" 2 TInt64].

Definition ProtoOATraderRes_fields : list field := [
  one "payload_type" 1 (TEnum "ProtoOAPayloadType");
  one "ctid_trader_account_id" 2 TInt64;
  one "trader" 3 (TMessage "ProtoOATrader")].

Definition ProtoOATraderUpdatedEvent_fields : list field := [
  one "payload_type" 1 (TEnum "ProtoOAPayloadType");
  one "ctid_trader_account_id" 2 TInt64;
  one "trader" 3 (TMessage "ProtoOATrader")].

Definition ProtoOAReconcileReq_fields : list field := [
  one "payload_type" 1 (TEnum "ProtoOAPayloadType");
  one "ctid_trader_account_id" 2 TInt64;
  one "return_protection_orders" 3 TBool].

Definition ProtoOAReconcileRes_fields : list field := [
  one "payload_type" 1 (TEnum "ProtoOAPayloadType");
  one "ctid_trader_account_id" 2 TInt64;
  many "position" 3 (TMessage "ProtoOAPosition");
  many "order" 4 (TMessage "ProtoOAOrder")].

Definition ProtoOAOrderErrorEvent_fields : list field := [
  one "payload_type" 1 (TEnum "ProtoOAPayloadType");
  one "ctid_trader_account_id" 5 TInt64;
  one "error_code" 2 TString;
  one "order_id" 3 TInt64;
  one "position_id" 6 TInt64;
  one "description" 7 TString].

Definition ProtoOADealListReq_fields : list field := [
  one "payload_type" 1 (TEnum "ProtoOAPayloadType");
  one "ctid_trader_account_id" 2 TInt64;
  one "from_timestamp" 3 TInt64;
  one "to_timestamp" 4 TInt64;
  one "max_rows" 5 TInt32].

Definition ProtoOADealListRes_fields : list field := [
  one "payload_type" 1 (TEnum "ProtoOAPayloadType");
  one "ctid_trader_account_id" 2 TInt64;
  many "deal" 3 (TMessage "ProtoOADeal");
  one "has_more" 4 TBool].

Definition ProtoOAOrderListReq_fields : list field := [
  one "payload_type" 1 (TEnum "ProtoOAPayloadType");
  one "ctid_trader_account_id" 2 TInt64;
  one "from_timestamp" 3 TInt64;
  one "to_timestamp" 4 TInt64].

Definition ProtoOAOrderListRes_fields : list field := [
  one "payload_type" 1 (TEnum "ProtoOAPayloadType");
  one "ctid_trader_account_id" 2 TInt64;
  many "order" 3 (TMessage "ProtoOAOrder");
  one "has_more" 4 TBool].

Definition ProtoOAExpectedMarginReq_fields : list field := [
  one "payload_type" 1 (TEnum "ProtoOAPayloadType");
  one "ctid_trader_account_id" 2 TInt64;
  one "symbol_id" 3 TInt64;
  many "volume" 4 TInt64].

Definition ProtoOAExpectedMarginRes_fields : list field := [
  one "payload_type" 1 (TEnum "ProtoOAPayloadType");
  one "ctid_trader_account_id" 2 TInt64;
  many "margin" 3 (TMessage "ProtoOAExpectedMargin");
  one "money_digits" 4 TUInt32].

Definition ProtoOAMarginChangedEvent_fields : list field := [
  one "payload_type" 1 (TEnum "ProtoOAPayloadType");
  one "ctid_trader_account_id" 2 TInt64;
  one "position_id" 3 TUInt64;
  one "used_margin" 4 TUInt64;
  one "money_digits" 5 TUInt32].

Definition ProtoOACashFlowHistoryListReq_fields : list field := [
  one "payload_type" 1 (TEnum "ProtoOAPayloadType");
  one "ctid_trader_account_id" 2 TInt64;
  one "from_timestamp" 3 TInt64;
  one "to_timestamp" 4 TInt64].

Definition ProtoOACashFlowHistoryListRes_fields : list field := [
  one "payload_type" 1 (TEnum "ProtoOAPayloadType");
  one "ctid_trader_account_id" 2 TInt64;
  many "deposit_withdraw" 3 (TMessage "ProtoOADepositWithdraw")].

Definition ProtoOAGetAccountListByAccessTokenReq_fields : list field := [
  one "payload_type" 1 (TEnum "ProtoOAPayloadType");
  one "access_token" 2 TString].

Definition ProtoOAGetAccountListByAccessTokenRes_fields : list field := [
  one "payload_type" 1 (TEnum "ProtoOAPayloadType");
  one "access_token" 2 TString;
  one "permission_scope" 3 (TEnum "ProtoOAClientPermissionScope");
  many "ctid_trader_account" 4 (TMessage "ProtoOACtidTraderAccount")].

Definition ProtoOARefreshTokenReq_fields : list field := [
  one "payload_type" 1 (TEnum "ProtoOAPayloadType");
  one "refresh_token" 2 TString].

Definition ProtoOARefreshTokenRes_fields : list field := [
  one "payload_type" 1 (TEnum "ProtoOAPayloadType");
  one "access_token" 2 TString;
  one "token_type" 3 TString;
  one "expires_in" 4 TInt64;
  one "refresh_token" 5 TString].

Definition ProtoOASubscribeSpotsReq_fields : list field := [
  one "payload_type" 1 (TEnum "ProtoOAPayloadType");
  one "ctid_trader_account_id" 2 TInt64;
  many "symbol_id" 3 TInt64;
  one "subscribe_to_spot_timestamp" 4 TBool].

Definition ProtoOASubscribeSpotsRes_fields : list field := [
  one "payload_type" 1 (TEnum "ProtoOAPayloadType");
  one "ctid_trader_account_id" 2 TInt64].

Definition ProtoOAUnsubscribeSpotsReq_fields : list field := [
  one "payload_type" 1 (TEnum "ProtoOAPayloadType");
  one "ctid_trader_account_id" 2 TInt64;
  many "symbol_id" 3 TInt64].

Definition ProtoOAUnsubscribeSpotsRes_fields : list field := [
  one "payload_type" 1 (TEnum "ProtoOAPayloadType");
  one "ctid_trader_account_id" 2 TInt64].

Definition ProtoOASpotEvent_fields : list field := [
  one "payload_type" 1 (TEnum "ProtoOAPayloadType");
  one "ctid_trader_account_id" 2 TInt64;
  one "symbol_id" 3 TInt64;
  one "bid" 4 TUInt64;
  one "ask" 5 TUInt64;
  many "trendbar" 6 (TMessage "ProtoOATrendbar");
  one "session_close" 7 TUInt64;
  one "timestamp" 8 TInt64].

Definition ProtoOASubscribeLiveTrendbarReq_fields : list field := [
  one "payload_type" 1 (TEnum "ProtoOAPayloadType");
  one "ctid_trader_account_id" 2 TInt64;
  one "period" 3 (TEnum "ProtoOATrendbarPeriod");
  one "symbol_id" 4 TInt64].

Definition ProtoOASubscribeLiveTrendbarRes_fields : list field := [
  one "payload_type" 1 (TEnum "ProtoOAPayloadType");
  one "ctid_trader_account_id" 2 TInt64].

Definition ProtoOAUnsubscribeLiveTrendbarReq_fields : list field := [
  one "payload_type" 1 (TEnum "ProtoOAPayloadType");
  one "ctid_trader_account_id" 2 TInt64;
  one "period" 3 (TEnum "ProtoOATrendbarPeriod");
  one "symbol_id" 4 TInt64].

Definition ProtoOAUnsubscribeLiveTrendbarRes_fields : list field := [
  one "payload_type" 1 (TEnum "ProtoOAPayloadType");
  one "ctid_trader_account_id" 2 TInt64].

Definition ProtoOAGetTrendbarsReq_fields : list field := [
  one "payload_type" 1 (TEnum "ProtoOAPayloadType");
  one "ctid_trader_account_id" 2 TInt64;
  one "from_timestamp" 3 TInt64;
  one "to_timestamp" 4 TInt64;
  one "period" 5 (TEnum "ProtoOATrendbarPeriod");
  one "symbol_id" 6 TInt64;
  one "count" 7 TUInt32].

Definition ProtoOAGetTrendbarsRes_fields : list field := [
  one "payload_type" 1 (TEnum "ProtoOAPayloadType");
  one "ctid_trader_account_id" 2 TInt64;
  one "period" 3 (TEnum "ProtoOATrendbarPeriod");
  one "timestamp" 4 TInt64;
  many "trendbar" 5 (TMessage "ProtoOATrendbar");
  one "symbol_id" 6 TInt64;
  one "has_more" 7 TBool].

Definition ProtoOAGetTickDataReq_fields : list field := [
  one "payload_type" 1 (TEnum "ProtoOAPayloadType");
  one "ctid_trader_account_id" 2 TInt64;
  one "symbol_id" 3 TInt64;
  one "type" 4 (TEnum "ProtoOAQuoteType");
  one "from_timestamp" 5 TInt64;
  one "to_timestamp" 6 TInt64].

Definition ProtoOAGetTickDataRes_fields : list field := [
  one "payload_type" 1 (TEnum "ProtoOAPayloadType");
  one "ctid_trader_account_id" 2 TInt64;
  many "tick_data" 3 (TMessage "ProtoOATickData");
  one "has_more" 4 TBool].

Definition ProtoOAGetCtidProfileByTokenReq_fields : list field := [
  one "payload_type" 1 (TEnum "ProtoOAPayloadType");
  one "access_token" 2 TString].

Definition ProtoOAGetCtidProfileByTokenRes_fields : list field := [
  one "payload_type" 1 (TEnum "ProtoOAPayloadType");
  one "profile" 2 (TMessage "ProtoOACtidProfile")].

Definition ProtoOADepthEvent_fields : list field := [
  one "payload_type" 1 (TEnum "ProtoOAPayloadType");
  one "ctid_trader_account_id" 2 TInt64;
  one "symbol_id" 3 TUInt64;
  many "new_quotes" 4 (TMessage "ProtoOADepthQuote");
  many "deleted_quotes" 5 TUInt64].

Definition ProtoOASubscribeDepthQuotesReq_fields : list field := [
  one "payload_type" 1 (TEnum "ProtoOAPayloadType");
  one "ctid_trader_account_id" 2 TInt64;
  many "symbol_id" 3 TInt64].

Definition ProtoOASubscribeDepthQuotesRes_fields : list field := [
  one "payload_type" 1 (TEnum "ProtoOAPayloadType");
  one "ctid_trader_account_id" 2 TInt64].

Definition ProtoOAUnsubscribeDepthQuotesReq_fields : list field := [
  one "payload_type" 1 (TEnum "ProtoOAPayloadType");
  one "ctid_trader_account_id" 2 TInt64;
  many "symbol_id" 3 TInt64].

Definition ProtoOAUnsubscribeDepthQuotesRes_fields : list field := [
  one "payload_type" 1 (TEnum "ProtoOAPayloadType");
  one "ctid_trader_account_id" 2 TInt64].

Definition ProtoOASymbolCategoryListReq_fields : list field := [
  one "payload_type" 1 (TEnum "ProtoOAPayloadType");
  one "ctid_trader_account_id" 2 TInt64].

Definition ProtoOASymbolCategoryListRes_fields : list field := [
  one "payload_type" 1 (TEnum "ProtoOAPayloadType");
  one "ctid_trader_account_id" 2 TInt64;
  many "symbol_category" 3 (TMessage "ProtoOASymbolCategory")].

Definition ProtoOAAccountLogoutReq_fields : list field := [
  one "payload_type" 1 (TEnum "ProtoOAPayloadType");
  one "ctid_trader_account_id" 2 TInt64].

Definition ProtoOAAccountLogoutRes_fields : list field := [
  one "payload_type" 1 (TEnum "ProtoOAPayloadType");
  one "ctid_trader_account_id" 2 TInt64].

Definition ProtoOAAccountDisconnectEvent_fields : list field := [
  one "payload_type" 1 (TEnum "ProtoOAPayloadType");
  one "ctid_trader_account_id" 2 TInt64].

Definition ProtoOAMarginCallListReq_fields : list field := [
  one "payload_type" 1 (TEnum "ProtoOAPayloadType");
  one "ctid_trader_account_id" 2 TInt64].

Definition ProtoOAMarginCallListRes_fields : list field := [
  one "payload_type" 1 (TEnum "ProtoOAPayloadType");
  many "margin_call" 2 (TMessage "ProtoOAMarginCall")].

Definition ProtoOAMarginCallUpdateReq_fields : list field := [
  one "payload_type" 1 (TEnum "ProtoOAPayloadType");
  one "ctid_trader_account_id" 2 TInt64;
  one "margin_call" 3 (TMessage "ProtoOAMarginCall")].

Definition ProtoOAMarginCallUpdateRes_fields : list field := [
  one "payload_type" 1 (TEnum "ProtoOAPayloadType")].

Definition ProtoOAMarginCallUpdateEvent_fields : list field := [
  one "payload_type" 1 (TEnum "ProtoOAPayloadType");
  one "ctid_trader_account_id" 2 TInt64;
  one "margin_call" 3 (TMessage "ProtoOAMarginCall")].

Definition ProtoOAMarginCallTriggerEvent_fields : list field := [
  one "payload_type" 1 (TEnum "ProtoOAPayloadType");
  one "ctid_trader_account_id" 2 TInt64;
  one "margin_call" 3 (TMessage "ProtoOAMarginCall")].

Definition ProtoOAGetDynamicLeverageByIDReq_fields : list field := [
  one "payload_type" 1 (TEnum "ProtoOAPayloadType");
  one "ctid_trader_account_id" 2 TInt64;
  one "leverage_id" 3 TInt64].

Definition ProtoOAGetDynamicLeverageByIDRes_fields : list field := [
  one "payload_type" 1 (TEnum "ProtoOAPayloadType");
  one "ctid_trader_account_id" 2 TInt64;
  one "leverage" 3 (TMessage "ProtoOADynamicLeverage")].

Definition ProtoOADealListByPositionIdReq_fields : list field := [
  one "payload_type" 1 (TEnum "ProtoOAPayloadType");
  one "ctid_trader_account_id" 2 TInt64;
  one "position_id" 3 TInt64;
  one "from_timestamp" 4 TInt64;
  one "to_timestamp" 5 TInt64].

Definition ProtoOADealListByPositionIdRes_fields : list field := [
  one "payload_type" 1 (TEnum "ProtoOAPayloadType");
  one "ctid_trader_account_id" 2 TInt64;
  many "deal" 3 (TMessage "ProtoOADeal");
  one "has_more" 4 TBool].

Definition ProtoOAOrderDetailsReq_fields : list field := [
  one "payload_type" 1 (TEnum "ProtoOAPayloadType");
  one "ctid_trader_account_id" 2 TInt64;
  one "order_id" 3 TInt64].

Definition ProtoOAOrderDetailsRes_fields : list field := [
  one "payload_type" 1 (TEnum "ProtoOAPayloadType");
  one "ctid_trader_account_id" 2 TInt64;
  one "order" 3 (TMessage "ProtoOAOrder");
  many "deal" 4 (TMessage "ProtoOADeal")].

Definition ProtoOAOrderListByPositionIdReq_fields : list field := [
  one "payload_type" 1 (TEnum "ProtoOAPayloadType");
  one "ctid_trader_account_id" 2 TInt64;
  one "position_id" 3 TInt64;
  one "from_timestamp" 4 TInt64;
  one "to_timestamp" 5 TInt64].

Definition ProtoOAOrderListByPositionIdRes_fields : list field := [
  one "payload_type" 1 (TEnum "ProtoOAPayloadType");
  one "ctid_trader_account_id" 2 TInt64;
  many "order" 3 (TMessage "ProtoOAOrder");
  one "has_more" 4 TBool].

Definition ProtoOADealOffsetListReq_fields : list field := [
  one "payload_type" 1 (TEnum "ProtoOAPayloadType");
  one "ctid_trader_account_id" 2 TInt64;
  one "deal_id" 3 TInt64].

Definition ProtoOADealOffsetListRes_fields : list field := [
  one "payload_type" 1 (TEnum "ProtoOAPayloadType");
  one "ctid_trader_account_id" 2 TInt64;
  many "offset_by" 3 (TMessage "ProtoOADealOffset");
  many "offsetting" 4 (TMessage "ProtoOADealOffset")].

Definition ProtoOAGetPositionUnrealizedPnLReq_fields : list field := [
  one "payload_type" 1 (TEnum "ProtoOAPayloadType");
  one "ctid_trader_account_id" 2 TInt64].

Definition ProtoOAGetPositionUnrealizedPnLRes_fields : list field := [
  one "payload_type" 1 (TEnum "ProtoOAPayloadType");
  one "ctid_trader_account_id" 2 TInt64;
  many "position_unrealized_pn_l" 3 (TMessage "ProtoOAPositionUnrealizedPnL");
  one "money_digits" 4 TUInt32].

(** ** All of them *)

Definition ENUMS : dict string (dict string Z) := [
  ("ProtoPayloadType", ProtoPayloadType_members);
  ("ProtoErrorCode", ProtoErrorCode_members);
  ("ProtoOAPayloadType", ProtoOAPayloadType_members);
  ("ProtoOADayOfWeek", ProtoOADayOfWeek_members);
  ("ProtoOACommissionType", ProtoOACommissionType_members);
  ("ProtoOASymbolDistanceType", ProtoOASymbolDistanceType_members);
  ("ProtoOAMinCommissionType", ProtoOAMinCommissionType_members);
  ("ProtoOATradingMode", ProtoOATradingMode_members);
  ("ProtoOASwapCalculationType", ProtoOASwapCalculationType_members);
  ("ProtoOAAccessRights", ProtoOAAccessRights_members);
  ("ProtoOATotalMarginCalculationType", ProtoOATotalMarginCalculationType_members);
  ("ProtoOAAccountType", ProtoOAAccountType_members);
  ("ProtoOAPositionStatus", ProtoOAPositionStatus_members);
  ("ProtoOATradeSide", ProtoOATradeSide_members);
  ("ProtoOAOrderType", ProtoOAOrderType_members);
  ("ProtoOATimeInForce", ProtoOATimeInForce_members);
  ("ProtoOAOrderStatus", ProtoOAOrderStatus_members);
  ("ProtoOAOrderTriggerMethod", ProtoOAOrderTriggerMethod_members);
  ("ProtoOAExecutionType", ProtoOAExecutionType_members);
  ("ProtoOAChangeBonusType", ProtoOAChangeBonusType_members);
  ("ProtoOAChangeBalanceType", ProtoOAChangeBalanceType_members);
  ("ProtoOADealStatus", ProtoOADealStatus_members);
  ("ProtoOATrendbarPeriod", ProtoOATrendbarPeriod_members);
  ("ProtoOAQuoteType", ProtoOAQuoteType_members);
  ("ProtoOAClientPermissionScope", ProtoOAClientPermissionScope_members);
  ("ProtoOANotificationType", ProtoOANotificationType_members);
  ("ProtoOAErrorCode", ProtoOAErrorCode_members);
  ("ProtoOALimitedRiskMarginCalculationStrategy", ProtoOALimitedRiskMarginCalculationStrategy_members);
  ("ProtoOAStopOutStrategy", ProtoOAStopOutStrategy_members)].

Definition MESSAGES : dict string (list field) := [
  ("ProtoMessage", ProtoMessage_fields);
  ("ProtoErrorRes", ProtoErrorRes_fields);
  ("ProtoHeartbeatEvent", ProtoHeartbeatEvent_fields);
  ("ProtoOAAsset", ProtoOAAsset_fields);
  ("ProtoOASymbol", ProtoOASymbol_fields);
  ("ProtoOALightSymbol", ProtoOALightSymbol_fields);
  ("ProtoOAArchivedSymbol", ProtoOAArchivedSymbol_fields);
  ("ProtoOASymbolCategory", ProtoOASymbolCategory_fields);
  ("ProtoOAInterval", ProtoOAInterval_fields);
  ("ProtoOATrader", ProtoOATrader_fields);
  ("ProtoOAPosition", ProtoOAPosition_fields);
  ("ProtoOATradeData", ProtoOATradeData_fields);
  ("ProtoOAOrder", ProtoOAOrder_fields);
  ("ProtoOABonusDepositWithdraw", ProtoOABonusDepositWithdraw_fields);
  ("ProtoOADepositWithdraw", ProtoOADepositWithdraw_fields);
  ("ProtoOADeal", ProtoOADeal_fields);
  ("ProtoOADealOffset", ProtoOADealOffset_fields);
  ("ProtoOAClosePositionDetail", ProtoOAClosePositionDetail_fields);
  ("ProtoOATrendbar", ProtoOATrendbar_fields);
  ("ProtoOAExpectedMargin", ProtoOAExpectedMargin_fields);
  ("ProtoOATickData", ProtoOATickData_fields);
  ("ProtoOACtidProfile", ProtoOACtidProfile_fields);
  ("ProtoOACtidTraderAccount", ProtoOACtidTraderAccount_fields);
  ("ProtoOAAssetClass", ProtoOAAssetClass_fields);
  ("ProtoOADepthQuote", ProtoOADepthQuote_fields);
  ("ProtoOAMarginCall", ProtoOAMarginCall_fields);
  ("ProtoOAHoliday", ProtoOAHoliday_fields);
  ("ProtoOADynamicLeverage", ProtoOADynamicLeverage_fields);
  ("ProtoOADynamicLeverageTier", ProtoOADynamicLeverageTier_fields);
  ("ProtoOAPositionUnrealizedPnL", ProtoOAPositionUnrealizedPnL_fields);
  ("ProtoOAApplicationAuthReq", ProtoOAApplicationAuthReq_fields);
  ("ProtoOAApplicationAuthRes", ProtoOAApplicationAuthRes_fields);
  ("ProtoOAAccountAuthReq", ProtoOAAccountAuthReq_fields);
  ("ProtoOAAccountAuthRes", ProtoOAAccountAuthRes_fields);
  ("ProtoOAErrorRes", ProtoOAErrorRes_fields);
  ("ProtoOAClientDisconnectEvent", ProtoOAClientDisconnectEvent_fields);
  ("ProtoOAAccountsTokenInvalidatedEvent", ProtoOAAccountsTokenInvalidatedEvent_fields);
  ("ProtoOAVersionReq", ProtoOAVersionReq_fields);
  ("ProtoOAVersionRes", ProtoOAVersionRes_fields);
  ("ProtoOANewOrderReq", ProtoOANewOrderReq_fields);
  ("ProtoOAExecutionEvent", ProtoOAExecutionEvent_fields);
  ("ProtoOACancelOrderReq", ProtoOACancelOrderReq_fields);
  ("ProtoOAAmendOrderReq", ProtoOAAmendOrderReq_fields);
  ("ProtoOAAmendPositionSLTPReq", ProtoOAAmendPositionSLTPReq_fields);
  ("ProtoOAClosePositionReq", ProtoOAClosePositionReq_fields);
  ("ProtoOATrailingSLChangedEvent", ProtoOATrailingSLChangedEvent_fields);
  ("ProtoOAAssetListReq", ProtoOAAssetListReq_fields);
  ("ProtoOAAssetListRes", ProtoOAAssetListRes_fields);
  ("ProtoOASymbolsListReq", ProtoOASymbolsListReq_fields);
  ("ProtoOASymbolsListRes", ProtoOASymbolsListRes_fields);
  ("ProtoOASymbolByIdReq", ProtoOASymbolByIdReq_fields);
  ("ProtoOASymbolByIdRes", ProtoOASymbolByIdRes_fields);
  ("ProtoOASymbolsForConversionReq", ProtoOASymbolsForConversionReq_fields);
  ("ProtoOASymbolsForConversionRes", ProtoOASymbolsForConversionRes_fields);
  ("ProtoOASymbolChangedEvent", ProtoOASymbolChangedEvent_fields);
  ("ProtoOAAssetClassListReq", ProtoOAAssetClassListReq_fields);
  ("ProtoOAAssetClassListRes", ProtoOAAssetClassListRes_fields);
  ("ProtoOATraderReq", ProtoOATraderReq_fields);
  ("ProtoOATraderRes", ProtoOATraderRes_fields);
  ("ProtoOATraderUpdatedEvent", ProtoOATraderUpdatedEvent_fields);
  ("ProtoOAReconcileReq", ProtoOAReconcileReq_fields);
  ("ProtoOAReconcileRes", ProtoOAReconcileRes_fields);
  ("ProtoOAOrderErrorEvent", ProtoOAOrderErrorEvent_fields);
  ("ProtoOADealListReq", ProtoOADealListReq_fields);
  ("ProtoOADealListRes", ProtoOADealListRes_fields);
  ("ProtoOAOrderListReq", ProtoOAOrderListReq_fields);
  ("ProtoOAOrderListRes", ProtoOAOrderListRes_fields);
  ("ProtoOAExpectedMarginReq", ProtoOAExpectedMarginReq_fields);
  ("ProtoOAExpectedMarginRes", ProtoOAExpectedMarginRes_fields);
  ("ProtoOAMarginChangedEvent", ProtoOAMarginChangedEvent_fields);
  ("ProtoOACashFlowHistoryListReq", ProtoOACashFlowHistoryListReq_fields);
  ("ProtoOACashFlowHistoryListRes", ProtoOACashFlowHistoryListRes_fields);
  ("ProtoOAGetAccountListByAccessTokenReq", ProtoOAGetAccountListByAccessTokenReq_fields);
  ("ProtoOAGetAccountListByAccessTokenRes", ProtoOAGetAccountListByAccessTokenRes_fields);
  ("ProtoOARefreshTokenReq", ProtoOARefreshTokenReq_fields);
  ("ProtoOARefreshTokenRes", ProtoOARefreshTokenRes_fields);
  ("ProtoOASubscribeSpotsReq", ProtoOASubscribeSpotsReq_fields);
  ("ProtoOASubscribeSpotsRes", ProtoOASubscribeSpotsRes_fields);
  ("ProtoOAUnsubscribeSpotsReq", ProtoOAUnsubscribeSpotsReq_fields);
  ("ProtoOAUnsubscribeSpotsRes", ProtoOAUnsubscribeSpotsRes_fields);
  ("ProtoOASpotEvent", ProtoOASpotEvent_fields);
  ("ProtoOASubscribeLiveTrendbarReq", ProtoOASubscribeLiveTrendbarReq_fields);
  ("ProtoOASubscribeLiveTrendbarRes", ProtoOASubscribeLiveTrendbarRes_fields);
  ("ProtoOAUnsubscribeLiveTrendbarReq", ProtoOAUnsubscribeLiveTrendbarReq_fields);
  ("ProtoOAUnsubscribeLiveTrendbarRes", ProtoOAUnsubscribeLiveTrendbarRes_fields);
  ("ProtoOAGetTrendbarsReq", ProtoOAGetTrendbarsReq_fields);
  ("ProtoOAGetTrendbarsRes", ProtoOAGetTrendbarsRes_fields);
  ("ProtoOAGetTickDataReq", ProtoOAGetTickDataReq_fields);
  ("ProtoOAGetTickDataRes", ProtoOAGetTickDataRes_fields);
  ("ProtoOAGetCtidProfileByTokenReq", ProtoOAGetCtidProfileByTokenReq_fields);
  ("ProtoOAGetCtidProfileByTokenRes", ProtoOAGetCtidProfileByTokenRes_fields);
  ("ProtoOADepthEvent", ProtoOADepthEvent_fields);
  ("ProtoOASubscribeDepthQuotesReq", ProtoOASubscribeDepthQuotesReq_fields);
  ("ProtoOASubscribeDepthQuotesRes", ProtoOASubscribeDepthQuotesRes_fields);
  ("ProtoOAUnsubscribeDepthQuotesReq", ProtoOAUnsubscribeDepthQuotesReq_fields);
  ("ProtoOAUnsubscribeDepthQuotesRes", ProtoOAUnsubscribeDepthQuotesRes_fields);
  ("ProtoOASymbolCategoryListReq", ProtoOASymbolCategoryListReq_fields);
  ("ProtoOASymbolCategoryListRes", ProtoOASymbolCategoryListRes_fields);
  ("ProtoOAAccountLogoutReq", ProtoOAAccountLogoutReq_fields);
  ("ProtoOAAccountLogoutRes", ProtoOAAccountLogoutRes_fields);
  ("ProtoOAAccountDisconnectEvent", ProtoOAAccountDisconnectEvent_fields);
  ("ProtoOAMarginCallListReq", ProtoOAMarginCallListReq_fields);
  ("ProtoOAMarginCallListRes", ProtoOAMarginCallListRes_fields);
  ("ProtoOAMarginCallUpdateReq", ProtoOAMarginCallUpdateReq_fields);
  ("ProtoOAMarginCallUpdateRes", ProtoOAMarginCallUpdateRes_fields);
  ("ProtoOAMarginCallUpdateEvent", ProtoOAMarginCallUpdateEvent_fields);
  ("ProtoOAMarginCallTriggerEvent", ProtoOAMarginCallTriggerEvent_fields);
  ("ProtoOAGetDynamicLeverageByIDReq", ProtoOAGetDynamicLeverageByIDReq_fields);
  ("ProtoOAGetDynamicLeverageByIDRes", ProtoOAGetDynamicLeverageByIDRes_fields);
  ("ProtoOADealListByPositionIdReq", ProtoOADealListByPositionIdReq_fields);
  ("ProtoOADealListByPositionIdRes", ProtoOADealListByPositionIdRes_fields);
  ("ProtoOAOrderDetailsReq", ProtoOAOrderDetailsReq_fields);
  ("ProtoOAOrderDetailsRes", ProtoOAOrderDetailsRes_fields);
  ("ProtoOAOrderListByPositionIdReq", ProtoOAOrderListByPositionIdReq_fields);
  ("ProtoOAOrderListByPositionIdRes", ProtoOAOrderListByPositionIdRes_fields);
  ("ProtoOADealOffsetListReq", ProtoOADealOffsetListReq_fields);
  ("ProtoOADealOffsetListRes", ProtoOADealOffsetListRes_fields);
  ("ProtoOAGetPositionUnrealizedPnLReq", ProtoOAGetPositionUnrealizedPnLReq_fields);
  ("ProtoOAGetPositionUnrealizedPnLRes", ProtoOAGetPositionUnrealizedPnLRes_fields)].

(** ** Laws *)

(** The numbers protocol buffers allow a field to have. *)
Definition field_number_ok (n : Z) : bool := (1 <=? n) && (n <? 2 ^ 29) && negb ((19000 <=? n) && (n <=? 19999)).

(** What a field refers to is declared. *)
Definition field_type_ok (t : field_type) : bool :=
  match t with
  | TEnum e => dict_has e ENUMS
  | TMessage m => dict_has m MESSAGES
  | _ => true
  end.

Definition message_ok (fields : list field) : bool :=
  bool_decide (NoDup (f_name <$> fields)) && bool_decide (NoDup (f_number <$> fields)) &&
  forallb (fun f => field_number_ok (f_number f) && field_type_ok (f_type f)) fields.

(** A member's number is read back as that member: there are no aliases. *)
Definition enum_ok (members : dict string Z) : bool :=
  bool_decide (NoDup members.*1) && bool_decide (NoDup members.*2).

(** The messages a message is directly made of. *)
Definition parts (name : string) : list string :=
  omap (fun f => match f_type f with TMessage m => Some m | _ => None end) (default [] (dict_get name MESSAGES)).

(** How deep a message nests, to a given depth. *)
Fixpoint depth (fuel : nat) (name : string) : nat :=
  match fuel with
  | O => 0
  | S n => S (foldr (fun m d => Nat.max (depth n m) d) 0%nat (parts name))
  end.

(** The schema, checked by computation. *)
Lemma messages_checked : forallb (fun kv => message_ok kv.2) MESSAGES = true.
Proof. vm_compute. reflexivity. Qed.

Lemma enums_checked : forallb (fun kv => enum_ok kv.2) ENUMS = true.
Proof. vm_compute. reflexivity. Qed.

Lemma parts_checked :
  forallb (fun m => forallb (fun part => Nat.ltb (depth 10 part) (depth 10 m)) (parts m)) MESSAGES.*1 = true.
Proof. vm_compute. reflexivity. Qed.

Lemma names_distinct : dict_wf MESSAGES /\ dict_wf ENUMS.
Proof. split; apply (bool_decide_unpack _); vm_compute; exact I. Qed.

#[local] Opaque MESSAGES ENUMS depth.

Lemma parts_shallower (name part : string) : part ∈ parts name -> (depth 10 part < depth 10 name)%nat.
Proof.
  intros Hpart. assert (Hname : name ∈ MESSAGES.*1).
  { apply dict_has_spec. unfold dict_has. unfold parts in Hpart. destruct (dict_get name MESSAGES); [done|].
    by apply not_elem_of_nil in Hpart. }
  pose proof (forallb_elem _ _ _ parts_checked Hname) as Hparts. cbv beta in Hparts.
  exact (proj1 (Nat.ltb_lt _ _) (forallb_elem _ _ _ Hparts Hpart)).
Qed.

(** The schema is sound. Messages and enumerations are declared once; the fields of a
    message have different names and different, legal numbers; what a field refers to is
    declared; an enumeration has no aliases; and no message contains itself, at any depth,
    so the default instance of every message is finite. *)
Theorem schema_sound :
  dict_wf MESSAGES /\ dict_wf ENUMS /\
  (forall name fields, dict_get name MESSAGES = Some fields ->
     NoDup (f_name <$> fields) /\ NoDup (f_number <$> fields) /\
     forall f, f ∈ fields -> 1 <= f_number f < 2 ^ 29 /\
       match f_type f with
       | TEnum e => is_Some (dict_get e ENUMS)
       | TMessage m => is_Some (dict_get m MESSAGES)
       | _ => True
       end) /\
  (forall name members, dict_get name ENUMS = Some members -> NoDup members.*1 /\ NoDup members.*2) /\
  well_founded (fun part whole => part ∈ parts whole).
Proof.
  assert (Hhas : forall {V} k (d : dict string V), dict_has k d = true -> is_Some (dict_get k d))
    by (intros V k d; unfold dict_has; destruct (dict_get k d); eauto; done).
  destruct names_distinct as [Hm He]. split_and!; [exact Hm|exact He|..].
  - intros name fields Hget%dict_get_Some_in. pose proof (forallb_elem _ _ _ messages_checked Hget) as Hok. cbn [snd] in Hok.
    unfold message_ok in Hok. rewrite !andb_true_iff, !bool_decide_eq_true in Hok.
    destruct Hok as ((Hn & Hnum) & Hall). split_and!; [done..|]. intros f Hin.
    pose proof (forallb_elem _ _ _ Hall Hin) as Hf. cbv beta in Hf. unfold field_number_ok in Hf. rewrite !andb_true_iff in Hf.
    destruct Hf as (((H1 & H2) & _) & Ht). split; [lia|]. by destruct (f_type f); try done; apply Hhas.
  - intros name members Hget%dict_get_Some_in. pose proof (forallb_elem _ _ _ enums_checked Hget) as Hok.
    unfold enum_ok in Hok. by rewrite !andb_true_iff, !bool_decide_eq_true in Hok.
  - apply (wf_projected lt (depth 10)); [|apply lt_wf]. intros part whole. apply parts_shallower.
Qed.
