(* ===== verification/Effects.v ===== *)
(** * Coroutines: awaiting, raising, and interference

    An [async] method runs without interruption between two [await]s; at an [await]
    every other task of the event loop may run and change the shared state. A method is
    therefore a function of an oracle, the list of its [await]s: what the other tasks did
    to the state while it was suspended, and how the awaited operation ended. It yields
    how the method ended, the state it left, the actions it performed in order, and the
    part of the oracle it did not use. When the oracle runs out the method is still
    suspended: [Suspended] is also how a task that never resumes is described.

    Theorems quantify over the oracle, hence over every interleaving; a [quiet] step is
    one with no interference. *)

From S2P Require Import Prelude Errors Wire.
From stdpp Require Import options.

(** How a coroutine ended. *)
Inductive outcome (A : Type) :=
  | Done (a : A)
  | Raised (e : exn)
  | Suspended.
Arguments Done {A} a.
Arguments Raised {A} e.
Arguments Suspended {A}.

(** One [await]: the other tasks' effect on the state, then the operation's result. An
    operation that returns nothing ignores the message. *)
Record env_step (W : Type) := mk_env_step {
  env_act : W -> W;
  env_reply : res message;
}.
Arguments mk_env_step {W} env_act env_reply.
Arguments env_act {W} _ _.
Arguments env_reply {W} _.

(** What running a coroutine gives. *)
Record run_result (W Act A : Type) := mk_result {
  out : outcome A;
  state : W;
  acts : list Act;
  rest : list (env_step W);
}.
Arguments mk_result {W Act A} out state acts rest.
Arguments out {W Act A} _.
Arguments state {W Act A} _.
Arguments acts {W Act A} _.
Arguments rest {W Act A} _.

Definition proc (W Act A : Type) : Type := list (env_step W) -> W -> run_result W Act A.

Section proc.
Context {W Act : Type}.
Implicit Types (o : list (env_step W)) (w : W).

(** Continue after a result, keeping its actions in front. *)
Definition continue {A B} (r : run_result W Act A) (k : proc W Act B) : run_result W Act B :=
  let r' := k (rest r) (state r) in
  mk_result (out r') (state r') (acts r ++ acts r') (rest r').

(** The same result, ended otherwise. *)
Definition ended {A B} (r : run_result W Act A) (e : outcome B) : run_result W Act B :=
  mk_result e (state r) (acts r) (rest r).

#[global] Instance proc_ret : MRet (proc W Act) := fun A a o w => mk_result (Done a) w [] o.

#[global] Instance proc_bind : MBind (proc W Act) := fun A B f m o w =>
  let r := m o w in
  match out r with
  | Done a => continue r (f a)
  | Raised e => ended r (Raised e)
  | Suspended => ended r Suspended
  end.

(** [raise e] *)
Definition raise {A} (e : exn) : proc W Act A := fun o w => mk_result (Raised e) w [] o.

(** Reading the shared state, and writing it. *)
Definition gets {A} (f : W -> A) : proc W Act A := fun o w => mk_result (Done (f w)) w [] o.
Definition modify (f : W -> W) : proc W Act () := fun o w => mk_result (Done ()) (f w) [] o.

(** Perform a visible action. *)
Definition perform (a : Act) : proc W Act () := fun o w => mk_result (Done ()) w [a] o.

(** [await]: the other tasks run, then the operation ends. *)
Definition await : proc W Act message := fun o w =>
  match o with
  | [] => mk_result Suspended w [] []
  | s :: o' =>
      mk_result (match env_reply s with Ok m => Done m | Err e => Raised e end)
        (env_act s w) [] o'
  end.

(** An [await] of an operation that returns nothing. *)
Definition await_unit : proc W Act () := _ ← await; mret ().

(** An [await] of something that can only be cancelled: a sleep, a wait for an event, the
    handlers of an event ([Emitter.emit_isolated]). *)
Definition pause : proc W Act () := fun o w =>
  match o with
  | [] => mk_result Suspended w [] []
  | s :: o' =>
      mk_result (match env_reply s with Err Cancelled => Raised Cancelled | _ => Done () end)
        (env_act s w) [] o'
  end.

(** Still running: what is known of a loop after the passes that were followed. *)
Definition unfinished {A} : proc W Act A := fun o w => mk_result Suspended w [] o.

(** [try: m except ...: ...]: [h e] is the handler the exception selects, if any. *)
Definition try_except {A} (m : proc W Act A) (h : exn -> option (proc W Act A)) : proc W Act A :=
  fun o w =>
    let r := m o w in
    match out r with
    | Raised e => match h e with Some k => continue r k | None => r end
    | _ => r
    end.

(** [except Exception as e: ...] *)
Definition except_Exception {A} (k : exn -> proc W Act A) (e : exn) : option (proc W Act A) :=
  if is_Exception e then Some (k e) else None.

(** [try: m finally: fin] *)
Definition try_finally {A} (m : proc W Act A) (fin : proc W Act ()) : proc W Act A := fun o w =>
  let r := m o w in
  match out r with
  | Suspended => r
  | Done a => continue r (_ ← fin; mret a)
  | Raised e => continue r (_ ← fin; raise e)
  end.

(** [for x in l: f(x)] *)
Fixpoint for_each {A} (l : list A) (f : A -> proc W Act ()) : proc W Act () :=
  match l with
  | [] => mret ()
  | a :: l' => _ ← f a; for_each l' f
  end.

(** [for x in l: s = f(s, x)], with local variables [s]. *)
Fixpoint for_fold {A S} (l : list A) (s : S) (f : S -> A -> proc W Act S) : proc W Act S :=
  match l with
  | [] => mret s
  | a :: l' => s' ← f s a; for_fold l' s' f
  end.

(** A fallible computation that does not suspend. *)
Definition lift_res {A} (r : res A) : proc W Act A :=
  match r with Ok a => mret a | Err e => raise e end.

(** ** Equality of coroutines: the same result under every oracle and state *)

#[global] Instance proc_equiv {A} : Equiv (proc W Act A) := fun m n => forall o w, m o w = n o w.

#[global] Instance proc_equivalence {A} : Equivalence (≡@{proc W Act A}).
Proof.
  split; [intros m o w; done|intros m n H o w; by symmetry|].
  intros m n p H1 H2 o w. by rewrite H1.
Qed.

#[global] Instance proc_bind_proper {A B} :
  Proper (pointwise_relation A (≡) ==> (≡@{proc W Act A}) ==> (≡@{proc W Act B})) mbind.
Proof.
  intros f g Hfg m n Hmn o w. unfold mbind, proc_bind. rewrite Hmn.
  destruct (out (n o w)); [|done..]. unfold continue. by rewrite Hfg.
Qed.

#[global] Instance try_finally_proper {A} :
  Proper ((≡@{proc W Act A}) ==> (≡) ==> (≡)) try_finally.
Proof.
  intros m n Hmn f g Hfg o w. unfold try_finally. rewrite Hmn.
  destruct (out (n o w)); [| |done]; unfold continue, mbind, proc_bind; by rewrite Hfg.
Qed.

Lemma bind_ret_l {A B} (a : A) (f : A -> proc W Act B) : (x ← mret a; f x) ≡ f a.
Proof. intros o w. unfold mbind, proc_bind, continue. simpl. by destruct (f a o w). Qed.

Lemma bind_ret_r {A} (m : proc W Act A) : (x ← m; mret x) ≡ m.
Proof.
  intros o w. unfold mbind, proc_bind, continue, ended. destruct (m o w) as [[] ? ? ?]; simpl;
    by rewrite ?app_nil_r.
Qed.

Lemma bind_gets {A B} (h : W -> A) (f : A -> proc W Act B) o w : (x ← gets h; f x) o w = f (h w) o w.
Proof. exact (bind_ret_l (h w) f o w). Qed.

Lemma bind_modify {B} (h : W -> W) (k : proc W Act B) o w : (_ ← modify h; k) o w = k o (h w).
Proof. unfold mbind, proc_bind, modify, continue. cbn. by destruct (k o (h w)). Qed.

Lemma bind_perform {B} (a : Act) (k : proc W Act B) o w :
  (_ ← perform a; k) o w = mk_result (out (k o w)) (state (k o w)) (a :: acts (k o w)) (rest (k o w)).
Proof. done. Qed.

(** A bind, by how its first part ended. *)
Lemma bind_Done {A B} (m : proc W Act A) (f : A -> proc W Act B) o w a :
  out (m o w) = Done a -> (x ← m; f x) o w = continue (m o w) (f a).
Proof. intros E. unfold mbind, proc_bind. by rewrite E. Qed.

Lemma bind_Raised {A B} (m : proc W Act A) (f : A -> proc W Act B) o w e :
  out (m o w) = Raised e -> (x ← m; f x) o w = ended (m o w) (Raised e).
Proof. intros E. unfold mbind, proc_bind. by rewrite E. Qed.

(** The same, when the whole result of the first part is known. *)
Lemma bind_eq {A B} (m : proc W Act A) (f : A -> proc W Act B) o w r :
  m o w = r ->
  (x ← m; f x) o w =
  match out r with
  | Done a => continue r (f a)
  | Raised e => ended r (Raised e)
  | Suspended => ended r Suspended
  end.
Proof. by intros <-. Qed.

Lemma try_except_eq {A} (m : proc W Act A) h o w r :
  m o w = r ->
  try_except m h o w =
  match out r with
  | Raised e => match h e with Some k => continue r k | None => r end
  | _ => r
  end.
Proof. by intros <-. Qed.

Lemma bind_stops {A B} (m : proc W Act A) (f : A -> proc W Act B) o w :
  (forall a, out (m o w) ≠ Done a) -> acts ((x ← m; f x) o w) = acts (m o w).
Proof. intros E. unfold mbind, proc_bind. destruct (out (m o w)) as [a| |]; [by destruct (E a)|done..]. Qed.

(** A [finally] that only writes the state. *)
Lemma run_try_finally {A} (m : proc W Act A) (f : W -> W) o w :
  try_finally m (modify f) o w =
  let r := m o w in
  match out r with
  | Suspended => r
  | _ => mk_result (out r) (f (state r)) (acts r) (rest r)
  end.
Proof.
  unfold try_finally. cbv zeta. destruct (m o w) as [[a|e|] s a' r]; cbn [out]; [| |done];
    unfold continue; cbn [out state acts rest]; rewrite bind_modify; unfold mret, proc_ret, raise; cbn; by rewrite app_nil_r.
Qed.

(** An [except Exception] that keeps the exception as a value. *)
Lemma run_keep_exception (m : proc W Act ()) o w :
  try_except (_ ← m; mret None) (except_Exception (fun e => mret (Some e))) o w =
  let r := m o w in
  mk_result (match out r with
             | Done _ => Done None
             | Raised e => if is_Exception e then Done (Some e) else Raised e
             | Suspended => Suspended
             end) (state r) (acts r) (rest r).
Proof.
  cbv zeta. destruct (m o w) as [ro rs ra rr] eqn:E. rewrite (try_except_eq _ _ _ _ _ (bind_eq _ _ _ _ _ E)).
  unfold except_Exception, continue, ended, mret, proc_ret. cbn [out].
  destruct ro as [u|e|]; cbn; [by rewrite app_nil_r| |done]. destruct (is_Exception e); cbn; by rewrite ?app_nil_r.
Qed.

(** What was done stays done. *)
Lemma acts_bind {A B} (m : proc W Act A) (f : A -> proc W Act B) o w :
  acts (m o w) ≠ [] -> acts ((x ← m; f x) o w) ≠ [].
Proof.
  intros Hm. unfold mbind, proc_bind. destruct (out (m o w)); [|done..]. cbn. by intros []%app_eq_nil.
Qed.

Lemma acts_try_except {A} (m : proc W Act A) h o w : acts (m o w) ≠ [] -> acts (try_except m h o w) ≠ [].
Proof.
  intros Hm. unfold try_except. destruct (out (m o w)) as [|e|]; [done| |done].
  destruct (h e); [|done]. cbn. by intros []%app_eq_nil.
Qed.

Lemma bind_ret_unit (m : proc W Act ()) : (_ ← m; mret ()) ≡ m.
Proof.
  intros o w. transitivity ((x ← m; mret x) o w); [|apply bind_ret_r].
  unfold mbind, proc_bind. by destruct (out (m o w)) as [[]| |].
Qed.

Lemma bind_assoc {A B C} (m : proc W Act A) (f : A -> proc W Act B) (g : B -> proc W Act C) :
  (y ← (x ← m; f x); g y) ≡ (x ← m; y ← f x; g y).
Proof.
  intros o w. unfold mbind, proc_bind, continue, ended. destruct (m o w) as [[] ? ? ?]; simpl; [|done..].
  destruct (f _ _ _) as [[] ? ? ?]; simpl; [|done..]. by rewrite app_assoc.
Qed.

Lemma for_each_app {A} (l1 l2 : list A) (f : A -> proc W Act ()) :
  for_each (l1 ++ l2) f ≡ (_ ← for_each l1 f; for_each l2 f).
Proof.
  induction l1 as [|a l1 IH]; simpl.
  - by rewrite bind_ret_l.
  - rewrite bind_assoc. f_equiv. intros ?. apply IH.
Qed.

(** ** Reasoning about every interleaving

    [always I A m]: whatever the oracle, if the other tasks keep [I] then so does [m],
    at its end and while suspended, and every action it performs satisfies [A]. *)
Definition keeps (I : W -> Prop) (f : W -> W) : Prop := forall w, I w -> I (f w).

Definition always {A} (I : W -> Prop) (P : Act -> Prop) (m : proc W Act A) : Prop :=
  forall o w, Forall (fun s => keeps I (env_act s)) o -> I w ->
  I (state (m o w)) /\ Forall P (acts (m o w)) /\ Forall (fun s => keeps I (env_act s)) (rest (m o w)).

Section always.
Context (I : W -> Prop) (P : Act -> Prop).

Lemma always_ret {A} (a : A) : always I P (mret a).
Proof. intros o w Ho Hw. split_and!; simpl; auto. Qed.

Lemma always_raise {A} (e : exn) : always (A := A) I P (raise e).
Proof. intros o w Ho Hw. split_and!; simpl; auto. Qed.

Lemma always_gets {A} (f : W -> A) : always I P (gets f).
Proof. intros o w Ho Hw. split_and!; simpl; auto. Qed.

Lemma always_modify (f : W -> W) : keeps I f -> always I P (modify f).
Proof. intros Hf o w Ho Hw. split_and!; simpl; auto. Qed.

Lemma always_perform (a : Act) : P a -> always I P (perform a).
Proof. intros Ha o w Ho Hw. split_and!; simpl; auto. Qed.

Lemma always_lift_res {A} (r : res A) : always I P (lift_res r).
Proof. destruct r; [apply always_ret|apply always_raise]. Qed.

Lemma always_await : always I P await.
Proof.
  intros [|s o] w Ho Hw; unfold await; simpl; [auto|].
  apply Forall_cons in Ho as [Hs Ho]. auto.
Qed.

Lemma always_unfinished {A} : always (A := A) I P unfinished.
Proof. intros o w Ho Hw. split_and!; simpl; auto. Qed.

Lemma always_pause : always I P pause.
Proof.
  intros [|s o] w Ho Hw; unfold pause; simpl; [auto|].
  apply Forall_cons in Ho as [Hs Ho]. auto.
Qed.

Lemma always_weaken {A} (Q : Act -> Prop) (m : proc W Act A) :
  (forall a, P a -> Q a) -> always I P m -> always I Q m.
Proof.
  intros HPQ Hm o w Ho Hw. destruct (Hm o w Ho Hw) as (H1 & H2 & H3). split_and!; [done|by eapply Forall_impl|done].
Qed.

(** The actions of a continuation come after, and keep what is kept. *)
Lemma always_continue {A B} (m : proc W Act A) (k : proc W Act B) o w :
  always I P m -> always I P k ->
  Forall (fun s => keeps I (env_act s)) o -> I w ->
  let r := continue (m o w) k in
  I (state r) /\ Forall P (acts r) /\ Forall (fun s => keeps I (env_act s)) (rest r).
Proof.
  intros Hm Hk Ho Hw. destruct (Hm o w Ho Hw) as (H1 & H2 & H3).
  destruct (Hk _ _ H3 H1) as (H4 & H5 & H6). split_and!; simpl; auto. by apply Forall_app.
Qed.

Lemma always_bind {A B} (m : proc W Act A) (f : A -> proc W Act B) :
  always I P m -> (forall a, always I P (f a)) -> always I P (m ≫= f).
Proof.
  intros Hm Hf o w Ho Hw. unfold mbind, proc_bind.
  destruct (out (m o w)) as [a| |]; [by apply always_continue| |]; by apply Hm.
Qed.

Lemma always_try_except {A} (m : proc W Act A) h :
  always I P m -> (forall e k, h e = Some k -> always I P k) -> always I P (try_except m h).
Proof.
  intros Hm Hh o w Ho Hw. unfold try_except.
  destruct (out (m o w)) as [|e|] eqn:E; [by apply Hm| |by apply Hm].
  destruct (h e) eqn:He; [|by apply Hm]. apply always_continue; eauto.
Qed.

Lemma always_try_finally {A} (m : proc W Act A) fin :
  always I P m -> always I P fin -> always I P (try_finally m fin).
Proof.
  intros Hm Hfin o w Ho Hw. unfold try_finally.
  destruct (out (m o w)) as [|e|] eqn:E; [| |by apply Hm];
    (apply always_continue; [done| |done..]); apply always_bind; auto using always_ret, always_raise.
Qed.

Lemma always_for_each {A} (l : list A) f : (forall a, always I P (f a)) -> always I P (for_each l f).
Proof. intros Hf. induction l; simpl; [apply always_ret|]. by apply always_bind. Qed.

Lemma always_for_fold {A S} (l : list A) (s : S) f :
  (forall s a, always I P (f s a)) -> always I P (for_fold l s f).
Proof. intros Hf. revert s. induction l; intros s; simpl; [apply always_ret|]. by apply always_bind. Qed.
End always.
End proc.

(** ** Running undisturbed

    [same_at w m n]: from the state [w], with no interference, the two coroutines have the
    same runs, and leave the state as it was. *)
Definition is_quiet {W} (s : env_step W) : Prop := forall w, env_act s w = w.

(** An [await] with no interference. *)
Definition quiet {W} (r : res message) : env_step W := mk_env_step id r.

Lemma Forall_quiet_app {W} (rs : list (res message)) (o : list (env_step W)) :
  Forall is_quiet o -> Forall is_quiet ((quiet <$> rs) ++ o).
Proof. intros Ho. apply Forall_app. split; [|done]. by apply Forall_fmap, Forall_true. Qed.

Section same.
Context {W Act : Type} (w : W).

Definition same_at {A} (m n : proc W Act A) : Prop :=
  forall o, Forall is_quiet o -> m o w = n o w /\ state (n o w) = w /\ Forall is_quiet (rest (n o w)).

Lemma same_at_ret {A} (a : A) : same_at (mret a) (mret a).
Proof. intros o Ho. by split_and!. Qed.

Lemma same_at_bind {A B} (m n : proc W Act A) (f g : A -> proc W Act B) :
  same_at m n -> (forall a, same_at (f a) (g a)) -> same_at (m ≫= f) (n ≫= g).
Proof.
  intros Hm Hf o Ho. destruct (Hm o Ho) as (H1 & H2 & H3). unfold mbind, proc_bind. rewrite H1.
  destruct (out (n o w)) as [a| |]; [|by split_and!..]. unfold continue. rewrite H2.
  destruct (Hf a _ H3) as (-> & H4 & H5). by split_and!.
Qed.

Lemma same_at_for_each {A B} (h : A -> B) (l : list A) (f : A -> proc W Act ()) (g : B -> proc W Act ()) :
  (forall a, a ∈ l -> same_at (f a) (g (h a))) -> same_at (for_each l f) (for_each (h <$> l) g).
Proof.
  intros Hf. induction l as [|a l IH]; [apply same_at_ret|]. apply same_at_bind; [|intros _; apply IH]; intros;
    apply Hf; [apply list_elem_of_here|by apply list_elem_of_further].
Qed.

Lemma same_at_for_each_app {A} (m : proc W Act ()) (n : proc W Act ()) (l1 l2 : list A) (f : A -> proc W Act ()) :
  same_at m (for_each l1 f) -> same_at n (for_each l2 f) -> same_at (_ ← m; n) (for_each (l1 ++ l2) f).
Proof.
  intros Hm Hn o Ho. destruct (same_at_bind _ _ (fun _ => n) _ Hm (fun _ => Hn) o Ho) as (H1 & H2 & H3).
  by rewrite (for_each_app l1 l2 f o w).
Qed.

Lemma same_at_gets {A B} (h : W -> A) (f : A -> proc W Act B) (n : proc W Act B) :
  same_at (f (h w)) n -> same_at (x ← gets h; f x) n.
Proof. intros Hf o Ho. rewrite bind_gets. by apply Hf. Qed.

Lemma same_at_try_except {A} (m n : proc W Act A) h o :
  same_at m n -> Forall is_quiet o -> try_except m h o w = try_except n h o w.
Proof. intros Hm Ho. unfold try_except. by destruct (Hm o Ho) as (-> & _ & _). Qed.
End same.

#[export] Hint Resolve always_ret always_raise always_gets always_modify always_perform always_lift_res
  always_await always_pause always_unfinished always_bind always_try_except always_try_finally always_for_each always_for_fold : always.

(** Evaluate the coroutine of the goal up to the data it depends on. *)
Ltac run := cbv [mbind proc_bind mret proc_ret raise gets modify perform await await_unit pause try_except
  except_Exception try_finally continue ended lift_res quiet]; simpl.

(** Prove [always] by following the structure of the coroutine. *)
Ltac solve_always :=
  repeat first
    [ progress intros
    | apply always_bind
    | apply always_ret | apply always_raise | apply always_gets | apply always_await | apply always_pause | apply always_unfinished
    | apply always_lift_res | apply always_for_each | apply always_for_fold
    | apply always_try_finally
    | apply always_modify | apply always_perform
    | apply always_try_except
    | case_match ];
  eauto with always.
