(* ===== verification/Framing.v ===== *)
(** * Length-prefixed framing ([_internal/serialization.py])

    A frame is a four-byte big-endian length and that many bytes of payload. The stream
    is [anyio]'s: [ByteReceiveStream] is the one operation the reader calls, and
    [LawfulStream] is what [anyio] documents of it. *)

From Stdlib Require Import Strings.Byte.
From S2P Require Import Prelude Errors.
From stdpp Require Import options.
Open Scope list_scope.
Open Scope Z_scope.

Abbreviation bytes := (list byte).

(** [len(bs)] *)
Definition len {A} (l : list A) : Z := Z.of_nat (length l).

(** ** [struct.pack(">I", n)] and [struct.unpack(">I", bs)] *)

Definition byte_of_Z (z : Z) : byte := default x00 (Byte.of_N (Z.to_N (z mod 256))).
Definition Z_of_byte (b : byte) : Z := Z.of_N (Byte.to_N b).

(** The low [n] bytes of [z], most significant first. *)
Fixpoint be_encode (n : nat) (z : Z) : bytes :=
  match n with
  | O => []
  | S n' => byte_of_Z (z / 256 ^ Z.of_nat n') :: be_encode n' z
  end.

Definition be_decode (bs : bytes) : Z := foldl (fun acc b => acc * 256 + Z_of_byte b) 0 bs.

Definition LENGTH_PREFIX_SIZE : Z := 4.
Definition MAX_MESSAGE_SIZE : Z := 1024 * 1024.

Definition pack_length (n : Z) : res bytes :=
  if (0 <=? n) && (n <? 2 ^ 32) then Ok (be_encode 4 n)
  else Err (StructError "'I' format requires 0 <= number <= 4294967295").

(** [encode_with_length_prefix], of a message whose [bytes(message)] is [to_bytes m]. *)
Definition encode_with_length_prefix {M} (to_bytes : M -> bytes) (m : M) : res bytes :=
  let payload := to_bytes m in
  length_prefix ← pack_length (len payload);
  Ok (length_prefix ++ payload).

(** ** Reading *)

(** [stream.receive(max_bytes)], with the stream it leaves. *)
Class ByteReceiveStream (S : Type) := receive : S -> Z -> res bytes * S.

Section read.
Context {S : Type} `{!ByteReceiveStream S}.

(** The loop of [read_exact]. Every nonempty chunk lowers [bytes_remaining], so
    [num_bytes] iterations are enough for any stream ([read_exact_loop_enough]). *)
Fixpoint read_exact_loop (fuel : nat) (s : S) (num_bytes bytes_remaining : Z) (chunks : list bytes)
    : res bytes * S :=
  if bytes_remaining <=? 0 then (Ok (concat chunks), s)
  else
    match fuel with
    | O => (Err (RuntimeError "out of fuel"), s)
    | Datatypes.S fuel' =>
        match receive s bytes_remaining with
        | (Err e, s') => (Err e, s')
        | (Ok [], s') => (Err (FramingError num_bytes (num_bytes - bytes_remaining)), s')
        | (Ok chunk, s') =>
            read_exact_loop fuel' s' num_bytes (bytes_remaining - len chunk) (chunks ++ [chunk])
        end
    end.

Definition read_exact (s : S) (num_bytes : Z) : res bytes * S :=
  read_exact_loop (Z.to_nat num_bytes) s num_bytes num_bytes [].

Definition read_framed_message (s : S) : res bytes * S :=
  match read_exact s LENGTH_PREFIX_SIZE with
  | (Err e, s') => (Err e, s')
  | (Ok length_bytes, s') =>
      let length := be_decode length_bytes in
      if MAX_MESSAGE_SIZE <? length then (Err (FramingError MAX_MESSAGE_SIZE length), s')
      else read_exact s' length
  end.

(** The reader calls it once per message: [n] messages, up to the first failure. *)
Fixpoint read_frames (n : nat) (s : S) : res (list bytes) * S :=
  match n with
  | O => (Ok [], s)
  | Datatypes.S n' =>
      match read_framed_message s with
      | (Err e, s') => (Err e, s')
      | (Ok p, s') =>
          match read_frames n' s' with
          | (Err e, s'') => (Err e, s'')
          | (Ok ps, s'') => (Ok (p :: ps), s'')
          end
      end
  end.
End read.

(** What a byte stream promises: [contents s] is what is still to come, a read returns a
    nonempty piece of it no longer than asked, and past the end the stream answers
    [at_end], an exception ([EndOfStream]) or an empty read. *)
Class LawfulStream (S : Type) `{!ByteReceiveStream S} := {
  contents : S -> bytes;
  at_end : S -> res bytes;
  receive_some s n :
    0 < n -> contents s ≠ [] ->
    exists bs s', receive s n = (Ok bs, s') /\ bs ≠ [] /\ len bs <= n /\
      contents s = bs ++ contents s' /\ at_end s' = at_end s;
  receive_end s n : 0 < n -> contents s = [] -> receive s n = (at_end s, s);
  at_end_empty s : forall bs, at_end s = Ok bs -> bs = [];
}.

(** ** Packets: the stream a socket gives

    The bytes arrive in pieces whose boundaries have nothing to do with frames. *)
Record packets := mk_packets { pk_pieces : list bytes; pk_end : option exn }.

Fixpoint take_piece (l : list bytes) (n : nat) : option (bytes * list bytes) :=
  match l with
  | [] => None
  | [] :: l' => take_piece l' n
  | p :: l' => Some (take n p, drop n p :: l')
  end.

#[export] Instance packets_stream : ByteReceiveStream packets := fun s n =>
  match take_piece (pk_pieces s) (Z.to_nat n) with
  | Some (bs, l) => (Ok bs, mk_packets l (pk_end s))
  | None => (match pk_end s with Some e => Err e | None => Ok [] end, s)
  end.

(** A frame sent in one piece, read back when it arrives byte by byte. *)
Example read_byte_by_byte :
  fst (read_framed_message (mk_packets ((fun b => [b]) <$> [x00; x00; x00; x02; x68; x69]) None)) =
  Ok [x68; x69].
Proof. vm_compute. reflexivity. Qed.

(** ** Lemmas *)

Lemma len_app {A} (l1 l2 : list A) : len (l1 ++ l2) = len l1 + len l2.
Proof. unfold len. rewrite length_app. lia. Qed.

Lemma len_nonneg {A} (l : list A) : 0 <= len l.
Proof. unfold len. lia. Qed.

Lemma len_pos {A} (l : list A) : l ≠ [] -> 0 < len l.
Proof. destruct l; unfold len; simpl; [done|lia]. Qed.

Lemma Z_of_byte_of_Z (z : Z) : Z_of_byte (byte_of_Z z) = z mod 256.
Proof.
  unfold Z_of_byte, byte_of_Z. pose proof (Z.mod_pos_bound z 256).
  destruct (Byte.of_N _) eqn:E; simpl.
  - apply Byte.to_of_N in E. rewrite E. lia.
  - apply Byte.of_N_None_iff in E. lia.
Qed.

Lemma length_be_encode (n : nat) (z : Z) : length (be_encode n z) = n.
Proof. induction n; simpl; congruence. Qed.

Lemma be_decode_foldl (bs : bytes) (a : Z) :
  foldl (fun acc b => acc * 256 + Z_of_byte b) a bs = a * 256 ^ len bs + be_decode bs.
Proof.
  unfold be_decode. revert a. induction bs as [|b bs IH]; intros a; simpl.
  - unfold len; simpl. lia.
  - rewrite IH, (IH (0 * 256 + Z_of_byte b)). change (b :: bs) with ([b] ++ bs).
    rewrite len_app, Z.pow_add_r by apply len_nonneg. change (len [b]) with 1. lia.
Qed.

Lemma be_decode_nonneg (bs : bytes) : 0 <= be_decode bs.
Proof.
  induction bs as [|b bs IH]; unfold be_decode; simpl; [lia|]. rewrite be_decode_foldl.
  assert (0 <= Z_of_byte b) by (unfold Z_of_byte; lia).
  assert (0 < 256 ^ len bs) by (apply Z.pow_pos_nonneg; [lia|apply len_nonneg]). lia.
Qed.

Lemma be_decode_encode (n : nat) (z : Z) : be_decode (be_encode n z) = z mod 256 ^ Z.of_nat n.
Proof.
  induction n as [|n IH]; simpl; [by rewrite Z.mod_1_r|].
  unfold be_decode; simpl. rewrite be_decode_foldl, IH, Z_of_byte_of_Z.
  unfold len. rewrite length_be_encode.
  replace (Z.of_nat (S n)) with (Z.of_nat n + 1) by lia. rewrite Z.pow_add_r, Z.pow_1_r by lia.
  assert (0 < 256 ^ Z.of_nat n) by (apply Z.pow_pos_nonneg; lia).
  rewrite (Z.rem_mul_r z (256 ^ Z.of_nat n) 256) by lia. lia.
Qed.

Lemma pack_length_Ok (n : Z) (bs : bytes) :
  pack_length n = Ok bs -> 0 <= n < 2 ^ 32 /\ bs = be_encode 4 n /\ be_decode bs = n /\ len bs = 4.
Proof.
  unfold pack_length. destruct (Z.leb_spec 0 n), (Z.ltb_spec n (2 ^ 32)); cbn [andb]; try done.
  intros Hbs. assert (bs = be_encode 4 n) as -> by congruence. split_and!; try done.
  rewrite be_decode_encode. by apply Z.mod_small.
Qed.

(** What an encoded frame looks like. *)
Lemma encode_with_length_prefix_Ok {M} (to_bytes : M -> bytes) (m : M) (bs : bytes) :
  encode_with_length_prefix to_bytes m = Ok bs ->
  exists prefix, bs = prefix ++ to_bytes m /\ len prefix = 4 /\ be_decode prefix = len (to_bytes m).
Proof.
  unfold encode_with_length_prefix. destruct (pack_length _) as [prefix|] eqn:E; simpl; [|done].
  intros [= <-]. apply pack_length_Ok in E as (_ & _ & Hd & Hl). eauto.
Qed.

Section lawful.
Context {S : Type} `{!ByteReceiveStream S, !LawfulStream S}.
Implicit Types (s : S).

(** With as much fuel as bytes, the loop collects exactly the bytes that are there. *)
Lemma read_exact_loop_enough fuel s num rem chunks bs tail :
  (Z.to_nat rem <= fuel)%nat -> contents s = bs ++ tail -> len bs = rem ->
  exists s', read_exact_loop fuel s num rem chunks = (Ok (concat chunks ++ bs), s') /\
    contents s' = tail /\ at_end s' = at_end s.
Proof.
  revert s rem chunks bs. induction fuel as [|fuel IH]; intros s rem chunks bs Hfuel Hs Hlen; simpl;
    pose proof (len_nonneg bs).
  - destruct (Z.leb_spec rem 0); [|lia]. destruct bs; [|unfold len in *; simpl in *; lia].
    exists s. by rewrite app_nil_r.
  - destruct (Z.leb_spec rem 0) as [Hle|Hgt].
    { destruct bs; [|unfold len in *; simpl in *; lia]. exists s. by rewrite app_nil_r. }
    destruct (receive_some s rem) as (c & s' & Hr & Hne & Hc & Hcont & Hend);
      [done|rewrite Hs; destruct bs; [unfold len in *; simpl in *; lia|done]|].
    rewrite Hr. pose proof (len_pos _ Hne).
    assert (exists bs', bs = c ++ bs' /\ contents s' = bs' ++ tail) as (bs' & -> & Hs').
    { rewrite Hs in Hcont. apply app_eq_inv in Hcont as [(k & -> & Hk)|(k & -> & Hk)]; [by eauto|].
      exists []. rewrite len_app in Hc.
      assert (k = []) as -> by (destruct k; [done|unfold len in *; simpl in *; lia]).
      split; [by rewrite !app_nil_r|done]. }
    destruct c as [|b c]; [done|]. rewrite len_app in Hlen.
    destruct (IH s' (rem - len (b :: c)) (chunks ++ [b :: c]) bs') as (s2 & -> & H2 & H3); [lia|done|lia|].
    exists s2. rewrite concat_app. simpl. rewrite <- app_assoc, app_nil_r. simpl.
    split_and!; [done|done|congruence].
Qed.

(** With too few bytes left, the loop ends where the stream does: in the exception the
    stream raises, or in a [FramingError] that counts what had arrived. *)
Lemma read_exact_loop_short fuel s num rem chunks :
  (Z.to_nat rem <= fuel)%nat -> len (contents s) < rem ->
  exists s', read_exact_loop fuel s num rem chunks =
    (match at_end s with
     | Ok _ => Err (FramingError num (num - rem + len (contents s)))
     | Err e => Err e
     end, s') /\ contents s' = [].
Proof.
  revert s rem chunks. induction fuel as [|fuel IH]; intros s rem chunks Hfuel Hlen; simpl;
    pose proof (len_nonneg (contents s)).
  - lia.
  - destruct (Z.leb_spec rem 0); [lia|].
    destruct (decide (contents s = [])) as [Hnil|Hne].
    + rewrite (receive_end s rem) by done. rewrite Hnil. exists s. split; [|done].
      destruct (at_end s) eqn:E; [|done].
      rewrite (at_end_empty s _ E). unfold len. simpl. do 3 f_equal. lia.
    + destruct (receive_some s rem) as (c & s' & Hr & Hcne & Hc & Hcont & Hend); [done|done|].
      rewrite Hr. pose proof (len_pos _ Hcne). rewrite Hcont, len_app in *.
      destruct c as [|b c]; [done|].
      destruct (IH s' (rem - len (b :: c)) (chunks ++ [b :: c])) as (s2 & -> & H2); [lia|lia|].
      exists s2. rewrite Hend. split; [|done]. destruct (at_end s); [|done]. do 3 f_equal. lia.
Qed.

Lemma read_exact_enough s bs tail :
  contents s = bs ++ tail ->
  exists s', read_exact s (len bs) = (Ok bs, s') /\ contents s' = tail /\ at_end s' = at_end s.
Proof. intros. by apply (read_exact_loop_enough _ s (len bs) (len bs) [] bs). Qed.

Lemma read_exact_short s n :
  len (contents s) < n ->
  exists s', read_exact s n =
    (match at_end s with
     | Ok _ => Err (FramingError n (len (contents s)))
     | Err e => Err e
     end, s') /\ contents s' = [].
Proof.
  intros Hlen. destruct (read_exact_loop_short (Z.to_nat n) s n n []) as (s' & H & Hs'); [lia|done|].
  exists s'. split; [|done]. unfold read_exact. rewrite H. destruct (at_end s); [|done]. do 3 f_equal. lia.
Qed.

(** One frame, whatever follows it and however it is cut into packets. *)
Lemma read_framed_message_frame s prefix payload tail :
  len prefix = 4 -> be_decode prefix = len payload -> len payload <= MAX_MESSAGE_SIZE ->
  contents s = prefix ++ payload ++ tail ->
  exists s', read_framed_message s = (Ok payload, s') /\ contents s' = tail /\ at_end s' = at_end s.
Proof.
  intros Hp Hd Hmax Hs. unfold read_framed_message.
  destruct (read_exact_enough s prefix (payload ++ tail) Hs) as (s1 & H1 & Hs1 & He1).
  unfold LENGTH_PREFIX_SIZE. rewrite <- Hp, H1, Hd.
  destruct (Z.ltb_spec MAX_MESSAGE_SIZE (len payload)); [lia|].
  destruct (read_exact_enough s1 payload tail Hs1) as (s2 & -> & Hs2 & He2).
  exists s2. split_and!; [done|done|congruence].
Qed.
End lawful.

(** ** Packets are lawful *)

Definition packets_contents (s : packets) : bytes := concat (pk_pieces s).

Definition packets_at_end (s : packets) : res bytes :=
  match pk_end s with Some e => Err e | None => Ok [] end.

Lemma take_piece_some (l : list bytes) (n : nat) :
  (0 < n)%nat -> concat l ≠ [] ->
  exists bs l', take_piece l n = Some (bs, l') /\ bs ≠ [] /\ (length bs <= n)%nat /\
    concat l = bs ++ concat l'.
Proof.
  intros Hn Hne. induction l as [|[|b p] l IH]; simpl in *; [done|by apply IH|].
  destruct n as [|k]; [lia|]. eexists _, _. split; [done|]. simpl. split_and!; [done| |].
  - rewrite length_take. lia.
  - by rewrite app_assoc, take_drop.
Qed.

Lemma take_piece_none (l : list bytes) (n : nat) : concat l = [] -> take_piece l n = None.
Proof. induction l as [|[|b p] l IH]; simpl; done. Qed.

Lemma packets_receive_some s n :
  0 < n -> packets_contents s ≠ [] ->
  exists bs s', receive s n = (Ok bs, s') /\ bs ≠ [] /\ len bs <= n /\
    packets_contents s = bs ++ packets_contents s' /\ packets_at_end s' = packets_at_end s.
Proof.
  intros Hn Hne. destruct (take_piece_some (pk_pieces s) (Z.to_nat n)) as (bs & l & E & H1 & H2 & H3);
    [lia|done|].
  unfold receive, packets_stream. rewrite E. eexists _, _. unfold len. split_and!; [done|done|lia|done|done].
Qed.

Lemma packets_receive_end s n :
  0 < n -> packets_contents s = [] -> receive s n = (packets_at_end s, s).
Proof. intros Hn Hnil. unfold receive, packets_stream. by rewrite take_piece_none. Qed.

Lemma packets_at_end_empty s bs : packets_at_end s = Ok bs -> bs = [].
Proof. unfold packets_at_end. destruct (pk_end s); congruence. Qed.

#[export] Instance packets_lawful : LawfulStream packets := {|
  contents := packets_contents;
  at_end := packets_at_end;
  receive_some := packets_receive_some;
  receive_end := packets_receive_end;
  at_end_empty := packets_at_end_empty;
|}.

(** ** Properties *)

(** Framing round trip: the frames of any list of messages, concatenated and cut into
    packets in any way, are read back one by one as exactly those payloads, and the stream
    is left at the first byte after them. *)
Theorem read_frames_roundtrip {M S} `{!ByteReceiveStream S, !LawfulStream S}
    (to_bytes : M -> bytes) (ms : list M) (frames : list bytes) (tail : bytes) (s : S)
    (Hframes : Forall2 (fun m f => encode_with_length_prefix to_bytes m = Ok f) ms frames)
    (Hsize : Forall (fun m => len (to_bytes m) <= MAX_MESSAGE_SIZE) ms)
    (Hs : contents s = concat frames ++ tail) :
  exists s', read_frames (length ms) s = (Ok (to_bytes <$> ms), s') /\ contents s' = tail /\
    at_end s' = at_end s.
Proof.
  revert s Hs Hsize. induction Hframes as [|m f ms frames Hf Hframes IH]; intros s Hs Hsize; simpl in *.
  - by exists s.
  - apply Forall_cons in Hsize as [Hm Hsize].
    apply encode_with_length_prefix_Ok in Hf as (prefix & -> & Hp & Hd).
    destruct (read_framed_message_frame s prefix (to_bytes m) (concat frames ++ tail))
      as (s1 & -> & H1 & He1); [done..|by rewrite Hs, <- !app_assoc|].
    destruct (IH s1) as (s2 & -> & H2 & He2); [done|done|].
    exists s2. split_and!; [done|done|congruence].
Qed.

Lemma read_frames_roundtrip_witness :
  exists s', read_frames 2 (mk_packets [[x00; x00]; [x00; x01; x41; x00]; [x00; x00; x00; x07]] None) =
    (Ok [[x41]; []], s') /\ contents s' = [x07].
Proof.
  destruct (read_frames_roundtrip id [[x41]; []] [[x00; x00; x00; x01; x41]; [x00; x00; x00; x00]] [x07]
    (mk_packets [[x00; x00]; [x00; x01; x41; x00]; [x00; x00; x00; x07]] None)) as (s' & H1 & H2 & _).
  - repeat constructor.
  - repeat constructor; vm_compute; discriminate.
  - reflexivity.
  - exists s'. split; [exact H1|exact H2].
Defined.

(** A stream that ends inside a frame never yields a message: the exception the stream
    raises goes through as it is, and an empty read becomes a [FramingError] whose two
    counts are the bytes wanted and the bytes that had arrived. *)
Theorem read_framed_message_truncated {S} `{!ByteReceiveStream S, !LawfulStream S}
    (prefix got : bytes) (want : Z) (s : S)
    (Hcut : (want = LENGTH_PREFIX_SIZE /\ contents s = got /\ len got < 4) \/
            (len prefix = 4 /\ be_decode prefix = want /\ want <= MAX_MESSAGE_SIZE /\
             contents s = prefix ++ got /\ len got < want)) :
  fst (read_framed_message s) =
  match at_end s with Ok _ => Err (FramingError want (len got)) | Err e => Err e end.
Proof.
  unfold read_framed_message. destruct Hcut as [(-> & Hs & Hlt)|(Hp & Hd & Hmax & Hs & Hlt)].
  - destruct (read_exact_short s LENGTH_PREFIX_SIZE) as (s' & -> & _); [by rewrite Hs|].
    rewrite Hs. by destruct (at_end s).
  - destruct (read_exact_enough s prefix got Hs) as (s1 & H1 & Hs1 & He1).
    unfold LENGTH_PREFIX_SIZE. rewrite <- Hp, H1, Hd.
    destruct (Z.ltb_spec MAX_MESSAGE_SIZE want); [lia|].
    destruct (read_exact_short s1 want) as (s2 & -> & _); [by rewrite Hs1|].
    by rewrite Hs1, He1.
Qed.

Lemma read_framed_message_truncated_witness :
  fst (read_framed_message (mk_packets [[x00; x00; x00]; [x05; x41; x42]] None)) = Err (FramingError 5 2) /\
  fst (read_framed_message (mk_packets [[x00; x00]] (Some EndOfStream))) = Err EndOfStream.
Proof.
  split.
  - refine (eq_trans (read_framed_message_truncated [x00; x00; x00; x05] [x41; x42] 5 _ _) _);
      [right; repeat split; vm_compute; congruence|reflexivity].
  - refine (eq_trans (read_framed_message_truncated [] [x00; x00] 4 _ _) _);
      [left; repeat split|reflexivity].
Defined.

(** Memory safety of the reader: a length prefix above the limit is refused after the
    four prefix bytes, before a single byte of the payload is asked for, and a payload the
    reader returns is never longer than the limit. *)
Theorem read_framed_message_bounded {S} `{!ByteReceiveStream S, !LawfulStream S}
    (prefix tail : bytes) (s : S) (Hp : len prefix = 4) (Hs : contents s = prefix ++ tail) :
  (MAX_MESSAGE_SIZE < be_decode prefix ->
   exists s', read_framed_message s = (Err (FramingError MAX_MESSAGE_SIZE (be_decode prefix)), s') /\
     contents s' = tail) /\
  (forall payload s', read_framed_message s = (Ok payload, s') ->
   len payload <= MAX_MESSAGE_SIZE /\ prefix ++ payload ++ contents s' = contents s).
Proof.
  unfold read_framed_message. destruct (read_exact_enough s prefix tail Hs) as (s1 & H1 & Hs1 & He1).
  unfold LENGTH_PREFIX_SIZE. rewrite <- Hp, H1. split.
  - intros Hbig. destruct (Z.ltb_spec MAX_MESSAGE_SIZE (be_decode prefix)); [|lia]. eauto.
  - intros payload s' Hr. destruct (Z.ltb_spec MAX_MESSAGE_SIZE (be_decode prefix)); [done|].
    destruct (Z.le_gt_cases (be_decode prefix) (len tail)) as [Hle|Hgt].
    + pose proof (be_decode_nonneg prefix).
      destruct (read_exact_enough s1 (take (Z.to_nat (be_decode prefix)) tail)
        (drop (Z.to_nat (be_decode prefix)) tail)) as (s2 & H2 & Hs2 & _); [by rewrite take_drop|].
      assert (Hlen : len (take (Z.to_nat (be_decode prefix)) tail) = be_decode prefix).
      { unfold len in *. rewrite length_take. lia. }
      rewrite Hlen in H2. rewrite H2 in Hr. simplify_eq. rewrite Hlen, Hs, Hs2, take_drop. done.
    + destruct (read_exact_short s1 (be_decode prefix)) as (s2 & H2 & _); [by rewrite Hs1|].
      rewrite H2 in Hr. by destruct (at_end s1).
Qed.

Lemma read_framed_message_bounded_witness :
  exists s', read_framed_message (mk_packets [[x00; x10; x00; x01; x41]] None) =
    (Err (FramingError 1048576 1048577), s') /\ contents s' = [x41].
Proof.
  apply (read_framed_message_bounded [x00; x10; x00; x01] [x41]
    (mk_packets [[x00; x10; x00; x01; x41]] None)); reflexivity.
Defined.
