(* ===== verification/Transport.v ===== *)
(** * The TCP/TLS link ([connection/transport.py])

    [Transport] over [anyio]: its streams are handles, numbered as they are opened. Opening,
    closing and sending are [await]s of the oracle, so that another task may connect or close
    while one of them is under way; a [fail_after] that expires is an answer of [TimeoutError],
    a [move_on_after] that expires an answer without an exception. *)

From S2P Require Import Prelude Errors Wire Effects Framing.
From stdpp Require Import options.
Open Scope string_scope.
Open Scope list_scope.
Open Scope Z_scope.

(** The settings, fixed at construction. *)
Record endpoint := mk_endpoint {
  ep_host : string;
  ep_port : Z;
  ep_ssl : bool;
  ep_connect_timeout : seconds;
}.

(** [self._stream], and the number of the next stream to be opened. *)
Record Transport := mk_transport {
  stream : option nat;
  fresh_stream : nat;
}.

Inductive io_action :=
  | TOpen (host : string) (port : Z) (tls : bool) (timeout : seconds)
  | TAclose (handle : nat)
  | TSend (handle : nat) (data : bytes).

Abbreviation io A := (proc Transport io_action A).

Definition is_connected (t : Transport) : bool := match stream t with Some _ => true | None => false end.

Definition not_connected : exn := CTraderConnectionClosedError (Some "Not connected") false.

(** The [stream] property. *)
Definition get_stream (t : Transport) : res nat :=
  match stream t with None => Err not_connected | Some h => Ok h end.

(** [self._stream = await anyio.connect_tcp(...)] *)
Definition open_stream (ep : endpoint) : io () :=
  _ ← perform (TOpen (ep_host ep) (ep_port ep) (ep_ssl ep) (ep_connect_timeout ep));
  _ ← await_unit;
  modify (fun t => mk_transport (Some (fresh_stream t)) (S (fresh_stream t))).

(** [connect] *)
Definition connect (ep : endpoint) : io () :=
  s ← gets stream;
  match s with
  | Some _ => mret ()
  | None =>
      try_except (open_stream ep)
        (except_Exception (fun e => raise (CTraderConnectionFailedError (ep_host ep) (ep_port ep) (Some e))))
  end.

(** [except (OSError, anyio.ClosedResourceError, anyio.BrokenResourceError): pass];
    [TimeoutError] is an [OSError]. *)
Definition close_error (e : exn) : bool :=
  match e with
  | OSError _ | TimeoutError | ClosedResourceError | BrokenResourceError => true
  | _ => false
  end.

(** [close]: the reference is cleared before the first [await]. *)
Definition close : io () :=
  s ← gets stream;
  match s with
  | None => mret ()
  | Some h =>
      _ ← modify (fun t => mk_transport None (fresh_stream t));
      try_except (_ ← perform (TAclose h); await_unit)
        (fun e => if close_error e then Some (mret ()) else None)
  end.

(** [send] *)
Definition send (data : bytes) : io () :=
  s ← gets stream;
  match s with
  | None => raise not_connected
  | Some h => _ ← perform (TSend h data); await_unit
  end.

(** [receive], of the bytes the stream then yields. *)
Definition receive {S} `{!ByteReceiveStream S} (max_bytes : Z) (t : Transport) (s : S) : res bytes * S :=
  match stream t with
  | None => (Err not_connected, s)
  | Some _ => Framing.receive s max_bytes
  end.

(** ** Theorems *)

(** Every handle was opened, and none is opened twice. *)
Definition transport_wf (t : Transport) : Prop := forall h, stream t = Some h -> (h < fresh_stream t)%nat.

(** What [connect] did, by how the attempt ended. *)
Definition connected_as (ep : endpoint) (before : Transport) (answer : res message) (r : run_result Transport io_action ())
    : Prop :=
  match answer with
  | Ok _ => out r = Done () /\ state r = mk_transport (Some (fresh_stream before)) (S (fresh_stream before))
  | Err Cancelled => out r = Raised Cancelled /\ state r = before
  | Err e => out r = Raised (CTraderConnectionFailedError (ep_host ep) (ep_port ep) (Some e)) /\ state r = before
  end.

(** Connecting has two outcomes. On a connected transport nothing happens. Otherwise one
    attempt is made, and however it ends, either there is a new stream, which no earlier
    connection used, or a [CTraderConnectionFailedError] with the cause is raised and the
    transport is as the other tasks left it; only the cancellation passes through. *)
Theorem connect_two_outcomes (ep : endpoint) (s : env_step Transport) o t :
  match stream t with
  | Some _ => connect ep (s :: o) t = mk_result (Done ()) t [] (s :: o)
  | None =>
      let r := connect ep (s :: o) t in
      acts r = [TOpen (ep_host ep) (ep_port ep) (ep_ssl ep) (ep_connect_timeout ep)] /\ rest r = o /\
      connected_as ep (env_act s t) (env_reply s) r
  end.
Proof.
  unfold connect. rewrite bind_gets. destruct (stream t) as [h|] eqn:E; [done|].
  unfold open_stream, connected_as. destruct s as [f [m|e]]; [by split_and!|]. destruct e; by split_and!.
Qed.

(** Closing is idempotent and happens once. From the first [await] of [close] on the
    transport is disconnected, so whatever other calls of [close], [send] or [receive] meet
    it find no stream; the stream that was open is closed once, and the ways a dead
    socket fails to close are swallowed. *)
Theorem close_once (s : env_step Transport) o t h (Hopen : stream t = Some h) :
  let r := close (s :: o) t in
  acts r = [TAclose h] /\
  state r = env_act s (mk_transport None (fresh_stream t)) /\
  out r = match env_reply s with
          | Err e => if close_error e then Done () else Raised e
          | Ok _ => Done ()
          end /\
  (forall o', close o' (mk_transport None (fresh_stream t)) = mk_result (Done ()) (mk_transport None (fresh_stream t)) [] o') /\
  (forall o' data, out (send data o' (mk_transport None (fresh_stream t))) = Raised not_connected) /\
  (forall S (HS : ByteReceiveStream S) n bytes, receive n (mk_transport None (fresh_stream t)) bytes = (Err not_connected, bytes)).
Proof.
  unfold close. rewrite bind_gets, Hopen, bind_modify. destruct s as [f [m|e]]; [repeat split|].
  run. destruct (close_error e); repeat split.
Qed.

Lemma close_once_witness :
  acts (close [quiet (Err BrokenResourceError)] (mk_transport (Some 0%nat) 1)) = [TAclose 0].
Proof.
  destruct (close_once (quiet (Err BrokenResourceError)) [] (mk_transport (Some 0%nat) 1) 0 eq_refl) as [H _].
  exact H.
Defined.
