(* ===== verification/Messages.v ===== *)
(** * Message envelopes and the class registry ([_internal/messages.py])

    Every message travels inside a [ProtoMessage] that names its payload type and, for a
    request and its response, the client's message id. Encoding and parsing themselves are
    [betterproto]'s: [Codec] is what the code calls, [LawfulCodec] what it relies on. *)

From S2P Require Import Prelude Errors Wire Framing.
From stdpp Require Import options.
From Stdlib Require Import Strings.Byte.
Import Cls(msg_class).
Open Scope string_scope.
Open Scope list_scope.
Open Scope Z_scope.

(** ** The registry *)

(** [_PAYLOAD_TYPE_TO_CLASS] *)
Definition PAYLOAD_TYPE_TO_CLASS : dict Z msg_class := [
  (50, Cls.ProtoErrorRes);
  (51, Cls.ProtoHeartbeatEvent);
  (2100, Cls.ProtoOAApplicationAuthReq);
  (2101, Cls.ProtoOAApplicationAuthRes);
  (2102, Cls.ProtoOAAccountAuthReq);
  (2103, Cls.ProtoOAAccountAuthRes);
  (2104, Cls.ProtoOAVersionReq);
  (2105, Cls.ProtoOAVersionRes);
  (2106, Cls.ProtoOANewOrderReq);
  (2107, Cls.ProtoOATrailingSLChangedEvent);
  (2108, Cls.ProtoOACancelOrderReq);
  (2109, Cls.ProtoOAAmendOrderReq);
  (2110, Cls.ProtoOAAmendPositionSLTPReq);
  (2111, Cls.ProtoOAClosePositionReq);
  (2112, Cls.ProtoOAAssetListReq);
  (2113, Cls.ProtoOAAssetListRes);
  (2114, Cls.ProtoOASymbolsListReq);
  (2115, Cls.ProtoOASymbolsListRes);
  (2116, Cls.ProtoOASymbolByIdReq);
  (2117, Cls.ProtoOASymbolByIdRes);
  (2118, Cls.ProtoOASymbolsForConversionReq);
  (2119, Cls.ProtoOASymbolsForConversionRes);
  (2120, Cls.ProtoOASymbolChangedEvent);
  (2121, Cls.ProtoOATraderReq);
  (2122, Cls.ProtoOATraderRes);
  (2123, Cls.ProtoOATraderUpdatedEvent);
  (2124, Cls.ProtoOAReconcileReq);
  (2125, Cls.ProtoOAReconcileRes);
  (2126, Cls.ProtoOAExecutionEvent);
  (2127, Cls.ProtoOASubscribeSpotsReq);
  (2128, Cls.ProtoOASubscribeSpotsRes);
  (2129, Cls.ProtoOAUnsubscribeSpotsReq);
  (2130, Cls.ProtoOAUnsubscribeSpotsRes);
  (2131, Cls.ProtoOASpotEvent);
  (2132, Cls.ProtoOAOrderErrorEvent);
  (2133, Cls.ProtoOADealListReq);
  (2134, Cls.ProtoOADealListRes);
  (2135, Cls.ProtoOASubscribeLiveTrendbarReq);
  (2136, Cls.ProtoOAUnsubscribeLiveTrendbarReq);
  (2137, Cls.ProtoOAGetTrendbarsReq);
  (2138, Cls.ProtoOAGetTrendbarsRes);
  (2139, Cls.ProtoOAExpectedMarginReq);
  (2140, Cls.ProtoOAExpectedMarginRes);
  (2141, Cls.ProtoOAMarginChangedEvent);
  (2142, Cls.ProtoOAErrorRes);
  (2143, Cls.ProtoOACashFlowHistoryListReq);
  (2144, Cls.ProtoOACashFlowHistoryListRes);
  (2145, Cls.ProtoOAGetTickDataReq);
  (2146, Cls.ProtoOAGetTickDataRes);
  (2147, Cls.ProtoOAAccountsTokenInvalidatedEvent);
  (2148, Cls.ProtoOAClientDisconnectEvent);
  (2149, Cls.ProtoOAGetAccountListByAccessTokenReq);
  (2150, Cls.ProtoOAGetAccountListByAccessTokenRes);
  (2151, Cls.ProtoOAGetCtidProfileByTokenReq);
  (2152, Cls.ProtoOAGetCtidProfileByTokenRes);
  (2153, Cls.ProtoOAAssetClassListReq);
  (2154, Cls.ProtoOAAssetClassListRes);
  (2155, Cls.ProtoOADepthEvent);
  (2156, Cls.ProtoOASubscribeDepthQuotesReq);
  (2157, Cls.ProtoOASubscribeDepthQuotesRes);
  (2158, Cls.ProtoOAUnsubscribeDepthQuotesReq);
  (2159, Cls.ProtoOAUnsubscribeDepthQuotesRes);
  (2160, Cls.ProtoOASymbolCategoryListReq);
  (2161, Cls.ProtoOASymbolCategoryListRes);
  (2162, Cls.ProtoOAAccountLogoutReq);
  (2163, Cls.ProtoOAAccountLogoutRes);
  (2164, Cls.ProtoOAAccountDisconnectEvent);
  (2165, Cls.ProtoOASubscribeLiveTrendbarRes);
  (2166, Cls.ProtoOAUnsubscribeLiveTrendbarRes);
  (2167, Cls.ProtoOAMarginCallListReq);
  (2168, Cls.ProtoOAMarginCallListRes);
  (2169, Cls.ProtoOAMarginCallUpdateReq);
  (2170, Cls.ProtoOAMarginCallUpdateRes);
  (2171, Cls.ProtoOAMarginCallUpdateEvent);
  (2172, Cls.ProtoOAMarginCallTriggerEvent);
  (2173, Cls.ProtoOARefreshTokenReq);
  (2174, Cls.ProtoOARefreshTokenRes);
  (2175, Cls.ProtoOAOrderListReq);
  (2176, Cls.ProtoOAOrderListRes);
  (2177, Cls.ProtoOAGetDynamicLeverageByIDReq);
  (2178, Cls.ProtoOAGetDynamicLeverageByIDRes);
  (2179, Cls.ProtoOADealListByPositionIdReq);
  (2180, Cls.ProtoOADealListByPositionIdRes);
  (2181, Cls.ProtoOAOrderDetailsReq);
  (2182, Cls.ProtoOAOrderDetailsRes);
  (2183, Cls.ProtoOAOrderListByPositionIdReq);
  (2184, Cls.ProtoOAOrderListByPositionIdRes);
  (2185, Cls.ProtoOADealOffsetListReq);
  (2186, Cls.ProtoOADealOffsetListRes);
  (2187, Cls.ProtoOAGetPositionUnrealizedPnLReq);
  (2188, Cls.ProtoOAGetPositionUnrealizedPnLRes)
].

(** [_CLASS_TO_PAYLOAD_TYPE], the comprehension that inverts it *)
Definition CLASS_TO_PAYLOAD_TYPE : dict msg_class Z :=
  foldl (fun d kv => dict_set kv.2 kv.1 d) [] PAYLOAD_TYPE_TO_CLASS.

Definition get_class (payload_type : Z) : option msg_class := dict_get payload_type PAYLOAD_TYPE_TO_CLASS.

Definition get_payload_type (cls : msg_class) : option Z := dict_get cls CLASS_TO_PAYLOAD_TYPE.

(** ** Client message ids *)

(** [ClientMessageIdGenerator]: its counter. (The lock makes [next_id] atomic.) *)
Record ClientMessageIdGenerator := mk_id_generator { counter : Z }.

Definition next_id (g : ClientMessageIdGenerator) : string * ClientMessageIdGenerator :=
  let c := counter g + 1 in (str_int c, mk_id_generator c).

(** The ids of [n] successive calls. *)
Fixpoint next_ids (n : nat) (g : ClientMessageIdGenerator) : list string :=
  match n with
  | O => []
  | S n' => let '(i, g') := next_id g in i :: next_ids n' g'
  end.

(** ** Envelopes *)

Record ProtoMessage := mk_proto_message {
  payload_type : Z;
  payload : bytes;
  client_msg_id : string;
}.

(** [betterproto]: [bytes(m)] and [cls().parse(data)], of a message and of an envelope. *)
Class Codec := {
  message_bytes : message -> bytes;
  message_parse : msg_class -> bytes -> res message;
  envelope_bytes : ProtoMessage -> bytes;
  envelope_parse : bytes -> res ProtoMessage;
}.

Section messages.
Context `{!Codec}.

(** [client_msg_id or ""] *)
Definition msg_id_or_empty (client_msg_id : option string) : string := default "" client_msg_id.

Definition wrap_message (inner : message) (client_msg_id : option string) : res ProtoMessage :=
  match get_payload_type (class_of inner) with
  | None => Err (UnknownPayloadTypeError (-1))
  | Some pt => Ok (mk_proto_message pt (message_bytes inner) (msg_id_or_empty client_msg_id))
  end.

Definition unwrap_message (proto_message : ProtoMessage) : res message :=
  match get_class (payload_type proto_message) with
  | None => Err (UnknownPayloadTypeError (payload_type proto_message))
  | Some cls =>
      match message_parse cls (payload proto_message) with
      | Ok m => Ok m
      | Err e =>
          if is_Exception e
          then Err (DeserializationError (payload_type proto_message) (payload proto_message))
          else Err e
      end
  end.

Definition deserialize_proto_message (data : bytes) : res ProtoMessage :=
  match envelope_parse data with
  | Ok pm => Ok pm
  | Err e => if is_Exception e then Err (DeserializationError (-1) data) else Err e
  end.

(** What [send_request] and [send_event] write to the transport. *)
Definition encode_message (inner : message) (client_msg_id : option string) : res bytes :=
  pm ← wrap_message inner client_msg_id;
  encode_with_length_prefix envelope_bytes pm.

(** The three calls of the reader loop that make a message of the next frame. *)
Definition receive_message {S} `{!ByteReceiveStream S} (s : S) : res (ProtoMessage * message) * S :=
  match read_framed_message s with
  | (Err e, s') => (Err e, s')
  | (Ok raw, s') =>
      ((pm ← deserialize_proto_message raw; inner ← unwrap_message pm; Ok (pm, inner)), s')
  end.
End messages.

(** Parsing what was serialized gives it back, for the messages [betterproto] can carry
    (integers in range, strings valid). *)
Class LawfulCodec `{!Codec} := {
  encodable : message -> Prop;
  message_parse_bytes m : encodable m -> message_parse (class_of m) (message_bytes m) = Ok m;
  envelope_parse_bytes pm : 0 <= payload_type pm < 2 ^ 32 -> envelope_parse (envelope_bytes pm) = Ok pm;
}.

(** ** Lemmas *)

Lemma registry_inverts :
  forallb (fun kv => bool_decide (dict_get kv.2 CLASS_TO_PAYLOAD_TYPE = Some kv.1)) PAYLOAD_TYPE_TO_CLASS &&
  forallb (fun ck => bool_decide (dict_get ck.2 PAYLOAD_TYPE_TO_CLASS = Some ck.1)) CLASS_TO_PAYLOAD_TYPE = true.
Proof. vm_compute. reflexivity. Qed.

(** No payload type is listed twice. *)
Lemma registry_wf : dict_wf PAYLOAD_TYPE_TO_CLASS.
Proof. apply (bool_decide_unpack _). vm_compute. exact I. Qed.

Lemma get_class_payload_type (pt : Z) (c : msg_class) :
  get_class pt = Some c <-> get_payload_type c = Some pt.
Proof.
  pose proof registry_inverts as H. apply andb_true_iff in H as [H1 H2].
  rewrite forallb_forall in H1, H2. split; intros Hget.
  - apply dict_get_Some_in, list_elem_of_In, H1 in Hget. by apply bool_decide_eq_true in Hget.
  - apply dict_get_Some_in, list_elem_of_In, H2 in Hget. by apply bool_decide_eq_true in Hget.
Qed.

Lemma str_int_inj (a b : Z) : str_int a = str_int b -> a = b.
Proof. unfold str_int. apply (inj pretty). Qed.

Lemma pretty_N_go_nonempty (x : N) (s : string) : s ≠ "" -> pretty_N_go x s ≠ "".
Proof.
  revert s. induction (N.lt_wf_0 x) as [x _ IH]. intros s Hs.
  destruct (decide (x = 0%N)) as [->|Hx]; [by rewrite pretty_N_go_0|].
  rewrite pretty_N_go_step by lia. apply IH; [apply N.div_lt; lia|done].
Qed.

(** A rendered id is never the empty string that stands for none. *)
Lemma str_int_nonempty (n : Z) : str_int n ≠ "".
Proof.
  unfold str_int. destruct n as [|p|p]; [done| |done].
  change (pretty_N_go (N.pos p) "" ≠ ""). rewrite pretty_N_go_step by lia.
  by apply pretty_N_go_nonempty.
Qed.

(** Every payload type of the registry fits the field that carries it. *)
Lemma get_payload_type_range (c : msg_class) (pt : Z) :
  get_payload_type c = Some pt -> 0 <= pt < 2 ^ 32.
Proof.
  intros H%dict_get_Some_in. revert H.
  assert (Hall : Forall (fun kv => 0 <= kv.2 < 2 ^ 32) CLASS_TO_PAYLOAD_TYPE)
    by (apply (bool_decide_unpack _); vm_compute; exact I).
  rewrite Forall_forall in Hall. apply (Hall (c, pt)).
Qed.

Lemma next_ids_le (n : nat) (g : ClientMessageIdGenerator) (c : Z) :
  str_int c ∈ next_ids n g -> counter g < c.
Proof.
  revert g. induction n as [|n IH]; intros g; simpl; [set_solver|].
  intros [->%str_int_inj|Hin%IH]%elem_of_cons; simpl in *; lia.
Qed.

Lemma wrap_unwrap `{!Codec, !LawfulCodec} (m : message) (id : option string) (pm : ProtoMessage) :
  encodable m -> wrap_message m id = Ok pm ->
  unwrap_message pm = Ok m /\ client_msg_id pm = msg_id_or_empty id /\ 0 <= payload_type pm < 2 ^ 32.
Proof.
  intros Hm. unfold wrap_message, unwrap_message.
  destruct (get_payload_type (class_of m)) as [pt|] eqn:E; [|done]. intros Hw.
  injection Hw as <-. simpl.
  pose proof (get_payload_type_range _ _ E). apply get_class_payload_type in E. rewrite E.
  by rewrite message_parse_bytes.
Qed.

(** Written and received again, in any pieces. *)
Lemma encode_receive `{!Codec, !LawfulCodec} {S} `{!ByteReceiveStream S, !LawfulStream S}
    (m : message) (id : option string) (frame tail : bytes) (s : S) :
  encodable m -> encode_message m id = Ok frame -> len frame <= MAX_MESSAGE_SIZE -> contents s = frame ++ tail ->
  exists pm s', receive_message s = (Ok (pm, m), s') /\ client_msg_id pm = msg_id_or_empty id /\ contents s' = tail.
Proof.
  intros Hm Henc Hsize Hs. unfold encode_message in Henc. destruct (wrap_message m id) as [pm|] eqn:Hw; simpl in Henc; [|done].
  destruct (wrap_unwrap m id pm Hm Hw) as (Hu & Hid & Hpt).
  apply encode_with_length_prefix_Ok in Henc as (prefix & -> & Hp & Hd).
  rewrite len_app in Hsize. rewrite <- app_assoc in Hs.
  destruct (read_framed_message_frame s prefix (envelope_bytes pm) tail) as (s' & Hr & Hs' & _);
    [done|done|lia|done|].
  exists pm, s'. split_and!; [|done|done]. unfold receive_message, deserialize_proto_message.
  rewrite Hr, envelope_parse_bytes by done. simpl. by rewrite Hu.
Qed.

(** ** Properties *)

(** The registry loses nothing in either direction: a payload type stands for a class
    exactly when that class is sent under that payload type. So no two classes share a
    number and no class has two. *)
Theorem registry_bijective (pt : Z) (c : msg_class) :
  get_class pt = Some c <-> get_payload_type c = Some pt.
Proof. apply get_class_payload_type. Qed.

(** C11. End to end: a message of a registered class, written with [encode_message] and
    received from a stream that delivers the bytes in any pieces, comes out as the same
    message under the same client message id, and the stream is left right after it. The
    message is one the codec carries, and its frame is within the size limit, which the
    reader enforces and the writer does not. *)
Theorem encode_receive_roundtrip `{!Codec, !LawfulCodec} {S} `{!ByteReceiveStream S, !LawfulStream S}
    (m : message) (id : option string) (frame tail : bytes) (s : S)
    (Hm : encodable m) (Henc : encode_message m id = Ok frame)
    (Hsize : len frame <= MAX_MESSAGE_SIZE) (Hs : contents s = frame ++ tail) :
  exists pm s', receive_message s = (Ok (pm, m), s') /\ client_msg_id pm = msg_id_or_empty id /\
    contents s' = tail.
Proof. by eapply encode_receive. Qed.

(** Client message ids never repeat: the ids of any number of successive requests are
    distinct, so a response names at most one request. *)
Theorem next_ids_NoDup (n : nat) (g : ClientMessageIdGenerator) : NoDup (next_ids n g).
Proof.
  revert g. induction n as [|n IH]; intros g; simpl; [constructor|].
  apply NoDup_cons. split; [|apply IH]. intros H%next_ids_le. simpl in H. lia.
Qed.

(** A codec of one message, enough to run the definitions: the envelope is the payload
    type, the id's characters each after a mark, a stop, and the payload. *)
Module Toy.
Fixpoint id_bytes (s : string) : bytes :=
  match s with
  | EmptyString => [x00]
  | String a s' => [x01; Ascii.byte_of_ascii a] ++ id_bytes s'
  end.

Fixpoint id_parse (fuel : nat) (bs : bytes) : option (string * bytes) :=
  match fuel, bs with
  | S _, x00 :: bs' => Some (EmptyString, bs')
  | S fuel', x01 :: b :: bs' =>
      '(s, r) ← id_parse fuel' bs'; Some (String (Ascii.ascii_of_byte b) s, r)
  | _, _ => None
  end.

Lemma id_parse_bytes (s : string) (fuel : nat) (tail : bytes) :
  (String.length s < fuel)%nat -> id_parse fuel (id_bytes s ++ tail) = Some (s, tail).
Proof.
  revert fuel. induction s as [|a s IH]; intros [|fuel]; simpl; try lia; [done|].
  intros. rewrite IH by lia. simpl. by rewrite Ascii.ascii_of_byte_of_ascii.
Qed.

#[export] Instance codec : Codec := {|
  message_bytes _ := [];
  message_parse c bs :=
    match c, bs with Cls.ProtoHeartbeatEvent, [] => Ok MHeartbeatEvent | _, _ => Err (ValueError "bad") end;
  envelope_bytes pm := be_encode 4 (payload_type pm) ++ id_bytes (client_msg_id pm) ++ payload pm;
  envelope_parse bs :=
    match id_parse (length bs) (drop 4 bs) with
    | Some (i, p) => Ok (mk_proto_message (be_decode (take 4 bs)) p i)
    | None => Err (ValueError "bad")
    end
|}.

Lemma length_id_bytes (s : string) : (String.length s < length (id_bytes s))%nat.
Proof. induction s; simpl; lia. Qed.

Lemma envelope_lawful (pm : ProtoMessage) :
  0 <= payload_type pm < 2 ^ 32 -> envelope_parse (envelope_bytes pm) = Ok pm.
Proof.
  destruct pm as [pt p i]. unfold envelope_parse, envelope_bytes, codec, payload_type, client_msg_id, payload.
  intros Hpt. rewrite drop_app_length', take_app_length' by done.
  rewrite id_parse_bytes by (rewrite !length_app; pose proof (length_id_bytes i); lia).
  rewrite be_decode_encode. do 2 f_equal. by apply Z.mod_small.
Qed.

Lemma heartbeat_lawful (m : message) :
  m = MHeartbeatEvent -> message_parse (class_of m) (message_bytes m) = Ok m.
Proof. by intros ->. Qed.

#[export] Instance lawful : LawfulCodec := {|
  encodable m := m = MHeartbeatEvent;
  message_parse_bytes := heartbeat_lawful;
  envelope_parse_bytes := envelope_lawful;
|}.
End Toy.
Import Toy.

Lemma encode_receive_roundtrip_witness :
  exists frame pm s', encode_message MHeartbeatEvent (Some "7") = Ok frame /\
    receive_message (mk_packets ((fun b => [b]) <$> frame ++ [x2a]) None) = (Ok (pm, MHeartbeatEvent), s') /\
    client_msg_id pm = "7" /\ contents s' = [x2a].
Proof.
  eexists. edestruct (encode_receive_roundtrip MHeartbeatEvent (Some "7")
    [x00; x00; x00; x07; x00; x00; x00; x33; x01; x37; x00] [x2a]) as (pm & s' & H1 & H2 & H3);
    [reflexivity|reflexivity|vm_compute; discriminate| |exists pm, s'; split; [reflexivity|]; split; [exact H1|]; split; [exact H2|exact H3]].
  reflexivity.
Defined.
