(* ===== verification/Models.v ===== *)
(** * The models ([models/]): what the API returns

    One record per model class and one [..._from_proto] per class method. Pydantic's
    own validation is not modelled: each constructor call passes values of the declared
    types. [datetime.now(UTC)] is the argument [now]. A timestamp outside [datetime]'s years
    makes the whole conversion raise. *)

From S2P Require Import Prelude Errors Enums Numbers Wire.
From stdpp Require Import options.
Import OrderSide(order_side) OrderType(order_type) OrderStatus(order_status)
  PositionStatus(position_status) TimeInForce(time_in_force) DealStatus(deal_status)
  AccessRights(access_rights) AccountType(account_type) TradingMode(trading_mode)
  TrendbarPeriod(trendbar_period) StopTriggerMethod(stop_trigger_method).
Open Scope string_scope.
Open Scope list_scope.
Open Scope Z_scope.

(** ** Enumerations *)

Definition ORDER_TYPE_MAP : dict Z order_type := [
  (ProtoOAOrderType.MARKET, OrderType.MARKET);
  (ProtoOAOrderType.LIMIT, OrderType.LIMIT);
  (ProtoOAOrderType.STOP, OrderType.STOP);
  (ProtoOAOrderType.STOP_LOSS_TAKE_PROFIT, OrderType.STOP_LOSS_TAKE_PROFIT);
  (ProtoOAOrderType.MARKET_RANGE, OrderType.MARKET_RANGE);
  (ProtoOAOrderType.STOP_LIMIT, OrderType.STOP_LIMIT)].

Definition ORDER_STATUS_MAP : dict Z order_status := [
  (ProtoOAOrderStatus.ORDER_STATUS_ACCEPTED, OrderStatus.ACCEPTED);
  (ProtoOAOrderStatus.ORDER_STATUS_FILLED, OrderStatus.FILLED);
  (ProtoOAOrderStatus.ORDER_STATUS_REJECTED, OrderStatus.REJECTED);
  (ProtoOAOrderStatus.ORDER_STATUS_EXPIRED, OrderStatus.EXPIRED);
  (ProtoOAOrderStatus.ORDER_STATUS_CANCELLED, OrderStatus.CANCELLED)].

Definition TIME_IN_FORCE_MAP : dict Z time_in_force := [
  (ProtoOATimeInForce.GOOD_TILL_DATE, TimeInForce.GOOD_TILL_DATE);
  (ProtoOATimeInForce.GOOD_TILL_CANCEL, TimeInForce.GOOD_TILL_CANCEL);
  (ProtoOATimeInForce.IMMEDIATE_OR_CANCEL, TimeInForce.IMMEDIATE_OR_CANCEL);
  (ProtoOATimeInForce.FILL_OR_KILL, TimeInForce.FILL_OR_KILL);
  (ProtoOATimeInForce.MARKET_ON_OPEN, TimeInForce.MARKET_ON_OPEN)].

Definition TRIGGER_METHOD_MAP : dict Z stop_trigger_method := [
  (ProtoOAOrderTriggerMethod.TRADE, StopTriggerMethod.TRADE);
  (ProtoOAOrderTriggerMethod.OPPOSITE, StopTriggerMethod.OPPOSITE);
  (ProtoOAOrderTriggerMethod.DOUBLE_TRADE, StopTriggerMethod.DOUBLE_TRADE);
  (ProtoOAOrderTriggerMethod.DOUBLE_OPPOSITE, StopTriggerMethod.DOUBLE_OPPOSITE)].

(** [models/position.py] has a table of its own. *)
Definition Position_TRIGGER_METHOD_MAP : dict Z stop_trigger_method := [
  (ProtoOAOrderTriggerMethod.TRADE, StopTriggerMethod.TRADE);
  (ProtoOAOrderTriggerMethod.OPPOSITE, StopTriggerMethod.OPPOSITE);
  (ProtoOAOrderTriggerMethod.DOUBLE_TRADE, StopTriggerMethod.DOUBLE_TRADE);
  (ProtoOAOrderTriggerMethod.DOUBLE_OPPOSITE, StopTriggerMethod.DOUBLE_OPPOSITE)].

Definition POSITION_STATUS_MAP : dict Z position_status := [
  (ProtoOAPositionStatus.POSITION_STATUS_OPEN, PositionStatus.OPEN);
  (ProtoOAPositionStatus.POSITION_STATUS_CLOSED, PositionStatus.CLOSED);
  (ProtoOAPositionStatus.POSITION_STATUS_CREATED, PositionStatus.CREATED);
  (ProtoOAPositionStatus.POSITION_STATUS_ERROR, PositionStatus.ERROR)].

Definition DEAL_STATUS_MAP : dict Z deal_status := [
  (ProtoOADealStatus.FILLED, DealStatus.FILLED);
  (ProtoOADealStatus.PARTIALLY_FILLED, DealStatus.PARTIALLY_FILLED);
  (ProtoOADealStatus.REJECTED, DealStatus.REJECTED);
  (ProtoOADealStatus.INTERNALLY_REJECTED, DealStatus.INTERNALLY_REJECTED);
  (ProtoOADealStatus.ERROR, DealStatus.ERROR);
  (ProtoOADealStatus.MISSED, DealStatus.MISSED)].

Definition ACCOUNT_TYPE_MAP : dict Z account_type := [
  (ProtoOAAccountType.HEDGED, AccountType.HEDGED);
  (ProtoOAAccountType.NETTED, AccountType.NETTED);
  (ProtoOAAccountType.SPREAD_BETTING, AccountType.SPREAD_BETTING)].

Definition ACCESS_RIGHTS_MAP : dict Z access_rights := [
  (ProtoOAAccessRights.FULL_ACCESS, AccessRights.FULL_ACCESS);
  (ProtoOAAccessRights.CLOSE_ONLY, AccessRights.CLOSE_ONLY);
  (ProtoOAAccessRights.NO_TRADING, AccessRights.NO_TRADING);
  (ProtoOAAccessRights.NO_LOGIN, AccessRights.NO_LOGIN)].

Definition TRADING_MODE_MAP : dict Z trading_mode := [
  (ProtoOATradingMode.ENABLED, TradingMode.ENABLED);
  (ProtoOATradingMode.DISABLED_WITHOUT_PENDINGS_EXECUTION, TradingMode.DISABLED_WITHOUT_PENDINGS_EXECUTION);
  (ProtoOATradingMode.DISABLED_WITH_PENDINGS_EXECUTION, TradingMode.DISABLED_WITH_PENDINGS_EXECUTION);
  (ProtoOATradingMode.CLOSE_ONLY_MODE, TradingMode.CLOSE_ONLY)].

Definition PERIOD_MAP : dict Z trendbar_period := [
  (ProtoOATrendbarPeriod.M1, TrendbarPeriod.M1);
  (ProtoOATrendbarPeriod.M2, TrendbarPeriod.M2);
  (ProtoOATrendbarPeriod.M3, TrendbarPeriod.M3);
  (ProtoOATrendbarPeriod.M4, TrendbarPeriod.M4);
  (ProtoOATrendbarPeriod.M5, TrendbarPeriod.M5);
  (ProtoOATrendbarPeriod.M10, TrendbarPeriod.M10);
  (ProtoOATrendbarPeriod.M15, TrendbarPeriod.M15);
  (ProtoOATrendbarPeriod.M30, TrendbarPeriod.M30);
  (ProtoOATrendbarPeriod.H1, TrendbarPeriod.H1);
  (ProtoOATrendbarPeriod.H4, TrendbarPeriod.H4);
  (ProtoOATrendbarPeriod.H12, TrendbarPeriod.H12);
  (ProtoOATrendbarPeriod.D1, TrendbarPeriod.D1);
  (ProtoOATrendbarPeriod.W1, TrendbarPeriod.W1);
  (ProtoOATrendbarPeriod.MN1, TrendbarPeriod.MN1)].

(** [d.get(k, x)] *)
Definition dict_get_or {K V} `{EqDecision K} (k : K) (x : V) (d : dict K V) : V := default x (dict_get k d).

(** ** Fields that are absent when they are zero *)

(** [Decimal(str(x)) if x else None] *)
Definition price_or_None (x : double) : option decimal :=
  if float_truthy x then Some (decimal_of_float x) else None.

(** [timestamp_to_datetime(t) if t else None] *)
Definition datetime_or_None (t : Z) : res (option datetime) :=
  if t =? 0 then Ok None else d ← timestamp_to_datetime t; Ok (Some d).

(** [timestamp_to_datetime(t) if t else now] *)
Definition datetime_or (now : datetime) (t : Z) : res datetime :=
  if t =? 0 then Ok now else timestamp_to_datetime t.

(** [Decimal(n) / divisor if n else Decimal(0)] *)
Definition scaled_or_zero (n divisor : Z) : decimal :=
  if n =? 0 then Decimal_int 0 else scaled n divisor.

(** [Decimal(n) / divisor if n else None] *)
Definition scaled_or_None (n divisor : Z) : option decimal :=
  if n =? 0 then None else Some (scaled n divisor).

(** [trade_data.f if has_trade_data else d] *)
Definition of_trade_data {A} (td : option ProtoOATradeData) (f : ProtoOATradeData -> A) (d : A) : A :=
  if serialized_on_wire td then match td with Some t => f t | None => d end else d.

(** The side and the opening time of an order or a position. *)
Definition trade_data_side (td : option ProtoOATradeData) : order_side :=
  of_trade_data td (fun t => if td_trade_side t =? ProtoOATradeSide.SELL then OrderSide.SELL else OrderSide.BUY)
    OrderSide.BUY.

Definition trade_data_open (now : datetime) (td : option ProtoOATradeData) : res datetime :=
  of_trade_data td (fun t => datetime_or now (td_open_timestamp t)) (Ok now).

(** ** [order.py] *)

Record Order := {
  o_order_id : Z;
  o_symbol_id : Z;
  o_side : order_side;
  o_order_type : order_type;
  o_status : order_status;
  o_volume : Z;
  o_time_in_force : time_in_force;
  o_open_timestamp : datetime;
  o_limit_price : option decimal;
  o_stop_price : option decimal;
  o_stop_loss : option decimal;
  o_take_profit : option decimal;
  o_execution_price : option decimal;
  o_executed_volume : Z;
  o_expiration_timestamp : option datetime;
  o_position_id : option Z;
  o_base_slippage_price : option decimal;
  o_slippage_in_points : option Z;
  o_relative_stop_loss : option Z;
  o_relative_take_profit : option Z;
  o_is_closing_order : bool;
  o_is_stop_out : bool;
  o_trailing_stop_loss : bool;
  o_guaranteed_stop_loss : bool;
  o_stop_trigger_method : stop_trigger_method;
  o_client_order_id : string;
  o_label : string;
  o_comment : string;
  o_last_update_timestamp : option datetime;
}.

Definition is_pending (o : Order) : bool := bool_decide (o_status o = OrderStatus.ACCEPTED).
Definition is_filled (o : Order) : bool := bool_decide (o_status o = OrderStatus.FILLED).

Definition Order_from_proto (now : datetime) (p : ProtoOAOrder) : res Order :=
  let td := or_trade_data p in
  open_ts ← trade_data_open now td;
  expiration_timestamp ← datetime_or_None (or_expiration_timestamp p);
  last_update_timestamp ← datetime_or_None (or_utc_last_update_timestamp p);
  Ok {|
    o_order_id := or_order_id p;
    o_symbol_id := of_trade_data td td_symbol_id 0;
    o_side := trade_data_side td;
    o_order_type := dict_get_or (or_order_type p) OrderType.MARKET ORDER_TYPE_MAP;
    o_status := dict_get_or (or_order_status p) OrderStatus.ACCEPTED ORDER_STATUS_MAP;
    o_volume := of_trade_data td td_volume 0;
    o_time_in_force := dict_get_or (or_time_in_force p) TimeInForce.GOOD_TILL_CANCEL TIME_IN_FORCE_MAP;
    o_open_timestamp := open_ts;
    o_limit_price := price_or_None (or_limit_price p);
    o_stop_price := price_or_None (or_stop_price p);
    o_stop_loss := price_or_None (or_stop_loss p);
    o_take_profit := price_or_None (or_take_profit p);
    o_execution_price := price_or_None (or_execution_price p);
    o_executed_volume := or_executed_volume p;
    o_expiration_timestamp := expiration_timestamp;
    o_position_id := int_or_None (or_position_id p);
    o_base_slippage_price := price_or_None (or_base_slippage_price p);
    o_slippage_in_points := int_or_None (or_slippage_in_points p);
    o_relative_stop_loss := int_or_None (or_relative_stop_loss p);
    o_relative_take_profit := int_or_None (or_relative_take_profit p);
    o_is_closing_order := or_closing_order p;
    o_is_stop_out := or_is_stop_out p;
    o_trailing_stop_loss := or_trailing_stop_loss p;
    o_guaranteed_stop_loss := of_trade_data td td_guaranteed_stop_loss false;
    o_stop_trigger_method := dict_get_or (or_stop_trigger_method p) StopTriggerMethod.TRADE TRIGGER_METHOD_MAP;
    o_client_order_id := or_client_order_id p;
    o_label := of_trade_data td td_label "";
    o_comment := of_trade_data td td_comment "";
    o_last_update_timestamp := last_update_timestamp
  |}.

(** ** [position.py] *)

Record Position := {
  p_position_id : Z;
  p_symbol_id : Z;
  p_side : order_side;
  p_volume : Z;
  p_entry_price : decimal;
  p_status : position_status;
  p_open_timestamp : datetime;
  p_money_digits : Z;
  p_stop_loss : option decimal;
  p_take_profit : option decimal;
  p_trailing_stop_loss : bool;
  p_guaranteed_stop_loss : bool;
  p_stop_loss_trigger_method : stop_trigger_method;
  p_swap : decimal;
  p_commission : decimal;
  p_used_margin : decimal;
  p_margin_rate : option decimal;
  p_label : string;
  p_comment : string;
  p_last_update_timestamp : option datetime;
  p_close_timestamp : option datetime;
}.

Definition Position_from_proto (now : datetime) (p : ProtoOAPosition) : res Position :=
  let td := po_trade_data p in
  let money_digits := money_digits_or_default (po_money_digits p) in
  let divisor := money_divisor money_digits in
  open_ts ← trade_data_open now td;
  last_update_timestamp ← datetime_or_None (po_utc_last_update_timestamp p);
  close_timestamp ← of_trade_data td (fun t => datetime_or_None (td_close_timestamp t)) (Ok None);
  Ok {|
    p_position_id := po_position_id p;
    p_symbol_id := of_trade_data td td_symbol_id 0;
    p_side := trade_data_side td;
    p_volume := of_trade_data td td_volume 0;
    p_entry_price := default (Decimal_int 0) (price_or_None (po_price p));
    p_status := dict_get_or (po_position_status p) PositionStatus.OPEN POSITION_STATUS_MAP;
    p_open_timestamp := open_ts;
    p_money_digits := money_digits;
    p_stop_loss := price_or_None (po_stop_loss p);
    p_take_profit := price_or_None (po_take_profit p);
    p_trailing_stop_loss := po_trailing_stop_loss p;
    p_guaranteed_stop_loss := po_guaranteed_stop_loss p;
    p_stop_loss_trigger_method :=
      dict_get_or (po_stop_loss_trigger_method p) StopTriggerMethod.TRADE Position_TRIGGER_METHOD_MAP;
    p_swap := scaled_or_zero (po_swap p) divisor;
    p_commission := scaled_or_zero (po_commission p) divisor;
    p_used_margin := scaled_or_zero (po_used_margin p) divisor;
    p_margin_rate := price_or_None (po_margin_rate p);
    p_label := of_trade_data td td_label "";
    p_comment := of_trade_data td td_comment "";
    p_last_update_timestamp := last_update_timestamp;
    p_close_timestamp := close_timestamp
  |}.

Record PositionUnrealizedPnL := {
  upnl_position_id : Z;
  gross_unrealized_pnl : decimal;
  net_unrealized_pnl : decimal;
}.

(** ** [deal.py] *)

Record CloseDetail := {
  c_entry_price : decimal;
  c_closed_volume : Z;
  c_gross_profit : decimal;
  c_swap : decimal;
  c_commission : decimal;
  c_balance : decimal;
  c_pnl_conversion_fee : decimal;
  c_quote_to_deposit_rate : option decimal;
  c_balance_version : option Z;
}.

Definition CloseDetail_from_proto (p : ProtoOAClosePositionDetail) : CloseDetail :=
  let divisor := money_divisor (cd_money_digits p) in {|
    c_entry_price := decimal_of_float (cd_entry_price p);
    c_closed_volume := cd_closed_volume p;
    c_gross_profit := scaled (cd_gross_profit p) divisor;
    c_swap := scaled (cd_swap p) divisor;
    c_commission := scaled (cd_commission p) divisor;
    c_balance := scaled (cd_balance p) divisor;
    c_pnl_conversion_fee := scaled_or_zero (cd_pnl_conversion_fee p) divisor;
    c_quote_to_deposit_rate := price_or_None (cd_quote_to_deposit_conversion_rate p);
    c_balance_version := int_or_None (cd_balance_version p)
  |}.

Record Deal := {
  d_deal_id : Z;
  d_order_id : Z;
  d_position_id : Z;
  d_symbol_id : Z;
  d_side : order_side;
  d_volume : Z;
  d_filled_volume : Z;
  d_execution_price : decimal;
  d_execution_timestamp : datetime;
  d_status : deal_status;
  d_commission : decimal;
  d_create_timestamp : option datetime;
  d_last_update_timestamp : option datetime;
  d_margin_rate : option decimal;
  d_base_to_usd_rate : option decimal;
  d_close_detail : option CloseDetail;
}.

Definition is_closing_deal (d : Deal) : bool :=
  match d_close_detail d with Some c => dec_pos (c_balance c) | None => false end.

Definition Deal_from_proto (p : ProtoOADeal) : res Deal :=
  let divisor := money_divisor (de_money_digits p) in
  execution_timestamp ← timestamp_to_datetime (de_execution_timestamp p);
  create_timestamp ← datetime_or_None (de_create_timestamp p);
  last_update_timestamp ← datetime_or_None (de_utc_last_update_timestamp p);
  Ok {|
    d_deal_id := de_deal_id p;
    d_order_id := de_order_id p;
    d_position_id := de_position_id p;
    d_symbol_id := de_symbol_id p;
    d_side := if de_trade_side p =? 1 then OrderSide.BUY else OrderSide.SELL;
    d_volume := de_volume p;
    d_filled_volume := de_filled_volume p;
    d_execution_price := decimal_of_float (de_execution_price p);
    d_execution_timestamp := execution_timestamp;
    d_status := dict_get_or (de_deal_status p) DealStatus.FILLED DEAL_STATUS_MAP;
    d_commission := scaled_or_zero (de_commission p) divisor;
    d_create_timestamp := create_timestamp;
    d_last_update_timestamp := last_update_timestamp;
    d_margin_rate := price_or_None (de_margin_rate p);
    d_base_to_usd_rate := price_or_None (de_base_to_usd_conversion_rate p);
    d_close_detail :=
      match de_close_position_detail p with
      | Some c => if 0 <? cd_balance c then Some (CloseDetail_from_proto c) else None
      | None => None
      end
  |}.

(** ** [account.py] *)

Record AccountSummary := {
  as_account_id : Z;
  as_is_live : bool;
  as_trader_login : Z;
  as_broker_name : string;
  as_last_closing_deal_timestamp : option datetime;
  as_last_balance_update_timestamp : option datetime;
}.

Definition AccountSummary_from_proto (p : ProtoOACtidTraderAccount) : res AccountSummary :=
  last_closing_deal_timestamp ← datetime_or_None (ca_last_closing_deal_timestamp p);
  last_balance_update_timestamp ← datetime_or_None (ca_last_balance_update_timestamp p);
  Ok {|
    as_account_id := ca_ctid_trader_account_id p;
    as_is_live := ca_is_live p;
    as_trader_login := ca_trader_login p;
    as_broker_name := ca_broker_title_short p;
    as_last_closing_deal_timestamp := last_closing_deal_timestamp;
    as_last_balance_update_timestamp := last_balance_update_timestamp
  |}.

Record Account := {
  a_account_id : Z;
  a_trader_login : Z;
  a_balance : decimal;
  a_leverage_in_cents : Z;
  a_account_type : account_type;
  a_access_rights : access_rights;
  a_broker_name : string;
  a_deposit_asset_id : Z;
  a_swap_free : bool;
  a_is_limited_risk : bool;
  a_registration_timestamp : option datetime;
  a_max_leverage : option Z;
  a_balance_version : option Z;
  a_manager_bonus : option decimal;
  a_ib_bonus : option decimal;
  a_non_withdrawable_bonus : option decimal;
}.

Definition get_leverage (a : Account) : string := "1:" +:+ str_int (a_leverage_in_cents a / 100).

Definition Account_from_proto (p : ProtoOATrader) : res Account :=
  let divisor := money_divisor (tr_money_digits p) in
  registration_timestamp ← datetime_or_None (tr_registration_timestamp p);
  Ok {|
    a_account_id := tr_ctid_trader_account_id p;
    a_trader_login := tr_trader_login p;
    a_balance := scaled (tr_balance p) divisor;
    a_leverage_in_cents := tr_leverage_in_cents p;
    a_account_type := dict_get_or (tr_account_type p) AccountType.HEDGED ACCOUNT_TYPE_MAP;
    a_access_rights := dict_get_or (tr_access_rights p) AccessRights.FULL_ACCESS ACCESS_RIGHTS_MAP;
    a_broker_name := tr_broker_name p;
    a_deposit_asset_id := tr_deposit_asset_id p;
    a_swap_free := tr_swap_free p;
    a_is_limited_risk := tr_is_limited_risk p;
    a_registration_timestamp := registration_timestamp;
    a_max_leverage := int_or_None (tr_max_leverage p);
    a_balance_version := int_or_None (tr_balance_version p);
    a_manager_bonus := scaled_or_None (tr_manager_bonus p) divisor;
    a_ib_bonus := scaled_or_None (tr_ib_bonus p) divisor;
    a_non_withdrawable_bonus := scaled_or_None (tr_non_withdrawable_bonus p) divisor
  |}.

(** ** [symbol.py] *)

Record SymbolInfo := {
  si_symbol_id : Z;
  si_name : string;
  si_enabled : bool;
  si_base_asset_id : Z;
  si_quote_asset_id : Z;
  si_category_id : option Z;
  si_description : string;
}.

Definition SymbolInfo_from_proto (p : ProtoOALightSymbol) : SymbolInfo := {|
  si_symbol_id := ls_symbol_id p;
  si_name := ls_symbol_name p;
  si_enabled := ls_enabled p;
  si_base_asset_id := ls_base_asset_id p;
  si_quote_asset_id := ls_quote_asset_id p;
  si_category_id := int_or_None (ls_symbol_category_id p);
  si_description := ls_description p
|}.

Record Symbol := {
  s_symbol_id : Z;
  s_digits : Z;
  s_pip_position : Z;
  s_lot_size : Z;
  s_min_volume : Z;
  s_max_volume : Z;
  s_step_volume : Z;
  s_trading_mode : trading_mode;
  s_swap_long : decimal;
  s_swap_short : decimal;
  s_commission : Z;
  s_max_exposure : option Z;
  s_leverage_id : option Z;
  s_enable_short_selling : bool;
  s_guaranteed_stop_loss : bool;
  s_sl_distance : Z;
  s_tp_distance : Z;
  s_schedule_timezone : string;
  s_measurement_units : string;
}.

Definition Symbol_from_proto (p : ProtoOASymbol) : Symbol := {|
  s_symbol_id := sy_symbol_id p;
  s_digits := sy_digits p;
  s_pip_position := sy_pip_position p;
  s_lot_size := sy_lot_size p;
  s_min_volume := sy_min_volume p;
  s_max_volume := sy_max_volume p;
  s_step_volume := sy_step_volume p;
  s_trading_mode := dict_get_or (sy_trading_mode p) TradingMode.ENABLED TRADING_MODE_MAP;
  s_swap_long := decimal_of_float (sy_swap_long p);
  s_swap_short := decimal_of_float (sy_swap_short p);
  s_commission := sy_commission p;
  s_max_exposure := int_or_None (sy_max_exposure p);
  s_leverage_id := int_or_None (sy_leverage_id p);
  s_enable_short_selling := sy_enable_short_selling p;
  s_guaranteed_stop_loss := sy_guaranteed_stop_loss p;
  s_sl_distance := sy_sl_distance p;
  s_tp_distance := sy_tp_distance p;
  s_schedule_timezone := sy_schedule_time_zone p;
  s_measurement_units := sy_measurement_units p
|}.

Definition volume_to_lots (s : Symbol) (volume_cents : Z) : res decimal :=
  dec_div (Decimal_int volume_cents) (Decimal_int (s_lot_size s)).

Definition lots_to_volume (s : Symbol) (lots : decimal) : res Z :=
  d ← dec_mul_int lots (s_lot_size s);
  dec_to_int d.

Definition quantize_price (s : Symbol) (price : decimal) : res decimal :=
  dec_quantize price (dec_pow10_neg (s_digits s)).

(** ** [market_data.py] *)

Record Trendbar := {
  t_timestamp : datetime;
  t_period : trendbar_period;
  t_open : decimal;
  t_high : decimal;
  t_low : decimal;
  t_close : decimal;
  t_volume : Z;
}.

Definition Trendbar_from_proto (now : datetime) (p : ProtoOATrendbar) (bid_price : option decimal)
    (historical : bool) : res Trendbar :=
  ts ←
    (if tb_utc_timestamp_in_minutes p =? 0 then Ok now
     else datetime_of_int_seconds (tb_utc_timestamp_in_minutes p * 60));
  let low := tb_low p in
  let open_price := low + tb_delta_open p in
  let high := low + tb_delta_high p in
  close ←
    match bid_price with
    | Some bid => Ok bid
    | None =>
        if negb historical && (tb_delta_close p =? 0)
        then Err (RuntimeError "delta_close missing from Trendbar proto and no bid_price was provided to use as fallback. Returning error as this is safer than silently returning an incorrect close price of low + 0.")
        else Ok (Decimal_int (low + tb_delta_close p))
    end;
  close' ← dec_div close (Decimal_int PRICE_SCALE);
  Ok {|
    t_timestamp := ts;
    t_period := dict_get_or (tb_period p) TrendbarPeriod.M1 PERIOD_MAP;
    t_low := scaled low PRICE_SCALE;
    t_open := scaled open_price PRICE_SCALE;
    t_high := scaled high PRICE_SCALE;
    t_close := close';
    t_volume := tb_volume p
  |}.

Record TickData := { k_timestamp : datetime; k_price : decimal }.

Definition TickData_from_proto (p : ProtoOATickData) : res TickData :=
  timestamp ← timestamp_to_datetime (tk_timestamp p);
  Ok {| k_timestamp := timestamp; k_price := scaled (tk_tick p) PRICE_SCALE |}.

(** The loop of [from_proto_list], with its two running sums. *)
Fixpoint ticks_loop (current_timestamp current_price : Z) (ps : list ProtoOATickData)
    : res (list TickData) :=
  match ps with
  | [] => Ok []
  | p :: ps' =>
      let ts := current_timestamp + tk_timestamp p in
      let price := current_price + tk_tick p in
      timestamp ← timestamp_to_datetime ts;
      ticks ← ticks_loop ts price ps';
      Ok ({| k_timestamp := timestamp; k_price := scaled price PRICE_SCALE |} :: ticks)
  end.

Definition TickData_from_proto_list (ps : list ProtoOATickData) : res (list TickData) :=
  match ps with [] => Ok [] | _ => ticks_loop 0 0 ps end.

(** ** Lemmas *)

#[local] Arguments Decimal_int : simpl never.
#[local] Arguments dec_div : simpl never.
#[local] Arguments scaled : simpl never.

Lemma scaled_or_zero_money (n md : Z) :
  in_int64 n -> 0 <= md -> is_scaled (scaled_or_zero n (money_divisor md)) n (money_digits_or_default md).
Proof.
  intros Hn Hmd. unfold scaled_or_zero. destruct (Z.eqb_spec n 0) as [->|]; [|by apply scaled_money].
  unfold is_scaled. simpl. lia.
Qed.

Lemma money_digits_idem (md : Z) :
  money_digits_or_default (money_digits_or_default md) = money_digits_or_default md.
Proof. unfold money_digits_or_default, DEFAULT_MONEY_DIGITS. by destruct (Z.eqb_spec md 0); crush. Qed.

Lemma money_digits_nonneg (md : Z) : 0 <= md -> 0 <= money_digits_or_default md.
Proof. unfold money_digits_or_default, DEFAULT_MONEY_DIGITS. crush. Qed.

#[export] Hint Resolve scaled_or_zero_money money_digits_nonneg : ctrader.

(** A number and its scaled form have the same sign. *)
Lemma is_scaled_pos (d : decimal) (n k : Z) : is_scaled d n k -> dec_pos d = (0 <? n).
Proof. intros H. by rewrite (dec_pos_proper _ _ H). Qed.

Lemma scaled_or_None_money (n md : Z) :
  in_int64 n -> 0 <= md ->
  is_scaled_or_None (scaled_or_None n (money_divisor md)) n (money_digits_or_default md).
Proof.
  intros Hn Hmd. unfold scaled_or_None. destruct (Z.eqb_spec n 0) as [->|]; [done|]. split; [done|by apply scaled_money].
Qed.

#[export] Hint Resolve scaled_or_None_money : ctrader.

(** The timestamps of a message that are converted, zero excepted, are the only source of
    errors of its conversion. *)
Lemma datetime_or_None_Err (t : Z) (e : exn) : datetime_or_None t = Err e -> timestamp_to_datetime t = Err e.
Proof. unfold datetime_or_None. case_match; [done|]. destruct (timestamp_to_datetime t); simpl; congruence. Qed.

Lemma trade_data_open_Err now td e :
  trade_data_open now td = Err e -> exists t, td = Some t /\ timestamp_to_datetime (td_open_timestamp t) = Err e.
Proof.
  unfold trade_data_open, of_trade_data, datetime_or. destruct td as [t|]; [|by case_match].
  case_match; [|done]. case_match; [done|]. eauto.
Qed.

#[export] Hint Resolve datetime_or_None_Err : ctrader.

(** The timestamp and the price at which the [i]-th tick is. *)
Definition tick_ms (ts : Z) (ps : list ProtoOATickData) (i : nat) : Z := foldl Z.add ts (tk_timestamp <$> take (S i) ps).
Definition tick_price (price : Z) (ps : list ProtoOATickData) (i : nat) : Z := foldl Z.add price (tk_tick <$> take (S i) ps).

Lemma ticks_loop_lookup (ps : list ProtoOATickData) (ts price : Z) :
  match ticks_loop ts price ps with
  | Ok ticks =>
      length ticks = length ps /\
      forall i, (i < length ps)%nat -> exists t, timestamp_to_datetime (tick_ms ts ps i) = Ok t /\
        ticks !! i = Some {| k_timestamp := t; k_price := scaled (tick_price price ps i) PRICE_SCALE |}
  | Err e => exists i, (i < length ps)%nat /\ timestamp_to_datetime (tick_ms ts ps i) = Err e
  end.
Proof.
  revert ts price. induction ps as [|p ps IH]; intros ts price; simpl; [split; [done|lia]|].
  destruct (timestamp_to_datetime (ts + tk_timestamp p)) as [t|e] eqn:E; simpl;
    [|exists 0%nat; split; [lia|by unfold tick_ms; destruct ps]].
  specialize (IH (ts + tk_timestamp p) (price + tk_tick p)).
  destruct (ticks_loop _ _ ps) as [ticks|e]; simpl.
  - destruct IH as [Hlen IH]. split; [by rewrite Hlen|]. intros [|i] Hi.
    + exists t. unfold tick_ms, tick_price. simpl. by destruct ps.
    + apply IH. lia.
  - destruct IH as (i & Hi & He). exists (S i). split; [lia|done].
Qed.

(** ** Properties *)

(** C40. Money is exact: for [int64] amounts and any scale within the range of [Decimal]'s
    exponents, every monetary field of an account, its bonuses included, of a position, a
    deal and a closing detail is the wire integer divided by ten to that scale, without
    rounding, and a missing scale is read as two digits; a bonus is absent exactly when it
    is zero on the wire. The conversion gives this model or raises, and it raises only for
    a timestamp of the message that is outside [datetime]'s years. *)
Theorem money_exact (now : datetime) (tr : ProtoOATrader) (po : ProtoOAPosition)
    (de : ProtoOADeal) (cd : ProtoOAClosePositionDetail)
    (Htr : in_int64 (tr_balance tr) /\ in_int64 (tr_manager_bonus tr) /\ in_int64 (tr_ib_bonus tr) /\
           in_int64 (tr_non_withdrawable_bonus tr) /\ 0 <= tr_money_digits tr <= EMAX)
    (Hpo : in_int64 (po_swap po) /\ in_int64 (po_commission po) /\ in_int64 (po_used_margin po) /\
           0 <= po_money_digits po <= EMAX)
    (Hde : in_int64 (de_commission de) /\ 0 <= de_money_digits de <= EMAX)
    (Hcd : in_int64 (cd_gross_profit cd) /\ in_int64 (cd_swap cd) /\ in_int64 (cd_commission cd) /\
           in_int64 (cd_balance cd) /\ in_int64 (cd_pnl_conversion_fee cd) /\ 0 <= cd_money_digits cd <= EMAX) :
  let scale digits := if digits =? 0 then 2 else digits in
  match Account_from_proto tr with
  | Ok a =>
      let k := scale (tr_money_digits tr) in
      is_scaled (a_balance a) (tr_balance tr) k /\
      is_scaled_or_None (a_manager_bonus a) (tr_manager_bonus tr) k /\
      is_scaled_or_None (a_ib_bonus a) (tr_ib_bonus tr) k /\
      is_scaled_or_None (a_non_withdrawable_bonus a) (tr_non_withdrawable_bonus tr) k
  | Err e => timestamp_to_datetime (tr_registration_timestamp tr) = Err e
  end /\
  match Position_from_proto now po with
  | Ok p =>
      let k := scale (po_money_digits po) in
      p_money_digits p = k /\ is_scaled (p_swap p) (po_swap po) k /\
      is_scaled (p_commission p) (po_commission po) k /\ is_scaled (p_used_margin p) (po_used_margin po) k
  | Err e =>
      timestamp_to_datetime (po_utc_last_update_timestamp po) = Err e \/
      exists td, po_trade_data po = Some td /\
        (timestamp_to_datetime (td_open_timestamp td) = Err e \/ timestamp_to_datetime (td_close_timestamp td) = Err e)
  end /\
  match Deal_from_proto de with
  | Ok d => is_scaled (d_commission d) (de_commission de) (scale (de_money_digits de))
  | Err e =>
      timestamp_to_datetime (de_execution_timestamp de) = Err e \/
      timestamp_to_datetime (de_create_timestamp de) = Err e \/
      timestamp_to_datetime (de_utc_last_update_timestamp de) = Err e
  end /\
  (let c := CloseDetail_from_proto cd in let k := scale (cd_money_digits cd) in
   is_scaled (c_gross_profit c) (cd_gross_profit cd) k /\ is_scaled (c_swap c) (cd_swap cd) k /\
   is_scaled (c_commission c) (cd_commission cd) k /\ is_scaled (c_balance c) (cd_balance cd) k /\
   is_scaled (c_pnl_conversion_fee c) (cd_pnl_conversion_fee cd) k).
Proof.
  destruct Htr as (? & ? & ? & ? & ? & ?), Hpo as (? & ? & ? & ? & ?), Hde as (? & ? & ?), Hcd as (? & ? & ? & ? & ? & ? & ?).
  cbv beta zeta. fold (money_digits_or_default (tr_money_digits tr)) (money_digits_or_default (po_money_digits po))
    (money_digits_or_default (de_money_digits de)) (money_digits_or_default (cd_money_digits cd)).
  split_and!; simpl; auto with ctrader.
  - unfold Account_from_proto. destruct (datetime_or_None _) as [t|e] eqn:E; simpl; [|by apply datetime_or_None_Err].
    auto with ctrader.
  - unfold Position_from_proto. destruct (trade_data_open _ _) as [t1|e] eqn:E1; simpl;
      [|apply trade_data_open_Err in E1 as (td & ? & ?); eauto].
    destruct (datetime_or_None _) as [t2|e] eqn:E2; simpl; [|auto with ctrader].
    destruct (of_trade_data _ _ (Ok None)) as [t3|e] eqn:E3; simpl.
    + assert (forall n, in_int64 n -> is_scaled
        (scaled_or_zero n (money_divisor (money_digits_or_default (po_money_digits po)))) n
        (money_digits_or_default (po_money_digits po))).
      { intros n Hn. rewrite <- money_digits_idem at 2. auto with ctrader. }
      auto 7.
    + right. unfold of_trade_data in E3. case_match; [|done]. destruct (po_trade_data po) as [td|]; [|done].
      exists td. auto with ctrader.
  - unfold Deal_from_proto. destruct (timestamp_to_datetime _) as [t1|e] eqn:E1; simpl; [|by left].
    destruct (datetime_or_None (de_create_timestamp de)) as [t2|e] eqn:E2; simpl; [|auto with ctrader].
    destruct (datetime_or_None (de_utc_last_update_timestamp de)) as [t3|e] eqn:E3; simpl; auto with ctrader.
Qed.

(** A closing deal is recognised exactly by a closing detail on the wire with a positive
    balance: then the detail is kept and [is_closing_deal] says so; otherwise, an account
    whose balance fell to zero or below included, the deal carries no detail. *)
Theorem closing_deal_spec (p : ProtoOADeal) (d : Deal) (Hd : Deal_from_proto p = Ok d)
    (Hcd : forall c, de_close_position_detail p = Some c ->
           in_int64 (cd_balance c) /\ 0 <= cd_money_digits c) :
  (is_closing_deal d = true <->
   exists c, de_close_position_detail p = Some c /\ 0 < cd_balance c /\
     d_close_detail d = Some (CloseDetail_from_proto c)) /\
  (is_closing_deal d = false -> d_close_detail d = None).
Proof.
  assert (Hdetail : d_close_detail d = match de_close_position_detail p with
    | Some c => if 0 <? cd_balance c then Some (CloseDetail_from_proto c) else None | None => None end).
  { unfold Deal_from_proto in Hd. destruct (timestamp_to_datetime _); [simpl in Hd|done].
    destruct (datetime_or_None (de_create_timestamp p)); [simpl in Hd|done].
    destruct (datetime_or_None _); [simpl in Hd|done]. by injection Hd as <-. }
  unfold is_closing_deal. rewrite Hdetail. destruct (de_close_position_detail p) as [c|]; simpl;
    [|split; [split; [done|by intros (? & ? & _)]|done]].
  destruct (Hcd c eq_refl) as [Hb Hmd].
  pose proof (is_scaled_pos _ _ _ (scaled_money (cd_balance c) (cd_money_digits c) Hb Hmd)) as Hpos.
  destruct (Z.ltb_spec 0 (cd_balance c)); simpl.
  - rewrite Hpos. split; [split; [eauto|done]|done].
  - split; [split; [done|intros (c' & [= <-] & Hc' & _); lia]|done].
Qed.

(** Tick decoding: the server's list is delta-encoded, the first entry absolute; the
    [i]-th decoded tick is at the sum of the first [i + 1] timestamps and at the sum of the
    first [i + 1] prices, and there are as many ticks as entries; unless one of those sums
    is a timestamp outside [datetime]'s years, when the whole list is refused. *)
Theorem ticks_prefix_sums (ps : list ProtoOATickData) :
  match TickData_from_proto_list ps with
  | Ok ticks =>
      length ticks = length ps /\
      forall i, (i < length ps)%nat -> exists t, timestamp_to_datetime (tick_ms 0 ps i) = Ok t /\
        ticks !! i = Some {| k_timestamp := t; k_price := scaled (tick_price 0 ps i) PRICE_SCALE |}
  | Err e => exists i, (i < length ps)%nat /\ timestamp_to_datetime (tick_ms 0 ps i) = Err e
  end.
Proof. pose proof (ticks_loop_lookup ps 0 0) as H. by destruct ps. Qed.

(** A trendbar's prices: low, open and high are the exact absolute prices of the bar;
    the close is the given bid, or else the delta from the low, except that a live bar
    without either is refused rather than closed at its low; a bar whose minute is outside
    [datetime]'s years is refused too. *)
Theorem trendbar_prices (now : datetime) (p : ProtoOATrendbar) (bid : option Z) (historical : bool)
    (Hlow : in_int64 (tb_low p)) (Hopen : in_int64 (tb_delta_open p))
    (Hhigh : in_int64 (tb_delta_high p)) (Hclose : in_int64 (tb_delta_close p))
    (Hbid : forall b, bid = Some b -> in_int64 b) :
  match Trendbar_from_proto now p (Decimal_int <$> bid) historical with
  | Ok t =>
      is_scaled (t_low t) (tb_low p) 5 /\
      is_scaled (t_open t) (tb_low p + tb_delta_open p) 5 /\
      is_scaled (t_high t) (tb_low p + tb_delta_high p) 5 /\
      is_scaled (t_close t) (default (tb_low p + tb_delta_close p) bid) 5
  | Err e =>
      (bid = None /\ historical = false /\ tb_delta_close p = 0 /\ exists m, e = RuntimeError m) \/
      datetime_of_int_seconds (tb_utc_timestamp_in_minutes p * 60) = Err e
  end.
Proof.
  unfold Trendbar_from_proto.
  destruct (if tb_utc_timestamp_in_minutes p =? 0 then _ else _) as [ts|e] eqn:Ets; cbn [mbind res_bind];
    [|right; by case_match]. destruct bid as [b|]; simpl.
  - rewrite dec_div_int by done. simpl. split_and!; eauto using scaled_price, in_int64_digits, in_int64_add_digits.
  - destruct historical, (Z.eqb_spec (tb_delta_close p) 0); simpl; [| |by eauto 6|];
      rewrite dec_div_int by done; simpl; split_and!; eauto using scaled_price, in_int64_digits, in_int64_add_digits.
Qed.

(** Volumes and lots: for a lot size that is a power of ten, converting a volume to lots
    always succeeds, and converting the lots back gives the volume, with no rounding. *)
Theorem lots_roundtrip (s : Symbol) (v k : Z)
    (Hv : Z.abs v < 10 ^ PREC) (Hk : 0 <= k) (Hlot : s_lot_size s = 10 ^ k) :
  exists lots, volume_to_lots s v = Ok lots /\ lots_to_volume s lots = Ok v.
Proof.
  assert (0 < 10 ^ k) by (apply Z.pow_pos_nonneg; lia).
  unfold volume_to_lots, lots_to_volume. rewrite Hlot, dec_div_int by lia.
  eexists. split; [done|]. apply dec_mul_pow10_to_int; auto using scaled_exact.
Qed.

(** Quantizing a price: the result is written at exactly the symbol's digits and is a
    nearest such number, off by at most half a unit of the last digit. *)
Theorem quantize_price_nearest (s : Symbol) (c e : Z) (q : decimal)
    (Hdigits : 0 <= s_digits s) (Hq : quantize_price s (Dec c e) = Ok q) :
  exists c', q = Dec c' (- s_digits s) /\
    let m := Z.min e (- s_digits s) in
    2 * Z.abs (c' * 10 ^ (- s_digits s - m) - c * 10 ^ (e - m)) <= 10 ^ (- s_digits s - m).
Proof.
  unfold quantize_price, dec_pow10_neg in Hq. destruct (Z.leb_spec 0 (s_digits s)); [|lia].
  unfold dec_quantize in Hq. set (d := s_digits s) in *. cbv zeta in Hq.
  destruct (PREC <? _); [done|]. injection Hq as <-. eexists. split; [done|]. simpl.
  assert (Hsgn : Z.sgn c * Z.abs c = c) by lia.
  destruct (Z.leb_spec (- d) e) as [Hle|Hgt].
  - replace (Z.min e (- d)) with (- d) by lia. rewrite Z.sub_diag, Z.pow_0_r, Z.mul_1_r, Z.mul_assoc, Hsgn.
    replace (e - - d) with (e + d) by lia. rewrite Z.sub_diag. lia.
  - replace (Z.min e (- d)) with e by lia. rewrite Z.sub_diag, Z.pow_0_r, Z.mul_1_r.
    assert (Hp : 0 < 10 ^ (- d - e)) by (apply Z.pow_pos_nonneg; lia).
    pose proof (round_half_even_nearest (Z.abs c) _ Hp) as Hr.
    destruct (Z.lt_total c 0) as [Hc|[->|Hc]].
    + rewrite Z.sgn_neg by done. lia.
    + simpl. lia.
    + rewrite Z.sgn_pos by done. lia.
Qed.

(** ** Witnesses *)

(** A deal of account 1 that closed one lot at a profit of 1.23. *)
Definition sample_close_detail (balance : Z) : ProtoOAClosePositionDetail :=
  Build_ProtoOAClosePositionDetail (float_of_decimal (Dec 11 (-1))) 123 (-5) (-7) balance float_zero 100000 3 2 0.

Definition sample_deal (balance : Z) : ProtoOADeal :=
  Build_ProtoOADeal 1 2 3 100000 100000 1 0 1717171717123 0 (float_of_decimal (Dec 12 (-1))) 2 2
    float_zero (-7) float_zero (Some (sample_close_detail balance)) 2.

Lemma money_exact_witness :
  is_scaled (c_balance (CloseDetail_from_proto (sample_close_detail 1000123))) 1000123 2 /\
  c_balance (CloseDetail_from_proto (sample_close_detail 1000123)) = Dec 1000123 (-2).
Proof.
  split; [|reflexivity].
  destruct (money_exact (mk_datetime 0) default_trader default_position (sample_deal 5)
    (sample_close_detail 1000123)) as (_ & _ & _ & H);
    [repeat split; vm_compute; congruence..|].
  exact (proj1 (proj2 (proj2 (proj2 H)))).
Defined.

Lemma closing_deal_spec_witness :
  exists d d', Deal_from_proto (sample_deal 1000123) = Ok d /\ Deal_from_proto (sample_deal 0) = Ok d' /\
    is_closing_deal d = true /\ d_close_detail d' = None.
Proof.
  destruct (Deal_from_proto (sample_deal 1000123)) as [d|] eqn:E; [|vm_compute in E; discriminate].
  destruct (Deal_from_proto (sample_deal 0)) as [d'|] eqn:E'; [|vm_compute in E'; discriminate].
  exists d, d'. split; [reflexivity|]. split; [reflexivity|]. split.
  - apply (closing_deal_spec (sample_deal 1000123) d E).
    + intros c [= <-]. repeat split; vm_compute; congruence.
    + eexists. split; [reflexivity|]. split; [reflexivity|]. vm_compute in E. injection E as <-. vm_compute. reflexivity.
  - apply (closing_deal_spec (sample_deal 0) d' E').
    + intros c [= <-]. repeat split; vm_compute; congruence.
    + vm_compute in E'. injection E' as <-. reflexivity.
Defined.

Lemma trendbar_prices_witness :
  exists t, Trendbar_from_proto (mk_datetime 0) (Build_ProtoOATrendbar 9 1 108000 10 25 40 0)
      (Decimal_int <$> None) false = Ok t /\
    is_scaled (t_close t) 108025 5 /\ is_scaled (t_high t) 108040 5.
Proof.
  destruct (Trendbar_from_proto (mk_datetime 0) (Build_ProtoOATrendbar 9 1 108000 10 25 40 0)
    (Decimal_int <$> None) false) as [t|] eqn:E; [|vm_compute in E; discriminate].
  pose proof (trendbar_prices (mk_datetime 0) (Build_ProtoOATrendbar 9 1 108000 10 25 40 0) None false) as H.
  rewrite E in H. destruct H as (_ & _ & Hh & Hc);
    [split; vm_compute; congruence..|intros ?; discriminate|].
  exists t. split; [reflexivity|]. split; [exact Hc|exact Hh].
Defined.

(** One standard lot of 100000 units, in cents. *)
Definition sample_symbol : Symbol :=
  Build_Symbol 1 5 4 10000000 1000 10000000000 1000 TradingMode.ENABLED (Dec 0 0) (Dec 0 0) 0 None None
    true false 0 0 "" "".

Lemma lots_roundtrip_witness :
  exists lots, volume_to_lots sample_symbol 123000 = Ok lots /\ lots_to_volume sample_symbol lots = Ok 123000.
Proof. apply (lots_roundtrip sample_symbol 123000 7); [vm_compute|..]; done. Defined.

Lemma quantize_price_nearest_witness :
  quantize_price sample_symbol (Dec 10812345 (-7)) = Ok (Dec 108123 (-5)) /\
  exists c', Dec 108123 (-5) = Dec c' (-5) /\
    2 * Z.abs (c' * 10 ^ 2 - 10812345 * 10 ^ 0) <= 10 ^ 2.
Proof.
  split; [reflexivity|]. apply (quantize_price_nearest sample_symbol 10812345 (-7)); [vm_compute; congruence|reflexivity].
Defined.

(** A lot size that is not a product of twos and fives: the quotient is cut at 28 digits,
    and truncating the product loses a unit. *)
Example lots_off_by_one (lot3 := Build_Symbol 1 5 4 3 1 1 1 TradingMode.ENABLED (Dec 0 0) (Dec 0 0) 0
    None None true false 0 0 "" "") :
  (l ← volume_to_lots lot3 1; lots_to_volume lot3 l) = Ok 0.
Proof. vm_compute. reflexivity. Qed.
