(* ===== verification/Requests.v ===== *)
(** * The request models ([models/requests.py]): what the API sends

    One record per request class and one [..._to_proto] per method. A table lookup that
    fails raises [KeyError], as in the source; [new_order_to_proto], [amend_order_to_proto]
    and [amend_position_to_proto] show that none does. *)

From S2P Require Import Prelude Errors Enums Numbers Wire Models.
From stdpp Require Import options.
Import OrderSide(order_side) OrderType(order_type) TimeInForce(time_in_force)
  StopTriggerMethod(stop_trigger_method).
Open Scope string_scope.
Open Scope list_scope.
Open Scope Z_scope.

Definition ORDER_TYPE_TO_PROTO : dict order_type Z := [
  (OrderType.MARKET, ProtoOAOrderType.MARKET);
  (OrderType.LIMIT, ProtoOAOrderType.LIMIT);
  (OrderType.STOP, ProtoOAOrderType.STOP);
  (OrderType.STOP_LOSS_TAKE_PROFIT, ProtoOAOrderType.STOP_LOSS_TAKE_PROFIT);
  (OrderType.MARKET_RANGE, ProtoOAOrderType.MARKET_RANGE);
  (OrderType.STOP_LIMIT, ProtoOAOrderType.STOP_LIMIT)].

Definition TIME_IN_FORCE_TO_PROTO : dict time_in_force Z := [
  (TimeInForce.GOOD_TILL_DATE, ProtoOATimeInForce.GOOD_TILL_DATE);
  (TimeInForce.GOOD_TILL_CANCEL, ProtoOATimeInForce.GOOD_TILL_CANCEL);
  (TimeInForce.IMMEDIATE_OR_CANCEL, ProtoOATimeInForce.IMMEDIATE_OR_CANCEL);
  (TimeInForce.FILL_OR_KILL, ProtoOATimeInForce.FILL_OR_KILL);
  (TimeInForce.MARKET_ON_OPEN, ProtoOATimeInForce.MARKET_ON_OPEN)].

Definition TRIGGER_TO_PROTO : dict stop_trigger_method Z := [
  (StopTriggerMethod.TRADE, ProtoOAOrderTriggerMethod.TRADE);
  (StopTriggerMethod.OPPOSITE, ProtoOAOrderTriggerMethod.OPPOSITE);
  (StopTriggerMethod.DOUBLE_TRADE, ProtoOAOrderTriggerMethod.DOUBLE_TRADE);
  (StopTriggerMethod.DOUBLE_OPPOSITE, ProtoOAOrderTriggerMethod.DOUBLE_OPPOSITE)].

(** [d[k]] *)
Definition dict_index {K V} `{EqDecision K} (k : K) (d : dict K V) : res V :=
  match dict_get k d with Some v => Ok v | None => Err (KeyError "") end.

(** [ProtoOAOrderTriggerMethod(_TRIGGER_TO_PROTO[m]) if m else None] *)
Definition trigger_field (m : option stop_trigger_method) : res (option Z) :=
  match m with Some m => Some <$> dict_index m TRIGGER_TO_PROTO | None => Ok None end.

(** [float(d) if d else 0.0] *)
Definition price_field (d : option decimal) : double :=
  match d with Some d => if dec_truthy d then float_of_decimal d else float_zero | None => float_zero end.

(** [int(d * 100000) if d else 0] *)
Definition relative_field (d : option decimal) : res Z :=
  match d with
  | Some d => if dec_truthy d then (p ← dec_mul_int d PRICE_SCALE; dec_to_int p) else Ok 0
  | None => Ok 0
  end.

(** [int(dt.timestamp() * 1000) if dt else 0] *)
Definition ms_field (dt : option datetime) : Z :=
  match dt with Some dt => datetime_to_ms dt | None => 0 end.

(** [n or 0] *)
Definition int_field (n : option Z) : Z := default 0 n.

Record NewOrderRequest := {
  n_symbol_id : Z;
  n_side : order_side;
  n_volume : Z;
  n_order_type : order_type;
  n_limit_price : option decimal;
  n_stop_price : option decimal;
  n_stop_loss : option decimal;
  n_take_profit : option decimal;
  n_time_in_force : time_in_force;
  n_expiration_timestamp : option datetime;
  n_position_id : option Z;
  n_client_order_id : string;
  n_label : string;
  n_comment : string;
  n_base_slippage_price : option decimal;
  n_slippage_in_points : option Z;
  n_relative_stop_loss : option decimal;
  n_relative_take_profit : option decimal;
  n_trailing_stop_loss : bool;
  n_guaranteed_stop_loss : bool;
  n_stop_trigger_method : option stop_trigger_method;
}.

Definition NewOrderRequest_to_proto (r : NewOrderRequest) (account_id : Z) : res ProtoOANewOrderReq :=
  order_type_value ← dict_index (n_order_type r) ORDER_TYPE_TO_PROTO;
  let trade_side_value :=
    match n_side r with OrderSide.BUY => ProtoOATradeSide.BUY | OrderSide.SELL => ProtoOATradeSide.SELL end in
  time_in_force_value ← dict_index (n_time_in_force r) TIME_IN_FORCE_TO_PROTO;
  trigger_method ← trigger_field (n_stop_trigger_method r);
  relative_stop_loss ← relative_field (n_relative_stop_loss r);
  relative_take_profit ← relative_field (n_relative_take_profit r);
  Ok {|
    no_ctid_trader_account_id := account_id;
    no_symbol_id := n_symbol_id r;
    no_order_type := order_type_value;
    no_trade_side := trade_side_value;
    no_volume := n_volume r;
    no_limit_price := price_field (n_limit_price r);
    no_stop_price := price_field (n_stop_price r);
    no_time_in_force := time_in_force_value;
    no_expiration_timestamp := ms_field (n_expiration_timestamp r);
    no_stop_loss := price_field (n_stop_loss r);
    no_take_profit := price_field (n_take_profit r);
    no_comment := n_comment r;
    no_base_slippage_price := price_field (n_base_slippage_price r);
    no_slippage_in_points := int_field (n_slippage_in_points r);
    no_label := n_label r;
    no_position_id := int_field (n_position_id r);
    no_client_order_id := n_client_order_id r;
    no_relative_stop_loss := relative_stop_loss;
    no_relative_take_profit := relative_take_profit;
    no_guaranteed_stop_loss := n_guaranteed_stop_loss r;
    no_trailing_stop_loss := n_trailing_stop_loss r;
    no_stop_trigger_method := trigger_method
  |}.

Record AmendOrderRequest := {
  m_order_id : Z;
  m_volume : option Z;
  m_limit_price : option decimal;
  m_stop_price : option decimal;
  m_stop_loss : option decimal;
  m_take_profit : option decimal;
  m_expiration_timestamp : option datetime;
  m_slippage_in_points : option Z;
  m_trailing_stop_loss : option bool;
  m_guaranteed_stop_loss : option bool;
  m_relative_stop_loss : option decimal;
  m_relative_take_profit : option decimal;
  m_stop_trigger_method : option stop_trigger_method;
}.

Definition AmendOrderRequest_to_proto (r : AmendOrderRequest) (account_id : Z) : res ProtoOAAmendOrderReq :=
  trigger_method ← trigger_field (m_stop_trigger_method r);
  relative_stop_loss ← relative_field (m_relative_stop_loss r);
  relative_take_profit ← relative_field (m_relative_take_profit r);
  Ok {|
    ao_ctid_trader_account_id := account_id;
    ao_order_id := m_order_id r;
    ao_volume := int_field (m_volume r);
    ao_limit_price := price_field (m_limit_price r);
    ao_stop_price := price_field (m_stop_price r);
    ao_expiration_timestamp := ms_field (m_expiration_timestamp r);
    ao_stop_loss := price_field (m_stop_loss r);
    ao_take_profit := price_field (m_take_profit r);
    ao_slippage_in_points := int_field (m_slippage_in_points r);
    ao_relative_stop_loss := relative_stop_loss;
    ao_relative_take_profit := relative_take_profit;
    ao_guaranteed_stop_loss := default false (m_guaranteed_stop_loss r);
    ao_trailing_stop_loss := default false (m_trailing_stop_loss r);
    ao_stop_trigger_method := trigger_method
  |}.

Record AmendPositionRequest := {
  q_position_id : Z;
  q_stop_loss : option decimal;
  q_take_profit : option decimal;
  q_trailing_stop_loss : bool;
  q_guaranteed_stop_loss : bool;
  q_stop_loss_trigger_method : option stop_trigger_method;
}.

Definition AmendPositionRequest_to_proto (r : AmendPositionRequest) (account_id : Z)
    : res ProtoOAAmendPositionSLTPReq :=
  trigger_method ← trigger_field (q_stop_loss_trigger_method r);
  Ok {|
    ap_ctid_trader_account_id := account_id;
    ap_position_id := q_position_id r;
    ap_stop_loss := price_field (q_stop_loss r);
    ap_take_profit := price_field (q_take_profit r);
    ap_guaranteed_stop_loss := q_guaranteed_stop_loss r;
    ap_trailing_stop_loss := q_trailing_stop_loss r;
    ap_stop_loss_trigger_method := default ProtoOAOrderTriggerMethod.TRADE trigger_method
  |}.

Record ClosePositionRequest := { x_position_id : Z; x_volume : Z }.

Definition ClosePositionRequest_to_proto (r : ClosePositionRequest) (account_id : Z) : message :=
  MClosePositionReq account_id (x_position_id r) (x_volume r).

(** ** What a message has to say

    For each request that is converted, what the message it becomes must say, field by field,
    in terms of what the fields mean to who reads them. *)

(** An enumeration is read by the tables the models read orders with. *)
Definition trigger_sent (v : option stop_trigger_method) (n : option Z) : Prop :=
  match v, n with
  | None, None => True
  | Some v, Some n => dict_get n TRIGGER_METHOD_MAP = Some v
  | _, _ => False
  end.

(** A price is the double nearest to it; zero says there is none. *)
Definition price_sent (d : option decimal) : double :=
  match d with Some d => float_of_decimal d | None => float_zero end.

(** An expiration is [int(dt.timestamp() * 1000)], which can be a millisecond short
    ([expiration_ms_lost]); zero says there is none. *)
Definition time_sent (dt : option datetime) : Z :=
  match dt with Some dt => datetime_to_ms dt | None => 0 end.

(** A distance is a number of hundred-thousandths, what is less than one cut off; zero says
    there is none. A distance of more digits than Python's decimals keep when they are multiplied is
    rounded first, and of those only the whole ones are spoken of. *)
Definition distance_sent (d : option decimal) (n : Z) : Prop :=
  match d with
  | None => n = 0
  | Some d =>
      (forall k, is_scaled d k 5 -> Z.abs k < 10 ^ PREC -> n = k) /\
      (forall c e, d = Dec c e -> Z.abs c < 10 ^ (PREC - 5) ->
         n = if 0 <=? e + 5 then c * 10 ^ (e + 5) else Z.quot c (10 ^ (- (e + 5))))
  end.

Record order_says (r : NewOrderRequest) (account_id : Z) (m : ProtoOANewOrderReq) : Prop := {
  says_account : no_ctid_trader_account_id m = account_id;
  says_symbol : no_symbol_id m = n_symbol_id r;
  says_side : no_trade_side m = match n_side r with OrderSide.BUY => 1 | OrderSide.SELL => 2 end;
  says_volume : no_volume m = n_volume r;
  says_type : dict_get (no_order_type m) ORDER_TYPE_MAP = Some (n_order_type r);
  says_time_in_force : dict_get (no_time_in_force m) TIME_IN_FORCE_MAP = Some (n_time_in_force r);
  says_trigger : trigger_sent (n_stop_trigger_method r) (no_stop_trigger_method m);
  says_limit_price : no_limit_price m = price_sent (n_limit_price r);
  says_stop_price : no_stop_price m = price_sent (n_stop_price r);
  says_stop_loss : no_stop_loss m = price_sent (n_stop_loss r);
  says_take_profit : no_take_profit m = price_sent (n_take_profit r);
  says_base_slippage : no_base_slippage_price m = price_sent (n_base_slippage_price r);
  says_slippage : no_slippage_in_points m = default 0 (n_slippage_in_points r);
  says_expiration : no_expiration_timestamp m = time_sent (n_expiration_timestamp r);
  says_position : no_position_id m = default 0 (n_position_id r);
  says_client_order : no_client_order_id m = n_client_order_id r;
  says_label : no_label m = n_label r;
  says_comment : no_comment m = n_comment r;
  says_relative_stop_loss : distance_sent (n_relative_stop_loss r) (no_relative_stop_loss m);
  says_relative_take_profit : distance_sent (n_relative_take_profit r) (no_relative_take_profit m);
  says_trailing : no_trailing_stop_loss m = n_trailing_stop_loss r;
  says_guaranteed : no_guaranteed_stop_loss m = n_guaranteed_stop_loss r;
}.

(** An amendment says zero, or no, for what it leaves out. *)
Record amendment_says (r : AmendOrderRequest) (account_id : Z) (m : ProtoOAAmendOrderReq) : Prop := {
  amends_account : ao_ctid_trader_account_id m = account_id;
  amends_order : ao_order_id m = m_order_id r;
  amends_volume : ao_volume m = default 0 (m_volume r);
  amends_trigger : trigger_sent (m_stop_trigger_method r) (ao_stop_trigger_method m);
  amends_limit_price : ao_limit_price m = price_sent (m_limit_price r);
  amends_stop_price : ao_stop_price m = price_sent (m_stop_price r);
  amends_stop_loss : ao_stop_loss m = price_sent (m_stop_loss r);
  amends_take_profit : ao_take_profit m = price_sent (m_take_profit r);
  amends_slippage : ao_slippage_in_points m = default 0 (m_slippage_in_points r);
  amends_expiration : ao_expiration_timestamp m = time_sent (m_expiration_timestamp r);
  amends_relative_stop_loss : distance_sent (m_relative_stop_loss r) (ao_relative_stop_loss m);
  amends_relative_take_profit : distance_sent (m_relative_take_profit r) (ao_relative_take_profit m);
  amends_trailing : ao_trailing_stop_loss m = bool_decide (m_trailing_stop_loss r = Some true);
  amends_guaranteed : ao_guaranteed_stop_loss m = bool_decide (m_guaranteed_stop_loss r = Some true);
}.

(** The protection of a position is triggered by trades where nothing else is asked for. *)
Record protection_says (q : AmendPositionRequest) (account_id : Z) (m : ProtoOAAmendPositionSLTPReq) : Prop := {
  protects_account : ap_ctid_trader_account_id m = account_id;
  protects_position : ap_position_id m = q_position_id q;
  protects_stop_loss : ap_stop_loss m = price_sent (q_stop_loss q);
  protects_take_profit : ap_take_profit m = price_sent (q_take_profit q);
  protects_trailing : ap_trailing_stop_loss m = q_trailing_stop_loss q;
  protects_guaranteed : ap_guaranteed_stop_loss m = q_guaranteed_stop_loss q;
  protects_trigger : dict_get (ap_stop_loss_trigger_method m) TRIGGER_METHOD_MAP =
    Some (default StopTriggerMethod.TRADE (q_stop_loss_trigger_method q));
}.

(** ** Lemmas *)

Lemma order_type_index (t : order_type) :
  exists n, dict_index t ORDER_TYPE_TO_PROTO = Ok n /\ dict_get n ORDER_TYPE_MAP = Some t.
Proof. destruct t; eexists; split; reflexivity. Qed.

Lemma time_in_force_index (t : time_in_force) :
  exists n, dict_index t TIME_IN_FORCE_TO_PROTO = Ok n /\ dict_get n TIME_IN_FORCE_MAP = Some t.
Proof. destruct t; eexists; split; reflexivity. Qed.

Lemma trigger_index (t : option stop_trigger_method) : exists n, trigger_field t = Ok n /\ trigger_sent t n.
Proof. destruct t as [[]|]; eexists; (split; [reflexivity|done]). Qed.

Lemma price_field_sent (d : option decimal) : price_field d = price_sent d.
Proof. destruct d as [[c e| |]|]; try done. simpl. by destruct (Z.eqb_spec c 0) as [->|]. Qed.

(** A distance of [n] hundred-thousandths is sent as [n]. *)
Lemma relative_field_exact (d : decimal) (n : Z) :
  Z.abs n < 10 ^ PREC -> is_scaled d n 5 -> relative_field (Some d) = Ok n.
Proof.
  intros Hn Hd. simpl. destruct (dec_truthy d) eqn:Ht; [by apply (dec_mul_pow10_to_int d n 5)|].
  f_equal. destruct d as [c e|?|]; try done. simpl in Ht.
  destruct (Z.eqb_spec c 0) as [->|]; [|done]. unfold is_scaled in Hd.
  apply (dec_eqv_elim (Z.min e (- (5)))) in Hd; [|lia..].
  assert (0 < 10 ^ (- (5) - Z.min e (- (5)))) by (apply Z.pow_pos_nonneg; lia). nia.
Qed.

(** One of few digits is multiplied exactly and then cut off. *)
Lemma relative_field_cut (c e : Z) :
  Z.abs c < 10 ^ (PREC - 5) ->
  relative_field (Some (Dec c e)) = Ok (if 0 <=? e + 5 then c * 10 ^ (e + 5) else Z.quot c (10 ^ (- (e + 5)))).
Proof.
  intros Hc. simpl. destruct (Z.eqb_spec c 0) as [->|Hc0]; cbn [negb]; [by case_match|].
  unfold dec_mul_int. cbn [mbind res_bind]. rewrite dec_fix_id.
  2: { unfold PREC, PRICE_SCALE in *. change (10 ^ (28 - 5)) with (10 ^ 23) in Hc. lia. }
  assert (Hcoef : (if c * PRICE_SCALE <? 0 then -1 else 1) * Z.abs (c * PRICE_SCALE) = c * 10 ^ 5).
  { unfold PRICE_SCALE. change (10 ^ 5) with 100000. destruct (Z.ltb_spec (c * 100000) 0); lia. }
  rewrite Hcoef. change (dec_to_int (Dec (c * 10 ^ 5) e) = dec_to_int (Dec c (e + 5))). apply dec_to_int_proper.
  apply (dec_eqv_at e); [lia..|]. replace (e + 5 - e) with 5 by lia. rewrite Z.sub_diag. lia.
Qed.

Lemma relative_field_total (c e : Z) : exists n, relative_field (Some (Dec c e)) = Ok n.
Proof.
  simpl. destruct (c =? 0); simpl; [eauto|]. unfold dec_fix. cbv zeta.
  destruct (_ <=? 0); simpl; [eauto|]. destruct (_ <=? _); simpl; eauto.
Qed.

(** The distances the models accept: finite ones (pydantic refuses the others). *)
Definition finite_distance (d : option decimal) : Prop :=
  match d with Some d => exists c e, d = Dec c e | None => True end.

Lemma relative_field_finite (d : option decimal) :
  finite_distance d -> exists n, relative_field d = Ok n /\ distance_sent d n.
Proof.
  destruct d as [d|]; [|by exists 0]. intros (c & e & ->). destruct (relative_field_total c e) as [n Hn].
  exists n. split; [done|]. split.
  - intros k Hk Habs. rewrite (relative_field_exact _ _ Habs Hk) in Hn. by simplify_eq.
  - intros c' e' [= <- <-] Hc. rewrite relative_field_cut in Hn by done. by simplify_eq.
Qed.

(** ** Properties *)

(** Every new order converts, whatever it leaves out, and its message says what it says. *)
Lemma new_order_to_proto (r : NewOrderRequest) (account_id : Z) :
  finite_distance (n_relative_stop_loss r) -> finite_distance (n_relative_take_profit r) ->
  exists m, NewOrderRequest_to_proto r account_id = Ok m /\ order_says r account_id m.
Proof.
  intros (sl & Esl & Hsl)%relative_field_finite (tp & Etp & Htp)%relative_field_finite.
  unfold NewOrderRequest_to_proto.
  destruct (order_type_index (n_order_type r)) as (ot & -> & Hot).
  destruct (time_in_force_index (n_time_in_force r)) as (tif & -> & Htif).
  destruct (trigger_index (n_stop_trigger_method r)) as (tm & -> & Htm). cbn [mbind res_bind].
  rewrite Esl, Etp. eexists. split; [reflexivity|]. split; simpl; auto using price_field_sent.
Qed.

Lemma default_false_decide (b : option bool) : default false b = bool_decide (b = Some true).
Proof. by destruct b as [[]|]. Qed.

Lemma amend_order_to_proto (r : AmendOrderRequest) (account_id : Z) :
  finite_distance (m_relative_stop_loss r) -> finite_distance (m_relative_take_profit r) ->
  exists m, AmendOrderRequest_to_proto r account_id = Ok m /\ amendment_says r account_id m.
Proof.
  intros (sl & Esl & Hsl)%relative_field_finite (tp & Etp & Htp)%relative_field_finite.
  unfold AmendOrderRequest_to_proto.
  destruct (trigger_index (m_stop_trigger_method r)) as (tm & -> & Htm). cbn [mbind res_bind].
  rewrite Esl, Etp. eexists. split; [reflexivity|].
  split; simpl; auto using price_field_sent, default_false_decide.
Qed.

Lemma amend_position_to_proto (q : AmendPositionRequest) (account_id : Z) :
  exists m, AmendPositionRequest_to_proto q account_id = Ok m /\ protection_says q account_id m.
Proof.
  unfold AmendPositionRequest_to_proto.
  destruct (trigger_index (q_stop_loss_trigger_method q)) as (tm & -> & Htm).
  eexists. split; [reflexivity|]. split; simpl; auto using price_field_sent.
  destruct (q_stop_loss_trigger_method q), tm; done.
Qed.

(** ** Examples *)

Definition sample_new_order : NewOrderRequest :=
  Build_NewOrderRequest 1 OrderSide.SELL 100000 OrderType.STOP_LIMIT (Some (Dec 11 (-1))) None None None
    TimeInForce.GOOD_TILL_DATE (Some (mk_datetime 1717171717123000)) None "id" "" "" None None
    (Some (Dec 5 (-3))) (Some (Dec 100 (-4))) false false (Some StopTriggerMethod.OPPOSITE).

(** An order as most are: nothing but what has to be said. *)
Definition plain_order : NewOrderRequest :=
  Build_NewOrderRequest 1 OrderSide.BUY 100000 OrderType.MARKET None None None None
    TimeInForce.GOOD_TILL_CANCEL None None "" "" "" None None None None false false None.

Example plain_order_message :
  match NewOrderRequest_to_proto plain_order 7 with
  | Ok m => no_relative_stop_loss m = 0 /\ no_stop_trigger_method m = None /\ no_expiration_timestamp m = 0
  | Err _ => False
  end.
Proof. vm_compute. done. Qed.

(** The milliseconds of an expiry go through a [float] and are truncated, which can cost
    one: here on 23 March 2004 the millisecond 1 is sent as 0. *)
Example expiration_ms_lost : ms_field (Some (mk_datetime 1080000000001000)) = 1080000000000.
Proof. vm_compute. reflexivity. Qed.
