(* ===== verification/Session.v ===== *)
(** * Credentials and session state ([auth/credentials.py], [auth/_session.py])

    [SessionStore] is the state the authentication components share. Its abstract
    specification is a finite map from account to credentials and session; the dictionary
    the code keeps refines it and adds the order in which accounts came. The refresh marks
    are [anyio.Event]s, which waiters hold by reference: an event is a number, and
    [settled] is the set of those that were set. *)

From S2P Require Import Prelude Errors Enums.
From stdpp Require Import options.
Open Scope string_scope.
Open Scope list_scope.
Open Scope Z_scope.

(** ** Credentials *)

Record AccountCredentials := mk_credentials {
  account_id : Z;
  access_token : string;
  refresh_token : string;
  expires_at : seconds;
}.

#[export] Instance AccountCredentials_eq_dec : EqDecision AccountCredentials.
Proof. solve_decision. Defined.

(** [time.time()] is the argument [time]. *)
Definition expires_soon (time : seconds) (c : AccountCredentials) (buffer_seconds : seconds) : bool :=
  (expires_at c - buffer_seconds <=? time)%Z.

Definition is_expired (time : seconds) (c : AccountCredentials) : bool := (expires_at c <=? time)%Z.

Definition time_until_expiry (time : seconds) (c : AccountCredentials) : seconds := expires_at c - time.

Definition with_refreshed_tokens (time : seconds) (c : AccountCredentials)
    (access_token refresh_token : string) (expires_in : Z) : AccountCredentials :=
  mk_credentials (account_id c) access_token refresh_token (time + expires_in * second).

(** ** Sessions *)

Inductive Session :=
  | Authorized
  | AwaitingRecovery (attempts : Z) (next_attempt_at : seconds).

#[export] Instance Session_eq_dec : EqDecision Session.
Proof. solve_decision. Defined.

Record TrackedAccount := mk_tracked {
  credentials_of : AccountCredentials;
  session_of : option Session;
}.

#[export] Instance TrackedAccount_eq_dec : EqDecision TrackedAccount.
Proof. solve_decision. Defined.

Record SessionStore := mk_store {
  accounts : dict Z TrackedAccount;
  refreshing : dict Z nat;
  settled : list nat;
  next_event : nat;
}.

Definition empty_store : SessionStore := mk_store [] [] [] 0.

Definition with_accounts (f : dict Z TrackedAccount -> dict Z TrackedAccount) (s : SessionStore) : SessionStore :=
  mk_store (f (accounts s)) (refreshing s) (settled s) (next_event s).

Definition begin_refresh (id : Z) (s : SessionStore) : SessionStore :=
  if dict_has id (refreshing s) then s
  else mk_store (accounts s) (dict_set id (next_event s) (refreshing s)) (settled s) (S (next_event s)).

Definition end_refresh (id : Z) (s : SessionStore) : SessionStore :=
  match dict_get id (refreshing s) with
  | Some e => mk_store (accounts s) (dict_pop id (refreshing s)) (e :: settled s) (next_event s)
  | None => s
  end.

Definition is_refreshing (id : Z) (s : SessionStore) : bool := dict_has id (refreshing s).

(** The event [wait_for_refresh] waits on, if it waits. *)
Definition refresh_event (id : Z) (s : SessionStore) : option nat := dict_get id (refreshing s).

Definition account_ids (s : SessionStore) : list Z := (accounts s).*1.

Definition is_Authorized (t : TrackedAccount) : bool :=
  match session_of t with Some Authorized => true | _ => false end.

Definition authorized_ids (s : SessionStore) : list Z :=
  (filter (fun kt => is_Authorized kt.2 = true) (accounts s)).*1.

Definition is_authorized (id : Z) (s : SessionStore) : bool :=
  match dict_get id (accounts s) with Some t => is_Authorized t | None => false end.

Definition credentials (id : Z) (s : SessionStore) : option AccountCredentials :=
  credentials_of <$> dict_get id (accounts s).

Definition all_credentials (s : SessionStore) : list AccountCredentials := credentials_of <$> (accounts s).*2.

Definition items (s : SessionStore) : list (Z * AccountCredentials) :=
  prod_map id credentials_of <$> accounts s.

Definition authorize (c : AccountCredentials) : SessionStore -> SessionStore :=
  with_accounts (dict_set (account_id c) (mk_tracked c (Some Authorized))).

Definition replace_credentials (c : AccountCredentials) : SessionStore -> SessionStore :=
  with_accounts (fun d =>
    dict_set (account_id c)
      (mk_tracked c (match dict_get (account_id c) d with Some t => session_of t | None => None end)) d).

Definition remove (id : Z) (s : SessionStore) : bool * SessionStore :=
  (dict_has id (accounts s), with_accounts (dict_pop id) s).

Definition invalidate_all : SessionStore -> SessionStore :=
  with_accounts (fmap (prod_map id (fun t => mk_tracked (credentials_of t) None))).

Definition is_awaiting (t : TrackedAccount) : bool :=
  match session_of t with Some (AwaitingRecovery _ _) => true | _ => false end.

Definition flag_for_recovery (id : Z) (s : SessionStore) : bool * SessionStore :=
  match dict_get id (accounts s) with
  | None => (false, s)
  | Some t =>
      if is_awaiting t then (false, s)
      else (true, with_accounts (dict_set id (mk_tracked (credentials_of t) (Some (AwaitingRecovery 0 0)))) s)
  end.

Definition reschedule_recovery (id : Z) (attempts : Z) (next_attempt_at : seconds) (s : SessionStore) : SessionStore :=
  match dict_get id (accounts s) with
  | None => s
  | Some t =>
      if is_awaiting t
      then with_accounts
        (dict_set id (mk_tracked (credentials_of t) (Some (AwaitingRecovery attempts next_attempt_at)))) s
      else s
  end.

(** An account to recover: its id, its credentials and its retry state. *)
Record pending_recovery := mk_pending {
  pr_account_id : Z;
  pr_credentials : AccountCredentials;
  pr_attempts : Z;
  pr_next_attempt_at : seconds;
}.

Definition pending_of (kt : Z * TrackedAccount) : option pending_recovery :=
  match session_of kt.2 with
  | Some (AwaitingRecovery n at_) => Some (mk_pending kt.1 (credentials_of kt.2) n at_)
  | _ => None
  end.

Definition awaiting_recovery (s : SessionStore) : list pending_recovery := omap pending_of (accounts s).

(** ** The specification: a finite map *)

(** The calls that change the store, and what they return. *)
Inductive store_op :=
  | OpAuthorize (c : AccountCredentials)
  | OpReplaceCredentials (c : AccountCredentials)
  | OpRemove (id : Z)
  | OpInvalidateAll
  | OpFlagForRecovery (id : Z)
  | OpReschedule (id attempts : Z) (at_ : seconds)
  | OpBeginRefresh (id : Z)
  | OpEndRefresh (id : Z).

Definition run_op (op : store_op) (s : SessionStore) : bool * SessionStore :=
  match op with
  | OpAuthorize c => (true, authorize c s)
  | OpReplaceCredentials c => (true, replace_credentials c s)
  | OpRemove id => remove id s
  | OpInvalidateAll => (true, invalidate_all s)
  | OpFlagForRecovery id => flag_for_recovery id s
  | OpReschedule id n at_ => (true, reschedule_recovery id n at_ s)
  | OpBeginRefresh id => (true, begin_refresh id s)
  | OpEndRefresh id => (true, end_refresh id s)
  end.

Definition session_map := gmap Z TrackedAccount.

(** What the module promises, on the map alone. *)
Definition spec_op (op : store_op) (m : session_map) : bool * session_map :=
  match op with
  | OpAuthorize c => (true, <[account_id c := mk_tracked c (Some Authorized)]> m)
  | OpReplaceCredentials c => (true, <[account_id c := mk_tracked c (m !! account_id c ≫= session_of)]> m)
  | OpRemove id => (bool_decide (is_Some (m !! id)), delete id m)
  | OpInvalidateAll => (true, (fun t => mk_tracked (credentials_of t) None) <$> m)
  | OpFlagForRecovery id =>
      match m !! id with
      | Some (mk_tracked _ (Some (AwaitingRecovery _ _))) | None => (false, m)
      | Some (mk_tracked c _) => (true, <[id := mk_tracked c (Some (AwaitingRecovery 0 0))]> m)
      end
  | OpReschedule id n at_ =>
      (true, match m !! id with
             | Some (mk_tracked c (Some (AwaitingRecovery _ _))) =>
                 <[id := mk_tracked c (Some (AwaitingRecovery n at_))]> m
             | _ => m
             end)
  | OpBeginRefresh _ | OpEndRefresh _ => (true, m)
  end.

(** What every store reached from [SessionStore()] satisfies: distinct keys, each the id of
    the credentials under it; and every event handed out is either still held or set, a
    held one not yet. *)
Record store_wf (s : SessionStore) : Prop := mk_store_wf {
  wf_accounts : dict_wf (accounts s);
  wf_ids : forall id t, dict_get id (accounts s) = Some t -> account_id (credentials_of t) = id;
  wf_refreshing : dict_wf (refreshing s);
  wf_held : forall id e, dict_get id (refreshing s) = Some e -> (e < next_event s)%nat /\ e ∉ settled s;
  wf_distinct : forall id id' e, dict_get id (refreshing s) = Some e ->
    dict_get id' (refreshing s) = Some e -> id = id';
  wf_events : forall e, (e < next_event s)%nat -> e ∈ settled s \/ exists id, dict_get id (refreshing s) = Some e;
  wf_settled : forall e, e ∈ settled s -> (e < next_event s)%nat;
}.

(** ** Lemmas *)

Lemma empty_store_wf : store_wf empty_store.
Proof. split; simpl; try done; try (by constructor); try lia. set_solver. Qed.

(** Changing the accounts leaves the refresh marks alone. *)
Lemma with_accounts_wf f s :
  store_wf s -> dict_wf (f (accounts s)) ->
  (forall id t, dict_get id (f (accounts s)) = Some t -> account_id (credentials_of t) = id) ->
  store_wf (with_accounts f s).
Proof. intros [] ? ?. by split. Qed.

Lemma set_account_wf id t s :
  store_wf s -> account_id (credentials_of t) = id -> store_wf (with_accounts (dict_set id t) s).
Proof.
  intros Hs Hid. apply with_accounts_wf; [done|apply dict_wf_set, Hs|].
  intros id' t'. rewrite dict_get_set. case_decide; [intros [= <-]; congruence|apply Hs].
Qed.

Lemma begin_refresh_wf id s : store_wf s -> store_wf (begin_refresh id s).
Proof.
  intros Hs. unfold begin_refresh, dict_has. destruct (dict_get id (refreshing s)) eqn:E; [done|].
  destruct Hs as [H1 H2 H3 H4 H5 H6 H7]. split; simpl; auto with ctrader.
  - intros id' e. rewrite dict_get_set. case_decide.
    + intros [= <-]. split; [lia|]. intros He%H7. lia.
    + intros [? ?]%H4. split; [lia|done].
  - intros i j e. rewrite !dict_get_set.
    destruct (decide (i = id)) as [->|Hi], (decide (j = id)) as [->|Hj];
      [done|intros [= <-] Hx%H4; lia|intros Hx%H4 [= <-]; lia|eauto].
  - intros e He. destruct (decide (e = next_event s)) as [->|Hne].
    + right. exists id. by rewrite dict_get_set_eq.
    + destruct (H6 e) as [?|[id' Hid]]; [lia|by left|right]. exists id'.
      rewrite dict_get_set_ne; [done|]. congruence.
  - intros e He%H7. lia.
Qed.

Lemma end_refresh_wf id s : store_wf s -> store_wf (end_refresh id s).
Proof.
  intros Hs. unfold end_refresh. destruct (dict_get id (refreshing s)) as [e0|] eqn:E; [|done].
  destruct Hs as [H1 H2 H3 H4 H5 H6 H7]. split; simpl; auto with ctrader.
  - intros id' e. rewrite dict_get_pop by done. case_decide; [done|]. intros He.
    destruct (H4 _ _ He) as [? Hn]. split; [done|]. intros [->|]%elem_of_cons; [|done].
    eauto.
  - intros i j e. rewrite !dict_get_pop by done. repeat case_decide; try done. eauto.
  - intros e He. destruct (H6 e He) as [?|[id' Hid]]; [left; by apply list_elem_of_further|].
    destruct (decide (id' = id)) as [->|Hne].
    + left. simplify_eq. apply list_elem_of_here.
    + right. exists id'. by rewrite dict_get_pop_ne.
  - intros e [->|He]%elem_of_cons; [by eapply H4|auto].
Qed.

(** A store without sessions lists none. *)
Lemma invalidate_all_authorized s : authorized_ids (invalidate_all s) = [].
Proof.
  unfold authorized_ids, invalidate_all, with_accounts. cbn [accounts].
  induction (accounts s) as [|[k t] l IH]; [done|]. cbn [fmap list_fmap]. by rewrite filter_cons_False.
Qed.

Lemma invalidate_all_awaiting s : awaiting_recovery (invalidate_all s) = [].
Proof.
  unfold awaiting_recovery, invalidate_all, with_accounts. cbn [accounts].
  by induction (accounts s) as [|[k t] l IH].
Qed.

Lemma invalidate_all_get id s :
  dict_get id (accounts (invalidate_all s)) =
  (fun t => mk_tracked (credentials_of t) None) <$> dict_get id (accounts s).
Proof. apply dict_get_map. Qed.

(** Changing an account that may be the only one to recover. *)
Lemma awaiting_after_set id t t' s :
  dict_get id (accounts s) = Some t -> awaiting_recovery s = option_list (pending_of (id, t)) ->
  awaiting_recovery (with_accounts (dict_set id t') s) = option_list (pending_of (id, t')).
Proof.
  unfold awaiting_recovery, with_accounts. cbn [accounts]. intros (l1 & l2 & -> & Hset)%dict_set_in_place.
  rewrite Hset, !omap_app. cbn [omap list_omap]. intros H.
  assert (omap pending_of l1 = [] /\ omap pending_of l2 = []) as [-> ->].
  { apply (f_equal length) in H as Hlen. rewrite length_app in Hlen.
    split; apply nil_length_inv; destruct (pending_of (id, t)); cbn in Hlen; lia. }
  by destruct (pending_of (id, t')).
Qed.

(** Every account in the same session. *)
Definition session_all (ss : option Session) : SessionStore -> SessionStore :=
  with_accounts (fmap (prod_map id (fun t => mk_tracked (credentials_of t) ss))).

Lemma session_all_items ss s : items (session_all ss s) = items s.
Proof.
  unfold items, session_all, with_accounts. cbn [accounts]. rewrite <-list_fmap_compose.
  apply list_fmap_ext. by intros i [k [cr se]].
Qed.

Lemma session_all_twice ss ss' s : session_all ss (session_all ss' s) = session_all ss s.
Proof.
  unfold session_all, with_accounts. cbn. f_equal. rewrite <-list_fmap_compose. apply list_fmap_ext. by intros i [k t].
Qed.

Lemma awaiting_session_all n at_ s :
  awaiting_recovery (session_all (Some (AwaitingRecovery n at_)) s) =
  (fun kc => mk_pending kc.1 kc.2 n at_) <$> items s.
Proof.
  unfold awaiting_recovery, session_all, items, with_accounts. cbn [accounts].
  induction (accounts s) as [|[k t] l IH]; [done|]. csimpl. by rewrite IH.
Qed.

(** Changing the accounts one after the other, each in place. *)
Lemma with_accounts_fold (step : SessionStore -> Z * TrackedAccount -> SessionStore) (g : TrackedAccount -> TrackedAccount)
    (s : SessionStore) (l l0 : dict Z TrackedAccount) :
  dict_wf l ->
  (forall d k t, (k, t) ∈ l -> dict_get k d = Some t -> step (with_accounts (fun _ => d) s) (k, t) = with_accounts (fun _ => dict_set k (g t) d) s) ->
  (forall k, k ∈ l0.*1 -> k ∉ l.*1) ->
  foldl step (with_accounts (fun _ => l0 ++ l) s) l = with_accounts (fun _ => l0 ++ (prod_map id g <$> l)) s.
Proof.
  revert l0. induction l as [|[k t] l IH]; intros l0 Hwf Hstep Hdisj; [done|]. apply NoDup_cons in Hwf as [Hk Hwf].
  assert (Hk0 : k ∉ l0.*1) by (intros Hin; apply (Hdisj k Hin), list_elem_of_here). cbn [foldl].
  rewrite Hstep; [|apply list_elem_of_here|by rewrite dict_get_app_r; [cbn; rewrite decide_True|]].
  rewrite dict_set_app_r by done. cbn [dict_set]. rewrite decide_True by done.
  change (l0 ++ (k, g t) :: l) with (l0 ++ [(k, g t)] ++ l). rewrite (assoc_L (++)), IH; [|done|..].
  - f_equal. by rewrite <- (assoc_L (++)).
  - intros d k' t' Hin. apply Hstep. by apply list_elem_of_further.
  - intros k'. rewrite fmap_app. intros [Hin| ->%list_elem_of_singleton]%elem_of_app; [|done].
    intros Hl. apply (Hdisj k' Hin). by apply list_elem_of_further.
Qed.

Lemma account_ids_session_all ss s : account_ids (session_all ss s) = account_ids s.
Proof. unfold account_ids, session_all, with_accounts. cbn [accounts]. apply dict_map_keys. Qed.

Lemma session_all_wf ss s : store_wf s -> store_wf (session_all ss s).
Proof.
  intros Hs. apply with_accounts_wf; [done|unfold dict_wf; rewrite dict_map_keys; apply Hs|]. intros i t.
  rewrite dict_get_map. destruct (dict_get i (accounts s)) eqn:E; cbn; [|done]. intros [= <-]. cbn. by apply Hs in E.
Qed.

Lemma all_credentials_session_all ss s : all_credentials (session_all ss s) = all_credentials s.
Proof.
  unfold all_credentials, session_all, with_accounts. cbn [accounts]. rewrite <-!list_fmap_compose.
  apply list_fmap_ext. by intros i [k t].
Qed.

(** Every account is listed under the id of its credentials. *)
Lemma items_credentials s : store_wf s -> items s = (fun c => (account_id c, c)) <$> all_credentials s.
Proof.
  intros Hs. unfold items, all_credentials. rewrite <-!list_fmap_compose. apply list_fmap_ext.
  intros i [k t] Hin. cbn. rewrite (wf_ids _ Hs k t); [done|].
  apply dict_in_get; [apply Hs|]. by eapply list_elem_of_lookup_2.
Qed.

(** Flagging and authorizing every account there is. *)
Lemma flag_every_account (s : SessionStore) :
  dict_wf (accounts s) -> Forall (fun kt => is_awaiting kt.2 = false) (accounts s) ->
  foldl (fun s id => (flag_for_recovery id s).2) s (account_ids s) = session_all (Some (AwaitingRecovery 0 0)) s.
Proof.
  intros Hwf Hnone. unfold account_ids. rewrite foldl_fmap.
  transitivity (foldl (fun s kt => (flag_for_recovery kt.1 s).2) (with_accounts (fun _ => [] ++ accounts s) s) (accounts s)); [by destruct s|].
  rewrite (with_accounts_fold _ (fun t => mk_tracked (credentials_of t) (Some (AwaitingRecovery 0 0)))); [done|done|..].
  - intros d k t Hin Hget. cbn. unfold flag_for_recovery. cbn. rewrite Hget.
    rewrite Forall_forall in Hnone. pose proof (Hnone _ Hin) as Ha. cbn in Ha. by rewrite Ha.
  - intros k []%elem_of_nil.
Qed.

Lemma authorize_every_account (s : SessionStore) :
  store_wf s -> foldl (fun s c => authorize c s) s (all_credentials s) = session_all (Some Authorized) s.
Proof.
  intros Hwf. unfold all_credentials. rewrite <-list_fmap_compose, foldl_fmap.
  transitivity (foldl (fun s kt => authorize (credentials_of kt.2) s) (with_accounts (fun _ => [] ++ accounts s) s) (accounts s)); [by destruct s|].
  rewrite (with_accounts_fold _ (fun t => mk_tracked (credentials_of t) (Some Authorized))); [done|apply Hwf|..].
  - intros d k t Hin _. cbn. unfold authorize, with_accounts. cbn.
    rewrite (wf_ids _ Hwf k t); [done|]. by apply dict_in_get; [apply Hwf|].
  - intros k []%elem_of_nil.
Qed.

Lemma run_op_wf op s : store_wf s -> store_wf (run_op op s).2.
Proof.
  intros Hs. destruct op; simpl; auto using begin_refresh_wf, end_refresh_wf.
  - by apply set_account_wf.
  - unfold replace_credentials. by apply (set_account_wf _ _ s).
  - apply with_accounts_wf; [done|apply dict_wf_pop, Hs|]. intros i t.
    rewrite dict_get_pop by apply Hs. case_decide; [done|apply Hs].
  - apply with_accounts_wf; [done|unfold dict_wf; rewrite dict_map_keys; apply Hs|]. intros i t.
    rewrite dict_get_map. destruct (dict_get i (accounts s)) eqn:E; simpl; [|done].
    intros [= <-]. simpl. by apply Hs in E.
  - unfold flag_for_recovery. destruct (dict_get id (accounts s)) eqn:E; [|done].
    destruct (is_awaiting t); [done|]. apply set_account_wf; [done|]. by apply Hs in E.
  - unfold reschedule_recovery. destruct (dict_get id (accounts s)) eqn:E; [|done].
    destruct (is_awaiting t); [|done]. apply set_account_wf; [done|]. by apply Hs in E.
Qed.

#[export] Hint Resolve run_op_wf empty_store_wf begin_refresh_wf end_refresh_wf : ctrader.

(** The map the store denotes. *)
Definition store_map (s : SessionStore) : session_map := dict_to_map (accounts s).

Lemma store_map_lookup s id : store_map s !! id = dict_get id (accounts s).
Proof. apply lookup_dict_to_map. Qed.

Lemma store_map_set s id t : store_map (with_accounts (dict_set id t) s) = <[id := t]> (store_map s).
Proof. apply dict_to_map_set. Qed.

(** Authorized and awaiting accounts, by the key they are kept under. *)
Lemma authorized_ids_spec id s : store_wf s -> id ∈ authorized_ids s <-> is_authorized id s = true.
Proof.
  intros Hs. unfold authorized_ids, is_authorized. rewrite list_elem_of_fmap. split.
  - intros ([k t] & -> & [Ht Hin]%list_elem_of_filter). simpl in *.
    by rewrite (dict_in_get _ _ _ (wf_accounts _ Hs) Hin).
  - destruct (dict_get id (accounts s)) as [t|] eqn:E; [|done]. intros Ht.
    exists (id, t). split; [done|]. apply list_elem_of_filter. split; [done|by apply dict_get_Some_in].
Qed.

Lemma awaiting_recovery_spec p s :
  store_wf s ->
  p ∈ awaiting_recovery s <->
  dict_get (pr_account_id p) (accounts s) =
    Some (mk_tracked (pr_credentials p) (Some (AwaitingRecovery (pr_attempts p) (pr_next_attempt_at p)))).
Proof.
  intros Hs. unfold awaiting_recovery. rewrite list_elem_of_omap. split.
  - intros ([k [c ss]] & Hin & Hp). unfold pending_of in Hp. simpl in Hp. repeat case_match; simplify_eq/=.
    by apply dict_in_get; [apply Hs|].
  - intros Hget. eexists. split; [by apply dict_get_Some_in|]. simpl. by destruct p.
Qed.

(** ** Properties *)

(** C10. Refinement: each of the eight operations that change the store preserves its
    invariant, returns what the specification on finite maps returns, and leaves a
    dictionary that denotes the specification's map. *)
Theorem store_refines (op : store_op) (s : SessionStore) (Hs : store_wf s) :
  store_wf (run_op op s).2 /\
  (run_op op s).1 = (spec_op op (store_map s)).1 /\
  store_map (run_op op s).2 = (spec_op op (store_map s)).2.
Proof.
  split; [by apply run_op_wf|].
  destruct op as [c|c|id| |id|id n at_|id|id]; simpl; rewrite ?store_map_lookup.
  - split; [done|]. apply store_map_set.
  - split; [done|]. unfold replace_credentials. rewrite <- store_map_set.
    unfold store_map. simpl. by destruct (dict_get _ _).
  - unfold dict_has, store_map. simpl. rewrite dict_to_map_pop by apply Hs. split; [|done].
    destruct (dict_get id (accounts s)); symmetry; [by apply bool_decide_true|].
    apply bool_decide_false. by intros [].
  - split; [done|]. apply dict_to_map_fmap.
  - unfold flag_for_recovery. destruct (dict_get id (accounts s)) as [[c [[]|]]|]; simpl;
      rewrite ?store_map_set; done.
  - unfold reschedule_recovery. destruct (dict_get id (accounts s)) as [[c [[]|]]|]; simpl;
      rewrite ?store_map_set; done.
  - unfold begin_refresh. by destruct (dict_has _ _).
  - unfold end_refresh. by destruct (dict_get _ _).
Qed.

Lemma store_refines_witness :
  let s := authorize (mk_credentials 7 "a" "r" 100) empty_store in
  store_map (flag_for_recovery 7 s).2 =
    {[ 7 := mk_tracked (mk_credentials 7 "a" "r" 100) (Some (AwaitingRecovery 0 0)) ]} /\
  (flag_for_recovery 7 s).1 = true.
Proof.
  pose proof (store_refines (OpFlagForRecovery 7) (authorize (mk_credentials 7 "a" "r" 100) empty_store)
    (run_op_wf (OpAuthorize _) _ empty_store_wf)) as (_ & H1 & H2).
  split; [exact H2|exact H1].
Defined.

(** An account is in exactly one of three situations: its id is listed once, and it is
    authorized, or awaiting recovery, or without a session, never two of them. The listings
    the components act on agree with the map. *)
Theorem one_situation (s : SessionStore) (Hs : store_wf s) :
  NoDup (account_ids s) /\
  (forall id, id ∈ account_ids s <-> is_Some (credentials id s)) /\
  (forall id c, credentials id s = Some c ->
    account_id c = id /\
    ((id ∈ authorized_ids s /\ id ∉ (pr_account_id <$> awaiting_recovery s)) \/
     (id ∉ authorized_ids s /\ exists p, p ∈ awaiting_recovery s /\ pr_account_id p = id /\ pr_credentials p = c) \/
     (id ∉ authorized_ids s /\ id ∉ (pr_account_id <$> awaiting_recovery s) /\
      store_map s !! id = Some (mk_tracked c None)))).
Proof.
  split; [apply Hs|]. split.
  - intros id. unfold account_ids, credentials. rewrite fmap_is_Some.
    rewrite <- dict_has_spec. unfold dict_has. destruct (dict_get id _); by rewrite ?is_Some_alt.
  - intros id c. unfold credentials. destruct (dict_get id (accounts s)) as [[c' ss]|] eqn:E; [|done].
    intros [= ->]. split; [by apply Hs in E|].
    rewrite authorized_ids_spec, store_map_lookup by done. unfold is_authorized. rewrite E.
    assert (Hnot : forall ss', ss = ss' -> (forall n a, ss' ≠ Some (AwaitingRecovery n a)) ->
      id ∉ (pr_account_id <$> awaiting_recovery s)).
    { intros ? -> Hss (p & -> & Hp)%list_elem_of_fmap. apply awaiting_recovery_spec in Hp; [|done].
      rewrite E in Hp. injection Hp as _ Hp. by eapply Hss. }
    destruct ss as [[|n a]|]; simpl; [left|right; left|right; right]; split_and!; try done;
      try (by eapply Hnot).
    exists (mk_pending id c n a). split_and!; [|done..]. by apply awaiting_recovery_spec.
Qed.

Lemma one_situation_witness :
  let s := authorize (mk_credentials 7 "a" "r" 100) empty_store in
  account_id (mk_credentials 7 "a" "r" 100) = 7 /\ NoDup (account_ids s).
Proof.
  pose proof (one_situation (authorize (mk_credentials 7 "a" "r" 100) empty_store)
    (run_op_wf (OpAuthorize _) _ empty_store_wf)) as (H1 & _ & H2).
  split; [|exact H1]. apply (H2 7 (mk_credentials 7 "a" "r" 100)). reflexivity.
Defined.

(** Recovery bookkeeping: an account is flagged at most once until it recovers, with no
    delay and no failures counted; and a late failure cannot bring a pending recovery back
    to an account that was removed or re-authorized in between. *)
Theorem recovery_flag (s s' : SessionStore) (id n : Z) (at_ : seconds)
    (Hflag : flag_for_recovery id s = (true, s')) :
  (exists c, credentials id s = Some c /\ store_map s' !! id = Some (mk_tracked c (Some (AwaitingRecovery 0 0)))) /\
  flag_for_recovery id s' = (false, s') /\
  (forall c, account_id c = id -> reschedule_recovery id n at_ (authorize c s') = authorize c s') /\
  (store_wf s' -> reschedule_recovery id n at_ (remove id s').2 = (remove id s').2).
Proof.
  unfold flag_for_recovery in Hflag. destruct (dict_get id (accounts s)) as [t|] eqn:E; [|done].
  destruct (is_awaiting t) eqn:Ha; [done|]. injection Hflag as <-. split_and!.
  - exists (credentials_of t). unfold credentials. rewrite E. split; [done|].
    by rewrite store_map_lookup; simpl; rewrite dict_get_set_eq.
  - unfold flag_for_recovery. simpl. by rewrite dict_get_set_eq.
  - intros c <-. unfold reschedule_recovery, authorize. simpl. by rewrite dict_get_set_eq.
  - intros Hwf. unfold reschedule_recovery. simpl. rewrite dict_get_pop_eq; [done|apply Hwf].
Qed.

Lemma recovery_flag_witness :
  let s := authorize (mk_credentials 7 "a" "r" 100) empty_store in
  let s' := (flag_for_recovery 7 s).2 in
  flag_for_recovery 7 s' = (false, s').
Proof.
  apply (recovery_flag (authorize (mk_credentials 7 "a" "r" 100) empty_store) _ 7 1 2). reflexivity.
Defined.

(** Nobody waits for a refresh forever: whoever waits for an account's refresh holds an
    event that is not set yet; it stays accounted for across every operation, and once the
    account is no longer refreshing it has been set. *)
Theorem refresh_waiter_released (s : SessionStore) (ops : list store_op) (id : Z) (e : nat)
    (Hs : store_wf s) (He : refresh_event id s = Some e) :
  let s' := foldl (fun s op => (run_op op s).2) s ops in
  e ∉ settled s /\ (e ∈ settled s' \/ exists id', is_refreshing id' s' = true /\ refresh_event id' s' = Some e) /\
  (ops = [OpEndRefresh id] -> e ∈ settled s' /\ is_refreshing id s' = false).
Proof.
  cbv zeta.
  assert (Hmono : forall ops s0, store_wf s0 ->
    store_wf (foldl (fun s op => (run_op op s).2) s0 ops) /\
    (next_event s0 <= next_event (foldl (fun s op => (run_op op s).2) s0 ops))%nat).
  { clear. intros ops. induction ops as [|op ops IH]; intros s0 Hs; simpl; [done|].
    destruct (IH (run_op op s0).2) as [H1 H2]; [by apply run_op_wf|]. split; [done|].
    assert (next_event s0 <= next_event (run_op op s0).2)%nat; [|lia].
    destruct op; simpl; unfold flag_for_recovery, reschedule_recovery, begin_refresh, end_refresh;
      repeat case_match; simpl; lia. }
  destruct (wf_held _ Hs _ _ He) as [Hlt Hn]. destruct (Hmono ops s Hs) as [Hwf Hle].
  split_and!; [done| |].
  - destruct (wf_events _ Hwf e) as [?|[id' Hid]]; [lia|by left|right]. exists id'.
    unfold is_refreshing, dict_has, refresh_event. by rewrite Hid.
  - intros ->. simpl. unfold end_refresh, is_refreshing, dict_has, refresh_event in *. rewrite He. simpl.
    split; [apply list_elem_of_here|]. by rewrite dict_get_pop_eq by apply Hs.
Qed.

Lemma refresh_waiter_released_witness :
  let s := begin_refresh 7 empty_store in
  settled (end_refresh 7 s) = [0%nat] /\ is_refreshing 7 (end_refresh 7 s) = false.
Proof.
  split; [reflexivity|].
  apply (refresh_waiter_released (begin_refresh 7 empty_store) [OpEndRefresh 7] 7 0);
    [apply begin_refresh_wf, empty_store_wf|reflexivity|reflexivity].
Defined.
