(* ===== verification/Protocol.v ===== *)
(** * Request correlation and event dispatch ([connection/protocol.py])

    [send_request] is cut at its [await]s into the segments that run without interruption:
    [send_request_begin], [send_request_woken] and the [finally] of [forget_request]. Any
    number of callers and the reader loop interleave between segments; [step] is one segment
    of one of them, [reachable] the runs of the whole program. Only the request that created a slot
    removes it and ids never repeat, so a slot is kept in the dictionary itself rather than
    behind a reference. *)

From S2P Require Import Prelude Errors Wire Framing Messages.
From stdpp Require Import options.
Import Cls(msg_class).
Open Scope string_scope.
Open Scope list_scope.
Open Scope Z_scope.

(** [APIError.from_proto] *)
Definition APIError_from_proto (r : ProtoOAErrorRes) : api_error := {|
  error_code := er_error_code r;
  description := str_or_None (er_description r);
  err_ctid_trader_account_id := int_or_None (er_ctid_trader_account_id r);
  err_maintenance_end_timestamp := int_or_None (er_maintenance_end_timestamp r);
  err_retry_after := int_or_None (er_retry_after r)
|}.

(** ** State *)

(** [_PendingRequest]: whether its event is set, and its outcome. *)
Record PendingRequest := mk_pending_request {
  event_is_set : bool;
  req_outcome : option (res message);
}.

Definition fresh_pending : PendingRequest := mk_pending_request false None.

(** The keys of the handler table: a message class, or [betterproto.Message] itself. *)
Inductive handler_key := KClass (c : msg_class) | KMessage.

#[export] Instance handler_key_eq_dec : EqDecision handler_key.
Proof. solve_decision. Defined.

(** [type(m).__mro__], as far as a handler can be registered for it. *)
Definition mro (m : message) : list handler_key := [KClass (class_of m); KMessage].

(** A handler, by its identity. *)
Abbreviation handler := Z.

Record Protocol := mk_protocol {
  id_generator : ClientMessageIdGenerator;
  pending : dict string PendingRequest;
  event_handlers : dict handler_key (list handler);
  running : bool;
}.

(** [Protocol.__init__] *)
Definition new_protocol : Protocol := mk_protocol (mk_id_generator 0) [] [] false.

Definition with_pending (f : dict string PendingRequest -> dict string PendingRequest) (p : Protocol) : Protocol :=
  mk_protocol (id_generator p) (f (pending p)) (event_handlers p) (running p).
Definition with_handlers (f : dict handler_key (list handler) -> dict handler_key (list handler))
    (p : Protocol) : Protocol :=
  mk_protocol (id_generator p) (pending p) (f (event_handlers p)) (running p).
Definition with_running (b : bool) (p : Protocol) : Protocol :=
  mk_protocol (id_generator p) (pending p) (event_handlers p) b.
Definition with_id_generator (g : ClientMessageIdGenerator) (p : Protocol) : Protocol :=
  mk_protocol g (pending p) (event_handlers p) (running p).

(** ** Requests *)

Definition is_response_error (m : message) : option ProtoOAErrorRes :=
  match m with MErrorRes r => Some r | _ => None end.

Section requests.
Context `{!Codec}.

(** Up to the write: refuse when not running, take an id, wrap, create the slot. *)
Definition send_request_begin (m : message) (p : Protocol) : res (string * ProtoMessage) * Protocol :=
  if negb (running p) then (Err (CTraderConnectionClosedError (Some "Protocol not running") false), p)
  else
    let '(msg_id, g) := next_id (id_generator p) in
    let p := with_id_generator g p in
    match wrap_message m (Some msg_id) with
    | Err e => (Err e, p)
    | Ok wrapped => (Ok (msg_id, wrapped), with_pending (dict_set msg_id fresh_pending) p)
    end.

(** [send_event], up to the write: no id, no slot. *)
Definition send_event (m : message) (p : Protocol) : res ProtoMessage :=
  if negb (running p) then Err (CTraderConnectionClosedError (Some "Protocol not running") false)
  else wrap_message m None.
End requests.

(** After the wait: the outcome in the slot, if the protocol is still running. *)
Definition stopped_waiting : exn :=
  CTraderConnectionClosedError (Some "Protocol stopped while waiting for response") false.

Definition send_request_woken (msg_id : string) (p : Protocol) : res message :=
  if negb (running p) then Err stopped_waiting
  else
    match dict_get msg_id (pending p) with
    | Some pr => match req_outcome pr with Some r => r | None => Err stopped_waiting end
    | None => Err stopped_waiting
    end.

(** The clauses of the [try] around the write and the wait: what an exception becomes. *)
Definition send_request_raised (timeout : seconds) (e : exn) : exn :=
  match e with TimeoutError => CTraderConnectionTimeoutError timeout "request" | e => e end.

(** [finally: self._pending.pop(msg_id, None)] *)
Definition forget_request (msg_id : string) : Protocol -> Protocol := with_pending (dict_pop msg_id).

(** [request]: the response narrowed to the expected type. *)
Definition narrow_response {A} (rt : response_type A) (response : message) : res A :=
  match rt_narrow rt response with
  | Some a => Ok a
  | None =>
      Err (APIError (api_error_of "UNEXPECTED_RESPONSE"
        (Some ("Expected " +:+ Cls.class_name (rt_class rt) +:+ ", got " +:+ Cls.class_name (class_of response)))))
  end.

(** ** Events *)

(** [l.remove(x)] *)
Fixpoint list_remove_first (x : handler) (l : list handler) : list handler :=
  match l with
  | [] => []
  | y :: l' => if decide (x = y) then l' else y :: list_remove_first x l'
  end.

Definition handlers_for (k : handler_key) (p : Protocol) : list handler := default [] (dict_get k (event_handlers p)).

Definition on_event (k : handler_key) (h : handler) (p : Protocol) : Protocol :=
  with_handlers (dict_set k (handlers_for k p ++ [h])) p.

Definition remove_handler (k : handler_key) (h : handler) (p : Protocol) : Protocol :=
  match dict_get k (event_handlers p) with
  | Some l => with_handlers (dict_set k (list_remove_first h l)) p
  | None => p
  end.

(** The handler tasks [_dispatch_event] spawns, in order. *)
Definition dispatch_event (m : message) (p : Protocol) : list (handler * message) :=
  concat ((fun k => (fun h => (h, m)) <$> handlers_for k p) <$> mro m).

(** [_call_handler_safe]: what the task of a handler that ended with [r] ends with. *)
Definition call_handler_safe (r : res ()) : res () :=
  match r with Err e => if is_Exception e then Ok () else Err e | Ok _ => Ok () end.

(** What the reader does with a message: the protocol it leaves and the handlers it spawns. *)
Definition dispatch_message (pm : ProtoMessage) (inner : message) (p : Protocol)
    : Protocol * list (handler * message) :=
  let msg_id := client_msg_id pm in
  let pend := if (msg_id =? "")%string then None else dict_get msg_id (pending p) in
  match pend with
  | Some _ =>
      let outcome :=
        match is_response_error inner with
        | Some r => Err (APIError (APIError_from_proto r))
        | None => Ok inner
        end in
      (with_pending (dict_set msg_id (mk_pending_request true (Some outcome))) p, [])
  | None => (p, dispatch_event inner p)
  end.

(** [_fail_pending] *)
Definition fail_pending (reason : string) : Protocol -> Protocol :=
  with_pending (fmap (prod_map id (fun _ =>
    mk_pending_request true (Some (Err (CTraderConnectionClosedError (Some reason) false)))))).

(** [stop], and the end of [serve]. *)
Definition stop : Protocol -> Protocol := with_running false.
Definition serve_exit (p : Protocol) : Protocol := fail_pending "Connection closed" (with_running false p).

(** [serve]'s guard and start. *)
Definition serve_enter (p : Protocol) : res Protocol :=
  if running p then Err (RuntimeError "Protocol is already running") else Ok (with_running true p).

(** ** Callers and reader interleaved *)

(** Where a caller of [send_request] is. *)
Inductive phase :=
  | Sending
  | Waiting
  | Finished (r : res message).

Record system := mk_system {
  proto : Protocol;
  callers : dict string phase;
}.

Inductive label :=
  | LStart (msg_id : string) (m : message)
  | LRefused (e : exn)
  | LSent (msg_id : string)
  | LDeliver (pm : ProtoMessage) (inner : message)
  | LWake (msg_id : string)
  | LRaise (msg_id : string) (e : exn)
  | LServe
  | LStop
  | LFail (reason : string)
  | LHandlers (k : handler_key) (h : handler) (register : bool).

Section steps.
Context `{!Codec}.

Inductive step : system -> label -> system -> Prop :=
  (* a caller passes the guard and owns a slot *)
  | step_start p p' cs m msg_id pm :
      send_request_begin m p = (Ok (msg_id, pm), p') ->
      step (mk_system p cs) (LStart msg_id m) (mk_system p' (dict_set msg_id Sending cs))
  (* or is refused *)
  | step_refused p p' cs m e :
      send_request_begin m p = (Err e, p') ->
      step (mk_system p cs) (LRefused e) (mk_system p' cs)
  (* the write completed *)
  | step_sent p cs msg_id :
      dict_get msg_id cs = Some Sending ->
      step (mk_system p cs) (LSent msg_id) (mk_system p (dict_set msg_id Waiting cs))
  (* the reader dispatches a message *)
  | step_deliver p cs pm inner :
      step (mk_system p cs) (LDeliver pm inner) (mk_system (dispatch_message pm inner p).1 cs)
  (* the event is set and the caller resumes *)
  | step_wake p cs msg_id pr :
      dict_get msg_id cs = Some Waiting ->
      dict_get msg_id (pending p) = Some pr -> event_is_set pr = true ->
      step (mk_system p cs) (LWake msg_id)
        (mk_system (forget_request msg_id p) (dict_set msg_id (Finished (send_request_woken msg_id p)) cs))
  (* the write or the wait raised: an encoding or transport error, the timeout, a cancellation *)
  | step_raise p cs msg_id ph e timeout :
      dict_get msg_id cs = Some ph -> (forall r, ph ≠ Finished r) ->
      step (mk_system p cs) (LRaise msg_id e)
        (mk_system (forget_request msg_id p)
           (dict_set msg_id (Finished (Err (send_request_raised timeout e))) cs))
  (* the life of the protocol *)
  | step_serve p p' cs :
      serve_enter p = Ok p' -> step (mk_system p cs) LServe (mk_system p' cs)
  | step_stop p cs : step (mk_system p cs) LStop (mk_system (stop p) cs)
  | step_fail p cs reason :
      step (mk_system p cs) (LFail reason) (mk_system (fail_pending reason (with_running false p)) cs)
  | step_register p cs k h :
      step (mk_system p cs) (LHandlers k h true) (mk_system (on_event k h p) cs)
  | step_unregister p cs k h :
      step (mk_system p cs) (LHandlers k h false) (mk_system (remove_handler k h p) cs).

(** A run from the new protocol, newest label last. *)
Inductive reachable : list label -> system -> Prop :=
  | reachable_init : reachable [] (mk_system new_protocol [])
  | reachable_step tr s l s' : reachable tr s -> step s l s' -> reachable (tr ++ [l]) s'.

(** A run from any system. *)
Inductive runs : system -> list label -> system -> Prop :=
  | runs_nil s : runs s [] s
  | runs_snoc s ls s' l s'' : runs s ls s' -> step s' l s'' -> runs s (ls ++ [l]) s''.
End steps.

(** ** Lemmas *)

(** What a delivered message resolves a request with. *)
Definition outcome_of (inner : message) : res message :=
  match is_response_error inner with Some r => Err (APIError (APIError_from_proto r)) | None => Ok inner end.

Definition is_active (ph : phase) : bool := match ph with Finished _ => false | _ => true end.

(** In the run [tr], request [id] was started and later a message of that id was delivered
    that resolves to [r]. *)
Definition answered (tr : list label) (id : string) (r : res message) : Prop :=
  exists t1 m t2 pm inner t3,
    tr = t1 ++ LStart id m :: t2 ++ LDeliver pm inner :: t3 /\ client_msg_id pm = id /\ outcome_of inner = r.

(** Or it ended without an answer: the connection closed under it, or its own call raised. *)
Definition unanswered (tr : list label) (id : string) (r : res message) : Prop :=
  (exists reason, r = Err (CTraderConnectionClosedError reason false)) \/
  (exists e timeout, LRaise id e ∈ tr /\ r = Err (send_request_raised timeout e)).

Lemma answered_snoc tr l id r : answered tr id r -> answered (tr ++ [l]) id r.
Proof.
  intros (t1 & m & t2 & pm & inner & t3 & -> & H1 & H2). exists t1, m, t2, pm, inner, (t3 ++ [l]).
  split; [|done]. rewrite <- !app_assoc. simpl. by rewrite <- !app_assoc.
Qed.

Lemma unanswered_snoc tr l id r : unanswered tr id r -> unanswered (tr ++ [l]) id r.
Proof. intros [?|(e & t & He & ->)]; [by left|right]. exists e, t. split; [auto with ctrader|done]. Qed.

Lemma answered_deliver tr id m pm inner :
  LStart id m ∈ tr -> client_msg_id pm = id -> answered (tr ++ [LDeliver pm inner]) id (outcome_of inner).
Proof.
  intros (t1 & t2 & ->)%list_elem_of_split Hid. exists t1, m, t2, pm, inner, [].
  split; [|done]. by rewrite <- app_assoc.
Qed.

#[export] Hint Resolve answered_snoc unanswered_snoc : ctrader.

(** The life of one request: its caller and its slot agree, and whatever either holds was
    answered or is a connection error. *)
Definition request_ok (tr : list label) (p : Protocol) (id : string) (ph : option phase) : Prop :=
  match ph with
  | Some (Finished r) => dict_get id (pending p) = None /\ (answered tr id r \/ unanswered tr id r)
  | Some _ =>
      (exists m, LStart id m ∈ tr) /\
      exists pr, dict_get id (pending p) = Some pr /\ (event_is_set pr = true <-> is_Some (req_outcome pr)) /\
        forall r, req_outcome pr = Some r -> answered tr id r \/ unanswered tr id r
  | None => dict_get id (pending p) = None
  end.

Record system_ok (tr : list label) (s : system) : Prop := mk_system_ok {
  ok_pending : dict_wf (pending (proto s));
  ok_callers : dict_wf (callers s);
  ok_ids : forall c ph, dict_get (str_int c) (callers s) = Some ph -> c <= counter (id_generator (proto s));
  ok_requests : forall id, request_ok tr (proto s) id (dict_get id (callers s));
}.

(** A step that leaves the slots and the callers alone leaves the requests alone. *)
Lemma request_ok_snoc tr l p p' id ph :
  dict_get id (pending p') = dict_get id (pending p) ->
  request_ok tr p id ph -> request_ok (tr ++ [l]) p' id ph.
Proof.
  intros Hp. unfold request_ok. destruct ph as [[]|]; rewrite Hp; [| | |done].
  1, 2: intros [[m Hm] (pr & Hpr & Hset & Hr)]; split; [eauto with ctrader|];
    exists pr; split_and!; [done..|]; intros r Hr'; destruct (Hr r Hr'); auto with ctrader.
  intros [? [?|?]]; auto with ctrader.
Qed.

Lemma start_ok `{!Codec} tr p p' cs msg_id m pm :
  system_ok tr (mk_system p cs) -> send_request_begin m p = (Ok (msg_id, pm), p') ->
  system_ok (tr ++ [LStart msg_id m]) (mk_system p' (dict_set msg_id Sending cs)).
Proof.
  intros [H1 H2 H3 H4] Hb. unfold send_request_begin in Hb.
  destruct (running p); simpl in Hb; [|done]. destruct (wrap_message _ _); [|done].
  injection Hb as <- <- <-. split; simpl in *; auto with ctrader.
  - intros c ph. rewrite dict_get_set. case_decide as Hc; [apply str_int_inj in Hc; lia|].
    intros Hget%H3. lia.
  - intros id. rewrite dict_get_set. case_decide as Hid.
    + subst. simpl. split; [eauto with ctrader|]. exists fresh_pending. rewrite dict_get_set_eq.
      split_and!; simpl; [done|by rewrite is_Some_alt|done].
    + eapply request_ok_snoc; [|apply H4]. simpl. by rewrite dict_get_set_ne.
Qed.

Lemma deliver_ok tr p cs pm inner :
  system_ok tr (mk_system p cs) ->
  system_ok (tr ++ [LDeliver pm inner]) (mk_system (dispatch_message pm inner p).1 cs).
Proof.
  intros [H1 H2 H3 H4]. unfold dispatch_message. simpl in *.
  destruct (if (client_msg_id pm =? "")%string then None else dict_get (client_msg_id pm) (pending p)) as [pr0|] eqn:E;
    [|split; simpl; auto; intros id; by eapply request_ok_snoc].
  destruct (String.eqb_spec (client_msg_id pm) ""); [done|].
  split; simpl; auto with ctrader. intros id.
  destruct (decide (id = client_msg_id pm)) as [->|Hid];
    [|eapply request_ok_snoc; [|apply H4]; simpl; by rewrite dict_get_set_ne].
  specialize (H4 (client_msg_id pm)). destruct (dict_get _ cs) as [[| |r]|] eqn:Ec; simpl in *;
    [| |destruct H4; congruence|congruence]; rewrite dict_get_set_eq;
    destruct H4 as [[m Hm] _]; (split; [eauto with ctrader|]);
    eexists; (split_and!; [done|done|]); simpl; intros r [= <-]; left;
    by eapply answered_deliver.
Qed.

(** A caller that ends with [r] takes its slot with it. *)
Lemma finish_ok tr l p cs id ph r :
  system_ok tr (mk_system p cs) -> dict_get id cs = Some ph ->
  answered (tr ++ [l]) id r \/ unanswered (tr ++ [l]) id r ->
  system_ok (tr ++ [l]) (mk_system (forget_request id p) (dict_set id (Finished r) cs)).
Proof.
  intros [H1 H2 H3 H4] Hph Hr. split; simpl in *; auto with ctrader.
  - intros c ph'. rewrite dict_get_set. case_decide as Hc; [|apply H3].
    subst. intros _. by eapply H3.
  - intros i. rewrite dict_get_set. case_decide as Hi.
    + subst. simpl. by rewrite dict_get_pop_eq.
    + eapply request_ok_snoc; [|apply H4]. simpl. by rewrite dict_get_pop_ne.
Qed.

Lemma wake_outcome tr p cs id pr :
  system_ok tr (mk_system p cs) -> dict_get id cs = Some Waiting ->
  dict_get id (pending p) = Some pr -> event_is_set pr = true ->
  answered tr id (send_request_woken id p) \/ unanswered tr id (send_request_woken id p).
Proof.
  intros [_ _ _ H4] Hw Hpr Hset. unfold send_request_woken.
  destruct (running p); simpl; [|right; left; eauto]. rewrite Hpr.
  specialize (H4 id). simpl in H4. rewrite Hw in H4. destruct H4 as [_ (pr' & Hpr' & Hiff & Hr)].
  assert (pr' = pr) as -> by congruence. apply Hiff in Hset as [r Hout]. rewrite Hout. by apply Hr.
Qed.

Lemma fail_ok tr p cs reason :
  system_ok tr (mk_system p cs) ->
  system_ok (tr ++ [LFail reason]) (mk_system (fail_pending reason (with_running false p)) cs).
Proof.
  intros [H1 H2 H3 H4]. split; simpl in *; auto.
  - unfold dict_wf. by rewrite dict_map_keys.
  - intros id. specialize (H4 id).
    destruct (dict_get id cs) as [[| |r]|] eqn:Ec; simpl in *; rewrite dict_get_map.
    1, 2: destruct H4 as [[m Hm] (pr & -> & _)]; (split; [eauto with ctrader|]); simpl;
      eexists; (split_and!; [done|done|]); simpl; intros r [= <-]; right; left; eauto.
    + destruct H4 as [-> [|]]; auto with ctrader.
    + by rewrite H4.
Qed.

Lemma step_ok `{!Codec} tr s l s' : system_ok tr s -> step s l s' -> system_ok (tr ++ [l]) s'.
Proof.
  intros Hok Hstep.
  assert (Hsame : forall p p' cs, system_ok tr (mk_system p cs) -> pending p' = pending p ->
    counter (id_generator p) <= counter (id_generator p') -> system_ok (tr ++ [l]) (mk_system p' cs)).
  { intros p p' cs [H1 H2 H3 H4] Hp Hc. split; simpl in *; [by rewrite Hp|done| |].
    - intros c ph Hph%H3. lia.
    - intros id. eapply request_ok_snoc; [by rewrite Hp|apply H4]. }
  destruct Hstep as [p p' cs m msg_id pm Hb|p p' cs m e Hb|p cs msg_id Hph|p cs pm inner|
    p cs msg_id pr Hph Hpr Hset|p cs msg_id ph e timeout Hph Hactive|p p' cs Hp|p cs|p cs reason|p cs k h|p cs k h].
  - by eapply start_ok.
  - unfold send_request_begin in Hb. destruct (running p); simpl in Hb; try destruct (wrap_message _ _);
      simplify_eq; (eapply Hsame; [done|..]); simpl; done || lia.
  - destruct Hok as [H1 H2 H3 H4]. split; simpl in *; auto with ctrader.
    + intros c ph. rewrite dict_get_set. case_decide as Hc; [|apply H3]. subst. intros _. by eapply H3.
    + intros id. rewrite dict_get_set. case_decide as Hi; [|by eapply request_ok_snoc; [|apply H4]].
      subst. specialize (H4 msg_id). rewrite Hph in H4. by apply (request_ok_snoc tr _ p p msg_id (Some Waiting)).
  - by apply deliver_ok.
  - eapply finish_ok; [done|done|]. destruct (wake_outcome _ _ _ _ _ Hok Hph Hpr Hset); auto with ctrader.
  - eapply finish_ok; [done|done|]. right. right. exists e, timeout. auto with ctrader.
  - unfold serve_enter in Hp. destruct (running p); simplify_eq. by eapply Hsame.
  - by eapply Hsame.
  - by apply fail_ok.
  - by eapply Hsame.
  - unfold remove_handler. destruct (dict_get _ _); by eapply Hsame.
Qed.

Lemma reachable_ok `{!Codec} tr s : reachable tr s -> system_ok tr s.
Proof.
  induction 1; [|by eapply step_ok]. split; simpl; try done; try apply NoDup_nil_2.
Qed.

Lemma list_remove_first_snoc (x : handler) (l : list handler) : list_remove_first x (l ++ [x]) ≡ₚ l.
Proof.
  induction l as [|y l IH]; simpl; [by rewrite decide_True|].
  case_decide as Hx; [|by rewrite IH]. subst. by rewrite Permutation_app_comm.
Qed.

Lemma dispatch_event_permutation p p' m :
  (forall k, handlers_for k p ≡ₚ handlers_for k p') -> dispatch_event m p ≡ₚ dispatch_event m p'.
Proof. intros Hh. unfold dispatch_event, mro. simpl. by rewrite !Hh. Qed.

Lemma handlers_for_set k k' l p :
  handlers_for k (with_handlers (dict_set k' l) p) = if decide (k = k') then l else handlers_for k p.
Proof. unfold handlers_for. simpl. rewrite dict_get_set. by case_decide. Qed.

(** No caller waits under the empty id. *)
Lemma no_empty_id `{!Codec} tr s : reachable tr s -> dict_get "" (callers s) = None.
Proof.
  induction 1 as [|tr s l s' Hs IH Hstep]; [done|].
  destruct Hstep as [p p' cs m msg_id pm Hb| |p cs msg_id Hph| |p cs msg_id pr Hph Hpr Hset|
    p cs msg_id ph e timeout Hph Hactive| | | | | ]; simpl in *; auto;
    rewrite dict_get_set_ne; auto; intros Heq; subst; try congruence.
  unfold send_request_begin in Hb. destruct (running p); simpl in Hb; [|done].
  destruct (wrap_message _ _); [|done]. injection Hb as Hid _ _. by apply str_int_nonempty in Hid.
Qed.

(** Slots and requests in flight correspond. *)
Lemma slot_iff_active `{!Codec} tr s id :
  reachable tr s ->
  is_Some (dict_get id (pending (proto s))) <-> exists ph, dict_get id (callers s) = Some ph /\ is_active ph = true.
Proof.
  intros Hs. pose proof (ok_requests _ _ (reachable_ok _ _ Hs) id) as Hr.
  destruct (dict_get id (callers s)) as [[| |r]|]; simpl in Hr.
  1, 2: destruct Hr as [_ (pr & -> & _)]; split; [eauto|done].
  - destruct Hr as [-> _]. split; [by intros []|intros (ph & [= <-] & ?); done].
  - rewrite Hr. split; [by intros []|by intros (? & ? & ?)].
Qed.

Lemma no_active_no_slot `{!Codec} tr s :
  reachable tr s -> (forall id ph, dict_get id (callers s) = Some ph -> is_active ph = false) ->
  pending (proto s) = [].
Proof.
  intros Hs Hdone. destruct (pending (proto s)) as [|[id pr] l] eqn:E; [done|].
  destruct (proj1 (slot_iff_active _ _ id Hs)) as (ph & Hph & Ha); [|by rewrite (Hdone _ _ Hph) in Ha].
  rewrite E. simpl. rewrite decide_True by done. eauto.
Qed.

(** The steps callers take of their own: a write completes, a wait resumes. *)
Definition is_own (l : label) : bool := match l with LSent _ | LWake _ => true | _ => false end.

Lemma runs_app `{!Codec} s1 ls1 s2 ls2 s3 : runs s1 ls1 s2 -> runs s2 ls2 s3 -> runs s1 (ls1 ++ ls2) s3.
Proof.
  intros H1. induction 1 as [s|s ls s' l s'' _ IH Hstep]; [by rewrite app_nil_r|].
  rewrite app_assoc. eapply runs_snoc; eauto.
Qed.

Lemma runs_reachable `{!Codec} tr s ls s' : reachable tr s -> runs s ls s' -> reachable (tr ++ ls) s'.
Proof.
  intros Hs. induction 1 as [s|s ls s' l s'' _ IH Hstep]; [by rewrite app_nil_r|].
  rewrite app_assoc. eapply reachable_step; eauto.
Qed.

(** How many of those steps are left to a set of callers. *)
Definition moves_left (ph : phase) : nat := match ph with Sending => 2 | Waiting => 1 | Finished _ => 0 end.
Definition weight (cs : dict string phase) : nat := sum_list_with (fun kv => moves_left kv.2) cs.

Lemma weight_active cs : (weight cs <= 2 * length (filter (fun kv => is_active kv.2 = true) cs))%nat.
Proof.
  induction cs as [|[id ph] cs IH]; [done|]. rewrite filter_cons. unfold weight in *. csimpl.
  destruct ph; simpl; repeat case_decide; csimpl; try done; lia.
Qed.

Lemma weight_set id ph ph' cs :
  dict_get id cs = Some ph -> (weight (dict_set id ph' cs) + moves_left ph = weight cs + moves_left ph')%nat.
Proof.
  intros (l1 & l2 & -> & ->)%dict_set_in_place. unfold weight. rewrite !sum_list_with_app. csimpl. lia.
Qed.

Lemma own_run_weight `{!Codec} s ls s' :
  runs s ls s' -> Forall (fun l => is_own l = true) ls -> (weight (callers s') + length ls <= weight (callers s))%nat.
Proof.
  induction 1 as [s|s ls s' l s'' _ IH Hstep]; [simpl; lia|].
  rewrite Forall_app, Forall_singleton, length_app. intros [Hls Hl]. specialize (IH Hls). simpl.
  destruct Hstep as [| |p cs id Hph| |p cs id pr Hph Hpr Hset| | | | | |]; try done; simpl in *.
  - pose proof (weight_set _ _ Waiting _ Hph). simpl in *. lia.
  - pose proof (weight_set _ _ (Finished (send_request_woken id p)) _ Hph). simpl in *. lia.
Qed.

(** What holds from the moment the requests were failed: nothing runs, every slot left is
    resolved, and a request that was in flight then still is or was told so. *)
Record drained (cs0 : dict string phase) (s : system) : Prop := mk_drained {
  dr_stopped : running (proto s) = false;
  dr_set : Forall (fun kv => event_is_set kv.2 = true) (pending (proto s));
  dr_ends : forall id ph, dict_get id cs0 = Some ph -> is_active ph = true ->
    exists ph', dict_get id (callers s) = Some ph' /\ (is_active ph' = true \/ ph' = Finished (Err stopped_waiting));
}.

Lemma failed_drained `{!Codec} s reason s' : step s (LFail reason) s' -> drained (callers s') s'.
Proof.
  inversion 1; subst. split; simpl; [done| |by eauto]. apply Forall_fmap, Forall_true. done.
Qed.

Lemma own_run_drained `{!Codec} cs0 s ls s' :
  runs s ls s' -> Forall (fun l => is_own l = true) ls -> drained cs0 s -> drained cs0 s'.
Proof.
  induction 1 as [s|s ls s' l s'' _ IH Hstep]; [done|].
  rewrite Forall_app, Forall_singleton. intros [Hls Hl] Hd. destruct (IH Hls Hd) as [H1 H2 H3].
  destruct Hstep as [| |p cs id Hph| |p cs id pr Hph Hpr Hset| | | | | |]; try done; simpl in *; split; simpl; auto.
  - intros i ph Hi Ha. rewrite dict_get_set. case_decide; [eauto|by eapply H3].
  - by apply Forall_dict_pop.
  - intros i ph Hi Ha. rewrite dict_get_set. case_decide; [|by eapply H3].
    eexists. split; [done|]. right. unfold send_request_woken. by rewrite H1.
Qed.

Lemma own_progress `{!Codec} tr cs0 s :
  reachable tr s -> drained cs0 s ->
  (exists l s', is_own l = true /\ step s l s') \/
  (forall id ph, dict_get id (callers s) = Some ph -> is_active ph = false).
Proof.
  intros Hs Hd.
  destruct (decide (Exists (fun kv => is_active kv.2 = true) (callers s))) as [Hex|Hno].
  - apply Exists_exists in Hex as ([id ph] & Hin & Ha). left.
    apply dict_in_get in Hin; [|apply (reachable_ok _ _ Hs)]. destruct s as [p cs]. simpl in *.
    destruct ph; [| |done].
    + exists (LSent id). eexists. split; [done|]. by apply step_sent.
    + destruct (proj2 (slot_iff_active _ _ id Hs)) as [pr Hpr]; [eauto|].
      exists (LWake id). eexists. split; [done|]. eapply step_wake; [done|done|]. apply dict_get_Some_in in Hpr.
      by apply (proj1 (Forall_forall _ _) (dr_set _ _ Hd) _ Hpr).
  - right. intros id ph Hph%dict_get_Some_in. destruct (is_active ph) eqn:Ha; [|done].
    destruct Hno. apply Exists_exists. by exists (id, ph).
Qed.

(** ** Properties *)

(** C3. Correlation, over every interleaving of any number of callers with the reader: a
    caller that got a message got one that was delivered under its own id after it had
    started; a server error came from such a message too; and any other end is the
    connection closing or an exception of the caller's own write or wait. *)
Theorem response_correlated `{!Codec} (tr : list label) (s : system) (id : string) (r : res message)
    (Hs : reachable tr s) (Hr : dict_get id (callers s) = Some (Finished r)) :
  answered tr id r \/ unanswered tr id r.
Proof. pose proof (ok_requests _ _ (reachable_ok _ _ Hs) id) as Hok. rewrite Hr in Hok. by apply Hok. Qed.

(** C28. Nothing leaks: at every point of every run there is a slot for exactly the requests
    still in flight, so a protocol with no request in flight holds no slot, whatever way
    the requests ended. *)
Theorem pending_exact `{!Codec} (tr : list label) (s : system) (Hs : reachable tr s) :
  (forall id, is_Some (dict_get id (pending (proto s))) <->
     exists ph, dict_get id (callers s) = Some ph /\ is_active ph = true) /\
  ((forall id ph, dict_get id (callers s) = Some ph -> is_active ph = false) -> pending (proto s) = []).
Proof.
  split; [intros id; by eapply slot_iff_active|by eapply no_active_no_slot].
Qed.

(** Routing: a message that carries the id of a request in flight resolves exactly that
    request and reaches no handler; the caller then resumes with that message, or with the
    error it carries. Any other message, heartbeats and late or unknown answers included,
    leaves every request alone and goes to the handlers of its class. *)
Theorem dispatch_routes `{!Codec} (tr : list label) (s : system) (pm : ProtoMessage) (inner : message)
    (Hs : reachable tr s) :
  let id := client_msg_id pm in
  let p' := (dispatch_message pm inner (proto s)).1 in
  let spawned := (dispatch_message pm inner (proto s)).2 in
  match dict_get id (callers s) with
  | Some Waiting =>
      spawned = [] /\ (forall id', id' ≠ id -> dict_get id' (pending p') = dict_get id' (pending (proto s))) /\
      step (mk_system p' (callers s)) (LWake id)
        (mk_system (forget_request id p') (dict_set id (Finished (send_request_woken id p')) (callers s))) /\
      (running (proto s) = true -> send_request_woken id p' = outcome_of inner)
  | Some Sending => spawned = []
  | _ => p' = proto s /\ spawned = dispatch_event inner (proto s)
  end.
Proof.
  cbv zeta. pose proof (reachable_ok _ _ Hs) as Hok.
  pose proof (ok_requests _ _ Hok (client_msg_id pm)) as Hr. unfold dispatch_message.
  destruct (String.eqb_spec (client_msg_id pm) "") as [He|_].
  - rewrite He, (no_empty_id _ _ Hs). done.
  - destruct (dict_get (client_msg_id pm) (callers s)) as [[| |r]|] eqn:Ec; simpl in Hr.
    + by destruct Hr as [_ (pr & -> & _)].
    + destruct Hr as [_ (pr & -> & _)]. simpl. split_and!; [done| | |].
      * intros id' Hid. by rewrite dict_get_set_ne.
      * eapply step_wake; [done|simpl; by rewrite dict_get_set_eq|done].
      * intros Hrun. unfold send_request_woken. simpl. rewrite Hrun. simpl. by rewrite dict_get_set_eq.
    + by destruct Hr as [-> _].
    + by rewrite Hr.
Qed.

(** A dead protocol drains: once it has failed its requests, the callers alone bring
    every request to an end, in whatever order they run. Each moves at most twice; as long
    as a request is in flight some caller can move; and when none can, every request that
    was in flight has ended with a connection error, and no slot is left. *)
Theorem fail_drains `{!Codec} (tr : list label) (s s1 s2 : system) (reason : string) (ls : list label)
    (Hs : reachable tr s) (Hfail : step s (LFail reason) s1) (Hrun : runs s1 ls s2)
    (Hown : Forall (fun l => is_own l = true) ls) :
  (length ls <= 2 * length (filter (fun kv => is_active kv.2 = true) (callers s1)))%nat /\
  ((exists l s3, is_own l = true /\ step s2 l s3) \/
   (pending (proto s2) = [] /\
    forall id ph, dict_get id (callers s1) = Some ph -> is_active ph = true ->
      dict_get id (callers s2) = Some (Finished (Err stopped_waiting)))).
Proof.
  pose proof (reachable_step _ _ _ _ Hs Hfail) as Hs1.
  pose proof (runs_reachable _ _ _ _ Hs1 Hrun) as Hs2.
  pose proof (own_run_drained _ _ _ _ Hrun Hown (failed_drained _ _ _ Hfail)) as Hd.
  pose proof (own_run_weight _ _ _ Hrun Hown) as Hw. pose proof (weight_active (callers s1)) as Ha.
  split; [lia|]. destruct (own_progress _ _ _ Hs2 Hd) as [Hstep|Hdone]; [by left|right].
  split; [by eapply no_active_no_slot|]. intros id ph Hph Hact.
  destruct (dr_ends _ _ Hd _ _ Hph Hact) as (ph' & Hph' & [Hact'| ->]); [|done].
  by rewrite (Hdone _ _ Hph') in Hact'.
Qed.

(** Handlers: registering one adds exactly one call for each message of its class (or for
    every message, when registered on the base class) and takes none away; disposing of it
    afterwards restores the calls there were, up to their order. *)
Theorem handler_lifecycle (k : handler_key) (h : handler) (m : message) (p : Protocol) :
  dispatch_event m (on_event k h p) ≡ₚ (if decide (k ∈ mro m) then [(h, m)] else []) ++ dispatch_event m p /\
  dispatch_event m (remove_handler k h (on_event k h p)) ≡ₚ dispatch_event m p.
Proof.
  split.
  - unfold dispatch_event, on_event, mro. simpl. rewrite !handlers_for_set, !app_nil_r.
    destruct (decide (k = KMessage)) as [->|Hk].
    + rewrite (decide_False (P := KClass (class_of m) = KMessage)) by done.
      rewrite decide_True by done. rewrite decide_True by set_solver.
      rewrite fmap_app, app_assoc. apply Permutation_app_comm.
    + rewrite (decide_False (P := KMessage = k)) by done.
      destruct (decide (KClass (class_of m) = k)) as [<-|Hc].
      * rewrite decide_True by set_solver. rewrite fmap_app. simpl.
        rewrite <- app_assoc. symmetry. apply Permutation_middle.
      * rewrite decide_False; [done|]. rewrite !not_elem_of_cons. split_and!; [done..|apply not_elem_of_nil].
  - apply dispatch_event_permutation. intros k'. unfold remove_handler, on_event. simpl.
    rewrite dict_get_set_eq, handlers_for_set.
    case_decide as Hk; [subst; apply list_remove_first_snoc|].
    rewrite handlers_for_set, decide_False by done. done.
Qed.

(** ** Witnesses: one request of the toy codec, answered *)

Module Sample.
Import Messages.Toy.

Definition reply : ProtoMessage := mk_proto_message 51 [] "1".

Definition waiting : system :=
  mk_system (mk_protocol (mk_id_generator 1) [("1", fresh_pending)] [] true) [("1", Waiting)].

Definition finished : system :=
  mk_system (mk_protocol (mk_id_generator 1) [] [] true) [("1", Finished (Ok MHeartbeatEvent))].

Definition run_waiting : list label := [LServe; LStart "1" MHeartbeatEvent; LSent "1"].

Lemma reachable_waiting : reachable run_waiting waiting.
Proof.
  eapply (reachable_step [LServe; LStart "1" MHeartbeatEvent]).
  - eapply (reachable_step [LServe]).
    + eapply (reachable_step []); [apply reachable_init|]. apply step_serve. reflexivity.
    + eapply step_start. vm_compute. reflexivity.
  - apply step_sent. reflexivity.
Qed.

Lemma reachable_finished :
  reachable (run_waiting ++ [LDeliver reply MHeartbeatEvent] ++ [LWake "1"]) finished.
Proof.
  rewrite app_assoc. eapply reachable_step.
  - eapply reachable_step; [apply reachable_waiting|]. apply step_deliver.
  - eapply step_wake; vm_compute; reflexivity.
Qed.

(** The connection is lost instead: the caller is told so. *)
Definition failed : system :=
  mk_system (fail_pending "Connection closed" (with_running false (proto waiting))) (callers waiting).

Definition drained_system : system :=
  mk_system (forget_request "1" (proto failed)) [("1", Finished (Err stopped_waiting))].

Lemma fail_waiting : step waiting (LFail "Connection closed") failed.
Proof. apply (step_fail (proto waiting)). Qed.

Lemma drained_run : runs failed [LWake "1"] drained_system.
Proof.
  apply (runs_snoc _ [] failed); [apply runs_nil|].
  eapply (step_wake (proto failed)); vm_compute; reflexivity.
Qed.
End Sample.

Lemma response_correlated_witness :
  answered (Sample.run_waiting ++ [LDeliver Sample.reply MHeartbeatEvent] ++ [LWake "1"]) "1"
    (Ok MHeartbeatEvent).
Proof.
  destruct (response_correlated _ _ "1" (Ok MHeartbeatEvent) Sample.reachable_finished) as [H|H];
    [reflexivity|exact H|].
  destruct H as [[reason H]|(e & t & H & _)]; [discriminate|].
  repeat (apply elem_of_cons in H as [H|H]; [discriminate|]). by apply not_elem_of_nil in H.
Defined.

Lemma pending_exact_witness : pending (proto Sample.finished) = [].
Proof.
  apply (pending_exact _ _ Sample.reachable_finished). intros id ph. simpl.
  destruct (decide (id = "1")); [intros [= <-]; reflexivity|discriminate].
Defined.

Lemma dispatch_routes_witness :
  send_request_woken "1" (dispatch_message Sample.reply MHeartbeatEvent (proto Sample.waiting)).1 =
  Ok MHeartbeatEvent.
Proof.
  exact (proj2 (proj2 (proj2 (dispatch_routes _ _ Sample.reply MHeartbeatEvent Sample.reachable_waiting))) eq_refl).
Defined.

Lemma fail_drains_witness :
  dict_get "1" (callers Sample.drained_system) = Some (Finished (Err stopped_waiting)).
Proof.
  destruct (fail_drains _ _ _ _ _ _ Sample.reachable_waiting Sample.fail_waiting Sample.drained_run
    ltac:(by constructor)) as [_ [H|[_ H]]].
  - destruct H as (l & s3 & Hl & Hstep). inversion Hstep as [| |? ? id Hph| |? ? id ? Hph| | | | | |]; subst; try discriminate Hl.
    + unfold dict_get in Hph. destruct (decide (id = "1")); discriminate Hph.
    + unfold dict_get in Hph. destruct (decide (id = "1")); discriminate Hph.
  - exact (H "1" Waiting eq_refl eq_refl).
Defined.
