(* ===== verification/Registration.v ===== *)
(** * Handlers registered as a group ([connection/protocol.py], [events/router.py],
    [connection/heartbeat.py])

    The router and the heartbeat register handlers when they start and dispose of them when
    they stop, on a protocol others register with too. What both rely on, once for any list
    of registrations. *)

From S2P Require Import Prelude Errors Wire Messages Protocol.
From stdpp Require Import options.
Open Scope list_scope.

(** A registration: the key, and the handler's identity. *)
Abbreviation registration := (handler_key * handler)%type.

(** [[protocol.on_event(key, handler), ...]] *)
Definition register (mine : list registration) (p : Protocol) : Protocol :=
  foldl (fun p kh => on_event kh.1 kh.2 p) p mine.

(** [for dispose in disposers: dispose()] *)
Definition dispose (mine : list registration) (p : Protocol) : Protocol :=
  foldl (fun p kh => remove_handler kh.1 kh.2 p) p mine.

(** Of the group's handlers, each key has exactly its own, in order. *)
Definition registered (mine : list registration) (p : Protocol) : Prop :=
  forall k, filter (fun h => h ∈ mine.*2) (handlers_for k p) = (filter (fun kh : registration => k = kh.1) mine).*2.

(** None of them is registered. *)
Definition unused (mine : list registration) (p : Protocol) : Prop :=
  forall k h, h ∈ mine.*2 -> h ∉ handlers_for k p.

(** A label that neither registers nor removes them. *)
Definition foreign (mine : list registration) (l : label) : Prop :=
  match l with LHandlers _ h _ => h ∉ mine.*2 | _ => True end.

(** ** Lemmas *)

Lemma handlers_for_on_event k k' h p :
  handlers_for k (on_event k' h p) = if decide (k = k') then handlers_for k p ++ [h] else handlers_for k p.
Proof. unfold on_event. rewrite handlers_for_set. by case_decide; subst. Qed.

Lemma handlers_for_remove k k' h p :
  handlers_for k (remove_handler k' h p) =
  if decide (k = k') then list_remove_first h (handlers_for k p) else handlers_for k p.
Proof.
  unfold remove_handler. destruct (dict_get k' (event_handlers p)) eqn:E.
  - rewrite handlers_for_set. case_decide; [|done]. subst. f_equal. unfold handlers_for. by rewrite E.
  - case_decide; [|done]. subst. unfold handlers_for. by rewrite E.
Qed.

Lemma handlers_for_register k mine p :
  handlers_for k (register mine p) = handlers_for k p ++ (filter (fun kh : registration => k = kh.1) mine).*2.
Proof.
  unfold register. revert p. induction mine as [|[k' h] l IH]; intros p; simpl; [by rewrite app_nil_r|].
  rewrite IH, handlers_for_on_event, filter_cons. simpl. case_decide; simpl; [by rewrite <- app_assoc|done].
Qed.

Lemma handlers_for_dispose k mine p :
  handlers_for k (dispose mine p) =
  foldl (fun hs h => list_remove_first h hs) (handlers_for k p) (filter (fun kh : registration => k = kh.1) mine).*2.
Proof.
  unfold dispose. revert p. induction mine as [|[k' h] l IH]; intros p; simpl; [done|].
  rewrite IH, handlers_for_remove, filter_cons. simpl. by case_decide.
Qed.

Section remove_first.
Context (P : handler -> Prop) `{!forall h, Decision (P h)}.

Lemma filter_remove_first (h : handler) (l : list handler) :
  filter P (list_remove_first h l) = if decide (P h) then list_remove_first h (filter P l) else filter P l.
Proof.
  induction l as [|x l IH]; [by case_decide|]. simpl. rewrite !filter_cons. destruct (decide (h = x)) as [<-|Hx].
  - destruct (decide (P h)); [|done]. simpl. by rewrite decide_True.
  - rewrite filter_cons, IH. destruct (decide (P x)), (decide (P h)); simpl; try done. by rewrite decide_False.
Qed.

Lemma filter_remove_all (hs l : list handler) :
  Forall P l ->
  filter P (foldl (fun hs h => list_remove_first h hs) hs l) = foldl (fun hs h => list_remove_first h hs) (filter P hs) l.
Proof.
  intros Hl. revert hs. induction Hl as [|h l Hh _ IH]; intros hs; [done|]. simpl.
  by rewrite IH, filter_remove_first, decide_True.
Qed.
End remove_first.

Lemma remove_all_self (l : list handler) : foldl (fun hs h => list_remove_first h hs) l l = [].
Proof. induction l as [|h l IH]; [done|]. simpl. by rewrite decide_True. Qed.

Lemma list_remove_first_last (h : handler) (l : list handler) : h ∉ l -> list_remove_first h (l ++ [h]) = l.
Proof.
  induction l as [|x l IH]; cbn; [by rewrite decide_True|]. intros [Hx Hl]%not_elem_of_cons.
  by rewrite decide_False, IH.
Qed.

Section mine.
Context (mine : list registration).

Lemma mine_of_key k : Forall (fun h => h ∈ mine.*2) (filter (fun kh : registration => k = kh.1) mine).*2.
Proof.
  apply Forall_forall. intros h Hh. apply list_elem_of_fmap in Hh as (kh & -> & [_ Hkh]%list_elem_of_filter).
  apply list_elem_of_fmap. eauto.
Qed.

Lemma unused_filter p k : unused mine p -> filter (fun h => h ∈ mine.*2) (handlers_for k p) = [].
Proof. intros Hp. apply filter_none, Forall_forall. intros h Hin Hh. by apply (Hp k h). Qed.

Lemma registered_start p : unused mine p -> registered mine (register mine p).
Proof.
  intros Hp k. rewrite handlers_for_register, filter_app, unused_filter by done. apply filter_id, mine_of_key.
Qed.

Lemma disposed_unused p : registered mine p -> unused mine (dispose mine p).
Proof.
  intros Hp k h Hh Hin. assert (Hin' : h ∈ filter (fun h => h ∈ mine.*2) (handlers_for k (dispose mine p)))
    by by apply list_elem_of_filter.
  rewrite handlers_for_dispose, filter_remove_all, (Hp k), remove_all_self in Hin' by apply mine_of_key.
  by apply not_elem_of_nil in Hin'.
Qed.

Lemma registered_same p p' : event_handlers p' = event_handlers p -> registered mine p -> registered mine p'.
Proof. intros He Hp k. unfold handlers_for. rewrite He. apply Hp. Qed.

Lemma registered_step `{!Codec} s l s' :
  step s l s' -> foreign mine l -> registered mine (proto s) -> registered mine (proto s').
Proof.
  intros Hstep Hl Hp. destruct Hstep as [p p' cs m msg_id pm Hb|p p' cs m e Hb| |p cs pm inner| | |p p' cs Hs| | |
    p cs k h|p cs k h]; simpl in *; try done.
  1, 2: eapply registered_same; [|exact Hp]; unfold send_request_begin in Hb;
    destruct (running p); simpl in Hb; try destruct (wrap_message _ _); by simplify_eq.
  - eapply registered_same; [|exact Hp]. unfold dispatch_message. by case_match.
  - eapply registered_same; [|exact Hp]. unfold serve_enter in Hs. destruct (running p); by simplify_eq.
  - intros k'. rewrite handlers_for_on_event. case_decide as Hk; [|apply Hp].
    rewrite filter_app, filter_cons_False, app_nil_r by done. subst. apply Hp.
  - intros k'. rewrite handlers_for_remove. case_decide; [|apply Hp].
    rewrite filter_remove_first, decide_False by done. apply Hp.
Qed.

Lemma registered_runs `{!Codec} s ls s' :
  runs s ls s' -> Forall (foreign mine) ls -> registered mine (proto s) -> registered mine (proto s').
Proof.
  induction 1 as [s|s ls s' l s'' _ IH Hstep]; [done|]. rewrite Forall_app, Forall_singleton.
  intros [Hls Hl] Hs. eapply registered_step; eauto.
Qed.

(** The calls of one of the group's handlers that a message gives rise to. *)
Lemma handler_calls p m h :
  h ∈ mine.*2 -> registered mine p ->
  filter (fun hm => hm.1 = h) (dispatch_event m p) =
  (fun h => (h, m)) <$> filter (fun x => x = h)
    (concat ((fun k => (filter (fun kh : registration => k = kh.1) mine).*2) <$> mro m)).
Proof.
  intros Hh Hp. unfold dispatch_event. induction (mro m) as [|k ks IH]; [done|]. csimpl.
  rewrite !filter_app, fmap_app, IH. f_equal. rewrite <- (Hp k), list_filter_filter_l by (intros x ->; done).
  clear. induction (handlers_for k p) as [|x l IH]; [done|]. csimpl. rewrite !filter_cons. simpl.
  case_decide; csimpl; by rewrite IH.
Qed.

Lemma unused_calls p m h : h ∈ mine.*2 -> unused mine p -> filter (fun hm => hm.1 = h) (dispatch_event m p) = [].
Proof.
  intros Hh Hp. apply filter_none, Forall_forall. intros [h' m'] Hin Heq. simpl in Heq. subst.
  unfold dispatch_event, mro in Hin. csimpl in Hin. rewrite app_nil_r in Hin.
  apply elem_of_app in Hin as [Hin|Hin]; apply list_elem_of_fmap in Hin as (x & [= <- _] & Hin); by eapply Hp.
Qed.
End mine.
