(* ===== verification/Heartbeat.v ===== *)
(** * The inactivity timer ([connection/heartbeat.py])

    [_heartbeat_loop] with its clock. [Link] takes a heartbeat loop as a task that may report
    a drop at any moment; here is when it does. The oracle's [await]s are the sleeps, the
    writes and the report: while the loop sleeps time goes by and handlers may record
    activity, so their effect on [HeartbeatClock] says both. *)

From S2P Require Import Prelude Errors Wire Effects.
From stdpp Require Import options.
Open Scope list_scope.
Open Scope Z_scope.

(** [self._clock.now()] and [self._last_received]. *)
Record HeartbeatClock := mk_heartbeat_clock {
  now : seconds;
  last_received : seconds;
}.

Inductive heartbeat_action :=
  | HSleep (d : seconds)      (* self._clock.sleep(d) *)
  | HSend                     (* self._protocol.send_event(ProtoHeartbeatEvent()) *)
  | HDisconnect.              (* self._protocol.handle_disconnect() *)

#[export] Instance heartbeat_action_eq_dec : EqDecision heartbeat_action.
Proof. solve_decision. Defined.

Abbreviation hb A := (proc HeartbeatClock heartbeat_action A).

(** [_record_activity]; [serve] and [restart] reset the timer the same way. *)
Definition record_activity : HeartbeatClock -> HeartbeatClock := fun w => mk_heartbeat_clock (now w) (now w).

Section HeartbeatManager.
Context (interval timeout : seconds).

(** [await self._protocol.handle_disconnect()] *)
Definition report : hb () := _ ← perform HDisconnect; pause.

(** [0 < self._timeout < elapsed] *)
Definition is_silent (w : HeartbeatClock) : bool :=
  (0 <? timeout) && (timeout <? now w - last_received w).

(** A turn once the sleep is over: report and leave, or write, and report if that fails. *)
Definition check_and_send : hb bool :=
  silent ← gets is_silent;
  if (silent : bool) then _ ← report; mret false
  else
    try_except (_ ← perform HSend; _ ← await_unit; mret true)
      (except_Exception (fun _ => _ ← report; mret false)).

(** One turn of [_heartbeat_loop]: whether to go on. *)
Definition heartbeat_turn : hb bool :=
  _ ← perform (HSleep interval);
  _ ← pause;
  check_and_send.

(** [_heartbeat_loop], its first [turns] turns. *)
Fixpoint heartbeat_loop (turns : nat) : hb () :=
  match turns with
  | O => unfinished
  | S n => go ← heartbeat_turn; if (go : bool) then heartbeat_loop n else mret ()
  end.
End HeartbeatManager.

(** ** Lemmas *)

Lemma pause_cases {W Act} o (w : W) :
  acts (pause (Act := Act) o w) = [] /\
  (out (pause (Act := Act) o w) = Done () \/
   out (pause (Act := Act) o w) = Suspended \/ out (pause (Act := Act) o w) = Raised Cancelled).
Proof. destruct o as [|[f [m|e]] o]; [auto|auto|]. split; [done|]. destruct e; cbn; auto. Qed.

Section lemmas.
Context (interval timeout : seconds).

(** A turn that goes on slept and sent. *)
Definition quiet_turn : list heartbeat_action := [HSleep interval; HSend].

(** What reporting looks like in a turn. *)
Definition report_turn (l : list heartbeat_action) : Prop :=
  l = [HSleep interval; HDisconnect] \/ l = [HSleep interval; HSend; HDisconnect].

Lemma run_hb_report o w :
  acts (report o w) = [HDisconnect] /\
  (out (report o w) = Done () \/ out (report o w) = Suspended \/ out (report o w) = Raised Cancelled).
Proof.
  unfold report. rewrite bind_perform. cbn [acts out]. destruct (pause_cases (Act := heartbeat_action) o w) as [-> H].
  by split.
Qed.

(** The end of a turn that reports. *)
Lemma run_hb_report_false (o : list (env_step HeartbeatClock)) w :
  acts ((_ ← report; mret false) o w) = [HDisconnect] /\ out ((_ ← report; mret false) o w) ≠ Done true.
Proof.
  destruct (run_hb_report o w) as [Ha Ho]. unfold mbind, proc_bind.
  destruct Ho as [->|[->| ->]]; cbn; rewrite Ha; by split.
Qed.

(** The end of a turn, on every branch: it goes on, or it ends without a report, by the
    cancellation or because it is still waiting, or it reports. *)
Definition turn_kinds (sent : list heartbeat_action) (r : run_result HeartbeatClock heartbeat_action bool) : Prop :=
  (out r = Done true /\ acts r = sent) \/
  ((HDisconnect ∉ acts r) /\ (out r = Suspended \/ out r = Raised Cancelled)) \/
  (out r ≠ Done true /\ (acts r = [HDisconnect] \/ acts r = sent ++ [HDisconnect])).

Lemma run_check_and_send o w : turn_kinds [HSend] (check_and_send timeout o w).
Proof.
  unfold turn_kinds, check_and_send. rewrite bind_gets. destruct (is_silent timeout w).
  { destruct (run_hb_report_false o w) as [-> H]. right; right. auto. }
  destruct o as [|[f [m|e]] o]; [right; left; (split; [set_solver|by left])|by left|].
  assert (E : (_ ← perform HSend; _ ← await_unit; mret true) (mk_env_step f (Err e) :: o) w =
              mk_result (Raised e) (f w) [HSend] o) by done.
  rewrite (try_except_eq _ _ _ _ _ E). cbn [out]. unfold except_Exception. destruct (is_Exception e) eqn:He.
  - right; right. unfold continue. cbn [out acts rest state].
    destruct (run_hb_report_false o (f w)) as [-> H]. auto.
  - right; left. destruct e; try discriminate He. split; [set_solver|by right].
Qed.

Lemma run_turn o w :
  let r := heartbeat_turn interval timeout o w in
  (out r = Done true /\ acts r = quiet_turn) \/
  ((HDisconnect ∉ acts r) /\ (out r = Suspended \/ out r = Raised Cancelled)) \/
  (out r ≠ Done true /\ report_turn (acts r)).
Proof.
  cbv zeta. unfold heartbeat_turn. rewrite bind_perform. cbn [acts out].
  destruct (pause_cases (Act := heartbeat_action) o w) as [Ha [Ho|[Ho|Ho]]].
  - rewrite (bind_Done _ _ _ _ _ Ho). cbn [out acts continue]. rewrite Ha. cbn [app].
    destruct (run_check_and_send (rest (pause (Act := heartbeat_action) o w)) (state (pause (Act := heartbeat_action) o w))) as [[-> ->]|[[H1 H2]|[H1 [->| ->]]]];
      unfold report_turn; [by left|right; left; split; [set_solver|done]|auto..].
  - right; left. unfold mbind, proc_bind. rewrite Ho. cbn [out acts ended]. rewrite Ha. (split; [set_solver|by left]).
  - right; left. rewrite (bind_Raised _ _ _ _ _ Ho). cbn [out acts ended]. rewrite Ha. split; [set_solver|by right].
Qed.

(** A run of the loop: some quiet turns, then one that reports, after which it is over, or
    one that does not and is where the loop was left. *)
Lemma run_loop turns o w :
  let r := heartbeat_loop interval timeout turns o w in
  exists n l, acts r = concat (replicate n quiet_turn) ++ l /\
    (report_turn l \/ ((HDisconnect ∉ l) /\ (out r = Suspended \/ out r = Raised Cancelled))).
Proof.
  cbv zeta. revert o w. induction turns as [|turns IH]; intros o w; cbn [heartbeat_loop].
  { exists 0%nat, []. split; [done|]. right. split; [set_solver|by left]. }
  destruct (run_turn o w) as [[Ho Ha]|[[Ha Ho]|[Ho Ha]]].
  - rewrite (bind_Done _ _ _ _ _ Ho). unfold continue. cbn [out acts]. rewrite Ha.
    destruct (IH (rest (heartbeat_turn interval timeout o w)) (state (heartbeat_turn interval timeout o w))) as (n & l & E & H).
    exists (S n), l. rewrite E. cbn [replicate concat]. by rewrite app_assoc.
  - exists 0%nat, (acts (heartbeat_turn interval timeout o w)).
    unfold mbind, proc_bind. destruct Ho as [Ho|Ho]; rewrite Ho; cbn [out acts ended]; auto.
  - exists 0%nat, (acts (heartbeat_turn interval timeout o w)).
    unfold mbind, proc_bind. destruct (out (heartbeat_turn interval timeout o w)) as [[]|e|]; [done| |cbn; auto..].
    unfold continue, mret, proc_ret. cbn [out acts]. rewrite app_nil_r. auto.
Qed.

(** The time that goes by. *)
Definition total (ds : list seconds) : seconds := foldr Z.add 0 ds.

(** A sleep of [d] and a write that succeeds, while nothing is received. *)
Definition silence (ds : list seconds) : list (env_step HeartbeatClock) :=
  ds ≫= (fun d => [mk_env_step (fun w => mk_heartbeat_clock (now w + d) (last_received w)) (Ok MHeartbeatEvent);
                   quiet (Ok MHeartbeatEvent)]).

(** A turn in silence. *)
Lemma run_turn_silence d ds o w :
  let w' := mk_heartbeat_clock (now w + d) (last_received w) in
  let r := heartbeat_turn interval timeout (silence (d :: ds) ++ o) w in
  if is_silent timeout w'
  then out r = Done false /\ acts r = [HSleep interval; HDisconnect]
  else r = mk_result (Done true) w' quiet_turn (silence ds ++ o).
Proof.
  cbv zeta. unfold heartbeat_turn, check_and_send. rewrite bind_perform.
  change (silence (d :: ds) ++ o) with
    (mk_env_step (fun w => mk_heartbeat_clock (now w + d) (last_received w)) (Ok MHeartbeatEvent)
     :: quiet (Ok MHeartbeatEvent) :: silence ds ++ o).
  rewrite (fun m f o w => bind_Done (B := bool) m f o w ()) by done. cbn [out continue acts state rest pause env_reply env_act].
  rewrite bind_gets. by destruct (is_silent timeout _).
Qed.

(** The loop in silence reports at the first check after the timeout. *)
Lemma run_loop_silence ds o w :
  0 < timeout -> now w - last_received w <= timeout -> timeout < now w + total ds - last_received w ->
  exists n d,
    ds !! n = Some d /\
    now w + total (take n ds) - last_received w <= timeout < now w + total (take n ds) + d - last_received w /\
    out (heartbeat_loop interval timeout (length ds) (silence ds ++ o) w) = Done () /\
    acts (heartbeat_loop interval timeout (length ds) (silence ds ++ o) w) =
      concat (replicate n quiet_turn) ++ [HSleep interval; HDisconnect].
Proof.
  intros Ht. revert w. induction ds as [|d ds IH]; intros w Hw Hds; [unfold total in Hds; cbn in Hds; lia|].
  cbn [length heartbeat_loop]. pose proof (run_turn_silence d ds o w) as Hturn. cbv zeta in Hturn.
  unfold is_silent in Hturn. cbn [now last_received] in Hturn.
  rewrite (proj2 (Z.ltb_lt 0 timeout)), andb_true_l in Hturn by done.
  destruct (timeout <? now w + d - last_received w) eqn:E.
  - apply Z.ltb_lt in E. exists 0%nat, d. destruct Hturn as [Ho Ha]. rewrite (bind_Done _ _ _ _ _ Ho).
    unfold continue, mret, proc_ret. cbn [out acts take total foldr]. rewrite app_nil_r. split_and!; [done|lia|lia|done|done].
  - apply Z.ltb_ge in E. rewrite (bind_eq _ _ _ _ _ Hturn). cbn [out].
    destruct (IH (mk_heartbeat_clock (now w + d) (last_received w))) as (n & d' & Hn & Hle & Ho & Ha);
      [cbn; lia|unfold total in *; cbn [foldr now last_received] in *; lia|].
    exists (S n), d'. unfold continue. cbn [out acts state rest]. rewrite Ho, Ha.
    cbn [take now last_received] in *. unfold total in *. cbn [foldr] in *.
    split_and!; [done|lia|lia|done|by rewrite app_assoc].
Qed.

(** While the server is heard from in time and the writes succeed. *)
Definition healthy_step (s : env_step HeartbeatClock) : Prop :=
  keeps (fun w => is_silent timeout w = false) (env_act s) /\ exists m, env_reply s = Ok m.

Lemma run_turn_healthy o w :
  Forall healthy_step o -> is_silent timeout w = false ->
  let r := heartbeat_turn interval timeout o w in
  (HDisconnect ∉ acts r) /\ is_silent timeout (state r) = false /\ Forall healthy_step (rest r) /\
  (out r = Done true \/ out r = Suspended).
Proof.
  intros Ho Hw. cbv zeta. unfold heartbeat_turn, check_and_send. rewrite bind_perform.
  destruct o as [|s o]; [split_and!; [set_solver|done|done|by right]|].
  apply Forall_cons in Ho as [[Hs [m Hm]] Ho]. rewrite (fun m f o w => bind_Done (B := bool) m f o w ()) by (unfold pause; cbn; by rewrite Hm).
  cbn [out continue acts state rest pause]. rewrite bind_gets, (Hs w Hw).
  destruct o as [|s' o]; [split_and!; [set_solver|by apply Hs|done|by right]|].
  apply Forall_cons in Ho as [[Hs' [m' Hm']] Ho]. unfold try_except. rewrite bind_perform. cbn [out].
  unfold await_unit, await, mbind, proc_bind. rewrite Hm'. cbn.
  split_and!; [set_solver|by apply Hs', Hs|done|by left].
Qed.

Lemma run_loop_healthy turns o w :
  Forall healthy_step o -> is_silent timeout w = false -> HDisconnect ∉ acts (heartbeat_loop interval timeout turns o w).
Proof.
  revert o w. induction turns as [|turns IH]; intros o w Ho Hw; cbn [heartbeat_loop]; [set_solver|].
  destruct (run_turn_healthy o w Ho Hw) as (Ha & Hw' & Ho' & [E|E]); unfold mbind, proc_bind; rewrite E; [|done].
  unfold continue. cbn [acts]. rewrite elem_of_app. intros [?|?]; [done|by eapply IH].
Qed.
End lemmas.

(** ** Theorems *)

(** Accuracy: a heartbeat loop reports a drop at most once, as the last thing it does, and
    only for a reason: while no check finds the server silent for longer than the timeout
    and no write fails, it reports nothing, however long it runs. A timeout of zero never
    finds the server silent. *)
Theorem heartbeat_accurate (interval timeout : seconds) turns o w :
  let r := heartbeat_loop interval timeout turns o w in
  (exists n l, acts r = concat (replicate n (quiet_turn interval)) ++ l /\
     (report_turn interval l \/ ((HDisconnect ∉ l) /\ (out r = Suspended \/ out r = Raised Cancelled)))) /\
  (Forall (healthy_step timeout) o -> is_silent timeout w = false -> HDisconnect ∉ acts r) /\
  (timeout = 0 -> is_silent timeout w = false).
Proof.
  cbv zeta. split_and!; [apply run_loop|apply run_loop_healthy|]. by intros ->.
Qed.

(** C35. Completeness: when nothing is received any more, the loop reports it, at the first check
    after the timeout, as long as sleeps end and whatever they take: the checks before it
    came within the timeout, so the drop is noticed one sleep after it at the latest. The
    timeout is positive, and until then every heartbeat can be written. *)
Theorem heartbeat_detects_silence (interval timeout : seconds) (ds : list seconds) o w
    (Htimeout : 0 < timeout) (Hheard : now w - last_received w <= timeout)
    (Hlong : timeout < now w + total ds - last_received w) :
  let r := heartbeat_loop interval timeout (length ds) (silence ds ++ o) w in
  exists n d,
    ds !! n = Some d /\
    now w + total (take n ds) - last_received w <= timeout < now w + total (take n ds) + d - last_received w /\
    out r = Done () /\
    acts r = concat (replicate n (quiet_turn interval)) ++ [HSleep interval; HDisconnect].
Proof. by apply run_loop_silence. Qed.

(** The defaults: a heartbeat every ten seconds, a timeout of sixty; the seventh check. *)
Lemma heartbeat_detects_silence_witness :
  exists n d,
    replicate 8 (10 * second) !! n = Some d /\
    0 + total (take n (replicate 8 (10 * second))) - 0 <= 60 * second
      < 0 + total (take n (replicate 8 (10 * second))) + d - 0 /\
    out (heartbeat_loop (10 * second) (60 * second) 8 (silence (replicate 8 (10 * second)) ++ [])
           (mk_heartbeat_clock 0 0)) = Done () /\
    acts (heartbeat_loop (10 * second) (60 * second) 8 (silence (replicate 8 (10 * second)) ++ [])
           (mk_heartbeat_clock 0 0)) =
      concat (replicate n (quiet_turn (10 * second))) ++ [HSleep (10 * second); HDisconnect].
Proof.
  apply (heartbeat_detects_silence (10 * second) (60 * second) (replicate 8 (10 * second)) [] (mk_heartbeat_clock 0 0));
    vm_compute; congruence.
Defined.
