(* ===== verification/Activity.v ===== *)
(** * What counts as a sign of life ([connection/heartbeat.py])

    [HeartbeatManager.serve] registers two handlers for as long as it runs: one for every
    message, which resets the inactivity timer of [Heartbeat], and one for heartbeats, which
    logs. Here is which messages reset the timer, whatever else happens to the protocol. *)

From S2P Require Import Prelude Errors Wire Messages Protocol Registration Heartbeat.
From stdpp Require Import options.
Open Scope string_scope.
Open Scope list_scope.
Open Scope Z_scope.

(** The two handlers, by their identity. *)
Definition RECORD_ACTIVITY : handler := 100.
Definition ON_HEARTBEAT : handler := 101.

Definition heartbeat_registrations : list registration :=
  [(KMessage, RECORD_ACTIVITY); (KClass Cls.ProtoHeartbeatEvent, ON_HEARTBEAT)].

(** [serve], up to the task group: the disposers, the protocol and the timer. *)
Definition heartbeat_serve_enter (disposers : list registration) (p : Protocol) (w : HeartbeatClock)
    : res (list registration * Protocol * HeartbeatClock) :=
  match disposers with
  | _ :: _ => Err (RuntimeError "Heartbeat monitor is already running")
  | [] => Ok (heartbeat_registrations, register heartbeat_registrations p, mk_heartbeat_clock (now w) (now w))
  end.

(** Its [finally]. *)
Definition heartbeat_serve_exit (disposers : list registration) (p : Protocol) : list registration * Protocol :=
  ([], dispose disposers p).

(** What the task of a handler does to the timer: [_record_activity] resets it,
    [_on_heartbeat] only logs, and others do not know of it. *)
Definition heartbeat_handler (h : handler) (w : HeartbeatClock) : HeartbeatClock :=
  if h =? RECORD_ACTIVITY then record_activity w else w.

(** The tasks of a message, run at the time [t]. *)
Definition timer_after (t : seconds) (spawned : list (handler * message)) (w : HeartbeatClock) : HeartbeatClock :=
  foldl (fun w hm => heartbeat_handler hm.1 w) (mk_heartbeat_clock t (last_received w)) spawned.

(** ** Lemmas *)

(** The resets among the tasks are what counts. *)
Lemma timer_after_filter t spawned w :
  last_received (timer_after t spawned w) =
  match filter (fun hm => hm.1 = RECORD_ACTIVITY) spawned with [] => last_received w | _ => t end.
Proof.
  unfold timer_after. remember (mk_heartbeat_clock t (last_received w)) as w0 eqn:Hw.
  assert (Ht : now w0 = t) by by subst.
  assert (Hl : last_received w0 = last_received w \/ last_received w0 = t) by (subst; by left).
  assert (Hgen : last_received (foldl (fun w hm => heartbeat_handler hm.1 w) w0 spawned) =
    match filter (fun hm => hm.1 = RECORD_ACTIVITY) spawned with [] => last_received w0 | _ => t end); [|subst; exact Hgen].
  clear Hw Hl w. revert w0 Ht. induction spawned as [|[h m] l IH]; intros w0 Ht; [done|]. simpl.
  rewrite filter_cons. simpl. unfold heartbeat_handler at 2. destruct (Z.eqb_spec h RECORD_ACTIVITY) as [->|Hh].
  - rewrite decide_True by done. rewrite IH by done. simpl. rewrite Ht. by case_match.
  - rewrite decide_False by done. by apply IH.
Qed.

Lemma record_mine : RECORD_ACTIVITY ∈ heartbeat_registrations.*2.
Proof. apply list_elem_of_here. Qed.

Lemma record_calls p m :
  registered heartbeat_registrations p ->
  filter (fun hm => hm.1 = RECORD_ACTIVITY) (dispatch_event m p) = [(RECORD_ACTIVITY, m)].
Proof.
  intros Hp. rewrite (handler_calls _ _ _ _ record_mine Hp).
  unfold mro, heartbeat_registrations. by destruct (class_of m).
Qed.

(** ** Properties *)

(** C36. Signs of life. From the moment the monitor is served, whatever callers, reader and
    other handlers do to the protocol: every message that is dispatched as an event resets
    the inactivity timer, once, to the time it is handled; the answer to a request in flight
    never does; the monitor cannot be served twice; and once it is no longer served, no
    message touches the timer and it can be served again. *)
Theorem activity_tracked `{!Codec} (p : Protocol) (w : HeartbeatClock) (Hp : unused heartbeat_registrations p) :
  exists ds p1 w1, heartbeat_serve_enter [] p w = Ok (ds, p1, w1) /\ last_received w1 = now w /\
    forall cs ls s, runs (mk_system p1 cs) ls s -> Forall (foreign heartbeat_registrations) ls ->
    (forall pm inner t w',
       let spawned := (dispatch_message pm inner (proto s)).2 in
       if decide (client_msg_id pm ≠ "" /\ is_Some (dict_get (client_msg_id pm) (pending (proto s))))
       then spawned = [] /\ last_received (timer_after t spawned w') = last_received w'
       else filter (fun hm => hm.1 = RECORD_ACTIVITY) spawned = [(RECORD_ACTIVITY, inner)] /\
         last_received (timer_after t spawned w') = t) /\
    (forall w', exists msg, heartbeat_serve_enter ds (proto s) w' = Err (RuntimeError msg)) /\
    let '(ds2, p2) := heartbeat_serve_exit ds (proto s) in
    (forall m t w', last_received (timer_after t (dispatch_event m p2) w') = last_received w') /\
    exists r, heartbeat_serve_enter ds2 p2 w = Ok r /\ unused heartbeat_registrations p2.
Proof.
  do 3 eexists. split; [reflexivity|]. split; [done|]. intros cs ls s Hruns Hls.
  pose proof (registered_runs _ _ _ _ Hruns Hls (registered_start _ p Hp)) as Hon. split; [|split].
  - intros pm inner t w'. cbv zeta. unfold dispatch_message.
    destruct (String.eqb_spec (client_msg_id pm) "") as [He|Hne].
    + rewrite decide_False by (intros [? _]; done). simpl. rewrite timer_after_filter, record_calls by done. done.
    + destruct (dict_get (client_msg_id pm) (pending (proto s))) eqn:E.
      * rewrite decide_True by eauto. done.
      * rewrite decide_False by (intros [_ []]; done). simpl. rewrite timer_after_filter, record_calls by done. done.
  - intros w'. eexists. reflexivity.
  - pose proof (disposed_unused _ _ Hon) as Hoff. simpl. split; [|by eexists].
    intros m t w'. by rewrite timer_after_filter, (unused_calls _ _ _ _ record_mine Hoff).
Qed.

Lemma activity_tracked_witness :
  exists ds p1 w1, heartbeat_serve_enter [] new_protocol (mk_heartbeat_clock 5 0) = Ok (ds, p1, w1) /\
    last_received w1 = 5 /\
    last_received (timer_after 9 (dispatch_message (mk_proto_message 51 [] "") MHeartbeatEvent p1).2 w1) = 9.
Proof.
  destruct (@activity_tracked Messages.Toy.codec new_protocol (mk_heartbeat_clock 5 0)
    (fun k h _ => not_elem_of_nil h)) as (ds & p1 & w1 & H1 & H2 & H3).
  exists ds, p1, w1. split; [exact H1|]. split; [exact H2|].
  destruct (H3 [] [] _ (runs_nil _) (Forall_nil_2 _)) as [H _].
  exact (proj2 (H (mk_proto_message 51 [] "") MHeartbeatEvent 9 w1)).
Defined.
