(* ===== verification/Supervisor.v ===== *)
(** * Telling the listeners of the link
    ([connection/listener.py], [connection/supervisor.py], [connection/protocol.py])

    The protocol tells one listener, the supervisor, that the link dropped or is back; the
    supervisor tells the parties that registered with it. Neither lets a listener's failure
    through. [Link] has these calls as single steps of its transition system; here is what
    happens inside them, for any state [W] the listeners share. *)

From S2P Require Import Prelude Errors Effects.
From stdpp Require Import options.
Open Scope list_scope.

Section listeners.
Context {W Act : Type}.

(** [ConnectionListener] *)
Record ConnectionListener := mk_listener {
  on_connection_lost : proc W Act ();
  on_connection_restored : proc W Act ();
}.

(** [try: await call except Exception: logger.exception(...)] *)
Definition logged (call : proc W Act ()) : proc W Act () :=
  try_except call (except_Exception (fun _ => mret ())).

(** [ConnectionSupervisor]: [self._listeners], told in the order of [add_listener]. *)
Definition add_listener (l : ConnectionListener) (ls : list ConnectionListener) : list ConnectionListener :=
  ls ++ [l].

(** [on_connection_lost] *)
Definition supervisor_lost (listeners : list ConnectionListener) : proc W Act () :=
  for_each listeners (fun l => logged (on_connection_lost l)).

(** [on_connection_restored], with [self._heartbeat.restart()]. *)
Definition supervisor_restored (restart : proc W Act ()) (listeners : list ConnectionListener) : proc W Act () :=
  _ ← restart;
  for_each listeners (fun l => logged (on_connection_restored l)).

(** The supervisor as the protocol's listener. *)
Definition supervisor (restart : proc W Act ()) (listeners : list ConnectionListener) : ConnectionListener :=
  mk_listener (supervisor_lost listeners) (supervisor_restored restart listeners).

(** [Protocol._notify_connection_lost], and its counterpart at the end of [_reconnect]. *)
Definition notify_connection_lost (listener : option ConnectionListener) : proc W Act () :=
  match listener with Some l => logged (on_connection_lost l) | None => mret () end.
Definition notify_connection_restored (listener : option ConnectionListener) : proc W Act () :=
  match listener with Some l => logged (on_connection_restored l) | None => mret () end.

(** ** Lemmas *)

(** What becomes of a call that is logged. *)
Definition survived (e : outcome ()) : outcome () :=
  match e with Raised e => if is_Exception e then Done () else Raised e | _ => e end.

Lemma run_logged (call : proc W Act ()) o w : logged call o w = ended (call o w) (survived (out (call o w))).
Proof.
  unfold logged, try_except, survived, except_Exception, ended. destruct (call o w) as [[u|e|] s a r] eqn:E; cbn; [by destruct u| |done].
  destruct (is_Exception e); cbn; [|done]. unfold continue, mret, proc_ret. cbn. by rewrite app_nil_r.
Qed.

(** Telling each of a list, whatever became of those before: the runs of the calls one
    after the other, until one is still under way or cancelled. *)
Fixpoint told (calls : list (proc W Act ())) (o : list (env_step W)) (w : W) : run_result W Act () :=
  match calls with
  | [] => mk_result (Done ()) w [] o
  | call :: calls' =>
      let r := call o w in
      match survived (out r) with
      | Done _ =>
          let r' := told calls' (rest r) (state r) in
          mk_result (out r') (state r') (acts r ++ acts r') (rest r')
      | e => ended r e
      end
  end.

Lemma run_for_each_logged {A} (l : list A) (call : A -> proc W Act ()) o w :
  for_each l (fun a => logged (call a)) o w = told (call <$> l) o w.
Proof.
  revert o w. induction l as [|a l IH]; intros o w; [done|]. cbn [for_each fmap list_fmap told].
  rewrite (bind_eq _ _ _ _ _ (run_logged (call a) o w)). cbn [out ended].
  destruct (survived (out (call a o w))); cbn; [|done..]. unfold continue. cbn [rest state ended]. by rewrite IH.
Qed.

(** A call that is told of ends normally unless it is cancelled or still under way. *)
Lemma survived_Raised e e' : survived e = Raised e' -> is_Exception e' = false /\ e = Raised e'.
Proof.
  destruct e as [|e0|]; cbn; [done| |done]. destruct (is_Exception e0) eqn:He; [done|]. intros [= ->]. by split.
Qed.

Lemma told_Raised calls o w e : out (told calls o w) = Raised e -> is_Exception e = false.
Proof.
  revert o w. induction calls as [|call calls IH]; intros o w; [done|]. cbn [told].
  destruct (survived (out (call o w))) as [u|e'|] eqn:E; cbn [out ended]; [apply IH| |done].
  intros [= ->]. by destruct (survived_Raised _ _ E).
Qed.
Lemma always_logged (I : W -> Prop) (P : Act -> Prop) (call : proc W Act ()) :
  always I P call -> always I P (logged call).
Proof.
  intros Hc. apply always_try_except; [done|]. intros e k. unfold except_Exception.
  destruct (is_Exception e); [intros [= <-]; apply always_ret|done].
Qed.

Lemma always_for_each_logged {A} (I : W -> Prop) (P : Act -> Prop) (l : list A) (call : A -> proc W Act ()) :
  (forall a, a ∈ l -> always I P (call a)) -> always I P (for_each l (fun a => logged (call a))).
Proof.
  intros H. induction l as [|a l IH]; [apply always_ret|]. apply always_bind; [|intros _; apply IH].
  - apply always_logged, H, list_elem_of_here.
  - intros b Hb. by apply H, list_elem_of_further.
Qed.

Lemma survived_told calls o w : survived (out (told calls o w)) = out (told calls o w).
Proof.
  destruct (out (told calls o w)) as [u|e|] eqn:E; [done| |done]. cbn. by rewrite (told_Raised _ _ _ _ E).
Qed.
End listeners.
Arguments ConnectionListener W Act : clear implicits.

(** ** Theorems *)

(** Listeners are isolated from one another and from the reconnection. When the protocol
    reports a drop to the supervisor, the registered listeners are told one after the other,
    each whatever the ones before it raised; reporting a recovery restarts the heartbeat
    first, and then tells them the same way. Neither report raises an [Exception]. *)
Theorem listeners_isolated {W Act} (restart : proc W Act ()) (ls : list (ConnectionListener W Act)) o w :
  let lost := notify_connection_lost (Some (supervisor restart ls)) in
  let restored := notify_connection_restored (Some (supervisor restart ls)) in
  lost o w = told (on_connection_lost <$> ls) o w /\
  (forall u, out (restart o w) = Done u ->
     restored o w = continue (restart o w) (told (on_connection_restored <$> ls))) /\
  (forall e, out (lost o w) = Raised e \/ out (restored o w) = Raised e -> is_Exception e = false).
Proof.
  cbv zeta. cbn [notify_connection_lost notify_connection_restored supervisor on_connection_lost on_connection_restored].
  assert (Hlost : logged (supervisor_lost ls) o w = told (on_connection_lost <$> ls) o w).
  { rewrite run_logged. unfold supervisor_lost. rewrite (run_for_each_logged ls on_connection_lost), survived_told.
    by destruct (told _ o w). }
  split_and!; [done| |].
  - intros u Hu. rewrite run_logged.
    assert (E : supervisor_restored restart ls o w = continue (restart o w) (told (on_connection_restored <$> ls))).
    { unfold supervisor_restored. rewrite (bind_Done _ _ _ _ _ Hu). unfold continue.
      by rewrite (run_for_each_logged ls on_connection_restored). }
    rewrite E. unfold ended, continue. cbn. by rewrite survived_told.
  - intros e [He|He]; rewrite run_logged in He; cbn in He; by destruct (survived_Raised _ _ He).
Qed.
