(* ===== verification/Link.v ===== *)
(** * The life of the link: reader, heartbeat, reconnection, supervisor
    ([connection/protocol.py], [heartbeat.py], [supervisor.py], [transport.py])

    The tasks that share the link are a transition system, one step per segment between two
    [await]s: reader loops, heartbeat loops, detectors that wait for the listener to be told
    of a drop, and reconnection tasks. Nothing in the state says there is at most one of
    each: they are lists, and that there is one is proved. Time is not modelled: a sleep
    may end at any moment. *)

From S2P Require Import Prelude Errors Wire Framing Messages Protocol.
From stdpp Require Import options.
Open Scope string_scope.
Open Scope list_scope.
Open Scope Z_scope.

(** ** Tenacity

    [stop_never] and [stop_after_attempt], asked after a failed attempt with its number. *)
Class StopStrategies := {
  stop_never : Z -> bool;
  stop_after_attempt : Z -> Z -> bool;
}.

(** What they document. *)
Class LawfulStops `{!StopStrategies} := {
  stop_never_spec n : stop_never n = false;
  stop_after_attempt_spec budget n : stop_after_attempt budget n = bool_decide (budget <= n);
}.

(** ** The reader loop *)

Definition MAX_CONSECUTIVE_READ_ERRORS : Z := 10.

(** What the reader does with an exception, by the [except] clause that catches it. *)
Inductive verdict :=
  | VReport               (* handle_disconnect, then leave *)
  | VExit                 (* leave *)
  | VRetry (errors : Z).  (* sleep and read on *)

Definition reader_verdict (run : bool) (consecutive_errors : Z) (e : exn) : verdict :=
  let report := if run then VReport else VExit in
  match e with
  | FramingError _ _ => report
  | ClosedResourceError | EndOfStream | BrokenResourceError => report
  | CTraderConnectionClosedError _ _ => VExit
  | Cancelled => VExit
  | _ =>
      let n := consecutive_errors + 1 in
      if MAX_CONSECUTIVE_READ_ERRORS <=? n then report else VRetry n
  end.

(** ** State *)

(** A reader task: spawned and not run yet, or in its loop with its error count. *)
Inductive reader_phase := Spawned | Reading (consecutive_errors : Z).

(** A task suspended in [handle_disconnect] while the listener hears of the drop. *)
Inductive detector := DReader (i : nat) | DHeartbeat (j : nat).

#[export] Instance detector_eq_dec : EqDecision detector.
Proof. solve_decision. Defined.

(** Where a reconnection task is. *)
Inductive recon :=
  | RStart                  (* at the top of a pass *)
  | RClosing                (* closing the old transport *)
  | RConnecting (n : Z)     (* in the [n]-th attempt *)
  | RBackoff (n : Z)        (* between attempts *)
  | RRestoring              (* the listener re-establishes its state *)
  | RLost.                  (* telling the listener of another drop *)

Record link := mk_link {
  l_proto : Protocol;
  l_group : bool;
  l_connected : bool;
  l_reconnecting : bool;
  l_redo : bool;
  l_scope : option nat;
  l_readers : dict nat reader_phase;
  l_notifying : list detector;
  l_tasks : list recon;
  l_hb_group : bool;
  l_hb_scope : option nat;
  l_hbs : list nat;
  l_fresh : nat;
  l_crash : option exn;
}.

(** Field updates, one per group of fields the code assigns together. *)
Definition set_proto (p : Protocol) (s : link) : link :=
  mk_link p (l_group s) (l_connected s) (l_reconnecting s) (l_redo s) (l_scope s) (l_readers s)
    (l_notifying s) (l_tasks s) (l_hb_group s) (l_hb_scope s) (l_hbs s) (l_fresh s) (l_crash s).
Definition set_connected (b : bool) (s : link) : link :=
  mk_link (l_proto s) (l_group s) b (l_reconnecting s) (l_redo s) (l_scope s) (l_readers s)
    (l_notifying s) (l_tasks s) (l_hb_group s) (l_hb_scope s) (l_hbs s) (l_fresh s) (l_crash s).
Definition set_flags (reconnecting redo : bool) (s : link) : link :=
  mk_link (l_proto s) (l_group s) (l_connected s) reconnecting redo (l_scope s) (l_readers s)
    (l_notifying s) (l_tasks s) (l_hb_group s) (l_hb_scope s) (l_hbs s) (l_fresh s) (l_crash s).
Definition set_readers (sc : option nat) (rs : dict nat reader_phase) (s : link) : link :=
  mk_link (l_proto s) (l_group s) (l_connected s) (l_reconnecting s) (l_redo s) sc rs
    (l_notifying s) (l_tasks s) (l_hb_group s) (l_hb_scope s) (l_hbs s) (l_fresh s) (l_crash s).
Definition set_notifying (l : list detector) (s : link) : link :=
  mk_link (l_proto s) (l_group s) (l_connected s) (l_reconnecting s) (l_redo s) (l_scope s) (l_readers s)
    l (l_tasks s) (l_hb_group s) (l_hb_scope s) (l_hbs s) (l_fresh s) (l_crash s).
Definition set_tasks (l : list recon) (s : link) : link :=
  mk_link (l_proto s) (l_group s) (l_connected s) (l_reconnecting s) (l_redo s) (l_scope s) (l_readers s)
    (l_notifying s) l (l_hb_group s) (l_hb_scope s) (l_hbs s) (l_fresh s) (l_crash s).
Definition set_hb (g : bool) (sc : option nat) (hbs : list nat) (s : link) : link :=
  mk_link (l_proto s) (l_group s) (l_connected s) (l_reconnecting s) (l_redo s) (l_scope s) (l_readers s)
    (l_notifying s) (l_tasks s) g sc hbs (l_fresh s) (l_crash s).
Definition set_fresh (n : nat) (s : link) : link :=
  mk_link (l_proto s) (l_group s) (l_connected s) (l_reconnecting s) (l_redo s) (l_scope s) (l_readers s)
    (l_notifying s) (l_tasks s) (l_hb_group s) (l_hb_scope s) (l_hbs s) n (l_crash s).
Definition set_crash (e : option exn) (s : link) : link :=
  mk_link (l_proto s) (l_group s) (l_connected s) (l_reconnecting s) (l_redo s) (l_scope s) (l_readers s)
    (l_notifying s) (l_tasks s) (l_hb_group s) (l_hb_scope s) (l_hbs s) (l_fresh s) e.

(** [Protocol._running] *)
Definition l_running (s : link) : bool := running (l_proto s).

(** ** Operations *)

(** [handle_disconnect] up to its first [await]; [true]: the caller goes on to tell the
    listener. *)
Definition handle_disconnect (s : link) : bool * link :=
  if negb (l_running s) then (false, s)
  else if l_reconnecting s then (false, set_flags true true s)
  else if negb (l_group s) then (false, s)
  else (true, set_flags true (l_redo s) s).

(** The rest of [handle_disconnect], once the listener was told: spawn the task. *)
Definition spawn_reconnect (d : detector) (s : link) : link :=
  set_tasks (l_tasks s ++ [RStart]) (set_notifying (filter (fun d' => d' ≠ d) (l_notifying s)) s).

Definition spawn_reader (s : link) : link :=
  if l_group s
  then set_fresh (S (l_fresh s)) (set_readers (l_scope s) (dict_set (l_fresh s) Spawned (l_readers s)) s)
  else s.

(** Cancelling a scope ends the task that runs in it, wherever it is suspended. *)
Definition cancel_reader (s : link) : link :=
  match l_scope s with
  | Some i =>
      set_notifying (filter (fun d => d ≠ DReader i) (l_notifying s))
        (set_readers None (dict_pop i (l_readers s)) s)
  | None => s
  end.

(** The top of a pass of [_reconnect_task], up to the [await] of [close]. *)
Definition begin_pass (s : link) : link :=
  set_connected false (cancel_reader (set_flags (l_reconnecting s) false s)).

(** [HeartbeatManager.restart] *)
Definition heartbeat_restart (s : link) : link :=
  let s := match l_hb_scope s with
           | Some j =>
               set_notifying (filter (fun d => d ≠ DHeartbeat j) (l_notifying s))
                 (set_hb (l_hb_group s) (l_hb_scope s) (filter (fun j' => j' ≠ j) (l_hbs s)) s)
           | None => s
           end in
  if l_hb_group s
  then set_fresh (S (l_fresh s)) (set_hb true (l_hb_scope s) (l_hbs s ++ [l_fresh s]) s)
  else s.

Definition is_heartbeat (d : detector) : bool := match d with DHeartbeat _ => true | DReader _ => false end.

(** A heartbeat loop that returns; when it was the last child of the task group that
    [serve] waits on, [serve] ends: no group, no scope, handlers disposed. *)
Definition heartbeat_exit (j : nat) (s : link) : link :=
  let hbs := filter (fun j' => j' ≠ j) (l_hbs s) in
  let notifying := filter (fun d => d ≠ DHeartbeat j) (l_notifying s) in
  let alive := negb (bool_decide (hbs = [])) || existsb is_heartbeat notifying in
  set_notifying notifying
    (if l_hb_group s && alive then set_hb true (l_hb_scope s) hbs s else set_hb false None hbs s).

Section abandon.
Context (reconnect_attempts : option Z).

(** [_abandon]: stop, fail the pending requests, and raise unless reconnection was
    disabled by configuration. *)
Definition abandon (reason : string) (cause : exn) (s : link) : link :=
  let s := set_proto (fail_pending reason (with_running false (l_proto s))) s in
  if bool_decide (reconnect_attempts = Some 0) then s
  else set_crash (Some (CTraderReconnectAbandonedError reason (Some cause))) s.

(** [_reconnect_task]'s handlers and its [finally], for an exception of a pass. *)
Definition reconnect_failed (e : exn) (s : link) : link :=
  let reason :=
    match e with
    | CTraderConnectionFailedError _ _ _ | CTraderConnectionClosedError _ _ =>
        "connection lost and reconnection failed"
    | _ => "unexpected error while reconnecting"
    end in
  set_flags false false (abandon reason e s).

(** The stop strategy [_reconnect] chooses. *)
Definition attempts_spent `{!StopStrategies} (n : Z) : bool :=
  match reconnect_attempts with None => stop_never n | Some b => stop_after_attempt b n end.
End abandon.

(** Replacing one task of the list. *)
Definition task_at (l1 : list recon) (t : option recon) (l2 : list recon) : list recon :=
  l1 ++ match t with Some t => [t] | None => [] end ++ l2.

(** What happens when an attempt connects: a reader is spawned, then the supervisor hears
    of it and restarts the heartbeat before anything else. *)
Definition connected_again (s : link) : link := heartbeat_restart (spawn_reader (set_connected true s)).

Inductive llabel :=
  | LReaderStart (i : nat)
  | LRead (i : nat) (pm : ProtoMessage) (inner : message)
  | LReadError (i : nat) (e : exn)
  | LTold (d : detector)
  | LHeartbeatStart (j : nat)
  | LHeartbeatSent (j : nat)
  | LHeartbeatReport (j : nat)
  | LPass
  | LClosed
  | LConnect (n : Z) (ok : bool)
  | LBackoff (n : Z)
  | LRestored
  | LLostAgain
  | LAbandon (e : exn)
  | LShutdown.

Section lsteps.
Context `{!StopStrategies} (reconnect_attempts : option Z) (host : string) (port : Z).

Inductive lstep : link -> llabel -> link -> Prop :=
  (* a reader first runs: it registers its scope and enters the loop, if still running *)
  | lstep_reader_start s i :
      dict_get i (l_readers s) = Some Spawned ->
      lstep s (LReaderStart i)
        (set_readers (Some i)
           (if l_running s then dict_set i (Reading 0) (l_readers s) else dict_pop i (l_readers s)) s)
  | lstep_read s i n pm inner :
      dict_get i (l_readers s) = Some (Reading n) -> l_connected s = true ->
      lstep s (LRead i pm inner)
        (set_proto (dispatch_message pm inner (l_proto s)).1
           (set_readers (l_scope s)
              (if l_running s then dict_set i (Reading 0) (l_readers s) else dict_pop i (l_readers s)) s))
  (* a read raises; the transport says it is not connected exactly when it is not *)
  | lstep_read_error s i n e :
      dict_get i (l_readers s) = Some (Reading n) -> e ≠ Cancelled ->
      (forall r c, e = CTraderConnectionClosedError r c -> l_connected s = false) ->
      lstep s (LReadError i e)
        (match reader_verdict (l_running s) n e with
         | VRetry n' => set_readers (l_scope s) (dict_set i (Reading n') (l_readers s)) s
         | VExit => set_readers (l_scope s) (dict_pop i (l_readers s)) s
         | VReport =>
             let '(notify, s') := handle_disconnect (set_readers (l_scope s) (dict_pop i (l_readers s)) s) in
             if notify then set_notifying (l_notifying s' ++ [DReader i]) s' else s'
         end)
  (* the listener was told of the drop, whether it succeeded or raised *)
  | lstep_told_reader s i :
      DReader i ∈ l_notifying s -> lstep s (LTold (DReader i)) (spawn_reconnect (DReader i) s)
  | lstep_told_heartbeat s j :
      DHeartbeat j ∈ l_notifying s ->
      lstep s (LTold (DHeartbeat j)) (heartbeat_exit j (spawn_reconnect (DHeartbeat j) s))
  (* a heartbeat loop *)
  | lstep_hb_start s j :
      j ∈ l_hbs s -> lstep s (LHeartbeatStart j) (set_hb (l_hb_group s) (Some j) (l_hbs s) s)
  | lstep_hb_sent s j :
      j ∈ l_hbs s -> l_running s = true -> l_connected s = true -> lstep s (LHeartbeatSent j) s
  (* it timed out, or its write failed *)
  | lstep_hb_report s j :
      j ∈ l_hbs s ->
      lstep s (LHeartbeatReport j)
        (let '(notify, s') := handle_disconnect s in
         if notify
         then set_notifying (l_notifying s' ++ [DHeartbeat j])
                (set_hb (l_hb_group s') (l_hb_scope s') (filter (fun j' => j' ≠ j) (l_hbs s')) s')
         else heartbeat_exit j s')
  (* the reconnection task *)
  | lstep_pass s l1 l2 :
      l_tasks s = l1 ++ RStart :: l2 ->
      lstep s LPass (set_tasks (task_at l1 (Some RClosing) l2) (begin_pass s))
  | lstep_closed s l1 l2 :
      l_tasks s = l1 ++ RClosing :: l2 -> reconnect_attempts ≠ Some 0 ->
      lstep s LClosed (set_tasks (task_at l1 (Some (RConnecting 1)) l2) s)
  | lstep_disabled s l1 l2 e :
      l_tasks s = l1 ++ RClosing :: l2 -> reconnect_attempts = Some 0 ->
      e = CTraderConnectionClosedError (Some "Connection lost and reconnection disabled") false ->
      lstep s (LAbandon e) (reconnect_failed reconnect_attempts e (set_tasks (task_at l1 None l2) s))
  | lstep_connect_ok s l1 l2 n :
      l_tasks s = l1 ++ RConnecting n :: l2 ->
      lstep s (LConnect n true) (set_tasks (task_at l1 (Some RRestoring) l2) (connected_again s))
  | lstep_connect_fail s l1 l2 n :
      l_tasks s = l1 ++ RConnecting n :: l2 -> attempts_spent reconnect_attempts n = false ->
      lstep s (LConnect n false) (set_tasks (task_at l1 (Some (RBackoff n)) l2) s)
  | lstep_connect_last s l1 l2 n cause e :
      l_tasks s = l1 ++ RConnecting n :: l2 -> attempts_spent reconnect_attempts n = true ->
      e = CTraderConnectionFailedError host port (Some cause) ->
      lstep s (LAbandon e) (reconnect_failed reconnect_attempts e (set_tasks (task_at l1 None l2) s))
  | lstep_backoff s l1 l2 n :
      l_tasks s = l1 ++ RBackoff n :: l2 ->
      lstep s (LBackoff n) (set_tasks (task_at l1 (Some (RConnecting (n + 1))) l2) s)
  (* the listener has restored what it could; was there another drop meanwhile? *)
  | lstep_restored s l1 l2 :
      l_tasks s = l1 ++ RRestoring :: l2 ->
      lstep s LRestored
        (if l_redo s then set_tasks (task_at l1 (Some RLost) l2) s
         else set_flags false false (set_tasks (task_at l1 None l2) s))
  | lstep_lost_again s l1 l2 :
      l_tasks s = l1 ++ RLost :: l2 ->
      lstep s LLostAgain (set_tasks (task_at l1 (Some RClosing) l2) (begin_pass s))
  (* [stop] *)
  | lstep_shutdown s : lstep s LShutdown (set_proto (stop (l_proto s)) s).

(** [serving()] once the reader and the heartbeat were started. *)
Definition link_start (p : Protocol) : link :=
  mk_link (with_running true p) true true false false None [(0%nat, Spawned)] [] [] true None [1%nat] 2 None.

Inductive lreachable : list llabel -> link -> Prop :=
  | lreachable_start p : lreachable [] (link_start p)
  | lreachable_step tr s l s' : lreachable tr s -> lstep s l s' -> lreachable (tr ++ [l]) s'.
End lsteps.

(** ** Invariant *)

(** Some reader will notice the next drop. *)
Definition watched (s : link) : Prop := l_readers s ≠ [].

(** What holds at each point of a pass of the reconnection task. *)
Definition recon_ok (s : link) (t : recon) : Prop :=
  match t with
  | RRestoring => l_connected s = true /\ (l_running s = true -> l_redo s = true \/ watched s)
  | RLost => l_connected s = true
  | RConnecting n | RBackoff n => 1 <= n
  | _ => True
  end.

Record link_ok (s : link) : Prop := mk_link_ok {
  lk_group : l_group s = true;
  lk_readers : dict_wf (l_readers s);
  lk_fresh : forall i ph, dict_get i (l_readers s) = Some ph -> (i < l_fresh s)%nat;
  (* one reconnection, or none: the detector that started it, then its task *)
  lk_single : (length (l_notifying s) + length (l_tasks s) = if l_reconnecting s then 1 else 0)%nat;
  lk_tasks : Forall (recon_ok s) (l_tasks s);
  (* a heartbeat loop that runs is not one that waits for the listener *)
  lk_hbs : forall j, j ∈ l_hbs s -> DHeartbeat j ∉ l_notifying s;
  (* and none means the link is up and watched *)
  lk_watched : l_running s = true -> l_reconnecting s = false -> l_connected s = true /\ watched s;
  lk_errors : forall i n, dict_get i (l_readers s) = Some (Reading n) -> 0 <= n < MAX_CONSECUTIVE_READ_ERRORS;
}.

(** The one task there is, when there is one. *)
Lemma single_task s l1 t l2 :
  link_ok s -> l_tasks s = l1 ++ t :: l2 ->
  l1 = [] /\ l2 = [] /\ l_notifying s = [] /\ l_reconnecting s = true /\ recon_ok s t.
Proof.
  intros Hok Ht. pose proof (lk_single _ Hok) as Hs. pose proof (lk_tasks _ Hok) as Hr. rewrite Ht in Hs, Hr.
  rewrite length_app in Hs. simpl in Hs. apply Forall_app in Hr as [_ Hr]. apply Forall_cons in Hr as [Hr _].
  destruct (l_reconnecting s); [|lia]. destruct l1, l2, (l_notifying s); simpl in Hs; try lia. done.
Qed.

(** The one detector that tells the listener. *)
Lemma single_detector s d :
  link_ok s -> d ∈ l_notifying s -> l_notifying s = [d] /\ l_tasks s = [] /\ l_reconnecting s = true.
Proof.
  intros Hok Hd. pose proof (lk_single _ Hok) as Hs.
  destruct (l_notifying s) as [|d' l]; [by apply not_elem_of_nil in Hd|].
  destruct (l_reconnecting s), l, (l_tasks s); simpl in Hs; try lia.
  by apply list_elem_of_singleton in Hd as ->.
Qed.

(** Idle: no reconnection in flight. *)
Lemma idle s : link_ok s -> l_reconnecting s = false -> l_notifying s = [] /\ l_tasks s = [].
Proof.
  intros Hok Hr. pose proof (lk_single _ Hok) as Hs. rewrite Hr in Hs.
  destruct (l_notifying s), (l_tasks s); simpl in Hs; try lia. done.
Qed.

(** A running link is up and watched, or being repaired by one task. *)
Lemma link_ok_served s :
  link_ok s -> l_running s = true ->
  (l_reconnecting s = false /\ l_connected s = true /\ watched s /\ l_notifying s = [] /\ l_tasks s = []) \/
  (l_reconnecting s = true /\ (length (l_notifying s) + length (l_tasks s) = 1)%nat).
Proof.
  intros Hok Hrun. pose proof (lk_single _ Hok) as Hsingle.
  destruct (l_reconnecting s) eqn:Hrec; [by right|left].
  destruct (lk_watched _ Hok Hrun Hrec), (idle _ Hok Hrec). by split_and!.
Qed.

Lemma dict_set_nonempty {K V} `{EqDecision K} (k : K) (v : V) (d : dict K V) : dict_set k v d ≠ [].
Proof. destruct d as [|[k' v'] d]; simpl; [done|]. by case_decide. Qed.

Lemma reader_verdict_retry run n e n' :
  0 <= n < MAX_CONSECUTIVE_READ_ERRORS -> reader_verdict run n e = VRetry n' ->
  0 <= n' < MAX_CONSECUTIVE_READ_ERRORS.
Proof.
  intros Hn. assert (H : forall m, (if MAX_CONSECUTIVE_READ_ERRORS <=? m then if run then VReport else VExit
    else VRetry m) = VRetry n' -> m = n + 1 -> 0 <= n' < MAX_CONSECUTIVE_READ_ERRORS).
  { intros m. destruct (Z.leb_spec MAX_CONSECUTIVE_READ_ERRORS m), run; intros [=] ->; subst; lia. }
  destruct e, run; simpl; intros Hv; try discriminate; try (by eapply (H _ Hv)).
Qed.

Lemma reader_verdict_exit run n e :
  e ≠ Cancelled -> reader_verdict run n e = VExit ->
  run = false \/ exists r c, e = CTraderConnectionClosedError r c.
Proof.
  intros Hc Hv. destruct run; [|by left]. right.
  destruct e; simpl in Hv; try done; try case_match; try done; eauto.
Qed.

Lemma reader_verdict_report run n e : reader_verdict run n e = VReport -> run = true.
Proof. destruct run; [done|]. destruct e; simpl; try done; by case_match. Qed.

#[local] Arguments reader_verdict : simpl never.

(** Updates of the readers table keep its keys distinct and below the counter. *)
Lemma readers_pop_fresh s i j ph :
  link_ok s -> dict_get j (dict_pop i (l_readers s)) = Some ph -> (j < l_fresh s)%nat.
Proof.
  intros Hok. rewrite dict_get_pop by apply Hok. case_decide; [done|]. by apply lk_fresh.
Qed.

Lemma readers_set_fresh s i ph0 ph' j ph :
  link_ok s -> dict_get i (l_readers s) = Some ph0 ->
  dict_get j (dict_set i ph' (l_readers s)) = Some ph -> (j < l_fresh s)%nat.
Proof.
  intros Hok Hi. rewrite dict_get_set. case_decide; [subst; intros _|]; by eapply lk_fresh.
Qed.

Lemma readers_pop_errors s i j n :
  link_ok s -> dict_get j (dict_pop i (l_readers s)) = Some (Reading n) -> 0 <= n < MAX_CONSECUTIVE_READ_ERRORS.
Proof. intros Hok. rewrite dict_get_pop by apply Hok. case_decide; [done|]. by apply lk_errors. Qed.

Lemma readers_set_errors s i j n n' :
  link_ok s -> 0 <= n' < MAX_CONSECUTIVE_READ_ERRORS ->
  dict_get j (dict_set i (Reading n') (l_readers s)) = Some (Reading n) -> 0 <= n < MAX_CONSECUTIVE_READ_ERRORS.
Proof. intros Hok Hn. rewrite dict_get_set. case_decide; [by intros [= <-]|]. by apply lk_errors. Qed.

#[local] Hint Resolve readers_pop_fresh readers_set_fresh readers_pop_errors readers_set_errors
  lk_group lk_readers lk_fresh lk_single lk_errors lk_hbs : ctrader.

(** A task's claim survives what keeps the connection, and the redo mark or the watch. *)
Lemma recon_ok_mono s s' t :
  l_connected s' = l_connected s -> (l_running s' = true -> l_running s = true) ->
  (l_running s' = true -> l_redo s = true \/ watched s -> l_redo s' = true \/ watched s') ->
  recon_ok s t -> recon_ok s' t.
Proof.
  intros Hc Hr Hw. destruct t; simpl; rewrite ?Hc; try done. intros [? H]. split; [done|].
  intros Hrun. apply Hw; [done|]. auto.
Qed.

(** A reader that stays, or one that leaves while nobody needs it to watch. *)
Lemma readers_ok s sc rs :
  link_ok s -> dict_wf rs -> (forall j ph, dict_get j rs = Some ph -> (j < l_fresh s)%nat) ->
  (forall j n, dict_get j rs = Some (Reading n) -> 0 <= n < MAX_CONSECUTIVE_READ_ERRORS) ->
  (l_running s = true -> l_connected s = true -> rs ≠ []) ->
  link_ok (set_readers sc rs s).
Proof.
  intros Hok Hwf Hfresh Herr Hne. split; simpl; eauto with ctrader.
  - eapply Forall_impl; [apply Hok|]. intros t Ht. destruct t; simpl in *; try done.
    destruct Ht as [Hc Hw]. split; [done|]. intros Hrun. destruct (Hw Hrun); [by left|right]. by apply Hne.
  - intros Hrun Hrec. destruct (lk_watched _ Hok Hrun Hrec) as [Hc _]. split; [done|]. by apply Hne.
Qed.

Lemma proto_ok s p :
  link_ok s -> (running p = true -> l_running s = true) -> link_ok (set_proto p s).
Proof.
  intros Hok Hp. split; simpl; eauto with ctrader.
  - eapply Forall_impl; [apply Hok|]. intros t. apply recon_ok_mono; unfold l_running; simpl; auto.
  - unfold l_running. simpl. intros Hrun. apply Hok. auto.
Qed.

(** Whatever [heartbeat_exit] does, it is to the heartbeats. *)
Lemma hb_ok s g sc l : link_ok s -> (forall j, j ∈ l -> j ∈ l_hbs s) -> link_ok (set_hb g sc l s).
Proof.
  intros Hok Hl. split; simpl; eauto with ctrader; [|apply Hok].
  eapply Forall_impl; [apply Hok|]. intros t. by apply recon_ok_mono.
Qed.

Lemma filter_subset {A} (P : A -> Prop) `{forall x, Decision (P x)} (l : list A) (x : A) : x ∈ filter P l -> x ∈ l.
Proof. by intros [_ ?]%list_elem_of_filter. Qed.

#[local] Hint Resolve filter_subset : ctrader.

Lemma heartbeat_exit_ok s j :
  link_ok s -> DHeartbeat j ∉ l_notifying s -> link_ok (heartbeat_exit j s).
Proof.
  intros Hok Hj. unfold heartbeat_exit.
  assert (Hf : filter (fun d => d ≠ DHeartbeat j) (l_notifying s) = l_notifying s).
  { apply filter_id. apply Forall_forall. intros d Hd ->. done. }
  rewrite Hf. change (l_notifying s) with (l_notifying (set_hb true (l_hb_scope s) (filter (fun j' => j' ≠ j) (l_hbs s)) s)) at 2.
  destruct (_ && _);
    [apply (hb_ok s true (l_hb_scope s) (filter (fun j' => j' ≠ j) (l_hbs s)))|
     apply (hb_ok s false None (filter (fun j' => j' ≠ j) (l_hbs s)))]; eauto with ctrader.
Qed.

(** A detector that reports: it starts the one reconnection, or marks the running one. *)
Lemma handle_disconnect_ok s :
  link_ok s ->
  match handle_disconnect s with
  | (true, s') => l_reconnecting s = false /\ s' = set_flags true (l_redo s) s
  | (false, s') => link_ok s' /\ l_notifying s' = l_notifying s
  end.
Proof.
  intros Hok. unfold handle_disconnect. destruct (l_running s) eqn:Hrun; simpl; [|done].
  destruct (l_reconnecting s) eqn:Hrec; simpl.
  - split; [|done]. pose proof (lk_single _ Hok) as Hs. rewrite Hrec in Hs.
    split; simpl; eauto with ctrader; [|done].
    eapply Forall_impl; [apply Hok|]. intros t. apply recon_ok_mono; simpl; auto.
  - by rewrite (lk_group _ Hok).
Qed.

(** The new detector is alone. *)
Lemma new_detector_ok s d : link_ok s -> l_reconnecting s = false ->
  (forall j, j ∈ l_hbs s -> d ≠ DHeartbeat j) ->
  link_ok (set_notifying (l_notifying s ++ [d]) (set_flags true (l_redo s) s)).
Proof.
  intros Hok Hrec Hd. destruct (idle _ Hok Hrec) as [Hn Ht].
  split; simpl; eauto with ctrader; [by rewrite Hn, Ht|by rewrite Ht| |done].
  intros j Hj. rewrite Hn. simpl. intros Heq%list_elem_of_singleton. by eapply Hd.
Qed.

(** The one task moves on, claiming what is true. *)
Lemma move_task_ok s l1 t l2 t' :
  link_ok s -> l_tasks s = l1 ++ t :: l2 -> recon_ok s t' -> link_ok (set_tasks (task_at l1 (Some t') l2) s).
Proof.
  intros Hok Ht Hr. destruct (single_task _ _ _ _ Hok Ht) as (-> & -> & Hn & Hrec & _).
  split; simpl; eauto with ctrader; [by rewrite Hn, Hrec|by constructor|by rewrite Hrec].
Qed.

Lemma begin_pass_ok s l1 t l2 :
  link_ok s -> l_tasks s = l1 ++ t :: l2 -> link_ok (set_tasks (task_at l1 (Some RClosing) l2) (begin_pass s)).
Proof.
  intros Hok Ht. destruct (single_task _ _ _ _ Hok Ht) as (-> & -> & Hn & Hrec & _).
  unfold begin_pass, cancel_reader. simpl. destruct (l_scope s) as [i|];
    (split; simpl; rewrite ?Hn, ?Hrec; eauto with ctrader; try (by apply Forall_singleton); try done;
     intros j _; apply not_elem_of_nil).
Qed.

Lemma connected_again_ok s l1 n l2 :
  link_ok s -> l_tasks s = l1 ++ RConnecting n :: l2 ->
  link_ok (set_tasks (task_at l1 (Some RRestoring) l2) (connected_again s)).
Proof.
  intros Hok Ht. destruct (single_task _ _ _ _ Hok Ht) as (-> & -> & Hn & Hrec & _).
  unfold connected_again, spawn_reader. simpl. rewrite (lk_group _ Hok).
  set (rs := dict_set (l_fresh s) Spawned (l_readers s)).
  assert (Hwf : dict_wf rs) by (apply dict_wf_set, Hok).
  assert (Hfresh : forall i ph, dict_get i rs = Some ph -> (i < S (l_fresh s))%nat).
  { intros i ph. unfold rs. rewrite dict_get_set. case_decide; [lia|]. intros ?%(lk_fresh _ Hok). lia. }
  assert (Herr : forall i n, dict_get i rs = Some (Reading n) -> 0 <= n < MAX_CONSECUTIVE_READ_ERRORS).
  { intros i m. unfold rs. rewrite dict_get_set. case_decide; [done|]. apply Hok. }
  assert (Hw : forall s', l_connected s' = true -> l_readers s' = rs -> recon_ok s' RRestoring).
  { intros s' Hc Hrs. split; [done|]. intros _. right. unfold watched. rewrite Hrs. apply dict_set_nonempty. }
  unfold heartbeat_restart. simpl. rewrite Hn.
  destruct (l_hb_scope s); simpl; destruct (l_hb_group s); simpl; split; simpl; eauto with ctrader;
    rewrite ?Hn, ?Hrec; simpl;
    try done; try (by apply Forall_singleton, Hw); try (intros j _; apply not_elem_of_nil);
    intros i ph Hi; specialize (Hfresh _ _ Hi); lia.
Qed.

Lemma reconnect_failed_ok att s l1 t l2 e :
  link_ok s -> l_tasks s = l1 ++ t :: l2 -> link_ok (reconnect_failed att e (set_tasks (task_at l1 None l2) s)).
Proof.
  intros Hok Ht. destruct (single_task _ _ _ _ Hok Ht) as (-> & -> & Hn & Hrec & _).
  unfold reconnect_failed, abandon.
  case_bool_decide; (split; simpl; eauto with ctrader; [by rewrite Hn|done]).
Qed.

Lemma told_ok s d :
  link_ok s -> d ∈ l_notifying s -> link_ok (spawn_reconnect d s) /\ l_notifying (spawn_reconnect d s) = [].
Proof.
  intros Hok Hd. destruct (single_detector _ _ Hok Hd) as (Hn & Ht & Hrec).
  assert (Hnil : filter (fun d' => d' ≠ d) (l_notifying s) = []).
  { rewrite Hn, filter_cons_False; [done|]. by intros []. }
  unfold spawn_reconnect. rewrite Hnil, Ht. split; [|done].
  split; simpl; rewrite ?Hrec; eauto with ctrader; try done; try (by apply Forall_singleton).
  intros j _. apply not_elem_of_nil.
Qed.

Lemma read_error_ok s i n e s' :
  link_ok s -> dict_get i (l_readers s) = Some (Reading n) -> e ≠ Cancelled ->
  (forall r c, e = CTraderConnectionClosedError r c -> l_connected s = false) ->
  s' = match reader_verdict (l_running s) n e with
       | VRetry n' => set_readers (l_scope s) (dict_set i (Reading n') (l_readers s)) s
       | VExit => set_readers (l_scope s) (dict_pop i (l_readers s)) s
       | VReport =>
           let '(notify, s') := handle_disconnect (set_readers (l_scope s) (dict_pop i (l_readers s)) s) in
           if notify then set_notifying (l_notifying s' ++ [DReader i]) s' else s'
       end ->
  link_ok s'.
Proof.
  intros Hok Hi Hc Hclosed ->. pose proof (lk_errors _ Hok _ _ Hi) as Hn.
  destruct (reader_verdict (l_running s) n e) eqn:Hv.
  - apply reader_verdict_report in Hv.
    (* the reader leaves; until the mark is set the invariant is the old one's *)
    unfold handle_disconnect, l_running in *. simpl. rewrite Hv. simpl. rewrite (lk_group _ Hok). simpl.
    destruct (l_reconnecting s) eqn:Hrec.
    + pose proof (lk_single _ Hok) as Hs. rewrite Hrec in Hs.
      split; simpl; eauto with ctrader; [|done].
      eapply Forall_impl; [apply Hok|]. intros t. apply recon_ok_mono; simpl; auto.
    + destruct (idle _ Hok Hrec) as [Hnil Ht].
      split; simpl; eauto with ctrader; rewrite ?Hnil, ?Ht; try done.
      simpl. by intros j _ ?%list_elem_of_singleton.
  - apply readers_ok; eauto with ctrader. intros Hrun Hcon.
    destruct (reader_verdict_exit _ _ _ Hc Hv) as [?|(r & c & He)]; [congruence|].
    by rewrite (Hclosed _ _ He) in Hcon.
  - apply readers_ok; eauto with ctrader; [|intros _ _; apply dict_set_nonempty].
    intros j m. eapply readers_set_errors; [done|]. by eapply reader_verdict_retry.
Qed.

Lemma lstep_ok `{!StopStrategies} att host port s l s' :
  link_ok s -> lstep att host port s l s' -> link_ok s'.
Proof.
  intros Hok Hstep. destruct Hstep as [s i Hi|s i n pm inner Hi Hcon|s i n e Hi Hc Hclosed|s i Hi|s j Hj|s j Hj|s j Hj Hrun Hcon|
    s j Hj|s l1 l2 Ht|s l1 l2 Ht Hatt|s l1 l2 e Ht Hatt He|s l1 l2 n Ht|s l1 l2 n Ht Hgive|
    s l1 l2 n cause e Ht Hgive He|s l1 l2 n Ht|s l1 l2 Ht|s l1 l2 Ht|s].
  - destruct (l_running s) eqn:Hrun.
    + apply readers_ok; eauto with ctrader; [|intros _ _; apply dict_set_nonempty].
      intros j m. eapply readers_set_errors; [done|unfold MAX_CONSECUTIVE_READ_ERRORS; lia].
    + apply readers_ok; eauto with ctrader. congruence.
  - apply proto_ok.
    + destruct (l_running s) eqn:Hrun.
      * apply readers_ok; eauto with ctrader; [|intros _ _; apply dict_set_nonempty].
        intros j m. eapply readers_set_errors; [done|unfold MAX_CONSECUTIVE_READ_ERRORS; lia].
      * apply readers_ok; eauto with ctrader. congruence.
    + unfold dispatch_message, l_running. simpl. by case_match.
  - by eapply read_error_ok.
  - by apply told_ok.
  - destruct (told_ok _ _ Hok Hj) as [Hok' Hnil]. apply heartbeat_exit_ok; [done|].
    rewrite Hnil. apply not_elem_of_nil.
  - by apply hb_ok.
  - done.
  - pose proof (handle_disconnect_ok s Hok) as Hd. destruct (handle_disconnect s) as [[] s'].
    + destruct Hd as [Hrec ->]. simpl.
      apply (new_detector_ok (set_hb (l_hb_group s) (l_hb_scope s) (filter (fun j' => j' ≠ j) (l_hbs s)) s));
        [apply hb_ok; eauto with ctrader|done|].
      simpl. intros j' [Hne _]%list_elem_of_filter. congruence.
    + destruct Hd as [Hok' Hn]. apply heartbeat_exit_ok; [done|]. rewrite Hn. by apply lk_hbs.
  - by eapply begin_pass_ok.
  - eapply move_task_ok; [done|done|]. simpl. lia.
  - by eapply reconnect_failed_ok.
  - by eapply connected_again_ok.
  - eapply move_task_ok; [done|done|]. by destruct (single_task _ _ _ _ Hok Ht) as (_ & _ & _ & _ & ?).
  - by eapply reconnect_failed_ok.
  - eapply move_task_ok; [done|done|]. destruct (single_task _ _ _ _ Hok Ht) as (_ & _ & _ & _ & Hr).
    simpl in *. lia.
  - destruct (single_task _ _ _ _ Hok Ht) as (-> & -> & Hn & Hrec & Hcon & Hw).
    destruct (l_redo s) eqn:Hredo; [by eapply move_task_ok|].
    split; simpl; eauto with ctrader; [by rewrite Hn|].
    intros Hrun _. split; [done|]. by destruct (Hw Hrun).
  - by eapply begin_pass_ok.
  - apply proto_ok; [done|]. done.
Qed.

Lemma link_start_ok p : link_ok (link_start p).
Proof.
  assert (Hget : forall i ph, dict_get i (l_readers (link_start p)) = Some ph -> i = 0%nat /\ ph = Spawned).
  { intros i ph. simpl. case_decide; naive_solver. }
  split; try done.
  - apply NoDup_singleton.
  - intros i ph [-> _]%Hget. simpl. lia.
  - intros j _. apply not_elem_of_nil.
  - by intros i n [_ ?]%Hget.
Qed.

Lemma lreachable_ok `{!StopStrategies} att host port tr s : lreachable att host port tr s -> link_ok s.
Proof. induction 1; [apply link_start_ok|by eapply lstep_ok]. Qed.

(** The attempts of a pass are numbered from one, and the next one is only made when the
    strategy did not stop after the last. *)
Definition attempt_ok `{!StopStrategies} (att : option Z) (t : recon) : Prop :=
  match t with
  | RConnecting n => att ≠ Some 0 /\ 1 <= n /\ (1 < n -> attempts_spent att (n - 1) = false)
  | RBackoff n => att ≠ Some 0 /\ 1 <= n /\ attempts_spent att n = false
  | _ => True
  end.

Lemma task_at_ok (P : recon -> Prop) l1 t l2 t' :
  Forall P (l1 ++ t :: l2) -> (forall t0, t' = Some t0 -> P t0) -> Forall P (task_at l1 t' l2).
Proof.
  intros [H1 [_ H2]%Forall_cons]%Forall_app Ht. unfold task_at. rewrite !Forall_app.
  split_and!; [done| |done]. destruct t'; [|by constructor]. apply Forall_singleton. auto.
Qed.

Lemma lreachable_attempts `{!StopStrategies} att host port tr s :
  lreachable att host port tr s -> Forall (attempt_ok att) (l_tasks s).
Proof.
  induction 1 as [p|tr s l s' Hs IH Hstep]; [by constructor|].
  destruct Hstep as [| |s i n e Hi Hc Hclosed| | | | |s j Hj|s l1 l2 Ht|s l1 l2 Ht Hatt|s l1 l2 e Ht Hatt He|
    s l1 l2 n Ht|s l1 l2 n Ht Hgive|s l1 l2 n cause e Ht Hgive He|s l1 l2 n Ht|s l1 l2 Ht|s l1 l2 Ht|];
    simpl; auto.
  - destruct (reader_verdict _ _ _); simpl; auto. unfold handle_disconnect.
    repeat (case_match; simplify_eq/=; auto).
  - apply Forall_app. split; [done|]. by constructor.
  - unfold heartbeat_exit. simpl. destruct (_ && _); simpl; apply Forall_app; (split; [done|by constructor]).
  - unfold handle_disconnect, heartbeat_exit. repeat (case_match; simplify_eq/=; auto).
  - rewrite Ht in IH. by eapply task_at_ok; [|intros t [= <-]].
  - rewrite Ht in IH. eapply task_at_ok; [done|]. intros t [= <-]. simpl. split_and!; [done|lia..].
  - rewrite Ht in IH. unfold reconnect_failed, abandon. case_bool_decide; simpl; by eapply task_at_ok.
  - rewrite Ht in IH. by eapply task_at_ok; [|intros t [= <-]].
  - rewrite Ht in IH. eapply task_at_ok; [done|]. intros t [= <-]. simpl.
    apply Forall_app in IH as [_ [(? & ? & _) _]%Forall_cons]. done.
  - rewrite Ht in IH. unfold reconnect_failed, abandon. case_bool_decide; simpl; by eapply task_at_ok.
  - rewrite Ht in IH. eapply task_at_ok; [done|]. intros t [= <-]. simpl.
    apply Forall_app in IH as [_ [(? & ? & ?) _]%Forall_cons]. split_and!; [done|lia|]. intros _. by rewrite Z.add_simpl_r.
  - rewrite Ht in IH. destruct (l_redo s); simpl; eapply task_at_ok; try done. by intros t [= <-].
  - rewrite Ht in IH. by eapply task_at_ok; [|intros t [= <-]].
Qed.

(** The labels of a run that stand for a drop of the link and for a new connection. *)
Definition is_drop (l : llabel) : bool := match l with LReadError _ _ => true | _ => false end.
Definition is_connection (l : llabel) : bool := match l with LConnect _ ok => ok | _ => false end.

(** A heartbeat whose [serve] ended stays ended. *)
Definition heartbeat_dead (s : link) : Prop := l_hb_group s = false /\ l_hbs s = [].

Lemma handle_disconnect_hb s : l_hb_group (handle_disconnect s).2 = l_hb_group s /\ l_hbs (handle_disconnect s).2 = l_hbs s.
Proof. unfold handle_disconnect. by repeat case_match. Qed.

Lemma lstep_heartbeat_dead `{!StopStrategies} att host port s l s' :
  heartbeat_dead s -> lstep att host port s l s' -> heartbeat_dead s'.
Proof.
  intros [Hg Hl] Hstep.
  destruct Hstep as [| |s i n e Hi Hc Hclosed| |s j Hj|s j Hj|s j Hj Hrun Hcon|s j Hj| | | |s l1 l2 n Ht| | | |s l1 l2 Ht| |];
    try done; try (rewrite Hl in Hj; by apply not_elem_of_nil in Hj).
  - destruct (reader_verdict _ _ _); [|done..]. unfold handle_disconnect.
    repeat (case_match; simplify_eq/=; try done).
  - unfold heartbeat_exit, heartbeat_dead. simpl. rewrite Hg, Hl. done.
  - unfold begin_pass, cancel_reader. simpl. by destruct (l_scope s).
  - unfold reconnect_failed, abandon. by case_bool_decide.
  - unfold connected_again, spawn_reader, heartbeat_restart, heartbeat_dead. simpl.
    destruct (l_group s); simpl; destruct (l_hb_scope s); simpl; rewrite Hg, ?Hl; simpl; rewrite ?Hl; done.
  - unfold reconnect_failed, abandon. by case_bool_decide.
  - by destruct (l_redo s).
  - unfold begin_pass, cancel_reader. simpl. by destruct (l_scope s).
Qed.

Lemma heartbeat_dead_forever `{!StopStrategies} att host port s s' :
  heartbeat_dead s -> rtc (fun s1 s2 => exists l, lstep att host port s1 l s2) s s' -> heartbeat_dead s'.
Proof. intros Hdead Hrtc. induction Hrtc as [|s1 s2 s3 [l Hl] _ IH]; eauto using lstep_heartbeat_dead. Qed.

(** *** Progress of the reconnection *)

Section progress.
Context `{!StopStrategies} (att : option Z) (host : string) (port : Z).

(** A run of several steps. *)
Inductive lsteps : link -> list llabel -> link -> Prop :=
  | lsteps_nil s : lsteps s [] s
  | lsteps_cons s l s' tr s'' : lstep att host port s l s' -> lsteps s' tr s'' -> lsteps s (l :: tr) s''.

Lemma lsteps_reachable tr0 s tr s' :
  lreachable att host port tr0 s -> lsteps s tr s' -> lreachable att host port (tr0 ++ tr) s'.
Proof.
  intros Hs Hrun. revert tr0 Hs. induction Hrun as [s|s l s' tr s'' Hl _ IH]; intros tr0 Hs; [by rewrite app_nil_r|].
  specialize (IH (tr0 ++ [l])). rewrite <-app_assoc in IH. apply IH. by eapply lreachable_step.
Qed.

(** The steps of the reconnection itself, when connecting succeeds. *)
Definition is_recovery (l : llabel) : bool :=
  match l with
  | LTold _ | LPass | LClosed | LBackoff _ | LRestored | LLostAgain => true
  | LConnect _ ok => ok
  | _ => false
  end.

(** The reconnection, left to itself, is over within [n] steps. *)
Definition settles (n : nat) (s : link) : Prop :=
  exists tr s', (length tr <= n)%nat /\ lsteps s tr s' /\ Forall (fun l => is_recovery l = true) tr /\
    l_running s' = true /\ l_reconnecting s' = false.

Lemma settles_step n s l s' : lstep att host port s l s' -> is_recovery l = true -> settles n s' -> settles (S n) s.
Proof.
  intros Hl Hr (tr & s'' & Hn & Hrun & Htr & Hs''). exists (l :: tr), s''.
  split_and!; [cbn; lia|by econstructor|by constructor|by destruct Hs''..].
Qed.

Lemma settles_weaken m n s : (m <= n)%nat -> settles m s -> settles n s.
Proof. intros Hmn (tr & s' & Hn & Hrest). exists tr, s'. split; [lia|done]. Qed.

Lemma connected_again_same s :
  l_running (connected_again s) = l_running s /\ l_redo (connected_again s) = l_redo s.
Proof.
  unfold connected_again, heartbeat_restart, spawn_reader. cbn. destruct (l_group s); cbn;
    destruct (l_hb_scope s); cbn; by destruct (l_hb_group s).
Qed.

Lemma begin_pass_same s : l_running (begin_pass s) = l_running s /\ l_redo (begin_pass s) = false.
Proof. unfold begin_pass, cancel_reader. cbn. by destruct (l_scope s). Qed.

(** From each point of a pass, when no drop was reported meanwhile. *)
Lemma restoring_settles s : l_tasks s = [RRestoring] -> l_running s = true -> l_redo s = false -> settles 1 s.
Proof.
  intros Ht Hr Hd. eapply (settles_step 0); [by apply (lstep_restored _ _ _ _ [] [])|done|].
  rewrite Hd. eexists [], _. split_and!; [done|constructor|by constructor|done|done].
Qed.

Lemma connecting_settles s n : l_tasks s = [RConnecting n] -> l_running s = true -> l_redo s = false -> settles 2 s.
Proof.
  intros Ht Hr Hd. eapply (settles_step 1); [by apply (lstep_connect_ok _ _ _ _ [] [] n)|done|].
  destruct (connected_again_same s) as [Hr' Hd']. apply restoring_settles; [done|by rewrite <-Hr|by rewrite <-Hd].
Qed.

Lemma closing_settles s : att ≠ Some 0 -> l_tasks s = [RClosing] -> l_running s = true -> l_redo s = false -> settles 3 s.
Proof.
  intros Ha Ht Hr Hd. eapply (settles_step 2); [by apply (lstep_closed _ _ _ _ [] [])|done|].
  by apply (connecting_settles _ 1).
Qed.

(** A new pass forgets the reports so far. *)
Lemma lost_settles s : att ≠ Some 0 -> l_tasks s = [RLost] -> l_running s = true -> settles 4 s.
Proof.
  intros Ha Ht Hr. eapply (settles_step 3); [by apply (lstep_lost_again _ _ _ _ [] [])|done|].
  destruct (begin_pass_same s) as [Hr' Hd]. apply closing_settles; [done|done|by rewrite <-Hr|done].
Qed.

Lemma start_settles s : att ≠ Some 0 -> l_tasks s = [RStart] -> l_running s = true -> settles 4 s.
Proof.
  intros Ha Ht Hr. eapply (settles_step 3); [by apply (lstep_pass _ _ _ _ [] [])|done|].
  destruct (begin_pass_same s) as [Hr' Hd]. apply closing_settles; [done|done|by rewrite <-Hr|done].
Qed.

(** With a report pending the pass is followed by another. *)
Lemma restoring_settles_redo s : att ≠ Some 0 -> l_tasks s = [RRestoring] -> l_running s = true -> settles 5 s.
Proof.
  intros Ha Ht Hr. destruct (l_redo s) eqn:Hd; [|by apply (settles_weaken 1); [lia|apply restoring_settles]].
  eapply (settles_step 4); [by apply (lstep_restored _ _ _ _ [] [])|done|]. rewrite Hd. by apply lost_settles.
Qed.

Lemma connecting_settles_redo s n : att ≠ Some 0 -> l_tasks s = [RConnecting n] -> l_running s = true -> settles 6 s.
Proof.
  intros Ha Ht Hr. eapply (settles_step 5); [by apply (lstep_connect_ok _ _ _ _ [] [] n)|done|].
  destruct (connected_again_same s) as [Hr' _]. apply restoring_settles_redo; [done|done|by rewrite <-Hr].
Qed.

(** From wherever the one reconnection is. *)
Lemma reconnecting_settles s :
  att ≠ Some 0 -> link_ok s -> l_running s = true -> l_reconnecting s = true -> settles 7 s.
Proof.
  intros Ha Hok Hr Hrec. pose proof (lk_single _ Hok) as Hs. rewrite Hrec in Hs.
  destruct (l_tasks s) as [|t [|]] eqn:Ht; cbn in Hs; [|clear Hs|lia].
  - destruct (l_notifying s) as [|d [|]] eqn:Hn; cbn in Hs; try lia. apply (settles_weaken 5); [lia|].
    assert (Hd : d ∈ l_notifying s) by (rewrite Hn; apply list_elem_of_here).
    destruct d as [i|j]; (eapply (settles_step 4); [by constructor|done|]).
    + apply start_settles; [done|by cbn; rewrite Ht|done].
    + unfold heartbeat_exit. cbn. destruct (_ && _); apply start_settles; cbn; rewrite ?Ht; done.
  - destruct t as [| |n|n| |].
    + apply (settles_weaken 4); [lia|by apply start_settles].
    + eapply (settles_step 6); [by apply (lstep_closed _ _ _ _ [] [])|done|]. by apply (connecting_settles_redo _ 1).
    + apply (settles_weaken 6); [lia|by apply (connecting_settles_redo _ n)].
    + eapply (settles_step 6); [by apply (lstep_backoff _ _ _ _ [] [] n)|done|]. by apply (connecting_settles_redo _ (n + 1)).
    + apply (settles_weaken 5); [lia|by apply restoring_settles_redo].
    + apply (settles_weaken 4); [lia|by apply lost_settles].
Qed.
End progress.

(** Extend a run by one step. *)
Ltac advance Hs t := eapply lreachable_step in Hs; [|t]; cbn in Hs.

(** ** Properties *)

(** C1. The link is never silently lost: in every reachable state, as long as the protocol is
    running, either the transport is connected and a reader is there to notice the next
    drop, or exactly one reconnection is in flight, as the task that tells the listener or
    as the reconnection task, never two; however readers, heartbeats and reconnections
    interleave, and however often the link drops while it is being restored. *)
Theorem link_never_stranded `{!StopStrategies} (att : option Z) (host : string) (port : Z)
    (tr : list llabel) (s : link) (Hs : lreachable att host port tr s) (Hrun : l_running s = true) :
  (l_reconnecting s = false /\ l_connected s = true /\ watched s /\ l_notifying s = [] /\ l_tasks s = []) \/
  (l_reconnecting s = true /\ (length (l_notifying s) + length (l_tasks s) = 1)%nat).
Proof. apply link_ok_served; [by eapply lreachable_ok|done]. Qed.

(** C7. The link comes back. In every reachable state of a protocol that is running and is not
    configured without reconnection, no step is missing: left to itself, and with the next
    attempt to connect succeeding, the reconnection in flight runs to its end in at most
    seven steps, whatever had happened before and whichever reports are still pending, and
    then the transport is connected, a reader watches it and nothing is in flight. *)
Theorem reconnection_completes `{!StopStrategies} (att : option Z) (host : string) (port : Z)
    (tr : list llabel) (s : link) (Hs : lreachable att host port tr s) (Hrun : l_running s = true) (Hatt : att ≠ Some 0) :
  exists tr' s', (length tr' <= 7)%nat /\ Forall (fun l => is_recovery l = true) tr' /\
    lsteps att host port s tr' s' /\
    l_running s' = true /\ l_connected s' = true /\ watched s' /\
    l_reconnecting s' = false /\ l_notifying s' = [] /\ l_tasks s' = [].
Proof.
  assert (Hsettles : settles att host port 7 s).
  { destruct (l_reconnecting s) eqn:Hrec; [by apply reconnecting_settles; [|eapply lreachable_ok|..]|].
    exists [], s. split_and!; [cbn; lia|constructor|by constructor|done|done]. }
  destruct Hsettles as (tr' & s' & Hn & Hrun' & Htr & Hr' & Hrec'). exists tr', s'.
  pose proof (lreachable_ok _ _ _ _ _ (lsteps_reachable _ _ _ _ _ _ _ Hs Hrun')) as Hok.
  destruct (lk_watched _ Hok Hr' Hrec'), (idle _ Hok Hrec'). by split_and!.
Qed.

(** C37. Giving up: the client abandons only when reconnection is disabled, or after exactly
    the configured number of failed attempts; without a limit it never does. When it does,
    the protocol is stopped, every request that was in flight, and no other, is resolved
    with a connection-closed error, its caller's event set, and the error that leaves the task group is [CTraderReconnectAbandonedError], except that a
    client configured without reconnection just stops. *)
Theorem abandon_only_when_spent `{!StopStrategies, !LawfulStops} (att : option Z) (host : string) (port : Z)
    (tr : list llabel) (s s' : link) (e : exn)
    (Hs : lreachable att host port tr s) (Hstep : lstep att host port s (LAbandon e) s')
    (Hatt : forall b, att = Some b -> 0 <= b) :
  (exists b, att = Some b /\
    (b = 0 \/ exists cause, e = CTraderConnectionFailedError host port (Some cause) /\ RConnecting b ∈ l_tasks s)) /\
  l_running s' = false /\ l_reconnecting s' = false /\
  (forall id,
     match dict_get id (pending (l_proto s)) with
     | Some _ => exists pr, dict_get id (pending (l_proto s')) = Some pr /\ event_is_set pr = true /\
         req_outcome pr = Some (Err (CTraderConnectionClosedError (Some "connection lost and reconnection failed") false))
     | None => dict_get id (pending (l_proto s')) = None
     end) /\
  l_crash s' = (if bool_decide (att = Some 0) then l_crash s
                else Some (CTraderReconnectAbandonedError "connection lost and reconnection failed" (Some e))).
Proof.
  pose proof (lreachable_attempts _ _ _ _ _ Hs) as Hn.
  assert (Hpend : forall reason p id,
    match dict_get id (pending p) with
    | Some _ => exists pr, dict_get id (pending (fail_pending reason (with_running false p))) = Some pr /\
        event_is_set pr = true /\ req_outcome pr = Some (Err (CTraderConnectionClosedError (Some reason) false))
    | None => dict_get id (pending (fail_pending reason (with_running false p))) = None
    end).
  { intros reason p id. simpl. rewrite dict_get_map. destruct (dict_get id (pending p)); [|done]. simpl. eauto. }
  inversion Hstep as [| | | | | | | | | |? l1 l2 ? Ht Hatt0 He| | |? l1 l2 n cause ? Ht Hgive He| | | |]; subst.
  - unfold reconnect_failed, abandon. split_and!; [exists 0; auto|by case_bool_decide..| |by case_bool_decide].
    case_bool_decide; simpl; apply Hpend.
  - rewrite Ht in Hn. apply Forall_app in Hn as [_ [(Hatt0 & Hn1 & Hprev) _]%Forall_cons].
    assert (att = Some n) as ->.
    { unfold attempts_spent in Hgive, Hprev. destruct att as [b|]; [|by rewrite stop_never_spec in Hgive].
      rewrite stop_after_attempt_spec in Hgive. apply bool_decide_eq_true in Hgive. f_equal.
      destruct (decide (1 < n)) as [H1|H1].
      - specialize (Hprev H1). rewrite stop_after_attempt_spec in Hprev.
        apply bool_decide_eq_false in Hprev. lia.
      - specialize (Hatt b eq_refl). assert (b ≠ 0) by congruence. lia. }
    unfold reconnect_failed, abandon. rewrite bool_decide_false by done.
    split_and!; [|done|done|apply Hpend|done].
    exists n. split; [done|]. right. exists cause. split; [done|]. rewrite Ht. apply elem_of_app. right.
    apply list_elem_of_here.
Qed.

(** The reader's error policy: a framing error or the end of the stream is reported as a
    drop at once, a stale reader leaves quietly, and any other exception is survived, with a
    pause, until the tenth in a row, which is reported; so in every reachable state each
    reader has failed fewer than ten times in a row. *)
Theorem reader_error_policy `{!StopStrategies} (att : option Z) (host : string) (port : Z)
    (tr : list llabel) (s : link) (i : nat) (n : Z) (e : exn)
    (Hs : lreachable att host port tr s) (Hi : dict_get i (l_readers s) = Some (Reading n))
    (He : e ≠ Cancelled) :
  0 <= n < MAX_CONSECUTIVE_READ_ERRORS /\
  reader_verdict true n e =
    match e with
    | FramingError _ _ | ClosedResourceError | EndOfStream | BrokenResourceError => VReport
    | CTraderConnectionClosedError _ _ => VExit
    | _ => if bool_decide (n = 9) then VReport else VRetry (n + 1)
    end.
Proof.
  pose proof (lk_errors _ (lreachable_ok _ _ _ _ _ Hs) _ _ Hi) as Hn. split; [done|].
  unfold MAX_CONSECUTIVE_READ_ERRORS in Hn.
  assert (Hgen : (if MAX_CONSECUTIVE_READ_ERRORS <=? n + 1 then VReport else VRetry (n + 1)) =
    if bool_decide (n = 9) then VReport else VRetry (n + 1)).
  { unfold MAX_CONSECUTIVE_READ_ERRORS. destruct (Z.leb_spec 10 (n + 1)); case_bool_decide; done || lia. }
  by destruct e.
Qed.

(** C38. A consequence of how [serve] ends: an outage that a heartbeat loop notices, by its
    own timeout or because its write fails on the closed transport, ends the heartbeat for
    good. There is a run with one drop of the link in which the client is back, running and
    connected; but the heartbeat reported the drop that was being repaired, so the repaired
    link was closed and connected a second time, and in no continuation of the run, however
    long, does a heartbeat loop exist again, restarts included. *)
Theorem heartbeat_lost_after_outage `{!StopStrategies} (host : string) (port : Z) :
  exists tr s, lreachable None host port tr s /\
    l_running s = true /\ l_connected s = true /\ l_reconnecting s = false /\ watched s /\
    length (filter (fun l => is_drop l = true) tr) = 1%nat /\
    length (filter (fun l => is_connection l = true) tr) = 2%nat /\
    forall s', rtc (fun s1 s2 => exists l, lstep None host port s1 l s2) s s' -> l_hbs s' = [].
Proof.
  pose proof (lreachable_start None host port new_protocol) as Hs.
  advance Hs ltac:(eapply (lstep_reader_start _ _ _ _ 0); reflexivity).
  advance Hs ltac:(apply (lstep_hb_start _ _ _ _ 1); apply list_elem_of_here).
  advance Hs ltac:(eapply (lstep_read_error _ _ _ _ 0 0 EndOfStream); [reflexivity|done|done]).
  advance Hs ltac:(apply (lstep_told_reader _ _ _ _ 0); apply list_elem_of_here).
  advance Hs ltac:(by eapply (lstep_pass _ _ _ _ [] [])).
  advance Hs ltac:(by eapply (lstep_closed _ _ _ _ [] [])).
  advance Hs ltac:(apply (lstep_hb_report _ _ _ _ 1); apply list_elem_of_here).
  advance Hs ltac:(by eapply (lstep_connect_ok _ _ _ _ [] [])).
  advance Hs ltac:(by eapply (lstep_restored _ _ _ _ [] [])).
  advance Hs ltac:(by eapply (lstep_lost_again _ _ _ _ [] [])).
  advance Hs ltac:(by eapply (lstep_closed _ _ _ _ [] [])).
  advance Hs ltac:(by eapply (lstep_connect_ok _ _ _ _ [] [])).
  advance Hs ltac:(by eapply (lstep_restored _ _ _ _ [] [])).
  eexists _, _. split; [exact Hs|].
  split_and!; [done..|]. intros s' Hrtc.
  refine (proj2 (heartbeat_dead_forever None host port _ _ _ Hrtc)). by vm_compute.
Qed.

(** ** Witnesses *)

Module Tenacity.
#[export] Instance stops : StopStrategies := {|
  stop_never _ := false;
  stop_after_attempt budget n := budget <=? n;
|}.

Lemma stop_after_attempt_bool (budget n : Z) : (budget <=? n) = bool_decide (budget <= n).
Proof. by case_bool_decide; [apply Z.leb_le|apply Z.leb_gt; lia]. Qed.

#[export] Instance lawful_stops : LawfulStops := {|
  stop_never_spec _ := eq_refl;
  stop_after_attempt_spec := stop_after_attempt_bool;
|}.
End Tenacity.
Import Tenacity.

Lemma link_never_stranded_witness :
  l_connected (link_start new_protocol) = true /\ watched (link_start new_protocol).
Proof.
  destruct (link_never_stranded None "demo.ctraderapi.com" 5035 [] (link_start new_protocol)
    (lreachable_start _ _ _ _) eq_refl) as [(_ & Hc & Hw & _)|[H _]]; [exact (conj Hc Hw)|discriminate H].
Defined.

(** A client with a budget of one attempt and a request in flight, up to that attempt. *)
Definition waiting_protocol : Protocol :=
  mk_protocol (mk_id_generator 1) [("1", mk_pending_request false None)] [] false.

Lemma one_attempt_run :
  exists tr s, lreachable (Some 1) "demo.ctraderapi.com" 5035 tr s /\ l_tasks s = [RConnecting 1] /\
    dict_get "1" (pending (l_proto s)) = Some (mk_pending_request false None).
Proof.
  pose proof (lreachable_start (Some 1) "demo.ctraderapi.com" 5035 waiting_protocol) as Hs.
  advance Hs ltac:(eapply (lstep_reader_start _ _ _ _ 0); reflexivity).
  advance Hs ltac:(eapply (lstep_read_error _ _ _ _ 0 0 EndOfStream); [reflexivity|done|done]).
  advance Hs ltac:(apply (lstep_told_reader _ _ _ _ 0); apply list_elem_of_here).
  advance Hs ltac:(by eapply (lstep_pass _ _ _ _ [] [])).
  advance Hs ltac:(by eapply (lstep_closed _ _ _ _ [] [])).
  eexists _, _. split_and!; [exact Hs|done|done].
Qed.

(** The reader meets the end of the stream. *)
Lemma reconnection_completes_witness (s1 := (set_readers (Some 0%nat) [(0%nat, Reading 0)] (link_start new_protocol)))
    (s2 := set_notifying [DReader 0] (handle_disconnect (set_readers (Some 0%nat) [] s1)).2) :
  lreachable None "demo.ctraderapi.com" 5035 [LReaderStart 0; LReadError 0 EndOfStream] s2 /\
  exists tr' s', (length tr' <= 7)%nat /\ Forall (fun l => is_recovery l = true) tr' /\
    lsteps None "demo.ctraderapi.com" 5035 s2 tr' s' /\
    l_running s' = true /\ l_connected s' = true /\ watched s' /\
    l_reconnecting s' = false /\ l_notifying s' = [] /\ l_tasks s' = [].
Proof.
  assert (Hs : lreachable None "demo.ctraderapi.com" 5035 [LReaderStart 0; LReadError 0 EndOfStream] s2).
  { change [LReaderStart 0; LReadError 0 EndOfStream] with (([] ++ [LReaderStart 0]) ++ [LReadError 0 EndOfStream]).
    apply (lreachable_step _ _ _ _ s1).
    - apply (lreachable_step _ _ _ _ (link_start new_protocol)); [constructor|].
      exact (lstep_reader_start _ _ _ (link_start new_protocol) 0 eq_refl).
    - apply (lstep_read_error None "demo.ctraderapi.com" 5035 s1 0 0 EndOfStream eq_refl); done. }
  split; [exact Hs|].
  exact (reconnection_completes None "demo.ctraderapi.com" 5035 _ s2 Hs eq_refl ltac:(discriminate)).
Defined.

Lemma abandon_only_when_spent_witness :
  exists s s' e, lstep (Some 1) "demo.ctraderapi.com" 5035 s (LAbandon e) s' /\ l_running s' = false /\
    (exists pr, dict_get "1" (pending (l_proto s')) = Some pr /\ event_is_set pr = true /\
       req_outcome pr = Some (Err (CTraderConnectionClosedError (Some "connection lost and reconnection failed") false))) /\
    l_crash s' = Some (CTraderReconnectAbandonedError "connection lost and reconnection failed" (Some e)).
Proof.
  destruct one_attempt_run as (tr & s & Hs & Ht & Hpending).
  pose proof (lstep_connect_last (Some 1) "demo.ctraderapi.com" 5035 s [] [] 1 EndOfStream _ Ht eq_refl eq_refl) as Hstep.
  eexists s, _, _. split; [exact Hstep|].
  destruct (abandon_only_when_spent _ _ _ _ _ _ _ Hs Hstep) as (_ & H1 & _ & H2 & H3); [intros b [= <-]; lia|].
  split; [exact H1|]. split; [|exact H3]. specialize (H2 "1"). rewrite Hpending in H2. exact H2.
Defined.

Lemma reader_error_policy_witness :
  reader_verdict true 9 (DeserializationError 51 []) = VReport /\
  reader_verdict true 0 (DeserializationError 51 []) = VRetry 1.
Proof.
  split; [reflexivity|].
  pose proof (lreachable_start None "demo.ctraderapi.com" 5035 new_protocol) as Hs.
  advance Hs ltac:(eapply (lstep_reader_start _ _ _ _ 0); reflexivity).
  exact (proj2 (reader_error_policy _ _ _ _ _ 0 0 (DeserializationError 51 []) Hs eq_refl ltac:(discriminate))).
Defined.
