(* ===== verification/Events.v ===== *)
(** * The events the client publishes ([events/types.py])

    One constructor per event class, its fields in the order of the source. *)

From S2P Require Import Prelude Errors Enums Numbers Models.
From stdpp Require Import options.
Import AuthTrigger(auth_trigger) ExecutionType(execution_type) OrderSide(order_side).
Open Scope string_scope.
Open Scope Z_scope.

Record DepthQuote := mk_depth_quote { quote_id : Z; quote_price : Z; quote_size : Z; is_bid : bool }.

Inductive event :=
  | SpotEvent (account_id symbol_id : Z) (bid ask : option decimal) (trendbar : list Trendbar)
      (timestamp : datetime)
  | ExecutionEvent (account_id : Z) (etype : execution_type) (order_id : Z) (position_id : option Z)
      (symbol_id : Z) (side : order_side) (filled_volume : option Z) (fill_price : option decimal)
      (timestamp : datetime) (is_server_event : bool) (error_code : option string)
  | OrderErrorEvent (account_id : Z) (order_id position_id : option Z) (error_code description : string)
  | TraderUpdateEvent (account_id balance : Z) (leverage_in_cents : option Z) (money_digits : Z)
  | MarginChangeEvent (account_id position_id used_margin money_digits : Z)
  | DepthEvent (account_id symbol_id : Z) (new_quotes : list DepthQuote) (deleted_quote_ids : list Z)
  | TokenInvalidatedEvent (account_ids : list Z) (reason : string)
  | TokenRefreshFailedEvent (account_id : Z) (error : exn)
  | SubscriptionRestoreFailedEvent (account_id : Z) (error : exn)
  | ClientDisconnectEvent (reason : string)
  | AccountDisconnectEvent (account_id : Z)
  | SymbolChangedEvent (account_id : Z) (symbol_ids : list Z)
  | TrailingStopChangedEvent (account_id position_id order_id : Z) (stop_price : decimal) (timestamp : datetime)
  | MarginCallTriggerEvent (account_id margin_call_type : Z) (margin_level_threshold : decimal)
  | ReconnectedEvent (app_auth_restored : bool) (restored_accounts : list Z) (failed_accounts : list (Z * string))
  | ReadyEvent (account_id : Z) (trigger : auth_trigger).

(** The event classes. *)
Inductive event_type :=
  | TSpot | TExecution | TOrderError | TTraderUpdate | TMarginChange | TDepth | TTokenInvalidated
  | TTokenRefreshFailed | TSubscriptionRestoreFailed | TClientDisconnect | TAccountDisconnect
  | TSymbolChanged | TTrailingStopChanged | TMarginCallTrigger | TReconnected | TReady.

#[export] Instance event_type_eq_dec : EqDecision event_type.
Proof. solve_decision. Defined.

(** [type(event)] *)
Definition type_of (e : event) : event_type :=
  match e with
  | SpotEvent _ _ _ _ _ _ => TSpot
  | ExecutionEvent _ _ _ _ _ _ _ _ _ _ _ => TExecution
  | OrderErrorEvent _ _ _ _ _ => TOrderError
  | TraderUpdateEvent _ _ _ _ => TTraderUpdate
  | MarginChangeEvent _ _ _ _ => TMarginChange
  | DepthEvent _ _ _ _ => TDepth
  | TokenInvalidatedEvent _ _ => TTokenInvalidated
  | TokenRefreshFailedEvent _ _ => TTokenRefreshFailed
  | SubscriptionRestoreFailedEvent _ _ => TSubscriptionRestoreFailed
  | ClientDisconnectEvent _ => TClientDisconnect
  | AccountDisconnectEvent _ => TAccountDisconnect
  | SymbolChangedEvent _ _ => TSymbolChanged
  | TrailingStopChangedEvent _ _ _ _ _ => TTrailingStopChanged
  | MarginCallTriggerEvent _ _ _ => TMarginCallTrigger
  | ReconnectedEvent _ _ _ => TReconnected
  | ReadyEvent _ _ => TReady
  end.

Definition type_name (t : event_type) : string :=
  match t with
  | TSpot => "SpotEvent" | TExecution => "ExecutionEvent" | TOrderError => "OrderErrorEvent"
  | TTraderUpdate => "TraderUpdateEvent" | TMarginChange => "MarginChangeEvent" | TDepth => "DepthEvent"
  | TTokenInvalidated => "TokenInvalidatedEvent" | TTokenRefreshFailed => "TokenRefreshFailedEvent"
  | TSubscriptionRestoreFailed => "SubscriptionRestoreFailedEvent" | TClientDisconnect => "ClientDisconnectEvent"
  | TAccountDisconnect => "AccountDisconnectEvent" | TSymbolChanged => "SymbolChangedEvent"
  | TTrailingStopChanged => "TrailingStopChangedEvent" | TMarginCallTrigger => "MarginCallTriggerEvent"
  | TReconnected => "ReconnectedEvent" | TReady => "ReadyEvent"
  end.

(** The fields a subscription can filter by. *)
Inductive filter_field := FAccountId | FSymbolId.

Definition field_name (f : filter_field) : string :=
  match f with FAccountId => "account_id" | FSymbolId => "symbol_id" end.

(** [f in event_type.__dataclass_fields__] *)
Definition has_field (t : event_type) (f : filter_field) : bool :=
  match f, t with
  | FAccountId, (TTokenInvalidated | TClientDisconnect | TReconnected) => false
  | FAccountId, _ => true
  | FSymbolId, (TSpot | TExecution | TDepth) => true
  | FSymbolId, _ => false
  end.

(** [getattr(event, f, None)] *)
Definition field_of (f : filter_field) (e : event) : option Z :=
  match f, e with
  | FAccountId, (SpotEvent a _ _ _ _ _ | ExecutionEvent a _ _ _ _ _ _ _ _ _ _ | OrderErrorEvent a _ _ _ _
    | TraderUpdateEvent a _ _ _ | MarginChangeEvent a _ _ _ | DepthEvent a _ _ _ | TokenRefreshFailedEvent a _
    | SubscriptionRestoreFailedEvent a _ | AccountDisconnectEvent a | SymbolChangedEvent a _
    | TrailingStopChangedEvent a _ _ _ _ | MarginCallTriggerEvent a _ _ | ReadyEvent a _) => Some a
  | FSymbolId, (SpotEvent _ s _ _ _ _ | ExecutionEvent _ _ _ _ s _ _ _ _ _ _ | DepthEvent _ s _ _) => Some s
  | _, _ => None
  end.

(** [ReadyEvent.is_reconnect] *)
Definition is_reconnect (trigger : auth_trigger) : bool := negb (bool_decide (trigger = AuthTrigger.INITIAL)).

(** An event carries a field exactly when its class declares it. *)
Lemma has_field_of (f : filter_field) (e : event) :
  has_field (type_of e) f = true <-> is_Some (field_of f e).
Proof. destruct f, e; simpl; split; try done; by intros []. Qed.
