(* ===== verification/EventFields.v ===== *)
(** * The fields the events declare ([events/types.py])

    [Events] has the events with their values; here are the declarations of their classes, as
    data: what the emitter looks up by name ([__dataclass_fields__]) is looked up in them.
    The types of the fields are recorded, not checked. And what the events of a session's
    life carry. *)

From S2P Require Import Prelude Errors Enums Numbers Models Events.
From stdpp Require Import options.
Open Scope string_scope.
Open Scope list_scope.
Open Scope Z_scope.

(** ** Declarations *)

(** The annotations. *)
Inductive py_type :=
  | PInt | PStr | PBool | PDecimal | PDatetime
  | PClass (name : string)
  | POptional (t : py_type)
  | PList (t : py_type)
  | PTuple (t : py_type)        (* tuple[t, ...] *)
  | PPair (t1 t2 : py_type).    (* tuple[t1, t2] *)

Definition SpotEvent_declared : list (string * py_type) := [
  ("account_id", PInt); ("symbol_id", PInt); ("bid", POptional PDecimal); ("ask", POptional PDecimal);
  ("trendbar", PList (PClass "Trendbar")); ("timestamp", PDatetime)].
Definition ExecutionEvent_declared : list (string * py_type) := [
  ("account_id", PInt); ("execution_type", PClass "ExecutionType"); ("order_id", PInt);
  ("position_id", POptional PInt); ("symbol_id", PInt); ("side", PClass "OrderSide");
  ("filled_volume", POptional PInt); ("fill_price", POptional PDecimal); ("timestamp", PDatetime);
  ("is_server_event", PBool); ("error_code", POptional PStr)].
Definition OrderErrorEvent_declared : list (string * py_type) := [
  ("account_id", PInt); ("order_id", POptional PInt); ("position_id", POptional PInt);
  ("error_code", PStr); ("description", PStr)].
Definition TraderUpdateEvent_declared : list (string * py_type) := [
  ("account_id", PInt); ("balance", PInt); ("leverage_in_cents", POptional PInt);
  ("money_digits", PInt)].
Definition MarginChangeEvent_declared : list (string * py_type) := [
  ("account_id", PInt); ("position_id", PInt); ("used_margin", PInt); ("money_digits", PInt)].
Definition DepthEvent_declared : list (string * py_type) := [
  ("account_id", PInt); ("symbol_id", PInt); ("new_quotes", PTuple (PClass "DepthQuote"));
  ("deleted_quote_ids", PTuple PInt)].
Definition TokenInvalidatedEvent_declared : list (string * py_type) := [
  ("account_ids", PTuple PInt); ("reason", PStr)].
Definition TokenRefreshFailedEvent_declared : list (string * py_type) := [
  ("account_id", PInt); ("error", PClass "TokenRefreshError")].
Definition SubscriptionRestoreFailedEvent_declared : list (string * py_type) := [
  ("account_id", PInt); ("error", PClass "Exception")].
Definition ClientDisconnectEvent_declared : list (string * py_type) := [("reason", PStr)].
Definition AccountDisconnectEvent_declared : list (string * py_type) := [("account_id", PInt)].
Definition SymbolChangedEvent_declared : list (string * py_type) := [
  ("account_id", PInt); ("symbol_ids", PTuple PInt)].
Definition TrailingStopChangedEvent_declared : list (string * py_type) := [
  ("account_id", PInt); ("position_id", PInt); ("order_id", PInt); ("stop_price", PDecimal);
  ("timestamp", PDatetime)].
Definition MarginCallTriggerEvent_declared : list (string * py_type) := [
  ("account_id", PInt); ("margin_call_type", PInt); ("margin_level_threshold", PDecimal)].
Definition ReconnectedEvent_declared : list (string * py_type) := [
  ("app_auth_restored", PBool); ("restored_accounts", PTuple PInt);
  ("failed_accounts", PTuple (PPair PInt PStr))].
Definition ReadyEvent_declared : list (string * py_type) := [
  ("account_id", PInt); ("trigger", PClass "AuthTrigger")].

(** The fields a class declares, in order. *)
Definition declared (t : event_type) : list (string * py_type) :=
  match t with
  | TSpot => SpotEvent_declared
  | TExecution => ExecutionEvent_declared
  | TOrderError => OrderErrorEvent_declared
  | TTraderUpdate => TraderUpdateEvent_declared
  | TMarginChange => MarginChangeEvent_declared
  | TDepth => DepthEvent_declared
  | TTokenInvalidated => TokenInvalidatedEvent_declared
  | TTokenRefreshFailed => TokenRefreshFailedEvent_declared
  | TSubscriptionRestoreFailed => SubscriptionRestoreFailedEvent_declared
  | TClientDisconnect => ClientDisconnectEvent_declared
  | TAccountDisconnect => AccountDisconnectEvent_declared
  | TSymbolChanged => SymbolChangedEvent_declared
  | TTrailingStopChanged => TrailingStopChangedEvent_declared
  | TMarginCallTrigger => MarginCallTriggerEvent_declared
  | TReconnected => ReconnectedEvent_declared
  | TReady => ReadyEvent_declared
  end.

(** [f in event_type.__dataclass_fields__] *)
Definition declares (t : event_type) (name : string) : bool := existsb (String.eqb name) (declared t).*1.

(** ** Lifecycle events *)

(** What the tasks that look after the sessions publish, and what a consumer may rely on
    there: only the events of a session's life, never those of the market. The error of a
    failed refresh is a [TokenRefreshError], that of a failed restoration an [Exception];
    a reconnection whose application authentication failed lists no account; and an account
    is never announced as ready by the rotation of its tokens. *)
Definition sound_event (e : event) : Prop :=
  match e with
  | TokenRefreshFailedEvent _ (TokenRefreshError _ _) => True
  | SubscriptionRestoreFailedEvent _ x => is_Exception x = true
  | AccountDisconnectEvent _ => True
  | ReconnectedEvent app_auth_restored restored failed => app_auth_restored = false -> restored = [] /\ failed = []
  | ReadyEvent _ trigger => trigger ≠ AuthTrigger.TOKEN_REFRESH
  | _ => False
  end.

(** ** Lemmas *)

(** The fields filters look at are those of the declarations. *)
Lemma has_field_declared t f : has_field t f = declares t (field_name f).
Proof. by destruct t, f. Qed.
