(* ===== verification/Exports.v ===== *)
(** * What the packages export ([__init__.py] files)

    Each package re-exports names of its modules and lists them in [__all__]. Here the
    lists, and that they are what they claim: nothing missing, nothing twice, every
    generated class reachable, and everything a caller names exported at the top. *)

From S2P Require Import Prelude Errors Wire Schema Framing Messages Events.
From stdpp Require Import options.
Open Scope string_scope.
Open Scope list_scope.

(** A package: what it imports from which module, and its [__all__]. *)
Record package := mk_package { imports : list (string * list string); exports : list string }.

(** *** [__init__.py] *)

Definition root_imports : list (string * list string) := [
  (".auth", ["AccountCredentials"; "ReauthPolicy"; "RefreshPolicy"; "TokenStore"]);
  (".client", ["CTraderClient"]);
  (".config", ["ClientConfig"]);
  (".enums", [
     "AccessRights"; "AccountType"; "AuthTrigger"; "DealStatus"; "ExecutionType"; "OrderSide"; "OrderStatus";
     "OrderType"; "PositionStatus"; "StopTriggerMethod"; "TimeInForce"; "TradingMode"; "TrendbarPeriod"]);
  (".events", [
     "AccountDisconnectEvent"; "ClientDisconnectEvent"; "DepthEvent"; "DepthQuote"; "Event"; "ExecutionEvent";
     "MarginCallTriggerEvent"; "MarginChangeEvent"; "OrderErrorEvent"; "ReadyEvent"; "ReconnectedEvent";
     "SpotEvent"; "SubscriptionRestoreFailedEvent"; "SymbolChangedEvent"; "TokenInvalidatedEvent";
     "TokenRefreshFailedEvent"; "TraderUpdateEvent"; "TrailingStopChangedEvent"]);
  (".exceptions", [
     "AccountAuthError"; "AccountNotFoundError"; "APIError"; "ApplicationAuthError"; "AuthenticationError";
     "CTraderConnectionClosedError"; "CTraderConnectionError"; "CTraderConnectionFailedError";
     "CTraderConnectionTimeoutError"; "CTraderError"; "CTraderReconnectAbandonedError";
     "DeserializationError"; "FramingError"; "ProtocolError"; "TokenExpiredError"; "TokenRefreshError";
     "UnknownPayloadTypeError"]);
  (".models", [
     "Account"; "AccountSummary"; "AmendOrderRequest"; "AmendPositionRequest"; "CloseDetail";
     "ClosePositionRequest"; "Deal"; "NewOrderRequest"; "Order"; "Position"; "PositionUnrealizedPnL";
     "Symbol"; "SymbolInfo"; "TickData"; "Trendbar"])].

Definition root_all : list string := [
  "APIError"; "AccessRights"; "Account"; "AccountAuthError"; "AccountCredentials"; "AccountDisconnectEvent";
  "AccountNotFoundError"; "AccountSummary"; "AccountType"; "AmendOrderRequest"; "AmendPositionRequest";
  "ApplicationAuthError"; "AuthTrigger"; "AuthenticationError"; "CTraderClient";
  "CTraderConnectionClosedError"; "CTraderConnectionError"; "CTraderConnectionFailedError";
  "CTraderConnectionTimeoutError"; "CTraderError"; "CTraderReconnectAbandonedError"; "ClientConfig";
  "ClientDisconnectEvent"; "CloseDetail"; "ClosePositionRequest"; "Deal"; "DealStatus"; "DepthEvent";
  "DepthQuote"; "DeserializationError"; "Event"; "ExecutionEvent"; "ExecutionType"; "FramingError";
  "MarginCallTriggerEvent"; "MarginChangeEvent"; "NewOrderRequest"; "Order"; "OrderErrorEvent"; "OrderSide";
  "OrderStatus"; "OrderType"; "Position"; "PositionStatus"; "PositionUnrealizedPnL"; "ProtocolError";
  "ReadyEvent"; "ReauthPolicy"; "ReconnectedEvent"; "RefreshPolicy"; "SpotEvent"; "StopTriggerMethod";
  "SubscriptionRestoreFailedEvent"; "Symbol"; "SymbolChangedEvent"; "SymbolInfo"; "TickData"; "TimeInForce";
  "TokenExpiredError"; "TokenInvalidatedEvent"; "TokenRefreshError"; "TokenRefreshFailedEvent"; "TokenStore";
  "TraderUpdateEvent"; "TradingMode"; "TrailingStopChangedEvent"; "Trendbar"; "TrendbarPeriod";
  "UnknownPayloadTypeError"].

(** *** [api/__init__.py] *)

Definition api_imports : list (string * list string) := [
  (".accounts", ["AccountsAPI"]);
  (".market_data", ["MarketDataAPI"]);
  (".symbols", ["SymbolsAPI"]);
  (".trading", ["TradingAPI"])].

Definition api_all : list string := [
  "AccountsAPI"; "MarketDataAPI"; "SymbolsAPI"; "TradingAPI"].

(** *** [auth/__init__.py] *)

Definition auth_imports : list (string * list string) := [
  ("._recovery", ["SessionRecovery"]);
  ("._refresh", ["TokenRefresher"]);
  ("._session", ["SessionStore"]);
  (".credentials", ["AccountCredentials"]);
  (".manager", ["AuthManager"]);
  (".policy", ["ReauthPolicy"; "RefreshPolicy"]);
  (".store", ["TokenStore"])].

Definition auth_all : list string := [
  "AccountCredentials"; "AuthManager"; "ReauthPolicy"; "RefreshPolicy"; "SessionRecovery"; "SessionStore";
  "TokenRefresher"; "TokenStore"].

(** *** [connection/__init__.py] *)

Definition connection_imports : list (string * list string) := [
  (".heartbeat", ["HeartbeatManager"]);
  (".listener", ["ConnectionListener"]);
  (".protocol", ["Protocol"]);
  (".supervisor", ["ConnectionSupervisor"]);
  (".transport", ["Transport"])].

Definition connection_all : list string := [
  "ConnectionListener"; "ConnectionSupervisor"; "HeartbeatManager"; "Protocol"; "Transport"].

(** *** [events/__init__.py] *)

Definition events_imports : list (string * list string) := [
  (".emitter", ["EventEmitter"]);
  (".publisher", ["EventPublisher"]);
  (".router", ["EventRouter"]);
  (".types", [
     "AccountDisconnectEvent"; "ClientDisconnectEvent"; "DepthEvent"; "DepthQuote"; "Event"; "ExecutionEvent";
     "MarginCallTriggerEvent"; "MarginChangeEvent"; "OrderErrorEvent"; "ReadyEvent"; "ReconnectedEvent";
     "SpotEvent"; "SubscriptionRestoreFailedEvent"; "SymbolChangedEvent"; "TokenInvalidatedEvent";
     "TokenRefreshFailedEvent"; "TraderUpdateEvent"; "TrailingStopChangedEvent"])].

Definition events_all : list string := [
  "AccountDisconnectEvent"; "ClientDisconnectEvent"; "DepthEvent"; "DepthQuote"; "Event"; "EventEmitter";
  "EventPublisher"; "EventRouter"; "ExecutionEvent"; "MarginCallTriggerEvent"; "MarginChangeEvent";
  "OrderErrorEvent"; "ReadyEvent"; "ReconnectedEvent"; "SpotEvent"; "SubscriptionRestoreFailedEvent";
  "SymbolChangedEvent"; "TokenInvalidatedEvent"; "TokenRefreshFailedEvent"; "TraderUpdateEvent";
  "TrailingStopChangedEvent"].

(** *** [models/__init__.py] *)

Definition models_imports : list (string * list string) := [
  (".account", ["Account"; "AccountSummary"]);
  (".deal", ["CloseDetail"; "Deal"]);
  (".market_data", ["TickData"; "Trendbar"]);
  (".order", ["Order"]);
  (".position", ["Position"; "PositionUnrealizedPnL"]);
  (".requests", [
     "AmendOrderRequest"; "AmendPositionRequest"; "ClosePositionRequest"; "NewOrderRequest"]);
  (".symbol", ["Symbol"; "SymbolInfo"])].

Definition models_all : list string := [
  "Account"; "AccountSummary"; "AmendOrderRequest"; "AmendPositionRequest"; "CloseDetail";
  "ClosePositionRequest"; "Deal"; "NewOrderRequest"; "Order"; "Position"; "PositionUnrealizedPnL"; "Symbol";
  "SymbolInfo"; "TickData"; "Trendbar"].

(** *** [_internal/__init__.py] *)

Definition internal_imports : list (string * list string) := [
  (".clock", ["Clock"; "MonotonicClock"]);
  (".conversions", ["DEFAULT_MONEY_DIGITS"; "money_divisor"; "timestamp_to_datetime"]);
  (".messages", [
     "ClientMessageIdGenerator"; "deserialize_proto_message"; "get_class"; "get_payload_type";
     "unwrap_message"; "wrap_message"]);
  (".serialization", ["encode_with_length_prefix"; "read_exact"; "read_framed_message"])].

Definition internal_all : list string := [
  "DEFAULT_MONEY_DIGITS"; "ClientMessageIdGenerator"; "Clock"; "MonotonicClock"; "deserialize_proto_message";
  "encode_with_length_prefix"; "get_class"; "get_payload_type"; "money_divisor"; "read_exact";
  "read_framed_message"; "timestamp_to_datetime"; "unwrap_message"; "wrap_message"].

(** *** [_internal/proto/__init__.py] *)

Definition proto_from_OpenApiCommonMessages : list string := [
  "ProtoErrorRes"; "ProtoHeartbeatEvent"; "ProtoMessage"].

Definition proto_from_OpenApiCommonModelMessages : list string := [
  "ProtoErrorCode"; "ProtoPayloadType"].

Definition proto_from_OpenApiMessages : list string := [
  "ProtoOAAccountAuthReq"; "ProtoOAAccountAuthRes"; "ProtoOAAccountDisconnectEvent";
  "ProtoOAAccountLogoutReq"; "ProtoOAAccountLogoutRes"; "ProtoOAAccountsTokenInvalidatedEvent";
  "ProtoOAAmendOrderReq"; "ProtoOAAmendPositionSLTPReq"; "ProtoOAApplicationAuthReq";
  "ProtoOAApplicationAuthRes"; "ProtoOAAssetClassListReq"; "ProtoOAAssetClassListRes"; "ProtoOAAssetListReq";
  "ProtoOAAssetListRes"; "ProtoOACancelOrderReq"; "ProtoOACashFlowHistoryListReq";
  "ProtoOACashFlowHistoryListRes"; "ProtoOAClientDisconnectEvent"; "ProtoOAClosePositionReq";
  "ProtoOADealListByPositionIdReq"; "ProtoOADealListByPositionIdRes"; "ProtoOADealListReq";
  "ProtoOADealListRes"; "ProtoOADealOffsetListReq"; "ProtoOADealOffsetListRes"; "ProtoOADepthEvent";
  "ProtoOAErrorRes"; "ProtoOAExecutionEvent"; "ProtoOAExpectedMarginReq"; "ProtoOAExpectedMarginRes";
  "ProtoOAGetAccountListByAccessTokenReq"; "ProtoOAGetAccountListByAccessTokenRes";
  "ProtoOAGetCtidProfileByTokenReq"; "ProtoOAGetCtidProfileByTokenRes"; "ProtoOAGetDynamicLeverageByIDReq";
  "ProtoOAGetDynamicLeverageByIDRes"; "ProtoOAGetPositionUnrealizedPnLReq";
  "ProtoOAGetPositionUnrealizedPnLRes"; "ProtoOAGetTickDataReq"; "ProtoOAGetTickDataRes";
  "ProtoOAGetTrendbarsReq"; "ProtoOAGetTrendbarsRes"; "ProtoOAMarginCallListReq"; "ProtoOAMarginCallListRes";
  "ProtoOAMarginCallTriggerEvent"; "ProtoOAMarginCallUpdateEvent"; "ProtoOAMarginCallUpdateReq";
  "ProtoOAMarginCallUpdateRes"; "ProtoOAMarginChangedEvent"; "ProtoOANewOrderReq"; "ProtoOAOrderDetailsReq";
  "ProtoOAOrderDetailsRes"; "ProtoOAOrderErrorEvent"; "ProtoOAOrderListByPositionIdReq";
  "ProtoOAOrderListByPositionIdRes"; "ProtoOAOrderListReq"; "ProtoOAOrderListRes"; "ProtoOAReconcileReq";
  "ProtoOAReconcileRes"; "ProtoOARefreshTokenReq"; "ProtoOARefreshTokenRes"; "ProtoOASpotEvent";
  "ProtoOASubscribeDepthQuotesReq"; "ProtoOASubscribeDepthQuotesRes"; "ProtoOASubscribeLiveTrendbarReq";
  "ProtoOASubscribeLiveTrendbarRes"; "ProtoOASubscribeSpotsReq"; "ProtoOASubscribeSpotsRes";
  "ProtoOASymbolByIdReq"; "ProtoOASymbolByIdRes"; "ProtoOASymbolCategoryListReq";
  "ProtoOASymbolCategoryListRes"; "ProtoOASymbolChangedEvent"; "ProtoOASymbolsForConversionReq";
  "ProtoOASymbolsForConversionRes"; "ProtoOASymbolsListReq"; "ProtoOASymbolsListRes"; "ProtoOATraderReq";
  "ProtoOATraderRes"; "ProtoOATraderUpdatedEvent"; "ProtoOATrailingSLChangedEvent";
  "ProtoOAUnsubscribeDepthQuotesReq"; "ProtoOAUnsubscribeDepthQuotesRes"; "ProtoOAUnsubscribeLiveTrendbarReq";
  "ProtoOAUnsubscribeLiveTrendbarRes"; "ProtoOAUnsubscribeSpotsReq"; "ProtoOAUnsubscribeSpotsRes";
  "ProtoOAVersionReq"; "ProtoOAVersionRes"].

Definition proto_from_OpenApiModelMessages : list string := [
  "ProtoOAAccessRights"; "ProtoOAAccountType"; "ProtoOAArchivedSymbol"; "ProtoOAAsset"; "ProtoOAAssetClass";
  "ProtoOABonusDepositWithdraw"; "ProtoOAChangeBalanceType"; "ProtoOAChangeBonusType";
  "ProtoOAClientPermissionScope"; "ProtoOAClosePositionDetail"; "ProtoOACommissionType"; "ProtoOACtidProfile";
  "ProtoOACtidTraderAccount"; "ProtoOADayOfWeek"; "ProtoOADeal"; "ProtoOADealOffset"; "ProtoOADealStatus";
  "ProtoOADepositWithdraw"; "ProtoOADepthQuote"; "ProtoOADynamicLeverage"; "ProtoOADynamicLeverageTier";
  "ProtoOAErrorCode"; "ProtoOAExecutionType"; "ProtoOAExpectedMargin"; "ProtoOAHoliday"; "ProtoOAInterval";
  "ProtoOALightSymbol"; "ProtoOALimitedRiskMarginCalculationStrategy"; "ProtoOAMarginCall";
  "ProtoOAMinCommissionType"; "ProtoOANotificationType"; "ProtoOAOrder"; "ProtoOAOrderStatus";
  "ProtoOAOrderTriggerMethod"; "ProtoOAOrderType"; "ProtoOAPayloadType"; "ProtoOAPosition";
  "ProtoOAPositionStatus"; "ProtoOAPositionUnrealizedPnL"; "ProtoOAQuoteType"; "ProtoOAStopOutStrategy";
  "ProtoOASwapCalculationType"; "ProtoOASymbol"; "ProtoOASymbolCategory"; "ProtoOASymbolDistanceType";
  "ProtoOATickData"; "ProtoOATimeInForce"; "ProtoOATotalMarginCalculationType"; "ProtoOATradeData";
  "ProtoOATrader"; "ProtoOATradeSide"; "ProtoOATradingMode"; "ProtoOATrendbar"; "ProtoOATrendbarPeriod"].

Definition proto_imports : list (string * list string) := [
  (".OpenApiCommonMessages", proto_from_OpenApiCommonMessages);
  (".OpenApiCommonModelMessages", proto_from_OpenApiCommonModelMessages);
  (".OpenApiMessages", proto_from_OpenApiMessages);
  (".OpenApiModelMessages", proto_from_OpenApiModelMessages)].

Definition proto_all : list string := [
  "ProtoErrorCode"; "ProtoErrorRes"; "ProtoHeartbeatEvent"; "ProtoMessage"; "ProtoOAAccessRights";
  "ProtoOAAccountAuthReq"; "ProtoOAAccountAuthRes"; "ProtoOAAccountDisconnectEvent";
  "ProtoOAAccountLogoutReq"; "ProtoOAAccountLogoutRes"; "ProtoOAAccountType";
  "ProtoOAAccountsTokenInvalidatedEvent"; "ProtoOAAmendOrderReq"; "ProtoOAAmendPositionSLTPReq";
  "ProtoOAApplicationAuthReq"; "ProtoOAApplicationAuthRes"; "ProtoOAArchivedSymbol"; "ProtoOAAsset";
  "ProtoOAAssetClass"; "ProtoOAAssetClassListReq"; "ProtoOAAssetClassListRes"; "ProtoOAAssetListReq";
  "ProtoOAAssetListRes"; "ProtoOABonusDepositWithdraw"; "ProtoOACancelOrderReq";
  "ProtoOACashFlowHistoryListReq"; "ProtoOACashFlowHistoryListRes"; "ProtoOAChangeBalanceType";
  "ProtoOAChangeBonusType"; "ProtoOAClientDisconnectEvent"; "ProtoOAClientPermissionScope";
  "ProtoOAClosePositionDetail"; "ProtoOAClosePositionReq"; "ProtoOACommissionType"; "ProtoOACtidProfile";
  "ProtoOACtidTraderAccount"; "ProtoOADayOfWeek"; "ProtoOADeal"; "ProtoOADealListByPositionIdReq";
  "ProtoOADealListByPositionIdRes"; "ProtoOADealListReq"; "ProtoOADealListRes"; "ProtoOADealOffset";
  "ProtoOADealOffsetListReq"; "ProtoOADealOffsetListRes"; "ProtoOADealStatus"; "ProtoOADepositWithdraw";
  "ProtoOADepthEvent"; "ProtoOADepthQuote"; "ProtoOADynamicLeverage"; "ProtoOADynamicLeverageTier";
  "ProtoOAErrorCode"; "ProtoOAErrorRes"; "ProtoOAExecutionEvent"; "ProtoOAExecutionType";
  "ProtoOAExpectedMargin"; "ProtoOAExpectedMarginReq"; "ProtoOAExpectedMarginRes";
  "ProtoOAGetAccountListByAccessTokenReq"; "ProtoOAGetAccountListByAccessTokenRes";
  "ProtoOAGetCtidProfileByTokenReq"; "ProtoOAGetCtidProfileByTokenRes"; "ProtoOAGetDynamicLeverageByIDReq";
  "ProtoOAGetDynamicLeverageByIDRes"; "ProtoOAGetPositionUnrealizedPnLReq";
  "ProtoOAGetPositionUnrealizedPnLRes"; "ProtoOAGetTickDataReq"; "ProtoOAGetTickDataRes";
  "ProtoOAGetTrendbarsReq"; "ProtoOAGetTrendbarsRes"; "ProtoOAHoliday"; "ProtoOAInterval";
  "ProtoOALightSymbol"; "ProtoOALimitedRiskMarginCalculationStrategy"; "ProtoOAMarginCall";
  "ProtoOAMarginCallListReq"; "ProtoOAMarginCallListRes"; "ProtoOAMarginCallTriggerEvent";
  "ProtoOAMarginCallUpdateEvent"; "ProtoOAMarginCallUpdateReq"; "ProtoOAMarginCallUpdateRes";
  "ProtoOAMarginChangedEvent"; "ProtoOAMinCommissionType"; "ProtoOANewOrderReq"; "ProtoOANotificationType";
  "ProtoOAOrder"; "ProtoOAOrderDetailsReq"; "ProtoOAOrderDetailsRes"; "ProtoOAOrderErrorEvent";
  "ProtoOAOrderListByPositionIdReq"; "ProtoOAOrderListByPositionIdRes"; "ProtoOAOrderListReq";
  "ProtoOAOrderListRes"; "ProtoOAOrderStatus"; "ProtoOAOrderTriggerMethod"; "ProtoOAOrderType";
  "ProtoOAPayloadType"; "ProtoOAPosition"; "ProtoOAPositionStatus"; "ProtoOAPositionUnrealizedPnL";
  "ProtoOAQuoteType"; "ProtoOAReconcileReq"; "ProtoOAReconcileRes"; "ProtoOARefreshTokenReq";
  "ProtoOARefreshTokenRes"; "ProtoOASpotEvent"; "ProtoOAStopOutStrategy"; "ProtoOASubscribeDepthQuotesReq";
  "ProtoOASubscribeDepthQuotesRes"; "ProtoOASubscribeLiveTrendbarReq"; "ProtoOASubscribeLiveTrendbarRes";
  "ProtoOASubscribeSpotsReq"; "ProtoOASubscribeSpotsRes"; "ProtoOASwapCalculationType"; "ProtoOASymbol";
  "ProtoOASymbolByIdReq"; "ProtoOASymbolByIdRes"; "ProtoOASymbolCategory"; "ProtoOASymbolCategoryListReq";
  "ProtoOASymbolCategoryListRes"; "ProtoOASymbolChangedEvent"; "ProtoOASymbolDistanceType";
  "ProtoOASymbolsForConversionReq"; "ProtoOASymbolsForConversionRes"; "ProtoOASymbolsListReq";
  "ProtoOASymbolsListRes"; "ProtoOATickData"; "ProtoOATimeInForce"; "ProtoOATotalMarginCalculationType";
  "ProtoOATradeData"; "ProtoOATradeSide"; "ProtoOATrader"; "ProtoOATraderReq"; "ProtoOATraderRes";
  "ProtoOATraderUpdatedEvent"; "ProtoOATradingMode"; "ProtoOATrailingSLChangedEvent"; "ProtoOATrendbar";
  "ProtoOATrendbarPeriod"; "ProtoOAUnsubscribeDepthQuotesReq"; "ProtoOAUnsubscribeDepthQuotesRes";
  "ProtoOAUnsubscribeLiveTrendbarReq"; "ProtoOAUnsubscribeLiveTrendbarRes"; "ProtoOAUnsubscribeSpotsReq";
  "ProtoOAUnsubscribeSpotsRes"; "ProtoOAVersionReq"; "ProtoOAVersionRes"; "ProtoPayloadType"].

(** ** The packages *)

Definition PACKAGES : dict string package := [
  ("", mk_package root_imports root_all);
  (".api", mk_package api_imports api_all);
  (".auth", mk_package auth_imports auth_all);
  (".connection", mk_package connection_imports connection_all);
  (".events", mk_package events_imports events_all);
  (".models", mk_package models_imports models_all);
  ("._internal", mk_package internal_imports internal_all);
  ("._internal.proto", mk_package proto_imports proto_all)].

(** The names a package imports, from all its modules. *)
Definition imported (p : package) : list string := concat (imports p).*2.

(** Without repetition. *)
Fixpoint distinct (l : list string) : bool :=
  match l with [] => true | x :: l' => negb (existsb (String.eqb x) l') && distinct l' end.

Definition names_in (l1 l2 : list string) : bool := forallb (fun x => existsb (String.eqb x) l2) l1.

(** [__all__] is what is imported, each name once. *)
Definition package_ok (p : package) : bool :=
  distinct (exports p) && names_in (exports p) (imported p) && names_in (imported p) (exports p) &&
  distinct (imported p).

(** What the root imports from a package, that package exports. *)
Definition chained (root : package) (packages : dict string package) : bool :=
  forallb (fun '(m, names) =>
    match dict_get m packages with Some p => names_in names (exports p) | None => true end) (imports root).

(** The class of an exception of the client. *)
Definition exception_class (e : exn) : option string :=
  match e with
  | CTraderConnectionFailedError _ _ _ => Some "CTraderConnectionFailedError"
  | CTraderConnectionClosedError _ _ => Some "CTraderConnectionClosedError"
  | CTraderConnectionTimeoutError _ _ => Some "CTraderConnectionTimeoutError"
  | CTraderReconnectAbandonedError _ _ => Some "CTraderReconnectAbandonedError"
  | ApplicationAuthError _ _ => Some "ApplicationAuthError"
  | AccountAuthError _ _ _ => Some "AccountAuthError"
  | TokenExpiredError _ => Some "TokenExpiredError"
  | TokenRefreshError _ _ => Some "TokenRefreshError"
  | AccountNotFoundError _ _ => Some "AccountNotFoundError"
  | APIError _ => Some "APIError"
  | FramingError _ _ => Some "FramingError"
  | DeserializationError _ _ => Some "DeserializationError"
  | UnknownPayloadTypeError _ => Some "UnknownPayloadTypeError"
  | _ => None
  end.

(** ** Lemmas *)

Lemma existsb_In (x : string) (l : list string) : existsb (String.eqb x) l = true <-> x ∈ l.
Proof.
  rewrite existsb_exists. setoid_rewrite String.eqb_eq. rewrite list_elem_of_In. split; [by intros (? & ? & <-)|eauto].
Qed.

Lemma names_in_spec (l1 l2 : list string) : names_in l1 l2 = true <-> forall x, x ∈ l1 -> x ∈ l2.
Proof.
  unfold names_in. rewrite forallb_forall. setoid_rewrite existsb_In. setoid_rewrite list_elem_of_In. done.
Qed.

Lemma distinct_NoDup (l : list string) : distinct l = true <-> NoDup l.
Proof.
  induction l as [|x l IH]; simpl; [split; [constructor|done]|].
  rewrite NoDup_cons, andb_true_iff, negb_true_iff, IH, <- not_true_iff_false, existsb_In. done.
Qed.

(** Two lists without repetition and with the same elements. *)
Lemma same_names (l1 l2 : list string) :
  distinct l1 && distinct l2 && names_in l1 l2 && names_in l2 l1 = true -> l1 ≡ₚ l2.
Proof.
  rewrite !andb_true_iff, !distinct_NoDup, !names_in_spec. intros [[[H1 H2] H3] H4].
  apply NoDup_Permutation; [done..|]. split; auto.
Qed.

Lemma packages_ok : forallb (fun kp => package_ok kp.2) PACKAGES = true.
Proof. vm_compute. reflexivity. Qed.

Lemma root_chained : chained (mk_package root_imports root_all) PACKAGES = true.
Proof. vm_compute. reflexivity. Qed.

Lemma proto_names :
  distinct proto_all && distinct (ENUMS.*1 ++ MESSAGES.*1) && names_in proto_all (ENUMS.*1 ++ MESSAGES.*1) &&
  names_in (ENUMS.*1 ++ MESSAGES.*1) proto_all = true.
Proof. vm_compute. reflexivity. Qed.

Lemma messages_exported :
  forallb (fun kc => existsb (String.eqb (Cls.class_name kc.2)) proto_all) PAYLOAD_TYPE_TO_CLASS = true.
Proof. vm_compute. reflexivity. Qed.

Lemma event_exported (t : event_type) :
  existsb (String.eqb (type_name t)) root_all && existsb (String.eqb (type_name t)) events_all = true.
Proof. by destruct t. Qed.

Lemma exception_exported (e : exn) :
  is_CTraderError e = true ->
  match exception_class e with Some n => existsb (String.eqb n) root_all | None => false end = true.
Proof. by destruct e. Qed.

#[local] Opaque PACKAGES PAYLOAD_TYPE_TO_CLASS ENUMS MESSAGES proto_all root_all root_imports events_all.

(** ** Properties *)

(** The packages export what they claim. In each, [__all__] is the names imported, every
    one and each once; what the top package takes from a package, that package exports. The
    generated package exports exactly the classes of the schema, those of all the messages it
    registers among them; and at the top are the class of every event, and of every exception of the
    client's own, so that what a caller receives and catches can be named. *)
Theorem exports_complete :
  (forall name p, dict_get name PACKAGES = Some p -> exports p ≡ₚ imported p /\ NoDup (exports p)) /\
  (forall name p names, dict_get name PACKAGES = Some p -> (name, names) ∈ root_imports ->
     forall x, x ∈ names -> x ∈ exports p) /\
  proto_all ≡ₚ ENUMS.*1 ++ MESSAGES.*1 /\
  (forall pt c, get_class pt = Some c -> Cls.class_name c ∈ proto_all) /\
  (forall t, type_name t ∈ root_all /\ type_name t ∈ events_all) /\
  (forall e, is_CTraderError e = true -> exists n, exception_class e = Some n /\ n ∈ root_all).
Proof.
  split_and!.
  - intros name p Hp%dict_get_Some_in. pose proof packages_ok as H. rewrite forallb_forall in H.
    apply list_elem_of_In, H in Hp. unfold package_ok in Hp. simpl in Hp. rewrite !andb_true_iff in Hp.
    destruct Hp as [[[H1 H2] H3] H4]. split; [|by apply distinct_NoDup].
    apply same_names. by rewrite H1, H2, H3, H4.
  - intros name p names Hp Hn x Hx. pose proof root_chained as H. unfold chained in H. rewrite forallb_forall in H.
    apply list_elem_of_In, H in Hn. rewrite Hp in Hn. by apply (proj1 (names_in_spec names _) Hn).
  - apply same_names, proto_names.
  - intros pt c Hc%dict_get_Some_in%list_elem_of_In. pose proof messages_exported as H.
    rewrite forallb_forall in H. apply existsb_In. exact (H _ Hc).
  - intros t. rewrite <- !existsb_In. apply andb_true_iff, event_exported.
  - intros e He. apply exception_exported in He. destruct (exception_class e) as [n|]; [|done].
    exists n. split; [done|]. by apply existsb_In.
Qed.

Lemma exports_complete_witness :
  events_all ≡ₚ imported (mk_package events_imports events_all) /\ "FramingError" ∈ root_all.
Proof.
  split.
  - exact (proj1 (proj1 exports_complete ".events" (mk_package events_imports events_all) eq_refl)).
  - destruct (proj2 (proj2 (proj2 (proj2 (proj2 exports_complete)))) (FramingError 1 2) eq_refl) as (n & [= <-] & H).
    exact H.
Defined.
