(* ===== verification/ProtoTools.v ===== *)
(** * The script that post-processes the generated code ([scripts/fix_proto_imports.py])

    The protobuf compiler leaves modules that do not import one another and no
    [__init__.py]; the script adds the imports and writes the package. Files are strings of
    ASCII characters, and what the script writes is its result. *)

From S2P Require Import Prelude Schema Exports.
From stdpp Require Import sorting.
From stdpp Require Import options.
Open Scope string_scope.
Open Scope list_scope.

(** ** Text *)

Definition newline : Ascii.ascii := Ascii.ascii_of_nat 10.
Definition open_paren : Ascii.ascii := Ascii.ascii_of_nat 40.
Definition colon : Ascii.ascii := Ascii.ascii_of_nat 58.
Definition quote : string := String (Ascii.ascii_of_nat 34) "".
Definition nl : string := String newline "".

(** [sep.join(lines)] *)
Fixpoint join (sep : string) (l : list string) : string :=
  match l with
  | [] => ""
  | [x] => x
  | x :: l' => x +:+ sep +:+ join sep l'
  end.

(** A text of lines, each ended. *)
Definition unlines (l : list string) : string := foldr (fun x s => x +:+ nl +:+ s) "" l.

(** [s.replace(old, new)], for an [old] that is not empty: from left to right; [skip]
    characters belong to the occurrence just replaced. *)
Fixpoint replace_from (skip : nat) (old new s : string) : string :=
  match s with
  | "" => ""
  | String c s' =>
      match skip with
      | S k => replace_from k old new s'
      | O =>
          if String.prefix old s then new +:+ replace_from (String.length old - 1) old new s'
          else String c (replace_from 0 old new s')
      end
  end.

Definition str_replace (old new s : string) : string := replace_from 0 old new s.

(** ** Imports *)

Definition marker : string := "import betterproto" +:+ nl.

Definition IMPORTED_BY_MESSAGES : list string := [
  "ProtoOAPayloadType"; "ProtoOAOrderType"; "ProtoOATradeSide"; "ProtoOATimeInForce"; "ProtoOAExecutionType";
  "ProtoOAOrderTriggerMethod"; "ProtoOATrendbarPeriod"; "ProtoOAQuoteType"; "ProtoOAClientPermissionScope";
  "ProtoOAPosition"; "ProtoOAOrder"; "ProtoOADeal"; "ProtoOATrader"; "ProtoOAAsset"; "ProtoOALightSymbol";
  "ProtoOAArchivedSymbol"; "ProtoOASymbol"; "ProtoOAAssetClass"; "ProtoOASymbolCategory"; "ProtoOATrendbar";
  "ProtoOATickData"; "ProtoOADepthQuote"; "ProtoOACtidTraderAccount"; "ProtoOACtidProfile";
  "ProtoOAExpectedMargin"; "ProtoOADepositWithdraw"; "ProtoOABonusDepositWithdraw"; "ProtoOAMarginCall";
  "ProtoOADynamicLeverage"; "ProtoOADealOffset"; "ProtoOAPositionUnrealizedPnL"].

Definition IMPORTS_FOR_MESSAGES : string :=
  "from .OpenApiModelMessages import (" +:+ nl +:+
  unlines ((fun name => "    " +:+ name +:+ ",") <$> IMPORTED_BY_MESSAGES) +:+
  ")" +:+ nl.

Definition IMPORTS_FOR_COMMON_MESSAGES : string :=
  "from .OpenApiCommonModelMessages import ProtoPayloadType" +:+ nl.

Inductive fix_outcome := AlreadyFixed | Fixed | MarkerNotFound.

(** [fix_file]: what it prints, and the content it leaves. *)
Definition fix_file (content imports : string) : fix_outcome * string :=
  if str_in "from .OpenApi" content then (AlreadyFixed, content)
  else if str_in marker content then (Fixed, str_replace marker (marker +:+ imports) content)
  else (MarkerNotFound, content).

(** ** Exports *)

(** [\s] and [\w] *)
Definition is_space (c : Ascii.ascii) : bool :=
  let n := Ascii.nat_of_ascii c in (n =? 32)%nat || ((9 <=? n)%nat && (n <=? 13)%nat) || ((28 <=? n)%nat && (n <=? 31)%nat).
Definition is_word (c : Ascii.ascii) : bool :=
  let n := Ascii.nat_of_ascii c in
  ((48 <=? n)%nat && (n <=? 57)%nat) || ((65 <=? n)%nat && (n <=? 90)%nat) ||
  ((97 <=? n)%nat && (n <=? 122)%nat) || (n =? 95)%nat.

(** The longest prefix of characters that satisfy [f], and the rest. *)
Fixpoint span (f : Ascii.ascii -> bool) (s : string) : string * string :=
  match s with
  | "" => ("", "")
  | String c s' => if f c then let '(a, b) := span f s' in (String c a, b) else ("", s)
  end.

Fixpoint drop_chars (n : nat) (s : string) : string :=
  match n, s with
  | S n', String _ s' => drop_chars n' s'
  | _, _ => s
  end.

(** [class\s+(\w+)\s*[\(:]] at the start of [s]: the name, and the length of the match. The
    character classes are disjoint, so the greedy match is the only one. *)
Definition match_class (s : string) : option (string * nat) :=
  if String.prefix "class" s then
    let '(spaces, s1) := span is_space (drop_chars 5 s) in
    let '(name, s2) := span is_word s1 in
    let '(spaces', s3) := span is_space s2 in
    match s3 with
    | String c _ =>
        if negb (String.eqb spaces "") && negb (String.eqb name "") && (Ascii.eqb c open_paren || Ascii.eqb c colon)
        then Some (name, (5 + String.length spaces + String.length name + String.length spaces' + 1)%nat)
        else None
    | "" => None
    end
  else None.

(** [re.findall(pattern, content, re.MULTILINE)]: [line_start] says whether [^] matches here. *)
Fixpoint findall_from (skip : nat) (line_start : bool) (s : string) : list string :=
  match s with
  | "" => []
  | String c s' =>
      let next := Ascii.eqb c newline in
      match skip with
      | S k => findall_from k next s'
      | O =>
          match (if line_start then match_class s else None) with
          | Some (name, n) => name :: findall_from (n - 1) next s'
          | None => findall_from 0 next s'
          end
      end
  end.

Definition extract_exports (content : string) : list string := findall_from 0 true content.

(** ** The package *)

(** [sorted(names)] *)
Definition name_le (a b : string) : Prop := String.leb a b = true.
#[export] Instance name_le_dec : RelDecision name_le.
Proof. intros a b. unfold name_le. apply _. Defined.
Definition sorted_names (l : list string) : list string := merge_sort name_le l.

Definition modules : list string :=
  ["OpenApiCommonModelMessages"; "OpenApiCommonMessages"; "OpenApiModelMessages"; "OpenApiMessages"].

(** The names of the modules that exist, in order. *)
Definition all_exports (files : dict string string) : list (string * list string) :=
  omap (fun m => (fun content => (m, extract_exports content)) <$> dict_get m files) modules.

Definition import_lines (e : string * list string) : list string :=
  match e.2 with
  | [] => []
  | _ => ["from ." +:+ e.1 +:+ " import ("] ++ ((fun name => "    " +:+ name +:+ ",") <$> sorted_names e.2) ++ [")"; ""]
  end.

(** [create_init]: the content it writes, for the exports of each module. *)
Definition init_text (exports : list (string * list string)) : string :=
  let docstring := quote +:+ quote +:+ quote in
  let lines :=
    [docstring +:+ "Generated protobuf messages for cTrader Open API." +:+ docstring; ""] ++
    concat (import_lines <$> exports) ++
    ["__all__ = ["] ++
    ((fun name => "    " +:+ quote +:+ name +:+ quote +:+ ",") <$> sorted_names (concat exports.*2)) ++
    ["]"] in
  join nl lines +:+ nl.

Definition create_init (files : dict string string) : string := init_text (all_exports files).

(** [main], on the files of the directory by their module: the fixed files and the new
    [__init__.py]. *)
Definition fix_module (m imports : string) (files : dict string string) : dict string string :=
  match dict_get m files with
  | Some content => dict_set m (fix_file content imports).2 files
  | None => files
  end.

Definition main (files : dict string string) : dict string string :=
  let files := fix_module "OpenApiMessages" IMPORTS_FOR_MESSAGES files in
  let files := fix_module "OpenApiCommonMessages" IMPORTS_FOR_COMMON_MESSAGES files in
  dict_set "__init__" (create_init files) files.

(** ** A file, on a small scale *)
Example extract_two :
  extract_exports ("import x" +:+ nl +:+ "class A(betterproto.Message):" +:+ nl +:+ "    class B:" +:+ nl +:+ "class  C :" +:+ nl)
  = ["A"; "C"].
Proof. vm_compute. reflexivity. Qed.

(** ** Lemmas *)

Fixpoint all_chars (f : Ascii.ascii -> bool) (s : string) : bool :=
  match s with "" => true | String c s' => f c && all_chars f s' end.

Definition not_newline (c : Ascii.ascii) : bool := negb (Ascii.eqb c newline).

Local Arguments String.append !_ _ /.

Lemma string_app_assoc (a b c : string) : (a +:+ b) +:+ c = a +:+ b +:+ c.
Proof. induction a as [|x a IH]; [done|]. exact (f_equal (String x) IH). Qed.

Lemma string_length_app (a b : string) : String.length (a +:+ b) = (String.length a + String.length b)%nat.
Proof. induction a as [|x a IH]; [done|]. exact (f_equal S IH). Qed.

Lemma string_app_nil (a : string) : a +:+ "" = a.
Proof. induction a as [|x a IH]; [done|]. exact (f_equal (String x) IH). Qed.

Lemma str_in_app_l a b s : str_in a s = true -> str_in a (b +:+ s) = true.
Proof. rewrite !str_in_spec. intros (pre & post & ->). exists (b +:+ pre), post. symmetry. apply string_app_assoc. Qed.

Lemma str_in_app_r a b s : str_in a s = true -> str_in a (s +:+ b) = true.
Proof. rewrite !str_in_spec. intros (pre & post & ->). exists pre, (post +:+ b). by rewrite !string_app_assoc. Qed.

Lemma str_in_trans a b s : str_in a b = true -> str_in b s = true -> str_in a s = true.
Proof. intros Ha (pre & post & ->)%str_in_spec. by apply str_in_app_l, str_in_app_r. Qed.

(** What replaces something is there afterwards. *)
Lemma replace_inserts old new s :
  old ≠ "" -> str_in old s = true -> str_in new (str_replace old new s) = true.
Proof.
  intros Hold. unfold str_replace. induction s as [|c s IH]; intros Hin.
  - apply str_in_spec in Hin as ([|] & post & Hp); [|done]. by destruct old.
  - change (replace_from 0 old new (String c s)) with
      (if String.prefix old (String c s) then new +:+ replace_from (String.length old - 1) old new s
       else String c (replace_from 0 old new s)).
    destruct (String.prefix old (String c s)) eqn:Hp.
    + apply str_in_app_r, str_in_spec. exists "", "". simpl. by rewrite string_app_nil.
    + apply (str_in_app_l new (String c "")), IH.
      change (String.prefix old (String c s) || str_in old s = true) in Hin. by rewrite Hp in Hin.
Qed.

(** A file that was fixed is left alone. *)
Lemma fix_file_twice content imports :
  str_in "from .OpenApi" imports = true ->
  let fixed := (fix_file content imports).2 in
  (fix_file fixed imports).2 = fixed /\ (fix_file fixed imports).1 ≠ Fixed.
Proof.
  intros Himports. cbv zeta. unfold fix_file. destruct (str_in "from .OpenApi" content) eqn:E1; cbn [snd]; [by rewrite E1|].
  destruct (str_in marker content) eqn:E2; cbn [snd]; [|by rewrite E1, E2].
  assert (H : str_in "from .OpenApi" (str_replace marker (marker +:+ imports) content) = true).
  { eapply str_in_trans; [|by apply replace_inserts]. by apply str_in_app_l. }
  by rewrite H.
Qed.

Lemma messages_imports_marked : str_in "from .OpenApi" IMPORTS_FOR_MESSAGES = true.
Proof. vm_compute. reflexivity. Qed.
Lemma common_imports_marked : str_in "from .OpenApi" IMPORTS_FOR_COMMON_MESSAGES = true.
Proof. vm_compute. reflexivity. Qed.

#[local] Opaque IMPORTS_FOR_MESSAGES IMPORTS_FOR_COMMON_MESSAGES.

Lemma fix_module_get m m' imports files :
  dict_get m (fix_module m' imports files) =
  if decide (m = m') then (fun content => (fix_file content imports).2) <$> dict_get m files else dict_get m files.
Proof.
  unfold fix_module. destruct (dict_get m' files) eqn:E.
  - rewrite dict_get_set. case_decide; [|done]. subst. by rewrite E.
  - case_decide; [|done]. subst. by rewrite E.
Qed.

(** A module that was fixed. *)
Lemma fix_module_done m imports files :
  (forall content, dict_get m files = Some content -> (fix_file content imports).2 = content) ->
  fix_module m imports files = files.
Proof.
  intros H. unfold fix_module. destruct (dict_get m files) as [content|] eqn:E; [|done].
  rewrite (H _ eq_refl). by apply dict_set_get.
Qed.

(** The exports only depend on the modules. *)
Lemma all_exports_ext files files' :
  (forall m, m ∈ modules -> dict_get m files = dict_get m files') -> all_exports files = all_exports files'.
Proof.
  unfold all_exports, modules. intros H. simpl. by rewrite !H by set_solver.
Qed.

(** *** Declarations *)

(** A line of a generated module: the head of a class at the first column, or anything else
    that does not begin like one. *)
Inductive line := Decl (name bases : string) | Text (t : string).

Definition line_text (l : line) : string :=
  match l with Decl name bases => "class " +:+ name +:+ String open_paren bases | Text t => t end.

Definition line_ok (l : line) : bool :=
  match l with
  | Decl name bases => negb (String.eqb name "") && all_chars is_word name && all_chars not_newline bases
  | Text t => all_chars not_newline t && negb (String.prefix "class" t)
  end.

Definition declared (l : line) : option string := match l with Decl name _ => Some name | Text _ => None end.

Lemma span_app f a s :
  all_chars f a = true -> match s with String c _ => f c = false | "" => True end -> span f (a +:+ s) = (a, s).
Proof.
  intros Ha Hs. induction a as [|c a IH]; simpl in *.
  - destruct s as [|c s]; [done|]. simpl. by rewrite Hs.
  - apply andb_true_iff in Ha as [-> Ha]. by rewrite IH.
Qed.

Lemma word_not_space c : is_word c = true -> is_space c = false.
Proof. by destruct c as [[] [] [] [] [] [] [] []]. Qed.

Lemma word_not_newline c : is_word c = true -> not_newline c = true.
Proof. by destruct c as [[] [] [] [] [] [] [] []]. Qed.

Lemma all_chars_impl (f g : Ascii.ascii -> bool) s :
  (forall c, f c = true -> g c = true) -> all_chars f s = true -> all_chars g s = true.
Proof. intros H. induction s as [|c s IH]; simpl; [done|]. intros [Hc Hs]%andb_true_iff. by rewrite (H c Hc), (IH Hs). Qed.

Lemma all_chars_app f a b : all_chars f (a +:+ b) = all_chars f a && all_chars f b.
Proof. induction a as [|c a IH]; simpl; [done|]. by rewrite IH, andb_assoc. Qed.

Lemma prefix_app_false p t s :
  all_chars not_newline p = true -> String.prefix p t = false -> String.prefix p (t +:+ nl +:+ s) = false.
Proof.
  revert p. induction t as [|c t IH]; intros [|c' p]; try done; intros Hp Hpre.
  - simpl in Hp. apply andb_true_iff in Hp as [Hc _]. simpl. unfold nl, not_newline in *.
    destruct (Ascii.ascii_dec c' newline) as [->|]; [by rewrite Ascii.eqb_refl in Hc|done].
  - simpl in Hp. apply andb_true_iff in Hp as [_ Hp]. simpl in *. destruct (Ascii.ascii_dec c' c); [by apply IH|done].
Qed.

(** The rest of a line is skipped over. *)
Lemma findall_rest t s : all_chars not_newline t = true -> findall_from 0 false (t +:+ nl +:+ s) = findall_from 0 true s.
Proof.
  induction t as [|c t IH]; [done|]. simpl. intros [Hc Ht]%andb_true_iff. unfold not_newline in Hc.
  apply negb_true_iff in Hc. rewrite Hc. by apply IH.
Qed.

Lemma findall_skip t s b :
  all_chars not_newline t = true -> t ≠ "" -> findall_from (String.length t) b (t +:+ s) = findall_from 0 false s.
Proof.
  revert b. induction t as [|c t IH]; [done|]. intros b. simpl. intros [Hc Ht]%andb_true_iff _.
  unfold not_newline in Hc. apply negb_true_iff in Hc. rewrite Hc. destruct t as [|c' t]; [done|]. by apply IH.
Qed.

Lemma findall_text t s :
  line_ok (Text t) = true -> findall_from 0 true (t +:+ nl +:+ s) = findall_from 0 true s.
Proof.
  simpl. intros [Ht Hp]%andb_true_iff. apply negb_true_iff in Hp.
  assert (Hm : match_class (t +:+ nl +:+ s) = None) by (unfold match_class; by rewrite prefix_app_false).
  destruct t as [|c t]; [done|]. simpl in *. rewrite Hm. apply andb_true_iff in Ht as [Hc Ht].
  unfold not_newline in Hc. apply negb_true_iff in Hc. rewrite Hc. by apply findall_rest.
Qed.

Lemma drop_chars_app a s : drop_chars (String.length a) (a +:+ s) = s.
Proof. induction a as [|c a IH]; [done|exact IH]. Qed.

Lemma string_app_eqb_empty a : a ≠ "" -> String.eqb a "" = false.
Proof. by destruct a. Qed.

Lemma match_decl name s :
  name ≠ "" -> all_chars is_word name = true ->
  match_class ("class " +:+ name +:+ String open_paren s) = Some (name, (6 + String.length name + 1)%nat).
Proof.
  intros Hne Hw. unfold match_class.
  change (String.prefix "class" ("class " +:+ name +:+ String open_paren s)) with true. cbv iota.
  change (drop_chars 5 ("class " +:+ name +:+ String open_paren s)) with (" " +:+ (name +:+ String open_paren s)).
  rewrite (span_app is_space " "); [|done|].
  - rewrite (span_app is_word name); [|done|done]. change (span is_space (String open_paren s)) with ("", String open_paren s).
    cbv iota beta. rewrite (string_app_eqb_empty name Hne). cbn. do 2 f_equal. lia.
  - destruct name as [|c name]; [done|]. simpl in *. apply andb_true_iff in Hw as [Hc _]. by apply word_not_space.
Qed.

Lemma findall_match c s name n :
  match_class (String c s) = Some (name, n) -> Ascii.eqb c newline = false ->
  findall_from 0 true (String c s) = name :: findall_from (n - 1) false s.
Proof.
  intros Hm Hc. cbn [findall_from]. by rewrite Hm, Hc.
Qed.

(** A declaration is found, and the rest of its line skipped. *)
Lemma findall_decl name bases s :
  line_ok (Decl name bases) = true ->
  findall_from 0 true (line_text (Decl name bases) +:+ nl +:+ s) = name :: findall_from 0 true s.
Proof.
  cbn [line_ok line_text]. intros [[Hne Hw]%andb_true_iff Hb]%andb_true_iff.
  apply negb_true_iff, String.eqb_neq in Hne.
  set (tail := bases +:+ nl +:+ s). set (head := "lass " +:+ name +:+ String open_paren "").
  replace (("class " +:+ name +:+ String open_paren bases) +:+ nl +:+ s) with (String (Ascii.ascii_of_nat 99) (head +:+ tail))
    by (unfold head, tail; by rewrite !string_app_assoc).
  rewrite (findall_match (Ascii.ascii_of_nat 99) (head +:+ tail) name (6 + String.length name + 1)); [|unfold head|done].
  - f_equal. replace (6 + String.length name + 1 - 1)%nat with (String.length head).
    + rewrite findall_skip; [by apply findall_rest| |done].
      unfold head. rewrite !all_chars_app, (all_chars_impl _ _ _ word_not_newline Hw). reflexivity.
    + unfold head. rewrite !string_length_app. cbn. lia.
  - rewrite !string_app_assoc. by apply (match_decl name tail).
Qed.

(** What [extract_exports] finds in a module: the classes it declares at the first column, in
    order. *)
Lemma extract_declared (lines : list line) :
  forallb line_ok lines = true ->
  extract_exports (unlines (line_text <$> lines)) = omap declared lines.
Proof.
  unfold extract_exports. induction lines as [|l lines IH]; [done|]. cbn [forallb]. intros [Hl Hlines]%andb_true_iff.
  rewrite fmap_cons. cbn [unlines foldr]. fold (unlines (line_text <$> lines)).
  destruct l as [name bases|t].
  - rewrite findall_decl by done. cbn. by rewrite IH.
  - rewrite (findall_text t) by done. cbn. by apply IH.
Qed.

(** *** Replacing at the end of a line *)

Lemma prefix_line (m t s : string) :
  all_chars not_newline m = true -> all_chars not_newline t = true ->
  String.prefix (m +:+ nl) (t +:+ nl +:+ s) = true -> t = m.
Proof.
  revert t. induction m as [|c m IH]; intros [|c' t]; cbn [all_chars]; try done.
  - cbn. intros _ [Hc _]%andb_true_iff. unfold not_newline in Hc.
    destruct (Ascii.ascii_dec newline c') as [<-|]; [|done]. by rewrite Ascii.eqb_refl in Hc.
  - cbn. intros [Hc _]%andb_true_iff _. unfold not_newline in Hc.
    destruct (Ascii.ascii_dec c newline) as [->|]; [|done]. by rewrite Ascii.eqb_refl in Hc.
  - intros [_ Hm]%andb_true_iff [_ Ht]%andb_true_iff. cbn.
    destruct (Ascii.ascii_dec c c') as [->|]; [|done]. intros H. f_equal. by apply IH.
Qed.

Lemma replace_skip old new (t s : string) : replace_from (String.length t) old new (t +:+ s) = replace_from 0 old new s.
Proof. induction t as [|c t IH]; [done|exact IH]. Qed.

Lemma replace_step old new c s :
  replace_from 0 old new (String c s) =
  if String.prefix old (String c s) then new +:+ replace_from (String.length old - 1) old new s
  else String c (replace_from 0 old new s).
Proof. reflexivity. Qed.

Lemma prefix_app_l (a b : string) : String.prefix a (a +:+ b) = true.
Proof. apply prefix_spec. by exists b. Qed.

(** Whether a line ends with [m]. *)
Fixpoint ends_with (m t : string) : bool :=
  String.eqb t m || match t with "" => false | String _ t' => ends_with m t' end.

(** Putting [ins] after each line that ends with [m]. *)
Lemma replace_line (m ins t s : string) :
  m ≠ "" -> all_chars not_newline m = true -> all_chars not_newline t = true ->
  str_replace (m +:+ nl) ((m +:+ nl) +:+ ins) (t +:+ nl +:+ s) =
  t +:+ nl +:+ (if ends_with m t then ins else "") +:+ str_replace (m +:+ nl) ((m +:+ nl) +:+ ins) s.
Proof.
  intros Hne Hm. unfold str_replace. set (new := (m +:+ nl) +:+ ins).
  induction t as [|c t IH]; intros Ht.
  - change ("" +:+ nl +:+ s) with (String newline s). rewrite replace_step.
    destruct (String.prefix (m +:+ nl) (String newline s)) eqn:Hp.
    + destruct (Hne (eq_sym (prefix_line m "" s Hm eq_refl Hp))).
    + cbn [ends_with]. rewrite orb_false_r. destruct (String.eqb "" m) eqn:E; [|reflexivity].
      apply String.eqb_eq in E. by destruct m.
  - change (String c t +:+ nl +:+ s) with (String c (t +:+ nl +:+ s)). rewrite replace_step.
    destruct (String.prefix (m +:+ nl) (String c (t +:+ nl +:+ s))) eqn:Hp.
    + pose proof (prefix_line m (String c t) s Hm Ht Hp) as E. cbn [ends_with]. rewrite E, String.eqb_refl, orb_true_l.
      replace (String.length (m +:+ nl) - 1)%nat with (String.length (t +:+ nl))
        by (rewrite <- E, !string_length_app; cbn; lia).
      rewrite <- (string_app_assoc t nl s), replace_skip. unfold new. by rewrite !string_app_assoc.
    + cbn [all_chars] in Ht. apply andb_true_iff in Ht as [_ Ht]. rewrite (IH Ht). cbn [ends_with].
      destruct (String.eqb (String c t) m) eqn:E; [|reflexivity].
      apply String.eqb_eq in E. rewrite <- E in Hp.
      change (String c (t +:+ nl +:+ s)) with (String c t +:+ nl +:+ s) in Hp.
      by rewrite <- string_app_assoc, prefix_app_l in Hp.
Qed.

(** [fix_file] on lines: the imports' lines after the marker's. *)
Definition import_text : string := "import betterproto".

Definition fixed_lines (imports : list line) (lines : list line) : list line :=
  concat ((fun l => l :: if ends_with import_text (line_text l) then imports else []) <$> lines).

Definition is_line (l : line) : bool := all_chars not_newline (line_text l).

Lemma line_ok_is_line l : line_ok l = true -> is_line l = true.
Proof.
  destruct l as [name bases|t]; unfold is_line; cbn [line_ok line_text].
  - intros [[_ Hw]%andb_true_iff Hb]%andb_true_iff.
    by rewrite !all_chars_app, (all_chars_impl _ _ _ word_not_newline Hw).
  - by intros [-> _]%andb_true_iff.
Qed.

Lemma unlines_cons (x : string) (l : list string) : unlines (x :: l) = x +:+ nl +:+ unlines l.
Proof. reflexivity. Qed.

Lemma unlines_app (l1 l2 : list string) : unlines (l1 ++ l2) = unlines l1 +:+ unlines l2.
Proof. induction l1 as [|x l1 IH]; [done|]. cbn [app]. by rewrite !unlines_cons, IH, !string_app_assoc. Qed.

Lemma replace_lines (imports lines : list line) :
  forallb is_line lines = true ->
  str_replace marker (marker +:+ unlines (line_text <$> imports)) (unlines (line_text <$> lines)) =
  unlines (line_text <$> fixed_lines imports lines).
Proof.
  induction lines as [|l lines IH]; [done|]. cbn [forallb]. intros [Hl Hlines]%andb_true_iff.
  unfold marker in *. rewrite fmap_cons, unlines_cons.
  rewrite replace_line by done. rewrite (IH Hlines). unfold fixed_lines. rewrite fmap_cons. cbn [concat].
  rewrite fmap_app, unlines_app, fmap_cons, unlines_cons, !string_app_assoc.
  unfold import_text. by destruct (ends_with _ (line_text l)).
Qed.

(** Lines that declare nothing change no export. *)
Lemma fixed_lines_declared imports lines :
  omap declared imports = [] -> omap declared (fixed_lines imports lines) = omap declared lines.
Proof.
  intros Himports. induction lines as [|l lines IH]; [done|].
  unfold fixed_lines in *. rewrite fmap_cons. cbn [concat]. rewrite omap_app, IH.
  destruct (ends_with import_text (line_text l)); cbn; rewrite ?Himports; by destruct (declared l).
Qed.

Lemma fixed_lines_ok imports lines :
  forallb line_ok imports = true -> forallb line_ok lines = true -> forallb line_ok (fixed_lines imports lines) = true.
Proof.
  intros Hi. induction lines as [|l lines IH]; [done|]. cbn [forallb]. intros [Hl Hlines]%andb_true_iff.
  unfold fixed_lines in *. rewrite fmap_cons. cbn [concat]. rewrite forallb_app, (IH Hlines), andb_true_r.
  cbn [forallb]. rewrite Hl. by destruct (ends_with import_text (line_text l)).
Qed.

(** *** The script's own lines *)

Definition MESSAGES_IMPORT_LINES : list line :=
  Text <$> ["from .OpenApiModelMessages import ("] ++ ((fun name => "    " +:+ name +:+ ",") <$> IMPORTED_BY_MESSAGES) ++ [")"].

Definition COMMON_IMPORT_LINES : list line := [Text "from .OpenApiCommonModelMessages import ProtoPayloadType"].

Definition import_lines_ok (imports : string) (l : list line) : Prop :=
  imports = unlines (line_text <$> l) /\ forallb line_ok l = true /\ omap declared l = [] /\
  str_in "from .OpenApi" imports = true.

#[local] Transparent IMPORTS_FOR_MESSAGES IMPORTS_FOR_COMMON_MESSAGES.

Lemma messages_import_lines : import_lines_ok IMPORTS_FOR_MESSAGES MESSAGES_IMPORT_LINES.
Proof. unfold import_lines_ok. split_and!; vm_compute; reflexivity. Qed.

Lemma common_import_lines : import_lines_ok IMPORTS_FOR_COMMON_MESSAGES COMMON_IMPORT_LINES.
Proof. unfold import_lines_ok. split_and!; vm_compute; reflexivity. Qed.

#[local] Opaque IMPORTS_FOR_MESSAGES IMPORTS_FOR_COMMON_MESSAGES.

(** Whatever [fix_file] does to a module, its exports stay. *)
Lemma fix_file_exports imports l (lines : list line) :
  import_lines_ok imports l -> forallb line_ok lines = true ->
  extract_exports (fix_file (unlines (line_text <$> lines)) imports).2 = omap declared lines.
Proof.
  intros (-> & Hl & Hd & _) Hlines. unfold fix_file. destruct (str_in _ _); [by apply extract_declared|].
  destruct (str_in marker _); cbn [snd]; [|by apply extract_declared].
  rewrite replace_lines.
  - rewrite extract_declared; [by apply fixed_lines_declared|by apply fixed_lines_ok].
  - apply forallb_forall. intros x Hx. apply line_ok_is_line. rewrite forallb_forall in Hlines. by apply Hlines.
Qed.

(** *** Names sorted *)

#[local] Instance name_le_total : Total name_le.
Proof. intros a b. unfold name_le. destruct (String.leb_total a b); auto. Qed.

#[local] Instance name_le_antisym : AntiSymm eq name_le.
Proof. intros a b. apply String.leb_antisym. Qed.

Lemma name_le_cons c s c' s' :
  name_le (String c s) (String c' s') <->
  (Ascii.N_of_ascii c < Ascii.N_of_ascii c')%N \/ (c = c' /\ name_le s s').
Proof.
  unfold name_le, String.leb. cbn [String.compare]. unfold Ascii.compare.
  destruct (N.compare_spec (Ascii.N_of_ascii c) (Ascii.N_of_ascii c')) as [E|E|E].
  - assert (c = c') as <- by (rewrite <- (Ascii.ascii_N_embedding c), E; apply Ascii.ascii_N_embedding).
    split; [by right|]. intros [H|[_ H]]; [lia|done].
  - split; [by left|done].
  - split; [done|]. intros [H|[-> _]]; lia.
Qed.

#[local] Instance name_le_trans : Transitive name_le.
Proof.
  intros a. induction a as [|c a IH]; intros [|c' b] [|c'' d]; try done.
  rewrite !name_le_cons. intros [H1|[<- H1]] [H2|[<- H2]]; [left; lia|by left|by left|right].
  split; [done|by apply (IH b)].
Qed.

Lemma sorted_names_perm (l l' : list string) : l ≡ₚ l' -> sorted_names l = sorted_names l'.
Proof.
  intros H. unfold sorted_names. apply (StronglySorted_unique name_le).
  1, 2: apply (StronglySorted_merge_sort name_le _).
  by rewrite !merge_sort_Permutation.
Qed.

(** The text written depends on the names of each module, not on their order. *)
Lemma init_text_perm (e e' : list (string * list string)) :
  Forall2 (fun a b => a.1 = b.1 /\ a.2 ≡ₚ b.2) e e' -> init_text e = init_text e'.
Proof.
  intros H. unfold init_text.
  assert (H1 : import_lines <$> e = import_lines <$> e').
  { induction H as [|[m l] [m' l'] e e' [Hm Hl] _ IH]; [done|]. cbn [fst snd] in *. rewrite !fmap_cons, IH. f_equal.
    unfold import_lines. cbn [fst snd]. rewrite Hm, (sorted_names_perm l l' Hl).
    destruct l as [|x l]; [by apply Permutation_nil in Hl as ->|]. destruct l'; [|done].
    symmetry in Hl. by apply Permutation_nil in Hl. }
  assert (H2 : concat e.*2 ≡ₚ concat e'.*2).
  { clear H1. induction H as [|[m l] [m' l'] e e' [Hm Hl] _ IH]; [done|]. cbn in *. by rewrite Hl, IH. }
  by rewrite H1, (sorted_names_perm _ _ H2).
Qed.

(** *** The theorem *)

(** The package's modules, each with the names that [__init__.py] imports from it. *)
Definition PROTO : list (string * list string) := [
  ("OpenApiCommonModelMessages", proto_from_OpenApiCommonModelMessages);
  ("OpenApiCommonMessages", proto_from_OpenApiCommonMessages);
  ("OpenApiModelMessages", proto_from_OpenApiModelMessages);
  ("OpenApiMessages", proto_from_OpenApiMessages)].

(** What the compiler wrote: modules of lines that declare these names, in some order. *)
Definition generated (lines : string -> list line) (files : dict string string) : Prop :=
  forall m names, (m, names) ∈ PROTO ->
  dict_get m files = Some (unlines (line_text <$> lines m)) /\ forallb line_ok (lines m) = true /\
  omap declared (lines m) ≡ₚ names.

Lemma concat_PROTO : concat PROTO.*2 ≡ₚ proto_all.
Proof. apply same_names. vm_compute. reflexivity. Qed.

Lemma PROTO_modules : PROTO.*1 = modules.
Proof. reflexivity. Qed.

(** The classes that the fields of a class are annotated with. *)
Definition references (fields : list field) : list string :=
  omap (fun f => match f_type f with TEnum n | TMessage n => Some n | _ => None end) fields.

(** In a module of these names that also imports those, every annotation resolves. *)
Definition resolves (own foreign : list string) : bool :=
  forallb (fun c => negb (existsb (String.eqb c.1) own) || names_in (references c.2) (own ++ foreign)) MESSAGES.

Lemma annotations_resolve :
  resolves proto_from_OpenApiMessages IMPORTED_BY_MESSAGES && names_in IMPORTED_BY_MESSAGES proto_from_OpenApiModelMessages
  && resolves proto_from_OpenApiModelMessages []
  && resolves proto_from_OpenApiCommonMessages ["ProtoPayloadType"]
  && names_in ["ProtoPayloadType"] proto_from_OpenApiCommonModelMessages = true.
Proof. vm_compute. reflexivity. Qed.

Lemma resolves_spec own foreign c fields n :
  resolves own foreign = true -> (c, fields) ∈ MESSAGES -> c ∈ own -> n ∈ references fields -> n ∈ own \/ n ∈ foreign.
Proof.
  unfold resolves. rewrite forallb_forall. intros H Hc Hown Hn. apply list_elem_of_In, H in Hc. cbn [fst snd] in Hc.
  apply existsb_In in Hown. rewrite Hown in Hc. by apply elem_of_app, (proj1 (names_in_spec _ _) Hc).
Qed.

#[local] Opaque PROTO proto_all.

Lemma all_exports_found (files : dict string string) (names : string -> list string) :
  (forall m, m ∈ modules -> exists content, dict_get m files = Some content /\ extract_exports content = names m) ->
  all_exports files = (fun m => (m, names m)) <$> modules.
Proof.
  unfold all_exports. induction modules as [|m l IH]; intros H; [done|]. rewrite fmap_cons.
  destruct (H m) as (content & Hget & Hnames); [by left|]. cbn. rewrite Hget. cbn. rewrite Hnames. f_equal.
  apply IH. intros m' Hm'. apply H. by right.
Qed.

(** The exports that the fixed modules have. *)
Lemma fixed_exports lines files :
  generated lines files ->
  all_exports (fix_module "OpenApiCommonMessages" IMPORTS_FOR_COMMON_MESSAGES
                 (fix_module "OpenApiMessages" IMPORTS_FOR_MESSAGES files))
  = (fun m => (m, omap declared (lines m))) <$> modules.
Proof.
  intros Hg. apply (all_exports_found _ (fun m => omap declared (lines m))). intros m Hm.
  rewrite <- PROTO_modules in Hm. apply list_elem_of_fmap in Hm as ([m' names] & -> & Hin). cbn [fst].
  destruct (Hg _ _ Hin) as (Hget & Hok & _). rewrite !fix_module_get, Hget.
  pose proof (fix_file_exports _ _ _ messages_import_lines Hok) as H1.
  pose proof (fix_file_exports _ _ _ common_import_lines Hok) as H2.
  pose proof (extract_declared _ Hok) as H3.
  destruct (decide (m' = "OpenApiCommonMessages")) as [->|]; [|case_decide]; eexists; split; try reflexivity; done.
Qed.

(** Running the script twice is running it once. *)
Lemma main_idempotent files : main (main files) = main files.
Proof.
  set (F := fix_module "OpenApiCommonMessages" IMPORTS_FOR_COMMON_MESSAGES
              (fix_module "OpenApiMessages" IMPORTS_FOR_MESSAGES files)).
  assert (Hmain : main files = dict_set "__init__" (create_init F) F) by reflexivity. rewrite Hmain.
  assert (Hfix : forall m imports, m ≠ "__init__" -> str_in "from .OpenApi" imports = true ->
            (exists F', dict_get m F = dict_get m (fix_module m imports F')) ->
            fix_module m imports (dict_set "__init__" (create_init F) F) = dict_set "__init__" (create_init F) F).
  { intros m imports Hm Hi [F' HF]. apply fix_module_done. intros content. rewrite dict_get_set_ne, HF, fix_module_get by done.
    rewrite decide_True by done. destruct (dict_get m F') as [content'|]; [|done].
    intros [= <-]. by apply fix_file_twice. }
  unfold main. cbv zeta.
  rewrite (Hfix "OpenApiMessages"), (Hfix "OpenApiCommonMessages"); try done.
  - rewrite dict_set_set. f_equal. apply (f_equal init_text), all_exports_ext.
    intros m Hm. apply dict_get_set_ne. intros ->. unfold modules in Hm. set_solver.
  - by eexists.
  - exists files. unfold F. by rewrite fix_module_get.
Qed.

(** The script rebuilds the package. Run on the modules as the compiler leaves them, or
    on modules it already fixed, it leaves every declared class exported: the new
    [__init__.py] imports from each module exactly the names that the one in the repository
    imports, and lists in [__all__] exactly those, in whatever order the compiler declared
    them; running it again changes nothing; and with the imports it adds, every class that a
    field of a message is annotated with is defined in the message's module or imported
    there from the one that defines it. *)
Theorem main_rebuilds (files : dict string string) :
  main (main files) = main files /\
  (forall lines, generated lines files ->
   dict_get "__init__" (main files) = Some (init_text PROTO) /\ concat PROTO.*2 ≡ₚ proto_all) /\
  (forall c fields n, (c, fields) ∈ MESSAGES -> n ∈ references fields ->
     (c ∈ proto_from_OpenApiMessages -> n ∈ proto_from_OpenApiMessages \/
        n ∈ IMPORTED_BY_MESSAGES /\ n ∈ proto_from_OpenApiModelMessages) /\
     (c ∈ proto_from_OpenApiModelMessages -> n ∈ proto_from_OpenApiModelMessages) /\
     (c ∈ proto_from_OpenApiCommonMessages -> n ∈ proto_from_OpenApiCommonMessages \/ n = "ProtoPayloadType")).
Proof.
  split; [apply main_idempotent|]. split.
  2: { intros c fields n Hc Hn. pose proof annotations_resolve as H. rewrite !andb_true_iff in H.
    destruct H as [[[[H1 Hi] H2] H3] _]. split_and!; intros Hown.
    - destruct (resolves_spec _ _ _ _ _ H1 Hc Hown Hn) as [|Himp]; [by left|right].
      split; [done|by apply (proj1 (names_in_spec _ _) Hi)].
    - destruct (resolves_spec _ _ _ _ _ H2 Hc Hown Hn) as [|Hnil]; [done|by apply elem_of_nil in Hnil].
    - destruct (resolves_spec _ _ _ _ _ H3 Hc Hown Hn) as [|Hone]; [by left|right; by apply list_elem_of_singleton in Hone]. }
  intros lines Hg. split; [|apply concat_PROTO].
  unfold main. rewrite dict_get_set_eq. unfold create_init. rewrite (fixed_exports lines) by done.
  f_equal. apply init_text_perm. rewrite <- PROTO_modules, <- list_fmap_compose. apply Forall2_fmap_l.
  apply Forall_Forall2_diag, Forall_forall. intros [m names] Hin. split; [done|]. by apply (Hg m names).
Qed.

(** *** A compiler's output: a class per name, none with a body *)

#[local] Transparent PROTO proto_all.

Definition class_lines (names : list string) : list line :=
  [Text "import betterproto"; Text ""] ++ ((fun n => Decl n "betterproto.Message): ...") <$> names).

Definition sample_lines (m : string) : list line := class_lines (default [] (dict_get m PROTO)).

Definition sample_files : dict string string := (fun m => (m, unlines (line_text <$> sample_lines m))) <$> modules.

Lemma class_lines_declared names : omap declared (class_lines names) = names.
Proof. unfold class_lines. rewrite omap_app. cbn. induction names as [|n names IH]; [done|]. cbn. by rewrite IH. Qed.

Lemma sample_ok : forallb (fun m => forallb line_ok (sample_lines m)) modules = true.
Proof. vm_compute. reflexivity. Qed.

Lemma PROTO_get m names : (m, names) ∈ PROTO -> dict_get m PROTO = Some names.
Proof. apply dict_in_get. unfold dict_wf. apply (bool_decide_unpack _). vm_compute. exact I. Qed.

Lemma sample_get m : m ∈ modules -> dict_get m sample_files = Some (unlines (line_text <$> sample_lines m)).
Proof.
  unfold sample_files, modules. rewrite !elem_of_cons, elem_of_nil. intros H.
  repeat destruct H as [->|H]; [reflexivity..|done].
Qed.

Lemma sample_generated : generated sample_lines sample_files.
Proof.
  intros m names Hin.
  assert (Hm : m ∈ modules) by (rewrite <- PROTO_modules; apply list_elem_of_fmap; by exists (m, names)).
  pose proof sample_ok as Hok. rewrite forallb_forall in Hok.
  split; [by apply sample_get|]. split; [by apply Hok, list_elem_of_In|].
  unfold sample_lines. by rewrite (PROTO_get _ _ Hin), class_lines_declared.
Qed.

Lemma main_rebuilds_witness : dict_get "__init__" (main sample_files) = Some (init_text PROTO).
Proof. exact (proj1 (proj1 (proj2 (main_rebuilds sample_files)) sample_lines sample_generated)). Defined.
