(* ===== verification/Emitter.v ===== *)
(** * The event emitter ([events/emitter.py])

    Handlers are identified by a number, as [is] identifies them. [emit] is the list of
    calls it starts and the result of waiting for them all, for any behaviour of the
    handlers. *)

From S2P Require Import Prelude Errors Events.
From stdpp Require Import options.
Open Scope string_scope.
Open Scope list_scope.
Open Scope Z_scope.

Record Subscription := mk_subscription {
  sub_handler : Z;
  sub_account_id : option Z;
  sub_symbol_id : option Z;
}.

(** [EventEmitter._subscriptions] *)
Abbreviation EventEmitter := (dict event_type (list Subscription)).

Definition subscriptions_of (t : event_type) (em : EventEmitter) : list Subscription := default [] (dict_get t em).

(** [_validate_filter] *)
Definition validate_filter (t : event_type) (f : filter_field) : res () :=
  if has_field t f then Ok ()
  else Err (ValueError (type_name t +:+ " does not have a '" +:+ field_name f +:+
    "' field and cannot be filtered by it. Remove the " +:+ field_name f +:+ " parameter.")).

Definition subscribe (t : event_type) (handler : Z) (account_id symbol_id : option Z) (em : EventEmitter)
    : res EventEmitter :=
  _ ← (match account_id with Some _ => validate_filter t FAccountId | None => Ok () end);
  _ ← (match symbol_id with Some _ => validate_filter t FSymbolId | None => Ok () end);
  Ok (dict_set t (subscriptions_of t em ++ [mk_subscription handler account_id symbol_id]) em).

(** The loop of [unsubscribe]: the list without its first subscription of the handler. *)
Fixpoint remove_subscription (handler : Z) (l : list Subscription) : option (list Subscription) :=
  match l with
  | [] => None
  | s :: l' => if decide (sub_handler s = handler) then Some l' else cons s <$> remove_subscription handler l'
  end.

Definition unsubscribe (t : event_type) (handler : Z) (em : EventEmitter) : bool * EventEmitter :=
  match dict_get t em with
  | None => (false, em)
  | Some l =>
      match remove_subscription handler l with
      | Some l' => (true, dict_set t l' em)
      | None => (false, em)
      end
  end.

(** [sum(len(subs) for subs in ...)] *)
Definition total_subscriptions (em : EventEmitter) : nat := sum_list_with length em.*2.

Definition unsubscribe_all (t : option event_type) (em : EventEmitter) : nat * EventEmitter :=
  match t with
  | Some t => (length (subscriptions_of t em), dict_set t [] em)
  | None => (total_subscriptions em, [])
  end.

Definition subscription_count (t : option event_type) (em : EventEmitter) : nat :=
  match t with
  | Some t => length (subscriptions_of t em)
  | None => total_subscriptions em
  end.

(** [_matches_filter] *)
Definition matches_filter (e : event) (s : Subscription) : bool :=
  (match sub_account_id s with Some a => bool_decide (field_of FAccountId e = Some a) | None => true end) &&
  (match sub_symbol_id s with Some i => bool_decide (field_of FSymbolId e = Some i) | None => true end).

(** The subscriptions an event goes to. *)
Definition matching (e : event) (em : EventEmitter) : list Subscription :=
  filter (fun s => matches_filter e s = true) (subscriptions_of (type_of e) em).

(** [_deliver]: what the handler raises stays inside, unless it is the cancellation. *)
Definition deliver (behaviour : Z -> event -> res ()) (e : event) (s : Subscription) : res () :=
  match behaviour (sub_handler s) e with
  | Ok _ => Ok ()
  | Err x => if is_Exception x then Ok () else Err x
  end.

(** [emit]: the handlers it starts, and what waiting for the task group gives. *)
Definition emit_event (behaviour : Z -> event -> res ()) (e : event) (em : EventEmitter) : list (Z * event) * res () :=
  let subs := matching e em in
  ((fun s => (sub_handler s, e)) <$> subs, _ ← res_map (deliver behaviour e) subs; Ok ()).

(** ** Lemmas *)

#[local] Arguments has_field : simpl never.
#[local] Arguments field_of : simpl never.

Lemma subscriptions_of_set t t' l em :
  subscriptions_of t (dict_set t' l em) = if decide (t = t') then l else subscriptions_of t em.
Proof. unfold subscriptions_of. rewrite dict_get_set. by case_decide. Qed.

Lemma remove_subscription_spec h l l' :
  remove_subscription h l = Some l' ->
  exists l1 s l2, l = l1 ++ s :: l2 /\ l' = l1 ++ l2 /\ sub_handler s = h /\ Forall (fun s => sub_handler s ≠ h) l1.
Proof.
  revert l'. induction l as [|s l IH]; intros l'; simpl; [done|]. case_decide as Hs.
  - intros [= <-]. exists [], s, l. by repeat constructor.
  - destruct (remove_subscription h l) as [l0|]; simpl; [|done]. intros [= <-].
    destruct (IH _ eq_refl) as (l1 & s' & l2 & -> & -> & H1 & H2).
    exists (s :: l1), s', l2. split_and!; try done. by constructor.
Qed.

Lemma remove_subscription_None h l : remove_subscription h l = None <-> Forall (fun s => sub_handler s ≠ h) l.
Proof.
  induction l as [|s l IH]; simpl; [by split; [constructor|]|]. rewrite Forall_cons. case_decide as Hs.
  - split; [done|]. by intros [? _].
  - rewrite fmap_None, IH. split; [done|by intros [_ ?]].
Qed.

Lemma total_subscriptions_set t l em :
  (total_subscriptions (dict_set t l em) + length (subscriptions_of t em) = total_subscriptions em + length l)%nat.
Proof.
  unfold total_subscriptions, subscriptions_of. induction em as [|[t' l'] em IH]; csimpl; [lia|].
  case_decide; csimpl in *; lia.
Qed.

(** Whatever the handlers raise, waiting for them is normal. *)
Lemma emit_Ok (behaviour : Z -> event -> res ()) (e : event) (em : EventEmitter) :
  (forall h x, behaviour h e = Err x -> is_Exception x = true) -> (emit_event behaviour e em).2 = Ok ().
Proof.
  intros Hcancel. unfold emit_event. simpl. rewrite (res_map_total _ (fun _ => ())); [done|].
  intros s. unfold deliver. destruct (behaviour _ e) as [[]|x] eqn:E; [done|]. by rewrite (Hcancel _ _ E).
Qed.

(** ** Properties *)

(** Subscribing: it is refused exactly when it asks for a filter on a field the event
    class does not have, and otherwise adds one subscription, so that from then on an event
    of the class reaches the handler once more exactly when the filters agree with the
    event's fields, and events of every other class go where they went. *)
Theorem subscribe_spec (t : event_type) (h : Z) (account symbol : option Z) (em : EventEmitter) :
  match subscribe t h account symbol em with
  | Err x => (exists m, x = ValueError m) /\
      ((is_Some account /\ has_field t FAccountId = false) \/ (is_Some symbol /\ has_field t FSymbolId = false))
  | Ok em' =>
      (is_Some account -> has_field t FAccountId = true) /\ (is_Some symbol -> has_field t FSymbolId = true) /\
      (forall e, matching e em' = matching e em ++
        if bool_decide (type_of e = t) && bool_decide (account = None \/ account = field_of FAccountId e) &&
           bool_decide (symbol = None \/ symbol = field_of FSymbolId e)
        then [mk_subscription h account symbol] else []) /\
      subscription_count None em' = S (subscription_count None em)
  end.
Proof.
  unfold subscribe, validate_filter.
  assert (Hbad : forall f, has_field t f = false ->
    exists m, ValueError (type_name t +:+ " does not have a '" +:+ field_name f +:+
      "' field and cannot be filtered by it. Remove the " +:+ field_name f +:+ " parameter.") = ValueError m) by eauto.
  destruct (match account with Some _ => _ | None => _ end) as [[]|x] eqn:Ea; simpl.
  2: { destruct account; [|done]. destruct (has_field t FAccountId) eqn:Ef; [done|]. injection Ea as <-.
       split; [eauto|]. left. eauto. }
  destruct (match symbol with Some _ => _ | None => _ end) as [[]|x] eqn:Es; simpl.
  2: { destruct symbol; [|done]. destruct (has_field t FSymbolId) eqn:Ef; [done|]. injection Es as <-.
       split; [eauto|]. right. eauto. }
  split_and!.
  - intros [a ->]. by destruct (has_field t FAccountId).
  - intros [a ->]. by destruct (has_field t FSymbolId).
  - intros e. unfold matching. rewrite subscriptions_of_set.
    destruct (decide (type_of e = t)) as [<-|Hne]; [|rewrite bool_decide_false by done; by rewrite app_nil_r].
    rewrite bool_decide_true, filter_app by done. f_equal. simpl.
    assert (Hm : matches_filter e (mk_subscription h account symbol) =
      bool_decide (account = None \/ account = field_of FAccountId e) &&
      bool_decide (symbol = None \/ symbol = field_of FSymbolId e)).
    { unfold matches_filter. simpl. f_equal; [destruct account|destruct symbol]; repeat case_bool_decide; naive_solver. }
    rewrite filter_cons, Hm, filter_nil. by case_decide as Hd; destruct (_ && _).
  - unfold subscription_count. pose proof (total_subscriptions_set t
      (subscriptions_of t em ++ [mk_subscription h account symbol]) em) as Ht.
    rewrite length_app in Ht. simpl in Ht. lia.
Qed.

(** Unsubscribing removes one subscription of the handler, the oldest, and says so; when
    there is none it says that and changes nothing. *)
Theorem unsubscribe_spec (t : event_type) (h : Z) (em : EventEmitter) :
  match unsubscribe t h em with
  | (true, em') => exists l1 s l2,
      subscriptions_of t em = l1 ++ s :: l2 /\ sub_handler s = h /\ Forall (fun s => sub_handler s ≠ h) l1 /\
      subscriptions_of t em' = l1 ++ l2 /\ S (subscription_count None em') = subscription_count None em /\
      forall t', t' ≠ t -> subscriptions_of t' em' = subscriptions_of t' em
  | (false, em') => em' = em /\ Forall (fun s => sub_handler s ≠ h) (subscriptions_of t em)
  end.
Proof.
  unfold unsubscribe. destruct (dict_get t em) as [l|] eqn:E.
  - assert (Hl : subscriptions_of t em = l) by (unfold subscriptions_of; by rewrite E).
    destruct (remove_subscription h l) as [l'|] eqn:Er.
    + destruct (remove_subscription_spec _ _ _ Er) as (l1 & s & l2 & -> & -> & Hs & Hf).
      exists l1, s, l2. split_and!; try done.
      * by rewrite subscriptions_of_set, decide_True.
      * unfold subscription_count. pose proof (total_subscriptions_set t (l1 ++ l2) em) as Ht.
        rewrite Hl, !length_app in Ht. simpl in Ht. lia.
      * intros t' Ht. by rewrite subscriptions_of_set, decide_False.
    + split; [done|]. rewrite Hl. by apply remove_subscription_None.
  - split; [done|]. unfold subscriptions_of. rewrite E. constructor.
Qed.

(** Emitting: the handlers called are those of the matching subscriptions of the event's
    class, each once per subscription and in order, whatever any of them raises: unless a
    handler is cancelled, [emit] itself returns normally. *)
Theorem emit_isolated (behaviour : Z -> event -> res ()) (e : event) (em : EventEmitter)
    (Hcancel : forall h x, behaviour h e = Err x -> is_Exception x = true) :
  (emit_event behaviour e em).2 = Ok () /\
  (emit_event behaviour e em).1 = (fun s => (sub_handler s, e)) <$> matching e em /\
  (forall h, (h, e) ∈ (emit_event behaviour e em).1 <->
     exists s, s ∈ subscriptions_of (type_of e) em /\ sub_handler s = h /\
       (forall a, sub_account_id s = Some a -> field_of FAccountId e = Some a) /\
       (forall i, sub_symbol_id s = Some i -> field_of FSymbolId e = Some i)).
Proof.
  split_and!; [by apply emit_Ok|done|].
  - intros h. unfold emit_event, matching. simpl. rewrite list_elem_of_fmap.
    assert (Hm : forall s, matches_filter e s = true <->
      (forall a, sub_account_id s = Some a -> field_of FAccountId e = Some a) /\
      (forall i, sub_symbol_id s = Some i -> field_of FSymbolId e = Some i)).
    { intros s. unfold matches_filter. rewrite andb_true_iff.
      destruct (sub_account_id s), (sub_symbol_id s); rewrite ?bool_decide_eq_true; naive_solver. }
    setoid_rewrite list_elem_of_filter. setoid_rewrite Hm. naive_solver.
Qed.

Lemma emit_isolated_witness :
  (emit_event (fun _ _ => Err (ValueError "boom")) (ClientDisconnectEvent "bye")
     [(TClientDisconnect, [mk_subscription 1 None None; mk_subscription 2 None None])]) =
  ([(1, ClientDisconnectEvent "bye"); (2, ClientDisconnectEvent "bye")], Ok ()).
Proof.
  pose proof (emit_isolated (fun _ _ => Err (ValueError "boom")) (ClientDisconnectEvent "bye")
     [(TClientDisconnect, [mk_subscription 1 None None; mk_subscription 2 None None])]) as H.
  destruct H as (H1 & H2 & _); [intros h x [= <-]; reflexivity|].
  rewrite (surjective_pairing (emit_event _ _ _)). exact (f_equal2 pair H2 H1).
Defined.
