(* ===== verification/Router.v ===== *)
(** * The event router ([events/router.py], [events/_execution.py])

    One function per handler, from the wire message to what the handler does: publish an
    event, hand the account to recovery, or nothing. [start] and [stop] act on the
    protocol's handler table. *)

From S2P Require Import Prelude Errors Enums Numbers Wire Messages Protocol Registration Models Events.
From stdpp Require Import options.
Import Cls(msg_class) ExecutionType(execution_type) OrderSide(order_side).
Open Scope string_scope.
Open Scope list_scope.
Open Scope Z_scope.

(** ** Executions *)

Definition EXECUTION_TYPE_MAP : dict Z execution_type := [
  (ProtoOAExecutionType.ORDER_ACCEPTED, ExecutionType.ORDER_ACCEPTED);
  (ProtoOAExecutionType.ORDER_FILLED, ExecutionType.ORDER_FILLED);
  (ProtoOAExecutionType.ORDER_REPLACED, ExecutionType.ORDER_REPLACED);
  (ProtoOAExecutionType.ORDER_CANCELLED, ExecutionType.ORDER_CANCELLED);
  (ProtoOAExecutionType.ORDER_EXPIRED, ExecutionType.ORDER_EXPIRED);
  (ProtoOAExecutionType.ORDER_REJECTED, ExecutionType.ORDER_REJECTED);
  (ProtoOAExecutionType.ORDER_CANCEL_REJECTED, ExecutionType.ORDER_CANCEL_REJECTED);
  (ProtoOAExecutionType.SWAP, ExecutionType.SWAP);
  (ProtoOAExecutionType.DEPOSIT_WITHDRAW, ExecutionType.DEPOSIT_WITHDRAW);
  (ProtoOAExecutionType.ORDER_PARTIAL_FILL, ExecutionType.ORDER_PARTIAL_FILL);
  (ProtoOAExecutionType.BONUS_DEPOSIT_WITHDRAW, ExecutionType.BONUS_DEPOSIT_WITHDRAW)].

(** [proto.order.trade_data], a default instance where either is absent. *)
Definition order_trade_data (o : option ProtoOAOrder) : ProtoOATradeData :=
  default default_trade_data (or_trade_data (default default_order o)).

Definition execution_event_from_proto (now : datetime) (p : ProtoOAExecutionEvent) : res (option event) :=
  match dict_get (ex_execution_type p) EXECUTION_TYPE_MAP with
  | None => Ok None
  | Some exec_type =>
      let has_order := serialized_on_wire (ex_order p) in
      let has_position := serialized_on_wire (ex_position p) in
      let has_deal := serialized_on_wire (ex_deal p) in
      let td := order_trade_data (ex_order p) in
      let deal := default default_deal (ex_deal p) in
      let side :=
        if has_order && (td_trade_side td =? ProtoOATradeSide.SELL) then OrderSide.SELL else OrderSide.BUY in
      let order_id := if has_order then or_order_id (default default_order (ex_order p)) else 0 in
      let position_id :=
        if has_position then Some (po_position_id (default default_position (ex_position p))) else None in
      let symbol_id := if has_order then td_symbol_id td else 0 in
      let filled_volume := if has_deal then int_or_None (de_filled_volume deal) else None in
      let fill_price := if has_deal then price_or_None (de_execution_price deal) else None in
      timestamp ← (if has_deal then datetime_or now (de_execution_timestamp deal) else Ok now);
      Ok $ Some (ExecutionEvent (ex_ctid_trader_account_id p) exec_type order_id position_id symbol_id side
        filled_volume fill_price timestamp (ex_is_server_event p) (str_or_None (ex_error_code p)))
  end.

(** ** Handlers *)

(** What a handler does, apart from raising. *)
Inductive routed := Publish (e : event) | Recover (account_id : Z) | Ignore.

(** [proto.bid / Decimal(100000) if proto.bid else None] *)
Definition spot_price (n : Z) : option decimal := scaled_or_None n PRICE_SCALE.

Definition handle_spot (now : datetime) (p : ProtoOASpotEvent) : res routed :=
  trendbars ← res_map (fun tb => Trendbar_from_proto now tb (Some (Decimal_int (sp_bid p))) false) (sp_trendbar p);
  timestamp ← datetime_or now (sp_timestamp p);
  Ok (Publish (SpotEvent (sp_ctid_trader_account_id p) (sp_symbol_id p) (spot_price (sp_bid p))
    (spot_price (sp_ask p)) trendbars timestamp)).

Definition handle_execution (now : datetime) (p : ProtoOAExecutionEvent) : res routed :=
  event ← execution_event_from_proto now p;
  Ok (match event with Some e => Publish e | None => Ignore end).

Definition handle_order_error (p : ProtoOAOrderErrorEvent) : routed :=
  Publish (OrderErrorEvent (oe_ctid_trader_account_id p) (int_or_None (oe_order_id p))
    (int_or_None (oe_position_id p)) (oe_error_code p) (oe_description p)).

Definition handle_trader_update (account_id : Z) (trader : option ProtoOATrader) : routed :=
  match trader with
  | None => Ignore
  | Some t => Publish (TraderUpdateEvent account_id (tr_balance t) (int_or_None (tr_leverage_in_cents t))
      (money_digits_or_default (tr_money_digits t)))
  end.

Definition handle_margin_change (account_id position_id used_margin money_digits : Z) : routed :=
  Publish (MarginChangeEvent account_id position_id used_margin (money_digits_or_default money_digits)).

(** One turn of the quote loop. *)
Definition depth_quote (q : ProtoOADepthQuote) : option DepthQuote :=
  if negb (dq_bid q =? 0) then Some (mk_depth_quote (dq_id q) (dq_bid q) (dq_size q) true)
  else if negb (dq_ask q =? 0) then Some (mk_depth_quote (dq_id q) (dq_ask q) (dq_size q) false)
  else None.

Definition handle_depth (p : ProtoOADepthEvent) : routed :=
  Publish (DepthEvent (dp_ctid_trader_account_id p) (dp_symbol_id p) (omap depth_quote (dp_new_quotes p))
    (dp_deleted_quotes p)).

(** [reason or "Unknown"] *)
Definition reason_or_unknown (reason : string) : string := default "Unknown" (str_or_None reason).

Definition handle_token_invalidated (account_ids : list Z) (reason : string) : routed :=
  Publish (TokenInvalidatedEvent account_ids (reason_or_unknown reason)).

Definition handle_client_disconnect (reason : string) : routed :=
  Publish (ClientDisconnectEvent (reason_or_unknown reason)).

Definition handle_account_disconnect_message (account_id : Z) : routed := Recover account_id.

Definition handle_symbol_changed (account_id : Z) (symbol_ids : list Z) : routed :=
  Publish (SymbolChangedEvent account_id symbol_ids).

Definition handle_trailing_stop_changed (p : ProtoOATrailingSLChangedEvent) : res routed :=
  timestamp ← timestamp_to_datetime (ts_utc_last_update_timestamp p);
  Ok (Publish (TrailingStopChangedEvent (ts_ctid_trader_account_id p) (ts_position_id p) (ts_order_id p)
    (decimal_of_float (ts_stop_price p)) timestamp)).

Definition handle_margin_call_trigger (account_id : Z) (margin_call : option ProtoOAMarginCall) : routed :=
  let mc := default default_margin_call margin_call in
  Publish (MarginCallTriggerEvent account_id (mc_margin_call_type mc)
    (decimal_of_float (mc_margin_level_threshold mc))).

(** ** Registration *)

(** The registrations of [start], each handler by its place in the list. *)
Definition ROUTES : list (msg_class * handler) := [
  (Cls.ProtoOASpotEvent, 1);
  (Cls.ProtoOAExecutionEvent, 2);
  (Cls.ProtoOAOrderErrorEvent, 3);
  (Cls.ProtoOATraderUpdatedEvent, 4);
  (Cls.ProtoOAMarginChangedEvent, 5);
  (Cls.ProtoOADepthEvent, 6);
  (Cls.ProtoOAAccountsTokenInvalidatedEvent, 7);
  (Cls.ProtoOAClientDisconnectEvent, 8);
  (Cls.ProtoOAAccountDisconnectEvent, 9);
  (Cls.ProtoOASymbolChangedEvent, 10);
  (Cls.ProtoOATrailingSLChangedEvent, 11);
  (Cls.ProtoOAMarginCallTriggerEvent, 12)].

(** The handler behind a number, on a message; [None] where the registration does not
    match the message, which [router_routes] excludes. *)
Definition run_route (now : datetime) (h : handler) (m : message) : option (res routed) :=
  match h, m with
  | 1, MSpotEvent p => Some (handle_spot now p)
  | 2, MExecutionEvent p => Some (handle_execution now p)
  | 3, MOrderErrorEvent p => Some (Ok (handle_order_error p))
  | 4, MTraderUpdatedEvent a t => Some (Ok (handle_trader_update a t))
  | 5, MMarginChangedEvent a p u d => Some (Ok (handle_margin_change a p u d))
  | 6, MDepthEvent p => Some (Ok (handle_depth p))
  | 7, MAccountsTokenInvalidatedEvent l r => Some (Ok (handle_token_invalidated l r))
  | 8, MClientDisconnectEvent r => Some (Ok (handle_client_disconnect r))
  | 9, MAccountDisconnectEvent a => Some (Ok (handle_account_disconnect_message a))
  | 10, MSymbolChangedEvent a l => Some (Ok (handle_symbol_changed a l))
  | 11, MTrailingSLChangedEvent p => Some (handle_trailing_stop_changed p)
  | 12, MMarginCallTriggerEvent a mc => Some (Ok (handle_margin_call_trigger a mc))
  | _, _ => None
  end.

Definition route_registrations : list registration := prod_map KClass id <$> ROUTES.

(** [start] and [stop], on the disposers kept (one per registration) and the protocol. *)
Definition router_start (disposers : list registration) (p : Protocol) : list registration * Protocol :=
  match disposers with
  | _ :: _ => (disposers, p)
  | [] => (route_registrations, register route_registrations p)
  end.

Definition router_stop (disposers : list registration) (p : Protocol) : list registration * Protocol :=
  ([], dispose disposers p).

(** [is_started]: some registration to undo. *)
Definition is_started (disposers : list registration) : bool := negb (bool_decide (disposers = [])).

(** ** What the messages mean

    The contract of the router, from the side of the wire: for each class of message, what
    the subscribers are told, field by field. None of the converters above is used. *)
Section meaning.
Context (now : datetime).

(** Fields that are absent when they are zero or empty on the wire. *)
Definition zero_absent (x : option Z) (n : Z) : Prop :=
  match x with Some k => k = n /\ n ≠ 0 | None => n = 0 end.
Definition empty_absent (x : option string) (s : string) : Prop :=
  match x with Some s' => s' = s /\ s ≠ "" | None => s = "" end.
Definition rate_absent (x : option decimal) (f : double) : Prop :=
  match x with Some d => d = decimal_of_float f /\ float_truthy f = true | None => float_truthy f = false end.

(** A price of a spot: the wire integer over 100000, exactly. *)
Definition quoted (x : option decimal) (n : Z) : Prop :=
  match x with Some d => n ≠ 0 /\ (Z.abs n < 10 ^ PREC -> is_scaled d n 5) | None => n = 0 end.

(** The time of an event: the message's, or the present when it gives none. *)
Definition stamped (ms : Z) (t : datetime) : Prop :=
  (ms = 0 /\ t = now) \/ (ms ≠ 0 /\ timestamp_to_datetime ms = Ok t).
Definition unstampable (ms : Z) : Prop := exists x, timestamp_to_datetime ms = Err x.

(** A live bar: its minute, its period by number, counted from one, and its prices over
    100000, exactly: the low, the others as distances from it, and the bid as the close. *)
Definition hundred_thousandths (d : decimal) (n : Z) : Prop := Z.abs n < 10 ^ PREC -> is_scaled d n 5.
Definition periods : list TrendbarPeriod.trendbar_period :=
  [TrendbarPeriod.M1; TrendbarPeriod.M2; TrendbarPeriod.M3; TrendbarPeriod.M4; TrendbarPeriod.M5; TrendbarPeriod.M10;
   TrendbarPeriod.M15; TrendbarPeriod.M30; TrendbarPeriod.H1; TrendbarPeriod.H4; TrendbarPeriod.H12; TrendbarPeriod.D1;
   TrendbarPeriod.W1; TrendbarPeriod.MN1].
Definition live_bar (bid : Z) (tb : ProtoOATrendbar) (t : Trendbar) : Prop :=
  (tb_utc_timestamp_in_minutes tb = 0 /\ t_timestamp t = now \/
   tb_utc_timestamp_in_minutes tb ≠ 0 /\
     datetime_of_int_seconds (tb_utc_timestamp_in_minutes tb * 60) = Ok (t_timestamp t)) /\
  t_period t = nth (Z.to_nat (tb_period tb - 1)) periods TrendbarPeriod.M1 /\
  hundred_thousandths (t_low t) (tb_low tb) /\
  hundred_thousandths (t_open t) (tb_low tb + tb_delta_open tb) /\
  hundred_thousandths (t_high t) (tb_low tb + tb_delta_high tb) /\
  hundred_thousandths (t_close t) bid /\
  t_volume t = tb_volume tb.

(** [ExecutionType] by its number on the wire. *)
Definition execution_number (t : execution_type) : Z :=
  match t with
  | ExecutionType.ORDER_ACCEPTED => 2 | ExecutionType.ORDER_FILLED => 3 | ExecutionType.ORDER_REPLACED => 4
  | ExecutionType.ORDER_CANCELLED => 5 | ExecutionType.ORDER_EXPIRED => 6 | ExecutionType.ORDER_REJECTED => 7
  | ExecutionType.ORDER_CANCEL_REJECTED => 8 | ExecutionType.SWAP => 9 | ExecutionType.DEPOSIT_WITHDRAW => 10
  | ExecutionType.ORDER_PARTIAL_FILL => 11 | ExecutionType.BONUS_DEPOSIT_WITHDRAW => 12
  end.

(** The quotes of a depth message: a bid before an ask, and nothing for neither. *)
Inductive depth_quotes : list ProtoOADepthQuote -> list DepthQuote -> Prop :=
  | quotes_nil : depth_quotes [] []
  | quotes_bid q l l' : dq_bid q ≠ 0 -> depth_quotes l l' ->
      depth_quotes (q :: l) (mk_depth_quote (dq_id q) (dq_bid q) (dq_size q) true :: l')
  | quotes_ask q l l' : dq_bid q = 0 -> dq_ask q ≠ 0 -> depth_quotes l l' ->
      depth_quotes (q :: l) (mk_depth_quote (dq_id q) (dq_ask q) (dq_size q) false :: l')
  | quotes_unpriced q l l' : dq_bid q = 0 -> dq_ask q = 0 -> depth_quotes l l' -> depth_quotes (q :: l) l'.

Definition execution_means (p : ProtoOAExecutionEvent) (t : execution_type) (oid : Z) (pid : option Z) (sid : Z)
    (side : order_side) (vol : option Z) (price : option decimal) (ts : datetime) : Prop :=
  ex_execution_type p = execution_number t /\
  match ex_order p with
  | Some o => oid = or_order_id o /\
      match or_trade_data o with
      | Some td => sid = td_symbol_id td /\ side = (if td_trade_side td =? 2 then OrderSide.SELL else OrderSide.BUY)
      | None => sid = 0 /\ side = OrderSide.BUY
      end
  | None => oid = 0 /\ sid = 0 /\ side = OrderSide.BUY
  end /\
  pid = po_position_id <$> ex_position p /\
  match ex_deal p with
  | Some d => zero_absent vol (de_filled_volume d) /\ rate_absent price (de_execution_price d) /\
      stamped (de_execution_timestamp d) ts
  | None => vol = None /\ price = None /\ ts = now
  end.

(** Nothing comes of a message of another class, of an execution of a type nobody knows, of
    a trader update without a trader, and of a message that carries an impossible time. *)
Definition message_means (m : message) (r : routed) : Prop :=
  match m, r with
  | MSpotEvent p, Publish (SpotEvent a s bid ask bars ts) =>
      a = sp_ctid_trader_account_id p /\ s = sp_symbol_id p /\ quoted bid (sp_bid p) /\ quoted ask (sp_ask p) /\
      Forall2 (live_bar (sp_bid p)) (sp_trendbar p) bars /\ stamped (sp_timestamp p) ts
  | MSpotEvent p, Ignore =>
      unstampable (sp_timestamp p) \/
      exists tb x, tb ∈ sp_trendbar p /\ datetime_of_int_seconds (tb_utc_timestamp_in_minutes tb * 60) = Err x
  | MExecutionEvent p, Publish (ExecutionEvent a t oid pid sid side vol price ts srv code) =>
      a = ex_ctid_trader_account_id p /\ execution_means p t oid pid sid side vol price ts /\
      srv = ex_is_server_event p /\ empty_absent code (ex_error_code p)
  | MExecutionEvent p, Ignore =>
      (forall t, ex_execution_type p ≠ execution_number t) \/
      exists d, ex_deal p = Some d /\ unstampable (de_execution_timestamp d)
  | MOrderErrorEvent p, Publish (OrderErrorEvent a oid pid code description) =>
      a = oe_ctid_trader_account_id p /\ zero_absent oid (oe_order_id p) /\ zero_absent pid (oe_position_id p) /\
      code = oe_error_code p /\ description = oe_description p
  | MTraderUpdatedEvent a None, Ignore => True
  | MTraderUpdatedEvent a (Some t), Publish (TraderUpdateEvent a' balance leverage digits) =>
      a' = a /\ balance = tr_balance t /\ zero_absent leverage (tr_leverage_in_cents t) /\
      digits = (if tr_money_digits t =? 0 then 2 else tr_money_digits t)
  | MMarginChangedEvent a p u d, Publish (MarginChangeEvent a' p' u' d') =>
      a' = a /\ p' = p /\ u' = u /\ d' = (if d =? 0 then 2 else d)
  | MDepthEvent p, Publish (DepthEvent a s qs del) =>
      a = dp_ctid_trader_account_id p /\ s = dp_symbol_id p /\ depth_quotes (dp_new_quotes p) qs /\
      del = dp_deleted_quotes p
  | MAccountsTokenInvalidatedEvent l reason, Publish (TokenInvalidatedEvent l' reason') =>
      l' = l /\ reason' = (if decide (reason = "") then "Unknown" else reason)
  | MClientDisconnectEvent reason, Publish (ClientDisconnectEvent reason') =>
      reason' = (if decide (reason = "") then "Unknown" else reason)
  | MAccountDisconnectEvent a, Recover a' => a' = a
  | MSymbolChangedEvent a l, Publish (SymbolChangedEvent a' l') => a' = a /\ l' = l
  | MTrailingSLChangedEvent p, Publish (TrailingStopChangedEvent a pid oid stop ts) =>
      a = ts_ctid_trader_account_id p /\ pid = ts_position_id p /\ oid = ts_order_id p /\
      stop = decimal_of_float (ts_stop_price p) /\ timestamp_to_datetime (ts_utc_last_update_timestamp p) = Ok ts
  | MTrailingSLChangedEvent p, Ignore => unstampable (ts_utc_last_update_timestamp p)
  | MMarginCallTriggerEvent a mc, Publish (MarginCallTriggerEvent a' type threshold) =>
      let mc := default default_margin_call mc in
      a' = a /\ type = mc_margin_call_type mc /\ threshold = decimal_of_float (mc_margin_level_threshold mc)
  | (MSpotEvent _ | MExecutionEvent _ | MOrderErrorEvent _ | MTraderUpdatedEvent _ _ | MMarginChangedEvent _ _ _ _
    | MDepthEvent _ | MAccountsTokenInvalidatedEvent _ _ | MClientDisconnectEvent _ | MAccountDisconnectEvent _
    | MSymbolChangedEvent _ _ | MTrailingSLChangedEvent _ | MMarginCallTriggerEvent _ _), _ => False
  | _, Ignore => True
  | _, _ => False
  end.
End meaning.

(** ** Lemmas *)

Lemma spot_price_spec (n : Z) :
  in_int64 n -> match spot_price n with Some d => n ≠ 0 /\ is_scaled d n 5 | None => n = 0 end.
Proof.
  intros Hn. unfold spot_price, scaled_or_None. destruct (Z.eqb_spec n 0); [done|].
  split; [done|]. by apply scaled_price, in_int64_digits.
Qed.

(** A live bar of a spot event always has a close to fall back on: only its minute can be
    refused. *)
Lemma live_trendbar (now : datetime) (tb : ProtoOATrendbar) (bid : Z) :
  match Trendbar_from_proto now tb (Some (Decimal_int bid)) false with
  | Ok t => t_close t = scaled bid PRICE_SCALE /\ t_low t = scaled (tb_low tb) PRICE_SCALE
  | Err x => datetime_of_int_seconds (tb_utc_timestamp_in_minutes tb * 60) = Err x
  end.
Proof.
  unfold Trendbar_from_proto. destruct (if tb_utc_timestamp_in_minutes tb =? 0 then _ else _) as [ts|x] eqn:E;
    cbn [mbind res_bind]; [by rewrite dec_div_int by done|by case_match].
Qed.

Lemma datetime_or_spec (now : datetime) (ms : Z) :
  match datetime_or now ms with Ok t => stamped now ms t | Err x => timestamp_to_datetime ms = Err x end.
Proof.
  unfold datetime_or, stamped. destruct (Z.eqb_spec ms 0) as [->|Hne]; [by left|].
  destruct (timestamp_to_datetime ms) eqn:E; auto.
Qed.

(** What makes a conversion fail. *)
Lemma handle_spot_Err now p x :
  handle_spot now p = Err x ->
  timestamp_to_datetime (sp_timestamp p) = Err x \/
  exists tb, tb ∈ sp_trendbar p /\ datetime_of_int_seconds (tb_utc_timestamp_in_minutes tb * 60) = Err x.
Proof.
  unfold handle_spot. destruct (res_map _ _) as [bars|y] eqn:E; cbn [mbind res_bind].
  - pose proof (datetime_or_spec now (sp_timestamp p)) as Ht.
    destruct (datetime_or _ _) as [ts|y]; cbn [mbind res_bind]; [done|]. intros [= <-]. by left.
  - intros [= <-]. right. apply res_map_Err in E as (tb & Htb & Hx). exists tb. split; [done|].
    pose proof (live_trendbar now tb (sp_bid p)) as H. by rewrite Hx in H.
Qed.

Lemma handle_execution_Err now p x :
  handle_execution now p = Err x ->
  exists d, ex_deal p = Some d /\ timestamp_to_datetime (de_execution_timestamp d) = Err x.
Proof.
  unfold handle_execution, execution_event_from_proto. destruct (dict_get _ _); [|done].
  destruct (ex_deal p) as [d|]; [|done]. simpl. pose proof (datetime_or_spec now (de_execution_timestamp d)) as Ht.
  destruct (datetime_or _ _); [done|]. intros [= <-]. eauto.
Qed.

(** The routes of a class, and of the base class. *)
Lemma routes_of_class c :
  (filter (fun kh : registration => KClass c = kh.1) route_registrations).*2 =
  match dict_get c ROUTES with Some h => [h] | None => [] end.
Proof. unfold route_registrations, ROUTES. destruct c; reflexivity. Qed.

Lemma routes_of_base : filter (fun kh : registration => KMessage = kh.1) route_registrations = [].
Proof. done. Qed.

(** What a message comes to: the conversion its class is registered for, if it succeeds. *)
Definition converted (now : datetime) (m : message) : routed :=
  match dict_get (class_of m) ROUTES with
  | Some h => match run_route now h m with Some (Ok r) => r | _ => Ignore end
  | None => Ignore
  end.

(** Every message of a routed class is the one its handler takes. *)
Lemma route_fits now h m :
  dict_get (class_of m) ROUTES = Some h -> (forall c raw, m ≠ MOther c raw) -> is_Some (run_route now h m).
Proof.
  intros Hh Hm. destruct m; simpl in Hh; try done; try (injection Hh as <-; simpl; eauto). by destruct (Hm c raw).
Qed.

(** The converters, one by one, against the contract. *)
Lemma zero_absent_int (n : Z) : zero_absent (int_or_None n) n.
Proof. by destruct n. Qed.

Lemma empty_absent_str (s : string) : empty_absent (str_or_None s) s.
Proof. by destruct s. Qed.

Lemma rate_absent_price (f : double) : rate_absent (price_or_None f) f.
Proof. unfold rate_absent, price_or_None. by destruct (float_truthy f). Qed.

Lemma quoted_spot (n : Z) : quoted (spot_price n) n.
Proof.
  unfold quoted, spot_price, scaled_or_None. destruct (Z.eqb_spec n 0); [done|]. split; [done|apply scaled_price].
Qed.

Lemma depth_quotes_omap (l : list ProtoOADepthQuote) : depth_quotes l (omap depth_quote l).
Proof.
  induction l as [|q l IH]; [constructor|]. csimpl. unfold depth_quote at 1.
  destruct (Z.eqb_spec (dq_bid q) 0); simpl; [|by constructor].
  destruct (Z.eqb_spec (dq_ask q) 0); simpl; by constructor.
Qed.

Lemma reason_or_unknown_spec (s : string) : reason_or_unknown s = if decide (s = "") then "Unknown" else s.
Proof. destruct s; by case_decide. Qed.

Lemma execution_type_number (n : Z) :
  match dict_get n EXECUTION_TYPE_MAP with
  | Some t => n = execution_number t
  | None => forall t, n ≠ execution_number t
  end.
Proof.
  destruct (dict_get n EXECUTION_TYPE_MAP) as [t|] eqn:E.
  - apply dict_get_Some_in in E. unfold EXECUTION_TYPE_MAP in E. set_unfold. by repeat destruct E as [E|E]; simplify_eq.
  - intros t ->. by destruct t.
Qed.

Lemma execution_converted (now : datetime) (p : ProtoOAExecutionEvent) :
  message_means now (MExecutionEvent p) (match handle_execution now p with Ok r => r | Err _ => Ignore end).
Proof.
  unfold handle_execution, execution_event_from_proto. pose proof (execution_type_number (ex_execution_type p)) as Ht.
  destruct (dict_get _ _) as [t|]; [|by left]. unfold order_trade_data.
  assert (Hts : match (if serialized_on_wire (ex_deal p)
      then datetime_or now (de_execution_timestamp (default default_deal (ex_deal p))) else Ok now) with
    | Ok ts => match ex_deal p with Some d => stamped now (de_execution_timestamp d) ts | None => ts = now end
    | Err x => exists d, ex_deal p = Some d /\ unstampable (de_execution_timestamp d) end).
  { destruct (ex_deal p) as [d|]; [|done]. simpl. pose proof (datetime_or_spec now (de_execution_timestamp d)) as H.
    destruct (datetime_or _ _); [done|]. exists d. split; [done|]. by eexists. }
  destruct (if serialized_on_wire (ex_deal p) then _ else _) as [ts|x]; simpl; [|by right].
  unfold execution_means. split_and!; [done|done| |by destruct (ex_position p)| |done|apply empty_absent_str].
  - destruct (ex_order p) as [o|]; simpl; [|done]. destruct (or_trade_data o) as [td|]; simpl; [|done].
    by unfold ProtoOATradeSide.SELL.
  - destruct (ex_deal p); simpl; [|done]. split_and!; [apply zero_absent_int|apply rate_absent_price|done].
Qed.

Lemma period_read (n : Z) :
  dict_get_or n TrendbarPeriod.M1 PERIOD_MAP = nth (Z.to_nat (n - 1)) periods TrendbarPeriod.M1.
Proof.
  unfold dict_get_or. destruct (dict_get n PERIOD_MAP) as [t|] eqn:E.
  - apply dict_get_Some_in in E. unfold PERIOD_MAP in E. set_unfold. by repeat destruct E as [E|E]; simplify_eq.
  - destruct (decide (1 <= n <= 14)) as [Hn|Hn].
    + assert (H : n ∈ PERIOD_MAP.*1); [|by apply dict_get_None in E].
      assert (Hin : n ∈ seqZ 1 14) by (apply elem_of_seqZ; lia). exact Hin.
    + destruct (decide (n <= 0)); [by replace (Z.to_nat (n - 1)) with 0%nat by lia|].
      rewrite nth_overflow; [done|]. simpl. lia.
Qed.

Lemma live_bar_converted (now : datetime) (tb : ProtoOATrendbar) (bid : Z) (t : Trendbar) :
  Trendbar_from_proto now tb (Some (Decimal_int bid)) false = Ok t -> live_bar now bid tb t.
Proof.
  unfold Trendbar_from_proto, live_bar, hundred_thousandths. destruct (Z.eqb_spec (tb_utc_timestamp_in_minutes tb) 0) as [E|E];
    [|destruct (datetime_of_int_seconds _); [|done]]; cbn [mbind res_bind]; rewrite dec_div_int by done;
    intros [= <-]; simpl; split_and!; auto using scaled_price, period_read.
Qed.

Lemma spot_converted (now : datetime) (p : ProtoOASpotEvent) :
  message_means now (MSpotEvent p) (match handle_spot now p with Ok r => r | Err _ => Ignore end).
Proof.
  destruct (handle_spot now p) as [r|x] eqn:E.
  2: { apply handle_spot_Err in E as [Hx|(tb & ? & ?)]; [left; by eexists|right; eauto]. }
  revert E. unfold handle_spot. destruct (res_map _ _) as [bars|] eqn:E; cbn [mbind res_bind]; [|done].
  pose proof (datetime_or_spec now (sp_timestamp p)) as Ht. destruct (datetime_or _ _); [|done]. intros [= <-].
  split_and!; [done..|apply quoted_spot|apply quoted_spot| |done].
  eapply Forall2_impl; [by apply res_map_Ok|]. intros tb t. apply live_bar_converted.
Qed.

(** A converter that raises raises an [Exception], which the dispatcher catches. *)
Lemma timestamp_Exception (ms : Z) (x : exn) : timestamp_to_datetime ms = Err x -> is_Exception x = true.
Proof. apply datetime_of_float_Exception. Qed.

Lemma handle_trailing_stop_changed_Exception p x :
  handle_trailing_stop_changed p = Err x -> is_Exception x = true.
Proof.
  unfold handle_trailing_stop_changed. destruct (timestamp_to_datetime _) eqn:E; simpl; [done|].
  intros [= <-]. by eapply timestamp_Exception.
Qed.

Lemma run_route_Exception now h m x : run_route now h m = Some (Err x) -> is_Exception x = true.
Proof.
  intros H. unfold run_route in H. repeat (case_match; try discriminate); injection H as H.
  - by eapply handle_trailing_stop_changed_Exception.
  - apply handle_execution_Err in H as (d & _ & Hx). by eapply timestamp_Exception.
  - apply handle_spot_Err in H as [Hx|(tb & _ & Hx)]; eauto using timestamp_Exception, datetime_at_Exception.
Qed.

(** The router does what the messages mean. *)
Lemma converted_means (now : datetime) (m : message) : message_means now m (converted now m).
Proof.
  destruct m; try exact I;
    try (unfold converted; simpl; split_and!; auto using zero_absent_int, depth_quotes_omap, reason_or_unknown_spec; fail).
  - exact (execution_converted now r).
  - exact (spot_converted now r).
  - destruct trader; [|exact I]. split_and!; auto using zero_absent_int.
  - exact (reason_or_unknown_spec reason).
  - done.
  - unfold converted. simpl. unfold handle_trailing_stop_changed.
    destruct (timestamp_to_datetime _) eqn:E; simpl; [done|]. by eexists.
  - assert (E : converted now (MOther c raw) = Ignore); [|by rewrite E].
    unfold converted. cbn [class_of]. destruct (dict_get c ROUTES) as [h|]; [|done].
    assert (E : run_route now h (MOther c raw) = None) by (unfold run_route; by repeat case_match). by rewrite E.
Qed.

(** ** Properties *)

(** Spots: every price of the event is the wire integer over 100000, exactly, and one that
    is zero on the wire is reported as absent; the bars are converted in order; and only an
    impossible time, of the message or of a bar, keeps the event from being published. *)
Theorem spot_event_spec (now : datetime) (p : ProtoOASpotEvent)
    (Hbid : in_int64 (sp_bid p)) (Hask : in_int64 (sp_ask p)) :
  match handle_spot now p with
  | Ok r => exists bid ask bars ts,
      r = Publish (SpotEvent (sp_ctid_trader_account_id p) (sp_symbol_id p) bid ask bars ts) /\
      is_scaled_or_None bid (sp_bid p) 5 /\ is_scaled_or_None ask (sp_ask p) 5 /\
      Forall2 (fun tb t => t_low t = scaled (tb_low tb) PRICE_SCALE /\ is_scaled (t_close t) (sp_bid p) 5)
        (sp_trendbar p) bars /\ stamped now (sp_timestamp p) ts
  | Err x =>
      timestamp_to_datetime (sp_timestamp p) = Err x \/
      exists tb, tb ∈ sp_trendbar p /\ datetime_of_int_seconds (tb_utc_timestamp_in_minutes tb * 60) = Err x
  end.
Proof.
  destruct (handle_spot now p) as [r|x] eqn:Er; [|by eapply handle_spot_Err]. revert Er.
  unfold handle_spot. destruct (res_map _ _) as [bars|x] eqn:E; cbn [mbind res_bind]; [|done].
  pose proof (datetime_or_spec now (sp_timestamp p)) as Ht.
  destruct (datetime_or _ _) as [ts|x]; cbn [mbind res_bind]; [|done]. intros [= <-].
  do 4 eexists. split; [done|]. split_and!; [by apply spot_price_spec..| |done].
  apply res_map_Ok in E. eapply Forall2_impl; [exact E|]. intros tb t Hb.
  pose proof (live_trendbar now tb (sp_bid p)) as H. rewrite Hb in H. destruct H as [-> ->].
  split; [done|]. by apply scaled_price, in_int64_digits.
Qed.

Lemma spot_event_spec_witness :
  exists bid ask bars ts,
    handle_spot (mk_datetime 0) (Build_ProtoOASpotEvent 7 1 108765 0 [] 0) =
      Ok (Publish (SpotEvent 7 1 bid ask bars ts)) /\ is_scaled_or_None bid 108765 5.
Proof.
  pose proof (spot_event_spec (mk_datetime 0) (Build_ProtoOASpotEvent 7 1 108765 0 [] 0)) as H.
  destruct (handle_spot (mk_datetime 0) (Build_ProtoOASpotEvent 7 1 108765 0 [] 0)) as [r|x] eqn:E;
    [|vm_compute in E; discriminate].
  destruct H as (bid & ask & bars & ts & H1 & H2 & _); [split; vm_compute; congruence..|].
  exists bid, ask, bars, ts. split; [rewrite H1; reflexivity|exact H2].
Defined.

(** A quote that the server leaves out poisons the bar: on a spot event whose bid is
    absent, a live bar is not refused, as [Trendbar.from_proto] means it to be, but closes
    at zero, whatever its own closing delta says. *)
Theorem absent_bid_closes_at_zero (now : datetime) (p : ProtoOASpotEvent) (tb : ProtoOATrendbar) (r : routed)
    (Hbid : sp_bid p = 0) (Hbars : sp_trendbar p = [tb]) (Hr : handle_spot now p = Ok r) :
  exists t ask ts,
    r = Publish (SpotEvent (sp_ctid_trader_account_id p) (sp_symbol_id p) None ask [t] ts) /\
    is_scaled (t_close t) 0 5 /\
    (tb_delta_close tb = 0 -> exists x, Trendbar_from_proto now tb None false = Err x).
Proof.
  revert Hr. unfold handle_spot. rewrite Hbars, Hbid. cbn [res_map]. pose proof (live_trendbar now tb 0) as Hb.
  destruct (Trendbar_from_proto _ _ _ _) as [t|x]; [|done]. cbn [mbind res_bind].
  destruct (datetime_or _ _) as [ts|x]; [|done]. cbn [mbind res_bind]. intros [= <-].
  exists t. do 2 eexists. split; [reflexivity|]. split; [rewrite (proj1 Hb); by apply scaled_price|].
  intros Hd. unfold Trendbar_from_proto. rewrite Hd. destruct (if _ =? 0 then Ok now else _); simpl; eauto.
Qed.

Lemma absent_bid_closes_at_zero_witness :
  exists t ask ts,
    handle_spot (mk_datetime 0)
      (Build_ProtoOASpotEvent 7 1 0 108770 [Build_ProtoOATrendbar 9 1 108000 10 25 40 0] 0) =
      Ok (Publish (SpotEvent 7 1 None ask [t] ts)) /\ is_scaled (t_close t) 0 5.
Proof.
  destruct (handle_spot (mk_datetime 0)
      (Build_ProtoOASpotEvent 7 1 0 108770 [Build_ProtoOATrendbar 9 1 108000 10 25 40 0] 0)) as [r|x] eqn:E;
    [|vm_compute in E; discriminate].
  destruct (absent_bid_closes_at_zero (mk_datetime 0)
    (Build_ProtoOASpotEvent 7 1 0 108770 [Build_ProtoOATrendbar 9 1 108000 10 25 40 0] 0)
    (Build_ProtoOATrendbar 9 1 108000 10 25 40 0) r eq_refl eq_refl E) as (t & ask & ts & H1 & H2 & _).
  exists t, ask, ts. split; [rewrite H1; reflexivity|exact H2].
Defined.

(** Depth: the quotes of the event are the new quotes that have a price, in the order
    sent, a bid taken before an ask, with their ids and sizes; the deleted ids are passed
    on as they are. *)
Theorem depth_event_spec (p : ProtoOADepthEvent) :
  exists qs, handle_depth p =
      Publish (DepthEvent (dp_ctid_trader_account_id p) (dp_symbol_id p) qs (dp_deleted_quotes p)) /\
    sublist (quote_id <$> qs) (dq_id <$> dp_new_quotes p) /\
    (forall q, q ∈ qs <-> exists w, w ∈ dp_new_quotes p /\ quote_id q = dq_id w /\ quote_size q = dq_size w /\
       ((is_bid q = true /\ dq_bid w ≠ 0 /\ quote_price q = dq_bid w) \/
        (is_bid q = false /\ dq_bid w = 0 /\ dq_ask w ≠ 0 /\ quote_price q = dq_ask w))).
Proof.
  eexists. split; [reflexivity|]. split.
  - apply (omap_Some_map depth_quote dq_id quote_id). intros w q. unfold depth_quote.
    by repeat case_match; intros [= <-].
  - intros q. rewrite list_elem_of_omap. split; intros (w & Hw & Hq); exists w; (split; [done|]).
    + unfold depth_quote in Hq. destruct (Z.eqb_spec (dq_bid w) 0), (Z.eqb_spec (dq_ask w) 0); simpl in Hq;
        simplify_eq; simpl; auto 10.
    + destruct q as [i pr sz b]. simpl in Hq. destruct Hq as (-> & -> & [(-> & Hb & ->)|(-> & Hb & Ha & ->)]);
        unfold depth_quote; destruct (Z.eqb_spec (dq_bid w) 0); try done; simpl.
      by destruct (Z.eqb_spec (dq_ask w) 0).
Qed.

(** Registration: once started, whatever else is registered, every event message of the
    twelve classes the router knows reaches one handler more, the one that converts it,
    after the others of its class; no other message does; starting again changes nothing;
    and stopping brings back exactly the calls there were. *)
Theorem router_routes (now : datetime) (p : Protocol) (m : message)
    (Hp : forall h, dict_get (class_of m) ROUTES = Some h -> h ∉ handlers_for (KClass (class_of m)) p) :
  let '(ds, p1) := router_start [] p in
  (dispatch_event m p1 =
    (fun h => (h, m)) <$>
      handlers_for (KClass (class_of m)) p ++
      match dict_get (class_of m) ROUTES with Some h => [h] | None => [] end ++
      handlers_for KMessage p) /\
  (forall h, dict_get (class_of m) ROUTES = Some h -> (forall c raw, m ≠ MOther c raw) ->
     is_Some (run_route now h m)) /\
  is_started ds = true /\ router_start ds p1 = (ds, p1) /\
  is_started (router_stop ds p1).1 = false /\ dispatch_event m (router_stop ds p1).2 = dispatch_event m p.
Proof.
  cbv beta iota zeta delta [router_start].
  split_and!; [| |done|done|done|].
  - unfold dispatch_event, mro. cbn [fmap list_fmap concat].
    rewrite !handlers_for_register, routes_of_base, routes_of_class. cbn [fmap list_fmap].
    by rewrite !app_nil_r, !fmap_app, (assoc_L (++)).
  - intros h Hh Hm. by apply route_fits.
  - unfold dispatch_event, mro, router_stop. cbn [fst snd fmap list_fmap concat].
    rewrite !handlers_for_dispose, !handlers_for_register, routes_of_base, routes_of_class. cbn [fmap list_fmap foldl].
    rewrite !app_nil_r. destruct (dict_get (class_of m) ROUTES) as [h|]; cbn [foldl]; [|by rewrite app_nil_r].
    by rewrite list_remove_first_last by (by apply Hp).
Qed.

(** The heartbeat's handler for every message stays, and comes after the router's. *)
Lemma router_routes_witness (p := on_event KMessage 100 new_protocol) :
  dispatch_event (MClientDisconnectEvent "bye") (router_start [] p).2 =
    [(8, MClientDisconnectEvent "bye"); (100, MClientDisconnectEvent "bye")] /\
  dispatch_event MHeartbeatEvent (router_start [] p).2 = [(100, MHeartbeatEvent)].
Proof.
  split.
  - refine (proj1 (router_routes (mk_datetime 0) p (MClientDisconnectEvent "bye") _)).
    intros h _. vm_compute. intros H. inversion H.
  - refine (proj1 (router_routes (mk_datetime 0) p MHeartbeatEvent _)).
    intros h _. vm_compute. intros H. inversion H.
Defined.
