(* ===== verification/Delivery.v ===== *)
(** * From the wire to the subscriber ([connection/protocol.py], [events/router.py],
    [events/emitter.py])

    The components of the event path composed: the reader loop over a byte stream, the
    dispatch of what it reads, the router's handlers and the emitter they publish on. *)

From S2P Require Import Prelude Errors Numbers Wire Framing Messages Models Protocol Registration Link Events Emitter Router.
From stdpp Require Import options.
From Stdlib Require Import Strings.Byte.
Import Cls(msg_class).
Open Scope string_scope.
Open Scope list_scope.
Open Scope Z_scope.

(** ** The reader loop over a stream

    [turns] bounds how often the loop goes round: the loop itself has no bound, and each
    turn reads one frame. *)
Inductive reader_state := StillReading (errors : Z) | LeftLoop (v : verdict).

Section reader.
Context `{!Codec} {S : Type} `{!ByteReceiveStream S}.

(** While the protocol runs: what is handed to [_dispatch_message], where the loop is, and
    the stream it leaves. *)
Fixpoint reader_loop (turns : nat) (errors : Z) (s : S) : list (ProtoMessage * message) * (reader_state * S) :=
  match turns with
  | O => ([], (StillReading errors, s))
  | Datatypes.S turns' =>
      match receive_message s with
      | (Ok d, s') => let '(ds, r) := reader_loop turns' 0 s' in (d :: ds, r)
      | (Err e, s') =>
          match reader_verdict true errors e with
          | VRetry errors' => reader_loop turns' errors' s'
          | v => ([], (LeftLoop v, s'))
          end
      end
  end.
End reader.

(** ** The tasks of the router's handlers *)

(** What a handler does to the rest of the client: it calls a subscriber, or it hands an
    account to the recovery. *)
Inductive effect := Called (subscriber : Z) (e : event) | Recovering (account_id : Z).

Section tasks.
Context (behaviour : Z -> event -> res ()) (recover : Z -> res ()).

(** [self._emitter.emit] and [self._recovery.handle_account_disconnect] *)
Definition carry_out (em : EventEmitter) (r : routed) : list effect * res () :=
  match r with
  | Publish e => ((fun c => Called c.1 c.2) <$> (emit_event behaviour e em).1, (emit_event behaviour e em).2)
  | Recover a => ([Recovering a], recover a)
  | Ignore => ([], Ok ())
  end.

(** The task [_dispatch_event] spawns for a handler: what the router's handler does, and
    what the task ends with. Handlers of others do nothing here. *)
Definition handler_task (now : datetime) (em : EventEmitter) (hm : handler * message) : list effect * res () :=
  match run_route now hm.1 hm.2 with
  | Some r =>
      let '(effects, outcome) := match r with Ok x => carry_out em x | Err x => ([], Err x) end in
      (effects, call_handler_safe outcome)
  | None => ([], Ok ())
  end.
End tasks.

(** ** Lemmas *)

(** What the server sends: a message, under an id or none, or a frame nobody can decode. *)
Inductive sent := Sent (m : message) (id : option string) | Garbage (raw : bytes).

Definition frame_of `{!Codec} (x : sent) : res bytes :=
  match x with
  | Sent m id => encode_message m id
  | Garbage raw => encode_with_length_prefix id raw
  end.

(** The last two calls of [receive_message]. *)
Definition decode `{!Codec} (raw : bytes) : res (ProtoMessage * message) :=
  pm ← deserialize_proto_message raw; inner ← unwrap_message pm; Ok (pm, inner).

Definition message_of (x : sent) : option (message * option string) :=
  match x with Sent m id => Some (m, id) | Garbage _ => None end.

(** A frame the theorems speak of: one the codec carries, or one it refuses. *)
Definition sendable `{!Codec, !LawfulCodec} (x : sent) : Prop :=
  match x with
  | Sent m _ => encodable m
  | Garbage raw => exists e, decode raw = Err e /\ is_Exception e = true
  end.

(** Never ten undecodable frames in a row. *)
Fixpoint tolerable (errors : Z) (l : list sent) : bool :=
  match l with
  | [] => true
  | Sent _ _ :: l' => tolerable 0 l'
  | Garbage _ :: l' => (errors + 1 <? MAX_CONSECUTIVE_READ_ERRORS) && tolerable (errors + 1) l'
  end.

Lemma decode_error `{!Codec} (raw : bytes) (e : exn) (errors : Z) :
  decode raw = Err e -> is_Exception e = true -> errors + 1 < MAX_CONSECUTIVE_READ_ERRORS ->
  reader_verdict true errors e = VRetry (errors + 1).
Proof.
  intros He Hx Hn. unfold decode, deserialize_proto_message, unwrap_message in He.
  assert (Hle : MAX_CONSECUTIVE_READ_ERRORS <=? errors + 1 = false) by (apply Z.leb_gt; lia).
  assert (Hr : (if MAX_CONSECUTIVE_READ_ERRORS <=? errors + 1 then VReport else VRetry (errors + 1)) =
    VRetry (errors + 1)) by by rewrite Hle.
  split_matches; congruence || exact Hr.
Qed.

Lemma decode_receive `{!Codec} {S} `{!ByteReceiveStream S} (s s' : S) (raw : bytes) :
  read_framed_message s = (Ok raw, s') -> receive_message s = (decode raw, s').
Proof. unfold receive_message. by intros ->. Qed.

(** One frame of garbage is read to its end. *)
Lemma receive_garbage `{!Codec} {S} `{!ByteReceiveStream S, !LawfulStream S} (s : S) (raw frame tail : bytes) :
  encode_with_length_prefix id raw = Ok frame -> len frame <= MAX_MESSAGE_SIZE -> contents s = frame ++ tail ->
  exists s', receive_message s = (decode raw, s') /\ contents s' = tail.
Proof.
  intros (prefix & -> & Hp & Hd)%encode_with_length_prefix_Ok Hsize Hs.
  rewrite len_app in Hsize. rewrite <- app_assoc in Hs. unfold id in *.
  destruct (read_framed_message_frame s prefix raw tail) as (s' & Hr & Hs' & _); [done|done|lia|done|].
  exists s'. split; [by apply decode_receive|done].
Qed.

(** The reader hands on every message and skips what it cannot decode. *)
Lemma reader_loop_reads `{!Codec, !LawfulCodec} {S} `{!ByteReceiveStream S, !LawfulStream S}
    (l : list sent) (frames : list bytes) (tail : bytes) (errors : Z) (s : S) :
  Forall2 (fun x f => sendable x /\ frame_of x = Ok f /\ len f <= MAX_MESSAGE_SIZE) l frames ->
  tolerable errors l = true -> contents s = concat frames ++ tail ->
  exists ds errors' s', reader_loop (length l) errors s = (ds, (StillReading errors', s')) /\
    contents s' = tail /\
    Forall2 (fun d mi => d.2 = mi.1 /\ client_msg_id d.1 = msg_id_or_empty mi.2) ds (omap message_of l).
Proof.
  intros Hl. revert errors s. induction Hl as [|x f l frames (Hx & Hf & Hsize) _ IH]; intros errors s Ht Hs.
  { exists [], errors, s. split_and!; [done|done|constructor]. }
  simpl in Hs. rewrite <- app_assoc in Hs. destruct x as [m id|raw]; simpl in *.
  - destruct (encode_receive m id f (concat frames ++ tail) s) as (pm & s1 & Hr & Hid & Hs1); [done..|].
    destruct (IH 0 s1 Ht Hs1) as (ds & errors' & s' & Hloop & Hs' & Hds).
    exists ((pm, m) :: ds), errors', s'. rewrite Hr, Hloop. split_and!; [done|done|]. by constructor.
  - destruct (receive_garbage s raw f (concat frames ++ tail)) as (s1 & Hr & Hs1); [done..|].
    apply andb_true_iff in Ht as [Hn%Z.ltb_lt Ht]. destruct Hx as (e & He & Hx).
    destruct (IH (errors + 1) s1 Ht Hs1) as (ds & errors' & s' & Hloop & Hs' & Hds).
    exists ds, errors', s'. by rewrite Hr, He, (decode_error raw e) by done.
Qed.

(** *** The handlers of the router, on a protocol others use too *)

Abbreviation router_handlers := route_registrations.*2.

(** Handlers of others are not the router's. *)
Lemma run_route_mine now h m : h ∉ router_handlers -> run_route now h m = None.
Proof.
  intros Hh. unfold run_route. repeat case_match; subst; try done;
    destruct Hh; apply (bool_decide_unpack _); vm_compute; exact I.
Qed.

(** What follows from that: the subscribers the event matches, or the recovery. *)
Definition expected (em : EventEmitter) (r : routed) : list effect :=
  match r with
  | Publish e => (fun s => Called (sub_handler s) e) <$> matching e em
  | Recover a => [Recovering a]
  | Ignore => []
  end.

Section tasks_lemmas.
Context (behaviour : Z -> event -> res ()) (recover : Z -> res ()).
Context (Hbehaviour : forall h e x, behaviour h e = Err x -> is_Exception x = true).
Context (Hrecover : forall a x, recover a = Err x -> is_Exception x = true).
Context (now : datetime) (em : EventEmitter).

Lemma carry_out_expected (r : routed) :
  (carry_out behaviour recover em r).1 = expected em r /\
  call_handler_safe (carry_out behaviour recover em r).2 = Ok ().
Proof using Hbehaviour Hrecover.
  destruct r as [e|a|]; [split|split; [done|]|done].
  - simpl. by rewrite <- list_fmap_compose.
  - cbn [carry_out snd]. by rewrite emit_Ok by eauto.
  - simpl. destruct (recover a) as [|x] eqn:E; [done|]. simpl. by rewrite (Hrecover _ _ E).
Qed.

Lemma handler_task_Ok (hm : handler * message) : (handler_task behaviour recover now em hm).2 = Ok ().
Proof using Hbehaviour Hrecover.
  unfold handler_task. destruct (run_route now hm.1 hm.2) as [[x|x]|] eqn:E; [| |done].
  - pose proof (proj2 (carry_out_expected x)) as H. by destruct (carry_out behaviour recover em x).
  - simpl. by rewrite (run_route_Exception _ _ _ _ E).
Qed.

(** Only the router's own handlers count. *)
Lemma tasks_of_router (m : message) (hs : list handler) :
  concat ((fun hm => (handler_task behaviour recover now em hm).1) <$> ((fun h => (h, m)) <$> hs)) =
  concat ((fun h => (handler_task behaviour recover now em (h, m)).1) <$> filter (fun h => h ∈ router_handlers) hs).
Proof.
  induction hs as [|h hs IH]; [done|]. rewrite filter_cons. csimpl. rewrite IH. case_decide as Hh; [done|].
  unfold handler_task at 1. simpl. by rewrite run_route_mine.
Qed.

Lemma handler_task_converted (m : message) :
  concat ((fun h => (handler_task behaviour recover now em (h, m)).1) <$>
    (filter (fun kh : registration => KClass (class_of m) = kh.1) route_registrations).*2) =
  expected em (converted now m).
Proof using Hbehaviour Hrecover.
  rewrite routes_of_class. unfold converted. destruct (dict_get (class_of m) ROUTES) as [h|]; [|done]. simpl.
  rewrite app_nil_r. unfold handler_task. simpl.
  destruct (run_route now h m) as [[x|x]|]; [|done..].
  rewrite <- (proj1 (carry_out_expected x)). by destruct (carry_out behaviour recover em x).
Qed.

(** All the tasks of one message. *)
Lemma dispatch_expected (m : message) (p : Protocol) :
  registered route_registrations p ->
  let tasks := handler_task behaviour recover now em <$> dispatch_event m p in
  concat tasks.*1 = expected em (converted now m) /\ Forall (fun r => r = Ok ()) tasks.*2.
Proof using Hbehaviour Hrecover.
  intros Hp. cbv zeta. split.
  - rewrite <- list_fmap_compose. unfold dispatch_event, mro. cbn [fmap list_fmap concat].
    rewrite app_nil_r, fmap_app, concat_app.
    etrans; [|apply handler_task_converted]. rewrite <- (Hp (KClass (class_of m))).
    rewrite <- (app_nil_r (concat (_ <$> filter _ _))). f_equal; [by rewrite <- tasks_of_router|].
    etrans; [apply tasks_of_router|]. by rewrite (Hp KMessage).
  - apply Forall_forall. intros r (t & -> & (hm & -> & _)%list_elem_of_fmap)%list_elem_of_fmap.
    apply handler_task_Ok.
Qed.
End tasks_lemmas.

(** ** Properties *)

(** C12. From the wire to the subscriber. Whatever pieces the bytes arrive in, and however
    many undecodable frames lie between the messages, short of ten in a row, the reader
    hands on exactly the messages sent, in the order sent. And whatever the callers, the
    reader and the other handlers have done to the protocol since the router started: each
    message that answers no request in flight leads to what it means, and to nothing else:
    [message_means] spells out, for each of the router's twelve classes and field by field,
    the event that is published, or the account handed to the recovery; that event goes to
    the subscribers it matches, each once and in order, whatever any of them raises, and no
    task fails. Nothing comes of a message of another class, of an execution type nobody
    knows, and of a message whose time is outside [datetime]'s years: that event is lost.
    Frames are at most the size limit, and messages are ones the codec carries. *)
Theorem events_delivered `{!Codec, !LawfulCodec} {S} `{!ByteReceiveStream S, !LawfulStream S}
    (l : list sent) (frames : list bytes) (tail : bytes) (errors : Z) (s : S) (p : Protocol)
    (Hl : Forall2 (fun x f => sendable x /\ frame_of x = Ok f /\ len f <= MAX_MESSAGE_SIZE) l frames)
    (Htol : tolerable errors l = true) (Hs : contents s = concat frames ++ tail)
    (Hp : unused route_registrations p) :
  exists ds errors' s', reader_loop (length l) errors s = (ds, (StillReading errors', s')) /\
    contents s' = tail /\
    Forall2 (fun d mi => d.2 = mi.1 /\ client_msg_id d.1 = msg_id_or_empty mi.2) ds (omap message_of l) /\
    forall cs ls sys, runs (mk_system (router_start [] p).2 cs) ls sys -> Forall (foreign route_registrations) ls ->
    Forall (fun d => dict_get (client_msg_id d.1) (pending (proto sys)) = None ->
      forall behaviour recover now em,
        (forall h e x, behaviour h e = Err x -> is_Exception x = true) ->
        (forall a x, recover a = Err x -> is_Exception x = true) ->
        let '(p', spawned) := dispatch_message d.1 d.2 (proto sys) in
        let tasks := handler_task behaviour recover now em <$> spawned in
        p' = proto sys /\ Forall (fun r => r = Ok ()) tasks.*2 /\
        exists r, message_means now d.2 r /\ concat tasks.*1 = expected em r) ds.
Proof.
  destruct (reader_loop_reads l frames tail errors s Hl Htol Hs) as (ds & errors' & s' & H1 & H2 & H3).
  exists ds, errors', s'. split_and!; [done..|]. intros cs ls sys Hruns Hls.
  apply Forall_forall. intros [pm m] _ Hpend behaviour recover now em Hb Hr. simpl in *.
  pose proof (registered_runs _ _ _ _ Hruns Hls (registered_start _ p Hp)) as Hon.
  pose proof (dispatch_expected behaviour recover Hb Hr now em m (proto sys) Hon) as [Hcalls Hall].
  unfold dispatch_message. rewrite Hpend.
  destruct (_ =? _)%string; (split_and!; [done|done|]); exists (converted now m); by split; [apply converted_means|].
Qed.

(** ** A codec of two messages *)

Module Sample.
Definition parse (c : msg_class) (bs : bytes) : res message :=
  match c with
  | Cls.ProtoHeartbeatEvent => Ok MHeartbeatEvent
  | Cls.ProtoOAClientDisconnectEvent => Ok (MClientDisconnectEvent (String.string_of_list_byte bs))
  | _ => Err (ValueError "bad")
  end.

#[export] Instance codec : Codec := {|
  message_bytes m := match m with MClientDisconnectEvent r => String.list_byte_of_string r | _ => [] end;
  message_parse := parse;
  envelope_bytes := @envelope_bytes Messages.Toy.codec;
  envelope_parse := @envelope_parse Messages.Toy.codec;
|}.

Definition encodable (m : message) : Prop := m = MHeartbeatEvent \/ exists r, m = MClientDisconnectEvent r.

Lemma parse_bytes (m : message) : encodable m -> message_parse (class_of m) (message_bytes m) = Ok m.
Proof.
  intros [->|[r ->]]; [done|]. simpl. by rewrite String.string_of_list_byte_of_string.
Qed.

#[export] Instance lawful : LawfulCodec := {|
  Messages.encodable := encodable;
  message_parse_bytes := parse_bytes;
  envelope_parse_bytes := Messages.Toy.envelope_lawful;
|}.

(** The server says goodbye, between a heartbeat and a frame of garbage. *)
Definition items : list sent :=
  [Sent MHeartbeatEvent None; Garbage [x2a]; Sent (MClientDisconnectEvent "bye") None].

Definition frames : list bytes := omap (fun x => match frame_of x with Ok f => Some f | Err _ => None end) items.

Lemma items_sent :
  Forall2 (fun x f => sendable x /\ frame_of x = Ok f /\ len f <= MAX_MESSAGE_SIZE) items frames.
Proof.
  apply Forall2_cons_2; [|apply Forall2_cons_2; [|apply Forall2_cons_2; [|apply Forall2_nil_2]]];
    (split; [|split; [vm_compute; reflexivity|vm_compute; discriminate]]).
  - by left.
  - eexists. split; [vm_compute; reflexivity|reflexivity].
  - right. by eexists.
Qed.

Definition stream : packets := mk_packets ((fun b => [b]) <$> concat frames) None.

(** The client as it is used: the router, and the handler of every message. *)
Definition protocol : Protocol := on_event KMessage 100 (router_start [] new_protocol).2.

(** Two subscribers, the first of which raises. *)
Definition emitter : EventEmitter :=
  [(TClientDisconnect, [mk_subscription 1 None None; mk_subscription 2 None None])].

Definition behaviour (h : Z) (e : event) : res () := if h =? 1 then Err (ValueError "boom") else Ok ().

Lemma started_run :
  runs (mk_system (router_start [] new_protocol).2 []) [LHandlers KMessage 100 true] (mk_system protocol []).
Proof. apply (runs_snoc _ [] (mk_system (router_start [] new_protocol).2 [])); [apply runs_nil|apply step_register]. Qed.

Lemma started_foreign : Forall (foreign route_registrations) [LHandlers KMessage 100 true].
Proof. constructor; [|constructor]. apply (bool_decide_unpack _). vm_compute. exact I. Qed.

Lemma behaviour_raises h e x : behaviour h e = Err x -> is_Exception x = true.
Proof. unfold behaviour. destruct (h =? 1); [by intros [= <-]|done]. Qed.

Definition effects_of (d : ProtoMessage * message) : list effect :=
  concat (handler_task behaviour (fun _ => Ok ()) (mk_datetime 0) emitter <$>
    (dispatch_message d.1 d.2 protocol).2).*1.
End Sample.
Import Sample.

Lemma events_delivered_witness :
  exists ds st, reader_loop 3 0 Sample.stream = (ds, st) /\
    ds.*2 = [MHeartbeatEvent; MClientDisconnectEvent "bye"] /\
    Sample.effects_of <$> ds =
    [[]; [Called 1 (ClientDisconnectEvent "bye"); Called 2 (ClientDisconnectEvent "bye")]].
Proof.
  destruct (events_delivered Sample.items Sample.frames [] 0 Sample.stream new_protocol)
    as (ds & errors' & s' & H1 & H2 & H3 & H4).
  - exact items_sent.
  - reflexivity.
  - reflexivity.
  - intros k h _. apply not_elem_of_nil.
  - exists ds, (StillReading errors', s'). split; [exact H1|].
    assert (He : Forall (fun d => exists r, message_means (mk_datetime 0) d.2 r /\
      Sample.effects_of d = expected Sample.emitter r) ds).
    { specialize (H4 _ _ _ Sample.started_run Sample.started_foreign).
      eapply Forall_impl; [exact H4|]. intros d H.
      specialize (H eq_refl Sample.behaviour (fun _ => Ok ()) (mk_datetime 0) Sample.emitter Sample.behaviour_raises
        ltac:(discriminate)).
      unfold Sample.effects_of. change (proto (mk_system protocol [])) with protocol in H.
      destruct (dispatch_message d.1 d.2 protocol) as [p' spawned]. cbv zeta in H.
      destruct H as (_ & _ & r & Hr & E). exists r. split; [exact Hr|exact E]. }
    change (omap message_of Sample.items) with [(MHeartbeatEvent, @None string); (MClientDisconnectEvent "bye", None)] in H3.
    clear H1 H4. inversion H3 as [|d1 ? ? ? [E1 _] H3']; subst. inversion H3' as [|d2 ? ? ? [E2 _] H3'']; subst.
    inversion H3''; subst. rewrite !fmap_cons, E1, E2. split; [reflexivity|].
    apply Forall_cons in He as [(r1 & M1 & ->) He]. apply Forall_cons in He as [(r2 & M2 & ->) _].
    rewrite E1 in M1. rewrite E2 in M2. simpl in M1, M2.
    destruct r1; [contradiction M1|contradiction M1|]. destruct r2 as [[]| |]; try contradiction M2.
    rewrite M2. reflexivity.
Defined.
