(* ===== verification/Exchange.v ===== *)
(** * Requests and answers over one stream ([connection/protocol.py])

    [Protocol] has callers and reader interleaved, [Delivery] the reader over a stream of
    bytes; here they meet: what becomes of the requests in flight when answers, events and
    garbage arrive mixed and in any order, while callers come and go. *)

From S2P Require Import Prelude Errors Wire Framing Messages Protocol Link Delivery.
From stdpp Require Import options.
From Stdlib Require Import Strings.Byte.
Open Scope string_scope.
Open Scope list_scope.
Open Scope Z_scope.

(** ** What a run does to one request *)

(** The message a label hands to [_dispatch_message]. *)
Definition delivery (l : label) : option (ProtoMessage * message) :=
  match l with LDeliver pm inner => Some (pm, inner) | _ => None end.

(** The answers to [id] in a run. *)
Definition answers (id : string) (ls : list label) : list (res message) :=
  omap (fun l => match l with
    | LDeliver pm inner => if decide (client_msg_id pm = id) then Some (outcome_of inner) else None
    | _ => None
    end) ls.

(** A label that neither stops the protocol nor ends the call of [id] from outside. *)
Definition undisturbed (id : string) (l : label) : Prop :=
  match l with LStop | LFail _ => False | LRaise i _ => i ≠ id | _ => True end.

(** The request is as a run with the answers [rs] leaves it: unanswered and in flight, or
    answered, and its caller either has the answer or finds it in its slot. *)
Definition settled_by (id : string) (rs : list (res message)) (s : system) : Prop :=
  match rs with
  | [] => (exists ph, dict_get id (callers s) = Some ph /\ is_active ph = true) /\
      dict_get id (pending (proto s)) = Some fresh_pending
  | r :: _ => dict_get id (callers s) = Some (Finished r) \/
      (exists ph, dict_get id (callers s) = Some ph /\ is_active ph = true) /\
      dict_get id (pending (proto s)) = Some (mk_pending_request true (Some r))
  end.

Lemma answers_snoc id ls l : answers id (ls ++ [l]) = answers id ls ++ answers id [l].
Proof. apply omap_app. Qed.

(** A request that starts is not one of those there are. *)
Lemma start_fresh `{!Codec} tr p p' cs m msg_id pm id ph :
  system_ok tr (mk_system p cs) -> send_request_begin m p = (Ok (msg_id, pm), p') ->
  dict_get id cs = Some ph -> id ≠ msg_id.
Proof.
  intros Hok Hb Hid ->. unfold send_request_begin in Hb. destruct (running p); simpl in Hb; [|done].
  destruct (wrap_message _ _); [|done]. injection Hb as <- _ _.
  pose proof (ok_ids _ _ Hok _ _ Hid). simpl in *. lia.
Qed.

Lemma settled_has_caller id rs s : settled_by id rs s -> exists ph, dict_get id (callers s) = Some ph.
Proof. destruct rs; simpl; [intros [(ph & ? & _) _]; eauto|intros [?|[(ph & ? & _) _]]; eauto]. Qed.

(** A step that leaves the caller and the slot of a request alone. *)
Lemma settled_same id rs s s' :
  dict_get id (callers s') = dict_get id (callers s) ->
  dict_get id (pending (proto s')) = dict_get id (pending (proto s)) ->
  settled_by id rs s -> settled_by id rs s'.
Proof. intros Hc Hp. unfold settled_by. by rewrite Hc, Hp. Qed.

Lemma dispatch_other id pm inner p :
  client_msg_id pm ≠ id -> dict_get id (pending (dispatch_message pm inner p).1) = dict_get id (pending p).
Proof. intros Hid. unfold dispatch_message. case_match; simpl; [|done]. by rewrite dict_get_set_ne. Qed.

Lemma dispatch_running pm inner p : running (dispatch_message pm inner p).1 = running p.
Proof. unfold dispatch_message. by case_match. Qed.

Lemma dispatch_resolves id pm inner p :
  client_msg_id pm = id -> id ≠ "" -> is_Some (dict_get id (pending p)) ->
  dict_get id (pending (dispatch_message pm inner p).1) = Some (mk_pending_request true (Some (outcome_of inner))).
Proof.
  intros Hid Hne [pr Hpr]. unfold dispatch_message. rewrite Hid, (proj2 (String.eqb_neq _ _) Hne), Hpr.
  simpl. by rewrite dict_get_set_eq.
Qed.

Lemma settled_step `{!Codec} tr s l s' id rs :
  reachable tr s -> step s l s' -> undisturbed id l -> running (proto s) = true ->
  settled_by id rs s -> (length (rs ++ answers id [l]) <= 1)%nat ->
  running (proto s') = true /\ settled_by id (rs ++ answers id [l]) s'.
Proof.
  intros Hs Hstep Hl Hrun Hset Hlen. pose proof (reachable_ok _ _ Hs) as Hok.
  destruct (settled_has_caller _ _ _ Hset) as [ph0 Hph0].
  assert (Hne : id ≠ "") by (intros ->; by rewrite (no_empty_id _ _ Hs) in Hph0).
  destruct Hstep as [p p' cs m msg_id pm Hb|p p' cs m e Hb|p cs msg_id Hph|p cs pm inner|
    p cs msg_id pr Hph Hpr Hset'|p cs msg_id ph e timeout Hph Hactive|p p' cs Hp|p cs|p cs reason|p cs k h|p cs k h];
    simpl in *; try done; rewrite ?app_nil_r in *.
  - pose proof (start_fresh _ _ _ _ _ _ _ _ _ Hok Hb Hph0) as Hid. unfold send_request_begin in Hb.
    rewrite Hrun in Hb. simpl in Hb. destruct (wrap_message _ _); [|done]. injection Hb as <- <- <-.
    split; [done|]. eapply settled_same; [| |exact Hset]; simpl; by rewrite dict_get_set_ne.
  - unfold send_request_begin in Hb. rewrite Hrun in Hb. simpl in Hb.
    destruct (wrap_message _ _); [done|]. by injection Hb as <- <-.
  - split; [done|]. destruct (decide (id = msg_id)) as [<-|Hid];
      [|eapply settled_same; [| |exact Hset]; simpl; by rewrite ?dict_get_set_ne].
    destruct rs as [|r rs]; simpl in *; rewrite dict_get_set_eq; [|right];
      (split; [by exists Waiting|]); [apply Hset|]. destruct Hset as [Hf|[_ ?]]; [congruence|done].
  - split; [by rewrite dispatch_running|]. case_decide as Hid.
    + destruct rs as [|r rs]; [|simpl in Hlen; rewrite length_app in Hlen; simpl in Hlen; lia].
      destruct Hset as [Hc Hslot]. simpl. right. split; [done|]. apply dispatch_resolves; [done|done|].
      simpl in Hslot. by rewrite Hslot.
    + rewrite app_nil_r. eapply settled_same; [| |exact Hset]; simpl; [done|by apply dispatch_other].
  - split; [done|]. destruct (decide (id = msg_id)) as [<-|Hid];
      [|eapply settled_same; [| |exact Hset]; simpl; rewrite ?dict_get_set_ne, ?dict_get_pop_ne; done].
    destruct rs as [|r rs]; simpl in *.
    + destruct Hset as [_ Hslot]. rewrite Hpr in Hslot. injection Hslot as ->. done.
    + left. destruct Hset as [Hf|[_ Hslot]]; [congruence|]. rewrite dict_get_set_eq.
      unfold send_request_woken. by rewrite Hrun, Hslot.
  - split; [done|]. eapply settled_same; [| |exact Hset]; simpl;
      by rewrite ?dict_get_set_ne, ?dict_get_pop_ne by congruence.
  - unfold serve_enter in Hp. by rewrite Hrun in Hp.
  - split; [done|]. by eapply settled_same; [| |exact Hset].
  - unfold remove_handler. destruct (dict_get k (event_handlers p)); (split; [done|]);
      by eapply settled_same; [| |exact Hset].
Qed.

Lemma settled_runs `{!Codec} tr s ls s' id :
  reachable tr s -> runs s ls s' -> Forall (undisturbed id) ls -> running (proto s) = true ->
  settled_by id [] s -> (length (answers id ls) <= 1)%nat ->
  running (proto s') = true /\ settled_by id (answers id ls) s'.
Proof.
  intros Hs Hruns Hu Hrun Hset. revert Hs Hu Hrun Hset.
  induction Hruns as [s|s ls s1 l s2 Hr IH Hstep]; intros Hs Hu Hrun Hset Hlen; [done|].
  rewrite Forall_app, Forall_singleton in Hu. destruct Hu as [Hu Hl]. rewrite answers_snoc in *.
  destruct IH as [Hrun1 Hset1]; [done..|rewrite length_app in Hlen; lia|].
  eapply settled_step; [by eapply runs_reachable|done..].
Qed.

(** A request whose event is set can be brought to its end by its own caller. *)
Lemma woken_finishes `{!Codec} id p cs ph pr :
  dict_get id cs = Some ph -> is_active ph = true -> dict_get id (pending p) = Some pr -> event_is_set pr = true ->
  exists ls s', runs (mk_system p cs) ls s' /\ Forall (fun l => is_own l = true) ls /\
    dict_get id (callers s') = Some (Finished (send_request_woken id p)).
Proof.
  intros Hph Ha Hslot Hset.
  assert (Hwake : forall cs, dict_get id cs = Some Waiting -> step (mk_system p cs) (LWake id)
    (mk_system (forget_request id p) (dict_set id (Finished (send_request_woken id p)) cs))).
  { intros cs' Hw. by eapply step_wake. }
  destruct ph; [| |done].
  - eexists [LSent id; LWake id], _. split_and!; [|by repeat constructor|].
    + apply (runs_snoc _ [LSent id] (mk_system p (dict_set id Waiting cs))).
      * apply (runs_snoc _ [] (mk_system p cs)); [apply runs_nil|by apply step_sent].
      * apply Hwake. by rewrite dict_get_set_eq.
    + simpl. by rewrite dict_get_set_eq.
  - eexists [LWake id], _. split_and!; [|by repeat constructor|].
    + apply (runs_snoc _ [] (mk_system p cs)); [apply runs_nil|by apply Hwake].
    + simpl. by rewrite dict_get_set_eq.
Qed.

Lemma settled_finishes `{!Codec} id r rs s :
  running (proto s) = true -> settled_by id (r :: rs) s ->
  exists ls s', runs s ls s' /\ Forall (fun l => is_own l = true) ls /\ dict_get id (callers s') = Some (Finished r).
Proof.
  intros Hrun [Hf|[(ph & Hph & Ha) Hslot]]; [by exists [], s; repeat constructor|].
  destruct s as [p cs]. simpl in *. replace r with (send_request_woken id p); [by eapply woken_finishes|].
  unfold send_request_woken. by rewrite Hrun, Hslot.
Qed.

(** The answers to [id] among what the server sends. *)
Definition sent_to (id : string) (l : list sent) : list (res message) :=
  omap (fun x => match x with
    | Sent m i => if decide (msg_id_or_empty i = id) then Some (outcome_of m) else None
    | Garbage _ => None
    end) l.

Lemma answers_deliveries id ls :
  answers id ls =
  omap (fun d => if decide (client_msg_id d.1 = id) then Some (outcome_of d.2) else None) (omap delivery ls).
Proof. induction ls as [|[] ls IH]; csimpl; rewrite ?IH; done. Qed.

Lemma answers_sent_to id ls l :
  Forall2 (fun d mi => d.2 = mi.1 /\ client_msg_id d.1 = msg_id_or_empty mi.2) (omap delivery ls) (omap message_of l) ->
  answers id ls = sent_to id l.
Proof.
  rewrite answers_deliveries. generalize (omap delivery ls) as ds. induction l as [|[m i|raw] l IH]; intros ds; csimpl.
  - by intros ->%Forall2_nil_inv_r.
  - intros ([pm m'] & ds' & [Hm Hi] & Hds & ->)%Forall2_cons_inv_r. csimpl in *. subst.
    by rewrite (IH _ Hds), Hi.
  - apply IH.
Qed.

(** The reader alone can always deliver what it has read. *)
Lemma deliveries_run `{!Codec} (ds : list (ProtoMessage * message)) (s : system) :
  exists s', runs s ((fun d => LDeliver d.1 d.2) <$> ds) s' /\
    omap delivery ((fun d => LDeliver d.1 d.2) <$> ds) = ds.
Proof.
  induction ds as [|[pm m] ds (s' & Hr & Hd)] using rev_ind; [exists s; by split; [apply runs_nil|]|].
  exists (mk_system (dispatch_message pm m (proto s')).1 (callers s')). rewrite fmap_app, omap_app, Hd. split; [|done].
  eapply runs_snoc; [exact Hr|]. destruct s'. apply step_deliver.
Qed.

(** ** Properties *)

(** C4. Answers in any order. Let the server send messages the codec carries and frames nobody
    can decode, each frame within the size limit and fewer than ten undecodable ones in a
    row (the tenth drops the link): answers to requests in flight in any order, mixed with
    events. However the reader's deliveries interleave with callers that come, go and time
    out: a request that is answered once ends with exactly that answer, the message, or the
    error it carries, if its caller is left to itself; and a request that is not answered is
    still in flight, its slot untouched. *)
Theorem answers_reach_callers `{!Codec, !LawfulCodec} {S} `{!ByteReceiveStream S, !LawfulStream S}
    (l : list sent) (frames : list bytes) (tail : bytes) (errors : Z) (stream : S) (tr : list label) (s : system)
    (Hl : Forall2 (fun x f => sendable x /\ frame_of x = Ok f /\ len f <= MAX_MESSAGE_SIZE) l frames)
    (Htol : tolerable errors l = true) (Hstream : contents stream = concat frames ++ tail)
    (Hs : reachable tr s) (Hrun : running (proto s) = true) :
  exists ds errors' stream', reader_loop (length l) errors stream = (ds, (StillReading errors', stream')) /\
    contents stream' = tail /\
    forall ls s', runs s ls s' -> omap delivery ls = ds ->
    forall id ph, dict_get id (callers s) = Some ph -> is_active ph = true ->
      dict_get id (pending (proto s)) = Some fresh_pending -> Forall (undisturbed id) ls ->
      match sent_to id l with
      | [] => (exists ph', dict_get id (callers s') = Some ph' /\ is_active ph' = true) /\
          dict_get id (pending (proto s')) = Some fresh_pending
      | [r] => exists ls' s'', runs s' ls' s'' /\ Forall (fun x => is_own x = true) ls' /\
          dict_get id (callers s'') = Some (Finished r)
      | _ => True
      end.
Proof.
  destruct (reader_loop_reads l frames tail errors stream Hl Htol Hstream) as (ds & errors' & stream' & H1 & H2 & H3).
  exists ds, errors', stream'. split_and!; [done..|]. intros ls s' Hruns <- id ph Hph Ha Hslot Hu.
  pose proof (answers_sent_to id ls l H3) as Heq.
  assert (Hset : settled_by id [] s) by (split; [by exists ph|done]).
  destruct (sent_to id l) as [|r [|r' rs]] eqn:E; [| |done];
    (destruct (settled_runs tr s ls s' id) as [Hrun' Hset']; [done..|by rewrite Heq; simpl; lia|]);
    rewrite Heq in Hset'; [done|by eapply settled_finishes].
Qed.

(** ** Two requests answered in the other order *)

Module TwoCallers.
Import Delivery.Sample.

Definition ids : dict string phase := [("1", Waiting); ("2", Waiting)].

Definition waiting : system :=
  mk_system (mk_protocol (mk_id_generator 2) [("1", fresh_pending); ("2", fresh_pending)] [] true) ids.

Definition run : list label :=
  [LServe; LStart "1" MHeartbeatEvent; LStart "2" MHeartbeatEvent; LSent "1"; LSent "2"].

(** The protocol while it is served, before and after the first request. *)
Definition served : Protocol := mk_protocol (mk_id_generator 0) [] [] true.
Definition served_one : Protocol := mk_protocol (mk_id_generator 1) [("1", fresh_pending)] [] true.

Lemma reachable_two_waiting : reachable run waiting.
Proof.
  eapply (reachable_step [LServe; LStart "1" MHeartbeatEvent; LStart "2" MHeartbeatEvent; LSent "1"]).
  2: { apply (step_sent (proto waiting) [("1", Waiting); ("2", Sending)] "2"). reflexivity. }
  eapply (reachable_step [LServe; LStart "1" MHeartbeatEvent; LStart "2" MHeartbeatEvent]).
  2: { apply (step_sent (proto waiting) [("1", Sending); ("2", Sending)] "1"). reflexivity. }
  eapply (reachable_step [LServe; LStart "1" MHeartbeatEvent]).
  2: { eapply (step_start served_one (proto waiting) [("1", Sending)] _ "2"). vm_compute. reflexivity. }
  eapply (reachable_step [LServe]).
  2: { eapply (step_start served served_one [] _ "1"). vm_compute. reflexivity. }
  eapply (reachable_step []); [apply reachable_init|]. apply step_serve. reflexivity.
Qed.

Definition items : list sent :=
  [Sent (MClientDisconnectEvent "bye") (Some "2"); Garbage [x2a]; Sent MHeartbeatEvent (Some "1")].

Definition frames : list bytes := omap (fun x => match frame_of x with Ok f => Some f | Err _ => None end) items.

Definition stream : packets := mk_packets ((fun b => [b]) <$> concat frames) None.

Lemma two_items_sent :
  Forall2 (fun x f => sendable x /\ frame_of x = Ok f /\ len f <= MAX_MESSAGE_SIZE) items frames.
Proof.
  apply Forall2_cons_2; [|apply Forall2_cons_2; [|apply Forall2_cons_2; [|apply Forall2_nil_2]]];
    (split; [|split; [vm_compute; reflexivity|vm_compute; discriminate]]).
  - right. by eexists.
  - eexists. split; [vm_compute; reflexivity|reflexivity].
  - by left.
Qed.

Lemma deliveries_undisturbed id (ds : list (ProtoMessage * message)) :
  Forall (undisturbed id) ((fun d => LDeliver d.1 d.2) <$> ds).
Proof. apply Forall_fmap, Forall_true. done. Qed.

Lemma stream_contents : contents stream = concat frames ++ [].
Proof. vm_compute. reflexivity. Qed.
End TwoCallers.
Import Delivery.Sample.

Lemma answers_reach_callers_witness :
  exists ls s', runs TwoCallers.waiting ls s' /\
    dict_get "2" (callers s') = Some (Finished (Ok (MClientDisconnectEvent "bye"))).
Proof.
  destruct (answers_reach_callers TwoCallers.items TwoCallers.frames [] 0 TwoCallers.stream _ _
    TwoCallers.two_items_sent eq_refl TwoCallers.stream_contents TwoCallers.reachable_two_waiting eq_refl) as (ds & errors' & st & _ & _ & H).
  destruct (deliveries_run ds TwoCallers.waiting) as (s1 & Hruns & Hds).
  destruct (H _ _ Hruns Hds "2" Waiting eq_refl eq_refl eq_refl (TwoCallers.deliveries_undisturbed _ _))
    as (ls & s2 & Hr & _ & Hf).
  exists (((fun d => LDeliver d.1 d.2) <$> ds) ++ ls), s2. split; [|exact Hf].
  exact (runs_app _ _ _ _ _ Hruns Hr).
Defined.
