(* ===== verification/Connection.v ===== *)
(** * The connection: callers over a link that drops and comes back ([connection/protocol.py])

    [Protocol] has the callers of [send_request] interleaved with deliveries, [Link] has the
    readers, heartbeats and reconnections. In the program they are tasks over one object:
    here the two systems run together, sharing the [Protocol] object, and the theorems of
    each are shown to hold of the composition. *)

From S2P Require Import Prelude Errors Wire Framing Messages Protocol Link Delivery Exchange.
From stdpp Require Import options.
Open Scope string_scope.
Open Scope list_scope.
Open Scope Z_scope.

(** ** The composition *)

Record connection := mk_connection { c_link : link; c_calls : dict string phase }.

(** What the callers see of it. *)
Definition view (c : connection) : system := mk_system (l_proto (c_link c)) (c_calls c).

(** The steps of callers: everything of [Protocol] that is not the link's doing. *)
Definition is_call (l : label) : bool :=
  match l with
  | LStart _ _ | LRefused _ | LSent _ | LWake _ | LRaise _ _ | LHandlers _ _ _ => true
  | LDeliver _ _ | LServe | LStop | LFail _ => false
  end.

Inductive clabel := CLink (l : llabel) | CCall (l : label).

Section steps.
Context `{!Codec, !StopStrategies} (reconnect_attempts : option Z) (host : string) (port : Z).

Inductive cstep : connection -> clabel -> connection -> Prop :=
  (* a task of the link runs to its next await *)
  | cstep_link s l s' cs :
      lstep reconnect_attempts host port s l s' ->
      cstep (mk_connection s cs) (CLink l) (mk_connection s' cs)
  (* a caller does *)
  | cstep_call s l p' cs cs' :
      is_call l = true -> step (mk_system (l_proto s) cs) l (mk_system p' cs') ->
      cstep (mk_connection s cs) (CCall l) (mk_connection (set_proto p' s) cs').

(** The connection is served: [serve_enter] by the supervisor, on a protocol with a past,
    whose last serving, if any, left no marks ([Shutdown] shows when it does not). *)
Inductive creachable (tr0 : list label) : list clabel -> connection -> Prop :=
  | creachable_start p cs :
      reachable tr0 (mk_system p cs) -> running p = false ->
      creachable tr0 [] (mk_connection (link_start p) cs)
  | creachable_step tr c l c' : creachable tr0 tr c -> cstep c l c' -> creachable tr0 (tr ++ [l]) c'.

Inductive csteps : connection -> list clabel -> connection -> Prop :=
  | csteps_nil c : csteps c [] c
  | csteps_snoc c ls c' l c'' : csteps c ls c' -> cstep c' l c'' -> csteps c (ls ++ [l]) c''.
End steps.

(** ** The two views of a run *)

(** The reason [_reconnect_task] gives for an exception. *)
Definition abandon_reason (e : exn) : string :=
  match e with
  | CTraderConnectionFailedError _ _ _ | CTraderConnectionClosedError _ _ =>
      "connection lost and reconnection failed"
  | _ => "unexpected error while reconnecting"
  end.

(** What the callers see of a step of the link. *)
Definition seen (l : llabel) : option label :=
  match l with
  | LRead _ pm inner => Some (LDeliver pm inner)
  | LAbandon e => Some (LFail (abandon_reason e))
  | LShutdown => Some LStop
  | _ => None
  end.

Definition to_callers (l : clabel) : option label := match l with CLink l => seen l | CCall l => Some l end.
Definition to_link (l : clabel) : option llabel := match l with CLink l => Some l | CCall _ => None end.

(** Links that differ in their protocol object only, and not in whether it is running. *)
Definition same_link (s t : link) : Prop := exists p, t = set_proto p s /\ running p = l_running s.

Lemma same_link_refl s : same_link s s.
Proof. exists (l_proto s). by destruct s. Qed.

Lemma set_proto_set p q s : set_proto p (set_proto q s) = set_proto p s.
Proof. done. Qed.

(** The tasks' own business leaves the protocol object alone. *)
Lemma handle_disconnect_proto s : l_proto (handle_disconnect s).2 = l_proto s.
Proof. unfold handle_disconnect. by repeat case_match. Qed.
Lemma heartbeat_exit_proto j s : l_proto (heartbeat_exit j s) = l_proto s.
Proof. unfold heartbeat_exit. by case_match. Qed.
Lemma heartbeat_restart_proto s : l_proto (heartbeat_restart s) = l_proto s.
Proof. unfold heartbeat_restart. by repeat case_match. Qed.
Lemma spawn_reader_proto s : l_proto (spawn_reader s) = l_proto s.
Proof. unfold spawn_reader. by case_match. Qed.
Lemma cancel_reader_proto s : l_proto (cancel_reader s) = l_proto s.
Proof. unfold cancel_reader. by case_match. Qed.
Lemma begin_pass_proto s : l_proto (begin_pass s) = l_proto s.
Proof. unfold begin_pass. simpl. by rewrite cancel_reader_proto. Qed.
Lemma connected_again_proto s : l_proto (connected_again s) = l_proto s.
Proof. unfold connected_again. by rewrite heartbeat_restart_proto, spawn_reader_proto. Qed.
Lemma reconnect_failed_proto att e s :
  l_proto (reconnect_failed att e s) = fail_pending (abandon_reason e) (with_running false (l_proto s)).
Proof. unfold reconnect_failed, abandon. by case_bool_decide. Qed.

#[local] Hint Rewrite handle_disconnect_proto heartbeat_exit_proto heartbeat_restart_proto spawn_reader_proto
  cancel_reader_proto begin_pass_proto connected_again_proto reconnect_failed_proto : ctrader.

(** The protocol object after a step of the link. *)
Definition protocol_after (l : llabel) (p : Protocol) : Protocol :=
  match l with
  | LRead _ pm inner => (dispatch_message pm inner p).1
  | LAbandon e => fail_pending (abandon_reason e) (with_running false p)
  | LShutdown => stop p
  | _ => p
  end.

Lemma lstep_proto `{!StopStrategies} att host port s l s' :
  lstep att host port s l s' -> l_proto s' = protocol_after l (l_proto s).
Proof.
  intros Hstep.
  destruct Hstep as [s i Hi|s i n pm inner Hi Hcon|s i n e Hi Hc Hclosed|s i Hi|s j Hj|s j Hj|s j Hj Hrun Hcon|
    s j Hj|s l1 l2 Ht|s l1 l2 Ht Hatt|s l1 l2 e Ht Hatt He|s l1 l2 n Ht|s l1 l2 n Ht Hgive|
    s l1 l2 n cause e Ht Hgive He|s l1 l2 n Ht|s l1 l2 Ht|s l1 l2 Ht|s]; cbn [protocol_after];
    try (autorewrite with ctrader; simpl; autorewrite with ctrader; done).
  - destruct (reader_verdict _ _ _); [|done..].
    match goal with |- context [handle_disconnect ?s] => pose proof (handle_disconnect_proto s) as H1;
      destruct (handle_disconnect s) as [[] ?] end; exact H1.
  - pose proof (handle_disconnect_proto s) as H1. destruct (handle_disconnect s) as [[] s1]; [exact H1|].
    by rewrite heartbeat_exit_proto.
  - by destruct (l_redo s).
Qed.

(** A step of the link is a step of the protocol, or none. *)
Lemma protocol_after_seen `{!Codec} l p cs :
  match seen l with
  | Some l' => step (mk_system p cs) l' (mk_system (protocol_after l p) cs)
  | None => protocol_after l p = p
  end.
Proof. destruct l; try done; [apply step_deliver|apply step_fail|apply step_stop]. Qed.

Lemma lstep_seen `{!Codec, !StopStrategies} att host port s l s' cs :
  lstep att host port s l s' ->
  match seen l with
  | Some l' => step (mk_system (l_proto s) cs) l' (mk_system (l_proto s') cs)
  | None => l_proto s' = l_proto s
  end.
Proof. intros ->%lstep_proto. apply protocol_after_seen. Qed.

(** A run of the composition, seen by the callers, is a run of [Protocol]. *)
Lemma creachable_reachable `{!Codec, !StopStrategies} att host port tr0 tr c :
  creachable att host port tr0 tr c -> reachable (tr0 ++ LServe :: omap to_callers tr) (view c).
Proof.
  induction 1 as [p cs Hp Hrun|tr c l c' Hc IH Hstep].
  - eapply reachable_step; [exact Hp|]. apply step_serve. unfold serve_enter. by rewrite Hrun.
  - rewrite omap_app. destruct Hstep as [s l s' cs Hl|s l p' cs cs' Hl Hcs]; csimpl.
    + pose proof (lstep_seen _ _ _ _ _ _ cs Hl) as Hs. destruct (seen l) as [l'|]; csimpl.
      * rewrite app_comm_cons, app_assoc. by eapply reachable_step.
      * rewrite app_nil_r. unfold view in *. simpl in *. by rewrite Hs.
    + rewrite app_comm_cons, app_assoc. by eapply reachable_step.
Qed.

Lemma csteps_runs `{!Codec, !StopStrategies} att host port c tr c' :
  csteps att host port c tr c' -> runs (view c) (omap to_callers tr) (view c').
Proof.
  induction 1 as [c|c tr c' l c'' Hc IH Hstep]; [apply runs_nil|].
  rewrite omap_app. destruct Hstep as [s l s' cs Hl|s l p' cs cs' Hl Hcs]; csimpl.
  - pose proof (lstep_seen _ _ _ _ _ _ cs Hl) as Hs. destruct (seen l) as [l'|]; csimpl.
    + by eapply runs_snoc.
    + rewrite app_nil_r. unfold view in *. simpl in *. by rewrite Hs.
  - by eapply runs_snoc.
Qed.

(** *** The link does not look at the protocol object, but for whether it is running *)

Lemma protocol_after_running l p q : running p = running q -> running (protocol_after l p) = running (protocol_after l q).
Proof. intros H. destruct l; simpl; rewrite ?dispatch_running; done. Qed.

Section other_protocol.
Context (p : Protocol).

Lemma handle_disconnect_at s :
  running p = l_running s ->
  handle_disconnect (set_proto p s) = ((handle_disconnect s).1, set_proto p (handle_disconnect s).2).
Proof.
  intros Hp. unfold handle_disconnect. unfold l_running in *. simpl. rewrite Hp.
  by destruct (running (l_proto s)), (l_reconnecting s), (l_group s).
Qed.
Lemma heartbeat_exit_at j s : heartbeat_exit j (set_proto p s) = set_proto p (heartbeat_exit j s).
Proof. unfold heartbeat_exit. simpl. by case_match. Qed.
Lemma heartbeat_restart_at s : heartbeat_restart (set_proto p s) = set_proto p (heartbeat_restart s).
Proof. destruct s as [? ? ? ? ? ? ? ? ? [] [] ? ? ?]; reflexivity. Qed.
Lemma spawn_reader_at s : spawn_reader (set_proto p s) = set_proto p (spawn_reader s).
Proof. unfold spawn_reader. simpl. by destruct (l_group s). Qed.
Lemma begin_pass_at s : begin_pass (set_proto p s) = set_proto p (begin_pass s).
Proof. unfold begin_pass, cancel_reader. simpl. by destruct (l_scope s). Qed.
Lemma connected_again_at s : connected_again (set_proto p s) = set_proto p (connected_again s).
Proof. unfold connected_again. by rewrite <- heartbeat_restart_at, <- spawn_reader_at. Qed.
Lemma reconnect_failed_at att e s :
  reconnect_failed att e (set_proto p s) = set_proto (protocol_after (LAbandon e) p) (reconnect_failed att e s).
Proof. unfold reconnect_failed, abandon. simpl. by case_bool_decide. Qed.
End other_protocol.

Lemma lstep_to `{!StopStrategies} att host port s l s1 s2 :
  lstep att host port s l s1 -> s1 = s2 -> lstep att host port s l s2.
Proof. by intros ? <-. Qed.

Lemma lstep_at `{!StopStrategies} att host port p s l s' :
  lstep att host port s l s' -> running p = l_running s ->
  lstep att host port (set_proto p s) l (set_proto (protocol_after l p) s').
Proof.
  intros Hstep Hp.
  destruct Hstep as [s i Hi|s i n pm inner Hi Hcon|s i n e Hi Hc Hclosed|s i Hi|s j Hj|s j Hj|s j Hj Hrun Hcon|
    s j Hj|s l1 l2 Ht|s l1 l2 Ht Hatt|s l1 l2 e Ht Hatt He|s l1 l2 n Ht|s l1 l2 n Ht Hgive|
    s l1 l2 n cause e Ht Hgive He|s l1 l2 n Ht|s l1 l2 Ht|s l1 l2 Ht|s]; cbn [protocol_after].
  - eapply lstep_to; [by apply lstep_reader_start|]. unfold l_running. simpl. by rewrite Hp.
  - eapply lstep_to; [by eapply lstep_read|]. unfold l_running. simpl. by rewrite Hp.
  - eapply lstep_to; [by eapply lstep_read_error|]. unfold l_running at 1. simpl. rewrite Hp.
    destruct (reader_verdict _ _ _); [|done..].
    change (set_readers ?a ?b (set_proto p s)) with (set_proto p (set_readers a b s)).
    rewrite handle_disconnect_at by done. destruct (handle_disconnect _) as [[] s1]; done.
  - by apply lstep_told_reader.
  - eapply lstep_to; [by apply lstep_told_heartbeat|]. by rewrite <- heartbeat_exit_at.
  - by apply lstep_hb_start.
  - apply lstep_hb_sent; [done| |done]. unfold l_running in *. simpl. by rewrite Hp.
  - eapply lstep_to; [by apply lstep_hb_report|]. rewrite handle_disconnect_at by done.
    destruct (handle_disconnect s) as [[] s1]; [done|apply heartbeat_exit_at].
  - eapply lstep_to; [by eapply lstep_pass|]. by rewrite begin_pass_at.
  - eapply lstep_to; [by eapply lstep_closed|done].
  - eapply lstep_to; [by eapply lstep_disabled|]. exact (reconnect_failed_at p att e (set_tasks (task_at l1 None l2) s)).
  - eapply lstep_to; [by eapply lstep_connect_ok|]. by rewrite connected_again_at.
  - eapply lstep_to; [by eapply lstep_connect_fail|done].
  - eapply lstep_to; [by eapply lstep_connect_last|]. exact (reconnect_failed_at p att e (set_tasks (task_at l1 None l2) s)).
  - eapply lstep_to; [by eapply lstep_backoff|done].
  - eapply lstep_to; [by eapply lstep_restored|]. simpl. by destruct (l_redo s).
  - eapply lstep_to; [by eapply lstep_lost_again|]. by rewrite begin_pass_at.
  - eapply lstep_to; [by eapply lstep_shutdown|]. done.
Qed.

(** The composition simulates the link, and the link the composition. *)
Lemma same_link_step `{!StopStrategies} att host port s l s' t :
  lstep att host port s l s' -> same_link s t -> exists t', lstep att host port t l t' /\ same_link s' t'.
Proof.
  intros Hstep (p & -> & Hp). exists (set_proto (protocol_after l p) s'). split; [by apply lstep_at|].
  exists (protocol_after l p). split; [done|]. unfold l_running. rewrite (lstep_proto _ _ _ _ _ _ Hstep).
  by apply protocol_after_running.
Qed.

Lemma same_link_sym s t : same_link s t -> same_link t s.
Proof. intros (p & -> & Hp). exists (l_proto s). by destruct s. Qed.

(** A caller's step does not start or stop the protocol. *)
Lemma call_running `{!Codec} s l s' :
  step s l s' -> is_call l = true -> running (proto s') = running (proto s).
Proof.
  intros Hstep. destruct Hstep as [p p' cs m msg_id pm Hb|p p' cs m e Hb| | | | |p p' cs Hp| | | |p cs k h]; try done.
  1, 2: intros _; unfold send_request_begin in Hb; simpl; destruct (running p) eqn:E; simpl in Hb;
    try destruct (wrap_message _ _); by simplify_eq/=.
  intros _. simpl. unfold remove_handler. by case_match.
Qed.

Lemma creachable_link `{!Codec, !StopStrategies} att host port tr0 tr c :
  creachable att host port tr0 tr c ->
  exists s, lreachable att host port (omap to_link tr) s /\ same_link s (c_link c).
Proof.
  induction 1 as [p cs Hp Hrun|tr c l c' Hc (s & Hs & Hsame) Hstep].
  - exists (link_start p). split; [apply lreachable_start|apply same_link_refl].
  - rewrite omap_app. destruct Hstep as [t l t' cs Hl|t l p' cs cs' Hl Hcs]; csimpl in *.
    + destruct (same_link_step _ _ _ _ _ _ _ Hl (same_link_sym _ _ Hsame)) as (s' & Hs' & Hsame').
      exists s'. split; [by eapply lreachable_step|by apply same_link_sym].
    + exists s. rewrite app_nil_r. split; [done|]. destruct Hsame as (p & -> & Hp). exists p'. split; [done|].
      pose proof (call_running _ _ _ Hcs Hl) as Hr. simpl in Hr. by rewrite Hr.
Qed.

Lemma creachable_ok `{!Codec, !StopStrategies} att host port tr0 tr c :
  creachable att host port tr0 tr c -> link_ok (c_link c).
Proof.
  intros (s & Hs & p & -> & Hp)%creachable_link. apply proto_ok; [by eapply lreachable_ok|]. by rewrite Hp.
Qed.

(** Steps of callers are steps of the composition. *)
Lemma call_step `{!Codec, !StopStrategies} att host port c l s' :
  is_call l = true -> step (view c) l s' -> exists c', cstep att host port c (CCall l) c' /\ view c' = s'.
Proof.
  intros Hl Hstep. destruct c as [s cs], s' as [p' cs']. exists (mk_connection (set_proto p' s) cs').
  split; [by apply cstep_call|done].
Qed.

Lemma calls_csteps `{!Codec, !StopStrategies} att host port c ls s' :
  runs (view c) ls s' -> Forall (fun l => is_call l = true) ls ->
  exists c', csteps att host port c (CCall <$> ls) c' /\ view c' = s'.
Proof.
  remember (view c) as s eqn:Hs. intros Hruns. induction Hruns as [s|s ls s1 l s2 Hr IH Hstep]; intros Hls.
  - exists c. by split; [apply csteps_nil|].
  - rewrite Forall_app, Forall_singleton in Hls. destruct Hls as [Hls Hl].
    destruct IH as (c1 & Hc1 & <-); [done|done|]. destruct (call_step att host port c1 l s2 Hl Hstep) as (c2 & Hc2 & Hv).
    exists c2. split; [|done]. rewrite fmap_app. by eapply csteps_snoc.
Qed.

Lemma own_calls ls : Forall (fun l => is_own l = true) ls -> Forall (fun l => is_call l = true) ls.
Proof. intros H. eapply Forall_impl; [exact H|]. by intros []. Qed.

Lemma csteps_reachable `{!Codec, !StopStrategies} att host port tr0 tr c tr' c' :
  creachable att host port tr0 tr c -> csteps att host port c tr' c' -> creachable att host port tr0 (tr ++ tr') c'.
Proof.
  intros Hc Hsteps. induction Hsteps as [c|c tr' c1 l c2 Hsteps IH Hstep]; [by rewrite app_nil_r|].
  rewrite app_assoc. eapply creachable_step; [by apply IH|done].
Qed.

(** ** Properties *)

(** C2. The connection refines both of its specifications. In every run of the callers
    together with readers, heartbeats and reconnections over the one protocol object, what
    the callers see is a run of the request system, and what the tasks of the link do is a
    run of the link; and neither holds the other up: every step the link could take on its
    own, and every step a caller could take, is one the composition can take. *)
Theorem connection_refines `{!Codec, !StopStrategies} (att : option Z) (host : string) (port : Z)
    (tr0 : list label) (tr : list clabel) (c : connection) (Hc : creachable att host port tr0 tr c) :
  reachable (tr0 ++ LServe :: omap to_callers tr) (view c) /\
  (exists s, lreachable att host port (omap to_link tr) s /\ same_link s (c_link c) /\
     forall l s', lstep att host port s l s' ->
       exists c', cstep att host port c (CLink l) c' /\ same_link s' (c_link c') /\ c_calls c' = c_calls c) /\
  (forall l s', is_call l = true -> step (view c) l s' -> exists c', cstep att host port c (CCall l) c' /\ view c' = s').
Proof.
  split; [by eapply creachable_reachable|]. split; [|intros l s'; apply call_step].
  destruct (creachable_link _ _ _ _ _ _ Hc) as (s & Hs & Hsame). exists s. split_and!; [done..|].
  intros l s' Hl. destruct (same_link_step _ _ _ _ _ _ _ Hl Hsame) as (t' & Ht & Hsame').
  destruct c as [t cs]. exists (mk_connection t' cs). split_and!; [by apply cstep_link|done|done].
Qed.

(** C5. Requests across outages. However often the link drops and comes back while a request
    is in flight, and whatever other callers do: unless its own call is ended from outside,
    the request is neither failed nor forgotten by the outage; it is still waiting, with the
    link up and watched or one reconnection at work, or its one answer has come, perhaps
    over a later link, and its caller gets exactly that. And once the client gives up
    reconnecting, every caller in flight can leave with an error, and new requests are
    refused. *)
Theorem requests_across_outages `{!Codec, !StopStrategies} (att : option Z) (host : string) (port : Z)
    (tr0 : list label) (tr tr' : list clabel) (c c' : connection) (id : string) (ph : phase)
    (Hc : creachable att host port tr0 tr c) (Hsteps : csteps att host port c tr' c')
    (Hph : dict_get id (c_calls c) = Some ph) (Ha : is_active ph = true)
    (Hslot : dict_get id (pending (l_proto (c_link c))) = Some fresh_pending) (Hrun : l_running (c_link c) = true) :
  (Forall (undisturbed id) (omap to_callers tr') ->
   match answers id (omap to_callers tr') with
   | [] => (exists ph', dict_get id (c_calls c') = Some ph' /\ is_active ph' = true) /\
       dict_get id (pending (l_proto (c_link c'))) = Some fresh_pending /\
       ((l_connected (c_link c') = true /\ watched (c_link c')) \/
        (length (l_notifying (c_link c')) + length (l_tasks (c_link c')) = 1)%nat)
   | [r] => exists ls c'', csteps att host port c' (CCall <$> ls) c'' /\ Forall (fun l => is_own l = true) ls /\
       dict_get id (c_calls c'') = Some (Finished r)
   | _ => True
   end) /\
  (forall e c1, cstep att host port c' (CLink (LAbandon e)) c1 ->
   (forall m, exists reason, (send_request_begin m (l_proto (c_link c1))).1 = Err (CTraderConnectionClosedError reason false)) /\
   forall id1 ph1, dict_get id1 (c_calls c1) = Some ph1 -> is_active ph1 = true ->
     exists ls c2, csteps att host port c1 (CCall <$> ls) c2 /\ Forall (fun l => is_own l = true) ls /\
       dict_get id1 (c_calls c2) = Some (Finished (Err stopped_waiting))).
Proof.
  pose proof (creachable_reachable _ _ _ _ _ _ Hc) as Hs. pose proof (csteps_runs _ _ _ _ _ _ Hsteps) as Hruns.
  pose proof (csteps_reachable _ _ _ _ _ _ _ _ Hc Hsteps) as Hc'. split.
  - intros Hu. destruct (answers id (omap to_callers tr')) as [|r [|]] eqn:E; [| |done].
    all: destruct (settled_runs _ _ _ _ id Hs Hruns Hu Hrun) as [Hrun' Hset];
      [by split; [exists ph|]|rewrite E; simpl; lia|]; rewrite E in Hset.
    + destruct Hset as [Hph' Hslot']. split_and!; [done|done|].
      destruct (link_ok_served _ (creachable_ok _ _ _ _ _ _ Hc') Hrun') as [(_ & ? & ? & _)|[_ ?]]; auto.
    + destruct (settled_finishes _ _ _ _ Hrun' Hset) as (ls & s'' & Hr & Hown & Hf).
      destruct (calls_csteps att host port c' ls s'' Hr (own_calls _ Hown)) as (c'' & Hcs & Hv).
      exists ls, c''. split_and!; [done|done|]. by rewrite <- Hv in Hf.
  - intros e c1 Habandon. pose proof (creachable_reachable _ _ _ _ _ _ (creachable_step _ _ _ _ _ _ _ _ Hc' Habandon)) as Hs1.
    inversion Habandon as [s l s' cs Hl|]; subst. pose proof (lstep_proto _ _ _ _ _ _ Hl) as Hp. simpl in Hp.
    split.
    + intros m. eexists. unfold send_request_begin. simpl. by rewrite Hp.
    + intros id1 ph1 Hph1 Ha1. simpl in Hph1.
      destruct (proj2 (slot_iff_active _ _ id1 Hs1)) as [pr Hpr]; [by exists ph1|].
      assert (Hset : event_is_set pr = true).
      { simpl in Hpr. rewrite Hp in Hpr. simpl in Hpr. rewrite dict_get_map in Hpr.
        destruct (dict_get id1 (pending (l_proto s))); by simplify_eq/=. }
      destruct (woken_finishes id1 (l_proto s') cs ph1 pr Hph1 Ha1 Hpr Hset) as (ls & s'' & Hr & Hown & Hf).
      destruct (calls_csteps att host port (mk_connection s' cs) ls s'' Hr (own_calls _ Hown)) as (c2 & Hcs & Hv).
      exists ls, c2. split_and!; [done|done|]. rewrite <- Hv in Hf. simpl in Hf. rewrite Hf.
      unfold send_request_woken. by rewrite Hp.
Qed.

(** ** An answer over the second link *)

Module Outage.
Import Delivery.Sample Link.Tenacity.

Definition host : string := "demo.ctraderapi.com".

(** One more step of a run, its state evaluated. *)
Ltac evaluate H :=
  match type of H with
  | creachable _ _ _ _ _ ?c => let c' := eval vm_compute in c in change c with c' in H
  | csteps _ _ _ _ _ ?c => let c' := eval vm_compute in c in change c with c' in H
  end.
Ltac reach H t := eapply creachable_step in H; [|t]; evaluate H.
Ltac go H t := eapply csteps_snoc in H; [|t]; evaluate H.

(** A request is on the wire when the stream ends; the answer comes after the reconnection. *)
Lemma outage :
  exists tr c tr' c',
    creachable None host 5035 [] tr c /\ csteps None host 5035 c tr' c' /\
    dict_get "1" (c_calls c) = Some Waiting /\ dict_get "1" (pending (l_proto (c_link c))) = Some fresh_pending /\
    l_running (c_link c) = true /\ CLink (LConnect 1 true) ∈ tr' /\
    Forall (undisturbed "1") (omap to_callers tr') /\
    answers "1" (omap to_callers tr') = [Ok (MClientDisconnectEvent "bye")].
Proof.
  assert (Hc : creachable None host 5035 [] [] (mk_connection (link_start new_protocol) []))
    by (apply creachable_start; [apply reachable_init|done]).
  reach Hc ltac:(apply cstep_link, (lstep_reader_start _ _ _ _ 0); reflexivity).
  reach Hc ltac:(eapply cstep_call; [|eapply (step_start _ _ _ MHeartbeatEvent "1"); vm_compute]; reflexivity).
  reach Hc ltac:(eapply cstep_call; [|eapply (step_sent _ _ "1")]; reflexivity).
  match type of Hc with creachable _ _ _ _ ?tr ?c => exists tr, c; pose proof (csteps_nil None host 5035 c) as Hs end.
  go Hs ltac:(apply cstep_link; eapply (lstep_read_error _ _ _ _ 0 0 EndOfStream); [reflexivity|done|done]).
  go Hs ltac:(apply cstep_link, (lstep_told_reader _ _ _ _ 0), list_elem_of_here).
  go Hs ltac:(apply cstep_link; by eapply (lstep_pass _ _ _ _ [] [])).
  go Hs ltac:(apply cstep_link; by eapply (lstep_closed _ _ _ _ [] [])).
  go Hs ltac:(apply cstep_link; by eapply (lstep_connect_ok _ _ _ _ [] [] 1)).
  go Hs ltac:(apply cstep_link, (lstep_reader_start _ _ _ _ 2); reflexivity).
  go Hs ltac:(apply cstep_link, (lstep_read _ _ _ _ 2 0 (mk_proto_message 2148 [] "1") (MClientDisconnectEvent "bye")); reflexivity).
  match type of Hs with csteps _ _ _ _ ?tr ?c => exists tr, c end.
  split; [exact Hc|]. split; [exact Hs|]. split_and!; try reflexivity.
  - apply list_elem_of_In. cbn. tauto.
  - cbn. repeat constructor.
Qed.
End Outage.
Import Delivery.Sample Link.Tenacity.

Lemma requests_across_outages_witness :
  exists c, dict_get "1" (c_calls c) = Some (Finished (Ok (MClientDisconnectEvent "bye"))).
Proof.
  destruct Outage.outage as (tr & c & tr' & c' & Hc & Hs & Hph & Hslot & Hrun & _ & Hu & Ha).
  destruct (requests_across_outages _ _ _ _ _ _ _ _ _ _ Hc Hs Hph eq_refl Hslot Hrun) as [H _].
  specialize (H Hu). rewrite Ha in H. destruct H as (ls & c'' & _ & _ & Hf). exists c''. exact Hf.
Defined.

Lemma connection_refines_witness :
  exists tr c, reachable ([] ++ LServe :: omap to_callers tr) (view c) /\
    dict_get "1" (callers (view c)) = Some Waiting.
Proof.
  destruct Outage.outage as (tr & c & _ & _ & Hc & _ & Hph & _).
  exists tr, c. split; [exact (proj1 (connection_refines _ _ _ _ _ _ Hc))|exact Hph].
Defined.
