(* ===== verification/Status.v ===== *)
(** * What a consumer can poll ([connection/protocol.py], [supervisor.py], [client.py])

    The [is_connected] properties of the layers, and what they tell of a link whose readers,
    heartbeats, reconnections and callers run together ([Connection]). *)

From S2P Require Import Prelude Errors Wire Framing Messages Protocol Link Delivery Connection.
From stdpp Require Import options.
Open Scope string_scope.
Open Scope list_scope.
Open Scope Z_scope.

(** ** The properties *)

(** [Transport.is_connected] is [l_connected]. *)
Definition protocol_is_connected (s : link) : bool := l_connected s && l_running s.

(** [serving] is [ConnectionSupervisor._serving]. *)
Definition supervisor_is_connected (serving : bool) (s : link) : bool := serving && l_connected s.
Definition client_is_connected := supervisor_is_connected.

(** ** When the transport is closed *)

(** Between closing the old transport and the attempt that connects. *)
Definition between_links (t : recon) : bool :=
  match t with RClosing | RConnecting _ | RBackoff _ => true | RStart | RRestoring | RLost => false end.

(** Nothing runs that could bring the link back. *)
Record given_up (s : link) : Prop := mk_given_up {
  gu_running : l_running s = false;
  gu_connected : l_connected s = false;
  gu_tasks : l_tasks s = [];
  gu_notifying : l_notifying s = [];
}.

(** The transport is closed exactly between links, and for good once given up. *)
Definition status_ok (s : link) : Prop :=
  match l_tasks s with
  | [t] => l_connected s = negb (between_links t)
  | [] => l_connected s = true \/ given_up s
  | _ => False
  end.

Lemma handle_disconnect_frame s :
  l_connected (handle_disconnect s).2 = l_connected s /\ l_tasks (handle_disconnect s).2 = l_tasks s /\
  l_notifying (handle_disconnect s).2 = l_notifying s /\ l_running (handle_disconnect s).2 = l_running s.
Proof. unfold handle_disconnect. by repeat case_match. Qed.

Lemma handle_disconnect_stopped s : l_running s = false -> handle_disconnect s = (false, s).
Proof. intros Hr. unfold handle_disconnect. by rewrite Hr. Qed.

Lemma heartbeat_exit_frame j s :
  l_connected (heartbeat_exit j s) = l_connected s /\ l_tasks (heartbeat_exit j s) = l_tasks s /\
  l_running (heartbeat_exit j s) = l_running s.
Proof. unfold heartbeat_exit. by case_match. Qed.

Lemma connected_again_frame s :
  l_connected (connected_again s) = true.
Proof.
  unfold connected_again, heartbeat_restart, spawn_reader. cbn.
  destruct (l_group s); cbn; destruct (l_hb_scope s); cbn; by destruct (l_hb_group s).
Qed.

(** The listener is told while the transport is still open. *)
Lemma told_while_up s d :
  link_ok s -> status_ok s -> d ∈ l_notifying s -> l_tasks s = [] /\ l_connected s = true.
Proof.
  intros Hok Hs Hd. destruct (single_detector _ _ Hok Hd) as (Hn & Ht & _). split; [done|].
  unfold status_ok in Hs. rewrite Ht in Hs. destruct Hs as [?|[_ _ _ Hn']]; [done|]. by rewrite Hn' in Hn.
Qed.

Section steps.
Context `{!StopStrategies} (att : option Z) (host : string) (port : Z).

Lemma lstep_given_up s l s' : given_up s -> lstep att host port s l s' -> given_up s'.
Proof.
  intros [Hr Hc Ht Hn] Hstep.
  destruct Hstep as [s i Hi|s i n pm inner Hi Hcon|s i n e Hi He Hclosed|s i Hi|s j Hj|s j Hj|s j Hj Hrun Hcon|
    s j Hj|s l1 l2 Hat|s l1 l2 Hat Hatt|s l1 l2 e Hat Hatt He|s l1 l2 n Hat|s l1 l2 n Hat Hgive|
    s l1 l2 n cause e Hat Hgive He|s l1 l2 n Hat|s l1 l2 Hat|s l1 l2 Hat|s];
    try congruence; try (by rewrite Ht in Hat; destruct l1); try (rewrite Hn in Hi; by apply not_elem_of_nil in Hi);
    try (rewrite Hn in Hj; by apply not_elem_of_nil in Hj);
    try by split.
  - destruct (reader_verdict _ _ _); try by split. by rewrite handle_disconnect_stopped.
  - rewrite handle_disconnect_stopped by done. destruct (heartbeat_exit_frame j s) as (H1 & H2 & H3).
    split; rewrite ?H1, ?H2, ?H3; try done. unfold heartbeat_exit. rewrite Hn. by case_match.
Qed.

(** What moves neither the transport nor a reconnection. *)
Lemma status_frame s s' :
  l_connected s' = l_connected s -> l_tasks s' = l_tasks s -> (given_up s -> given_up s') -> status_ok s -> status_ok s'.
Proof. intros Hc Ht Hg. unfold status_ok. rewrite Hc, Ht. destruct (l_tasks s) as [|t [|]]; naive_solver. Qed.

Lemma lstep_status s l s' : link_ok s -> status_ok s -> lstep att host port s l s' -> status_ok s'.
Proof.
  intros Hok Hs Hstep. pose proof (fun H => lstep_given_up s l s' H Hstep) as Hg. pose proof Hs as Hs'.
  unfold status_ok in Hs'.
  destruct Hstep as [s i Hi|s i n pm inner Hi Hcon|s i n e Hi He Hclosed|s i Hi|s j Hj|s j Hj|s j Hj Hrun Hcon|
    s j Hj|s l1 l2 Ht|s l1 l2 Ht Hatt|s l1 l2 e Ht Hatt He|s l1 l2 n Ht|s l1 l2 n Ht Hgive|
    s l1 l2 n cause e Ht Hgive He|s l1 l2 n Ht|s l1 l2 Ht|s l1 l2 Ht|s];
    try (destruct (single_task _ _ _ _ Hok Ht) as (-> & -> & Hn & Hrec & Hr); rewrite Ht in Hs'; simpl in Hs');
    try (apply (status_frame s); [done|done|exact Hg|exact Hs]).
  - apply (status_frame s); [| |exact Hg|exact Hs]; (destruct (reader_verdict _ _ _); [|done..]);
      match goal with |- context [handle_disconnect ?s1] =>
        destruct (handle_disconnect_frame s1) as (H1 & H2 & _); by destruct (handle_disconnect s1) as [[] ?] end.
  - destruct (told_while_up _ _ Hok Hs Hi) as [Ht Hc]. unfold status_ok. simpl. by rewrite Ht.
  - destruct (told_while_up _ _ Hok Hs Hj) as [Ht Hc].
    destruct (heartbeat_exit_frame j (spawn_reconnect (DHeartbeat j) s)) as (H1 & H2 & _).
    unfold status_ok. rewrite H1, H2. simpl. by rewrite Ht.
  - apply (status_frame s); [| |exact Hg|exact Hs]; destruct (handle_disconnect_frame s) as (H1 & H2 & _);
      destruct (handle_disconnect s) as [[] s1]; try done; destruct (heartbeat_exit_frame j s1) as (H3 & H4 & _); simpl in *; congruence.
  - unfold status_ok, begin_pass. simpl. done.
  - done.
  - unfold status_ok, reconnect_failed, abandon. case_bool_decide; right; by split.
  - unfold status_ok. simpl. apply connected_again_frame.
  - done.
  - unfold status_ok, reconnect_failed, abandon. case_bool_decide; right; by split.
  - done.
  - destruct (l_redo s); [done|by left].
  - unfold status_ok, begin_pass. simpl. done.
Qed.

(** Giving up leaves nothing behind that could go on trying. *)
Lemma abandon_given_up s e s' : link_ok s -> status_ok s -> lstep att host port s (LAbandon e) s' -> given_up s'.
Proof.
  intros Hok Hs Hstep.
  assert (Hlast : exists t, l_tasks s = [t] /\ l_notifying s = [] /\ between_links t = true /\
    s' = reconnect_failed att e (set_tasks [] s)).
  { inversion Hstep; subst; match goal with Ht : l_tasks s = _ ++ _ :: _ |- _ =>
      destruct (single_task _ _ _ _ Hok Ht) as (-> & -> & Hn & _); eexists; split_and!; [exact Ht|done..] end. }
  destruct Hlast as (t & Ht & Hn & Hb & ->). unfold status_ok in Hs. rewrite Ht, Hb in Hs.
  unfold reconnect_failed, abandon. case_bool_decide; by split.
Qed.

(** *** With callers on it *)

Context `{!Codec}.

Lemma call_frame s l p' cs cs' :
  is_call l = true -> step (mk_system (l_proto s) cs) l (mk_system p' cs') -> running p' = l_running s.
Proof. intros Hl Hstep. exact (call_running _ _ _ Hstep Hl). Qed.

Lemma given_up_proto s p : running p = l_running s -> given_up s -> given_up (set_proto p s).
Proof. intros Hp [Hr Hc Ht Hn]. split; [by rewrite <-Hr, <-Hp|done..]. Qed.

Lemma cstep_given_up c l c' : given_up (c_link c) -> cstep att host port c l c' -> given_up (c_link c').
Proof.
  intros Hg Hstep. destruct Hstep as [s l0 s' cs Hl|s l0 p' cs cs' Hl Hcs]; [by eapply lstep_given_up|].
  apply given_up_proto; [by eapply call_frame|done].
Qed.

Lemma csteps_given_up c tr c' : csteps att host port c tr c' -> given_up (c_link c) -> given_up (c_link c').
Proof. induction 1; eauto using cstep_given_up. Qed.

Lemma creachable_status tr0 tr c : creachable att host port tr0 tr c -> status_ok (c_link c).
Proof.
  induction 1 as [p cs Hp Hrun|tr c l c' Hc IH Hstep]; [by left|].
  pose proof (creachable_ok _ _ _ _ _ _ Hc) as Hok. destruct Hstep as [s l s' cs Hl|s l p' cs cs' Hl Hcs].
  - by eapply lstep_status.
  - apply (status_frame s); [done|done| |done]. apply given_up_proto. by eapply call_frame.
Qed.

(** Runs of the link alone are runs of the composition. *)
Lemma csteps_cons c l c1 tr c2 :
  cstep att host port c l c1 -> csteps att host port c1 tr c2 -> csteps att host port c (l :: tr) c2.
Proof.
  intros Hl Hsteps. induction Hsteps as [c1|c1 tr c' l' c2 _ IH Hstep].
  - by apply (csteps_snoc _ _ _ _ [] c); [apply csteps_nil|].
  - rewrite app_comm_cons. by eapply csteps_snoc; [apply IH|].
Qed.

Lemma lsteps_csteps s tr s' cs :
  lsteps att host port s tr s' -> csteps att host port (mk_connection s cs) (CLink <$> tr) (mk_connection s' cs).
Proof. induction 1; csimpl; [apply csteps_nil|]. by eapply csteps_cons; [apply cstep_link|]. Qed.
End steps.

(** ** Properties *)

(** C29. What polling tells. In every run of the callers over a link that drops and comes back:
    while nothing is being repaired a running link reads as connected at every layer. One
    that runs and reads as down is down at every layer, and one reconnection is at work on
    it, past the drop and before the new connection; unless reconnection is disabled, it
    needs at most seven steps, the next attempt succeeding, to read as connected again. So
    reading as down with nothing at work means that the client has given up; and once it
    has, it reads as down at every layer for ever, whatever callers and tasks still do. *)
Theorem status_honest `{!Codec, !StopStrategies} (att : option Z) (host : string) (port : Z)
    (tr0 : list label) (tr : list clabel) (c : connection) (Hc : creachable att host port tr0 tr c) :
  let s := c_link c in
  (l_running s = true -> l_reconnecting s = false ->
     protocol_is_connected s = true /\ client_is_connected true s = true) /\
  (l_running s = true -> client_is_connected true s = false ->
     protocol_is_connected s = false /\ (exists t, l_tasks s = [t] /\ between_links t = true /\ l_notifying s = []) /\
     (att ≠ Some 0 -> exists tr' c', (length tr' <= 7)%nat /\ csteps att host port c tr' c' /\
        protocol_is_connected (c_link c') = true /\ client_is_connected true (c_link c') = true)) /\
  (client_is_connected true s = false -> l_tasks s = [] -> given_up s) /\
  (forall e c1 tr' c2, cstep att host port c (CLink (LAbandon e)) c1 -> csteps att host port c1 tr' c2 ->
     forall serving, client_is_connected serving (c_link c2) = false /\ protocol_is_connected (c_link c2) = false).
Proof.
  cbv zeta. pose proof (creachable_ok _ _ _ _ _ _ Hc) as Hok. pose proof (creachable_status _ _ _ _ _ _ Hc) as Hs.
  unfold protocol_is_connected, client_is_connected, supervisor_is_connected. simpl. split_and!.
  - intros Hr Hrec. by destruct (lk_watched _ Hok Hr Hrec) as [-> _].
  - intros Hr Hd. rewrite Hd. split; [done|].
    destruct (link_ok_served _ Hok Hr) as [(_ & Hcon & _)|[Hrec Hone]]; [congruence|]. split.
    + unfold status_ok in Hs. destruct (l_tasks (c_link c)) as [|t [|]] eqn:Ht; [|exists t|done].
      * destruct Hs as [Hs|[Hr' _ _ _]]; congruence.
      * split_and!; [done|by revert Hs; rewrite Hd; destruct (between_links t)|]. by destruct (l_notifying _); simpl in Hone; [|lia].
    + intros Hatt. destruct (reconnecting_settles att host port _ Hatt Hok Hr Hrec) as (tr' & s' & Hn & Hl & _ & Hr' & Hrec').
      destruct c as [s cs]. exists (CLink <$> tr'), (mk_connection s' cs). rewrite length_fmap.
      pose proof (lsteps_csteps att host port s tr' s' cs Hl) as Hcs. split; [done|]. split; [done|].
      pose proof (creachable_ok _ _ _ _ _ _ (csteps_reachable _ _ _ _ _ _ _ _ Hc Hcs)) as Hok'.
      destruct (lk_watched _ Hok' Hr' Hrec') as [Hcon _]. simpl in *. by rewrite Hcon, Hr'.
  - intros Hd Ht. unfold status_ok in Hs. rewrite Ht in Hs. destruct Hs; [congruence|done].
  - intros e c1 tr' c2 Ha Hsteps serving.
    assert (Hg : given_up (c_link c1)).
    { inversion Ha as [s l s' cs Hl|]; subst. by eapply abandon_given_up. }
    destruct (csteps_given_up _ _ _ _ _ _ Hsteps Hg) as [Hr2 Hc2 _ _]. rewrite Hc2. by destruct serving.
Qed.

Import Delivery.Sample Link.Tenacity Connection.Outage.

(** A link whose reader saw the end of the stream, its transport closed. *)
Lemma broken_link :
  exists tr c, creachable None Connection.Outage.host 5035 [] tr c /\
    l_running (c_link c) = true /\ l_connected (c_link c) = false.
Proof.
  assert (Hc : creachable None host 5035 [] [] (mk_connection (link_start new_protocol) []))
    by (apply creachable_start; [apply reachable_init|done]).
  reach Hc ltac:(apply cstep_link, (lstep_reader_start _ _ _ _ 0); reflexivity).
  reach Hc ltac:(apply cstep_link; eapply (lstep_read_error _ _ _ _ 0 0 EndOfStream); [reflexivity|done|done]).
  reach Hc ltac:(apply cstep_link, (lstep_told_reader _ _ _ _ 0), list_elem_of_here).
  reach Hc ltac:(apply cstep_link; by eapply (lstep_pass _ _ _ _ [] [])).
  by match type of Hc with creachable _ _ _ _ ?tr ?c => exists tr, c end.
Qed.

Lemma status_honest_witness :
  exists c, client_is_connected true (c_link c) = false /\
  exists tr' c', (length tr' <= 7)%nat /\ csteps None host 5035 c tr' c' /\ client_is_connected true (c_link c') = true.
Proof.
  destruct broken_link as (tr & c & Hc & Hr & Hd). destruct (status_honest _ _ _ _ _ _ Hc) as (_ & H & _).
  destruct (H Hr Hd) as (_ & _ & Hback). destruct (Hback ltac:(discriminate)) as (tr' & c' & Hn & Hs & _ & Hup).
  exists c. split; [exact Hd|]. exists tr', c'. split; [exact Hn|]. split; [exact Hs|exact Hup].
Defined.
