(* ===== verification/Shutdown.v ===== *)
(** * Winding down, and being served again ([connection/protocol.py], [heartbeat.py],
    [supervisor.py])

    When [serving] is left the heartbeat and the protocol are stopped: whatever task of theirs
    is suspended is cancelled where it is, a task that was spawned and never ran does so up to
    its first [await] and is cancelled there, and one whose wait had just ended may go on to
    the next. All of it can happen in any order. [serve] returns when nothing is left; the
    client can then be entered again, on the same objects. *)

From S2P Require Import Prelude Errors Wire Framing Messages Protocol Link Exchange Connection.
From stdpp Require Import options.
Open Scope string_scope.
Open Scope list_scope.
Open Scope Z_scope.

(** ** Cancellation *)

Inductive wlabel :=
  | WStep (l : llabel)
  | WReader (i : nat)
  | WHeartbeat (j : nat)
  | WTelling (d : detector)
  | WRecon.

Section steps.
Context `{!StopStrategies} (reconnect_attempts : option Z) (host : string) (port : Z).

Inductive wstep : link -> wlabel -> link -> Prop :=
  (* its wait was over: it goes on to the next one *)
  | wstep_step s l s' : lstep reconnect_attempts host port s l s' -> wstep s (WStep l) s'
  (* in a read, or asleep after an error *)
  | wstep_reader s i n :
      dict_get i (l_readers s) = Some (Reading n) ->
      wstep s (WReader i) (set_readers (l_scope s) (dict_pop i (l_readers s)) s)
  (* asleep between two heartbeats, or sending one *)
  | wstep_heartbeat s j : j ∈ l_hbs s -> wstep s (WHeartbeat j) (heartbeat_exit j s)
  (* in [handle_disconnect], while the listener hears of the drop: nothing is undone *)
  | wstep_telling_reader s i :
      DReader i ∈ l_notifying s ->
      wstep s (WTelling (DReader i)) (set_notifying (filter (fun d => d ≠ DReader i) (l_notifying s)) s)
  | wstep_telling_heartbeat s j :
      DHeartbeat j ∈ l_notifying s -> wstep s (WTelling (DHeartbeat j)) (heartbeat_exit j s)
  (* anywhere in [_reconnect_task], whose [finally] clears the marks *)
  | wstep_recon s l1 t l2 :
      l_tasks s = l1 ++ t :: l2 -> t ≠ RStart ->
      wstep s WRecon (set_flags false false (set_tasks (task_at l1 None l2) s)).

Inductive wsteps : link -> list wlabel -> link -> Prop :=
  | wsteps_nil s : wsteps s [] s
  | wsteps_cons s l s' tr s'' : wstep s l s' -> wsteps s' tr s'' -> wsteps s (l :: tr) s''.
End steps.

(** Nothing is left to wait for. *)
Record ended (s : link) : Prop := mk_ended {
  en_readers : l_readers s = [];
  en_hbs : l_hbs s = [];
  en_notifying : l_notifying s = [];
  en_tasks : l_tasks s = [];
}.

(** [serve] of the protocol returns, and later is entered again, the transport connected
    anew. Its [finally] takes down the group and the scope, as [link_start] has them; neither
    it nor [serve] assigns the two marks. *)
Definition served_again (s : link) : link :=
  set_flags (l_reconnecting s) (l_redo s) (link_start (serve_exit (l_proto s))).

(** ** Termination *)

Definition task_weight (t : recon) : nat := match t with RStart => 2 | _ => 1 end.

Definition remaining (s : link) : nat :=
  length (l_readers s) + length (l_hbs s) + length (l_notifying s) + sum_list_with task_weight (l_tasks s).

(** What only a cancellation can cause: the cancellation itself, or the first run of a task
    that was spawned. *)
Definition is_winding (l : wlabel) : bool :=
  match l with
  | WStep (LReaderStart _) | WStep LPass => true
  | WStep _ => false
  | WReader _ | WHeartbeat _ | WTelling _ | WRecon => true
  end.

Lemma ended_remaining s : ended s <-> remaining s = 0%nat.
Proof.
  unfold remaining. split.
  - intros [-> -> -> ->]. done.
  - intros H. split; [destruct (l_readers s)|destruct (l_hbs s)|destruct (l_notifying s)|destruct (l_tasks s) as [|[] ?]];
      done || (simpl in H; lia).
Qed.

Lemma length_dict_pop {K V} `{EqDecision K} (k : K) (v : V) (d : dict K V) :
  dict_get k d = Some v -> length d = S (length (dict_pop k d)).
Proof. induction d as [|[k' v'] d IH]; simpl; [done|]. case_decide; [done|]. intros Hk. simpl. by rewrite <-IH. Qed.

Lemma length_dict_pop_le {K V} `{EqDecision K} (k : K) (d : dict K V) : (length (dict_pop k d) <= length d)%nat.
Proof. destruct (dict_get k d) eqn:E; [apply length_dict_pop in E; lia|by rewrite dict_pop_absent]. Qed.

Lemma length_filter_lt {A} (P : A -> Prop) `{forall x, Decision (P x)} (l : list A) x :
  x ∈ l -> ~ P x -> (length (filter P l) < length l)%nat.
Proof.
  induction 1 as [x l|x y l _ IH]; intros HP.
  - rewrite filter_cons_False by done. simpl. pose proof (length_filter P l). lia.
  - destruct (decide (P y)); [rewrite filter_cons_True by done|rewrite filter_cons_False by done]; simpl; specialize (IH HP); lia.
Qed.

Lemma task_at_weight l1 t l2 :
  sum_list_with task_weight (task_at l1 t l2) =
  (sum_list_with task_weight l1 + match t with Some t => task_weight t | None => 0 end + sum_list_with task_weight l2)%nat.
Proof. unfold task_at. rewrite !sum_list_with_app. destruct t; simpl; lia. Qed.

Lemma remaining_heartbeat_exit j s :
  remaining (heartbeat_exit j s) =
  (length (l_readers s) + length (filter (fun j' => j' ≠ j) (l_hbs s)) +
   length (filter (fun d => d ≠ DHeartbeat j) (l_notifying s)) + sum_list_with task_weight (l_tasks s))%nat.
Proof. unfold heartbeat_exit, remaining. by case_match. Qed.

Section termination.
Context `{!StopStrategies} (att : option Z) (host : string) (port : Z).

(** Each of them is one step nearer to the end. *)
Lemma winding_decreases s l s' :
  l_running s = false -> is_winding l = true -> wstep att host port s l s' -> (remaining s' < remaining s)%nat.
Proof.
  intros Hrun Hl Hstep. destruct Hstep as [s l s' Hstep|s i n Hi|s j Hj|s i Hi|s j Hj|s l1 t l2 Ht Hne].
  - destruct Hstep as [s i Hi| | | | | | | |s l1 l2 Ht| | | | | | | | |]; try done.
    + unfold remaining. rewrite Hrun. simpl. rewrite (length_dict_pop _ _ _ Hi). lia.
    + unfold remaining. rewrite Ht. simpl. rewrite task_at_weight, sum_list_with_app. simpl.
      unfold begin_pass, cancel_reader. simpl. destruct (l_scope s) as [i|]; simpl; [|lia].
      pose proof (length_dict_pop_le i (l_readers s)).
      pose proof (length_filter (fun d => d ≠ DReader i) (l_notifying s)). lia.
  - unfold remaining. simpl. rewrite (length_dict_pop _ _ _ Hi). lia.
  - rewrite remaining_heartbeat_exit. unfold remaining.
    pose proof (length_filter_lt (fun j' => j' ≠ j) _ _ Hj ltac:(auto)).
    pose proof (length_filter (fun d => d ≠ DHeartbeat j) (l_notifying s)). lia.
  - unfold remaining. simpl. pose proof (length_filter_lt (fun d => d ≠ DReader i) _ _ Hi ltac:(auto)). lia.
  - rewrite remaining_heartbeat_exit. unfold remaining.
    pose proof (length_filter_lt (fun d => d ≠ DHeartbeat j) _ _ Hj ltac:(auto)).
    pose proof (length_filter (fun j' => j' ≠ j) (l_hbs s)). lia.
  - unfold remaining. simpl. rewrite Ht, task_at_weight, sum_list_with_app. destruct t; simpl; lia || done.
Qed.

(** Whatever is left can be cancelled. *)
Lemma winding_progress s :
  ~ ended s -> exists l s', is_winding l = true /\ wstep att host port s l s'.
Proof.
  intros Hne. destruct (l_readers s) as [|[i ph] rs] eqn:Hr.
  - destruct (l_hbs s) as [|j hbs] eqn:Hh.
    + destruct (l_notifying s) as [|d ds] eqn:Hn.
      * destruct (l_tasks s) as [|t ts] eqn:Ht; [by destruct Hne; split|].
        assert (Hd : t = RStart \/ t ≠ RStart) by (destruct t; auto). destruct Hd as [->|Hd].
        -- eexists (WStep LPass), _. split; [done|]. by eapply wstep_step, (lstep_pass _ _ _ _ []).
        -- eexists WRecon, _. split; [done|]. by eapply (wstep_recon _ _ _ _ []).
      * destruct d as [i|j]; eexists (WTelling _), _; (split; [done|]);
          constructor; rewrite Hn; apply list_elem_of_here.
    + eexists (WHeartbeat j), _. split; [done|]. constructor. rewrite Hh. apply list_elem_of_here.
  - assert (Hi : dict_get i (l_readers s) = Some ph) by (rewrite Hr; simpl; by rewrite decide_True).
    destruct ph as [|n].
    + eexists (WStep (LReaderStart i)), _. split; [done|]. by apply wstep_step, lstep_reader_start.
    + eexists (WReader i), _. split; [done|]. by eapply wstep_reader.
Qed.
End termination.

(** ** The marks *)

(** Marked as reconnecting, with nothing that reconnects. *)
Record stuck (s : link) : Prop := mk_stuck {
  st_reconnecting : l_reconnecting s = true;
  st_notifying : l_notifying s = [];
  st_tasks : l_tasks s = [];
}.

Lemma heartbeat_exit_stuck j s : stuck s -> stuck (heartbeat_exit j s).
Proof. intros [Hrec Hn Ht]. unfold heartbeat_exit. case_match; split; simpl; by rewrite ?Hn. Qed.

Lemma handle_disconnect_stuck s : stuck s -> exists s', handle_disconnect s = (false, s') /\ stuck s'.
Proof.
  intros Hs. pose proof Hs as [Hrec Hn Ht]. unfold handle_disconnect.
  destruct (l_running s); simpl; [rewrite Hrec|]; eexists; (split; [reflexivity|]); by split.
Qed.

Section marks.
Context `{!StopStrategies} (att : option Z) (host : string) (port : Z).

Lemma lstep_stuck s l s' : stuck s -> lstep att host port s l s' -> stuck s'.
Proof.
  intros Hs. pose proof Hs as [Hrec Hn Ht]. intros Hstep.
  destruct Hstep as [s i Hi|s i n pm inner Hi Hcon|s i n e Hi He Hclosed|s i Hi|s j Hj|s j Hj|s j Hj Hrun Hcon|
    s j Hj|s l1 l2 Hat|s l1 l2 Hat Hatt|s l1 l2 e Hat Hatt He|s l1 l2 n Hat|s l1 l2 n Hat Hgive|
    s l1 l2 n cause e Hat Hgive He|s l1 l2 n Hat|s l1 l2 Hat|s l1 l2 Hat|s];
    try (by rewrite Ht in Hat; destruct l1); try (rewrite Hn in Hi; by apply not_elem_of_nil in Hi);
    try by split.
  - destruct (reader_verdict _ _ _); [|by split..].
    by destruct (handle_disconnect_stuck (set_readers (l_scope s) (dict_pop i (l_readers s)) s)) as (s1 & -> & Hs1); [by split|].
  - rewrite Hn in Hj. by apply not_elem_of_nil in Hj.
  - destruct (handle_disconnect_stuck s Hs) as (s1 & -> & Hs1). by apply heartbeat_exit_stuck.
Qed.

Lemma lsteps_stuck s tr s' : stuck s -> lsteps att host port s tr s' -> stuck s'.
Proof. intros Hs Hsteps. revert Hs. induction Hsteps; eauto using lstep_stuck. Qed.

Lemma wstep_stuck s l s' : stuck s -> wstep att host port s l s' -> stuck s'.
Proof.
  intros Hs. pose proof Hs as [Hrec Hn Ht]. intros Hstep.
  destruct Hstep as [s l s' Hstep|s i n Hi|s j Hj|s i Hi|s j Hj|s l1 t l2 Hat Hne].
  - by eapply lstep_stuck.
  - by split.
  - by apply heartbeat_exit_stuck.
  - rewrite Hn in Hi. by apply not_elem_of_nil in Hi.
  - rewrite Hn in Hj. by apply not_elem_of_nil in Hj.
  - rewrite Ht in Hat. by destruct l1.
Qed.

(** A protocol that was stopped stays so until it is served again. *)
Lemma wstep_stopped s l s' : l_running s = false -> wstep att host port s l s' -> l_running s' = false.
Proof.
  intros Hr Hstep. destruct Hstep as [s l s' Hstep|s i n Hi|s j Hj|s i Hi|s j Hj|s l1 t l2 Ht Hne]; try done.
  - unfold l_running in *. rewrite (lstep_proto _ _ _ _ _ _ Hstep). destruct l; try done. cbn [protocol_after].
    by rewrite dispatch_running.
  - unfold l_running. by rewrite heartbeat_exit_proto.
  - unfold l_running. by rewrite heartbeat_exit_proto.
Qed.

(** Only a detector that is cancelled leaves its mark behind. *)
Lemma wstep_ok s l s' :
  link_ok s -> l_running s = false -> wstep att host port s l s' ->
  match l with WTelling _ => stuck s' | _ => link_ok s' end.
Proof.
  intros Hok Hr Hstep. destruct Hstep as [s l s' Hstep|s i n Hi|s j Hj|s i Hi|s j Hj|s l1 t l2 Ht Hne].
  - by eapply lstep_ok.
  - apply readers_ok; eauto using dict_wf_pop, lk_readers, readers_pop_fresh, readers_pop_errors. congruence.
  - apply heartbeat_exit_ok; [done|]. by apply lk_hbs.
  - destruct (single_detector _ _ Hok Hi) as (Hn & Ht & Hrec). split; simpl; rewrite ?Hn; [done| |done].
    rewrite filter_cons_False; [done|]. by intros [].
  - destruct (single_detector _ _ Hok Hj) as (Hn & Ht & Hrec). unfold heartbeat_exit.
    case_match; split; simpl; rewrite ?Hn; try done; rewrite filter_cons_False; try done; by intros [].
  - destruct (single_task _ _ _ _ Hok Ht) as (-> & -> & Hn & _ & _).
    split; simpl; eauto using lk_group, lk_readers, lk_fresh, lk_hbs, lk_errors; [by rewrite Hn|]. intros Hrun. unfold l_running in *. simpl in Hrun. congruence.
Qed.

(** Another drop is only noted on top of a reconnection in flight. *)
Definition redo_ok (s : link) : Prop := l_reconnecting s = false -> l_redo s = false.

Lemma handle_disconnect_redo s : redo_ok s -> redo_ok (handle_disconnect s).2.
Proof. intros Hs. unfold handle_disconnect, redo_ok in *. repeat case_match; simpl; auto. Qed.

Lemma same_marks_redo s s' :
  l_reconnecting s' = l_reconnecting s -> l_redo s' = l_redo s -> redo_ok s -> redo_ok s'.
Proof. unfold redo_ok. intros -> ->. done. Qed.

Lemma heartbeat_exit_redo j s : redo_ok s -> redo_ok (heartbeat_exit j s).
Proof. unfold heartbeat_exit, redo_ok. by case_match. Qed.

Lemma lstep_redo s l s' : redo_ok s -> lstep att host port s l s' -> redo_ok s'.
Proof.
  intros Hs Hstep. destruct Hstep as [s i Hi|s i n pm inner Hi Hcon|s i n e Hi He Hclosed|s i Hi|s j Hj|s j Hj|s j Hj Hrun Hcon|
    s j Hj|s l1 l2 Ht|s l1 l2 Ht Hatt|s l1 l2 e Ht Hatt He|s l1 l2 n Ht|s l1 l2 n Ht Hgive|
    s l1 l2 n cause e Ht Hgive He|s l1 l2 n Ht|s l1 l2 Ht|s l1 l2 Ht|s]; try done.
  - destruct (reader_verdict _ _ _); [|done..].
    assert (Hr : redo_ok (set_readers (l_scope s) (dict_pop i (l_readers s)) s)) by done.
    apply handle_disconnect_redo in Hr. by destruct (handle_disconnect _) as [[] s1].
  - by apply heartbeat_exit_redo.
  - pose proof (handle_disconnect_redo _ Hs) as Hr. destruct (handle_disconnect s) as [[] s1]; [done|by apply heartbeat_exit_redo].
  - unfold begin_pass, cancel_reader, redo_ok. simpl. by destruct (l_scope s).
  - apply (same_marks_redo s); [|by destruct (connected_again_same s)|done]. simpl. unfold connected_again, heartbeat_restart, spawn_reader.
    simpl. destruct (l_group s); simpl; destruct (l_hb_scope s); simpl; by destruct (l_hb_group s).
  - destruct (l_redo s); [exact Hs|done].
  - unfold begin_pass, cancel_reader, redo_ok. simpl. by destruct (l_scope s).
Qed.

Lemma lreachable_redo tr s : lreachable att host port tr s -> redo_ok s.
Proof. induction 1; [done|by eapply lstep_redo]. Qed.

Lemma wstep_redo s l s' : redo_ok s -> wstep att host port s l s' -> redo_ok s'.
Proof.
  intros Hs Hstep. destruct Hstep as [s l s' Hstep|s i n Hi|s j Hj|s i Hi|s j Hj|s l1 t l2 Ht Hne]; try done;
    [by eapply lstep_redo|by apply heartbeat_exit_redo..].
Qed.

(** *** Runs *)

Lemma wsteps_stopped s tr s' : wsteps att host port s tr s' -> l_running s = false -> l_running s' = false.
Proof. induction 1; eauto using wstep_stopped. Qed.

Lemma wsteps_redo s tr s' : wsteps att host port s tr s' -> redo_ok s -> redo_ok s'.
Proof. induction 1; eauto using wstep_redo. Qed.

Lemma wsteps_stuck s tr s' : wsteps att host port s tr s' -> stuck s -> stuck s'.
Proof. induction 1; eauto using wstep_stuck. Qed.

Lemma wsteps_ok s tr s' :
  wsteps att host port s tr s' -> link_ok s -> l_running s = false -> (forall d, WTelling d ∉ tr) -> link_ok s'.
Proof.
  induction 1 as [s|s l s' tr s'' Hstep Hsteps IH]; intros Hok Hr Htr; [done|].
  apply IH; [|by eapply wstep_stopped|intros d Hd; by eapply Htr, list_elem_of_further].
  pose proof (wstep_ok _ _ _ Hok Hr Hstep) as H1. destruct l; try done. by destruct (Htr d); left.
Qed.

(** The first detector to be cancelled leaves the link stuck. *)
Lemma wsteps_telling s tr s' d :
  wsteps att host port s tr s' -> link_ok s -> l_running s = false -> WTelling d ∈ tr -> stuck s'.
Proof.
  induction 1 as [s|s l s' tr s'' Hstep Hsteps IH]; intros Hok Hr Hd; [by apply not_elem_of_nil in Hd|].
  pose proof (wstep_ok _ _ _ Hok Hr Hstep) as H1. destruct l as [l|i|j|d'|];
    [| | |by eapply wsteps_stuck|]; apply elem_of_cons in Hd as [Hd|Hd]; try done;
    (apply IH; [done|by eapply wstep_stopped|done]).
Qed.

Lemma wsteps_bounded s tr s' :
  wsteps att host port s tr s' -> l_running s = false -> Forall (fun l => is_winding l = true) tr ->
  (length tr <= remaining s)%nat.
Proof.
  induction 1 as [s|s l s' tr s'' Hstep Hsteps IH]; intros Hr Htr; [simpl; lia|].
  apply Forall_cons in Htr as [Hl Htr]. specialize (IH (wstep_stopped _ _ _ Hr Hstep) Htr).
  pose proof (winding_decreases _ _ _ _ _ _ Hr Hl Hstep). simpl. lia.
Qed.

Lemma winding_completes s :
  l_running s = false ->
  exists tr s', wsteps att host port s tr s' /\ Forall (fun l => is_winding l = true) tr /\ ended s' /\ l_running s' = false.
Proof.
  remember (remaining s) as n eqn:Hn. revert s Hn. induction (lt_wf n) as [n _ IH]. intros s -> Hr.
  destruct (decide (remaining s = 0%nat)) as [H0|H0].
  - exists [], s. split_and!; [constructor|by constructor|by apply ended_remaining|done].
  - destruct (winding_progress att host port s) as (l & s1 & Hl & Hstep); [by rewrite ended_remaining|].
    destruct (IH _ (winding_decreases _ _ _ _ _ _ Hr Hl Hstep) s1 eq_refl (wstep_stopped _ _ _ Hr Hstep))
      as (tr & s2 & Hs & Htr & Hend).
    exists (l :: tr), s2. split_and!; [by econstructor|by constructor|apply Hend..].
Qed.

(** The reader that sees the end of the stream leaves, counting on a reconnection. *)
Lemma drop_unrepaired redo p :
  exists tr s, lsteps att host port (set_flags true redo (link_start p)) tr s /\ l_running s = true /\ ~ watched s.
Proof.
  eexists [LReaderStart 0; LReadError 0 EndOfStream], _. split_and!.
  - eapply lsteps_cons; [by apply lstep_reader_start|]. eapply lsteps_cons; [|apply lsteps_nil].
    by apply (lstep_read_error _ _ _ _ 0 0).
  - done.
  - by intros Hw.
Qed.
End marks.

(** ** Properties *)

(** C31. Winding down ends. Whatever had happened to the link when it was stopped, and at
    whichever point of winding down it now is: as long as something of it is left, something
    can be cancelled; every sequence of cancellations is at most as long as there are tasks,
    those that never ran counted twice; and there is one after which nothing is left, no
    reader, no heartbeat, no detector and no reconnection, and the protocol is stopped. *)
Theorem winding_down_ends `{!StopStrategies} (att : option Z) (host : string) (port : Z)
    (tr : list llabel) (s0 : link) (tr1 : list wlabel) (s1 : link)
    (Hs0 : lreachable att host port tr s0) (Hstopped : l_running s0 = false) (Hw : wsteps att host port s0 tr1 s1) :
  (~ ended s1 -> exists l s', is_winding l = true /\ wstep att host port s1 l s') /\
  (forall tr2 s2, wsteps att host port s1 tr2 s2 -> Forall (fun l => is_winding l = true) tr2 ->
     (length tr2 <= remaining s1)%nat) /\
  (exists tr2 s2, wsteps att host port s1 tr2 s2 /\ Forall (fun l => is_winding l = true) tr2 /\
     ended s2 /\ l_running s2 = false).
Proof.
  pose proof (wsteps_stopped _ _ _ _ _ _ Hw Hstopped) as Hr1. split_and!.
  - apply winding_progress.
  - intros tr2 s2 Hs2 Htr2. by eapply wsteps_bounded.
  - by apply winding_completes.
Qed.

(** C30. What winding down leaves for the next time. However the tasks of a stopped link end,
    in whatever order they are cancelled or still go on: if no detector was cancelled while
    the listener was hearing of a drop, the client can be entered again like a new one: the
    link starts as one that was never served, and everything shown of such a link holds of
    it. If one was, its mark of a reconnection in flight is still there, nothing takes it
    down, and however the link is served from then on no drop of it is ever repaired: no
    listener is told and no reconnection started, in any run; and after the first its reader
    is gone, though the protocol still runs. *)
Theorem served_again_exactly `{!StopStrategies} (att : option Z) (host : string) (port : Z)
    (tr : list llabel) (s0 : link) (tr1 : list wlabel) (s1 : link)
    (Hs0 : lreachable att host port tr s0) (Hstopped : l_running s0 = false)
    (Hw : wsteps att host port s0 tr1 s1) (Hended : ended s1) :
  ((forall d, WTelling d ∉ tr1) ->
     served_again s1 = link_start (serve_exit (l_proto s1)) /\ lreachable att host port [] (served_again s1)) /\
  ((exists d, WTelling d ∈ tr1) ->
     l_running (served_again s1) = true /\
     (forall tr2 s2, lsteps att host port (served_again s1) tr2 s2 ->
        l_reconnecting s2 = true /\ l_tasks s2 = [] /\ l_notifying s2 = []) /\
     (exists tr2 s2, lsteps att host port (served_again s1) tr2 s2 /\ l_running s2 = true /\ ~ watched s2)).
Proof.
  pose proof (lreachable_ok _ _ _ _ _ Hs0) as Hok. split.
  - intros Htr. pose proof (wsteps_ok _ _ _ _ _ _ Hw Hok Hstopped Htr) as Hok1.
    assert (Hrec : l_reconnecting s1 = false).
    { pose proof (lk_single _ Hok1) as H1. destruct Hended as [_ _ Hn Ht]. rewrite Hn, Ht in H1. by destruct (l_reconnecting s1). }
    pose proof (wsteps_redo _ _ _ _ _ _ Hw (lreachable_redo _ _ _ _ _ Hs0) Hrec) as Hredo.
    assert (E : served_again s1 = link_start (serve_exit (l_proto s1))) by (unfold served_again; by rewrite Hrec, Hredo).
    split; [done|]. rewrite E. apply lreachable_start.
  - intros [d Hd]. destruct (wsteps_telling _ _ _ _ _ _ _ Hw Hok Hstopped Hd) as [Hrec _ _].
    split_and!; [done| |unfold served_again; rewrite Hrec; apply drop_unrepaired]. intros tr2 s2 H2.
    assert (Hs : stuck (served_again s1)) by (unfold served_again; by split).
    by destruct (lsteps_stuck _ _ _ _ _ _ Hs H2).
Qed.

(** ** Concrete runs *)

Import Link.Tenacity.
Definition demo : string := "demo.ctraderapi.com".

(** Stopped while the reader that saw the drop waits for the listener. *)
Lemma stopped_while_telling :
  exists tr s0, lreachable None demo 5035 tr s0 /\ l_running s0 = false /\
  exists s1, wsteps None demo 5035 s0 [WTelling (DReader 0); WHeartbeat 1] s1 /\ ended s1.
Proof.
  pose proof (lreachable_start None demo 5035 new_protocol) as Hs.
  advance Hs ltac:(eapply (lstep_reader_start _ _ _ _ 0); reflexivity).
  advance Hs ltac:(eapply (lstep_read_error _ _ _ _ 0 0 EndOfStream); [reflexivity|done|done]).
  advance Hs ltac:(apply lstep_shutdown).
  eexists _, _. split; [exact Hs|]. split; [reflexivity|]. eexists. split.
  - eapply wsteps_cons; [apply wstep_telling_reader, list_elem_of_here|].
    eapply wsteps_cons; [apply wstep_heartbeat, list_elem_of_here|apply wsteps_nil].
  - by split.
Qed.

Lemma winding_down_ends_witness :
  exists s0 tr2 s2, wsteps None demo 5035 s0 tr2 s2 /\ ended s2 /\ ~ ended s0.
Proof.
  destruct stopped_while_telling as (tr & s0 & Hs & Hr & s1 & Hw & _).
  destruct (winding_down_ends _ _ _ _ _ _ _ Hs Hr (wsteps_nil _ _ _ s0)) as (_ & _ & tr2 & s2 & Hw2 & _ & Hend & _).
  exists s0, tr2, s2. split; [exact Hw2|]. split; [exact Hend|].
  intros [_ _ Hn _]. inversion Hw as [|? ? ? ? ? Hstep]; subst. inversion Hstep as [| | |? i Hi| |]; subst.
  rewrite Hn in Hi. by apply not_elem_of_nil in Hi.
Defined.

Lemma served_again_exactly_witness :
  exists s1, ended s1 /\ exists tr2 s2, lsteps None demo 5035 (served_again s1) tr2 s2 /\
    l_running s2 = true /\ ~ watched s2 /\ l_tasks s2 = [] /\ l_notifying s2 = [].
Proof.
  destruct stopped_while_telling as (tr & s0 & Hs & Hr & s1 & Hw & Hend).
  destruct (served_again_exactly _ _ _ _ _ _ _ Hs Hr Hw Hend) as [_ H].
  destruct H as (_ & Hall & tr2 & s2 & Hsteps & Hrun & Hwatch); [exists (DReader 0); apply list_elem_of_here|].
  destruct (Hall tr2 s2 Hsteps) as (_ & Ht & Hn). exists s1. split; [exact Hend|]. exists tr2, s2.
  split; [exact Hsteps|]. split; [exact Hrun|]. split; [exact Hwatch|]. split; [exact Ht|exact Hn].
Defined.
