(* ===== verification/World.v ===== *)
(** * The state the asynchronous components share, and what they do to the outside

    One record holds the attributes of the components that run on one event loop; an
    action is what a component does that others can see. The ports through which the
    components meet, written as [Protocol] classes in the source, are type classes here:
    each client is defined, and its theorems are proved, against the port it uses. *)

From S2P Require Import Prelude Errors Enums Numbers Wire Effects Protocol Models Session Events EventFields.
From stdpp Require Import options.
Import AuthTrigger(auth_trigger) TrendbarPeriod(trendbar_period).
Open Scope string_scope.
Open Scope list_scope.
Open Scope Z_scope.

(** ** Periods as keys of sets *)

Definition period_number (p : trendbar_period) : nat :=
  match p with
  | TrendbarPeriod.M1 => 1 | TrendbarPeriod.M2 => 2 | TrendbarPeriod.M3 => 3 | TrendbarPeriod.M4 => 4
  | TrendbarPeriod.M5 => 5 | TrendbarPeriod.M10 => 6 | TrendbarPeriod.M15 => 7 | TrendbarPeriod.M30 => 8
  | TrendbarPeriod.H1 => 9 | TrendbarPeriod.H4 => 10 | TrendbarPeriod.H12 => 11 | TrendbarPeriod.D1 => 12
  | TrendbarPeriod.W1 => 13 | TrendbarPeriod.MN1 => 14
  end.

Definition period_of_number (n : nat) : trendbar_period :=
  match n with
  | 1 => TrendbarPeriod.M1 | 2 => TrendbarPeriod.M2 | 3 => TrendbarPeriod.M3 | 4 => TrendbarPeriod.M4
  | 5 => TrendbarPeriod.M5 | 6 => TrendbarPeriod.M10 | 7 => TrendbarPeriod.M15 | 8 => TrendbarPeriod.M30
  | 9 => TrendbarPeriod.H1 | 10 => TrendbarPeriod.H4 | 11 => TrendbarPeriod.H12 | 12 => TrendbarPeriod.D1
  | 13 => TrendbarPeriod.W1 | _ => TrendbarPeriod.MN1
  end%nat.

Lemma period_of_number_number (p : trendbar_period) : period_of_number (period_number p) = p.
Proof. by destruct p. Qed.

#[export] Instance trendbar_period_countable : Countable trendbar_period :=
  inj_countable' period_number period_of_number period_of_number_number.

(** ** State *)

(** [_StandingSubscriptions] *)
Record Standing := mk_standing {
  sub_spots : gset Z;
  sub_trendbars : gset (Z * trendbar_period);
  sub_depth : gset Z;
}.

#[export] Instance Standing_eq_dec : EqDecision Standing.
Proof. solve_decision. Defined.

Definition no_standing : Standing := mk_standing ∅ ∅ ∅.

(** [MarketDataAPI._standing]. A record is held by reference: [restore] keeps the one it
    found while [forget] drops it from the table, so the table maps accounts to places of
    the list of every record made so far. *)
Record StandingTable := mk_table {
  table_refs : dict Z nat;
  table_records : list Standing;
}.

Definition empty_table : StandingTable := mk_table [] [].

Record World := mk_world {
  (* SessionStore *)
  w_store : SessionStore;
  (* MarketDataAPI._standing *)
  w_standing : StandingTable;
  (* AuthManager._app_authenticated *)
  w_app_authenticated : bool;
  (* SessionRecovery: _verifying, _app_auth_pending, _app_auth_attempts, _app_auth_next_at,
     whether _reauth_signal is set, _running *)
  w_verifying : gset Z;
  w_app_auth_pending : bool;
  w_app_auth_attempts : Z;
  w_app_auth_next_at : seconds;
  w_reauth_signal : bool;
  w_recovery_running : bool;
  (* TokenRefresher._running *)
  w_refresher_running : bool;
  (* the clocks: Clock.now() and time.time() *)
  w_now : seconds;
  w_time : seconds;
}.

Definition set_store (f : SessionStore -> SessionStore) (w : World) : World :=
  mk_world (f (w_store w)) (w_standing w) (w_app_authenticated w) (w_verifying w) (w_app_auth_pending w)
    (w_app_auth_attempts w) (w_app_auth_next_at w) (w_reauth_signal w) (w_recovery_running w)
    (w_refresher_running w) (w_now w) (w_time w).
Definition set_standing (f : StandingTable -> StandingTable) (w : World) : World :=
  mk_world (w_store w) (f (w_standing w)) (w_app_authenticated w) (w_verifying w) (w_app_auth_pending w)
    (w_app_auth_attempts w) (w_app_auth_next_at w) (w_reauth_signal w) (w_recovery_running w)
    (w_refresher_running w) (w_now w) (w_time w).
Definition set_app_authenticated (b : bool) (w : World) : World :=
  mk_world (w_store w) (w_standing w) b (w_verifying w) (w_app_auth_pending w)
    (w_app_auth_attempts w) (w_app_auth_next_at w) (w_reauth_signal w) (w_recovery_running w)
    (w_refresher_running w) (w_now w) (w_time w).
Definition set_verifying (f : gset Z -> gset Z) (w : World) : World :=
  mk_world (w_store w) (w_standing w) (w_app_authenticated w) (f (w_verifying w)) (w_app_auth_pending w)
    (w_app_auth_attempts w) (w_app_auth_next_at w) (w_reauth_signal w) (w_recovery_running w)
    (w_refresher_running w) (w_now w) (w_time w).
Definition set_app_auth (pending : bool) (attempts : Z) (next_at : seconds) (w : World) : World :=
  mk_world (w_store w) (w_standing w) (w_app_authenticated w) (w_verifying w) pending
    attempts next_at (w_reauth_signal w) (w_recovery_running w) (w_refresher_running w) (w_now w) (w_time w).
Definition set_signal (b : bool) (w : World) : World :=
  mk_world (w_store w) (w_standing w) (w_app_authenticated w) (w_verifying w) (w_app_auth_pending w)
    (w_app_auth_attempts w) (w_app_auth_next_at w) b (w_recovery_running w)
    (w_refresher_running w) (w_now w) (w_time w).
Definition set_recovery_running (b : bool) (w : World) : World :=
  mk_world (w_store w) (w_standing w) (w_app_authenticated w) (w_verifying w) (w_app_auth_pending w)
    (w_app_auth_attempts w) (w_app_auth_next_at w) (w_reauth_signal w) b
    (w_refresher_running w) (w_now w) (w_time w).
Definition set_refresher_running (b : bool) (w : World) : World :=
  mk_world (w_store w) (w_standing w) (w_app_authenticated w) (w_verifying w) (w_app_auth_pending w)
    (w_app_auth_attempts w) (w_app_auth_next_at w) (w_reauth_signal w) (w_recovery_running w)
    b (w_now w) (w_time w).

(** Time passes, on both clocks. *)
Definition advance (d : seconds) (w : World) : World :=
  mk_world (w_store w) (w_standing w) (w_app_authenticated w) (w_verifying w) (w_app_auth_pending w)
    (w_app_auth_attempts w) (w_app_auth_next_at w) (w_reauth_signal w) (w_recovery_running w)
    (w_refresher_running w) (w_now w + d) (w_time w + d).

(** ** Actions *)

Inductive action :=
  | ASend (m : message) (timeout : seconds)       (* a request goes out *)
  | AEmit (e : event)                             (* an event is published *)
  | ASave (c : AccountCredentials)                (* credentials go to the token store *)
  | ASleep (d : seconds)                          (* a delay *)
  | AWaitRefresh (account_id : Z)                 (* waiting for a refresh to settle *)
  | AWaitSignal (limit : option seconds).         (* waiting to be woken, or for a delay *)

Abbreviation async A := (proc World action A).

(** [protocol.request(m, rt, timeout=t)]: what comes back, from a correlated response or
    otherwise ([Protocol.response_correlated]), is the environment's reply. *)
Definition request {A} (rt : response_type A) (m : message) (timeout : seconds) : async A :=
  _ ← perform (ASend m timeout);
  response ← await;
  lift_res (narrow_response rt response).

(** [publisher.emit(e)] *)
Definition emit (e : event) : async () :=
  _ ← perform (AEmit e);
  pause.

(** [sleep(d)] *)
Definition sleep (d : seconds) : async () :=
  _ ← perform (ASleep d);
  pause.

(** A segment that cannot suspend but can raise. *)
Definition atomically {A} (f : World -> res A * World) : async A := fun o w =>
  let '(r, w') := f w in
  mk_result (match r with Ok a => Done a | Err e => Raised e end) w' [] o.

(** A call on the store, which neither suspends nor raises. *)
Definition on_store {A} (f : SessionStore -> A * SessionStore) : async A := fun o w =>
  let '(a, s) := f (w_store w) in mk_result (Done a) (set_store (fun _ => s) w) [] o.

(** The end of a [CancelScope] that [stop] cancels, which also clears the flag. *)
Definition swallow_stop (running : World -> bool) (e : exn) : option (async ()) :=
  match e with
  | Cancelled => Some (r ← gets running; if (r : bool) then raise Cancelled else mret ())
  | _ => None
  end.

(** ** What goes out *)

(** Every event that is published is sound. *)
Definition sound (a : action) : Prop := match a with AEmit e => sound_event e | _ => True end.

(** ** Ports *)

(** [SessionRestorer] *)
Class SessionRestorer := {
  restore : Z -> async ();
  forget : Z -> async ();
}.

(** What a restoration may do to the outside: subscribe the account, or report that it
    could not. *)
Definition restoring (account_id : Z) (a : action) : Prop :=
  match a with
  | ASend (MSubscribeSpotsReq i _ _ | MSubscribeLiveTrendbarReq i _ _ | MSubscribeDepthQuotesReq i _) _ => i = account_id
  | AEmit (SubscriptionRestoreFailedEvent i e) => i = account_id /\ is_Exception e = true
  | _ => False
  end.

Lemma restoring_sound account_id a : restoring account_id a -> sound a.
Proof. destruct a as [| |e| | |]; try done. intros He. destruct e; try done. by destruct He. Qed.

(** What the authentication manager relies on: a restoration does not fail its caller, says
    nothing of other accounts, and neither call touches the sessions. *)
Class LawfulRestorer (R : SessionRestorer) := {
  restore_raises id o w e : out (restore id o w) = Raised e -> is_Exception e = false;
  restore_always (I : SessionStore -> Prop) id :
    always (fun w => I (w_store w)) (restoring id) (restore id);
  forget_atomic id o w :
    out (forget id o w) = Done () /\ acts (forget id o w) = [] /\ rest (forget id o w) = o /\
    w_store (state (forget id o w)) = w_store w;
}.

(** [SessionAuthenticator] *)
Class SessionAuthenticator := {
  authenticate_app : seconds -> async ();
  establish : AccountCredentials -> auth_trigger -> seconds -> async ();
  probe_session : Z -> seconds -> async bool;
}.

(** What its clients rely on: an attempt either does something others see, and waits for it,
    or is refused on the spot for an expired token; sessions change only by being
    established; and what is published is sound. *)
Class LawfulAuthenticator (A : SessionAuthenticator) := {
  authenticate_app_sends t o w : acts (authenticate_app t o w) ≠ [];
  establish_silent c tr t o w :
    acts (establish c tr t o w) = [] ->
    establish c tr t o w = mk_result (Raised (TokenExpiredError (Some (account_id c)))) w [] o;
  authenticate_app_always (I : SessionStore -> Prop) t :
    always (fun w => I (w_store w)) sound (authenticate_app t);
  establish_always (I : SessionStore -> Prop) c tr t :
    (forall s, I s -> I (authorize c s)) -> always (fun w => I (w_store w)) sound (establish c tr t);
  probe_session_always (I : SessionStore -> Prop) id t :
    always (fun w => I (w_store w)) sound (probe_session id t);
}.

(** [TokenStore] *)
Class TokenStore := {
  save : AccountCredentials -> async ();
}.

(** Storage has no hand in the sessions. *)
Class LawfulTokenStore (S : TokenStore) := {
  save_always (I : SessionStore -> Prop) c : always (fun w => I (w_store w)) sound (save c);
}.

(** ** Response types *)

Definition rt_unit (c : Cls.msg_class) : response_type () :=
  mk_response_type c (fun m => if decide (class_of m = c) then Some () else None).

Definition rt_ApplicationAuthRes := rt_unit Cls.ProtoOAApplicationAuthRes.
Definition rt_AccountAuthRes := rt_unit Cls.ProtoOAAccountAuthRes.
Definition rt_SubscribeSpotsRes := rt_unit Cls.ProtoOASubscribeSpotsRes.
Definition rt_UnsubscribeSpotsRes := rt_unit Cls.ProtoOAUnsubscribeSpotsRes.
Definition rt_SubscribeLiveTrendbarRes := rt_unit Cls.ProtoOASubscribeLiveTrendbarRes.
Definition rt_UnsubscribeLiveTrendbarRes := rt_unit Cls.ProtoOAUnsubscribeLiveTrendbarRes.
Definition rt_SubscribeDepthQuotesRes := rt_unit Cls.ProtoOASubscribeDepthQuotesRes.
Definition rt_UnsubscribeDepthQuotesRes := rt_unit Cls.ProtoOAUnsubscribeDepthQuotesRes.

Definition rt_TraderRes : response_type (option ProtoOATrader) :=
  mk_response_type Cls.ProtoOATraderRes (fun m => match m with MTraderRes t => Some t | _ => None end).

Definition rt_GetTrendbarsRes : response_type (list ProtoOATrendbar) :=
  mk_response_type Cls.ProtoOAGetTrendbarsRes (fun m => match m with MGetTrendbarsRes l => Some l | _ => None end).
Definition rt_GetTickDataRes : response_type (list ProtoOATickData) :=
  mk_response_type Cls.ProtoOAGetTickDataRes (fun m => match m with MGetTickDataRes l => Some l | _ => None end).

(** The new pair and its lifetime. *)
Record rotated_tokens := mk_rotated { rot_access : string; rot_refresh : string; rot_expires_in : Z }.

Definition rt_RefreshTokenRes : response_type rotated_tokens :=
  mk_response_type Cls.ProtoOARefreshTokenRes
    (fun m => match m with MRefreshTokenRes a r e => Some (mk_rotated a r e) | _ => None end).

(** ** Running without interference *)

(** A wait during which nothing happens but that it ends. *)
Definition elapse (d : seconds) : env_step World := mk_env_step (advance d) (Ok MHeartbeatEvent).

(** A request, answered. *)
Lemma run_request_step {A} (rt : response_type A) (m : message) (t : seconds) (s : env_step World)
    (o : list (env_step World)) (w : World) :
  request rt m t (s :: o) w =
  mk_result (match env_reply s ≫= narrow_response rt with Ok a => Done a | Err e => Raised e end)
    (env_act s w) [ASend m t] o.
Proof.
  destruct s as [act r]. unfold request. run. destruct r as [resp|e]; simpl; [|done].
  by destruct (narrow_response rt resp).
Qed.

Lemma run_request {A} (rt : response_type A) (m : message) (t : seconds) (r : res message)
    (o : list (env_step World)) (w : World) :
  request rt m t (quiet r :: o) w =
  mk_result (match r ≫= narrow_response rt with Ok a => Done a | Err e => Raised e end) w [ASend m t] o.
Proof. apply run_request_step. Qed.

(** Undisturbed, a request leaves the state as it was. *)
Lemma request_quiet {A} (rt : response_type A) (m : message) (t : seconds) (w : World) :
  same_at w (request rt m t) (request rt m t).
Proof.
  intros [|s o] Ho; [by split_and!|]. rewrite run_request_step.
  apply Forall_cons in Ho as [Hs Ho]. split_and!; [done|apply Hs|done].
Qed.

(** A request whose acceptance is recorded. *)
Lemma run_request_modify {A} (rt : response_type A) (m : message) (t : seconds) (f : World -> World)
    (s : env_step World) (o : list (env_step World)) (w : World) :
  (_ ← request rt m t; modify f) (s :: o) w =
  match env_reply s ≫= narrow_response rt with
  | Ok _ => mk_result (Done ()) (f (env_act s w)) [ASend m t] o
  | Err e => mk_result (Raised e) (env_act s w) [ASend m t] o
  end.
Proof. unfold mbind at 1, proc_bind. rewrite run_request_step. simpl. by destruct (env_reply s ≫= narrow_response rt). Qed.

Lemma run_emit (e : event) (m : message) (o : list (env_step World)) (w : World) :
  emit e (quiet (Ok m) :: o) w = mk_result (Done ()) w [AEmit e] o.
Proof. done. Qed.

Lemma emit_acts (e : event) (o : list (env_step World)) (w : World) : acts (emit e o w) = [AEmit e].
Proof. by destruct o as [|[act r] o]. Qed.

(** Publishing can only be cancelled. *)
Lemma emit_raises (e : event) (o : list (env_step World)) (w : World) (x : exn) :
  out (emit e o w) = Raised x -> is_Exception x = false.
Proof. destruct o as [|[act [m|y]] o]; unfold emit; run; [done..|]. destruct y; simpl; try done. by intros [= <-]. Qed.

(** A list of requests, each answered by a message of a given class. *)
Definition send_all (t : seconds) (reqs : list (message * Cls.msg_class)) : async () :=
  for_each reqs (fun mc => request (rt_unit mc.2) mc.1 t).

(** The answer that lets a request through. *)
Definition accepts (mc : message * Cls.msg_class) (r : res message) : Prop :=
  r ≫= narrow_response (rt_unit mc.2) = Ok ().

Definition sends (t : seconds) (reqs : list (message * Cls.msg_class)) : list action :=
  (fun mc => ASend mc.1 t) <$> reqs.

Lemma run_send_all (t : seconds) (reqs : list (message * Cls.msg_class)) (rs : list (res message))
    (o : list (env_step World)) (w : World) :
  Forall2 accepts reqs rs ->
  send_all t reqs ((quiet <$> rs) ++ o) w = mk_result (Done ()) w (sends t reqs) o.
Proof.
  unfold send_all. induction 1 as [|mc r reqs rs Hr Hrs IH]; csimpl; [done|].
  unfold mbind, proc_bind. rewrite run_request, Hr. unfold continue. csimpl. by rewrite IH.
Qed.

(** The first answer that does not ends it there. *)
Lemma run_send_all_fails (t : seconds) (reqs later : list (message * Cls.msg_class)) mc (rs : list (res message))
    (r : res message) (e : exn) (o : list (env_step World)) (w : World) :
  Forall2 accepts reqs rs -> r ≫= narrow_response (rt_unit mc.2) = Err e ->
  send_all t (reqs ++ mc :: later) ((quiet <$> rs) ++ quiet r :: o) w =
  mk_result (Raised e) w (sends t (reqs ++ [mc])) o.
Proof.
  intros Hrs Hr. unfold send_all. induction Hrs as [|mc' r' reqs rs Hr' Hrs IH]; csimpl;
    unfold mbind, proc_bind; rewrite run_request.
  - by rewrite Hr.
  - rewrite Hr'. unfold continue. csimpl. by rewrite IH.
Qed.

Section always.
Context (I : World -> Prop) (P : action -> Prop).

Lemma always_request {A} (rt : response_type A) m t : P (ASend m t) -> always I P (request rt m t).
Proof. intros. unfold request. by solve_always. Qed.

Lemma always_emit e : P (AEmit e) -> always I P (emit e).
Proof. intros. unfold emit. by solve_always. Qed.

Lemma always_sleep d : P (ASleep d) -> always I P (sleep d).
Proof. intros. unfold sleep. by solve_always. Qed.

Lemma always_atomically {A} (f : World -> res A * World) :
  keeps I (fun w => (f w).2) -> always I P (atomically f).
Proof.
  intros Hf o w Ho Hw. unfold atomically. specialize (Hf w Hw). cbv beta in Hf. destruct (f w) as [r w'].
  simpl in *. split_and!; auto.
Qed.
Lemma always_on_store {A} (f : SessionStore -> A * SessionStore) :
  keeps I (fun w => set_store (fun _ => (f (w_store w)).2) w) -> always I P (on_store f).
Proof.
  intros Hf o w Ho Hw. unfold on_store. specialize (Hf w Hw). cbv beta in Hf.
  destruct (f (w_store w)) as [a s]. simpl in *. split_and!; auto.
Qed.
End always.

(** Invariants of the sessions alone. *)
Lemma keeps_standing (I : SessionStore -> Prop) f : keeps (fun w => I (w_store w)) (set_standing f).
Proof. by intros w Hw. Qed.

Lemma keeps_store (I : SessionStore -> Prop) f :
  (forall s, I s -> I (f s)) -> keeps (fun w => I (w_store w)) (set_store f).
Proof. intros Hf w Hw. by apply Hf. Qed.

Lemma keeps_app_authenticated (I : SessionStore -> Prop) b : keeps (fun w => I (w_store w)) (set_app_authenticated b).
Proof. by intros w Hw. Qed.

Lemma keeps_verifying (I : SessionStore -> Prop) f : keeps (fun w => I (w_store w)) (set_verifying f).
Proof. by intros w Hw. Qed.

Lemma keeps_signal (I : SessionStore -> Prop) b : keeps (fun w => I (w_store w)) (set_signal b).
Proof. by intros w Hw. Qed.

#[export] Hint Resolve keeps_standing keeps_store keeps_app_authenticated keeps_verifying keeps_signal : always.
#[export] Hint Resolve authenticate_app_always establish_always probe_session_always save_always : always.
#[export] Hint Extern 1 True => exact I : always.
#[export] Hint Extern 1 (sound (AEmit _)) => simpl; done : always.
#[export] Hint Extern 1 (sound _) => exact I : always.
#[export] Hint Resolve always_on_store always_request always_emit always_sleep always_atomically : always.
