(* ===== verification/MarketData.v ===== *)
(** * Subscriptions and historical data ([api/_base.py], [api/market_data.py])

    [MarketDataAPI] remembers what each account has asked for and re-applies it to a fresh
    session: it is the [SessionRestorer] the authentication manager is given. *)

From S2P Require Import Prelude Errors Enums Numbers Wire Effects Protocol Models Requests Session Events EventFields World.
From stdpp Require Import sorting.
From stdpp Require Import options.
Import TrendbarPeriod(trendbar_period).
Import Cls(msg_class).
Open Scope string_scope.
Open Scope list_scope.
Open Scope Z_scope.

(** ** [BaseAPI] *)

(** [timeout or self._default_timeout] *)
Definition timeout_or_default (default_timeout : seconds) (timeout : option seconds) : seconds :=
  match timeout with Some t => if t =? 0 then default_timeout else t | None => default_timeout end.

(** ** Standing subscriptions *)

Definition PERIOD_TO_PROTO : dict trendbar_period Z := [
  (TrendbarPeriod.M1, ProtoOATrendbarPeriod.M1);
  (TrendbarPeriod.M2, ProtoOATrendbarPeriod.M2);
  (TrendbarPeriod.M3, ProtoOATrendbarPeriod.M3);
  (TrendbarPeriod.M4, ProtoOATrendbarPeriod.M4);
  (TrendbarPeriod.M5, ProtoOATrendbarPeriod.M5);
  (TrendbarPeriod.M10, ProtoOATrendbarPeriod.M10);
  (TrendbarPeriod.M15, ProtoOATrendbarPeriod.M15);
  (TrendbarPeriod.M30, ProtoOATrendbarPeriod.M30);
  (TrendbarPeriod.H1, ProtoOATrendbarPeriod.H1);
  (TrendbarPeriod.H4, ProtoOATrendbarPeriod.H4);
  (TrendbarPeriod.H12, ProtoOATrendbarPeriod.H12);
  (TrendbarPeriod.D1, ProtoOATrendbarPeriod.D1);
  (TrendbarPeriod.W1, ProtoOATrendbarPeriod.W1);
  (TrendbarPeriod.MN1, ProtoOATrendbarPeriod.MN1)].

(** [self._standing_for(account_id)], the table it leaves and the place of the record. *)
Definition standing_for (account_id : Z) (t : StandingTable) : nat * StandingTable :=
  match dict_get account_id (table_refs t) with
  | Some r => (r, t)
  | None =>
      let r := length (table_records t) in
      (r, mk_table (dict_set account_id r (table_refs t)) (table_records t ++ [no_standing]))
  end.

(** [self._standing_for(account_id).x.update(...)]: change the account's record in place. *)
Definition alter_standing (account_id : Z) (f : Standing -> Standing) (t : StandingTable) : StandingTable :=
  let '(r, t) := standing_for account_id t in
  mk_table (table_refs t) (alter f r (table_records t)).

Definition over_spots (f : gset Z -> gset Z) (s : Standing) : Standing :=
  mk_standing (f (sub_spots s)) (sub_trendbars s) (sub_depth s).
Definition over_trendbars (f : gset (Z * trendbar_period) -> gset (Z * trendbar_period)) (s : Standing) : Standing :=
  mk_standing (sub_spots s) (f (sub_trendbars s)) (sub_depth s).
Definition over_depth (f : gset Z -> gset Z) (s : Standing) : Standing :=
  mk_standing (sub_spots s) (sub_trendbars s) (f (sub_depth s)).

(** What the table records of an account. *)
Definition standing_of (account_id : Z) (t : StandingTable) : option Standing :=
  r ← dict_get account_id (table_refs t); table_records t !! r.

(** ** Sorting *)

(** [sorted(s)] of a set of [int]s *)
Definition sorted_ids (s : gset Z) : list Z := merge_sort Z.le (elements s).

(** The order of [key=lambda item: (item[0], item[1].name)] *)
Definition trendbar_le (a b : Z * trendbar_period) : Prop :=
  a.1 < b.1 \/ (a.1 = b.1 /\
    String.leb (TrendbarPeriod.period_name a.2) (TrendbarPeriod.period_name b.2) = true).

#[export] Instance trendbar_le_dec : RelDecision trendbar_le.
Proof. intros a b. unfold trendbar_le. apply _. Defined.

Definition sorted_trendbars (s : gset (Z * trendbar_period)) : list (Z * trendbar_period) :=
  merge_sort trendbar_le (elements s).

(** ** Operations *)

Section MarketDataAPI.
(* the default timeout of the namespace *)
Context (default_timeout : seconds).

Definition subscribe_spots (account_id : Z) (symbol_ids : list Z) (timeout : option seconds) : async () :=
  _ ← request rt_SubscribeSpotsRes (MSubscribeSpotsReq account_id symbol_ids true)
        (timeout_or_default default_timeout timeout);
  modify (set_standing (alter_standing account_id (over_spots (fun s => s ∪ list_to_set symbol_ids)))).

Definition unsubscribe_spots (account_id : Z) (symbol_ids : list Z) (timeout : option seconds) : async () :=
  _ ← request rt_UnsubscribeSpotsRes (MUnsubscribeSpotsReq account_id symbol_ids)
        (timeout_or_default default_timeout timeout);
  modify (set_standing (alter_standing account_id (over_spots (fun s => s ∖ list_to_set symbol_ids)))).

Definition subscribe_trendbars (account_id symbol_id : Z) (period : trendbar_period)
    (timeout : option seconds) : async () :=
  p ← lift_res (dict_index period PERIOD_TO_PROTO);
  _ ← request rt_SubscribeLiveTrendbarRes (MSubscribeLiveTrendbarReq account_id symbol_id p)
        (timeout_or_default default_timeout timeout);
  modify (set_standing (alter_standing account_id (over_trendbars (fun s => s ∪ {[ (symbol_id, period) ]})))).

Definition unsubscribe_trendbars (account_id symbol_id : Z) (period : trendbar_period)
    (timeout : option seconds) : async () :=
  p ← lift_res (dict_index period PERIOD_TO_PROTO);
  _ ← request rt_UnsubscribeLiveTrendbarRes (MUnsubscribeLiveTrendbarReq account_id symbol_id p)
        (timeout_or_default default_timeout timeout);
  modify (set_standing (alter_standing account_id (over_trendbars (fun s => s ∖ {[ (symbol_id, period) ]})))).

Definition subscribe_depth (account_id : Z) (symbol_ids : list Z) (timeout : option seconds) : async () :=
  _ ← request rt_SubscribeDepthQuotesRes (MSubscribeDepthQuotesReq account_id symbol_ids)
        (timeout_or_default default_timeout timeout);
  modify (set_standing (alter_standing account_id (over_depth (fun s => s ∪ list_to_set symbol_ids)))).

Definition unsubscribe_depth (account_id : Z) (symbol_ids : list Z) (timeout : option seconds) : async () :=
  _ ← request rt_UnsubscribeDepthQuotesRes (MUnsubscribeDepthQuotesReq account_id symbol_ids)
        (timeout_or_default default_timeout timeout);
  modify (set_standing (alter_standing account_id (over_depth (fun s => s ∖ list_to_set symbol_ids)))).

(** [forget] *)
Definition forget_standing (account_id : Z) : async () :=
  modify (set_standing (fun t => mk_table (dict_pop account_id (table_refs t)) (table_records t))).

(** The record at a place, as it is now. *)
Definition record_at (r : nat) (w : World) : Standing :=
  default no_standing (table_records (w_standing w) !! r).

(** The [try] block of [restore]: the record is read again after each wait. *)
Definition reapply (account_id : Z) (r : nat) : async () :=
  spots ← gets (fun w => sub_spots (record_at r w));
  _ ← (if decide (spots = ∅) then mret () else subscribe_spots account_id (sorted_ids spots) None);
  trendbars ← gets (fun w => sub_trendbars (record_at r w));
  _ ← for_each (sorted_trendbars trendbars) (fun item => subscribe_trendbars account_id item.1 item.2 None);
  depth ← gets (fun w => sub_depth (record_at r w));
  if decide (depth = ∅) then mret () else subscribe_depth account_id (sorted_ids depth) None.

(** [restore] *)
Definition restore_standing (account_id : Z) : async () :=
  found ← gets (fun w => dict_get account_id (table_refs (w_standing w)));
  match found with
  | None => mret ()
  | Some r =>
      try_except (reapply account_id r)
        (except_Exception (fun e => emit (SubscriptionRestoreFailedEvent account_id e)))
  end.

(** [get_trendbars] *)
Definition get_trendbars (account_id symbol_id : Z) (period : trendbar_period)
    (from_timestamp to_timestamp : datetime) (timeout : option seconds) : async (list Trendbar) :=
  p ← lift_res (dict_index period PERIOD_TO_PROTO);
  trendbar ← request rt_GetTrendbarsRes
    (MGetTrendbarsReq account_id symbol_id p (datetime_to_ms from_timestamp) (datetime_to_ms to_timestamp))
    (timeout_or_default default_timeout timeout);
  now ← gets (fun w => mk_datetime (w_time w));
  lift_res (res_map (fun t => Trendbar_from_proto now t None true) trendbar).

(** [get_tick_data] *)
Definition get_tick_data (account_id symbol_id : Z) (from_timestamp to_timestamp : datetime)
    (quote_type : string) (timeout : option seconds) : async (list TickData) :=
  let qt := if (str_upper quote_type =? "BID")%string then ProtoOAQuoteType.BID else ProtoOAQuoteType.ASK in
  tick_data ← request rt_GetTickDataRes
    (MGetTickDataReq account_id symbol_id qt (datetime_to_ms from_timestamp) (datetime_to_ms to_timestamp))
    (timeout_or_default default_timeout timeout);
  lift_res (TickData_from_proto_list tick_data).
End MarketDataAPI.

(** [restorer=market_data] *)
#[export] Instance market_data_restorer (default_timeout : seconds) : SessionRestorer := {|
  restore := restore_standing default_timeout;
  forget := forget_standing;
|}.

(** ** The calls, uniformly *)

(** What a subscription call is about. *)
Inductive subscription :=
  | SubSpots (symbol_ids : list Z)
  | SubTrendbars (symbol_id : Z) (period : trendbar_period)
  | SubDepth (symbol_ids : list Z).

(** The call: subscribing when [on], unsubscribing otherwise. *)
Definition run_subscription (default_timeout : seconds) (on : bool) (account_id : Z) (s : subscription)
    (timeout : option seconds) : async () :=
  match s, on with
  | SubSpots l, true => subscribe_spots default_timeout account_id l timeout
  | SubSpots l, false => unsubscribe_spots default_timeout account_id l timeout
  | SubTrendbars i p, true => subscribe_trendbars default_timeout account_id i p timeout
  | SubTrendbars i p, false => unsubscribe_trendbars default_timeout account_id i p timeout
  | SubDepth l, true => subscribe_depth default_timeout account_id l timeout
  | SubDepth l, false => unsubscribe_depth default_timeout account_id l timeout
  end.

(** Its message, and the class of the answer that accepts it. *)
Definition subscription_request (on : bool) (account_id : Z) (s : subscription) : message * msg_class :=
  match s, on with
  | SubSpots l, true => (MSubscribeSpotsReq account_id l true, Cls.ProtoOASubscribeSpotsRes)
  | SubSpots l, false => (MUnsubscribeSpotsReq account_id l, Cls.ProtoOAUnsubscribeSpotsRes)
  | SubTrendbars i p, true =>
      (MSubscribeLiveTrendbarReq account_id i (Z.of_nat (period_number p)), Cls.ProtoOASubscribeLiveTrendbarRes)
  | SubTrendbars i p, false =>
      (MUnsubscribeLiveTrendbarReq account_id i (Z.of_nat (period_number p)), Cls.ProtoOAUnsubscribeLiveTrendbarRes)
  | SubDepth l, true => (MSubscribeDepthQuotesReq account_id l, Cls.ProtoOASubscribeDepthQuotesRes)
  | SubDepth l, false => (MUnsubscribeDepthQuotesReq account_id l, Cls.ProtoOAUnsubscribeDepthQuotesRes)
  end.

(** What it does to the account's record once accepted. *)
Definition subscription_effect (on : bool) (s : subscription) (st : Standing) : Standing :=
  match s, on with
  | SubSpots l, true => over_spots (fun x => x ∪ list_to_set l) st
  | SubSpots l, false => over_spots (fun x => x ∖ list_to_set l) st
  | SubTrendbars i p, true => over_trendbars (fun x => x ∪ {[ (i, p) ]}) st
  | SubTrendbars i p, false => over_trendbars (fun x => x ∖ {[ (i, p) ]}) st
  | SubDepth l, true => over_depth (fun x => x ∪ list_to_set l) st
  | SubDepth l, false => over_depth (fun x => x ∖ list_to_set l) st
  end.

Lemma period_value (p : trendbar_period) : dict_index p PERIOD_TO_PROTO = Ok (Z.of_nat (period_number p)).
Proof. by destruct p. Qed.

(** The message goes out; the record changes iff the answer is the expected one. *)
Lemma run_subscription_eq (dt : seconds) (on : bool) (id : Z) (s : subscription) (t : option seconds)
    (st : env_step World) (o : list (env_step World)) (w : World) :
  let '(m, c) := subscription_request on id s in
  run_subscription dt on id s t (st :: o) w =
  match env_reply st ≫= narrow_response (rt_unit c) with
  | Ok _ => mk_result (Done ()) (set_standing (alter_standing id (subscription_effect on s)) (env_act st w))
              [ASend m (timeout_or_default dt t)] o
  | Err e => mk_result (Raised e) (env_act st w) [ASend m (timeout_or_default dt t)] o
  end.
Proof.
  destruct s, on; cbv beta iota delta [subscription_request run_subscription subscribe_spots unsubscribe_spots
    subscribe_trendbars unsubscribe_trendbars subscribe_depth unsubscribe_depth];
    rewrite ?period_value; cbn [lift_res]; rewrite ?(bind_ret_l _ _ (st :: o) w); apply run_request_modify.
Qed.

(** ** The table *)

Record table_wf (t : StandingTable) : Prop := mk_table_wf {
  twf_refs : dict_wf (table_refs t);
  twf_range : forall id r, dict_get id (table_refs t) = Some r -> (r < length (table_records t))%nat;
  twf_inj : forall id id' r, dict_get id (table_refs t) = Some r -> dict_get id' (table_refs t) = Some r -> id = id';
}.

Lemma empty_table_wf : table_wf empty_table.
Proof. split; [apply dict_wf_nil|done..]. Qed.


(** The record [standing_for] names is the account's, empty if it had none; the other
    accounts keep theirs. *)
Lemma standing_for_spec (id : Z) (t : StandingTable) :
  table_wf t ->
  let '(r, t') := standing_for id t in
  table_wf t' /\ dict_get id (table_refs t') = Some r /\
  table_records t' !! r = Some (default no_standing (standing_of id t)) /\
  (forall id', id' ≠ id -> standing_of id' t' = standing_of id' t).
Proof.
  intros Ht. unfold standing_for, standing_of. destruct (dict_get id (table_refs t)) as [r|] eqn:Hr; simpl.
  - split_and!; [done..| |done]. destruct (lookup_lt_is_Some_2 (table_records t) r) as [x Hx];
      [by eapply twf_range|]. by rewrite Hx.
  - split_and!.
    + split; simpl; [apply dict_wf_set, Ht| |].
      * intros i r. rewrite dict_get_set, length_app. simpl. case_decide; [intros [= <-]; lia|].
        intros ?%(twf_range _ Ht). lia.
      * intros i j r. rewrite !dict_get_set. do 2 case_decide; subst; [done|intros [= <-]|intros Hi [= <-]|].
        -- intros ?%(twf_range _ Ht). lia.
        -- apply (twf_range _ Ht) in Hi. lia.
        -- by apply (twf_inj _ Ht).
    + by rewrite dict_get_set_eq.
    + by rewrite lookup_app_r, Nat.sub_diag by lia.
    + intros i Hi. rewrite dict_get_set_ne by done. destruct (dict_get i (table_refs t)) as [r|] eqn:E; simpl; [|done].
      rewrite lookup_app_l; [done|]. by eapply twf_range.
Qed.

(** Changing an account's record changes that account's record. *)
Lemma alter_standing_of (id id' : Z) (f : Standing -> Standing) (t : StandingTable) :
  table_wf t ->
  standing_of id' (alter_standing id f t) =
  if decide (id' = id) then Some (f (default no_standing (standing_of id t))) else standing_of id' t.
Proof.
  intros Ht. unfold alter_standing. pose proof (standing_for_spec id t Ht) as Hs.
  destruct (standing_for id t) as [r t']. destruct Hs as (Hwf & Hr & Hx & Hother).
  unfold standing_of at 1. simpl. case_decide as Hd.
  - subst. rewrite Hr. simpl. by rewrite list_lookup_alter_eq, Hx.
  - rewrite <- (Hother _ Hd). unfold standing_of. destruct (dict_get id' (table_refs t')) as [r'|] eqn:E; simpl; [|done].
    rewrite list_lookup_alter_ne; [done|]. intros ->. apply Hd. by eapply twf_inj.
Qed.

Lemma alter_standing_wf (id : Z) (f : Standing -> Standing) (t : StandingTable) :
  table_wf t -> table_wf (alter_standing id f t).
Proof.
  intros Ht. unfold alter_standing. pose proof (standing_for_spec id t Ht) as Hs.
  destruct (standing_for id t) as [r t']. destruct Hs as ([H1 H2 H3] & _). split; simpl; [done| |done].
  intros i r'. rewrite length_alter. apply H2.
Qed.

(** A change that changes nothing. *)
Lemma alter_standing_id (id : Z) (s : Standing) (f : Standing -> Standing) (t : StandingTable) :
  standing_of id t = Some s -> f s = s -> alter_standing id f t = t.
Proof.
  unfold standing_of, alter_standing, standing_for. destruct (dict_get id (table_refs t)) as [r|]; simpl; [|done].
  intros Hr Hf. destruct t as [refs recs]. simpl in *. f_equal. apply list_eq. intros i.
  destruct (decide (i = r)) as [->|]; [|by rewrite list_lookup_alter_ne].
  by rewrite list_lookup_alter_eq, Hr; simpl; rewrite Hf.
Qed.

(** ** Sorting *)

Lemma sorted_ids_spec (s : gset Z) : sorted_ids s ≡ₚ elements s /\ Sorted Z.le (sorted_ids s).
Proof. split; [apply merge_sort_Permutation|apply Sorted_merge_sort, _]. Qed.

Lemma sorted_trendbars_perm (s : gset (Z * trendbar_period)) : sorted_trendbars s ≡ₚ elements s.
Proof. apply merge_sort_Permutation. Qed.

#[export] Instance trendbar_le_total : Total trendbar_le.
Proof.
  intros a b. unfold trendbar_le. destruct (Z.lt_total a.1 b.1) as [|[E|]]; [by auto| |by auto].
  destruct (String.leb_total (TrendbarPeriod.period_name a.2) (TrendbarPeriod.period_name b.2)); auto.
Qed.

Lemma sorted_trendbars_sorted (s : gset (Z * trendbar_period)) : Sorted trendbar_le (sorted_trendbars s).
Proof. apply Sorted_merge_sort, _. Qed.

Lemma elem_of_sorted_ids (s : gset Z) (i : Z) : i ∈ sorted_ids s <-> i ∈ s.
Proof. by rewrite (proj1 (sorted_ids_spec s)), elem_of_elements. Qed.

Lemma elem_of_sorted_trendbars (s : gset (Z * trendbar_period)) x : x ∈ sorted_trendbars s <-> x ∈ s.
Proof. by rewrite sorted_trendbars_perm, elem_of_elements. Qed.

(** ** Restoring *)

(** What a restoration sends, and the answers it expects: spots first, since trendbars are
    rejected without them. *)
Definition restore_requests (account_id : Z) (s : Standing) : list (message * msg_class) :=
  (if decide (sub_spots s = ∅) then []
   else [subscription_request true account_id (SubSpots (sorted_ids (sub_spots s)))]) ++
  ((fun item => subscription_request true account_id (SubTrendbars item.1 item.2)) <$> sorted_trendbars (sub_trendbars s)) ++
  (if decide (sub_depth s = ∅) then []
   else [subscription_request true account_id (SubDepth (sorted_ids (sub_depth s)))]).

(** What an account's record asks of a fresh session, whatever sorts it: one request for all
    the spots, if there are any, then one for each trendbar, by symbol and by the name of
    the period, then one for all the depth quotes; each recorded item once, and no other. *)
Definition restoration (account_id : Z) (record : option Standing) (requests : list (message * msg_class)) : Prop :=
  match record with
  | None => requests = []
  | Some s => exists spots bars depth,
      spots ≡ₚ elements (sub_spots s) /\ Sorted Z.le spots /\
      bars ≡ₚ elements (sub_trendbars s) /\
      Sorted (fun a b => a.1 < b.1 \/ (a.1 = b.1 /\
        String.leb (TrendbarPeriod.period_name a.2) (TrendbarPeriod.period_name b.2) = true)) bars /\
      depth ≡ₚ elements (sub_depth s) /\ Sorted Z.le depth /\
      requests =
        (if decide (spots = []) then []
         else [(MSubscribeSpotsReq account_id spots true, Cls.ProtoOASubscribeSpotsRes)]) ++
        ((fun bar => (MSubscribeLiveTrendbarReq account_id bar.1 (Z.of_nat (period_number bar.2)),
                      Cls.ProtoOASubscribeLiveTrendbarRes)) <$> bars) ++
        (if decide (depth = []) then []
         else [(MSubscribeDepthQuotesReq account_id depth, Cls.ProtoOASubscribeDepthQuotesRes)])
  end.

Lemma sorted_ids_nil (s : gset Z) : sorted_ids s = [] <-> s = ∅.
Proof.
  rewrite <- (leibniz_equiv_iff s ∅), <- elements_empty_iff.
  pose proof (proj1 (sorted_ids_spec s)) as H. split; intros E; rewrite E in H; [|by apply Permutation_nil_r].
  by symmetry in H; apply Permutation_nil_r in H.
Qed.

Lemma restore_requests_restoration (id : Z) (s : Standing) : restoration id (Some s) (restore_requests id s).
Proof.
  exists (sorted_ids (sub_spots s)), (sorted_trendbars (sub_trendbars s)), (sorted_ids (sub_depth s)).
  split_and!; try apply sorted_ids_spec; [apply sorted_trendbars_perm|apply sorted_trendbars_sorted|].
  unfold restore_requests. by rewrite (decide_ext (sorted_ids (sub_spots s) = []) (sub_spots s = ∅)),
    (decide_ext (sorted_ids (sub_depth s) = []) (sub_depth s = ∅)) by apply sorted_ids_nil.
Qed.

(** Subscribing to what is already recorded is the request alone. *)
Lemma resubscribe (dt id : Z) (s : subscription) (st : Standing) (w : World) :
  standing_of id (w_standing w) = Some st -> subscription_effect true s st = st ->
  same_at w (run_subscription dt true id s None)
    (request (rt_unit (subscription_request true id s).2) (subscription_request true id s).1 dt).
Proof.
  intros Hst Hs [|x o] Ho.
  - destruct s; cbn [run_subscription]; unfold subscribe_trendbars; rewrite ?period_value;
      (split; [reflexivity|split; [reflexivity|exact Ho]]).
  - pose proof (run_subscription_eq dt true id s None x o w) as E.
    destruct (subscription_request true id s) as [m c]. cbn [fst snd].
    destruct (request_quiet (rt_unit c) m dt w (x :: o) Ho) as (_ & H2 & H3).
    split; [|split; [exact H2|exact H3]].
    rewrite E, run_request_step. apply Forall_cons in Ho as [Hx _]. rewrite (Hx w).
    cbn [timeout_or_default]. destruct (env_reply x ≫= narrow_response (rt_unit c)) as [[]|e]; [|done]. f_equal.
    unfold set_standing. rewrite (alter_standing_id _ st) by done. by destruct w.
Qed.

Lemma resubscribe_one (dt id : Z) (s : subscription) (st : Standing) (w : World) :
  standing_of id (w_standing w) = Some st -> subscription_effect true s st = st ->
  same_at w (run_subscription dt true id s None) (send_all dt [subscription_request true id s]).
Proof.
  intros Hst Hs o Ho. unfold send_all. cbn [for_each]. rewrite (bind_ret_unit _ o w).
  by eapply resubscribe.
Qed.

(** Undisturbed, the re-application is the list of its requests. *)
Lemma reapply_same (dt id : Z) (r : nat) (s : Standing) (w : World) :
  dict_get id (table_refs (w_standing w)) = Some r -> table_records (w_standing w) !! r = Some s ->
  same_at w (reapply dt id r) (send_all dt (restore_requests id s)).
Proof.
  intros Hid Hr. assert (Hs : standing_of id (w_standing w) = Some s) by (unfold standing_of; by rewrite Hid).
  assert (Hat : record_at r w = s) by (unfold record_at; by rewrite Hr).
  unfold reapply, restore_requests. apply same_at_gets. rewrite Hat. apply same_at_for_each_app.
  { destruct (decide _) as [|Hne]; [apply same_at_ret|].
    apply (resubscribe_one dt id (SubSpots _) s); [done|]. simpl. destruct s as [a b c]. unfold over_spots. simpl.
    f_equal. apply set_eq. intros i. rewrite elem_of_union, elem_of_list_to_set, elem_of_sorted_ids. simpl. tauto. }
  apply same_at_gets. rewrite Hat. apply same_at_for_each_app.
  { apply (same_at_for_each w (fun item => subscription_request true id (SubTrendbars item.1 item.2))).
    intros [i p] Hin%elem_of_sorted_trendbars. apply (resubscribe dt id (SubTrendbars i p) s); [done|].
    destruct s as [a b c]. unfold subscription_effect, over_trendbars. simpl in *. f_equal. set_solver. }
  apply same_at_gets. rewrite Hat. destruct (decide _) as [|Hne]; [apply same_at_ret|].
  apply (resubscribe_one dt id (SubDepth _) s); [done|]. simpl. destruct s as [a b c]. unfold over_depth. simpl.
  f_equal. apply set_eq. intros i. rewrite elem_of_union, elem_of_list_to_set, elem_of_sorted_ids. simpl. tauto.
Qed.

Lemma restore_undisturbed (dt id : Z) (s : Standing) (w : World) (o : list (env_step World)) :
  standing_of id (w_standing w) = Some s -> Forall is_quiet o ->
  restore_standing dt id o w =
  try_except (send_all dt (restore_requests id s))
    (except_Exception (fun e => emit (SubscriptionRestoreFailedEvent id e))) o w.
Proof.
  unfold standing_of. intros Hs Ho. destruct (dict_get id (table_refs (w_standing w))) as [r|] eqn:E; [simpl in Hs|done].
  unfold restore_standing. rewrite (bind_gets _ _ o w), E. apply same_at_try_except; [|done]. by apply reapply_same.
Qed.

Lemma restore_standing_always (I : SessionStore -> Prop) (dt id : Z) :
  always (fun w => I (w_store w)) (restoring id) (restore_standing dt id).
Proof.
  unfold restore_standing, reapply, subscribe_spots, subscribe_trendbars, subscribe_depth, request, emit,
    except_Exception.
  solve_always; repeat case_match; simplify_eq/=; solve_always; done.
Qed.

Lemma restore_standing_raises (dt id : Z) (o : list (env_step World)) (w : World) (e : exn) :
  out (restore_standing dt id o w) = Raised e -> is_Exception e = false.
Proof.
  unfold restore_standing. rewrite bind_gets. destruct (dict_get _ _); [|done].
  unfold try_except. destruct (out (reapply _ _ _ _ _)) as [a|e'|] eqn:E; rewrite ?E; [done| |done].
  unfold except_Exception. destruct (is_Exception e') eqn:He; cbv iota.
  - intros Hx. exact (emit_raises _ _ _ _ Hx).
  - rewrite E. by intros [= <-].
Qed.

(** The namespace keeps the port's promise. *)
#[export] Instance market_data_lawful (dt : seconds) : LawfulRestorer (market_data_restorer dt).
Proof. split; [apply restore_standing_raises|intros; apply restore_standing_always|done]. Qed.

(** ** Properties *)

(** C27. The six subscription calls: exactly one request goes out, under the given timeout or
    the default; if the server accepts it the account's record changes accordingly and no
    other account's does, otherwise the error is raised and no record changes. *)
Theorem subscription_intent (dt : seconds) (on : bool) (id : Z) (s : subscription) (timeout : option seconds)
    (st : env_step World) (o : list (env_step World)) (w : World)
    (Hwf : table_wf (w_standing (env_act st w))) :
  let '(m, c) := subscription_request on id s in
  let r := run_subscription dt on id s timeout (st :: o) w in
  let before := w_standing (env_act st w) in
  acts r = [ASend m (timeout_or_default dt timeout)] /\ rest r = o /\ table_wf (w_standing (state r)) /\
  match env_reply st ≫= narrow_response (rt_unit c) with
  | Ok _ =>
      out r = Done () /\
      forall id', standing_of id' (w_standing (state r)) =
        if decide (id' = id) then Some (subscription_effect on s (default no_standing (standing_of id before)))
        else standing_of id' before
  | Err e => out r = Raised e /\ state r = env_act st w
  end.
Proof.
  pose proof (run_subscription_eq dt on id s timeout st o w) as E. destruct (subscription_request on id s) as [m c].
  cbv zeta. rewrite E. destruct (env_reply st ≫= narrow_response (rt_unit c)); simpl; split_and!; try done.
  - by apply alter_standing_wf.
  - intros id'. by apply alter_standing_of.
Qed.

(** C17. Restoring: undisturbed, a fresh session is sent exactly what the account's record
    asks for, as [restoration] spells it out: every recorded item, each set in its order,
    the spots before the trendbars that need them; and the record is as it was. The first
    refusal ends it, is reported once, and keeps the record for the next session. *)
Theorem restore_exact (dt : seconds) (id : Z) (s : Standing) (w : World)
    (Hs : standing_of id (w_standing w) = Some s) :
  restoration id (Some s) (restore_requests id s) /\
  (forall rs o, Forall2 accepts (restore_requests id s) rs -> Forall is_quiet o ->
    restore_standing dt id ((quiet <$> rs) ++ o) w =
    mk_result (Done ()) w (sends dt (restore_requests id s)) o) /\
  (forall sent mc later rs r e m o,
    restore_requests id s = sent ++ mc :: later -> Forall2 accepts sent rs ->
    r ≫= narrow_response (rt_unit mc.2) = Err e -> is_Exception e = true -> Forall is_quiet o ->
    restore_standing dt id ((quiet <$> rs) ++ quiet r :: quiet (Ok m) :: o) w =
    mk_result (Done ()) w (sends dt (sent ++ [mc]) ++ [AEmit (SubscriptionRestoreFailedEvent id e)]) o).
Proof.
  split_and!.
  - apply restore_requests_restoration.
  - intros rs o Hrs Ho. rewrite (restore_undisturbed dt id s) by (done || by apply Forall_quiet_app).
    unfold try_except. by rewrite run_send_all.
  - intros sent mc later rs r e m o Hreqs Hrs Hr He Ho.
    rewrite (restore_undisturbed dt id s) by (done || (apply Forall_quiet_app; by repeat constructor)).
    unfold try_except. rewrite Hreqs, (run_send_all_fails dt sent later mc rs r e) by done. simpl.
    unfold except_Exception. by rewrite He.
Qed.

Definition sample_standing : Standing := mk_standing {[ 2; 1 ]} {[ (1, TrendbarPeriod.M5) ]} ∅.
Definition sample_world (t : StandingTable) : World :=
  mk_world empty_store t true ∅ false 0 0 false false false 0 0.

Lemma restore_exact_witness :
  let w := sample_world (mk_table [(7, 0%nat)] [sample_standing]) in
  restore_standing 30 7 [quiet (Ok MSubscribeSpotsRes); quiet (Ok MSubscribeLiveTrendbarRes)] w =
  mk_result (Done ()) w [ASend (MSubscribeSpotsReq 7 [1; 2] true) 30; ASend (MSubscribeLiveTrendbarReq 7 1 5) 30] [].
Proof.
  apply (proj1 (proj2 (restore_exact 30 7 sample_standing (sample_world (mk_table [(7, 0%nat)] [sample_standing])) eq_refl))
    [Ok MSubscribeSpotsRes; Ok MSubscribeLiveTrendbarRes] []); [|constructor].
  vm_compute. repeat constructor.
Defined.

Lemma subscription_intent_witness :
  let r := run_subscription 30 true 7 (SubDepth [5]) None [quiet (Ok MSubscribeDepthQuotesRes)] (sample_world empty_table) in
  out r = Done () /\ standing_of 7 (w_standing (state r)) = Some (mk_standing ∅ ∅ {[ 5 ]}).
Proof.
  destruct (subscription_intent 30 true 7 (SubDepth [5]) None (quiet (Ok MSubscribeDepthQuotesRes)) []
    (sample_world empty_table) empty_table_wf) as (_ & _ & _ & H1 & H2).
  split; [exact H1|]. exact (H2 7).
Defined.

(** A restoration never fails its caller: whatever the server answers and the other
    tasks do, only the cancellation comes out of it, and all it does is subscribe this
    account or report the failure. Of a forgotten account it restores nothing. *)
Theorem restore_isolated (dt : seconds) (id : Z) (o : list (env_step World)) (w : World) :
  (forall e, out (restore_standing dt id o w) = Raised e -> is_Exception e = false) /\
  Forall (restoring id) (acts (restore_standing dt id o w)) /\
  (dict_wf (table_refs (w_standing w)) ->
   let w' := state (forget_standing id o w) in
   standing_of id (w_standing w') = None /\ restore_standing dt id o w' = mk_result (Done ()) w' [] o).
Proof.
  split_and!.
  - intros e. apply restore_standing_raises.
  - apply (restore_standing_always (fun _ => True)); [|done]. by apply Forall_true.
  - intros Hwf. simpl. unfold standing_of, restore_standing. rewrite bind_gets. simpl.
    by rewrite dict_get_pop_eq.
Qed.

Lemma restore_isolated_witness :
  let w := sample_world (mk_table [(7, 0%nat)] [sample_standing]) in
  acts (restore_standing 30 7 [] (state (forget_standing 7 [] w))) = [].
Proof.
  pose proof (restore_isolated 30 7 [] (sample_world (mk_table [(7, 0%nat)] [sample_standing]))) as (_ & _ & H).
  destruct H as [_ H]; [repeat constructor; set_solver|]. cbv zeta. by rewrite H.
Defined.

(** An account that is forgotten while its subscriptions are being re-applied is recorded
    again when the answer comes. *)
Example forgotten_while_restoring :
  let w := sample_world (mk_table [(7, 0%nat)] [mk_standing {[ 1 ]} ∅ ∅]) in
  let leave := mk_env_step (fun w => state (forget_standing 7 [] w)) (Ok MSubscribeSpotsRes) in
  standing_of 7 (w_standing (state (restore_standing 30 7 [leave] w))) = Some (mk_standing {[ 1 ]} ∅ ∅).
Proof. vm_compute. reflexivity. Qed.
