(* ===== verification/Conformance.v ===== *)
(** * The client and the schema agree

    [Schema] has what the generated classes declare, [Messages] which class goes by which
    payload type, and the models translate wire numbers by tables of their own. Nothing in
    the code keeps these together: a number that is mistyped or a member that is forgotten
    is found only at run time. Here they are checked against each other. *)

From S2P Require Import Prelude Errors Enums Wire Schema Messages Models Requests Router MarketData.
From stdpp Require Import options.
Open Scope string_scope.
Open Scope list_scope.
Open Scope Z_scope.

(** ** The registry *)

(** A message that travels in an envelope says its own payload type first. *)
Definition declares_payload_type (fields : list field) : bool :=
  match fields with
  | mk_field "payload_type" 1 (TEnum e) false :: _ => (e =? "ProtoOAPayloadType")%string || (e =? "ProtoPayloadType")%string
  | _ => false
  end.

Fixpoint without_underscores (s : string) : string :=
  match s with
  | EmptyString => EmptyString
  | String a s' => if Ascii.eqb a (Ascii.ascii_of_nat 95) then without_underscores s' else String a (without_underscores s')
  end.

(** The payload types whose name is not their class's. *)
Definition RENAMED : dict string string := [
  ("ERROR_RES", "ProtoErrorRes");
  ("HEARTBEAT_EVENT", "ProtoHeartbeatEvent");
  ("PROTO_OA_TRADER_UPDATE_EVENT", "ProtoOATraderUpdatedEvent");
  ("PROTO_OA_GET_ACCOUNTS_BY_ACCESS_TOKEN_REQ", "ProtoOAGetAccountListByAccessTokenReq");
  ("PROTO_OA_GET_ACCOUNTS_BY_ACCESS_TOKEN_RES", "ProtoOAGetAccountListByAccessTokenRes");
  ("PROTO_OA_SYMBOL_CATEGORY_REQ", "ProtoOASymbolCategoryListReq");
  ("PROTO_OA_SYMBOL_CATEGORY_RES", "ProtoOASymbolCategoryListRes");
  ("PROTO_OA_GET_DYNAMIC_LEVERAGE_REQ", "ProtoOAGetDynamicLeverageByIDReq");
  ("PROTO_OA_GET_DYNAMIC_LEVERAGE_RES", "ProtoOAGetDynamicLeverageByIDRes")].

Definition named_after (member : string) (c : Cls.msg_class) : bool :=
  match dict_get member RENAMED with
  | Some name => (Cls.class_name c =? name)%string
  | None => (without_underscores member =? str_upper (Cls.class_name c))%string
  end.

Lemma registry_classes_checked :
  forallb (fun nf => Bool.eqb (declares_payload_type nf.2)
    (existsb (fun pc => (Cls.class_name pc.2 =? nf.1)%string) PAYLOAD_TYPE_TO_CLASS)) MESSAGES = true.
Proof. vm_compute. reflexivity. Qed.

Lemma registry_members_checked :
  forallb (fun mv => (mv.1 =? "PROTO_MESSAGE")%string ||
    match get_class mv.2 with Some c => named_after mv.1 c | None => false end)
    (ProtoPayloadType_members ++ ProtoOAPayloadType_members) = true.
Proof. vm_compute. reflexivity. Qed.

#[local] Opaque MESSAGES ENUMS PAYLOAD_TYPE_TO_CLASS CLASS_TO_PAYLOAD_TYPE.

(** C14. The registry is complete and pairs like with like. The messages it knows are exactly
    those that carry a payload type, under one number each; every payload type but that of
    the envelope is known; and each stands for the class of its own name, the nine that are
    called otherwise being those listed. *)
Theorem registry_complete :
  (forall name fields, dict_get name MESSAGES = Some fields ->
     (declares_payload_type fields = true <-> exists pt c, get_class pt = Some c /\ Cls.class_name c = name)) /\
  (forall member pt, (member, pt) ∈ ProtoPayloadType_members ++ ProtoOAPayloadType_members -> member ≠ "PROTO_MESSAGE" ->
     exists c, get_class pt = Some c /\ named_after member c = true) /\
  (forall pt c, get_class pt = Some c <-> get_payload_type c = Some pt).
Proof.
  split_and!.
  - intros name fields Hget%dict_get_Some_in. pose proof (forallb_elem _ _ _ registry_classes_checked Hget) as Heq.
    apply Bool.eqb_prop in Heq. cbn [fst snd] in Heq. rewrite Heq, existsb_exists. split.
    + intros ([pt c] & Hin & Hname%String.eqb_eq). exists pt, c. split; [|done].
      apply dict_in_get; [apply registry_wf|by apply list_elem_of_In].
    + intros (pt & c & Hc%dict_get_Some_in & <-). exists (pt, c).
      split; [by apply list_elem_of_In|apply String.eqb_refl].
  - intros member pt Hin Hne. pose proof (forallb_elem _ _ _ registry_members_checked Hin) as Hok. cbn [fst snd] in Hok.
    apply orb_true_iff in Hok as [Hok%String.eqb_eq|Hok]; [done|]. destruct (get_class pt) as [c|]; [eauto|done].
  - apply get_class_payload_type.
Qed.

(** ** The models' tables *)

(** The tables by which the models translate numbers pair each member of an enumeration with
    the value of the client that means the same. What means the same is told by name: these
    are the names the schema gives the client's values. *)




















