(* ===== verification/Auth.v ===== *)
(** * The authentication manager ([auth/manager.py])

    Turning credentials into live sessions on the current link. The manager is the
    [SessionAuthenticator] of the refresher and of the recovery monitor; it is itself a
    client of a [SessionRestorer], which it may be built without. *)

From S2P Require Import Prelude Errors Enums Numbers Wire Effects Protocol Models Session Events EventFields World.
From stdpp Require Import options.
Import AuthTrigger(auth_trigger).
Open Scope string_scope.
Open Scope list_scope.
Open Scope Z_scope.

(** ** Operations *)

(** What an [APIError] answering the account's authorization is raised as. *)
Definition account_auth_error (account_id : Z) (a : api_error) : exn :=
  if is_token_failure a then TokenExpiredError (Some account_id)
  else AccountAuthError (error_code a) (description a) (Some account_id).

(** [except APIError as e: raise f(e) from e] *)
Definition except_APIError {A} (f : api_error -> async A) (e : exn) : option (async A) := f <$> as_APIError e.

Section AuthManager.
Context (client_id client_secret : string) (restorer : option SessionRestorer).

(** [authenticate_app] *)
Definition manager_authenticate_app (timeout : seconds) : async () :=
  _ ← try_except (request rt_ApplicationAuthRes (MApplicationAuthReq client_id client_secret) timeout)
        (except_APIError (fun a => raise (ApplicationAuthError (error_code a) (description a))));
  modify (set_app_authenticated true).

Definition forget_account (account_id : Z) : async () :=
  match restorer with Some R => forget account_id | None => mret () end.

(** [establish] *)
Definition manager_establish (credentials : AccountCredentials) (trigger : auth_trigger)
    (timeout : seconds) : async () :=
  time ← gets w_time;
  if is_expired time credentials then raise (TokenExpiredError (Some (account_id credentials)))
  else
    _ ← try_except
          (request rt_AccountAuthRes (MAccountAuthReq (account_id credentials) (access_token credentials)) timeout)
          (except_APIError (fun a => raise (account_auth_error (account_id credentials) a)));
    _ ← modify (set_store (authorize credentials));
    if decide (trigger = AuthTrigger.TOKEN_REFRESH) then mret ()
    else
      _ ← match restorer with Some R => restore (account_id credentials) | None => mret () end;
      emit (ReadyEvent (account_id credentials) trigger).

(** [authenticate_trader] *)
Definition authenticate_trader (credentials : AccountCredentials) (timeout : seconds) : async () :=
  manager_establish credentials AuthTrigger.INITIAL timeout.

(** [probe_session] *)
Definition manager_probe_session (account_id : Z) (timeout : seconds) : async bool :=
  try_except (_ ← request rt_TraderRes (MTraderReq account_id) timeout; mret true)
    (except_APIError (fun a => if is_token_failure a then raise (APIError a) else mret false)).

(** [remove_account] *)
Definition remove_account (account_id : Z) : async bool :=
  removed ← on_store (remove account_id);
  if (removed : bool) then _ ← forget_account account_id; mret true
  else mret false.

(** [AuthManager] as the port the other two parties see. *)
#[export] Instance AuthManager : SessionAuthenticator := {|
  authenticate_app := manager_authenticate_app;
  establish := manager_establish;
  probe_session := manager_probe_session;
|}.
End AuthManager.

(** ** Lemmas *)

Definition is_ready (a : action) : bool := match a with AEmit (ReadyEvent _ _) => true | _ => false end.

Lemma restoring_not_ready id a : restoring id a -> is_ready a = false.
Proof. by destruct a as [[]| | | | |]; simpl; try done; destruct e. Qed.

Lemma authorized_now (c : AccountCredentials) (s : SessionStore) :
  is_authorized (account_id c) (authorize c s) = true /\ credentials (account_id c) (authorize c s) = Some c.
Proof. unfold is_authorized, credentials, authorize. simpl. by rewrite !dict_get_set_eq. Qed.

(** What a request that is not accepted raises, as a request for an account's session. *)
Definition as_auth_error (account_id : Z) (e : exn) : exn :=
  match e with APIError a => account_auth_error account_id a | _ => e end.

Definition restorer_lawful (restorer : option SessionRestorer) : Prop :=
  match restorer with Some R => LawfulRestorer R | None => True end.

(** What stands between the authorization and the announcement. *)
Definition restore_account (restorer : option SessionRestorer) (account_id : Z) : async () :=
  match restorer with Some R => restore account_id | None => mret () end.

Section lemmas.
Context (client_id client_secret : string) (restorer : option SessionRestorer) (Hlawful : restorer_lawful restorer).

Lemma restore_account_raises id o w e :
  out (restore_account restorer id o w) = Raised e -> is_Exception e = false.
Proof using Hlawful. unfold restore_account. destruct restorer as [R|]; [|done]. simpl in Hlawful. apply restore_raises. Qed.

Lemma restore_account_always (I : SessionStore -> Prop) id :
  always (fun w => I (w_store w)) (restoring id) (restore_account restorer id).
Proof using Hlawful.
  unfold restore_account. destruct restorer as [R|]; simpl in Hlawful; [apply restore_always|apply always_ret].
Qed.

Lemma forget_account_atomic id o w :
  out (forget_account restorer id o w) = Done () /\ acts (forget_account restorer id o w) = [] /\
  rest (forget_account restorer id o w) = o /\ w_store (state (forget_account restorer id o w)) = w_store w.
Proof using Hlawful. unfold forget_account. destruct restorer as [R|]; simpl in Hlawful; [apply forget_atomic|done]. Qed.

(** The authorization request, answered. *)
Lemma run_establish c trigger t s o w :
  is_expired (w_time w) c = false ->
  manager_establish restorer c trigger t (s :: o) w =
  match env_reply s ≫= narrow_response rt_AccountAuthRes with
  | Ok _ =>
      let w1 := set_store (authorize c) (env_act s w) in
      let sent := mk_result (Done ()) w1 [ASend (MAccountAuthReq (account_id c) (access_token c)) t] o in
      if decide (trigger = AuthTrigger.TOKEN_REFRESH) then sent
      else continue sent (_ ← restore_account restorer (account_id c); emit (ReadyEvent (account_id c) trigger))
  | Err e =>
      mk_result (Raised (as_auth_error (account_id c) e)) (env_act s w)
        [ASend (MAccountAuthReq (account_id c) (access_token c)) t] o
  end.
Proof.
  intros He. unfold manager_establish. rewrite bind_gets, He. unfold mbind at 1, proc_bind at 1.
  unfold try_except. rewrite run_request_step. cbn [out].
  destruct (env_reply s ≫= narrow_response rt_AccountAuthRes) as [[]|e]; cbn [out state acts rest].
  - unfold mbind at 1, proc_bind at 1. unfold modify at 1. cbn [out]. unfold continue at 1 2. cbn [out state acts rest].
    case_decide; [done|]. done.
  - destruct e; done.
Qed.

(** What an establishment does to the outside: a request, the restoration, and possibly
    the announcement. *)
Lemma establish_acts c trigger t s o w :
  exists before after,
    acts (manager_establish restorer c trigger t (s :: o) w) = before ++ after /\
    Forall (fun a => is_ready a = false) before /\
    (after = [] \/ (trigger ≠ AuthTrigger.TOKEN_REFRESH /\ after = [AEmit (ReadyEvent (account_id c) trigger)])).
Proof using Hlawful.
  destruct (is_expired (w_time w) c) eqn:He.
  { exists [], []. unfold manager_establish. rewrite bind_gets, He. auto. }
  rewrite (run_establish c trigger t s o w He).
  destruct (env_reply s ≫= narrow_response rt_AccountAuthRes) as [u|e].
  2: { eexists [_], []. split_and!; [done|by repeat constructor|by left]. }
  cbv zeta. case_decide as Htr.
  { eexists [_], []. split_and!; [done|by repeat constructor|by left]. }
  unfold continue at 1. cbn [acts rest state]. set (w1 := set_store _ _).
  assert (Hr : Forall (fun a => is_ready a = false) (acts (restore_account restorer (account_id c) o w1))).
  { eapply Forall_impl; [|apply restoring_not_ready].
    apply (restore_account_always (fun _ => True) (account_id c) o w1); [by apply Forall_true|done]. }
  unfold mbind, proc_bind. destruct (out (restore_account restorer (account_id c) o w1)) as [[]|e|].
  - exists (ASend (MAccountAuthReq (account_id c) (access_token c)) t :: acts (restore_account restorer (account_id c) o w1)), [AEmit (ReadyEvent (account_id c) trigger)].
    unfold continue. cbn [acts]. rewrite emit_acts. split_and!; [done|by constructor|by right].
  - eexists (_ :: _), []. split_and!; [by rewrite app_nil_r|by constructor|by left].
  - eexists (_ :: _), []. split_and!; [by rewrite app_nil_r|by constructor|by left].
Qed.
End lemmas.

(** The manager keeps the port's promise. *)
Lemma manager_authenticate_app_sends client_id client_secret t o w :
  acts (manager_authenticate_app client_id client_secret t o w) ≠ [].
Proof.
  unfold manager_authenticate_app. apply acts_bind, acts_try_except. destruct o as [|s o]; [done|].
  by rewrite run_request_step.
Qed.

Lemma manager_establish_silent restorer c tr t o w :
  acts (manager_establish restorer c tr t o w) = [] ->
  manager_establish restorer c tr t o w = mk_result (Raised (TokenExpiredError (Some (account_id c)))) w [] o.
Proof.
  unfold manager_establish. rewrite bind_gets. destruct (is_expired (w_time w) c); [done|]. intros Hs. exfalso.
  revert Hs. apply acts_bind, acts_try_except. destruct o as [|s o]; [done|]. by rewrite run_request_step.
Qed.

Lemma except_APIError_always {A} I P (f : api_error -> async A) e k :
  (forall a, always I P (f a)) -> except_APIError f e = Some k -> always I P k.
Proof. unfold except_APIError. destruct (as_APIError e); simpl; [|done]. by intros ? [= <-]. Qed.

#[export] Instance AuthManager_lawful (client_id client_secret : string) (restorer : option SessionRestorer)
    (Hlawful : restorer_lawful restorer) : LawfulAuthenticator (AuthManager client_id client_secret restorer).
Proof.
  split.
  - apply manager_authenticate_app_sends.
  - apply manager_establish_silent.
  - intros I t. cbn. unfold manager_authenticate_app. solve_always.
    eapply except_APIError_always; [|done]. solve_always.
  - intros I c tr t HI. cbn. unfold manager_establish. fold (restore_account restorer (account_id c)). solve_always.
    + eapply except_APIError_always; [|done]. solve_always.
    + eapply always_weaken, restore_account_always; [apply restoring_sound|done].
  - intros I id t. cbn. unfold manager_probe_session. solve_always.
    eapply except_APIError_always; [|done]. intros a. cbv beta. solve_always.
Qed.

(** ** Properties *)

(** C25. Establishing a session, on every branch. An expired token is refused before anything
    is sent. A refusal becomes a [TokenExpiredError] when it names the token and an
    [AccountAuthError] otherwise; any other failure of the request is raised as it is; none
    of them touches the store. An acceptance keeps the credentials and marks the session
    live; that is all after a token refresh. Otherwise the restorer's [restore] runs for the
    account, if there is a restorer; if it ends, the account is announced with the trigger,
    and if it does not, nothing more happens. *)
Theorem establish_branches (restorer : option SessionRestorer) (c : AccountCredentials) (trigger : auth_trigger)
    (t : seconds) (s : env_step World) (o : list (env_step World)) (w : World) :
  let r := manager_establish restorer c trigger t (s :: o) w in
  let w1 := set_store (authorize c) (env_act s w) in
  let restored := match restorer with Some R => restore (account_id c) o w1 | None => mk_result (Done ()) w1 [] o end in
  let ready := ReadyEvent (account_id c) trigger in
  let sent := ASend (MAccountAuthReq (account_id c) (access_token c)) t in
  if is_expired (w_time w) c then r = mk_result (Raised (TokenExpiredError (Some (account_id c)))) w [] (s :: o)
  else
    match env_reply s ≫= narrow_response rt_AccountAuthRes with
    | Err (APIError a) =>
        r = mk_result (Raised (if is_token_failure a then TokenExpiredError (Some (account_id c))
                               else AccountAuthError (error_code a) (description a) (Some (account_id c))))
              (env_act s w) [sent] o
    | Err e => r = mk_result (Raised e) (env_act s w) [sent] o
    | Ok _ =>
        is_authorized (account_id c) (w_store w1) = true /\ credentials (account_id c) (w_store w1) = Some c /\
        (trigger = AuthTrigger.TOKEN_REFRESH -> r = mk_result (Done ()) w1 [sent] o) /\
        (trigger ≠ AuthTrigger.TOKEN_REFRESH ->
          r = match out restored with
              | Done _ =>
                  let announced := emit ready (rest restored) (state restored) in
                  mk_result (out announced) (state announced) (sent :: acts restored ++ [AEmit ready]) (rest announced)
              | _ => mk_result (out restored) (state restored) (sent :: acts restored) (rest restored)
              end)
    end.
Proof.
  cbv zeta. destruct (is_expired (w_time w) c) eqn:He.
  { unfold manager_establish. by rewrite bind_gets, He. }
  rewrite (run_establish restorer c trigger t s o w He).
  destruct (env_reply s ≫= narrow_response rt_AccountAuthRes) as [u|e]; [|by destruct e].
  cbv zeta. pose proof (authorized_now c (w_store (env_act s w))) as [H1 H2].
  split_and!; [exact H1|exact H2|intros ->; by rewrite decide_True|].
  intros Htr. rewrite decide_False by done. unfold continue at 1. cbn [acts out rest state].
  fold (restore_account restorer (account_id c)). set (w1 := set_store _ _).
  assert (Hrest : (match restorer with Some R => restore (account_id c) o w1 | None => mk_result (Done ()) w1 [] o end) =
    restore_account restorer (account_id c) o w1) by (by destruct restorer).
  rewrite Hrest. destruct (restore_account restorer (account_id c) o w1) as [[[]|e|] rs ra rr] eqn:E;
    rewrite (bind_eq _ _ _ _ _ E); cbn [out]; [|done..].
  unfold continue. cbn [out acts rest state]. by rewrite emit_acts.
Qed.

(** C26. Announcements: under every interleaving, and whatever the server answers, an
    establishment announces only its own account with its own trigger, never after a token
    refresh, and as the last thing it does: after the restoration, and at most once. *)
Theorem ready_last (restorer : option SessionRestorer) (Hlawful : restorer_lawful restorer) (c : AccountCredentials)
    (trigger : auth_trigger) (t : seconds) (o : list (env_step World)) (w : World) (a : action)
    (Ha : a ∈ acts (manager_establish restorer c trigger t o w)) (Hready : is_ready a = true) :
  a = AEmit (ReadyEvent (account_id c) trigger) /\ trigger ≠ AuthTrigger.TOKEN_REFRESH /\
  exists before, acts (manager_establish restorer c trigger t o w) = before ++ [a] /\
    Forall (fun a => is_ready a = false) before.
Proof.
  destruct o as [|s o].
  { unfold manager_establish in Ha. rewrite bind_gets in Ha. destruct (is_expired _ _); [by apply elem_of_nil in Ha|].
    apply list_elem_of_singleton in Ha as ->. done. }
  pose proof (establish_acts restorer Hlawful c trigger t s o w) as (before & after & Hacts & Hb & Hafter).
  rewrite Hacts in *. apply elem_of_app in Ha as [Ha|Ha].
  { rewrite Forall_forall in Hb. by rewrite Hb in Hready. }
  destruct Hafter as [->|[Htr ->]]; [by apply elem_of_nil in Ha|]. apply list_elem_of_singleton in Ha as ->. eauto.
Qed.

Definition sample_credentials : AccountCredentials := mk_credentials 7 "token" "refresh" 100.
Definition idle_world : World :=
  mk_world empty_store empty_table false ∅ false 0 0 false false false 0 0.

Lemma ready_last_witness :
  exists before, acts (manager_establish None sample_credentials AuthTrigger.INITIAL 30
      [quiet (Ok (MAccountAuthRes 7))] idle_world) = before ++ [AEmit (ReadyEvent 7 AuthTrigger.INITIAL)] /\
    Forall (fun a => is_ready a = false) before.
Proof.
  apply (ready_last None I sample_credentials AuthTrigger.INITIAL 30 [quiet (Ok (MAccountAuthRes 7))] idle_world
    (AEmit (ReadyEvent 7 AuthTrigger.INITIAL))); [|reflexivity].
  vm_compute. repeat constructor.
Defined.

(** Probing: the session is alive iff the server told what only an authorized account is
    told; a refusal that names the token is raised, and so is any failure to ask. Every
    other refusal counts as no, one for asking too often or during maintenance included. *)
Theorem probe_answers (restorer : option SessionRestorer) (id : Z) (t : seconds) (s : env_step World)
    (o : list (env_step World)) (w : World) :
  let r := manager_probe_session id t (s :: o) w in
  acts r = [ASend (MTraderReq id) t] /\ state r = env_act s w /\ rest r = o /\
  out r = match env_reply s ≫= narrow_response rt_TraderRes with
          | Ok _ => Done true
          | Err (APIError a) => if is_token_failure a then Raised (APIError a) else Done false
          | Err e => Raised e
          end /\
  (forall retry, env_reply s = Err (APIError (mk_api_error "REQUEST_FREQUENCY_EXCEEDED" None None None retry)) ->
     out r = Done false).
Proof.
  cbv zeta.
  assert (H : manager_probe_session id t (s :: o) w =
    mk_result (match env_reply s ≫= narrow_response rt_TraderRes with
               | Ok _ => Done true
               | Err (APIError a) => if is_token_failure a then Raised (APIError a) else Done false
               | Err e => Raised e
               end) (env_act s w) [ASend (MTraderReq id) t] o).
  { unfold manager_probe_session, try_except. pose proof (run_request_step rt_TraderRes (MTraderReq id) t s o w) as E.
    destruct (env_reply s ≫= narrow_response rt_TraderRes) as [u|e];
      [erewrite bind_Done by (by rewrite E)|erewrite bind_Raised by (by rewrite E)]; rewrite !E; [reflexivity|].
    destruct e; try reflexivity. cbn. by destruct (is_token_failure _). }
  rewrite H. split_and!; try done. intros retry Hr. rewrite Hr. done.
Qed.

(** An account that is removed while its authorization is in flight comes back with it. *)
Example removed_while_authorizing :
  let w := set_store (authorize sample_credentials) idle_world in
  let leave := mk_env_step (fun w => state (remove_account None 7 [] w)) (Ok (MAccountAuthRes 7)) in
  let r := manager_establish None sample_credentials AuthTrigger.RECONNECT 30 [leave] w in
  account_ids (w_store (env_act leave w)) = [] /\ account_ids (w_store (state r)) = [7].
Proof. by vm_compute. Qed.
