(* ===== verification/Recovery.v ===== *)
(** * Session recovery ([auth/_recovery.py], [auth/policy.py])

    Two things end a session its credentials would still support: the server
    disconnecting one account, and the link dropping. The monitor is a client of a
    [SessionAuthenticator]; its theorems hold for any. *)

From S2P Require Import Prelude Errors Enums Numbers Wire Effects Protocol Models Session Events EventFields World.
From stdpp Require Import options.
Import AuthTrigger(auth_trigger).
Open Scope string_scope.
Open Scope list_scope.
Open Scope Z_scope.

(** [ReauthPolicy] *)
Record ReauthPolicy := mk_reauth_policy { min_wait : seconds; max_wait : seconds }.

Definition default_reauth_policy : ReauthPolicy := mk_reauth_policy second (60 * second).

(** [_backoff_delay]: [min_wait] is a [float], so the power is converted to one, which fails
    beyond the largest; below that, scaling by a power of two is exact until it passes any
    finite [max_wait]. *)
Definition backoff_delay (policy : ReauthPolicy) (attempts : Z) : res seconds :=
  if 1024 <=? attempts - 1 then Err (OverflowError "int too large to convert to float")
  else Ok (Z.min (Z.shiftl (min_wait policy) (attempts - 1)) (max_wait policy)).

(** Default timeouts of the authenticator's calls. *)
Definition AUTH_TIMEOUT : seconds := 30 * second.
Definition PROBE_TIMEOUT : seconds := 10 * second.

Section SessionRecovery.
Context `{A : SessionAuthenticator} (policy : ReauthPolicy).

(** ** A reported disconnect *)

(** [_report_dropped] *)
Definition report_dropped (account_id : Z) : async () :=
  _ ← on_store (flag_for_recovery account_id);
  _ ← modify (set_signal true);
  emit (AccountDisconnectEvent account_id).

(** [self._store.wait_for_refresh(account_id)] *)
Definition wait_for_refresh (account_id : Z) : async () :=
  settled ← gets (fun w => refresh_event account_id (w_store w));
  match settled with
  | Some _ => _ ← perform (AWaitRefresh account_id); pause
  | None => mret ()
  end.

(** The [try] block of the check: the probe, then what its answer calls for. *)
Definition check_dropped (account_id : Z) : async () :=
  alive ← try_except (alive ← probe_session account_id PROBE_TIMEOUT; mret (Some alive))
            (except_Exception (fun _ => mret None));
  match alive with
  | None | Some true => mret ()
  | Some false => report_dropped account_id
  end.

(** [handle_account_disconnect], once no refresh is under way. *)
Definition handle_settled (account_id : Z) : async () :=
  held ← gets (fun w => credentials account_id (w_store w));
  authorized ← gets (fun w => is_authorized account_id (w_store w));
  match held with
  | None => mret ()
  | Some _ =>
      if negb authorized then mret ()
      else
        verifying ← gets w_verifying;
        if decide (account_id ∈ verifying) then mret ()
        else
          _ ← modify (set_verifying (fun v => v ∪ {[ account_id ]}));
          try_finally (check_dropped account_id) (modify (set_verifying (fun v => v ∖ {[ account_id ]})))
  end.

(** [handle_account_disconnect] *)
Definition handle_account_disconnect (account_id : Z) : async () :=
  refreshing ← gets (fun w => is_refreshing account_id (w_store w));
  _ ← (if (refreshing : bool) then wait_for_refresh account_id else mret ());
  handle_settled account_id.

(** ** The link *)

(** [on_connection_lost] *)
Definition on_connection_lost : async () :=
  _ ← modify (fun w => set_app_auth false (w_app_auth_attempts w) (w_app_auth_next_at w) w);
  modify (set_store invalidate_all).

(** [_defer_app_auth]: the count goes up before the delay is computed. *)
Definition defer_app_auth : async () :=
  _ ← modify (fun w => set_app_auth (w_app_auth_pending w) (w_app_auth_attempts w + 1) (w_app_auth_next_at w) w);
  now ← gets w_now;
  attempts ← gets w_app_auth_attempts;
  delay ← lift_res (backoff_delay policy attempts);
  modify (fun w => set_app_auth (w_app_auth_pending w) (w_app_auth_attempts w) (now + delay) w).

(** [_arm_app_auth_recovery] *)
Definition arm_app_auth_recovery : async () :=
  _ ← modify (fun w => set_app_auth true 0 (w_app_auth_next_at w) w);
  _ ← defer_app_auth;
  held ← gets (fun w => all_credentials (w_store w));
  _ ← for_each held (fun c => _ ← on_store (flag_for_recovery (account_id c)); mret ());
  modify (set_signal true).

(** One turn of the loop of [on_connection_restored]; [restored] and [failed] so far. *)
Definition restore_one (found : list Z * list (Z * string)) (c : AccountCredentials)
    : async (list Z * list (Z * string)) :=
  let '(restored, failed) := found in
  try_except
    (_ ← establish c AuthTrigger.RECONNECT AUTH_TIMEOUT; mret (restored ++ [account_id c], failed))
    (except_Exception (fun e => mret (restored, failed ++ [(account_id c, py_str e)]))).

(** The [try] statement of [on_connection_restored]: whether to go on to the accounts. *)
Definition first_app_auth : async bool :=
  try_except (_ ← authenticate_app AUTH_TIMEOUT; mret true)
    (except_Exception (fun _ =>
       _ ← arm_app_auth_recovery;
       _ ← emit (ReconnectedEvent false [] []);
       mret false)).

(** [on_connection_restored] *)
Definition on_connection_restored : async () :=
  app ← first_app_auth;
  if negb app then mret ()
  else
    held ← gets (fun w => all_credentials (w_store w));
    found ← for_fold held ([], []) restore_one;
    emit (ReconnectedEvent true found.1 found.2).

(** ** The recovery loop *)

(** [_defer_recovery] *)
Definition defer_recovery (p : pending_recovery) : async () :=
  let attempts := pr_attempts p + 1 in
  now ← gets w_now;
  delay ← lift_res (backoff_delay policy attempts);
  modify (set_store (reschedule_recovery (pr_account_id p) attempts (now + delay))).

(** [_retry_app_auth] *)
Definition retry_app_auth : async bool :=
  authenticated ← try_except (_ ← authenticate_app AUTH_TIMEOUT; mret true)
                    (except_Exception (fun _ => _ ← defer_app_auth; mret false));
  if (authenticated : bool) then
    _ ← modify (fun w => set_app_auth false 0 (w_app_auth_next_at w) w);
    mret true
  else mret false.

(** [_wait_for_retry] *)
Definition wait_for_retry (delay : seconds) : async () :=
  _ ← perform (AWaitSignal (Some delay));
  pause.

(** One turn of the inner loop of [_reauth_loop]. *)
Definition recover_one (p : pending_recovery) : async () :=
  try_except (establish (pr_credentials p) AuthTrigger.ACCOUNT_REAUTH AUTH_TIMEOUT)
    (fun e =>
       match e with
       | AccountAuthError code _ _ =>
           if negb (is_already_authorized code) then Some (defer_recovery p)
           else Some (_ ← modify (set_store (authorize (pr_credentials p)));
                      emit (ReadyEvent (pr_account_id p) AuthTrigger.ACCOUNT_REAUTH))
       | _ => if is_Exception e then Some (defer_recovery p) else None
       end).

Definition is_due (now : seconds) (p : pending_recovery) : bool := (pr_next_attempt_at p <=? now)%Z.

(** [min(...)] of a non-empty list *)
Definition soonest (p : pending_recovery) (queue : list pending_recovery) : seconds :=
  foldr (fun q m => Z.min (pr_next_attempt_at q) m) (pr_next_attempt_at p) queue.

(** The body of the loop from the queue on. *)
Definition recover_queue : async () :=
  queue ← gets (fun w => awaiting_recovery (w_store w));
  match queue with
  | [] => _ ← perform (AWaitSignal None); pause
  | p :: queue' =>
      now ← gets w_now;
      match filter (fun p => is_due now p = true) queue with
      | [] => wait_for_retry (soonest p queue' - now)
      | due => for_each due recover_one
      end
  end.

(** One pass of the loop. *)
Definition reauth_pass : async () :=
  _ ← modify (set_signal false);
  app_auth_pending ← gets w_app_auth_pending;
  go ← (if (app_auth_pending : bool) then
          waiting ← gets (fun w => w_app_auth_next_at w - w_now w);
          if 0 <? waiting then _ ← wait_for_retry waiting; mret false
          else retry_app_auth
        else mret true);
  if (go : bool) then recover_queue else mret ().

(** [_reauth_loop], its first [passes] passes. *)
Fixpoint reauth_loop (passes : nat) : async () :=
  match passes with
  | O => unfinished
  | S n =>
      running ← gets w_recovery_running;
      if (running : bool) then _ ← reauth_pass; reauth_loop n else mret ()
  end.

(** [serve] *)
Definition serve_recovery (passes : nat) : async () :=
  running ← gets w_recovery_running;
  if (running : bool) then raise (RuntimeError "Session recovery monitor is already running")
  else
    _ ← modify (set_recovery_running true);
    try_finally (try_except (reauth_loop passes) (swallow_stop w_recovery_running))
      (_ ← modify (set_recovery_running false);
       _ ← modify (fun w => set_app_auth false (w_app_auth_attempts w) (w_app_auth_next_at w) w);
       modify (set_store invalidate_all)).

(** [stop] *)
Definition stop_recovery : async () := modify (set_recovery_running false).
End SessionRecovery.

(** ** Lemmas *)

Lemma backoff_delay_Ok (policy : ReauthPolicy) (n : Z) :
  1 <= n <= 1024 ->
  backoff_delay policy n = Ok (Z.min (min_wait policy * 2 ^ (n - 1)) (max_wait policy)).
Proof.
  intros Hn. unfold backoff_delay. rewrite (proj2 (Z.leb_gt _ _)) by lia.
  by rewrite Z.shiftl_mul_pow2 by lia.
Qed.

Lemma backoff_delay_Err (policy : ReauthPolicy) (n : Z) :
  1024 < n -> backoff_delay policy n = Err (OverflowError "int too large to convert to float").
Proof. intros Hn. unfold backoff_delay. by rewrite (proj2 (Z.leb_le _ _)) by lia. Qed.

Lemma backoff_pos (policy : ReauthPolicy) (n d : Z) :
  0 < min_wait policy -> 0 < max_wait policy -> 1 <= n -> backoff_delay policy n = Ok d -> 0 < d.
Proof.
  intros Hmin Hmax Hn. destruct (decide (n <= 1024)).
  - rewrite backoff_delay_Ok by lia. intros [= <-]. apply Z.min_glb_lt; [|done].
    apply Z.mul_pos_pos; [done|]. apply Z.pow_pos_nonneg; lia.
  - by rewrite backoff_delay_Err by lia.
Qed.

(** The refusal that says the session is there. *)
Definition already_back (e : exn) : bool :=
  match e with AccountAuthError code _ _ => is_already_authorized code | _ => false end.

(** The failures that put a recovery off. *)
Definition retried (e : exn) : bool := is_Exception e && negb (already_back e).

Section lemmas.
Context `{A : SessionAuthenticator} (policy : ReauthPolicy).
Implicit Types (o : list (env_step World)) (w : World) (p : pending_recovery).

(** Putting an account off, when the delay can be computed and when it cannot. *)
Lemma run_defer p o w :
  defer_recovery policy p o w =
  match backoff_delay policy (pr_attempts p + 1) with
  | Ok d => mk_result (Done ())
              (set_store (reschedule_recovery (pr_account_id p) (pr_attempts p + 1) (w_now w + d)) w) [] o
  | Err e => mk_result (Raised e) w [] o
  end.
Proof. unfold defer_recovery. rewrite bind_gets. by destruct (backoff_delay policy _). Qed.

(** One account, by how its establishment ended. *)
Lemma recover_one_retried p o w e :
  out (establish (pr_credentials p) AuthTrigger.ACCOUNT_REAUTH AUTH_TIMEOUT o w) = Raised e -> retried e = true ->
  recover_one policy p o w =
  continue (establish (pr_credentials p) AuthTrigger.ACCOUNT_REAUTH AUTH_TIMEOUT o w) (defer_recovery policy p).
Proof.
  intros E He. unfold recover_one, try_except. rewrite E. unfold retried in He. destruct e; simpl in He; try done. by rewrite He.
Qed.

Lemma recover_one_back p o w e :
  out (establish (pr_credentials p) AuthTrigger.ACCOUNT_REAUTH AUTH_TIMEOUT o w) = Raised e -> already_back e = true ->
  recover_one policy p o w =
  continue (establish (pr_credentials p) AuthTrigger.ACCOUNT_REAUTH AUTH_TIMEOUT o w)
    (_ ← modify (set_store (authorize (pr_credentials p)));
     emit (ReadyEvent (pr_account_id p) AuthTrigger.ACCOUNT_REAUTH)).
Proof. intros E He. unfold recover_one, try_except. rewrite E. destruct e; try done. simpl in He. by rewrite He. Qed.

Lemma recover_one_other p o w :
  (forall e, out (establish (pr_credentials p) AuthTrigger.ACCOUNT_REAUTH AUTH_TIMEOUT o w) = Raised e ->
     is_Exception e = false) ->
  recover_one policy p o w = establish (pr_credentials p) AuthTrigger.ACCOUNT_REAUTH AUTH_TIMEOUT o w.
Proof.
  intros He. unfold recover_one, try_except.
  destruct (out (establish (pr_credentials p) AuthTrigger.ACCOUNT_REAUTH AUTH_TIMEOUT o w)) as [|e|] eqn:E; [done| |done].
  specialize (He e eq_refl). by destruct e.
Qed.

Lemma recover_one_raises p o w e :
  pr_attempts p < 1024 -> 0 <= pr_attempts p -> out (recover_one policy p o w) = Raised e -> is_Exception e = false.
Proof.
  intros Hp Hp0. set (r := establish (pr_credentials p) AuthTrigger.ACCOUNT_REAUTH AUTH_TIMEOUT o w).
  destruct (out r) as [[]|x|] eqn:E.
  - rewrite recover_one_other; unfold r in E; rewrite E; done.
  - destruct (retried x) eqn:Hx.
    + rewrite (recover_one_retried p o w x E Hx). unfold continue. cbn [out]. rewrite run_defer.
      by rewrite backoff_delay_Ok by lia.
    + unfold retried in Hx. apply andb_false_iff in Hx as [Hx|Hx%negb_false_iff].
      * rewrite recover_one_other; unfold r in E; rewrite E; [by intros [= <-]|by intros ? [= <-]].
      * rewrite (recover_one_back p o w x E Hx). intros He. exact (emit_raises _ _ _ _ He).
  - rewrite recover_one_other; unfold r in E; rewrite E; done.
Qed.

(** A failure that is retried does not keep the next account waiting for its turn. *)
Lemma recover_all_raises due o w e :
  Forall (fun p => 0 <= pr_attempts p < 1024) due ->
  out (for_each due (recover_one policy) o w) = Raised e -> is_Exception e = false.
Proof.
  intros Hdue. revert o w. induction Hdue as [|p due Hp Hdue IH]; intros o w; [done|]. cbn [for_each].
  destruct (out (recover_one policy p o w)) as [u|x|] eqn:E.
  - rewrite (bind_Done _ _ _ _ _ E). apply IH.
  - rewrite (bind_Raised _ _ _ _ _ E). intros [= <-]. eapply recover_one_raises; [| |exact E]; lia.
  - unfold mbind, proc_bind. by rewrite E.
Qed.
End lemmas.

(** ** Properties *)

(** C39. Backoff, of a policy whose minimum is at most its maximum: from the first retry the delay starts at the minimum, never decreases,
    never more than doubles, and stays between the two bounds, as long as there were at
    most 1024 attempts; from the 1025th on computing it raises an [OverflowError]. *)
Theorem backoff_bounds (policy : ReauthPolicy) (Hmin : 0 <= min_wait policy <= max_wait policy) (n : Z) (Hn : 1 <= n) :
  backoff_delay policy 1 = Ok (min_wait policy) /\
  (n <= 1024 -> exists d, backoff_delay policy n = Ok d /\ min_wait policy <= d <= max_wait policy /\
     forall d', backoff_delay policy (n + 1) = Ok d' -> d <= d' <= 2 * d) /\
  (1024 < n -> backoff_delay policy n = Err (OverflowError "int too large to convert to float")).
Proof.
  split_and!; [|intros Hle|by apply backoff_delay_Err].
  { rewrite backoff_delay_Ok by lia. f_equal. simpl. lia. }
  exists (Z.min (min_wait policy * 2 ^ (n - 1)) (max_wait policy)).
  assert (0 < 2 ^ (n - 1)) by (apply Z.pow_pos_nonneg; lia).
  split_and!; [apply backoff_delay_Ok; lia|apply Z.min_glb; nia|lia|].
  intros d'. destruct (decide (n = 1024)) as [->|]; [done|].
  rewrite backoff_delay_Ok by lia. replace (n + 1 - 1) with (Z.succ (n - 1)) by lia.
  rewrite Z.pow_succ_r by lia. intros [= <-]. nia.
Qed.

Lemma backoff_bounds_witness :
  backoff_delay default_reauth_policy 4 = Ok (8 * second) /\
  backoff_delay default_reauth_policy 1025 = Err (OverflowError "int too large to convert to float").
Proof.
  destruct (backoff_bounds default_reauth_policy ltac:(split; vm_compute; discriminate) 1025 ltac:(lia)) as (_ & _ & H).
  split; [reflexivity|]. apply H. lia.
Defined.

Section properties.
Context `{A : SessionAuthenticator} (policy : ReauthPolicy).
Implicit Types (o : list (env_step World)) (w : World).

(** The check proper, by the answer of the probe. *)
Lemma run_check id o w :
  let p := probe_session id PROBE_TIMEOUT o w in
  check_dropped id o w =
  match out p with
  | Done false => continue p (report_dropped id)
  | Done true => ended p (Done ())
  | Raised e => if is_Exception e then ended p (Done ()) else ended p (Raised e)
  | Suspended => ended p Suspended
  end.
Proof.
  cbv zeta. unfold check_dropped, mbind at 1, proc_bind at 1. unfold try_except, mbind, proc_bind.
  destruct (out (probe_session id PROBE_TIMEOUT o w)) as [[]|e|] eqn:E; rewrite ?E; unfold continue, ended;
    cbn [out state acts rest mret proc_ret]; rewrite ?app_nil_r; try done.
  unfold except_Exception. destruct (is_Exception e); [|done]. unfold continue; cbn [out state acts rest].
  unfold mret, proc_ret. cbn [out state acts rest]. by rewrite !app_nil_r.
Qed.

(** A confirmed drop: the account is flagged and the loop woken before it is published. *)
Lemma run_report id o w :
  report_dropped id o w =
  emit (AccountDisconnectEvent id) o (set_signal true (set_store (fun _ => (flag_for_recovery id (w_store w)).2) w)).
Proof.
  unfold report_dropped, on_store, mbind at 1, proc_bind at 1. destruct (flag_for_recovery id (w_store w)) as [b s].
  unfold continue. cbn [out state acts rest]. rewrite bind_modify. by destruct (emit _ _ _).
Qed.

Lemma run_settled id o w :
  handle_settled id o w =
  if decide (is_authorized id (w_store w) = true /\ id ∉ w_verifying w)
  then try_finally (check_dropped id) (modify (set_verifying (fun v => v ∖ {[ id ]}))) o
         (set_verifying (fun v => v ∪ {[ id ]}) w)
  else mk_result (Done ()) w [] o.
Proof.
  unfold handle_settled. rewrite !bind_gets. unfold credentials, is_authorized.
  destruct (dict_get id (accounts (w_store w))) as [t|]; [|by rewrite decide_False by naive_solver]. cbn [fmap option_fmap option_map].
  destruct (is_Authorized t); cbn [negb]; [|by rewrite decide_False by naive_solver].
  rewrite bind_gets. case_decide; [by rewrite decide_False by naive_solver|].
  rewrite decide_True by done. by rewrite bind_modify.
Qed.

Lemma run_handle id o w :
  is_refreshing id (w_store w) = false -> handle_account_disconnect id o w = handle_settled id o w.
Proof. intros Hr. unfold handle_account_disconnect. rewrite bind_gets, Hr. apply (bind_ret_l () (fun _ => handle_settled id)). Qed.

(** C18. A reported disconnect is checked before anything acts on it. While the account's
    token is being refreshed the report waits for that to settle, then is treated as if
    it had come just then. A report about an account that is not held, not authorized or
    already being checked does nothing. Otherwise the account is marked while it is
    probed, and the mark is gone however the check ends; only a probe that answers no
    leads to a publication, one that cannot be completed leaves the account as it was. *)
Theorem disconnect_checked (id : Z) o w :
  let r := handle_account_disconnect id o w in
  let unmark := set_verifying (fun v => v ∖ {[ id ]}) in
  let p := probe_session id PROBE_TIMEOUT o (set_verifying (fun v => v ∪ {[ id ]}) w) in
  (forall s o', o = s :: o' -> is_refreshing id (w_store w) = true ->
     is_refreshing id (w_store (env_act s w)) = false -> env_reply s ≠ Err Cancelled ->
     acts r = AWaitRefresh id :: acts (handle_account_disconnect id o' (env_act s w)) /\
     out r = out (handle_account_disconnect id o' (env_act s w))) /\
  (is_refreshing id (w_store w) = false ->
     is_authorized id (w_store w) = false \/ id ∈ w_verifying w -> r = mk_result (Done ()) w [] o) /\
  (is_refreshing id (w_store w) = false -> is_authorized id (w_store w) = true -> id ∉ w_verifying w ->
     match out p with
     | Done false =>
         acts r = acts p ++ [AEmit (AccountDisconnectEvent id)] /\
         (out r ≠ Suspended -> id ∉ w_verifying (state r)) /\
         (rest p = [] -> w_store (state r) = (flag_for_recovery id (w_store (state p))).2 /\
                         w_reauth_signal (state r) = true)
     | Done true => r = mk_result (Done ()) (unmark (state p)) (acts p) (rest p)
     | Raised e =>
         r = mk_result (if is_Exception e then Done () else Raised e) (unmark (state p)) (acts p) (rest p)
     | Suspended => r = ended p Suspended
     end).
Proof.
  cbv zeta. split_and!.
  - intros s o' -> Hr Hr' Hc. rewrite (run_handle id o' _ Hr'). unfold handle_account_disconnect.
    rewrite bind_gets, Hr. unfold wait_for_refresh.
    destruct (refresh_event id (w_store w)) as [e|] eqn:E;
      [|unfold is_refreshing, dict_has in Hr; unfold refresh_event in E; by rewrite E in Hr].
    assert (Hw : (settled ← gets (fun w => refresh_event id (w_store w));
             match settled with Some _ => _ ← perform (AWaitRefresh id); pause | None => mret () end) (s :: o') w =
             mk_result (Done ()) (env_act s w) [AWaitRefresh id] o').
    { rewrite bind_gets, E, bind_perform. unfold pause. destruct (env_reply s) as [|[]]; done. }
    erewrite bind_Done by (by rewrite Hw). rewrite Hw. done.
  - intros Hr Hno. rewrite run_handle, run_settled by done. rewrite decide_False; [done|].
    intros [Ha Hv]. destruct Hno as [Hno|Hno]; [congruence|done].
  - intros Hr Ha Hv. rewrite run_handle, run_settled, decide_True by done. unfold try_finally.
    pose proof (run_check id o (set_verifying (fun v => v ∪ {[ id ]}) w)) as Hc. cbv zeta in Hc. rewrite Hc. clear Hc.
    set (p := probe_session id PROBE_TIMEOUT o _). clearbody p. destruct (out p) as [[]|e|] eqn:Ep; [by run; rewrite ?app_nil_r| | |by run].
    + destruct p as [po ps pa [|[act r] o']]; cbn [out state acts rest] in *; unfold continue; cbn [out state acts rest]; rewrite run_report; run.
      * by split_and!.
      * assert (Hmark : forall v : gset Z, id ∉ v ∖ {[ id ]}) by set_solver.
        destruct r as [|[]]; cbn; rewrite ?app_nil_r; (split_and!; [done|intros _; apply Hmark|done]).
    + destruct (is_Exception e); run; by rewrite !app_nil_r.
Qed.

(** One attempt per account, in order: [tries held o w sent restored failed o' w'] says that
    the accounts of [held] were established one after the other, from [w] to [w'], that
    [sent] is what their attempts did, that [restored] are those whose attempt ended well
    and [failed] those whose attempt raised an [Exception], with its text. *)
Inductive tries : list AccountCredentials -> list (env_step World) -> World ->
    list action -> list Z -> list (Z * string) -> list (env_step World) -> World -> Prop :=
  | tries_nil o w : tries [] o w [] [] [] o w
  | tries_restored c held o w r sent restored failed o' w' :
      establish c AuthTrigger.RECONNECT AUTH_TIMEOUT o w = r -> out r = Done () ->
      tries held (rest r) (state r) sent restored failed o' w' ->
      tries (c :: held) o w (acts r ++ sent) (account_id c :: restored) failed o' w'
  | tries_failed c held o w r e sent restored failed o' w' :
      establish c AuthTrigger.RECONNECT AUTH_TIMEOUT o w = r -> out r = Raised e -> is_Exception e = true ->
      tries held (rest r) (state r) sent restored failed o' w' ->
      tries (c :: held) o w (acts r ++ sent) restored ((account_id c, py_str e) :: failed) o' w'.

(** The lists together are the accounts tried, each once and in order. *)
Lemma tries_lists held o w sent restored failed o' w' :
  tries held o w sent restored failed o' w' ->
  restored ++ failed.*1 ≡ₚ account_id <$> held /\
  sublist restored (account_id <$> held) /\ sublist failed.*1 (account_id <$> held).
Proof.
  induction 1 as [|c held o w r sent restored failed o' w' _ _ _ (Hp & H1 & H2)
    |c held o w r e sent restored failed o' w' _ _ _ _ (Hp & H1 & H2)]; csimpl.
  - split_and!; [done|constructor..].
  - rewrite Hp. split_and!; [done|by constructor|by constructor].
  - rewrite <- Permutation_middle, Hp. split_and!; [done|by constructor|by constructor].
Qed.

Lemma restore_fold held found o w restored failed :
  let r := for_fold held found restore_one o w in
  out r = Done (restored, failed) ->
  exists more more', restored = found.1 ++ more /\ failed = found.2 ++ more' /\
    tries held o w (acts r) more more' (rest r) (state r).
Proof.
  cbv zeta. revert found o w. induction held as [|c held IH]; intros found o w; cbn [for_fold].
  { cbn. intros [= ->]. exists [], []. rewrite !app_nil_r. split_and!; [done|done|constructor]. }
  destruct found as [fr ff]. destruct (establish c AuthTrigger.RECONNECT AUTH_TIMEOUT o w) as [eo es ea er] eqn:E.
  assert (Hone : restore_one (fr, ff) c o w =
    match eo with
    | Done _ => mk_result (Done (fr ++ [account_id c], ff)) es ea er
    | Raised e => mk_result (if is_Exception e then Done (fr, ff ++ [(account_id c, py_str e)]) else Raised e) es ea er
    | Suspended => mk_result Suspended es ea er
    end).
  { unfold restore_one. rewrite (try_except_eq _ _ _ _ _ (bind_eq _ _ _ _ _ E)). cbn [out].
    destruct eo as [[]|e|]; unfold continue, ended, except_Exception, mret, proc_ret; cbn [out]; [|destruct (is_Exception e)|];
      cbn; by rewrite ?app_nil_r. }
  rewrite (bind_eq _ _ _ _ _ Hone). destruct eo as [[]|e|]; cbn [out]; [| |done].
  - unfold continue. cbn [out state acts rest]. intros (more & more' & -> & -> & Ht)%IH. cbn [fst snd] in *.
    exists (account_id c :: more), more'. rewrite <- (assoc_L (++)). split_and!; [done|done|].
    change ea with (acts (mk_result (@Done () ()) es ea er)). by eapply tries_restored.
  - destruct (is_Exception e) eqn:He; [|done]. unfold continue. cbn [out state acts rest].
    intros (more & more' & -> & -> & Ht)%IH. cbn [fst snd] in *.
    exists more, ((account_id c, py_str e) :: more'). rewrite <- (assoc_L (++)). split_and!; [done|done|].
    change ea with (acts (mk_result (@Raised () e) es ea er)). by eapply tries_failed.
Qed.

Lemma run_defer_app_auth o w :
  defer_app_auth policy o w =
  let attempts := w_app_auth_attempts w + 1 in
  match backoff_delay policy attempts with
  | Ok d => mk_result (Done ()) (set_app_auth (w_app_auth_pending w) attempts (w_now w + d) w) [] o
  | Err e => mk_result (Raised e) (set_app_auth (w_app_auth_pending w) attempts (w_app_auth_next_at w) w) [] o
  end.
Proof.
  unfold defer_app_auth. rewrite bind_modify, !bind_gets. cbn [w_app_auth_attempts set_app_auth].
  by destruct (backoff_delay policy _).
Qed.

(** Flagging every account of a list. *)
Definition flag_all (ids : list Z) (s : SessionStore) : SessionStore :=
  foldl (fun s id => (flag_for_recovery id s).2) s ids.

Lemma run_flag_all (held : list AccountCredentials) o w :
  for_each held (fun c => _ ← on_store (flag_for_recovery (account_id c)); mret ()) o w =
  mk_result (Done ()) (set_store (flag_all (account_id <$> held)) w) [] o.
Proof.
  revert w. induction held as [|c held IH]; intros w; [by destruct w|]. cbn [for_each].
  rewrite (bind_Done _ _ _ _ ()).
  - unfold continue. unfold mbind, proc_bind, on_store.
    destruct (flag_for_recovery (account_id c) (w_store w)) as [b s] eqn:E. cbn. rewrite IH. cbn.
    unfold set_store. cbn. rewrite E. done.
  - unfold mbind, proc_bind, on_store. by destruct (flag_for_recovery _ _).
Qed.

Definition armed w : World :=
  let s := w_store w in
  set_signal true (set_store (flag_all (account_id <$> all_credentials s))
    (set_app_auth true 1 (w_now w + Z.min (min_wait policy) (max_wait policy)) w)).

Lemma run_arm o w : arm_app_auth_recovery policy o w = mk_result (Done ()) (armed w) [] o.
Proof.
  unfold arm_app_auth_recovery. rewrite bind_modify. set (w1 := set_app_auth true 0 _ w).
  assert (E : defer_app_auth policy o w1 =
    mk_result (Done ()) (set_app_auth true 1 (w_now w + Z.min (min_wait policy) (max_wait policy)) w) [] o).
  { rewrite run_defer_app_auth. unfold w1. cbn [w_app_auth_attempts set_app_auth]. rewrite backoff_delay_Ok by lia.
    simpl. by rewrite Z.mul_1_r. }
  erewrite bind_Done by (by rewrite E). rewrite E. unfold continue. cbn [out state acts rest]. rewrite bind_gets.
  erewrite bind_Done by (by rewrite run_flag_all). rewrite run_flag_all. done.
Qed.

(** After flagging every account held, every one of them is awaiting recovery. *)
Lemma flag_all_awaiting (ids : list Z) (s : SessionStore) :
  store_wf s -> (forall id, id ∈ ids -> id ∈ account_ids s) ->
  store_wf (flag_all ids s) /\ account_ids (flag_all ids s) = account_ids s /\
  (forall id t, dict_get id (accounts s) = Some t -> is_awaiting t = true \/ id ∈ ids ->
     exists t', dict_get id (accounts (flag_all ids s)) = Some t' /\ is_awaiting t' = true).
Proof.
  revert s. induction ids as [|i ids IH]; intros s Hs Hin; cbn [flag_all foldl].
  { split_and!; [done|done|]. intros id t Ht [|[]%elem_of_nil]. eauto. }
  assert (Hs' : store_wf (flag_for_recovery i s).2) by apply (run_op_wf (OpFlagForRecovery i) s Hs).
  assert (Hids : account_ids (flag_for_recovery i s).2 = account_ids s).
  { unfold flag_for_recovery, account_ids. destruct (dict_get i (accounts s)) as [t|] eqn:E; [|done].
    destruct (is_awaiting t); [done|]. cbn. rewrite dict_set_keys, decide_True; [done|].
    apply dict_has_spec. unfold dict_has. by rewrite E. }
  destruct (IH _ Hs') as (H1 & H2 & H3).
  { intros id Hid. rewrite Hids. apply Hin. by apply list_elem_of_further. }
  split_and!; [done|by rewrite <- Hids|]. intros id t Ht Hor.
  assert (Hnow : exists t0, dict_get id (accounts (flag_for_recovery i s).2) = Some t0 /\
    (is_awaiting t0 = true \/ id ∈ ids)).
  { unfold flag_for_recovery. destruct (decide (id = i)) as [->|Hne].
    - rewrite Ht. destruct (is_awaiting t) eqn:Ha; [eauto|]. cbn. rewrite dict_get_set_eq. eauto.
    - assert (Hor' : is_awaiting t = true \/ id ∈ ids) by (destruct Hor as [|[->|]%elem_of_cons]; auto; done).
      destruct (dict_get i (accounts s)) as [ti|]; [|eauto]. destruct (is_awaiting ti); [eauto|].
      cbn. rewrite dict_get_set_ne by done. eauto. }
  destruct Hnow as (t0 & Ht0 & Hor'). by eapply H3.
Qed.

Lemma is_awaiting_listed id t s :
  store_wf s -> dict_get id (accounts s) = Some t -> is_awaiting t = true ->
  id ∈ (pr_account_id <$> awaiting_recovery s).
Proof.
  intros Hs Ht Ha. destruct t as [c [[|n a]|]]; try done. apply list_elem_of_fmap.
  exists (mk_pending id c n a). split; [done|]. by apply awaiting_recovery_spec.
Qed.

(** The credentials held are listed under their accounts. *)
Lemma held_ids s : store_wf s -> account_id <$> all_credentials s = account_ids s.
Proof.
  intros Hs. unfold all_credentials, account_ids.
  assert (H : forall kt, kt ∈ accounts s -> account_id (credentials_of kt.2) = kt.1).
  { intros [k t] Hin. apply (wf_ids _ Hs). apply dict_in_get; [apply Hs|done]. }
  induction (accounts s) as [|kt l IH]; [done|]. csimpl. f_equal; [apply H, list_elem_of_here|].
  apply IH. intros. apply H. by apply list_elem_of_further.
Qed.

Lemma run_first_app_auth o w :
  let a := authenticate_app AUTH_TIMEOUT o w in
  first_app_auth policy o w =
  match out a with
  | Done _ => mk_result (Done true) (state a) (acts a) (rest a)
  | Raised e =>
      if is_Exception e then
        let x := emit (ReconnectedEvent false [] []) (rest a) (armed (state a)) in
        mk_result (match out x with Done _ => Done false | Raised e => Raised e | Suspended => Suspended end)
          (state x) (acts a ++ acts x) (rest x)
      else ended a (Raised e)
  | Suspended => ended a Suspended
  end.
Proof.
  cbv zeta. destruct (authenticate_app AUTH_TIMEOUT o w) as [ao ast aa ar] eqn:Ea. cbn [out state acts rest].
  unfold first_app_auth. rewrite (try_except_eq _ _ _ _ _ (bind_eq _ _ _ _ _ Ea)). cbn [out state acts rest].
  destruct ao as [u|e|]; [run; by rewrite app_nil_r| |done]. cbn [out ended]. unfold except_Exception.
  destruct (is_Exception e); [|done]. unfold continue at 1. cbn [out state acts rest].
  rewrite (bind_eq _ _ _ _ _ (run_arm ar ast)). unfold continue at 1 2 3 4. cbn [out state acts rest].
  destruct (emit (ReconnectedEvent false [] []) ar (armed ast)) as [xo xs xa xr] eqn:Ex.
  rewrite (bind_eq _ _ _ _ _ Ex). destruct xo; run; by rewrite ?app_nil_r.
Qed.

(** C19. After a reconnection the report is complete. When the application is authenticated
    again, every account held at that moment is tried once, in order ([tries]), a failure of
    one not stopping the others, and the last thing published names each in exactly one of
    the two lists, as its attempt ended: restored, or failed with the text of the exception.
    When the application is not authenticated, nothing else is attempted: that is published,
    and the loop is armed with the first delay and every account flagged for it. *)
Theorem restored_reported o w (Hwf : store_wf (w_store (state (authenticate_app AUTH_TIMEOUT o w)))) :
  let r := on_connection_restored policy o w in
  let a := authenticate_app AUTH_TIMEOUT o w in
  let held := account_id <$> all_credentials (w_store (state a)) in
  match out a with
  | Done _ =>
      forall u, out r = Done u -> exists sent restored failed o' w',
        tries (all_credentials (w_store (state a))) (rest a) (state a) sent restored failed o' w' /\
        acts r = acts a ++ sent ++ [AEmit (ReconnectedEvent true restored failed)] /\
        restored ++ failed.*1 ≡ₚ held /\ sublist restored held /\ sublist failed.*1 held
  | Raised e =>
      if is_Exception e then
        acts r = acts a ++ [AEmit (ReconnectedEvent false [] [])] /\
        (rest a = [] ->
           w_app_auth_pending (state r) = true /\ w_reauth_signal (state r) = true /\
           w_app_auth_next_at (state r) = w_now (state a) + Z.min (min_wait policy) (max_wait policy) /\
           forall id, id ∈ account_ids (w_store (state a)) ->
             id ∈ (pr_account_id <$> awaiting_recovery (w_store (state r))))
      else r = ended a (Raised e)
  | Suspended => r = ended a Suspended
  end.
Proof.
  cbv zeta. pose proof (run_first_app_auth o w) as Happ.
  destruct (authenticate_app AUTH_TIMEOUT o w) as [ao ast aa ar]. cbn [out state acts rest] in *.
  unfold on_connection_restored. rewrite (bind_eq _ _ _ _ _ Happ). destruct ao as [u|e|]; [| |done].
  - unfold continue. cbn [out state acts rest negb]. rewrite bind_gets. intros u' Hout.
    destruct (for_fold (all_credentials (w_store ast)) ([], []) restore_one ar ast) as [mo ms ma mr] eqn:Em.
    rewrite (bind_eq _ _ _ _ _ Em) in Hout |- *. destruct mo as [[restored failed]|e|]; [|done..].
    unfold continue. cbn [out state acts rest]. rewrite emit_acts.
    pose proof (restore_fold (all_credentials (w_store ast)) ([], []) ar ast restored failed) as Hfold.
    cbv zeta in Hfold. rewrite Em in Hfold. destruct (Hfold eq_refl) as (more & more' & -> & -> & Ht).
    exists ma, more, more', mr, ms. split; [done|]. split; [done|]. by eapply tries_lists.
  - destruct (is_Exception e) eqn:He; [|done].
    pose proof (emit_acts (ReconnectedEvent false [] []) ar (armed ast)) as Hx.
    destruct (emit (ReconnectedEvent false [] []) ar (armed ast)) as [xo xs xa xr] eqn:Ex.
    cbn [out state acts rest] in *. subst xa. split; [destruct xo; cbn; by rewrite ?app_nil_r|].
    intros ->. cbn in Ex. injection Ex as <- <- <-. cbn.
    split_and!; [done..|]. intros id Hid.
    destruct (flag_all_awaiting (account_id <$> all_credentials (w_store ast)) (w_store ast) Hwf) as (H1 & _ & H3).
    { intros i. by rewrite held_ids. }
    rewrite <- held_ids in Hid by done. pose proof Hid as Hid'. rewrite held_ids in Hid' by done.
    apply dict_has_spec in Hid'. unfold dict_has in Hid'. destruct (dict_get id (accounts (w_store ast))) as [t|] eqn:E; [|done].
    destruct (H3 id t E) as (t' & Ht' & Ha); [by right|]. by eapply is_awaiting_listed.
Qed.

(** Each account backs off on its own. A recovery that succeeds, is suspended or is
    cancelled is left at that; a refusal because the session is already there counts as
    a recovery; every other failure only puts off this account, by the delay of its own
    count of attempts. Up to 1024 attempts none of it keeps the next account from its
    turn: nothing but the cancellation ends the pass over those that are due. *)
Theorem recovery_isolated (due : list pending_recovery) :
  (forall p o w,
     let r := establish (pr_credentials p) AuthTrigger.ACCOUNT_REAUTH AUTH_TIMEOUT o w in
     let n := pr_attempts p + 1 in
     recover_one policy p o w =
     match out r with
     | Raised e =>
         if already_back e then
           continue r (_ ← modify (set_store (authorize (pr_credentials p)));
                       emit (ReadyEvent (pr_account_id p) AuthTrigger.ACCOUNT_REAUTH))
         else if is_Exception e then
           match backoff_delay policy n with
           | Ok d => mk_result (Done ())
                       (set_store (reschedule_recovery (pr_account_id p) n (w_now (state r) + d)) (state r))
                       (acts r) (rest r)
           | Err x => mk_result (Raised x) (state r) (acts r) (rest r)
           end
         else r
     | _ => r
     end) /\
  (Forall (fun p => 0 <= pr_attempts p < 1024) due ->
   forall o w e, out (for_each due (recover_one policy) o w) = Raised e -> is_Exception e = false).
Proof.
  split; [|intros Hdue o w e; by apply recover_all_raises].
  intros p o w. cbv zeta. set (r := establish _ _ _ o w).
  destruct (out r) as [u|e|] eqn:E; [by rewrite recover_one_other; fold r; rewrite ?E| |by rewrite recover_one_other; fold r; rewrite ?E].
  destruct (already_back e) eqn:Hb; [by apply (recover_one_back policy p o w e)|].
  destruct (is_Exception e) eqn:He; [|rewrite recover_one_other; [done|fold r; rewrite E; by intros ? [= <-]]].
  rewrite (recover_one_retried policy p o w e E) by (unfold retried; by rewrite He, Hb).
  fold r. unfold continue. rewrite run_defer. destruct (backoff_delay policy _); cbn; by rewrite app_nil_r.
Qed.

(** A pass when the application is authenticated. *)
Lemma run_pass o w :
  w_app_auth_pending w = false -> reauth_pass policy o w = recover_queue policy o (set_signal false w).
Proof.
  intros Hp. unfold reauth_pass. rewrite bind_modify, bind_gets. cbn [w_app_auth_pending set_signal]. rewrite Hp.
  by rewrite (bind_ret_l _ _ o (set_signal false w)).
Qed.

(** A monitor at work: after [k] passes that all ended, while it was to run, the loop stands
    before the next one with what is left of the oracle. *)
Fixpoint completed (k : nat) o w : option (list (env_step World) * World) :=
  match k with
  | O => Some (o, w)
  | S k' =>
      if w_recovery_running w then
        let r := reauth_pass policy o w in
        match out r with Done _ => completed k' (rest r) (state r) | _ => None end
      else None
  end.

Lemma loop_completed k n o w o1 w1 :
  completed k o w = Some (o1, w1) ->
  let r := reauth_loop policy n o1 w1 in
  exists sent, reauth_loop policy (k + n) o w = mk_result (out r) (state r) (sent ++ acts r) (rest r).
Proof.
  cbv zeta. revert o w. induction k as [|k IH]; intros o w; cbn [completed Nat.add].
  { intros [= -> ->]. exists []. by destruct (reauth_loop policy n o1 w1). }
  destruct (w_recovery_running w) eqn:Hrun; [|done]. destruct (reauth_pass policy o w) as [po ps pa pr] eqn:E.
  cbn [out rest state]. destruct po as [[]| |]; [|done..]. intros (sent & Hloop)%IH.
  exists (pa ++ sent). cbn [reauth_loop]. rewrite bind_gets, Hrun, (bind_eq _ _ _ _ _ E). cbn [out].
  unfold continue. cbn [out state acts rest]. rewrite Hloop. cbn [out state acts rest]. by rewrite (assoc_L (++)).
Qed.

(** C22. The thousandth failure. Take a monitor at work, served from idle and after any number
    of passes, with an account that has failed 1024 times by then (with the default policy
    that takes about seventeen hours) and whose turn it is: if its attempt fails once more,
    the delay computation itself raises. The error leaves the loop and [serve]: the monitor
    stops for every account, the sessions are discarded and the flag cleared. *)
Theorem backoff_overflow_ends_recovery (p : pending_recovery) (due : list pending_recovery) (k n : nat) o w o1 w1 (e : exn)
    (Hidle : w_recovery_running w = false)
    (Hpasses : completed k o (set_recovery_running true w) = Some (o1, w1))
    (Hrunning : w_recovery_running w1 = true) (Hpending : w_app_auth_pending w1 = false)
    (Hdue : filter (fun p => is_due (w_now w1) p = true) (awaiting_recovery (w_store w1)) = p :: due)
    (He : out (establish (pr_credentials p) AuthTrigger.ACCOUNT_REAUTH AUTH_TIMEOUT o1 (set_signal false w1)) = Raised e)
    (Hretried : retried e = true) (Hattempts : 1024 <= pr_attempts p) :
  let r := serve_recovery policy (k + S n) o w in
  out r = Raised (OverflowError "int too large to convert to float") /\
  w_recovery_running (state r) = false /\ authorized_ids (w_store (state r)) = [] /\
  awaiting_recovery (w_store (state r)) = [].
Proof.
  cbv zeta. set (w2 := set_signal false w1) in *. set (x := OverflowError "int too large to convert to float").
  assert (H1 : exists s a l, recover_one policy p o1 w2 = mk_result (Raised x) s a l).
  { rewrite (recover_one_retried policy p o1 w2 e He Hretried). unfold continue. rewrite run_defer.
    rewrite backoff_delay_Err by lia. cbn. eauto. }
  destruct H1 as (s & a & l & H1).
  assert (H2 : reauth_pass policy o1 w1 = mk_result (Raised x) s a l).
  { rewrite run_pass by done. fold w2. unfold recover_queue. rewrite bind_gets.
    cbn [w2 w_store set_signal]. destruct (awaiting_recovery (w_store w1)) as [|q queue] eqn:Eq; [done|]. rewrite bind_gets.
    cbn [w2 w_now set_signal]. rewrite Hdue. cbn [for_each]. by rewrite (bind_eq _ _ _ _ _ H1). }
  assert (H3 : reauth_loop policy (S n) o1 w1 = mk_result (Raised x) s a l).
  { cbn [reauth_loop]. rewrite bind_gets, Hrunning. by rewrite (bind_eq _ _ _ _ _ H2). }
  destruct (loop_completed k (S n) o _ o1 w1 Hpasses) as (sent & Hloop). rewrite H3 in Hloop. cbn [out state acts rest] in Hloop.
  unfold serve_recovery. rewrite bind_gets, Hidle, bind_modify. unfold try_finally, try_except. rewrite Hloop. cbn.
  split_and!; [done..| |].
  - apply invalidate_all_authorized.
  - apply invalidate_all_awaiting.
Qed.

(** Where a failed attempt puts an account. *)
Definition put_off (now : seconds) (p : pending_recovery) (s : SessionStore) : SessionStore :=
  reschedule_recovery (pr_account_id p) (pr_attempts p + 1)
    (now + match backoff_delay policy (pr_attempts p + 1) with Ok d => d | Err _ => 0 end) s.

Definition put_off_all (now : seconds) (due : list pending_recovery) (s : SessionStore) : SessionStore :=
  foldl (fun s p => put_off now p s) s due.

(** What is still due after that was due before and was not put off. *)
Lemma due_after_put_off (now : seconds) (due : list pending_recovery) (s : SessionStore) q :
  0 < min_wait policy -> 0 < max_wait policy -> Forall (fun p => 0 <= pr_attempts p < 1024) due ->
  store_wf s -> q ∈ awaiting_recovery (put_off_all now due s) -> is_due now q = true ->
  store_wf (put_off_all now due s) /\ q ∈ awaiting_recovery s /\ pr_account_id q ∉ (pr_account_id <$> due).
Proof.
  intros Hmin Hmax Hdue. revert s. induction Hdue as [|p due Hp Hdue IH]; intros s Hs Hq Hnow.
  { split_and!; [done|done|apply not_elem_of_nil]. }
  assert (Hs' : store_wf (put_off now p s)) by apply (run_op_wf (OpReschedule _ _ _) s Hs).
  destruct (IH _ Hs' Hq Hnow) as (H1 & H2 & H3). rewrite fmap_cons, not_elem_of_cons.
  apply awaiting_recovery_spec in H2; [|done]. unfold put_off, reschedule_recovery in H2.
  destruct (dict_get (pr_account_id p) (accounts s)) as [t|] eqn:E.
  2: { split_and!; [done|by apply awaiting_recovery_spec| |done]. congruence. }
  destruct (is_awaiting t) eqn:Ha.
  2: { split_and!; [done|by apply awaiting_recovery_spec| |done]. intros Heq. rewrite Heq, E in H2.
       injection H2 as ->. done. }
  cbn in H2. rewrite dict_get_set in H2. case_decide as Heq.
  - exfalso. injection H2 as _ _ Hat. unfold is_due in Hnow. apply Z.leb_le in Hnow.
    destruct (backoff_delay policy (pr_attempts p + 1)) as [d|x] eqn:Ed.
    + apply backoff_pos in Ed; lia.
    + rewrite backoff_delay_Ok in Ed by lia. done.
  - split_and!; [done|by apply awaiting_recovery_spec|done|done].
Qed.

(** A pass over the due accounts that does nothing others see has put them all off. *)
Lemma silent_recovery `{!LawfulAuthenticator A} (due : list pending_recovery) o w :
  Forall (fun p => 0 <= pr_attempts p < 1024) due ->
  acts (for_each due (recover_one policy) o w) = [] ->
  for_each due (recover_one policy) o w = mk_result (Done ()) (set_store (put_off_all (w_now w) due) w) [] o.
Proof.
  intros Hdue. revert w. induction Hdue as [|p due Hp Hdue IH]; intros w; [by destruct w|].
  cbn [for_each]. intros Hacts.
  assert (Hone : acts (recover_one policy p o w) = []).
  { unfold mbind, proc_bind in Hacts. destruct (out (recover_one policy p o w)); [|done..].
    unfold continue in Hacts. cbn [acts] in Hacts. by apply app_eq_nil in Hacts as []. }
  assert (Hest : acts (establish (pr_credentials p) AuthTrigger.ACCOUNT_REAUTH AUTH_TIMEOUT o w) = []).
  { unfold recover_one, try_except in Hone.
    destruct (out (establish (pr_credentials p) AuthTrigger.ACCOUNT_REAUTH AUTH_TIMEOUT o w)) as [|e|]; [done| |done].
    destruct (match e with AccountAuthError _ _ _ => _ | _ => _ end); [|done].
    unfold continue in Hone. cbn [acts] in Hone. by apply app_eq_nil in Hone as []. }
  apply establish_silent in Hest.
  assert (Hrun : recover_one policy p o w = mk_result (Done ()) (set_store (put_off (w_now w) p) w) [] o).
  { erewrite recover_one_retried; [|by rewrite Hest|done]. rewrite Hest. unfold continue. cbn [out state acts rest].
    rewrite run_defer. unfold put_off. rewrite backoff_delay_Ok by lia. done. }
  rewrite (bind_eq _ _ _ _ _ Hrun) in Hacts |- *. unfold continue in *. cbn [out state acts rest app] in *.
  by rewrite IH.
Qed.

(** Passes over a single account: it is not due yet, its attempt fails, or it succeeds. *)
Lemma run_waiting_pass p s o w :
  w_app_auth_pending w = false -> awaiting_recovery (w_store w) = [p] -> w_now w < pr_next_attempt_at p ->
  env_reply s ≠ Err Cancelled ->
  reauth_pass policy (s :: o) w =
  mk_result (Done ()) (env_act s (set_signal false w)) [AWaitSignal (Some (pr_next_attempt_at p - w_now w))] o.
Proof.
  intros Hp Hq Hdue Hs. rewrite run_pass by done. unfold recover_queue. rewrite bind_gets. cbn [w_store set_signal].
  rewrite Hq, bind_gets, filter_cons_False by (apply not_true_iff_false, Z.leb_gt; exact Hdue).
  rewrite filter_nil. unfold wait_for_retry. rewrite bind_perform. destruct s as [act [m|[]]]; done.
Qed.

Lemma run_due_pass p o w :
  w_app_auth_pending w = false -> awaiting_recovery (w_store w) = [p] -> pr_next_attempt_at p <= w_now w ->
  reauth_pass policy o w = recover_one policy p o (set_signal false w).
Proof.
  intros Hp Hq Hdue. rewrite run_pass by done. unfold recover_queue. rewrite bind_gets. cbn [w_store set_signal].
  rewrite Hq, bind_gets, filter_cons_True, filter_nil by by apply Z.leb_le. cbn [for_each]. apply bind_ret_unit.
Qed.

Lemma run_setback p o w e w1 sent o1 d :
  establish (pr_credentials p) AuthTrigger.ACCOUNT_REAUTH AUTH_TIMEOUT o w = mk_result (Raised e) w1 sent o1 ->
  retried e = true -> backoff_delay policy (pr_attempts p + 1) = Ok d ->
  recover_one policy p o w =
  mk_result (Done ()) (set_store (reschedule_recovery (pr_account_id p) (pr_attempts p + 1) (w_now w1 + d)) w1) sent o1.
Proof.
  intros E He Hd. rewrite (recover_one_retried policy p o w e) by (done || by rewrite E). rewrite E. unfold continue.
  cbn [rest state acts]. rewrite run_defer, Hd. cbn [out state acts rest]. by rewrite app_nil_r.
Qed.

(** Passes while the application is not authenticated: its turn has not come, its attempt
    fails, or it succeeds and the accounts follow. *)
Lemma run_app_wait s o w :
  w_app_auth_pending w = true -> w_now w < w_app_auth_next_at w -> env_reply s ≠ Err Cancelled ->
  reauth_pass policy (s :: o) w =
  mk_result (Done ()) (env_act s (set_signal false w)) [AWaitSignal (Some (w_app_auth_next_at w - w_now w))] o.
Proof.
  intros Hp Hnow Hs. unfold reauth_pass. rewrite bind_modify, bind_gets. cbn [w_app_auth_pending set_signal]. rewrite Hp.
  rewrite (bind_eq _ _ _ _ (mk_result (Done false) (env_act s (set_signal false w))
    [AWaitSignal (Some (w_app_auth_next_at w - w_now w))] o)); [done|].
  rewrite bind_gets. cbn [w_now w_app_auth_next_at set_signal]. rewrite (proj2 (Z.ltb_lt _ _)) by lia.
  unfold wait_for_retry. destruct s as [act [m|[]]]; done.
Qed.

Lemma run_app_turn o w r :
  w_app_auth_pending w = true -> w_app_auth_next_at w <= w_now w -> retry_app_auth policy o (set_signal false w) = r ->
  reauth_pass policy o w =
  match out r with
  | Done true => continue r (recover_queue policy)
  | Done false => ended r (Done ())
  | Raised e => ended r (Raised e)
  | Suspended => ended r Suspended
  end.
Proof.
  intros Hp Hnow Hr. unfold reauth_pass. rewrite bind_modify, bind_gets. cbn [w_app_auth_pending set_signal]. rewrite Hp.
  assert (E : (waiting ← gets (fun w => w_app_auth_next_at w - w_now w);
    if 0 <? waiting then _ ← wait_for_retry waiting; mret false else retry_app_auth policy) o (set_signal false w) = r).
  { rewrite bind_gets. cbn [w_now w_app_auth_next_at set_signal]. by rewrite (proj2 (Z.ltb_ge _ _)) by lia. }
  rewrite (bind_eq _ _ _ _ _ E). destruct r as [[[]|e|] st ac rs]; try done.
  unfold continue, ended, mret, proc_ret. cbn. by rewrite app_nil_r.
Qed.

Lemma run_app_setback o w e w1 sent o1 d :
  authenticate_app AUTH_TIMEOUT o w = mk_result (Raised e) w1 sent o1 -> is_Exception e = true ->
  backoff_delay policy (w_app_auth_attempts w1 + 1) = Ok d ->
  retry_app_auth policy o w =
  mk_result (Done false) (set_app_auth (w_app_auth_pending w1) (w_app_auth_attempts w1 + 1) (w_now w1 + d) w1) sent o1.
Proof.
  intros E He Hd. pose proof (run_defer_app_auth o1 w1) as Hdefer. cbv zeta in Hdefer. rewrite Hd in Hdefer.
  unfold retry_app_auth.
  rewrite (bind_eq _ _ _ _ (mk_result (Done false)
    (set_app_auth (w_app_auth_pending w1) (w_app_auth_attempts w1 + 1) (w_now w1 + d) w1) sent o1)).
  { unfold continue, mret, proc_ret. cbn. by rewrite app_nil_r. }
  rewrite (try_except_eq _ _ _ _ _ (bind_eq _ _ _ _ _ E)). cbn [out ended]. unfold except_Exception. rewrite He.
  unfold continue. cbn [rest state acts ended]. rewrite (bind_eq _ _ _ _ _ Hdefer).
  unfold continue, mret, proc_ret. cbn. by rewrite app_nil_r.
Qed.

Lemma run_app_back o w w1 sent o1 :
  authenticate_app AUTH_TIMEOUT o w = mk_result (Done ()) w1 sent o1 ->
  retry_app_auth policy o w = mk_result (Done true) (set_app_auth false 0 (w_app_auth_next_at w1) w1) sent o1.
Proof.
  intros E. unfold retry_app_auth. rewrite (bind_eq _ _ _ _ _ (try_except_eq _ _ _ _ _ (bind_eq _ _ _ _ _ E))).
  unfold continue, mret, proc_ret. cbn. rewrite bind_modify. cbn. by rewrite !app_nil_r.
Qed.

(** Every account is due. *)
Lemma run_all_due o w :
  awaiting_recovery (w_store w) ≠ [] ->
  Forall (fun p => pr_next_attempt_at p <= w_now w) (awaiting_recovery (w_store w)) ->
  recover_queue policy o w = for_each (awaiting_recovery (w_store w)) (recover_one policy) o w.
Proof.
  intros Hne Hdue. unfold recover_queue. rewrite bind_gets. destruct (awaiting_recovery (w_store w)) as [|p queue] eqn:E; [done|].
  rewrite bind_gets. assert (Hall : filter (fun p => is_due (w_now w) p = true) (p :: queue) = p :: queue).
  { apply filter_id. eapply Forall_impl; [exact Hdue|]. intros q Hq. by apply Z.leb_le. }
  by rewrite Hall.
Qed.

(** A silent pass, when the application is authenticated. *)
Lemma run_queue `{!LawfulAuthenticator A} o w :
  w_app_auth_pending w = false -> acts (reauth_pass policy o w) = [] ->
  Forall (fun p => 0 <= pr_attempts p < 1024) (awaiting_recovery (w_store w)) ->
  exists due, (forall q, q ∈ due <-> q ∈ awaiting_recovery (w_store w) /\ is_due (w_now w) q = true) /\
    Forall (fun p => 0 <= pr_attempts p < 1024) due /\
    reauth_pass policy o w = mk_result (Done ()) (set_store (put_off_all (w_now w) due) (set_signal false w)) [] o.
Proof.
  intros Hp Hsilent Hatt. rewrite run_pass in * by done. unfold recover_queue in *. rewrite bind_gets in *.
  cbn [w_store set_signal] in *. destruct (awaiting_recovery (w_store w)) as [|q queue]; [done|].
  rewrite bind_gets in *. cbn [w_now set_signal] in *.
  exists (filter (fun p => is_due (w_now w) p = true) (q :: queue)).
  assert (Hd : Forall (fun p => 0 <= pr_attempts p < 1024) (filter (fun p => is_due (w_now w) p = true) (q :: queue))).
  { apply Forall_forall. intros x [_ Hx]%list_elem_of_filter. rewrite Forall_forall in Hatt. by apply Hatt. }
  split_and!; [intros x; rewrite list_elem_of_filter; tauto|done|].
  destruct (filter _ (q :: queue)) as [|q' due]; [done|]. by rewrite silent_recovery.
Qed.

(** The application's turn is never silent. *)
Lemma pending_pass_acts `{!LawfulAuthenticator A} o w :
  w_app_auth_pending w = true -> acts (reauth_pass policy o w) ≠ [].
Proof.
  intros Hp. unfold reauth_pass. rewrite bind_modify, bind_gets. cbn [w_app_auth_pending set_signal]. rewrite Hp.
  apply acts_bind. rewrite bind_gets. destruct (0 <? _).
  - apply acts_bind. unfold wait_for_retry. by rewrite bind_perform.
  - apply acts_bind, acts_try_except, acts_bind, authenticate_app_sends.
Qed.

(** C21. The loop does not spin: a pass that suspends nowhere has put off every account that
    was due, so the pass that follows it waits or sends something. This needs a policy with
    positive waits, and accounts that have failed fewer than 1024 times. *)
Theorem never_spins `{!LawfulAuthenticator A} o w
    (Hmin : 0 < min_wait policy) (Hmax : 0 < max_wait policy) (Hwf : store_wf (w_store w))
    (Hattempts : Forall (fun p => 0 <= pr_attempts p < 1024) (awaiting_recovery (w_store w)))
    (Hsilent : acts (reauth_pass policy o w) = []) :
  out (reauth_pass policy o w) = Done () /\ rest (reauth_pass policy o w) = o /\
  acts (reauth_pass policy o (state (reauth_pass policy o w))) ≠ [].
Proof.
  destruct (w_app_auth_pending w) eqn:Hp; [by apply pending_pass_acts in Hsilent|].
  destruct (run_queue o w Hp Hsilent) as (due & Hdue & Hsub & Hrun); [done|]. rewrite Hrun. cbn [out state rest].
  split_and!; [done..|]. set (w2 := set_store _ _). intros Hagain.
  assert (Hp2 : w_app_auth_pending w2 = false) by done.
  assert (Hwf2 : forall q, q ∈ awaiting_recovery (w_store w2) -> is_due (w_now w) q = true -> False).
  { intros q Hq Hnow. destruct (due_after_put_off (w_now w) due (w_store w) q) as (_ & H2 & H3); try done.
    apply H3, list_elem_of_fmap. exists q. split; [done|]. by apply Hdue. }
  rewrite run_pass in Hagain by done. unfold recover_queue in Hagain. rewrite bind_gets in Hagain.
  cbn [w_store set_signal] in Hagain. destruct (awaiting_recovery (w_store w2)) as [|q queue] eqn:Eq; [done|].
  rewrite bind_gets in Hagain. cbn [w_now set_signal] in Hagain.
  destruct (filter _ (q :: queue)) as [|q' due'] eqn:Ef; [done|].
  assert (Hin : q' ∈ filter (fun p => is_due (w_now w2) p = true) (q :: queue)) by (rewrite Ef; apply list_elem_of_here).
  apply list_elem_of_filter in Hin as [Hq Hin]. by eapply Hwf2.
Qed.
End properties.

(** ** The theorems at concrete inputs *)

(** An authenticator that refuses account 1, without asking, and accepts the others. *)
Definition sample_auth : SessionAuthenticator := {|
  authenticate_app t := perform (ASend (MApplicationAuthReq "id" "secret") t);
  establish c tr t :=
    if account_id c =? 1 then raise (TokenExpiredError (Some (account_id c)))
    else perform (ASend (MAccountAuthReq (account_id c) (access_token c)) t);
  probe_session id t := mret (negb (id =? 1));
|}.

#[export] Instance sample_auth_lawful : LawfulAuthenticator sample_auth.
Proof.
  split.
  - done.
  - intros c tr t o w. cbn. by destruct (account_id c =? 1).
  - intros I t. cbn. by solve_always.
  - intros I c tr t _. cbn. by solve_always.
  - intros I id t. cbn. by solve_always.
Qed.

Definition sample_cred (id : Z) : AccountCredentials := mk_credentials id "token" "refresh" 0.

Definition sample_store : SessionStore := authorize (sample_cred 2) (authorize (sample_cred 1) empty_store).

Lemma sample_store_wf : store_wf sample_store.
Proof. apply (run_op_wf (OpAuthorize _)), (run_op_wf (OpAuthorize _)), empty_store_wf. Qed.

(** A world whose account 1 has failed a number of times and is due. *)
Definition failing_store (attempts : Z) : SessionStore :=
  reschedule_recovery 1 attempts 0 (flag_for_recovery 1 sample_store).2.

Lemma failing_store_wf (attempts : Z) : store_wf (failing_store attempts).
Proof. apply (run_op_wf (OpReschedule _ _ _)), (run_op_wf (OpFlagForRecovery _)), sample_store_wf. Qed.

Definition recovery_world (s : SessionStore) : World :=
  mk_world s empty_table true ∅ false 0 0 false false false 0 0.

Lemma disconnect_checked_witness :
  let r := handle_account_disconnect (A := sample_auth) 1 [] (recovery_world sample_store) in
  acts r = [AEmit (AccountDisconnectEvent 1)] /\ w_reauth_signal (state r) = true.
Proof.
  destruct (disconnect_checked (A := sample_auth) 1 [] (recovery_world sample_store)) as (_ & _ & H).
  destruct H as (H1 & _ & H2); [reflexivity|reflexivity|apply not_elem_of_empty|].
  split; [exact H1|]. apply H2. reflexivity.
Defined.

Lemma restored_reported_witness :
  let r := on_connection_restored (A := sample_auth) default_reauth_policy [quiet (Ok MHeartbeatEvent)] (recovery_world sample_store) in
  out r = Done () /\
  exists sent restored failed, restored = [2] /\ failed = [(1, py_str (TokenExpiredError (Some 1)))] /\
    acts r = [ASend (MApplicationAuthReq "id" "secret") AUTH_TIMEOUT] ++ sent ++ [AEmit (ReconnectedEvent true restored failed)] /\
    restored ++ failed.*1 ≡ₚ [1; 2].
Proof.
  split; [reflexivity|].
  destruct (restored_reported (A := sample_auth) default_reauth_policy [quiet (Ok MHeartbeatEvent)]
    (recovery_world sample_store) sample_store_wf () eq_refl) as (sent & restored & failed & o' & w' & Ht & H1 & H2 & _).
  exists sent, restored, failed.
  inversion Ht as [|? ? ? ? ? ? ? ? ? ? E1 Hd1 _|? ? ? ? ? e1 ? ? ? ? ? E1 He1 _ Ht1]; subst;
    [vm_compute in Hd1; discriminate|].
  vm_compute in He1. injection He1 as <-.
  inversion Ht1 as [|? ? ? ? ? ? ? ? ? ? E2 Hd2 Ht2|? ? ? ? ? e2 ? ? ? ? ? E2 He2 _ _]; subst;
    [|vm_compute in He2; discriminate].
  inversion Ht2; subst. split; [reflexivity|]. split; [reflexivity|]. split; [exact H1|exact H2].
Defined.

Lemma recovery_isolated_witness :
  let p := mk_pending 1 (sample_cred 1) 3 0 in
  state (recover_one (A := sample_auth) default_reauth_policy p [] (recovery_world (failing_store 3))) =
  recovery_world (reschedule_recovery 1 4 (8 * second) (failing_store 3)).
Proof.
  cbv zeta. rewrite (proj1 (recovery_isolated (A := sample_auth) default_reauth_policy [])
    (mk_pending 1 (sample_cred 1) 3 0) [] (recovery_world (failing_store 3))). vm_compute. reflexivity.
Defined.

(** Account 1 is dropped while the monitor waits, is refused, and is retried every minute. *)
Definition refusals : list (env_step World) :=
  mk_env_step (fun w => set_signal true (set_store (fun s => (flag_for_recovery 1 s).2) w)) (Ok MHeartbeatEvent) ::
  replicate 1024 (elapse (60 * second)).

Definition after_refusals : World := Eval vm_compute in
  match completed (A := sample_auth) default_reauth_policy 2049 refusals
          (set_recovery_running true (recovery_world sample_store)) with
  | Some (_, w) => w
  | None => recovery_world empty_store
  end.

Lemma refusals_completed :
  completed (A := sample_auth) default_reauth_policy 2049 refusals
    (set_recovery_running true (recovery_world sample_store)) = Some ([], after_refusals).
Proof. vm_compute. reflexivity. Qed.

Lemma backoff_overflow_ends_recovery_witness :
  pr_attempts <$> awaiting_recovery (w_store after_refusals) = [1024] /\
  out (serve_recovery (A := sample_auth) default_reauth_policy (2049 + 1) refusals (recovery_world sample_store)) =
    Raised (OverflowError "int too large to convert to float").
Proof.
  split; [vm_compute; reflexivity|].
  refine (proj1 (backoff_overflow_ends_recovery (A := sample_auth) default_reauth_policy
    (mk_pending 1 (sample_cred 1) 1024 (w_now after_refusals)) [] 2049 0 refusals (recovery_world sample_store) []
    after_refusals (TokenExpiredError (Some 1)) _ refusals_completed _ _ _ _ _ _));
    vm_compute; reflexivity || discriminate.
Defined.

Lemma never_spins_witness :
  acts (reauth_pass (A := sample_auth) default_reauth_policy [] (recovery_world (failing_store 3))) = [] /\
  out (reauth_pass (A := sample_auth) default_reauth_policy [] (recovery_world (failing_store 3))) = Done ().
Proof.
  split; [reflexivity|].
  apply (never_spins (A := sample_auth) default_reauth_policy [] (recovery_world (failing_store 3)));
    [reflexivity|reflexivity|apply failing_store_wf|vm_compute; repeat constructor; discriminate|reflexivity].
Defined.
