(* ===== verification/Refresh.v ===== *)
(** * Token refresh ([auth/_refresh.py], [auth/policy.py])

    Access tokens are rotated before they expire, and the account re-authorized with the
    new pair. The retries are [tenacity]'s: the two strategies the code gives it are
    parameters. *)

From S2P Require Import Prelude Errors Enums Numbers Wire Effects Protocol Link Models Session Events EventFields World Auth.
From stdpp Require Import options.
Import AuthTrigger(auth_trigger).
Open Scope string_scope.
Open Scope list_scope.
Open Scope Z_scope.

(** [RefreshPolicy] *)
Record RefreshPolicy := mk_refresh_policy {
  buffer_seconds : seconds;
  check_interval : seconds;
  retry_attempts : Z;
  retry_min_wait : seconds;
  retry_max_wait : seconds;
}.

Definition default_refresh_policy : RefreshPolicy :=
  mk_refresh_policy (300 * second) (60 * second) 3 second (30 * second).

(** [wait_exponential(min=..., max=...)], asked for the delay after an attempt. *)
Class WaitStrategies := { wait_exponential : seconds -> seconds -> Z -> seconds }.

Section TokenRefresher.
Context `{Auth : SessionAuthenticator} `{Stops : StopStrategies} `{Waits : WaitStrategies}.
Context (policy : RefreshPolicy) (token_store : option TokenStore).

(** [AsyncRetrying(stop, wait, retry_if_exception_type(APIError), reraise=True)] around
    [body], from attempt number [n] on, at most [attempts] of them. *)
Fixpoint retrying (attempts : nat) (n : Z) (body : async ()) : async () :=
  match attempts with
  | O => unfinished
  | S attempts' =>
      try_except body (fun e =>
        match e with
        | APIError _ =>
            Some (if stop_after_attempt (retry_attempts policy) n then raise e
                  else _ ← sleep (wait_exponential (retry_min_wait policy) (retry_max_wait policy) n);
                       retrying attempts' (n + 1) body)
        | _ => None
        end)
  end.

(** The first attempt always runs; there are never more than the policy's. *)
Definition attempt_budget : nat := Z.to_nat (Z.max 1 (retry_attempts policy)).

(** The timeout [request] and [establish] are called with here. *)
Definition DEFAULT_TIMEOUT : seconds := 30 * second.

(** One attempt. *)
Definition refresh_attempt (id : Z) (c : AccountCredentials) : async () :=
  response ← try_except (request rt_RefreshTokenRes (MRefreshTokenReq (refresh_token c)) DEFAULT_TIMEOUT)
    (except_APIError (fun a => raise (if is_token_failure a then TokenExpiredError (Some id) else APIError a)));
  time ← gets w_time;
  let new_credentials :=
    with_refreshed_tokens time c (rot_access response) (rot_refresh response) (rot_expires_in response) in
  _ ← modify (set_store (replace_credentials new_credentials));
  _ ← match token_store with Some storage => save new_credentials | None => mret () end;
  establish new_credentials AuthTrigger.TOKEN_REFRESH DEFAULT_TIMEOUT.

(** The [try] statement of [_refresh_account]: the error it leaves, if any. *)
Definition refresh_tries (id : Z) (c : AccountCredentials) : async (option exn) :=
  try_finally
    (try_except (_ ← retrying attempt_budget 1 (refresh_attempt id c); mret None)
       (except_Exception (fun e => mret (Some e))))
    (modify (set_store (end_refresh id))).

(** [_refresh_account] *)
Definition refresh_account (id : Z) : async () :=
  held ← gets (fun w => credentials id (w_store w));
  match held with
  | None => mret ()
  | Some c =>
      _ ← modify (set_store (begin_refresh id));
      last_error ← refresh_tries id c;
      match last_error with
      | Some e => raise (TokenRefreshError (Some id) (Some e))
      | None => mret ()
      end
  end.

(** One turn of the inner loop of [_refresh_loop]. *)
Definition refresh_one (item : Z * AccountCredentials) : async () :=
  let '(id, c) := item in
  time ← gets w_time;
  if expires_soon time c (buffer_seconds policy) then
    try_except (refresh_account id)
      (fun e => match e with
                | TokenRefreshError _ _ => Some (emit (TokenRefreshFailedEvent id e))
                | _ => None
                end)
  else mret ().

(** One pass of the loop. *)
Definition refresh_pass : async () :=
  _ ← sleep (check_interval policy);
  held ← gets (fun w => items (w_store w));
  for_each held refresh_one.

(** [_refresh_loop], its first [passes] passes. *)
Fixpoint refresh_loop (passes : nat) : async () :=
  match passes with
  | O => unfinished
  | S n =>
      running ← gets w_refresher_running;
      if (running : bool) then _ ← refresh_pass; refresh_loop n else mret ()
  end.

(** [serve] *)
Definition serve_refresher (passes : nat) : async () :=
  running ← gets w_refresher_running;
  if (running : bool) then raise (RuntimeError "Token refresh monitor is already running")
  else
    _ ← modify (set_refresher_running true);
    try_finally
      (try_except (refresh_loop passes) (swallow_stop w_refresher_running))
      (modify (set_refresher_running false)).

(** [stop] *)
Definition stop_refresher : async () := modify (set_refresher_running false).
End TokenRefresher.

(** ** Lemmas *)

Section lemmas.
Context `{Auth : SessionAuthenticator} `{Stops : StopStrategies} `{Waits : WaitStrategies}.
Context (policy : RefreshPolicy) (token_store : option TokenStore).
Implicit Types (o : list (env_step World)) (w : World).

(** The refresh of an account as a whole: the retries, the end of the mark, the verdict. *)
Lemma run_refresh_tries id c o w :
  refresh_tries policy token_store id c o w =
  let r := retrying policy (attempt_budget policy) 1 (refresh_attempt token_store id c) o w in
  match out r with
  | Suspended => mk_result Suspended (state r) (acts r) (rest r)
  | Done _ => mk_result (Done None) (set_store (end_refresh id) (state r)) (acts r) (rest r)
  | Raised e =>
      mk_result (if is_Exception e then Done (Some e) else Raised e) (set_store (end_refresh id) (state r)) (acts r) (rest r)
  end.
Proof.
  unfold refresh_tries. rewrite run_try_finally, run_keep_exception. cbv zeta.
  destruct (retrying _ _ _ _ o w) as [[u|e|] s a l]; cbn; [done| |done]. by destruct (is_Exception e).
Qed.

Lemma run_refresh_account id c o w :
  credentials id (w_store w) = Some c ->
  refresh_account policy token_store id o w =
  let r := retrying policy (attempt_budget policy) 1 (refresh_attempt token_store id c) o (set_store (begin_refresh id) w) in
  match out r with
  | Suspended => mk_result Suspended (state r) (acts r) (rest r)
  | Done _ => mk_result (Done ()) (set_store (end_refresh id) (state r)) (acts r) (rest r)
  | Raised e =>
      mk_result (Raised (if is_Exception e then TokenRefreshError (Some id) (Some e) else e))
        (set_store (end_refresh id) (state r)) (acts r) (rest r)
  end.
Proof.
  intros Hc. unfold refresh_account. rewrite bind_gets, Hc, bind_modify.
  rewrite (bind_eq _ _ _ _ _ (run_refresh_tries id c o _)). cbv zeta.
  unfold continue, ended, mret, proc_ret, raise.
  destruct (retrying _ _ _ _ o _) as [[u|e|] s a l]; cbn; [by rewrite app_nil_r| |done].
  destruct (is_Exception e); cbn; by rewrite ?app_nil_r.
Qed.

(** Only a [TokenRefreshError] and what is no [Exception] leave it. *)
Lemma refresh_account_raises id o w e :
  out (refresh_account policy token_store id o w) = Raised e ->
  is_Exception e = false \/ exists x, e = TokenRefreshError (Some id) (Some x).
Proof.
  destruct (credentials id (w_store w)) as [c|] eqn:Hc.
  - rewrite (run_refresh_account id c) by done. cbv zeta.
    destruct (out (retrying _ _ _ _ o _)) as [u|x|]; cbn; [done| |done].
    destruct (is_Exception x) eqn:Hx; intros [= <-]; eauto.
  - unfold refresh_account. by rewrite bind_gets, Hc.
Qed.

(** The credentials kept by the refresh are the store's own. *)
Lemma replace_credentials_wf c s : store_wf s -> store_wf (replace_credentials c s).
Proof. apply (run_op_wf (OpReplaceCredentials c)). Qed.

Lemma authorize_wf c s : store_wf s -> store_wf (authorize c s).
Proof. apply (run_op_wf (OpAuthorize c)). Qed.
End lemmas.

Section properties.
Context `{Auth : SessionAuthenticator} `{Stops : StopStrategies} `{Waits : WaitStrategies}.
Context (policy : RefreshPolicy) (token_store : option TokenStore).
Implicit Types (o : list (env_step World)) (w : World).

(** The new pair that an answer to the request of an account makes. *)
Definition rotated (time : seconds) (c : AccountCredentials) (t : rotated_tokens) : AccountCredentials :=
  with_refreshed_tokens time c (rot_access t) (rot_refresh t) (rot_expires_in t).

Definition save_new (c : AccountCredentials) : async () :=
  match token_store with Some storage => save c | None => mret () end.

Lemma run_attempt id c s o w :
  refresh_attempt token_store id c (s :: o) w =
  let sent := ASend (MRefreshTokenReq (refresh_token c)) DEFAULT_TIMEOUT in
  match env_reply s ≫= narrow_response rt_RefreshTokenRes with
  | Ok t =>
      let new := rotated (w_time (env_act s w)) c t in
      continue (mk_result (Done ()) (set_store (replace_credentials new) (env_act s w)) [sent] o)
        (_ ← save_new new; establish new AuthTrigger.TOKEN_REFRESH DEFAULT_TIMEOUT)
  | Err (APIError a) =>
      mk_result (Raised (if is_token_failure a then TokenExpiredError (Some id) else APIError a)) (env_act s w) [sent] o
  | Err e => mk_result (Raised e) (env_act s w) [sent] o
  end.
Proof.
  unfold refresh_attempt.
  pose proof (run_request_step rt_RefreshTokenRes (MRefreshTokenReq (refresh_token c)) DEFAULT_TIMEOUT s o w) as E.
  rewrite (bind_eq _ _ _ _ _ (try_except_eq _ _ _ _ _ E)). cbn [out].
  destruct (env_reply s ≫= narrow_response rt_RefreshTokenRes) as [t|e].
  - cbn [out]. unfold continue at 1. cbn [out state acts rest]. rewrite bind_gets, bind_modify. done.
  - by destruct e.
Qed.

(** C23. Rotation, on every branch. A refusal that names the token is final, any other is
    raised as it came, and neither touches the store. An answer replaces the pair at once,
    with an expiry counted from now, and leaves the account's session as it was; only then
    is it saved, and only once it is saved is the account re-authorized with it. *)
Theorem rotation_branches (id : Z) (c : AccountCredentials) (s : env_step World) o w :
  let r := refresh_attempt token_store id c (s :: o) w in
  let sent := ASend (MRefreshTokenReq (refresh_token c)) DEFAULT_TIMEOUT in
  match env_reply s ≫= narrow_response rt_RefreshTokenRes with
  | Ok t =>
      let new := mk_credentials (account_id c) (rot_access t) (rot_refresh t)
                   (w_time (env_act s w) + rot_expires_in t * second) in
      let w1 := set_store (replace_credentials new) (env_act s w) in
      let saved := save_new new o w1 in
      credentials (account_id c) (w_store w1) = Some new /\
      (forall i, is_authorized i (w_store w1) = is_authorized i (w_store (env_act s w))) /\
      match out saved with
      | Done _ =>
          let e := establish new AuthTrigger.TOKEN_REFRESH DEFAULT_TIMEOUT (rest saved) (state saved) in
          r = mk_result (out e) (state e) (sent :: acts saved ++ acts e) (rest e)
      | Raised x => r = mk_result (Raised x) (state saved) (sent :: acts saved) (rest saved)
      | Suspended => r = mk_result Suspended (state saved) (sent :: acts saved) (rest saved)
      end
  | Err (APIError a) =>
      r = mk_result (Raised (if is_token_failure a then TokenExpiredError (Some id) else APIError a)) (env_act s w) [sent] o
  | Err e => r = mk_result (Raised e) (env_act s w) [sent] o
  end.
Proof.
  cbv zeta. rewrite (run_attempt id c s o w). cbv zeta.
  destruct (env_reply s ≫= narrow_response rt_RefreshTokenRes) as [t|e]; [|by destruct e].
  change (mk_credentials _ _ _ _) with (rotated (w_time (env_act s w)) c t).
  set (new := rotated _ c t). set (w1 := set_store (replace_credentials new) (env_act s w)).
  split_and!.
  - unfold credentials. cbn. by rewrite dict_get_set_eq.
  - intros i. unfold is_authorized. cbn. rewrite dict_get_set. case_decide as Hi; [|done]. subst i.
    by destruct (dict_get _ (accounts _)).
  - destruct (save_new new o w1) as [so ss sa sr] eqn:Es. cbn [out].
    destruct so; unfold continue at 1; cbn [out state acts rest]; by rewrite (bind_eq _ _ _ _ _ Es).
Qed.

(** The mark is gone once the refresh has ended. *)
Lemma end_refresh_settles id s : store_wf s -> is_refreshing id (end_refresh id s) = false.
Proof.
  intros Hs. unfold end_refresh, is_refreshing, dict_has. destruct (dict_get id (refreshing s)) as [e|] eqn:E.
  - cbn. by rewrite dict_get_pop_eq by apply Hs.
  - by rewrite E.
Qed.

Definition token_store_lawful : Prop := match token_store with Some storage => LawfulTokenStore storage | None => True end.

(** Every interleaving of the retries with the other tasks keeps what a store keeps. *)
Lemma retrying_always (I : SessionStore -> Prop) (P : action -> Prop) attempts n (body : async ()) :
  (forall d, P (ASleep d)) -> always (fun w => I (w_store w)) P body ->
  always (fun w => I (w_store w)) P (retrying policy attempts n body).
Proof.
  intros HP Hb. revert n. induction attempts as [|k IH]; intros n; cbn; [auto with always|].
  apply always_try_except; [done|]. intros e m Hm. destruct e; try done. injection Hm as <-.
  destruct (stop_after_attempt _ _); [auto with always|]. apply always_bind; [|auto]. by apply always_sleep.
Qed.

Lemma attempt_always `{!LawfulAuthenticator Auth} id c :
  token_store_lawful -> always (fun w => store_wf (w_store w)) sound (refresh_attempt token_store id c).
Proof.
  unfold token_store_lawful. intros Hts. unfold refresh_attempt. apply always_bind.
  { apply always_try_except; [by apply always_request|]. intros e k. apply except_APIError_always. auto with always. }
  intros t. apply always_bind; [auto with always|]. intros time. apply always_bind.
  { apply always_modify, keeps_store. intros s. apply (run_op_wf (OpReplaceCredentials _)). }
  intros _. apply always_bind.
  { destruct token_store; [apply save_always|auto with always]. }
  intros _. apply establish_always. intros s. apply (run_op_wf (OpAuthorize _)).
Qed.

(** C20. The mark of a refresh is always taken down. For an account that is held, however
    the refresh ends, by success, failure or cancellation, and whatever the other tasks
    did to the store meanwhile, nobody is left waiting for it; and only a
    [TokenRefreshError] with its cause, or what is no [Exception], comes out. *)
Theorem refresh_settles `{!LawfulAuthenticator Auth} (Hts : token_store_lawful) (id : Z) (c : AccountCredentials) o w
    (Hheld : credentials id (w_store w) = Some c) (Hwf : store_wf (w_store w))
    (Henv : Forall (fun s => keeps (fun w => store_wf (w_store w)) (env_act s)) o) :
  let r := refresh_account policy token_store id o w in
  store_wf (w_store (state r)) /\
  (out r ≠ Suspended -> is_refreshing id (w_store (state r)) = false) /\
  (forall e, out r = Raised e -> is_Exception e = false \/ exists x, e = TokenRefreshError (Some id) (Some x)).
Proof.
  cbv zeta. split_and!; [| |intros e; apply refresh_account_raises].
  all: rewrite (run_refresh_account policy token_store id c) by done; cbv zeta.
  all: destruct (retrying_always store_wf sound (attempt_budget policy) 1 (refresh_attempt token_store id c)
         (fun _ => I) (attempt_always id c Hts) o (set_store (begin_refresh id) w) Henv (begin_refresh_wf id _ Hwf))
         as (H1 & _ & _).
  all: destruct (retrying _ _ _ _ o _) as [[u|e|] s a l]; cbn in *; try done.
  all: auto using end_refresh_wf, end_refresh_settles.
Qed.

(** The monitor survives: whatever happens to one account's refresh, it is published
    as that account's failure and the pass goes on to the next account; only the
    cancellation ends it. *)
Theorem refresh_survives (held : list (Z * AccountCredentials)) o w :
  (forall e, out (for_each held (refresh_one policy token_store) o w) = Raised e -> is_Exception e = false) /\
  (forall id c x, expires_soon (w_time w) c (buffer_seconds policy) = true ->
     let r := refresh_account policy token_store id o w in
     out r = Raised x -> is_Exception x = true ->
     acts (refresh_one policy token_store (id, c) o w) = acts r ++ [AEmit (TokenRefreshFailedEvent id x)]).
Proof.
  assert (Hone : forall item o w e, out (refresh_one policy token_store item o w) = Raised e -> is_Exception e = false).
  { intros [id c] o' w' e. unfold refresh_one. rewrite bind_gets. destruct (expires_soon _ _ _); [|done].
    unfold try_except. destruct (out (refresh_account policy token_store id o' w')) as [u|x|] eqn:E; rewrite ?E; [done| |done].
    apply refresh_account_raises in E as Hx. destruct Hx as [Hx|[y ->]].
    - destruct x; try done. rewrite E. by intros [= <-].
    - intros He. exact (emit_raises _ _ _ _ He). }
  split.
  - revert o w. induction held as [|item held IH]; intros o w e; [done|]. cbn [for_each].
    destruct (refresh_one policy token_store item o w) as [ro rs ra rr] eqn:E. rewrite (bind_eq _ _ _ _ _ E).
    destruct ro as [u|x|]; [apply IH| |done]. cbn. intros [= <-]. apply (Hone item o w). by rewrite E.
  - intros id c x Hsoon. cbv zeta. intros Hx Hex. unfold refresh_one. rewrite bind_gets, Hsoon. unfold try_except.
    rewrite Hx. apply refresh_account_raises in Hx as Hx'. destruct Hx' as [Hx'|[y ->]]; [congruence|].
    unfold continue. cbn [acts]. by rewrite emit_acts.
Qed.

(** How many actions satisfy a predicate. *)
Definition count (P : action -> bool) (l : list action) : nat := length (filter (fun a => P a = true) l).

Lemma count_app P l l' : count P (l ++ l') = (count P l + count P l')%nat.
Proof. unfold count. by rewrite filter_app, length_app. Qed.

Lemma run_retrying n k (body : async ()) o w :
  retrying policy (S k) n body o w =
  let r := body o w in
  match out r with
  | Raised (APIError a) =>
      if stop_after_attempt (retry_attempts policy) n then mk_result (Raised (APIError a)) (state r) (acts r) (rest r)
      else continue r (_ ← sleep (wait_exponential (retry_min_wait policy) (retry_max_wait policy) n);
                       retrying policy k (n + 1) body)
  | _ => r
  end.
Proof.
  cbn [retrying]. unfold try_except. cbv zeta. destruct (body o w) as [ro rs ra rr]. cbn [out state acts rest].
  destruct ro as [u|e|]; [done| |done]. destruct e; try done.
  destruct (stop_after_attempt _ n); [|done]. unfold continue, raise. cbn. by rewrite app_nil_r.
Qed.

Lemma count_sleep P d (b : nat) (m : async ()) o w :
  P (ASleep d) = false -> (forall o w, (count P (acts (m o w)) <= b)%nat) ->
  (count P (acts ((_ ← sleep d; m) o w)) <= b)%nat.
Proof.
  intros Hd Hm. unfold mbind, proc_bind.
  assert (Hs : acts (sleep d o w) = [ASleep d]) by (by destruct o as [|[act r] o]).
  assert (Hc : count P [ASleep d] = 0%nat) by (unfold count; by rewrite filter_cons_False by congruence).
  destruct (out (sleep d o w)); [|cbn [ended acts]; rewrite Hs, Hc; lia..].
  unfold continue. cbn [acts]. rewrite count_app, Hs, Hc. apply Hm.
Qed.

(** The retries are bounded: one attempt at least and never more than the policy
    allows. More passes than that change nothing, so the loop always comes to its end;
    each attempt sends what it sends at most once; and only an [APIError] is retried. *)
Theorem retries_bounded `{!LawfulStops} (body : async ()) o w :
  (forall k, retrying policy (attempt_budget policy + k) 1 body o w = retrying policy (attempt_budget policy) 1 body o w) /\
  (forall P, (forall d, P (ASleep d) = false) -> (forall o w, (count P (acts (body o w)) <= 1)%nat) ->
     (count P (acts (retrying policy (attempt_budget policy) 1 body o w)) <= attempt_budget policy)%nat) /\
  ((forall a, out (body o w) ≠ Raised (APIError a)) -> retrying policy (attempt_budget policy) 1 body o w = body o w).
Proof.
  assert (Hb : exists b, attempt_budget policy = S b /\ (retry_attempts policy <= Z.of_nat (S b))).
  { unfold attempt_budget. exists (Z.to_nat (Z.max 1 (retry_attempts policy)) - 1)%nat. lia. }
  split_and!.
  - intros k. enough (Hfuel : forall b n o w, retry_attempts policy <= n + Z.of_nat b ->
      retrying policy (S b + k) n body o w = retrying policy (S b) n body o w).
    { destruct Hb as (b & -> & Hle). apply Hfuel. lia. }
    clear Hb o w. intros b. induction b as [|b IH]; intros n o w Hle; cbn [Nat.add];
      rewrite (run_retrying n _ body o w), (run_retrying n _ body o w); cbv zeta;
      destruct (out (body o w)) as [u|[]|]; try done; rewrite stop_after_attempt_spec.
    + by rewrite bool_decide_true by lia.
    + case_bool_decide; [done|]. unfold continue.
      assert (Heq : forall o w, (_ ← sleep (wait_exponential (retry_min_wait policy) (retry_max_wait policy) n);
          retrying policy (S b + k) (n + 1) body) o w = (_ ← sleep (wait_exponential (retry_min_wait policy) (retry_max_wait policy) n);
          retrying policy (S b) (n + 1) body) o w).
      { apply (proc_bind_proper _ _ (fun _ o w => IH (n + 1) o w ltac:(lia))). reflexivity. }
      by rewrite Heq.
  - intros P Hsleep Hone. enough (Hcount : forall b n o w, (count P (acts (retrying policy b n body o w)) <= b)%nat) by apply Hcount.
    clear Hb. intros b. induction b as [|b IH]; intros n o' w'; [done|]. rewrite run_retrying. cbv zeta.
    specialize (Hone o' w'). destruct (body o' w') as [ro rs ra rr]. cbn [out state acts rest] in *.
    destruct ro as [u|[]|]; cbn [acts]; try lia. destruct (stop_after_attempt _ n); cbn [acts]; [lia|].
    unfold continue. cbn [acts]. rewrite count_app.
    pose proof (count_sleep P (wait_exponential (retry_min_wait policy) (retry_max_wait policy) n) b
      (retrying policy b (n + 1) body) rr rs (Hsleep _) (IH _)). cbn [rest state]. lia.
  - intros Hno. destruct Hb as (b & -> & _). rewrite run_retrying. cbv zeta.
    destruct (out (body o w)) as [u|e|] eqn:E; [done| |done]. destruct e; try done. by destruct (Hno e).
Qed.

(** An attempt that fails for good is the refresh's verdict. *)
Lemma refresh_fails id c o w e st ac l :
  credentials id (w_store w) = Some c -> is_Exception e = true -> (forall a, e ≠ APIError a) ->
  refresh_attempt token_store id c o (set_store (begin_refresh id) w) = mk_result (Raised e) st ac l ->
  refresh_account policy token_store id o w =
  mk_result (Raised (TokenRefreshError (Some id) (Some e))) (set_store (end_refresh id) st) ac l.
Proof.
  intros Hc He Hno Hr. rewrite (run_refresh_account policy token_store id c) by done. cbv zeta.
  assert (Hb : attempt_budget policy = S (attempt_budget policy - 1)) by (unfold attempt_budget; lia).
  rewrite Hb, run_retrying, Hr. cbn [out]. destruct e; try done; by rewrite ?He; destruct (Hno e).
Qed.

Lemma accounts_begin_refresh id s : accounts (begin_refresh id s) = accounts s.
Proof. unfold begin_refresh. by destruct (dict_has id (refreshing s)). Qed.

Lemma accounts_end_refresh id s : accounts (end_refresh id s) = accounts s.
Proof. unfold end_refresh. by destruct (dict_get id (refreshing s)). Qed.

(** C24. A pair that could not be saved is not saved later. When the storage fails, the new
    pair is kept in memory and the failure reported; but the pair is fresh, so until it is
    itself about to expire every later pass skips the account: it is neither saved nor
    re-authorized again. *)
Theorem unsaved_not_retried (id : Z) (c : AccountCredentials) (t : rotated_tokens) (s : env_step World) o w (e : exn)
    (Hid : account_id c = id) (Hheld : credentials id (w_store w) = Some c) (Hwf : store_wf (w_store w))
    (Hquiet : is_quiet s) (Hanswer : env_reply s ≫= narrow_response rt_RefreshTokenRes = Ok t)
    (He : is_Exception e = true) (Hno : forall a, e ≠ APIError a)
    (Hsave : let new := rotated (w_time w) c t in
             let w1 := set_store (replace_credentials new) (set_store (begin_refresh id) w) in
             save_new new o w1 = mk_result (Raised e) w1 [ASave new] o) :
  let new := rotated (w_time w) c t in
  let r := refresh_account policy token_store id (s :: o) w in
  r = mk_result (Raised (TokenRefreshError (Some id) (Some e))) (state r)
        [ASend (MRefreshTokenReq (refresh_token c)) DEFAULT_TIMEOUT; ASave new] o /\
  credentials id (w_store (state r)) = Some new /\
  forall w2 o2 item, w_store w2 = w_store (state r) -> item ∈ items (w_store w2) -> item.1 = id ->
    w_time w2 < w_time w + rot_expires_in t * second - buffer_seconds policy ->
    refresh_one policy token_store item o2 w2 = mk_result (Done ()) w2 [] o2.
Proof.
  cbv zeta in *. set (new := rotated (w_time w) c t) in *.
  set (w1 := set_store (replace_credentials new) (set_store (begin_refresh id) w)) in *.
  assert (Hr : refresh_account policy token_store id (s :: o) w =
    mk_result (Raised (TokenRefreshError (Some id) (Some e))) (set_store (end_refresh id) w1)
      [ASend (MRefreshTokenReq (refresh_token c)) DEFAULT_TIMEOUT; ASave new] o).
  { apply (refresh_fails id c); [done..|]. rewrite run_attempt, Hanswer, Hquiet. cbv zeta.
    change (rotated (w_time (set_store (begin_refresh id) w)) c t) with new. fold w1.
    unfold continue at 1. cbn [out state acts rest]. by rewrite (bind_eq _ _ _ _ _ Hsave). }
  assert (Hcred : dict_get id (accounts (w_store (set_store (end_refresh id) w1))) =
    Some (mk_tracked new (match dict_get id (accounts (w_store w)) with Some t => session_of t | None => None end))).
  { unfold w1. cbn [w_store set_store]. rewrite accounts_end_refresh. unfold replace_credentials, with_accounts. cbn [accounts].
    rewrite accounts_begin_refresh. cbn [account_id new rotated with_refreshed_tokens]. rewrite Hid. by rewrite dict_get_set_eq. }
  rewrite Hr. cbn [state]. split_and!; [done|by unfold credentials; rewrite Hcred|].
  intros w2 o2 [i c2] Hw2 Hin Hi Htime. cbn in Hi. subst i. unfold refresh_one. rewrite bind_gets.
  assert (c2 = new) as ->.
  { rewrite Hw2 in Hin. unfold items in Hin. apply list_elem_of_fmap in Hin as ([k' t'] & [= -> ->] & Hin).
    apply dict_in_get in Hin; [rewrite Hcred in Hin; by injection Hin as <-|].
    unfold w1. cbn [w_store set_store]. rewrite accounts_end_refresh. unfold replace_credentials, with_accounts. cbn [accounts].
    rewrite accounts_begin_refresh. apply dict_wf_set, Hwf. }
  unfold expires_soon. cbn [expires_at new rotated with_refreshed_tokens]. by rewrite (proj2 (Z.leb_gt _ _)) by lia.
Qed.
End properties.

(** ** The theorems at concrete inputs *)

Import Tenacity.

(** [wait_exponential] as documented: powers of two between the bounds. *)
#[export] Instance exponential : WaitStrategies := {|
  wait_exponential lo hi n := Z.max (Z.max 0 lo) (Z.min (second * 2 ^ (n - 1)) hi);
|}.

(** A storage that is always out of order. *)
Definition broken_storage : TokenStore := {|
  save c := _ ← perform (ASave c); raise (OSError "disk full");
|}.

#[export] Instance broken_storage_lawful : LawfulTokenStore broken_storage.
Proof. split. intros I c. cbn. by solve_always. Qed.

Definition sample_manager : SessionAuthenticator := AuthManager "id" "secret" None.

#[export] Instance sample_manager_lawful : LawfulAuthenticator sample_manager := AuthManager_lawful "id" "secret" None I.

(** One account whose token expires soon, and the server's answer. *)
Definition expiring_world : World := set_store (authorize sample_credentials) idle_world.
Definition new_pair : rotated_tokens := mk_rotated "token2" "refresh2" 86400.
Definition refresh_answer : env_step World := quiet (Ok (MRefreshTokenRes "token2" "refresh2" 86400)).

Lemma expiring_world_wf : store_wf (w_store expiring_world).
Proof. apply (run_op_wf (OpAuthorize _)), empty_store_wf. Qed.

Lemma refresh_settles_witness :
  let r := refresh_account (Auth := sample_manager) default_refresh_policy (Some broken_storage) 7 [refresh_answer] expiring_world in
  out r ≠ Suspended /\ is_refreshing 7 (w_store (state r)) = false.
Proof.
  split; [vm_compute; discriminate|].
  apply (refresh_settles (Auth := sample_manager) default_refresh_policy (Some broken_storage) broken_storage_lawful 7
    sample_credentials [refresh_answer] expiring_world eq_refl expiring_world_wf); [apply Forall_cons; split; [intros w Hw; exact Hw|apply Forall_nil; exact I]|].
  vm_compute. discriminate.
Defined.

Lemma unsaved_not_retried_witness :
  let r := refresh_account (Auth := sample_manager) default_refresh_policy (Some broken_storage) 7 [refresh_answer] expiring_world in
  out r = Raised (TokenRefreshError (Some 7) (Some (OSError "disk full"))) /\
  credentials 7 (w_store (state r)) = Some (mk_credentials 7 "token2" "refresh2" (86400 * second)).
Proof.
  split; [vm_compute; reflexivity|].
  apply (unsaved_not_retried (Auth := sample_manager) default_refresh_policy (Some broken_storage) 7
    sample_credentials new_pair refresh_answer [] expiring_world (OSError "disk full"));
    [reflexivity|reflexivity|apply expiring_world_wf|intros w; reflexivity|reflexivity|reflexivity|
     intros a; discriminate|reflexivity].
Defined.

Lemma retries_bounded_witness :
  retrying (Waits := exponential) default_refresh_policy 3 1 (raise (APIError (api_error_of "X" None)))
    [quiet (Ok MHeartbeatEvent); quiet (Ok MHeartbeatEvent)] idle_world =
  mk_result (Raised (APIError (api_error_of "X" None))) idle_world [ASleep second; ASleep (2 * second)] [] /\
  retrying (Waits := exponential) default_refresh_policy (3 + 5) 1 (raise (APIError (api_error_of "X" None)))
    [quiet (Ok MHeartbeatEvent); quiet (Ok MHeartbeatEvent)] idle_world =
  retrying (Waits := exponential) default_refresh_policy 3 1 (raise (APIError (api_error_of "X" None)))
    [quiet (Ok MHeartbeatEvent); quiet (Ok MHeartbeatEvent)] idle_world.
Proof.
  split; [vm_compute; reflexivity|].
  apply (proj1 (retries_bounded (Waits := exponential) default_refresh_policy (raise (APIError (api_error_of "X" None)))
    [quiet (Ok MHeartbeatEvent); quiet (Ok MHeartbeatEvent)] idle_world) 5%nat).
Defined.
