(* ===== verification/Api.v ===== *)
(** * The namespaces of the client ([api/trading.py], [api/accounts.py], [api/symbols.py])

    Each call is one request under the caller's timeout or the namespace's default, and a
    conversion of its answer. None of them keeps any state. *)

From S2P Require Import Prelude Errors Enums Numbers Wire Effects.
From S2P Require Import Protocol Models Requests Session Events Router World MarketData Auth.
From stdpp Require Import options.
Open Scope string_scope.
Open Scope list_scope.
Open Scope Z_scope.

(** ** Answers *)

Definition rt_GetPositionUnrealizedPnLRes : response_type (list ProtoOAPositionUnrealizedPnL * Z) :=
  mk_response_type Cls.ProtoOAGetPositionUnrealizedPnLRes
    (fun m => match m with MGetPositionUnrealizedPnLRes l d => Some (l, d) | _ => None end).
Definition rt_ReconcileRes : response_type (list ProtoOAPosition) :=
  mk_response_type Cls.ProtoOAReconcileRes (fun m => match m with MReconcileRes l => Some l | _ => None end).
Definition rt_OrderListRes : response_type (list ProtoOAOrder) :=
  mk_response_type Cls.ProtoOAOrderListRes (fun m => match m with MOrderListRes l => Some l | _ => None end).
Definition rt_DealListRes : response_type (list ProtoOADeal) :=
  mk_response_type Cls.ProtoOADealListRes (fun m => match m with MDealListRes l => Some l | _ => None end).
Definition rt_DealListByPositionIdRes : response_type (list ProtoOADeal) :=
  mk_response_type Cls.ProtoOADealListByPositionIdRes
    (fun m => match m with MDealListByPositionIdRes l => Some l | _ => None end).
Definition rt_GetAccountListByAccessTokenRes : response_type (list ProtoOACtidTraderAccount) :=
  mk_response_type Cls.ProtoOAGetAccountListByAccessTokenRes
    (fun m => match m with MGetAccountListByAccessTokenRes l => Some l | _ => None end).
Definition rt_SymbolsListRes : response_type (list ProtoOALightSymbol) :=
  mk_response_type Cls.ProtoOASymbolsListRes (fun m => match m with MSymbolsListRes l => Some l | _ => None end).
Definition rt_SymbolByIdRes : response_type (list ProtoOASymbol) :=
  mk_response_type Cls.ProtoOASymbolByIdRes (fun m => match m with MSymbolByIdRes l => Some l | _ => None end).

(** [protocol.send_request(m, timeout=t)]: any class of answer. *)
Definition send_request (m : message) (t : seconds) : async message :=
  _ ← perform (ASend m t);
  await.

(** [datetime.now(UTC)], by the system clock. *)
Definition now_utc (w : World) : datetime := mk_datetime (w_time w).

Section TradingAPI.
(* the default timeout, and how [betterproto] renders the value of an execution type *)
Context (default_timeout : seconds) (show_execution_type : Z -> string).

(** [_raise_if_order_error] *)
Definition raise_if_order_error (response : message) : res () :=
  match response with
  | MOrderErrorEvent r =>
      Err (APIError (mk_api_error (default "ORDER_ERROR" (str_or_None (oe_error_code r)))
        (str_or_None (oe_description r)) (int_or_None (oe_ctid_trader_account_id r)) None None))
  | _ => Ok ()
  end.

(** [_proto_to_execution_event] *)
Definition proto_to_execution_event (now : datetime) (p : ProtoOAExecutionEvent) : res event :=
  event ← execution_event_from_proto now p;
  match event with
  | Some e => Ok e
  | None => Err (APIError (api_error_of "UNKNOWN_EXECUTION_TYPE"
              (Some ("Unknown execution type: " +:+ show_execution_type (ex_execution_type p)))))
  end.

(** [_execute_trade] *)
Definition execute_trade (request : message) (timeout : option seconds) : async event :=
  response ← send_request request (timeout_or_default default_timeout timeout);
  _ ← lift_res (raise_if_order_error response);
  match response with
  | MExecutionEvent p =>
      now ← gets now_utc;
      lift_res (proto_to_execution_event now p)
  | _ =>
      raise (APIError (api_error_of "UNEXPECTED_RESPONSE"
        (Some ("Expected ProtoOAExecutionEvent, got " +:+ Cls.class_name (class_of response)))))
  end.

Definition get_unrealized_pnl_per_position (account_id : Z) : async (list PositionUnrealizedPnL) :=
  response ← request rt_GetPositionUnrealizedPnLRes (MGetPositionUnrealizedPnLReq account_id)
               (timeout_or_default default_timeout None);
  let divisor := money_divisor response.2 in
  mret ((fun p => {|
    upnl_position_id := pnl_position_id p;
    gross_unrealized_pnl := scaled (pnl_gross_unrealized_pn_l p) divisor;
    net_unrealized_pnl := scaled (pnl_net_unrealized_pn_l p) divisor |}) <$> response.1).

(** A request object that may fail to convert, then the trade. *)
Definition place_order (account_id : Z) (r : NewOrderRequest) (timeout : option seconds) : async event :=
  m ← lift_res (NewOrderRequest_to_proto r account_id);
  execute_trade (MNewOrderReq m) timeout.

Definition amend_order (account_id : Z) (r : AmendOrderRequest) (timeout : option seconds) : async event :=
  m ← lift_res (AmendOrderRequest_to_proto r account_id);
  execute_trade (MAmendOrderReq m) timeout.

Definition cancel_order (account_id order_id : Z) (timeout : option seconds) : async event :=
  execute_trade (MCancelOrderReq account_id order_id) timeout.

Definition close_position (account_id : Z) (r : ClosePositionRequest) (timeout : option seconds) : async event :=
  execute_trade (ClosePositionRequest_to_proto r account_id) timeout.

Definition amend_position (account_id : Z) (r : AmendPositionRequest) (timeout : option seconds) : async event :=
  m ← lift_res (AmendPositionRequest_to_proto r account_id);
  execute_trade (MAmendPositionSLTPReq m) timeout.

Definition get_open_positions (account_id : Z) (timeout : option seconds) : async (list Position) :=
  position ← request rt_ReconcileRes (MReconcileReq account_id) (timeout_or_default default_timeout timeout);
  now ← gets now_utc;
  lift_res (res_map (Position_from_proto now) position).

Definition get_orders (account_id : Z) (timeout : option seconds)
    (from_timestamp to_timestamp : option datetime) : async (list Order) :=
  order ← request rt_OrderListRes
    (MOrderListReq account_id (datetime_to_ms <$> from_timestamp) (datetime_to_ms <$> to_timestamp))
    (timeout_or_default default_timeout timeout);
  now ← gets now_utc;
  lift_res (res_map (Order_from_proto now) order).

Definition get_pending_orders (account_id : Z) (timeout : option seconds) : async (list Order) :=
  order ← request rt_OrderListRes (MOrderListReq account_id (Some 0) (Some 0))
    (timeout_or_default default_timeout timeout);
  now ← gets now_utc;
  orders ← lift_res (res_map (Order_from_proto now) order);
  mret (filter (fun o => is_pending o = true) orders).

Definition get_deals_by_position_id (account_id position_id : Z) : async (list Deal) :=
  deal ← request rt_DealListByPositionIdRes (MDealListByPositionIdReq account_id position_id)
    (timeout_or_default default_timeout None);
  lift_res (res_map Deal_from_proto deal).

Definition get_deals (account_id : Z) (from_timestamp to_timestamp : datetime) (timeout : option seconds)
    : async (list Deal) :=
  deal ← request rt_DealListRes
    (MDealListReq account_id (datetime_to_ms from_timestamp) (datetime_to_ms to_timestamp))
    (timeout_or_default default_timeout timeout);
  lift_res (res_map Deal_from_proto deal).
End TradingAPI.

Section AccountsAPI.
Context (default_timeout : seconds).

Definition get_trader (account_id : Z) (timeout : option seconds) : async Account :=
  trader ← request rt_TraderRes (MTraderReq account_id) (timeout_or_default default_timeout timeout);
  lift_res (Account_from_proto (default default_trader trader)).

Definition list_by_token (access_token : string) (timeout : option seconds) : async (list AccountSummary) :=
  accounts ← try_except
    (request rt_GetAccountListByAccessTokenRes (MGetAccountListByAccessTokenReq access_token)
      (timeout_or_default default_timeout timeout))
    (except_APIError (fun a => raise (if is_token_failure a then TokenExpiredError None else APIError a)));
  lift_res (res_map AccountSummary_from_proto accounts).

(** The loop of [resolve_account_id]. *)
Fixpoint find_login (trader_login : Z) (l : list AccountSummary) : option Z :=
  match l with
  | [] => None
  | a :: l' => if as_trader_login a =? trader_login then Some (as_account_id a) else find_login trader_login l'
  end.

Definition resolve_account_id (access_token : string) (trader_login : Z) (timeout : option seconds) : async Z :=
  accounts ← list_by_token access_token timeout;
  match find_login trader_login accounts with
  | Some id => mret id
  | None => raise (AccountNotFoundError trader_login (Some (as_trader_login <$> accounts)))
  end.
End AccountsAPI.

Section SymbolsAPI.
Context (default_timeout : seconds).

Definition list_all (account_id : Z) (timeout : option seconds) : async (list SymbolInfo) :=
  symbol ← request rt_SymbolsListRes (MSymbolsListReq account_id) (timeout_or_default default_timeout timeout);
  mret (SymbolInfo_from_proto <$> symbol).

Definition get_by_ids (account_id : Z) (symbol_ids : list Z) (timeout : option seconds) : async (list Symbol) :=
  symbol ← request rt_SymbolByIdRes (MSymbolByIdReq account_id symbol_ids)
    (timeout_or_default default_timeout timeout);
  mret (Symbol_from_proto <$> symbol).

Definition get_by_id (account_id symbol_id : Z) (timeout : option seconds) : async Symbol :=
  symbols ← get_by_ids account_id [symbol_id] timeout;
  match symbols with
  | [] => raise (ValueError ("Symbol " +:+ str_int symbol_id +:+ " not found"))
  | s :: _ => mret s
  end.

Definition matches_query (query_upper : string) (s : SymbolInfo) : bool := str_in query_upper (str_upper (si_name s)).

Definition search (account_id : Z) (query : string) (timeout : option seconds) : async (list SymbolInfo) :=
  all_symbols ← list_all account_id timeout;
  let query_upper := str_upper query in
  mret (filter (fun s => matches_query query_upper s = true) all_symbols).
End SymbolsAPI.

(** ** Properties *)

(** A trade, on every branch: one request goes out; a reply that is an order error is
    raised with its own code, never taken for an execution; a reply of any other class, and
    an execution that does not convert, are errors too; what is returned is the execution. *)
Theorem trade_outcomes (dt : seconds) (show : Z -> string) (m : message) (timeout : option seconds)
    (s : env_step World) (o : list (env_step World)) (w : World) :
  execute_trade dt show m timeout (s :: o) w =
  mk_result
    (match env_reply s with
     | Err e => Raised e
     | Ok (MOrderErrorEvent r) =>
         Raised (APIError (mk_api_error (default "ORDER_ERROR" (str_or_None (oe_error_code r)))
           (str_or_None (oe_description r)) (int_or_None (oe_ctid_trader_account_id r)) None None))
     | Ok (MExecutionEvent p) =>
         match execution_event_from_proto (now_utc (env_act s w)) p with
         | Ok (Some e) => Done e
         | Err e => Raised e
         | Ok None => Raised (APIError (api_error_of "UNKNOWN_EXECUTION_TYPE"
                     (Some ("Unknown execution type: " +:+ show (ex_execution_type p)))))
         end
     | Ok x => Raised (APIError (api_error_of "UNEXPECTED_RESPONSE"
                 (Some ("Expected ProtoOAExecutionEvent, got " +:+ Cls.class_name (class_of x)))))
     end) (env_act s w) [ASend m (timeout_or_default dt timeout)] o.
Proof.
  unfold execute_trade, send_request. destruct s as [act r]. cbn [env_reply env_act].
  assert (E : (_ ← perform (ASend m (timeout_or_default dt timeout)); await) (mk_env_step act r :: o) w =
    mk_result (match r with Ok x => Done x | Err e => Raised e end) (act w) [ASend m (timeout_or_default dt timeout)] o).
  { rewrite bind_perform. unfold await. by destruct r. }
  rewrite (bind_eq _ _ _ _ _ E). destruct r as [x|e]; cbn [out]; [|done]. unfold continue. cbn [out state acts rest].
  destruct x; try done. cbn [raise_if_order_error lift_res]. rewrite (bind_ret_l _ _ o (act w)), bind_gets.
  unfold proto_to_execution_event. by destruct (execution_event_from_proto _ _) as [[]|].
Qed.

(** Searching is exact and ignores case: of everything listed, in order, the symbols
    whose name contains the query somewhere, both in capitals; writing the query in
    capitals changes nothing. *)
Theorem search_exact (dt : seconds) (id : Z) (query : string) (timeout : option seconds)
    (s : env_step World) (o : list (env_step World)) (w : World) (listed : list ProtoOALightSymbol)
    (Hanswer : env_reply s ≫= narrow_response rt_SymbolsListRes = Ok listed) :
  exists found,
    search dt id query timeout (s :: o) w =
      mk_result (Done found) (env_act s w) [ASend (MSymbolsListReq id) (timeout_or_default dt timeout)] o /\
    sublist found (SymbolInfo_from_proto <$> listed) /\
    (forall x, x ∈ found <-> x ∈ SymbolInfo_from_proto <$> listed /\
       exists pre post, str_upper (si_name x) = pre +:+ str_upper query +:+ post) /\
    search dt id (str_upper query) timeout (s :: o) w = search dt id query timeout (s :: o) w.
Proof.
  pose proof (run_request_step rt_SymbolsListRes (MSymbolsListReq id) (timeout_or_default dt timeout) s o w) as E.
  rewrite Hanswer in E.
  assert (Hrun : forall q, search dt id q timeout (s :: o) w =
    mk_result (Done (filter (fun x => matches_query (str_upper q) x = true) (SymbolInfo_from_proto <$> listed)))
      (env_act s w) [ASend (MSymbolsListReq id) (timeout_or_default dt timeout)] o).
  { intros q. unfold search, list_all. rewrite (bind_eq _ _ _ _ _ (bind_eq _ _ _ _ _ E)). done. }
  eexists. split_and!; [apply Hrun|apply sublist_filter| |by rewrite !Hrun, str_upper_idemp].
  intros x. rewrite list_elem_of_filter. unfold matches_query. rewrite str_in_spec. tauto.
Qed.

Lemma search_exact_witness :
  let eur := Build_ProtoOALightSymbol 1 "EURUSD" true 1 2 0 "" in
  let gbp := Build_ProtoOALightSymbol 2 "GBPUSD" true 3 2 0 "" in
  exists found, out (search 30 7 "eur" None [quiet (Ok (MSymbolsListRes [eur; gbp]))] idle_world) = Done found /\
    si_name <$> found = ["EURUSD"].
Proof.
  destruct (search_exact 30 7 "eur" None
    (quiet (Ok (MSymbolsListRes [Build_ProtoOALightSymbol 1 "EURUSD" true 1 2 0 ""; Build_ProtoOALightSymbol 2 "GBPUSD" true 3 2 0 ""])))
    [] idle_world _ eq_refl) as (found & H1 & _).
  exists found. rewrite H1. split; [reflexivity|]. vm_compute in H1. injection H1 as <-. reflexivity.
Defined.

(** What a list of summaries that converted keeps of the accounts. *)
Lemma summary_fields p a :
  AccountSummary_from_proto p = Ok a ->
  as_trader_login a = ca_trader_login p /\ as_account_id a = ca_ctid_trader_account_id p.
Proof.
  unfold AccountSummary_from_proto. destruct (datetime_or_None (ca_last_closing_deal_timestamp p)); simpl; [|done].
  destruct (datetime_or_None (ca_last_balance_update_timestamp p)); simpl; [|done]. by intros [= <-].
Qed.

Lemma find_login_spec (login : Z) (l : list ProtoOACtidTraderAccount) (accounts : list AccountSummary) :
  res_map AccountSummary_from_proto l = Ok accounts ->
  as_trader_login <$> accounts = ca_trader_login <$> l /\
  match find_login login accounts with
  | Some id => exists before a after, l = before ++ a :: after /\ ca_trader_login a = login /\
       login ∉ (ca_trader_login <$> before) /\ id = ca_ctid_trader_account_id a
  | None => login ∉ (ca_trader_login <$> l)
  end.
Proof.
  intros H%res_map_Ok. induction H as [|p a l accounts [Hl Hid]%summary_fields _ [IHl IH]].
  { split; [done|apply not_elem_of_nil]. }
  csimpl. rewrite Hl, IHl, Hid. split; [done|]. destruct (Z.eqb_spec (ca_trader_login p) login) as [Ha|Ha].
  - exists [], p, l. split_and!; [done|done|apply not_elem_of_nil|done].
  - destruct (find_login login accounts) as [id|].
    + destruct IH as (before & b & after & -> & Hb & Hn & ->). exists (p :: before), b, after.
      split_and!; [done|done| |done]. csimpl. apply not_elem_of_cons. split; [congruence|done].
    + apply not_elem_of_cons. split; [congruence|done].
Qed.

(** Resolving a login gives the first account with it, or names every login that was
    there; a token the server rejects is reported as expired; and one account of the list
    with an impossible time fails the whole call. *)
Theorem login_resolved (dt : seconds) (token : string) (login : Z) (timeout : option seconds)
    (s : env_step World) (o : list (env_step World)) (w : World) :
  let r := resolve_account_id dt token login timeout (s :: o) w in
  acts r = [ASend (MGetAccountListByAccessTokenReq token) (timeout_or_default dt timeout)] /\
  match env_reply s ≫= narrow_response rt_GetAccountListByAccessTokenRes with
  | Ok l =>
      (exists before a after, l = before ++ a :: after /\ ca_trader_login a = login /\
         login ∉ (ca_trader_login <$> before) /\ out r = Done (ca_ctid_trader_account_id a)) \/
      (login ∉ (ca_trader_login <$> l) /\ out r = Raised (AccountNotFoundError login (Some (ca_trader_login <$> l)))) \/
      (exists a x, a ∈ l /\ AccountSummary_from_proto a = Err x /\ out r = Raised x)
  | Err (APIError a) => out r = Raised (if is_token_failure a then TokenExpiredError None else APIError a)
  | Err e => out r = Raised e
  end.
Proof.
  cbv zeta. unfold resolve_account_id, list_by_token.
  pose proof (run_request_step rt_GetAccountListByAccessTokenRes (MGetAccountListByAccessTokenReq token)
    (timeout_or_default dt timeout) s o w) as E.
  rewrite (bind_eq _ _ _ _ _ (bind_eq _ _ _ _ _ (try_except_eq _ _ _ _ _ E))). cbn [out].
  destruct (env_reply s ≫= narrow_response rt_GetAccountListByAccessTokenRes) as [l|e].
  2: by destruct e.
  destruct (res_map AccountSummary_from_proto l) as [accounts|x] eqn:Em; unfold continue, mret, proc_ret;
    cbn [out state acts rest lift_res]; rewrite Em.
  2: { apply res_map_Err in Em as (a & Ha & Hx). cbn. split; [done|]. right; right. eauto. }
  destruct (find_login_spec login l accounts Em) as [Hlog Hfind]. cbn.
  destruct (find_login login accounts) as [id|]; (split; [done|]).
  - destruct Hfind as (before & a & after & -> & Ha & Hn & ->). left. by exists before, a, after.
  - right; left. split; [done|]. cbn. by rewrite Hlog.
Qed.
