(* ===== verification/Trading.v ===== *)
(** * A trade, from the request object to the wire and back ([api/trading.py], [models/requests.py])

    The five operations that trade differ in the message they build; here is what becomes
    of that message: what goes out, what the server reads, and what the caller gets for each
    reply. *)

From S2P Require Import Prelude Errors Enums Numbers Wire Effects Framing Messages Models Requests.
From S2P Require Import Protocol Session Events Router World MarketData Auth Api.
From stdpp Require Import options.
From Stdlib Require Import Strings.Byte.
Open Scope string_scope.
Open Scope list_scope.
Open Scope Z_scope.

(** The operations of [TradingAPI] that trade. *)
Inductive trade :=
  | PlaceOrder (r : NewOrderRequest)
  | AmendOrder (r : AmendOrderRequest)
  | CancelOrder (order_id : Z)
  | ClosePosition (r : ClosePositionRequest)
  | AmendPosition (r : AmendPositionRequest).

Definition run_trade (dt : seconds) (show : Z -> string) (account_id : Z) (t : trade) (timeout : option seconds)
    : async event :=
  match t with
  | PlaceOrder r => place_order dt show account_id r timeout
  | AmendOrder r => amend_order dt show account_id r timeout
  | CancelOrder order_id => cancel_order dt show account_id order_id timeout
  | ClosePosition r => close_position dt show account_id r timeout
  | AmendPosition r => amend_position dt show account_id r timeout
  end.

(** The message of a trade. *)
Definition trade_message (account_id : Z) (t : trade) : res message :=
  match t with
  | PlaceOrder r => m ← NewOrderRequest_to_proto r account_id; Ok (MNewOrderReq m)
  | AmendOrder r => m ← AmendOrderRequest_to_proto r account_id; Ok (MAmendOrderReq m)
  | CancelOrder order_id => Ok (MCancelOrderReq account_id order_id)
  | ClosePosition r => Ok (ClosePositionRequest_to_proto r account_id)
  | AmendPosition r => m ← AmendPositionRequest_to_proto r account_id; Ok (MAmendPositionSLTPReq m)
  end.

(** What the caller of a trade gets for a reply: the execution, or an error that names what
    came instead. *)
Definition trade_outcome (show : Z -> string) (now : datetime) (reply : res message) : outcome event :=
  match reply with
  | Err e => Raised e
  | Ok (MOrderErrorEvent r) =>
      Raised (APIError (mk_api_error (default "ORDER_ERROR" (str_or_None (oe_error_code r)))
        (str_or_None (oe_description r)) (int_or_None (oe_ctid_trader_account_id r)) None None))
  | Ok (MExecutionEvent p) =>
      match execution_event_from_proto now p with
      | Ok (Some e) => Done e
      | Err e => Raised e
      | Ok None => Raised (APIError (api_error_of "UNKNOWN_EXECUTION_TYPE"
                  (Some ("Unknown execution type: " +:+ show (ex_execution_type p)))))
      end
  | Ok x => Raised (APIError (api_error_of "UNEXPECTED_RESPONSE"
              (Some ("Expected ProtoOAExecutionEvent, got " +:+ Cls.class_name (class_of x)))))
  end.

(** ** Lemmas *)

Lemma run_execute_trade dt show m timeout s o w :
  execute_trade dt show m timeout (s :: o) w =
  mk_result (trade_outcome show (now_utc (env_act s w)) (env_reply s)) (env_act s w)
    [ASend m (timeout_or_default dt timeout)] o.
Proof. rewrite trade_outcomes. unfold trade_outcome. by destruct (env_reply s) as [[]|]. Qed.

(** A conversion, then the trade. *)
Lemma run_converted {A} (c : res A) (f : A -> message) dt show timeout s o w :
  (m ← lift_res c; execute_trade dt show (f m) timeout) (s :: o) w =
  match (m ← c; Ok (f m) : res message) with
  | Ok m => execute_trade dt show m timeout (s :: o) w
  | Err e => mk_result (Raised e) w [] (s :: o)
  end.
Proof. destruct c as [m|e]; [|done]. exact (bind_ret_l m (fun m => execute_trade dt show (f m) timeout) (s :: o) w). Qed.

Lemma run_trade_message dt show account_id t timeout s o w :
  run_trade dt show account_id t timeout (s :: o) w =
  match trade_message account_id t with
  | Ok m => execute_trade dt show m timeout (s :: o) w
  | Err e => mk_result (Raised e) w [] (s :: o)
  end.
Proof. destruct t; try done; apply run_converted. Qed.

(** The distances of a trade are finite numbers, as the models make sure. *)
Definition finite_distances (t : trade) : Prop :=
  match t with
  | PlaceOrder r => finite_distance (n_relative_stop_loss r) /\ finite_distance (n_relative_take_profit r)
  | AmendOrder r => finite_distance (m_relative_stop_loss r) /\ finite_distance (m_relative_take_profit r)
  | _ => True
  end.

(** What the message of a trade has to say. *)
Definition trade_says (account_id : Z) (t : trade) (m : message) : Prop :=
  match t, m with
  | PlaceOrder r, MNewOrderReq p => order_says r account_id p
  | AmendOrder r, MAmendOrderReq p => amendment_says r account_id p
  | CancelOrder order_id, MCancelOrderReq a o => a = account_id /\ o = order_id
  | ClosePosition r, MClosePositionReq a position volume =>
      a = account_id /\ position = x_position_id r /\ volume = x_volume r
  | AmendPosition q, MAmendPositionSLTPReq p => protection_says q account_id p
  | _, _ => False
  end.

Lemma trade_message_says (account_id : Z) (t : trade) :
  finite_distances t -> exists m, trade_message account_id t = Ok m /\ trade_says account_id t m.
Proof.
  destruct t as [r|r|order_id|r|q]; cbn [finite_distances trade_message].
  - intros [Hsl Htp]. destruct (new_order_to_proto r account_id Hsl Htp) as (m & -> & Hm). by eexists.
  - intros [Hsl Htp]. destruct (amend_order_to_proto r account_id Hsl Htp) as (m & -> & Hm). by eexists.
  - by eexists.
  - by eexists.
  - intros _. destruct (amend_position_to_proto q account_id) as (m & -> & Hm). by eexists.
Qed.

(** ** Properties *)

(** C15. A trade from end to end, for each of the five operations. A request whose distances are
    finite, the only ones its model holds, converts, and its message says field by field what it said: the
    account, the ids, side, type, time in force and trigger, volume, flags and texts; each
    price as the nearest double; a distance as its hundred-thousandths; what was left out as
    nothing. An expiration is sent as the code computes it, [int(timestamp() * 1000)], which
    may be a millisecond short. One message goes out, under the caller's timeout or the
    default. If it is one the codec can encode, in a frame within the size limit, a server that reads the stream it is
    written to, in any pieces, gets that very message under the request's id. The caller
    gets the execution the reply is, or for any other reply an error that says what came.
    If the request does not convert, the caller gets that error and nothing is sent. *)
Theorem trades_exact `{!Codec, !LawfulCodec} {S} `{!ByteReceiveStream S, !LawfulStream S}
    (dt : seconds) (show : Z -> string) (account_id : Z) (t : trade) (timeout : option seconds)
    (s : env_step World) (o : list (env_step World)) (w : World) :
  match trade_message account_id t with
  | Err e => run_trade dt show account_id t timeout (s :: o) w = mk_result (Raised e) w [] (s :: o)
  | Ok m =>
      run_trade dt show account_id t timeout (s :: o) w =
        mk_result (trade_outcome show (now_utc (env_act s w)) (env_reply s)) (env_act s w)
          [ASend m (timeout_or_default dt timeout)] o /\
      (forall id frame tail (stream : S),
         encodable m -> encode_message m (Some id) = Ok frame -> len frame <= MAX_MESSAGE_SIZE ->
         contents stream = frame ++ tail ->
         exists pm stream', receive_message stream = (Ok (pm, m), stream') /\ client_msg_id pm = id /\
           contents stream' = tail)
  end /\
  (finite_distances t -> exists m, trade_message account_id t = Ok m /\ trade_says account_id t m).
Proof.
  split; [|apply trade_message_says].
  rewrite run_trade_message. destruct (trade_message account_id t) as [m|e]; [|done].
  split; [apply run_execute_trade|]. intros id frame tail stream Hm Hframe Hsize Hstream.
  by destruct (encode_receive m (Some id) frame tail stream Hm Hframe Hsize Hstream) as (pm & st & H1 & H2 & H3);
    exists pm, st.
Qed.

(** ** An order, with a codec that knows just its message *)

Module Order.
Definition sent : res message := trade_message 7 (PlaceOrder sample_new_order).

Definition wire_message : message := match sent with Ok m => m | Err _ => MHeartbeatEvent end.

#[export] Instance codec : Codec := {|
  message_bytes _ := [x2a];
  message_parse c bs := match c with Cls.ProtoOANewOrderReq => Ok wire_message | _ => Err (ValueError "bad") end;
  envelope_bytes := @envelope_bytes Messages.Toy.codec;
  envelope_parse := @envelope_parse Messages.Toy.codec;
|}.

Lemma wire_parse m : m = wire_message -> message_parse (class_of m) (message_bytes m) = Ok m.
Proof. intros ->. reflexivity. Qed.

#[export] Instance lawful_codec : LawfulCodec := {|
  encodable m := m = wire_message;
  message_parse_bytes := wire_parse;
  envelope_parse_bytes := @envelope_parse_bytes _ Messages.Toy.lawful;
|}.

Definition frame : bytes := match encode_message wire_message (Some "1") with Ok f => f | Err _ => [] end.
Definition refused : env_step World := quiet (Ok (MOrderErrorEvent (Build_ProtoOAOrderErrorEvent 7 "NOT_ENOUGH_MONEY" 0 0 ""))).
End Order.
Import Order.

Lemma trades_exact_witness :
  out (run_trade 30 str_int 7 (PlaceOrder sample_new_order) None [Order.refused] idle_world) =
    Raised (APIError (mk_api_error "NOT_ENOUGH_MONEY" None (Some 7) None None)) /\
  (exists pm s', receive_message (mk_packets ((fun b => [b]) <$> Order.frame) None) = (Ok (pm, Order.wire_message), s') /\
     client_msg_id pm = "1") /\
  exists m, trade_message 7 (PlaceOrder sample_new_order) = Ok m /\ trade_says 7 (PlaceOrder sample_new_order) m.
Proof.
  pose proof (@trades_exact Order.codec Order.lawful_codec packets _ _ 30 str_int 7 (PlaceOrder sample_new_order) None
    Order.refused [] idle_world) as [H1 H2].
  change (trade_message 7 (PlaceOrder sample_new_order)) with (Ok Order.wire_message : res message) in H1.
  cbv iota in H1. destruct H1 as [Hrun Hwire]. split_and!.
  - rewrite Hrun. reflexivity.
  - destruct (Hwire "1" Order.frame [] (mk_packets ((fun b => [b]) <$> Order.frame) None) eq_refl eq_refl) as (pm & s' & Hr & Hid & _);
      [vm_compute; discriminate|vm_compute; reflexivity|].
    exists pm, s'. split; [exact Hr|exact Hid].
  - apply H2. split; do 2 eexists; reflexivity.
Defined.
