(* ===== verification/Lifecycle.v ===== *)
(** * The life of a client ([client.py], [connection/supervisor.py])

    [async with client: block] enters and leaves nested contexts: the connection, the task
    group of the connection's loops, the application's authentication, the task group of the
    sessions' loops, the router. [script] says how each thing that can fail goes, and which
    tasks died while the block ran; [async_with] is what becomes of it, with the events in
    order. The loops themselves are in the other files; here a loop that was started runs
    until it is stopped, dies or is cancelled with its group, and a task group whose body
    ended waits for it: for ever, if nothing ends it.

    Exceptions are objects here, told apart by a number, because [__aexit__] asks whether
    the exception that comes out {e is} the one the block raised. *)

From S2P Require Import Prelude Errors.
From stdpp Require Import options.
Open Scope string_scope.
Open Scope list_scope.

(** ** Exceptions that leave task groups *)

(** An exception object, or a group of them. *)
Inductive failure :=
  | Single (id : nat) (e : exn)
  | Group (id : nat) (l : list failure).

Definition object_id (f : failure) : nat := match f with Single i _ | Group i _ => i end.

(** [f is g] *)
Definition same_object (f g : failure) : bool := bool_decide (object_id f = object_id g).

(** [_sole_failure] *)
Fixpoint sole_failure (f : failure) : failure :=
  match f with
  | Group _ [f'] => sole_failure f'
  | _ => f
  end.

(** The exceptions in it that are no groups, in order. *)
Fixpoint leaves (f : failure) : list (nat * exn) :=
  match f with
  | Single i e => [(i, e)]
  | Group _ l => concat (map leaves l)
  end.

(** No group in it is empty. *)
Fixpoint inhabited_groups (f : failure) : bool :=
  match f with
  | Single _ _ => true
  | Group _ [] => false
  | Group _ l => forallb inhabited_groups l
  end.

(** Every object in it was made before the [n]-th. *)
Fixpoint older (n : nat) (f : failure) : bool :=
  match f with
  | Single i _ => Nat.ltb i n
  | Group i l => Nat.ltb i n && forallb (older n) l
  end.

Definition is_cancelled (f : failure) : bool := match f with Single _ Cancelled => true | _ => false end.
Arguments is_cancelled _ : simpl never.

(** ** Events *)

Inductive service := SProtocol | SHeartbeat | SRefresher | SRecovery.
Inductive group := Connection | Sessions.

#[export] Instance service_eq_dec : EqDecision service.
Proof. solve_decision. Defined.

Definition group_of (s : service) : group :=
  match s with SProtocol | SHeartbeat => Connection | SRefresher | SRecovery => Sessions end.

Definition group_eqb (g h : group) : bool :=
  match g, h with Connection, Connection | Sessions, Sessions => true | _, _ => false end.

Definition service_eqb (s t : service) : bool :=
  match s, t with
  | SProtocol, SProtocol | SHeartbeat, SHeartbeat | SRefresher, SRefresher | SRecovery, SRecovery => true
  | _, _ => false
  end.

Definition services : list service := [SProtocol; SHeartbeat; SRefresher; SRecovery].

Inductive life_event :=
  | EConnected                (* transport.connect() returned *)
  | EStarted (s : service)    (* task_group.start(s.serve) returned *)
  | EServing                  (* supervisor._serving = True *)
  | EAuthenticated            (* auth.authenticate_app() returned *)
  | ERouterStarted            (* router.start() *)
  | EBlock                    (* the block runs *)
  | ERouterStopped            (* router.stop() *)
  | EStop (s : service)       (* s.stop() *)
  | ENotServing               (* supervisor._serving = False *)
  | EJoined (g : group)       (* the task group has ended, and every task of it *)
  | EClosed.                  (* transport.close() *)

(** ** What happens *)

Record script := mk_script {
  sc_connect : option failure;
  sc_start : service -> option failure;
  sc_authenticate : option failure;
  sc_block : option failure;
  (* the failures of the tasks of a group, before its body has ended and after *)
  sc_died : group -> list failure * list failure;
  sc_close : option failure;
}.

(** [Hangs]: it never ends. *)
Inductive ending := Normal | Fails (f : failure) | Hangs.

(** A piece of code: how it ends, the events so far, and the next object number. *)
Record life_state := mk_life_state { log : list life_event; fresh : nat }.
Definition life : Type := life_state -> ending * life_state.

Definition happen (e : life_event) : life := fun s => (Normal, mk_life_state (log s ++ [e]) (fresh s)).
Definition outcome_is (o : option failure) : life :=
  fun s => (match o with Some f => Fails f | None => Normal end, s).

(** [m; k] *)
Definition and_then (m k : life) : life := fun s =>
  let '(r, s') := m s in match r with Normal => k s' | Fails _ | Hangs => (r, s') end.

(** [try: m finally: fin] *)
Definition finally (m fin : life) : life := fun s =>
  let '(r, s') := m s in
  match r with
  | Hangs => (Hangs, s')
  | _ => let '(r', s'') := fin s' in (match r' with Normal => r | Fails _ | Hangs => r' end, s'')
  end.

(** A call that may fail; when it succeeds, [e] has happened. *)
Definition attempt (e : life_event) (o : option failure) : life := and_then (outcome_is o) (happen e).

Declare Scope life_scope.
Delimit Scope life_scope with life.
Notation "m ;; k" := (and_then m k) (at level 100, k at level 200, right associativity) : life_scope.
Open Scope life_scope.

Section lifecycle.
Context (sc : script).

(** The exception a task group keeps of its body's: any but the cancellation. *)
Definition own_failure (r : ending) : list failure :=
  match r with Fails f => if is_cancelled f then [] else [f] | Normal | Hangs => [] end.

(** How a task group ends, of the tasks that died before and after its body ended. *)
Definition group_ending (n : nat) (died : list failure * list failure) (r : ending) : ending :=
  match died.1 ++ own_failure r ++ died.2 with
  | [] => r
  | l => Fails (Group n l)
  end.
Arguments group_ending _ _ _ : simpl never.

(** A service that was started and not asked to stop. *)
Definition still_serving (l : list life_event) (s : service) : bool :=
  existsb (fun e => match e with EStarted s' => service_eqb s s' | _ => false end) l &&
  negb (existsb (fun e => match e with EStop s' => service_eqb s s' | _ => false end) l).

(** Whether the end of the body cancels the tasks of the group: it did not end well, or some
    task of the group died. *)
Definition group_cancelled (died : list failure * list failure) (r : ending) : bool :=
  match r, died with Normal, ([], []) => false | _, _ => true end.

(** [async with anyio.create_task_group(): body]: when its body has ended, the group waits
    for its tasks. *)
Definition task_group (g : group) (body : life) : life := fun s =>
  let '(r, s') := body s in
  match r with
  | Hangs => (Hangs, s')
  | _ =>
      if existsb (fun v => group_eqb (group_of v) g && still_serving (log s') v) services &&
         negb (group_cancelled (sc_died sc g) r)
      then (Hangs, s')
      else (group_ending (fresh s') (sc_died sc g) r, mk_life_state (log s' ++ [EJoined g]) (S (fresh s')))
  end.

(** [await task_group.start(s.serve)] *)
Definition start (s : service) : life := attempt (EStarted s) (sc_start sc s).

(** [ConnectionSupervisor.serving]; the block is [body]. *)
Definition serving (body : life) : life :=
  attempt EConnected (sc_connect sc) ;;
  finally
    (task_group Connection
       (start SProtocol ;;
        start SHeartbeat ;;
        happen EServing ;;
        finally body (happen ENotServing ;; happen (EStop SHeartbeat) ;; happen (EStop SProtocol))))
    (happen EClosed ;; outcome_is (sc_close sc)).

(** [CTraderClient._lifecycle] *)
Definition lifecycle (body : life) : life :=
  serving
    (attempt EAuthenticated (sc_authenticate sc) ;;
     task_group Sessions
       (start SRefresher ;;
        start SRecovery ;;
        happen ERouterStarted ;;
        finally body (happen ERouterStopped ;; happen (EStop SRecovery) ;; happen (EStop SRefresher)))).

(** [yield], for the block of the caller. *)
Definition block : life := happen EBlock ;; outcome_is (sc_block sc).

(** [__aenter__], of a lifecycle that failed before it yielded. *)
Definition aenter_raises (f : failure) : failure :=
  match f with
  | Group _ _ => let failure := sole_failure f in if same_object failure f then f else failure
  | Single _ _ => f
  end.

(** [__aexit__]: what leaves the [async with] statement. The context manager of the
    lifecycle answers [False] when the very exception thrown into it comes out. *)
Definition aexit_raises (r : ending) : option failure :=
  match r with
  | Normal | Hangs => None
  | Fails f =>
      let is_block_s g := match sc_block sc with Some b => same_object g b | None => false end in
      if is_block_s f then sc_block sc
      else
        match f with
        | Single _ _ => Some f
        | Group _ _ =>
            let failure := sole_failure f in
            if is_block_s failure then sc_block sc
            else if same_object failure f then Some f else Some failure
        end
  end.

Definition is_block (e : life_event) : bool := match e with EBlock => true | _ => false end.

(** How the statement ends, for its caller. *)
Inductive end_of_with := Returns | Raises (f : failure) | NeverEnds.

Definition end_raising (f : option failure) : end_of_with := match f with Some f => Raises f | None => Returns end.

(** [async with client: block], of a client that is running already or not: how it ends, and
    the events. [n]: objects so far. *)
Definition async_with (running : bool) (n : nat) : end_of_with * list life_event :=
  if running then (Raises (Single n (RuntimeError "Client is already connected")), [])
  else
    let '(r, s) := lifecycle block (mk_life_state [] n) in
    (match r with
     | Hangs => NeverEnds
     | _ => if existsb is_block (log s) then end_raising (aexit_raises r)
            else match r with Fails f => Raises (aenter_raises f) | _ => Returns end
     end, log s).
End lifecycle.

(** ** What is open *)

Inductive resource := OConnection | OService (s : service) | OServing | ORouter.

#[export] Instance resource_eq_dec : EqDecision resource.
Proof. solve_decision. Defined.

(** What is open while the block runs, the innermost first. *)
Definition all_open : list resource :=
  [ORouter; OService SRecovery; OService SRefresher; OServing; OService SHeartbeat; OService SProtocol; OConnection].

(** A task group that has ended took the services on top of the stack with it. *)
Fixpoint join (g : group) (open : list resource) : list resource :=
  match open with
  | OService s :: open' => if group_eqb (group_of s) g then join g open' else open
  | _ => open
  end.

(** Close what is on top of the stack, which is what it has to be. *)
Definition closing (r : resource) (open : list resource) : option (list resource) :=
  match open with
  | r' :: open' => if decide (r = r') then Some open' else None
  | [] => None
  end.

(** The effect of an event on what is open, innermost first; [None]: out of order. *)
Definition unwind (open : list resource) (e : life_event) : option (list resource) :=
  match e with
  | EConnected => Some (OConnection :: open)
  | EStarted s => Some (OService s :: open)
  | EServing => Some (OServing :: open)
  | ERouterStarted => Some (ORouter :: open)
  | EAuthenticated => if decide (OServing ∈ open) then Some open else None
  | EBlock => if decide (open = all_open) then Some open else None
  | EStop s => if decide (OService s ∈ open) then Some open else None
  | ERouterStopped => closing ORouter open
  | ENotServing => closing OServing open
  | EJoined g => Some (join g open)
  | EClosed => closing OConnection open
  end.

Definition unwinds (open : list resource) (l : list life_event) : option (list resource) :=
  foldl (fun acc e => open ← acc; unwind open e) (Some open) l.

(** ** Lemmas *)

Lemma sole_failure_leaves (f : failure) : leaves (sole_failure f) = leaves f.
Proof.
  revert f. fix IH 1. intros [i e|i [|f [|f' l]]]; cbn; [done|done|by rewrite app_nil_r; apply IH|by clear IH].
Qed.

Lemma sole_failure_no_singleton (f g : failure) i : sole_failure f ≠ Group i [g].
Proof. revert f. fix IH 1. intros [j e|j [|f [|f' l]]]; cbn; [by clear IH|by clear IH|apply IH|by clear IH]. Qed.

(** Without empty groups there is something in every failure. *)
Lemma leaves_inhabited (f : failure) : inhabited_groups f = true -> leaves f ≠ [].
Proof.
  revert f. fix IH 1. intros [i e|i [|f l]]; cbn; [by clear IH|by clear IH|].
  intros [Hf _]%andb_true_iff. apply IH in Hf. by intros [? _]%app_eq_nil.
Qed.

Lemma sole_failure_alone (f : failure) i e :
  inhabited_groups f = true -> leaves f = [(i, e)] -> sole_failure f = Single i e.
Proof.
  revert f. fix IH 1. intros [j x|j [|f [|f' l]]]; cbn; [by clear IH; intros _ [= -> ->]|by clear IH| |].
  - rewrite andb_true_r, app_nil_r. apply IH.
  - intros [H1 [H2 _]%andb_true_iff]%andb_true_iff Hl. exfalso. clear IH. apply leaves_inhabited in H1, H2.
    destruct (leaves f) as [|x lf]; [done|]. injection Hl as _ Hl. apply app_eq_nil in Hl as [_ Hl].
    by apply app_eq_nil in Hl as [Hl _].
Qed.

Lemma older_weaken (m n : nat) f : (m <= n)%nat -> older m f = true -> older n f = true.
Proof.
  intros Hmn. revert f. fix IH 1. intros [i e|i l]; cbn [older].
  - clear IH. intros H%Nat.ltb_lt. apply Nat.ltb_lt. lia.
  - intros [Hi Hl]%andb_true_iff. apply andb_true_iff. split; [apply Nat.ltb_lt; apply Nat.ltb_lt in Hi; lia|].
    clear Hi. revert l Hl. fix IHl 1. intros [|f l]; cbn [forallb]; [done|]. intros [Hf Hl]%andb_true_iff.
    apply andb_true_iff. split; [by apply IH|by apply IHl].
Qed.

Lemma forallb_older_weaken (m n : nat) l : (m <= n)%nat -> forallb (older m) l = true -> forallb (older n) l = true.
Proof. intros Hmn. rewrite !forallb_forall. intros H f Hf. by apply (older_weaken m), H. Qed.

Lemma older_object_id n f : older n f = true -> (object_id f < n)%nat.
Proof. destruct f; cbn [older object_id]; [|intros [H _]%andb_true_iff; revert H]; apply Nat.ltb_lt. Qed.

Lemma older_sole_failure n f : older n f = true -> older n (sole_failure f) = true.
Proof.
  revert f. fix IH 1. intros [i e|i [|f [|f' l]]]; cbn [older forallb sole_failure]; [by clear IH|by clear IH| |by clear IH].
  rewrite andb_true_r. intros [_ H]%andb_true_iff. by apply IH.
Qed.

(** Unwrapping a new group of old objects gives an old object, unless it gives the group. *)
Lemma same_object_sole k l :
  forallb (older k) l = true -> same_object (sole_failure (Group k l)) (Group k l) = true ->
  sole_failure (Group k l) = Group k l.
Proof.
  destruct l as [|f [|f' l]]; [done| |done]. cbn [forallb]. rewrite andb_true_r. intros Hf. unfold same_object. cbn [sole_failure object_id].
  rewrite bool_decide_eq_true. intros E. apply older_sole_failure, older_object_id in Hf. lia.
Qed.

(** Everything starts. *)
Definition starts (sc : script) : Prop :=
  sc_connect sc = None /\ (forall s, sc_start sc s = None) /\ sc_authenticate sc = None.

Definition block_ending (sc : script) : ending := match sc_block sc with Some f => Fails f | None => Normal end.

(** Everything that went wrong in a client that had started. *)
Definition wrong (sc : script) : list failure :=
  (sc_died sc Connection).1 ++
  ((sc_died sc Sessions).1 ++ own_failure (block_ending sc) ++ (sc_died sc Sessions).2) ++
  (sc_died sc Connection).2.

(** What a group comes down to: itself, or what its only member comes down to. *)
Lemma sole_failure_group (n i : nat) l :
  (n <= i)%nat ->
  (n <= object_id (sole_failure (Group i l)))%nat \/ exists x, x ∈ l /\ sole_failure (Group i l) = sole_failure x.
Proof.
  intros Hi. destruct l as [|x [|y l]]; cbn; [by left| |by left]. right. exists x. split; [apply list_elem_of_here|done].
Qed.

(** Everything that is somewhere in a failure. *)
Fixpoint objects (f : failure) : list failure :=
  f :: match f with Single _ _ => [] | Group _ l => concat (map objects l) end.

Lemma sole_failure_object (f : failure) : sole_failure f ∈ objects f.
Proof.
  revert f. fix IH 1. intros [i e|i [|f [|f' l]]]; cbn; [by left; clear IH|by left; clear IH| |by left; clear IH].
  right. rewrite app_nil_r. apply IH.
Qed.

(** What happens in the life of a client, by the first step of the start that fails: what
    was opened is closed in the reverse order, and in each task group the services that
    are up are asked to stop, the last first, before the group is joined. *)
Definition life_log (sc : script) : list life_event :=
  match sc_connect sc, sc_start sc SProtocol, sc_start sc SHeartbeat, sc_authenticate sc,
        sc_start sc SRefresher, sc_start sc SRecovery with
  | Some _, _, _, _, _, _ => []
  | None, Some _, _, _, _, _ => [EConnected; EJoined Connection; EClosed]
  | None, None, Some _, _, _, _ => [EConnected; EStarted SProtocol; EJoined Connection; EClosed]
  | None, None, None, Some _, _, _ =>
      [EConnected; EStarted SProtocol; EStarted SHeartbeat; EServing;
       ENotServing; EStop SHeartbeat; EStop SProtocol; EJoined Connection; EClosed]
  | None, None, None, None, Some _, _ =>
      [EConnected; EStarted SProtocol; EStarted SHeartbeat; EServing; EAuthenticated; EJoined Sessions;
       ENotServing; EStop SHeartbeat; EStop SProtocol; EJoined Connection; EClosed]
  | None, None, None, None, None, Some _ =>
      [EConnected; EStarted SProtocol; EStarted SHeartbeat; EServing; EAuthenticated; EStarted SRefresher; EJoined Sessions;
       ENotServing; EStop SHeartbeat; EStop SProtocol; EJoined Connection; EClosed]
  | None, None, None, None, None, None =>
      [EConnected; EStarted SProtocol; EStarted SHeartbeat; EServing; EAuthenticated; EStarted SRefresher; EStarted SRecovery;
       ERouterStarted; EBlock; ERouterStopped; EStop SRecovery; EStop SRefresher; EJoined Sessions;
       ENotServing; EStop SHeartbeat; EStop SProtocol; EJoined Connection; EClosed]
  end.

(** A task group ends if its body does and its services are stopped, or it is cancelled. *)
Lemma group_ending_ends n died r : r ≠ Hangs -> group_ending n died r ≠ Hangs.
Proof. unfold group_ending. by destruct (_ ++ _). Qed.

Lemma task_group_run sc g body s r s' :
  body s = (r, s') -> r ≠ Hangs ->
  existsb (fun v => group_eqb (group_of v) g && still_serving (log s') v) services = false \/
    (exists f, r = Fails f) ->
  task_group sc g body s =
  (group_ending (fresh s') (sc_died sc g) r, mk_life_state (log s' ++ [EJoined g]) (S (fresh s'))).
Proof.
  intros E Hr Hstop. unfold task_group. rewrite E.
  assert (Hwait : existsb (fun v => group_eqb (group_of v) g && still_serving (log s') v) services &&
    negb (group_cancelled (sc_died sc g) r) = false).
  { destruct Hstop as [->|[f ->]]; [done|]. apply andb_false_r. }
  destruct r; [by rewrite Hwait..|done].
Qed.

(** The connection, around a block whose run is known. *)
Definition up : list life_event := [EConnected; EStarted SProtocol; EStarted SHeartbeat; EServing].
Definition down : list life_event := [ENotServing; EStop SHeartbeat; EStop SProtocol; EJoined Connection; EClosed].

Lemma serving_run sc body n r l k :
  sc_connect sc = None -> sc_start sc SProtocol = None -> sc_start sc SHeartbeat = None ->
  body (mk_life_state up n) = (r, mk_life_state l k) -> r ≠ Hangs ->
  existsb (fun v => group_eqb (group_of v) Connection &&
    still_serving (l ++ [ENotServing; EStop SHeartbeat; EStop SProtocol]) v) services = false ->
  serving sc body (mk_life_state [] n) =
  (match sc_close sc with Some f => Fails f | None => group_ending k (sc_died sc Connection) r end,
   mk_life_state (l ++ down) (S k)).
Proof.
  intros Hc H1 H2 Hb Hr Hstop.
  assert (Hgroup : task_group sc Connection
      (start sc SProtocol ;; start sc SHeartbeat ;; happen EServing ;;
       finally body (happen ENotServing ;; happen (EStop SHeartbeat) ;; happen (EStop SProtocol)))
      (mk_life_state [EConnected] n) =
    (group_ending k (sc_died sc Connection) r,
     mk_life_state ((l ++ [ENotServing; EStop SHeartbeat; EStop SProtocol]) ++ [EJoined Connection]) (S k))).
  { apply (task_group_run sc Connection _ _ r (mk_life_state (l ++ [ENotServing; EStop SHeartbeat; EStop SProtocol]) k));
      [|done|by left].
    unfold start, attempt, outcome_is, and_then, happen. rewrite H1, H2. unfold finally. cbn [log fresh app].
    fold up. rewrite Hb. destruct r; [| |done]; cbn [log fresh]; by rewrite <- !app_assoc. }
  unfold serving, attempt, outcome_is. rewrite Hc. unfold and_then at 1 2, happen at 1. cbn [log fresh app].
  unfold finally at 1. rewrite Hgroup. unfold and_then, happen. cbn [log fresh].
  pose proof (group_ending_ends k (sc_died sc Connection) r Hr) as Hend. rewrite <- !app_assoc. cbn [app].
  destruct (group_ending k (sc_died sc Connection) r) eqn:E; [| |done]; by destruct (sc_close sc).
Qed.

(** The connection, when its services do not come up. *)
Lemma serving_not_up sc body n f l :
  sc_connect sc = None ->
  (sc_start sc SProtocol = Some f /\ l = []) \/
    (sc_start sc SProtocol = None /\ sc_start sc SHeartbeat = Some f /\ l = [EStarted SProtocol]) ->
  serving sc body (mk_life_state [] n) =
  (match sc_close sc with Some f => Fails f | None => group_ending n (sc_died sc Connection) (Fails f) end,
   mk_life_state (EConnected :: l ++ [EJoined Connection; EClosed]) (S n)).
Proof.
  intros Hc Hstart.
  assert (Hgroup : forall m, (start sc SProtocol ;; start sc SHeartbeat ;; m) (mk_life_state [EConnected] n) =
    (Fails f, mk_life_state (EConnected :: l) n)).
  { intros m. unfold start, attempt, outcome_is, and_then, happen. destruct Hstart as [(E1 & ->)|(E1 & E2 & ->)]; rewrite E1, ?E2; done. }
  unfold serving, attempt at 1, outcome_is at 1. rewrite Hc. unfold and_then at 1 2, happen at 1. cbn [log fresh app].
  unfold finally at 1. erewrite task_group_run; [|apply Hgroup|done|by right; eexists]. cbn [log fresh].
  pose proof (group_ending_ends n (sc_died sc Connection) (Fails f) ltac:(done)) as Hend.
  unfold and_then, happen, outcome_is. cbn [log fresh]. rewrite <- !app_assoc. cbn [app].
  destruct (group_ending n (sc_died sc Connection) (Fails f)) eqn:E; [| |done]; destruct (sc_close sc); cbn;
    by rewrite <- ?app_assoc.
Qed.

(** The sessions' loops, on a connection that is up. *)
Lemma sessions_run sc n :
  sc_authenticate sc = None ->
  let r := match sc_start sc SRefresher, sc_start sc SRecovery with
           | Some f, _ | None, Some f => Fails f
           | None, None => block_ending sc
           end in
  (attempt EAuthenticated (sc_authenticate sc) ;;
   task_group sc Sessions
     (start sc SRefresher ;; start sc SRecovery ;; happen ERouterStarted ;;
      finally (block sc) (happen ERouterStopped ;; happen (EStop SRecovery) ;; happen (EStop SRefresher))))
    (mk_life_state up n) =
  (group_ending n (sc_died sc Sessions) r,
   mk_life_state (up ++ EAuthenticated ::
     match sc_start sc SRefresher, sc_start sc SRecovery with
     | Some _, _ => []
     | None, Some _ => [EStarted SRefresher]
     | None, None => [EStarted SRefresher; EStarted SRecovery; ERouterStarted; EBlock; ERouterStopped;
                      EStop SRecovery; EStop SRefresher]
     end ++ [EJoined Sessions]) (S n)).
Proof.
  intros Ha. cbv zeta. unfold attempt at 1, outcome_is at 1. rewrite Ha. unfold and_then at 1 2, happen at 1.
  cbn [log fresh].
  destruct (sc_start sc SRefresher) as [f|] eqn:E1; [|destruct (sc_start sc SRecovery) as [f|] eqn:E2].
  - erewrite task_group_run; [|unfold start at 1, attempt, outcome_is; rewrite E1; reflexivity|done|by right; eexists]. done.
  - erewrite task_group_run; [|unfold start, attempt, outcome_is; rewrite E1, E2; reflexivity|done|by right; eexists]. done.
  - erewrite (task_group_run sc Sessions _ _ (block_ending sc));
      [| |by unfold block_ending; destruct (sc_block sc)|left].
    2: { unfold start, attempt, outcome_is, block, block_ending, finally, outcome_is. rewrite E1, E2.
         destruct (sc_block sc); reflexivity. }
    + done.
    + done.
Qed.

(** The life of a client, whatever happens. *)
Lemma lifecycle_run sc n :
  let l := lifecycle sc (block sc) (mk_life_state [] n) in
  l.1 ≠ Hangs /\ log l.2 = life_log sc /\
  (starts sc -> sc_close sc = None ->
     l.1 = group_ending (S n) (sc_died sc Connection) (group_ending n (sc_died sc Sessions) (block_ending sc))).
Proof.
  cbv zeta. unfold starts. destruct (sc_connect sc) as [f|] eqn:Ec.
  { unfold lifecycle, serving, attempt, outcome_is, life_log. rewrite Ec. split_and!; [done|done|by intros [? _]]. }
  destruct (sc_start sc SProtocol) as [f|] eqn:E1; [|destruct (sc_start sc SHeartbeat) as [f|] eqn:E2].
  { unfold lifecycle, life_log. rewrite Ec, E1, (serving_not_up sc _ n f []) by (done || by left).
    split_and!; [destruct (sc_close sc); [done|by apply group_ending_ends]|done|intros (_ & H & _); by rewrite H in E1]. }
  { unfold lifecycle, life_log. rewrite Ec, E1, E2, (serving_not_up sc _ n f [EStarted SProtocol]) by (done || by right).
    split_and!; [destruct (sc_close sc); [done|by apply group_ending_ends]|done|intros (_ & H & _); by rewrite H in E2]. }
  destruct (sc_authenticate sc) as [f|] eqn:Ea.
  { unfold lifecycle, life_log. rewrite Ec, E1, E2, Ea. erewrite (serving_run sc _ n (Fails f) up n) by done.
    split_and!; [destruct (sc_close sc); [done|by apply group_ending_ends]|done|by intros (_ & _ & H)]. }
  pose proof (sessions_run sc n Ea) as Hs. cbv zeta in Hs. unfold lifecycle, life_log. rewrite Ec, E1, E2, Ea in *.
  assert (Hr : (match sc_start sc SRefresher, sc_start sc SRecovery with
    | Some f, _ | None, Some f => Fails f | None, None => block_ending sc end) ≠ Hangs)
    by (unfold block_ending; by destruct (sc_start sc SRefresher), (sc_start sc SRecovery), (sc_block sc)).
  rewrite (serving_run sc _ n _ _ _ Ec E1 E2 Hs);
    [|by apply group_ending_ends|by destruct (sc_start sc SRefresher), (sc_start sc SRecovery)].
  split_and!.
  - destruct (sc_close sc); [done|]. by apply group_ending_ends, group_ending_ends.
  - cbn [snd log]. by destruct (sc_start sc SRefresher), (sc_start sc SRecovery).
  - intros (_ & H & _) Hcl. cbn [fst]. by rewrite Hcl, !H.
Qed.

(** How the lifecycle of a client that had started ends. *)
Lemma started_ending sc n :
  starts sc -> sc_close sc = None ->
  let r := (lifecycle sc (block sc) (mk_life_state [] n)).1 in
  match wrong sc with
  | [] => r = block_ending sc
  | _ => exists i l, r = Fails (Group i l) /\ (n <= i)%nat /\
           (forallb (older n) (wrong sc) = true -> forallb (older i) l = true) /\ concat (map leaves l) = concat (map leaves (wrong sc)) /\
           (forallb inhabited_groups (wrong sc) = true -> forallb inhabited_groups l = true /\ l ≠ []) /\
           ((n <= object_id (sole_failure (Group i l)))%nat \/
            exists x, x ∈ wrong sc /\ sole_failure (Group i l) = sole_failure x)
  end.
Proof.
  intros Hst Hcl. cbv zeta. destruct (lifecycle_run sc n) as (_ & _ & H). rewrite (H Hst Hcl). clear H.
  unfold wrong. destruct (sc_died sc Connection) as [bc ac]. cbn [fst snd].
  unfold group_ending. cbn [fst snd].
  destruct ((sc_died sc Sessions).1 ++ own_failure (block_ending sc) ++ (sc_died sc Sessions).2) as [|x l] eqn:E.
  - apply app_eq_nil in E as [_ [-> _]%app_eq_nil]. cbn [app]. destruct (bc ++ ac) as [|y l]; [done|].
    exists (S n), (y :: l). split_and!; [done|lia|intros H; apply (forallb_older_weaken n); [lia|done]|done|by intros H; split|].
    apply sole_failure_group. lia.
  - change (own_failure (Fails (Group n (x :: l)))) with [Group n (x :: l)].
    destruct (bc ++ [Group n (x :: l)] ++ ac) as [|y m] eqn:Em; [by apply app_eq_nil in Em as [_ ?]|].
    destruct (bc ++ (x :: l) ++ ac) as [|z w] eqn:Ew; [by apply app_eq_nil in Ew as [_ ?]|].
    exists (S n), (y :: m). rewrite <-Em, <-Ew. split_and!; [by rewrite Em|lia| | | |].
    + intros H. apply (forallb_older_weaken n (S n)) in H; [|lia]. rewrite !forallb_app in H. rewrite !forallb_app.
      change (forallb (older (S n)) [Group n (x :: l)]) with
        ((Nat.ltb n (S n) && forallb (older (S n)) (x :: l)) && true).
      by rewrite (proj2 (Nat.ltb_lt n (S n))), andb_true_l, andb_true_r by lia.
    + rewrite !map_app, !concat_app. cbn. by rewrite app_nil_r.
    + intros H. split; [|by rewrite Em]. rewrite !forallb_app in H. rewrite !forallb_app.
      change (forallb inhabited_groups [Group n (x :: l)]) with (forallb inhabited_groups (x :: l) && true).
      by rewrite andb_true_r.
    + destruct (sole_failure_group n (S n) (bc ++ [Group n (x :: l)] ++ ac) ltac:(lia)) as [|(g & Hg & Heq)]; [by left|].
      rewrite Heq. apply elem_of_app in Hg as [Hg|[->%list_elem_of_singleton|Hg]%elem_of_app].
      * right. exists g. split; [apply elem_of_app; by left|done].
      * destruct (sole_failure_group n n (x :: l) ltac:(lia)) as [|(h & Hh & ->)]; [by left|].
        right. exists h. split; [|done]. apply elem_of_app. right. apply elem_of_app. by left.
      * right. exists g. split; [|done]. apply elem_of_app. right. apply elem_of_app. by right.
Qed.

(** What comes out when the start fails and nothing else goes wrong. *)
Definition start_failure (sc : script) : option failure :=
  match sc_connect sc, sc_start sc SProtocol, sc_start sc SHeartbeat, sc_authenticate sc,
        sc_start sc SRefresher, sc_start sc SRecovery with
  | Some f, _, _, _, _, _ | _, Some f, _, _, _, _ | _, _, Some f, _, _, _
  | _, _, _, Some f, _, _ | _, _, _, _, Some f, _ | _, _, _, _, _, Some f => Some f
  | _, _, _, _, _, _ => None
  end.

(** A failure that is no group is not a group made later. *)
Lemma aenter_raises_single (i k : nat) e l :
  (i < k)%nat -> sole_failure (Group k l) = Single i e -> aenter_raises (Group k l) = Single i e.
Proof.
  intros Hk Hl. unfold aenter_raises, same_object. rewrite Hl, bool_decide_false; [done|]. cbn. lia.
Qed.

(** What leaves a client that had started, when its failure is a new group around old ones. *)
Lemma aexit_raises_sole sc (n k : nat) l wrong :
  (n <= k)%nat -> forallb (older k) l = true ->
  (forall b, sc_block sc = Some b -> (object_id b < n)%nat) ->
  (forall b x, sc_block sc = Some b -> x ∈ concat (map objects wrong) -> object_id x = object_id b -> x = b) ->
  ((n <= object_id (sole_failure (Group k l)))%nat \/
    exists x, x ∈ wrong /\ sole_failure (Group k l) = sole_failure x) ->
  aexit_raises sc (Fails (Group k l)) = Some (sole_failure (Group k l)).
Proof.
  intros Hk Hold Hblock Hsame Hsole. unfold aexit_raises.
  assert (Hgroup : (match sc_block sc with Some b => same_object (Group k l) b | None => false end) = false).
  { destruct (sc_block sc) as [b|]; [|done]. specialize (Hblock b eq_refl). apply bool_decide_false. cbn. lia. }
  rewrite Hgroup. destruct (sc_block sc) as [b|] eqn:Eb.
  - destruct (same_object (sole_failure (Group k l)) b) eqn:Es.
    + apply bool_decide_eq_true in Es. f_equal. specialize (Hblock b eq_refl). destruct Hsole as [Hn|(x & Hx & Heq)]; [lia|].
      symmetry. apply (Hsame b _ eq_refl); [|done]. rewrite Heq. apply list_elem_of_In, in_concat. exists (objects x).
      split; [by apply in_map, list_elem_of_In|apply list_elem_of_In, sole_failure_object].
    + destruct (same_object _ (Group k l)) eqn:E; [|done]. f_equal. symmetry. by apply same_object_sole.
  - destruct (same_object _ (Group k l)) eqn:E; [|done]. f_equal. symmetry. by apply same_object_sole.
Qed.

Lemma async_with_started sc n :
  starts sc -> sc_close sc = None ->
  (async_with sc false n).1 = end_raising (aexit_raises sc (lifecycle sc (block sc) (mk_life_state [] n)).1).
Proof.
  intros (Hc & Hs & Ha) _. destruct (lifecycle_run sc n) as (Hends & Hlog & _). unfold async_with.
  destruct (lifecycle sc (block sc) (mk_life_state [] n)) as [r st]. cbn [fst snd] in *. rewrite Hlog.
  unfold life_log. rewrite Hc, !Hs, Ha. cbn [existsb is_block]. by destruct r.
Qed.

(** A group with nothing wrong but its body's failure. *)
Lemma group_ending_alone n f : is_cancelled f = false -> group_ending n ([], []) (Fails f) = Fails (Group n [f]).
Proof. intros Hf. unfold group_ending, own_failure. by rewrite Hf. Qed.

Lemma start_failure_seen sc n i e :
  sc_close sc = None -> start_failure sc = Some (Single i e) -> e ≠ Cancelled -> (i < n)%nat ->
  (forall g, sc_died sc g = ([], [])) -> (async_with sc false n).1 = Raises (Single i e).
Proof.
  intros Hcl Hf He Hi Hd. assert (Hc : is_cancelled (Single i e) = false) by (by destruct e).
  destruct (lifecycle_run sc n) as (_ & Hlog & _).
  assert (Hnew : forall k l, is_cancelled (Group k l) = false) by done.
  assert (Hend : exists f, (lifecycle sc (block sc) (mk_life_state [] n)).1 = Fails f /\ aenter_raises f = Single i e).
  { revert Hf. unfold start_failure, lifecycle. destruct (sc_connect sc) as [f|] eqn:Ec.
    { intros [= ->]. exists (Single i e). split; [|done]. unfold serving, attempt, outcome_is. by rewrite Ec. }
    destruct (sc_start sc SProtocol) as [f|] eqn:E1; [|destruct (sc_start sc SHeartbeat) as [f|] eqn:E2].
    1: intros [= ->]; rewrite (serving_not_up sc _ n (Single i e) []) by (done || by left).
    2: intros [= ->]; rewrite (serving_not_up sc _ n (Single i e) [EStarted SProtocol]) by (done || by right).
    1-2: cbn [fst]; rewrite Hcl, Hd, group_ending_alone by done; eexists; split; [done|];
      by apply (aenter_raises_single i n).
    destruct (sc_authenticate sc) as [f|] eqn:Ea.
    { intros [= ->]. rewrite (serving_run sc _ n (Fails (Single i e)) up n) by done. cbn [fst].
      rewrite Hcl, Hd, group_ending_alone by done. eexists. split; [done|]. by apply (aenter_raises_single i n). }
    pose proof (sessions_run sc n Ea) as Hs. cbv zeta in Hs. rewrite Ea in Hs.
    destruct (sc_start sc SRefresher) as [f|] eqn:E3; [|destruct (sc_start sc SRecovery) as [f|] eqn:E4; [|done]].
    1-2: intros [= ->]; rewrite (serving_run sc _ n _ _ _ Ec E1 E2 Hs) by (done || by apply group_ending_ends);
      cbn [fst]; rewrite Hcl, !Hd, !group_ending_alone by done; eexists; split; [done|];
      apply (aenter_raises_single i (S n)); [lia|done]. }
  destruct Hend as (f & Hend & Hraise). unfold async_with.
  destruct (lifecycle sc (block sc) (mk_life_state [] n)) as [r st]. cbn [fst snd] in *. rewrite Hend, Hlog.
  assert (Hb : existsb is_block (life_log sc) = false).
  { revert Hf. unfold start_failure, life_log. destruct (sc_connect sc), (sc_start sc SProtocol), (sc_start sc SHeartbeat),
      (sc_authenticate sc), (sc_start sc SRefresher), (sc_start sc SRecovery); done. }
  by rewrite Hb, Hraise.
Qed.

(** ** Theorems *)

(** C32. Everything that was opened is closed again, whatever fails: the connection, the
    loops on it, the application's authentication, the other loops, the router, the block
    itself, closing, or any task while the block runs. [life_log] gives the events one by
    one: the closing is the reverse of the opening, and the services are asked to stop, in
    that order, before their group is joined. The statement always ends: no task group
    waits for a service nobody stops, as one does that was started alone. The block
    runs when everything has started, and then with everything open; and a client that is
    running already is not started again. *)
Theorem lifecycle_released (sc : script) (n : nat) :
  let r := async_with sc false n in
  r.1 ≠ NeverEnds /\ r.2 = life_log sc /\ unwinds [] r.2 = Some [] /\
  (EBlock ∈ r.2 <-> start_failure sc = None) /\
  async_with sc true n = (Raises (Single n (RuntimeError "Client is already connected")), []) /\
  (sc_start sc SProtocol = None -> sc_died sc Connection = ([], []) ->
     (task_group sc Connection (start sc SProtocol) (mk_life_state [] n)).1 = Hangs).
Proof.
  cbv zeta. destruct (lifecycle_run sc n) as (Hends & Hlog & _). unfold async_with.
  destruct (lifecycle sc (block sc) (mk_life_state [] n)) as [r st]. cbn [fst snd] in *. rewrite Hlog.
  split_and!; [|done| | |done|].
  - destruct r; [| |done]; destruct (existsb _ _); try done; by destruct (aexit_raises sc _).
  - unfold life_log. destruct (sc_connect sc), (sc_start sc SProtocol), (sc_start sc SHeartbeat), (sc_authenticate sc),
      (sc_start sc SRefresher), (sc_start sc SRecovery); reflexivity.
  - assert (H : forall l : list life_event, existsb is_block l = true <-> EBlock ∈ l).
    { intros l. rewrite existsb_exists. split; [intros ([] & Hin & He); try discriminate He|intros Hin; exists EBlock];
        by rewrite list_elem_of_In in *. }
    rewrite <- H. unfold life_log, start_failure. destruct (sc_connect sc), (sc_start sc SProtocol), (sc_start sc SHeartbeat),
      (sc_authenticate sc), (sc_start sc SRefresher), (sc_start sc SRecovery); by split.
  - intros Hstart Hdied. unfold task_group, start, attempt, outcome_is, and_then, happen. rewrite Hstart, Hdied. reflexivity.
Qed.

(** C33. What the caller sees, when the transport closes without an error. A start that fails
    with one exception raises that very exception, whatever groups it was wrapped in. A
    block that ends, or is cancelled, with nothing else going wrong ends the statement the
    same way. When exactly one exception went wrong, of a task or of the block, at any
    depth, that very exception is raised. When more did, what is raised holds all of them
    in order, and is no group of one: none is dropped, the block's no more than a task's. *)
Theorem what_the_caller_sees (sc : script) (n : nat) (Hclose : sc_close sc = None)
    (Hids : forallb (older n) (wrong sc) = true) (Hblock : forall b, sc_block sc = Some b -> (object_id b < n)%nat)
    (Hsame : forall b x, sc_block sc = Some b -> x ∈ concat (map objects (wrong sc)) -> object_id x = object_id b -> x = b) :
  let seen := (async_with sc false n).1 in
  (forall i e, start_failure sc = Some (Single i e) -> e ≠ Cancelled -> (i < n)%nat ->
     (forall g, sc_died sc g = ([], [])) -> seen = Raises (Single i e)) /\
  (starts sc -> wrong sc = [] -> seen = match sc_block sc with Some b => Raises b | None => Returns end) /\
  (starts sc -> forall i e, concat (map leaves (wrong sc)) = [(i, e)] ->
     forallb inhabited_groups (wrong sc) = true -> seen = Raises (Single i e)) /\
  (starts sc -> wrong sc ≠ [] ->
     exists f, seen = Raises f /\ leaves f = concat (map leaves (wrong sc)) /\ forall j g, f ≠ Group j [g]).
Proof.
  cbv zeta. split.
  { intros i e. by apply start_failure_seen. }
  assert (Hdec : wrong sc = [] \/ wrong sc ≠ []) by (destruct (wrong sc); auto). destruct Hdec as [Hw|Hw].
  { split_and!; intros Hs; [|by rewrite Hw|by intros ?].
    intros _. rewrite (async_with_started sc n Hs Hclose). pose proof (started_ending sc n Hs Hclose) as H. cbv zeta in H.
    rewrite Hw in H. rewrite H. unfold block_ending. destruct (sc_block sc) as [b|] eqn:E; [|done].
    unfold aexit_raises, same_object. by rewrite E, bool_decide_true. }
  assert (Hseen : starts sc -> exists f, (async_with sc false n).1 = Raises (sole_failure f) /\
    leaves f = concat (map leaves (wrong sc)) /\
    (forallb inhabited_groups (wrong sc) = true -> inhabited_groups f = true)).
  { intros Hs. rewrite (async_with_started sc n Hs Hclose). pose proof (started_ending sc n Hs Hclose) as H. cbv zeta in H.
    destruct (wrong sc) as [|x w] eqn:Ew; [done|]. destruct H as (k & l & -> & Hk & Hold & Hleaves & Hinh & Hsole).
    exists (Group k l). split_and!; [|done|intros [H1 H2]%Hinh; by destruct l].
    by rewrite (aexit_raises_sole sc n k l (x :: w)) by (done || by apply Hold). }
  split_and!; [done| |]; intros Hs; destruct (Hseen Hs) as (f & -> & Hleaves & Hinh).
  - intros i e Hl Hin. f_equal. apply sole_failure_alone; [by apply Hinh|by rewrite Hleaves].
  - intros _. exists (sole_failure f). split_and!; [done|by rewrite sole_failure_leaves|intros; apply sole_failure_no_singleton].
Qed.

(** ** Witnesses *)

Definition smooth : script :=
  mk_script None (fun _ => None) None None (fun _ => ([], [])) None.

(** Nothing goes wrong; and a group whose service nobody stops does not end. *)
Lemma lifecycle_released_witness :
  (async_with smooth false 1).2 =
    [EConnected; EStarted SProtocol; EStarted SHeartbeat; EServing; EAuthenticated; EStarted SRefresher; EStarted SRecovery; ERouterStarted;
     EBlock; ERouterStopped; EStop SRecovery; EStop SRefresher; EJoined Sessions; ENotServing; EStop SHeartbeat;
     EStop SProtocol; EJoined Connection; EClosed] /\
  (task_group smooth Connection (start smooth SProtocol) (mk_life_state [] 1)).1 = Hangs.
Proof.
  destruct (lifecycle_released smooth 1) as (_ & Hlog & _ & _ & _ & Hhangs). split; [|apply Hhangs; reflexivity].
  rewrite Hlog. reflexivity.
Defined.

(** The server rejects the application: the rejection itself is raised, from two task
    groups deep, and what had been opened is closed. *)
Definition rejected : script :=
  mk_script None (fun _ => None) (Some (Single 0 (ApplicationAuthError "CH_CLIENT_AUTH_FAILURE" None))) None
    (fun _ => ([], [])) None.

Example rejected_run :
  async_with rejected false 1 =
  (Raises (Single 0 (ApplicationAuthError "CH_CLIENT_AUTH_FAILURE" None)),
   [EConnected; EStarted SProtocol; EStarted SHeartbeat; EServing; ENotServing; EStop SHeartbeat; EStop SProtocol;
    EJoined Connection; EClosed]).
Proof. reflexivity. Qed.

(** The reconnection is abandoned while the block runs: the block is cancelled, and what is
    raised is the [CTraderReconnectAbandonedError], wrapped twice by the time it got here. *)
Definition abandoned : script :=
  mk_script None (fun _ => None) None (Some (Single 1 Cancelled))
    (fun g => match g with
              | Connection => ([Group 2 [Single 0 (CTraderReconnectAbandonedError "lost" None)]], [])
              | Sessions => ([], [])
              end) None.

Lemma what_the_caller_sees_witness :
  (async_with abandoned false 3).1 = Raises (Single 0 (CTraderReconnectAbandonedError "lost" None)).
Proof.
  destruct (what_the_caller_sees abandoned 3 eq_refl eq_refl) as (_ & _ & H & _).
  - intros b [= <-]. cbn. lia.
  - intros b x [= <-] Hx E. cbn in Hx.
    do 2 (apply elem_of_cons in Hx as [->|Hx]; [discriminate E|]). by apply elem_of_nil in Hx.
  - apply H; [by split_and!|done|done].
Defined.

(** The block raises while a task dies: both are there. *)
Definition both : script :=
  mk_script None (fun _ => None) None (Some (Single 1 (ValueError "no")))
    (fun g => match g with Connection => ([Single 0 (OSError "gone")], []) | Sessions => ([], []) end) None.

Example both_seen :
  exists f, (async_with both false 2).1 = Raises f /\ leaves f = [(0%nat, OSError "gone"); (1%nat, ValueError "no")].
Proof. eexists. split; reflexivity. Qed.

(** A block that raises a group of one does not see its own exception again, but the one in
    it: [__aexit__] unwraps the caller's group like its own. *)
Definition caller_group : script :=
  mk_script None (fun _ => None) None (Some (Group 1 [Single 0 (ValueError "no")])) (fun _ => ([], [])) None.

Example caller_group_unwrapped : (async_with caller_group false 2).1 = Raises (Single 0 (ValueError "no")).
Proof. reflexivity. Qed.
