(* ===== verification/Client.v ===== *)
(** * The assembled client ([config.py], [composition.py], [client.py])

    [build_graph] gives each component the ports it uses; here the same wiring instantiates
    the classes of [World], so that the theorems proved against the ports hold of the
    client. *)

From S2P Require Import Prelude Errors Enums Numbers Wire Effects.
From S2P Require Import Supervisor Protocol Link Models Session Events EventFields Emitter Router World MarketData Auth Recovery Refresh.
From stdpp Require Import options.
Import AuthTrigger(auth_trigger).
Open Scope string_scope.
Open Scope list_scope.
Open Scope Z_scope.

(** ** Configuration *)

Record ClientConfig := mk_config {
  host : string;
  port : Z;
  use_ssl : bool;
  client_id : string;
  client_secret : string;
  heartbeat_interval : seconds;
  heartbeat_timeout : seconds;
  request_timeout : seconds;
  connect_timeout : seconds;
  reconnect_attempts : option Z;
  reconnect_min_wait : seconds;
  reconnect_max_wait : seconds;
  refresh_policy : RefreshPolicy;
  reauth_policy : ReauthPolicy;
}.

(** The fields' defaults. *)
Definition default_config (client_id client_secret : string) : ClientConfig :=
  mk_config "live.ctraderapi.com" 5035 true client_id client_secret (10 * second) (60 * second) (30 * second)
    (30 * second) None second (60 * second) default_refresh_policy default_reauth_policy.

(** The constraints the fields declare; the policies have none. *)
Definition config_accepted (c : ClientConfig) : bool :=
  (0 <? heartbeat_interval c) && (0 <=? heartbeat_timeout c) && (0 <? request_timeout c) &&
  (0 <? connect_timeout c) && (match reconnect_attempts c with Some n => 0 <=? n | None => true end) &&
  (0 <? reconnect_min_wait c) && (0 <? reconnect_max_wait c).

(** ** Wiring *)

Section build_graph.
Context `{Stops : StopStrategies} `{Waits : WaitStrategies}.
Context (config : ClientConfig) (token_store : option TokenStore).

(** [market_data] is the restorer, [auth] the authenticator of the two monitors. *)
Definition graph_restorer : SessionRestorer := market_data_restorer (request_timeout config).
Definition graph_auth : SessionAuthenticator :=
  AuthManager (client_id config) (client_secret config) (Some graph_restorer).

(** [supervisor.add_listener(recovery)]; what restarting the heartbeat does is in [Link]. *)
Definition graph_recovery : ConnectionListener World action :=
  mk_listener Recovery.on_connection_lost (Recovery.on_connection_restored (A := graph_auth) (reauth_policy config)).
Definition graph_supervisor : ConnectionListener World action := supervisor (mret ()) (add_listener graph_recovery []).

(** Whatever runs on the client's event loop and can change the sessions: the caller's
    calls, the messages the router hands over, the link's transitions, the two monitors. *)
Inductive task :=
  | TAuthenticate (c : AccountCredentials) (timeout : seconds)
  | TRemove (account_id : Z)
  | TSubscription (adding : bool) (account_id : Z) (s : subscription) (timeout : option seconds)
  | TAccountDisconnect (account_id : Z)
  | TLinkLost
  | TLinkRestored
  | TRecovery (passes : nat)
  | TRefresher (passes : nat)
  | TStop.

Definition run_task (t : task) : async () :=
  match t with
  | TAuthenticate c timeout => authenticate_trader (Some graph_restorer) c timeout
  | TRemove id => _ ← remove_account (Some graph_restorer) id; mret ()
  | TSubscription adding id s timeout => run_subscription (request_timeout config) adding id s timeout
  | TAccountDisconnect id => handle_account_disconnect (A := graph_auth) id
  | TLinkLost => notify_connection_lost (Some graph_supervisor)
  | TLinkRestored => notify_connection_restored (Some graph_supervisor)
  | TRecovery n => serve_recovery (A := graph_auth) (reauth_policy config) n
  | TRefresher n => serve_refresher (Auth := graph_auth) (refresh_policy config) token_store n
  | TStop => _ ← stop_recovery; stop_refresher
  end.
End build_graph.

(** ** Handlers ([on], [register_handler], [off]) *)

Definition register_handler := subscribe.
(** The decorator hands the handler back. *)
Definition on (t : event_type) (account symbol : option Z) (handler : Z) (em : EventEmitter) : res (Z * EventEmitter) :=
  em ← subscribe t handler account symbol em; Ok (handler, em).
Definition off := unsubscribe.

(** The constrained type variables of the overloads of [on] and [register_handler]: which
    event classes take which filters. *)
Definition T_BothFilters : list event_type := [TSpot; TExecution; TDepth].
Definition T_AccountIdOnly : list event_type :=
  [TReady; TOrderError; TTraderUpdate; TMarginChange; Events.TAccountDisconnect; TSymbolChanged;
   TTrailingStopChanged; TMarginCallTrigger; TTokenRefreshFailed; TSubscriptionRestoreFailed].
Definition T_NoFilters : list event_type := [TReconnected; TClientDisconnect; TTokenInvalidated].

(** A call some overload admits. *)
Definition well_typed (t : event_type) (account symbol : option Z) : bool :=
  bool_decide (t ∈ T_BothFilters) ||
  bool_decide (t ∈ T_AccountIdOnly) && bool_decide (symbol = None) ||
  bool_decide (t ∈ T_NoFilters) && bool_decide (account = None) && bool_decide (symbol = None).

(** ** What the caller can ask *)

(** [AuthManager]'s properties and lookups, and [CTraderClient.is_account_authorized]. *)
Definition is_app_authenticated (w : World) : bool := w_app_authenticated w.
Definition authenticated_accounts (w : World) : list Z := account_ids (w_store w).
Definition authorized_accounts (w : World) : list Z := authorized_ids (w_store w).
Definition is_account_authorized (account_id : Z) (w : World) : bool := is_authorized account_id (w_store w).
Definition get_credentials (account_id : Z) (w : World) : option AccountCredentials := credentials account_id (w_store w).
Definition all_account_credentials (w : World) : list AccountCredentials := all_credentials (w_store w).

(** ** Every task keeps the store *)

Abbreviation keeps_sessions := (always (fun w => store_wf (w_store w)) sound).

Lemma keeps_store_op (op : store_op) : keeps (fun w => store_wf (w_store w)) (set_store (fun s => (run_op op s).2)).
Proof. apply keeps_store. intros s. apply run_op_wf. Qed.

Lemma keeps_app_auth f g h :
  keeps (fun w => store_wf (w_store w)) (fun w => set_app_auth (f w) (g w) (h w) w).
Proof. by intros w Hw. Qed.

Lemma keeps_recovery_running b : keeps (fun w => store_wf (w_store w)) (set_recovery_running b).
Proof. by intros w Hw. Qed.

Lemma keeps_refresher_running b : keeps (fun w => store_wf (w_store w)) (set_refresher_running b).
Proof. by intros w Hw. Qed.

Lemma always_flag id : keeps_sessions (on_store (flag_for_recovery id)).
Proof. apply always_on_store. intros w Hw. apply (run_op_wf (OpFlagForRecovery id)), Hw. Qed.

Lemma always_swallow running e k : swallow_stop running e = Some k -> keeps_sessions k.
Proof. destruct e; try done. intros [= <-]. by solve_always. Qed.

#[local] Hint Resolve keeps_app_auth keeps_recovery_running keeps_refresher_running always_flag : always.

Lemma keeps_invalidate : keeps (fun w => store_wf (w_store w)) (set_store invalidate_all).
Proof. exact (keeps_store_op OpInvalidateAll). Qed.

Lemma keeps_authorize c : keeps (fun w => store_wf (w_store w)) (set_store (authorize c)).
Proof. exact (keeps_store_op (OpAuthorize c)). Qed.

Lemma keeps_replace c : keeps (fun w => store_wf (w_store w)) (set_store (replace_credentials c)).
Proof. exact (keeps_store_op (OpReplaceCredentials c)). Qed.

Lemma keeps_reschedule id n a : keeps (fun w => store_wf (w_store w)) (set_store (reschedule_recovery id n a)).
Proof. exact (keeps_store_op (OpReschedule id n a)). Qed.

Lemma keeps_begin_refresh id : keeps (fun w => store_wf (w_store w)) (set_store (begin_refresh id)).
Proof. exact (keeps_store_op (OpBeginRefresh id)). Qed.

Lemma keeps_end_refresh id : keeps (fun w => store_wf (w_store w)) (set_store (end_refresh id)).
Proof. exact (keeps_store_op (OpEndRefresh id)). Qed.

#[local] Hint Resolve keeps_invalidate keeps_authorize keeps_replace keeps_reschedule keeps_begin_refresh
  keeps_end_refresh : always.

Section keeps.
Context `{A : SessionAuthenticator} (Hlaw : LawfulAuthenticator A).
#[local] Set Default Proof Using "Type Hlaw".

Lemma establish_keeps c tr t : keeps_sessions (establish c tr t).
Proof. apply establish_always. intros s. apply (run_op_wf (OpAuthorize c)). Qed.

#[local] Hint Resolve establish_keeps : always.
#[local] Existing Instance Hlaw.

Lemma disconnect_keeps id : keeps_sessions (handle_account_disconnect id).
Proof.
  unfold handle_account_disconnect, handle_settled, check_dropped, wait_for_refresh, report_dropped, except_Exception.
  solve_always; simplify_eq/=; solve_always.
Qed.

Lemma lost_keeps : keeps_sessions on_connection_lost.
Proof. unfold on_connection_lost. solve_always. Qed.

Lemma defer_app_auth_keeps policy : keeps_sessions (defer_app_auth policy).
Proof. unfold defer_app_auth. solve_always. Qed.

#[local] Hint Resolve defer_app_auth_keeps : always.

Lemma restored_keeps policy : keeps_sessions (on_connection_restored policy).
Proof.
  unfold on_connection_restored, first_app_auth, arm_app_auth_recovery, restore_one, except_Exception.
  solve_always; simplify_eq/=; solve_always.
Qed.

Lemma defer_recovery_keeps policy p : keeps_sessions (defer_recovery policy p).
Proof. unfold defer_recovery. solve_always. Qed.

Lemma recover_one_keeps policy p : keeps_sessions (recover_one policy p).
Proof.
  unfold recover_one. apply always_try_except; [auto with always|]. intros e k Hk.
  destruct e; simplify_eq/=; try apply defer_recovery_keeps. destruct (negb _); simplify_eq/=;
    [apply defer_recovery_keeps|]. solve_always.
Qed.

#[local] Hint Resolve recover_one_keeps : always.
Local Opaque recover_one.

Lemma reauth_loop_keeps policy n : keeps_sessions (reauth_loop policy n).
Proof.
  induction n as [|n IH]; [apply always_unfinished|]. cbn [reauth_loop].
  assert (Hp : keeps_sessions (reauth_pass policy)).
  { unfold reauth_pass, recover_queue, retry_app_auth, wait_for_retry, except_Exception.
    solve_always; simplify_eq/=; solve_always. }
  apply always_bind; [apply always_gets|]. intros []; [|apply always_ret]. by apply always_bind.
Qed.

Lemma serve_recovery_keeps policy n : keeps_sessions (serve_recovery policy n).
Proof.
  unfold serve_recovery. solve_always; eauto using reauth_loop_keeps, always_swallow.
Qed.
End keeps.

Section run_task_keeps.
Context `{Stops : StopStrategies} `{Waits : WaitStrategies}.

Lemma except_Exception_always {A} (k : exn -> async A) e k' :
  (forall e, keeps_sessions (k e)) -> except_Exception k e = Some k' -> keeps_sessions k'.
Proof. unfold except_Exception. destruct (is_Exception e); [|done]. by intros ? [= <-]. Qed.

Lemma refresh_tries_keeps {A : SessionAuthenticator} (Hlaw : LawfulAuthenticator A) policy token_store id c :
  token_store_lawful token_store -> keeps_sessions (refresh_tries (Auth := A) policy token_store id c).
Proof.
  intros Hts. apply always_try_finally; [|auto with always]. apply always_try_except.
  - apply always_bind; [|auto with always]. apply retrying_always; [done|]. by apply attempt_always.
  - intros e k. apply except_Exception_always. auto with always.
Qed.

Lemma refresh_one_keeps {A : SessionAuthenticator} (Hlaw : LawfulAuthenticator A) policy token_store item :
  token_store_lawful token_store -> keeps_sessions (refresh_one (Auth := A) policy token_store item).
Proof.
  intros Hts. destruct item as [id c]. apply always_bind; [auto with always|]. intros time.
  destruct (expires_soon _ _ _); [|auto with always]. apply always_try_except.
  - apply always_bind; [auto with always|]. intros [c'|]; [|auto with always].
    apply always_bind; [auto with always|]. intros _.
    apply always_bind; [by apply refresh_tries_keeps|]. intros [e|]; auto with always.
  - intros e k Hk. destruct e; try done. injection Hk as <-. by apply always_emit.
Qed.

Lemma serve_refresher_keeps {A : SessionAuthenticator} (Hlaw : LawfulAuthenticator A) policy token_store n :
  token_store_lawful token_store -> keeps_sessions (serve_refresher (Auth := A) policy token_store n).
Proof.
  intros Hts.
  assert (Hloop : keeps_sessions (refresh_loop (Auth := A) policy token_store n)).
  { induction n as [|n IH]; [apply always_unfinished|]. cbn [refresh_loop].
    apply always_bind; [auto with always|]. intros []; [|auto with always]. apply always_bind; [|done].
    apply always_bind; [by apply always_sleep|]. intros _. apply always_bind; [auto with always|].
    intros held. apply always_for_each. intros item. by apply refresh_one_keeps. }
  apply always_bind; [auto with always|]. intros []; [auto with always|]. apply always_bind; [auto with always|].
  intros _. apply always_try_finally; [|auto with always]. apply always_try_except; [done|].
  intros e k. apply always_swallow.
Qed.

Lemma remove_keeps (R : SessionRestorer) (Hlaw : LawfulRestorer R) id : keeps_sessions (remove_account (Some R) id).
Proof.
  apply always_bind.
  - apply always_on_store. intros w Hw. apply (run_op_wf (OpRemove id)), Hw.
  - intros []; [|auto with always]. apply always_bind; [|auto with always]. intros o w Ho Hw.
    destruct (forget_account_atomic (Some R) Hlaw id o w) as (_ & H2 & H3 & H4). rewrite H2, H3, H4. by split_and!.
Qed.

(** The tasks of the graph, one by one. *)
Lemma run_task_keeps config token_store t :
  token_store_lawful token_store -> keeps_sessions (run_task config token_store t).
Proof.
  intros Hts. pose proof (market_data_lawful (request_timeout config)) as HR.
  pose proof (AuthManager_lawful (client_id config) (client_secret config) (Some (graph_restorer config)) HR) as HA.
  destruct t; cbn [run_task].
  - by apply (establish_keeps HA).
  - apply always_bind; [by apply remove_keeps|auto with always].
  - destruct s, adding; cbn [run_subscription]; unfold subscribe_spots, unsubscribe_spots, subscribe_trendbars,
      unsubscribe_trendbars, subscribe_depth, unsubscribe_depth; by solve_always.
  - by apply disconnect_keeps.
  - apply always_logged, always_for_each_logged. intros l ->%list_elem_of_singleton. apply (lost_keeps HA).
  - apply always_logged, always_bind; [auto with always|]. intros _. apply always_for_each_logged. intros l ->%list_elem_of_singleton.
    by apply restored_keeps.
  - by apply serve_recovery_keeps.
  - by apply serve_refresher_keeps.
  - solve_always.
Qed.

End run_task_keeps.

(** ** Properties *)

(** C6. The sessions of the assembled client are sound under every interleaving: whichever
    of its tasks runs, from whatever well-formed store, if the others keep the store
    well-formed at each of its waits then so does it, at each of its waits and at its end.
    No two tasks can therefore break it together. *)
Theorem sessions_sound `{Stops : StopStrategies} `{Waits : WaitStrategies} (config : ClientConfig)
    (token_store : option TokenStore) (Hts : token_store_lawful token_store) (t : task)
    (o : list (env_step World)) (w : World)
    (Hothers : Forall (fun s => forall w, store_wf (w_store w) -> store_wf (w_store (env_act s w))) o)
    (Hwf : store_wf (w_store w)) :
  store_wf (w_store (state (run_task config token_store t o w))).
Proof. by apply (run_task_keeps config token_store t Hts o w). Qed.

Import Tenacity.

Lemma sessions_sound_witness :
  store_wf (w_store (state (run_task (default_config "id" "secret") (Some broken_storage)
    (TAccountDisconnect 7) [quiet (Err TimeoutError)] expiring_world))).
Proof.
  apply (sessions_sound (default_config "id" "secret") (Some broken_storage) broken_storage_lawful).
  - apply Forall_cons. split; [intros w Hw; exact Hw|apply Forall_nil; exact I].
  - apply expiring_world_wf.
Defined.

(** C16. What subscribers may rely on. Whichever of the tasks that look after the sessions
    runs, and whatever the others do at its waits: it publishes events of a session's life
    and no other; the error of a failed refresh is a [TokenRefreshError], that of a failed
    restoration an [Exception], never a cancellation; a reconnection whose application
    authentication failed lists no account; and no account is announced ready because its
    tokens were rotated. *)
Theorem published_events_sound `{Stops : StopStrategies} `{Waits : WaitStrategies} (config : ClientConfig)
    (token_store : option TokenStore) (Hts : token_store_lawful token_store) (t : task)
    (o : list (env_step World)) (w : World)
    (Hothers : Forall (fun s => forall w, store_wf (w_store w) -> store_wf (w_store (env_act s w))) o)
    (Hwf : store_wf (w_store w)) :
  forall e, AEmit e ∈ acts (run_task config token_store t o w) ->
  match e with
  | TokenRefreshFailedEvent _ x => exists id cause, x = TokenRefreshError id cause
  | SubscriptionRestoreFailedEvent _ x => x ≠ Cancelled
  | AccountDisconnectEvent _ => True
  | ReconnectedEvent app_auth_restored restored failed => app_auth_restored = true \/ (restored = [] /\ failed = [])
  | ReadyEvent _ trigger => trigger ≠ AuthTrigger.TOKEN_REFRESH
  | _ => False
  end.
Proof.
  destruct (run_task_keeps config token_store t Hts o w) as (_ & H & _); [done..|].
  intros e He. apply (proj1 (Forall_forall _ _) H) in He. destruct e as [| | | | | | |? []|? x| | | | | |[]|];
    simpl in *; first [by eauto|by intros ->|by right; auto].
Qed.

Lemma published_events_sound_witness
    (r := run_task (default_config "id" "secret") (Some broken_storage) (TRefresher 1)
      (replicate 4 (quiet (Err TimeoutError))) expiring_world)
    (failure := TokenRefreshFailedEvent 7 (TokenRefreshError (Some 7) (Some TimeoutError))) :
  AEmit failure ∈ acts r /\ exists id cause, TokenRefreshError (Some 7) (Some TimeoutError) = TokenRefreshError id cause.
Proof.
  assert (E : acts r = [ASleep (60 * second); ASend (MRefreshTokenReq "refresh") (30 * second); AEmit failure]) by (vm_compute; reflexivity).
  assert (H : AEmit failure ∈ acts r) by (rewrite E; do 2 apply list_elem_of_further; apply list_elem_of_here).
  split; [exact H|]. revert H.
  apply (published_events_sound (default_config "id" "secret") (Some broken_storage) broken_storage_lawful).
  - repeat (apply Forall_cons; split; [intros w Hw; exact Hw|]). apply Forall_nil; exact I.
  - apply expiring_world_wf.
Defined.

(** The overloads and the check at run time agree: a call is admitted by an overload
    exactly when [subscribe] does not refuse it, so a well-typed registration never raises
    and an ill-typed one always does; and every event class has exactly one overload. *)
Theorem overloads_exact (t : event_type) (account symbol : option Z) (handler : Z) (em : EventEmitter) :
  (well_typed t account symbol = true <-> exists em', register_handler t handler account symbol em = Ok em') /\
  (well_typed t account symbol = false <-> exists msg, register_handler t handler account symbol em = Err (ValueError msg)) /\
  length (filter (fun l => t ∈ l) [T_BothFilters; T_AccountIdOnly; T_NoFilters]) = 1%nat.
Proof.
  split_and!; [| |by destruct t];
    destruct t, account as [a|], symbol as [s|]; vm_compute well_typed; unfold register_handler, subscribe, validate_filter;
    cbn [has_field mbind res_bind]; split; intros H; try discriminate; try (eexists; reflexivity); try done;
    by destruct H.
Qed.

(** The lookups tell the same story: an account has a live session exactly when it is
    listed as authorized, which only accounts that are held are; and the credentials are
    those of every account held, each under its own id. *)
Theorem queries_agree (w : World) (Hw : store_wf (w_store w)) (id : Z) :
  (is_account_authorized id w = true <-> id ∈ authorized_accounts w) /\
  (id ∈ authorized_accounts w -> id ∈ authenticated_accounts w) /\
  (id ∈ authenticated_accounts w <-> exists c, get_credentials id w = Some c /\ account_id c = id) /\
  account_id <$> all_account_credentials w = authenticated_accounts w.
Proof.
  unfold is_account_authorized, authorized_accounts, authenticated_accounts, get_credentials, all_account_credentials.
  pose proof (authorized_ids_spec id _ Hw) as Hauth. pose proof (items_credentials _ Hw) as Hitems.
  destruct (one_situation _ Hw) as (_ & Hheld & Hc). split_and!; [done| | |].
  - rewrite Hauth, Hheld. unfold is_authorized, credentials. by destruct (dict_get id _).
  - rewrite Hheld. split; [intros [c Hid]|intros (c & Hid & _); eauto].
    exists c. split; [done|]. by apply Hc in Hid as [? _].
  - apply (f_equal (fmap fst)) in Hitems. unfold items, account_ids in *.
    rewrite <- !list_fmap_compose in Hitems. symmetry. etrans; [|etrans; [exact Hitems|]]; apply list_fmap_ext; by intros ? [].
Qed.

Lemma queries_agree_witness : authenticated_accounts idle_world = [] /\ is_account_authorized 7 idle_world = false.
Proof.
  destruct (queries_agree idle_world empty_store_wf 7) as (H & _ & _ & H4).
  split; [rewrite <- H4; reflexivity|].
  destruct (is_account_authorized 7 idle_world) eqn:E; [|reflexivity].
  exfalso. apply (not_elem_of_nil 7). exact (proj1 H eq_refl).
Defined.

(** Told of a drop, the client holds no session from that moment on. By the time the
    protocol has told the supervisor, with no other task in between, the recovery has
    discarded every session and nothing is left to recover or to retry, and no failure can
    come of it; the accounts and their credentials are all still there. *)
Theorem drop_clears_sessions (config : ClientConfig) (o : list (env_step World)) (w : World) :
  let r := notify_connection_lost (Some (graph_supervisor config)) o w in
  out r = Done () /\ acts r = [] /\ rest r = o /\
  authorized_ids (w_store (state r)) = [] /\ awaiting_recovery (w_store (state r)) = [] /\
  w_app_auth_pending (state r) = false /\
  items (w_store (state r)) = items (w_store w).
Proof.
  cbv zeta.
  assert (E : notify_connection_lost (Some (graph_supervisor config)) o w =
    mk_result (Done ()) (set_store invalidate_all (set_app_auth false (w_app_auth_attempts w) (w_app_auth_next_at w) w)) [] o)
    by reflexivity.
  rewrite E. cbn [out acts rest state w_store set_store set_app_auth w_app_auth_pending]. split_and!; try done.
  - apply invalidate_all_authorized.
  - apply invalidate_all_awaiting.
  - unfold items, invalidate_all, with_accounts. cbn [accounts]. rewrite <-list_fmap_compose.
    apply list_fmap_ext. by intros i [k [cr se]].
Qed.
