(* ===== verification/Composition.v ===== *)
(** * The objects a client runs on ([composition.py], [client.py])

    [Client] instantiates the ports of the components with one another as [build_graph]
    does. Whether that is what the code does is a matter of which object is handed to which
    constructor: here [build_graph] runs on a heap of objects, and what is proved is who
    shares what with whom. *)

From S2P Require Import Prelude Errors Wire Messages Protocol Emitter Session World MarketData Recovery Refresh Client.
From stdpp Require Import options.
Open Scope string_scope.
Open Scope list_scope.
Open Scope Z_scope.

(** ** Objects *)

(** A reference: the place of an object on the heap. *)
Abbreviation ref := nat.

(** The namespaces that only send requests. *)
Inductive namespace := Accounts | Symbols | Trading.

(** What the constructors store: the references they were given, the settings, and the
    state the object starts with. *)
Inductive object :=
  | MonotonicClock
  | ATransport (o_host : string) (o_port : Z) (o_use_ssl : bool) (o_connect_timeout : seconds)
  | AProtocol (transport : ref) (attempts : option Z) (min_wait max_wait : seconds) (state : Protocol)
      (listener : option ref)
  | AHeartbeatManager (protocol : ref) (interval timeout : seconds) (clock : ref)
  | AConnectionSupervisor (transport protocol heartbeat : ref) (listeners : list ref) (serving : bool)
  | AnEventEmitter (subscriptions : EventEmitter)
  | AMarketDataAPI (protocol publisher : ref) (default_timeout : seconds) (standing : StandingTable)
  | ASessionStore (store : SessionStore)
  | AnAuthManager (protocol publisher : ref) (o_client_id o_client_secret : string) (store : ref) (restorer : option ref)
      (app_authenticated : bool)
  | ATokenRefresher (protocol store authenticator publisher : ref) (policy : RefreshPolicy) (clock : ref)
      (token_store : option ref)
  | ASessionRecovery (store authenticator publisher : ref) (policy : ReauthPolicy) (clock : ref)
  | AnEventRouter (protocol emitter recovery : ref)
  | ANamespace (n : namespace) (protocol : ref) (default_timeout : seconds)
  | AnotherObject (fields : list ref).   (* the caller's own *)

Abbreviation heap := (list object).

(** The references an object holds. *)
Definition fields (o : object) : list ref :=
  match o with
  | MonotonicClock | ATransport _ _ _ _ | AnEventEmitter _ | ASessionStore _ => []
  | AProtocol t _ _ _ _ l => t :: option_list l
  | AHeartbeatManager p _ _ c => [p; c]
  | AConnectionSupervisor t p h ls _ => t :: p :: h :: ls
  | AMarketDataAPI p e _ _ => [p; e]
  | AnAuthManager p e _ _ s r _ => p :: e :: s :: option_list r
  | ATokenRefresher p s a e _ c ts => p :: s :: a :: e :: c :: option_list ts
  | ASessionRecovery s a e _ c => [s; a; e; c]
  | AnEventRouter p e r => [p; e; r]
  | ANamespace _ p _ => [p]
  | AnotherObject l => l
  end.

(** ** Construction *)

(** Code that builds: it reads and extends the heap. *)
Definition building (A : Type) : Type := heap -> A * heap.
#[export] Instance building_ret : MRet building := fun A a h => (a, h).
#[export] Instance building_bind : MBind building := fun A B f m h => let '(a, h') := m h in f a h'.

Definition new (o : object) : building ref := fun h => (length h, h ++ [o]).
Definition update (r : ref) (f : object -> object) : building () := fun h => ((), alter f r h).

(** [clock if clock is not None else MonotonicClock()] *)
Definition own_clock (clock : option ref) : building ref :=
  match clock with Some c => mret c | None => new MonotonicClock end.

Definition new_Transport (host : string) (port : Z) (use_ssl : bool) (connect_timeout : seconds) : building ref :=
  new (ATransport host port use_ssl connect_timeout).

Definition new_Protocol (transport : ref) (attempts : option Z) (min_wait max_wait : seconds) : building ref :=
  new (AProtocol transport attempts min_wait max_wait new_protocol None).

Definition new_HeartbeatManager (protocol : ref) (interval timeout : seconds) (clock : option ref) : building ref :=
  c ← own_clock clock; new (AHeartbeatManager protocol interval timeout c).

(** [Protocol.set_listener] *)
Definition set_listener (listener : ref) (o : object) : object :=
  match o with
  | AProtocol t n a b p _ => AProtocol t n a b p (Some listener)
  | o => o
  end.

(** The constructor registers the new object with the protocol it is given. *)
Definition new_ConnectionSupervisor (transport protocol heartbeat : ref) : building ref :=
  s ← new (AConnectionSupervisor transport protocol heartbeat [] false);
  _ ← update protocol (set_listener s);
  mret s.

(** [ConnectionSupervisor.add_listener] *)
Definition register_listener (listener : ref) (o : object) : object :=
  match o with
  | AConnectionSupervisor t p h ls b => AConnectionSupervisor t p h (ls ++ [listener]) b
  | o => o
  end.

Definition new_EventEmitter : building ref := new (AnEventEmitter []).
Definition new_SessionStore : building ref := new (ASessionStore empty_store).

Definition new_MarketDataAPI (protocol publisher : ref) (default_timeout : seconds) : building ref :=
  new (AMarketDataAPI protocol publisher default_timeout empty_table).

(** [store if store is not None else SessionStore()] *)
Definition new_AuthManager (protocol publisher : ref) (client_id client_secret : string) (store restorer : option ref)
    : building ref :=
  s ← match store with Some s => mret s | None => new_SessionStore end;
  new (AnAuthManager protocol publisher client_id client_secret s restorer false).

Definition new_TokenRefresher (protocol store authenticator publisher : ref) (policy : option RefreshPolicy)
    (clock token_store : option ref) : building ref :=
  c ← own_clock clock;
  new (ATokenRefresher protocol store authenticator publisher (default default_refresh_policy policy) c token_store).

Definition new_SessionRecovery (store authenticator publisher : ref) (policy : option ReauthPolicy) (clock : option ref)
    : building ref :=
  c ← own_clock clock;
  new (ASessionRecovery store authenticator publisher (default default_reauth_policy policy) c).

Definition new_EventRouter (protocol emitter recovery : ref) : building ref :=
  new (AnEventRouter protocol emitter recovery).

(** [BaseAPI.__init__] *)
Definition new_BaseAPI (n : namespace) (protocol : ref) (default_timeout : seconds) : building ref :=
  new (ANamespace n protocol default_timeout).

(** [ClientGraph]; the configuration is a value. *)
Record ClientGraph := mk_graph {
  g_transport : ref;
  g_protocol : ref;
  g_heartbeat : ref;
  g_supervisor : ref;
  g_emitter : ref;
  g_router : ref;
  g_auth : ref;
  g_refresher : ref;
  g_recovery : ref;
  g_accounts : ref;
  g_symbols : ref;
  g_trading : ref;
  g_market_data : ref;
}.

Definition build_graph (config : ClientConfig) (token_store clock : option ref) : building ClientGraph :=
  transport ← new_Transport (host config) (port config) (use_ssl config) (connect_timeout config);
  protocol ← new_Protocol transport (reconnect_attempts config) (reconnect_min_wait config) (reconnect_max_wait config);
  heartbeat ← new_HeartbeatManager protocol (heartbeat_interval config) (heartbeat_timeout config) clock;
  supervisor ← new_ConnectionSupervisor transport protocol heartbeat;
  emitter ← new_EventEmitter;
  market_data ← new_MarketDataAPI protocol emitter (request_timeout config);
  sessions ← new_SessionStore;
  auth ← new_AuthManager protocol emitter (client_id config) (client_secret config) (Some sessions) (Some market_data);
  refresher ← new_TokenRefresher protocol sessions auth emitter (Some (refresh_policy config)) clock token_store;
  recovery ← new_SessionRecovery sessions auth emitter (Some (reauth_policy config)) clock;
  router ← new_EventRouter protocol emitter recovery;
  _ ← update supervisor (register_listener recovery);
  accounts ← new_BaseAPI Accounts protocol (request_timeout config);
  symbols ← new_BaseAPI Symbols protocol (request_timeout config);
  trading ← new_BaseAPI Trading protocol (request_timeout config);
  mret (mk_graph transport protocol heartbeat supervisor emitter router auth refresher recovery
          accounts symbols trading market_data).

(** The client keeps neither the transport nor the heartbeat. *)
Record CTraderClient := mk_client {
  c_protocol : ref;
  c_supervisor : ref;
  c_emitter : ref;
  c_router : ref;
  c_auth : ref;
  c_refresher : ref;
  c_recovery : ref;
  c_accounts : ref;
  c_symbols : ref;
  c_trading : ref;
  c_market_data : ref;
  c_running : bool;
}.

(** [CTraderClient._adopt] *)
Definition adopt (g : ClientGraph) : CTraderClient :=
  mk_client (g_protocol g) (g_supervisor g) (g_emitter g) (g_router g) (g_auth g) (g_refresher g) (g_recovery g)
    (g_accounts g) (g_symbols g) (g_trading g) (g_market_data g) false.

(** [CTraderClient(config, token_store=token_store)] and [CTraderClient.from_graph(graph)] *)
Definition new_CTraderClient (config : ClientConfig) (token_store : option ref) : building CTraderClient :=
  g ← build_graph config token_store None; mret (adopt g).
Definition from_graph (g : ClientGraph) : CTraderClient := adopt g.

(** The properties of the client. *)
Definition client_auth (c : CTraderClient) : ref := c_auth c.
Definition client_accounts (c : CTraderClient) : ref := c_accounts c.
Definition client_symbols (c : CTraderClient) : ref := c_symbols c.
Definition client_trading (c : CTraderClient) : ref := c_trading c.
Definition client_market_data (c : CTraderClient) : ref := c_market_data c.
Definition client_protocol (c : CTraderClient) : ref := c_protocol c.

(** ** Where everything ends up

    The objects of a graph, the first of them at [n]. *)
Definition graph_objects (config : ClientConfig) (token_store clock : option ref) (n : nat) : heap :=
  let timeout := request_timeout config in
  let own k := match clock with Some c => c | None => (n + k)%nat end in
  (* one place more for each clock of its own *)
  let place k j := (n + match clock with Some _ => j | None => k + j end)%nat in
  let heartbeat := place 1%nat 2%nat in
  let supervisor := place 1%nat 3%nat in
  let emitter := place 1%nat 4%nat in
  let market_data := place 1%nat 5%nat in
  let sessions := place 1%nat 6%nat in
  let auth := place 1%nat 7%nat in
  let refresher := place 2%nat 8%nat in
  let recovery := place 3%nat 9%nat in
  let made := match clock with Some _ => [] | None => [MonotonicClock] end in
  [ATransport (host config) (port config) (use_ssl config) (connect_timeout config);
   AProtocol n (reconnect_attempts config) (reconnect_min_wait config) (reconnect_max_wait config) new_protocol
     (Some supervisor)] ++ made ++
  [AHeartbeatManager (n + 1) (heartbeat_interval config) (heartbeat_timeout config) (own 2%nat);
   AConnectionSupervisor n (n + 1) heartbeat [recovery] false;
   AnEventEmitter [];
   AMarketDataAPI (n + 1) emitter timeout empty_table;
   ASessionStore empty_store;
   AnAuthManager (n + 1) emitter (client_id config) (client_secret config) sessions (Some market_data) false] ++ made ++
  [ATokenRefresher (n + 1) sessions auth emitter (refresh_policy config) (own 9%nat) token_store] ++ made ++
  [ASessionRecovery sessions auth emitter (reauth_policy config) (own 11%nat);
   AnEventRouter (n + 1) emitter recovery;
   ANamespace Accounts (n + 1) timeout;
   ANamespace Symbols (n + 1) timeout;
   ANamespace Trading (n + 1) timeout].

Definition graph_refs (clock : option ref) (n : nat) : ClientGraph :=
  let place k j := (n + match clock with Some _ => j | None => k + j end)%nat in
  mk_graph n (n + 1) (place 1%nat 2%nat) (place 1%nat 3%nat) (place 1%nat 4%nat) (place 3%nat 10%nat) (place 1%nat 7%nat)
    (place 2%nat 8%nat) (place 3%nat 9%nat) (place 3%nat 11%nat) (place 3%nat 12%nat) (place 3%nat 13%nat) (place 1%nat 5%nat).

Lemma new_at o h l n : n = length h -> new o (h ++ l) = ((n + length l)%nat, h ++ (l ++ [o])).
Proof. intros ->. unfold new. by rewrite length_app, (assoc_L (++)). Qed.

Lemma update_at k f h l n : n = length h -> update (n + k) f (h ++ l) = ((), h ++ alter f k l).
Proof. intros ->. unfold update. by rewrite alter_app_r. Qed.

Lemma build_graph_layout config token_store clock h :
  build_graph config token_store clock h =
  (graph_refs clock (length h), h ++ graph_objects config token_store clock (length h)).
Proof.
  rewrite <- (app_nil_r h) at 1. remember (length h) as n eqn:Hn.
  unfold build_graph, new_Transport, new_Protocol, new_HeartbeatManager, new_ConnectionSupervisor, new_EventEmitter,
    new_MarketDataAPI, new_SessionStore, new_AuthManager, new_TokenRefresher, new_SessionRecovery, new_EventRouter,
    new_BaseAPI, own_clock, mbind, building_bind, mret, building_ret.
  destruct clock as [c|];
    repeat (first [rewrite (new_at _ _ _ _ Hn) | rewrite (update_at _ _ _ _ _ Hn)]; cbn [length app alter list_alter set_listener register_listener]);
    unfold graph_refs, graph_objects; cbn [app]; repeat first [reflexivity | lia | progress f_equal].
Qed.

(** ** Who can reach what *)

(** [r] leads to [r'] through the objects of [h]. *)
Definition reaches (h : heap) : ref -> ref -> Prop := rtc (fun r r' => exists o, h !! r = Some o /\ r' ∈ fields o).

(** The references a client holds. *)
Definition client_fields (c : CTraderClient) : list ref :=
  [c_protocol c; c_supervisor c; c_emitter c; c_router c; c_auth c; c_refresher c; c_recovery c;
   c_accounts c; c_symbols c; c_trading c; c_market_data c].

Definition client_reaches (h : heap) (c : CTraderClient) (r : ref) : Prop :=
  exists r0, r0 ∈ client_fields c /\ reaches h r0 r.

(** What the objects of a graph refer to: one another, and what the caller gave. *)
Definition confined (lo hi : nat) (given : list ref) (r : ref) : Prop := (lo <= r < hi)%nat \/ r ∈ given.

Definition given_refs (token_store clock : option ref) : list ref := option_list token_store ++ option_list clock.

Lemma graph_confined config token_store clock n :
  Forall (fun o => Forall (confined n (n + length (graph_objects config token_store clock n)) (given_refs token_store clock))
    (fields o)) (graph_objects config token_store clock n).
Proof.
  unfold confined, given_refs. destruct clock as [c|], token_store as [ts|]; simpl;
    repeat (apply Forall_cons_2 || apply Forall_nil_2);
    first [left; lia | right; repeat (apply list_elem_of_here || apply list_elem_of_further)].
Qed.

Lemma roots_confined config token_store clock n r :
  r ∈ client_fields (adopt (graph_refs clock n)) ->
  (n <= r < n + length (graph_objects config token_store clock n))%nat.
Proof.
  unfold client_fields, graph_refs. destruct clock; simpl; intros Hr;
    repeat (apply elem_of_cons in Hr as [->|Hr]; [lia|]); by apply not_elem_of_nil in Hr.
Qed.

(** From inside a region whose objects are confined one gets nowhere but into it and on from
    what was given. *)
Lemma reaches_confined h lo hi given r r' :
  (forall i o, (lo <= i < hi)%nat -> h !! i = Some o -> Forall (confined lo hi given) (fields o)) ->
  (lo <= r < hi)%nat -> reaches h r r' ->
  (lo <= r' < hi)%nat \/ exists t, t ∈ given /\ reaches h t r'.
Proof.
  intros Hh Hr. induction 1 as [r|r r1 r' (o & Ho & Hr1) Hreach IH]; [by left|].
  pose proof (Hh _ _ Hr Ho) as Hall. rewrite Forall_forall in Hall. destruct (Hall _ Hr1) as [?|?]; [auto|right; eauto].
Qed.

(** A client built on [h], seen on any heap that goes on from there. *)
Lemma client_confined config token_store clock h rest r :
  let objects := graph_objects config token_store clock (length h) in
  client_reaches (h ++ objects ++ rest) (adopt (graph_refs clock (length h))) r ->
  (length h <= r < length h + length objects)%nat \/
  exists t, t ∈ given_refs token_store clock /\ reaches (h ++ objects ++ rest) t r.
Proof.
  cbv zeta. intros (r0 & Hr0 & Hreach).
  apply (roots_confined config token_store) in Hr0. revert Hr0 Hreach. apply reaches_confined.
  intros i o Hi Ho. rewrite lookup_app_r in Ho by lia. rewrite lookup_app_l in Ho by lia.
  apply list_elem_of_lookup_2 in Ho.
  exact (proj1 (Forall_forall _ _) (graph_confined config token_store clock (length h)) _ Ho).
Qed.

(** ** Properties *)

(** C34. Clients share nothing. Two clients built one after the other, on any heap, with any
    configurations, and whatever is made in between, can both reach an object only if it
    can be reached from what the caller handed to their constructors: no protocol, session
    store, emitter or clock is common to two clients. *)
Theorem clients_share_nothing (config1 config2 : ClientConfig) (store1 store2 : option ref) (h other h1 h2 : heap)
    (c1 c2 : CTraderClient) (r : ref)
    (Hc1 : new_CTraderClient config1 store1 h = (c1, h1)) (Hc2 : new_CTraderClient config2 store2 (h1 ++ other) = (c2, h2))
    (H1 : client_reaches h2 c1 r) (H2 : client_reaches h2 c2 r) :
  exists t, (store1 = Some t \/ store2 = Some t) /\ reaches h2 t r.
Proof.
  unfold new_CTraderClient, mbind, building_bind, mret, building_ret in Hc1, Hc2.
  rewrite build_graph_layout in Hc1, Hc2. injection Hc1 as <- <-. injection Hc2 as <- <-.
  set (o1 := graph_objects config1 store1 None (length h)) in *.
  set (h' := (h ++ o1) ++ other) in *.
  rewrite <- (app_nil_r (h' ++ _)) in H1, H2 |- *. rewrite <- (assoc_L (++)) in H1, H2 |- *.
  assert (E : forall l, h' ++ l = h ++ o1 ++ (other ++ l)) by (intros l; unfold h'; by rewrite <- !(assoc_L (++))).
  apply client_confined in H2. rewrite E in H1. apply client_confined in H1. rewrite <- E in H1.
  assert (Hlen : length h' = (length h + length o1 + length other)%nat) by (unfold h'; by rewrite !length_app).
  unfold given_refs in H1, H2. rewrite app_nil_r in H1, H2. fold o1 in H1.
  assert (Hgiven : forall (ts : option ref) t, t ∈ option_list ts -> ts = Some t).
  { intros [ts|] t; simpl; [by intros ->%list_elem_of_singleton|by intros ?%not_elem_of_nil]. }
  destruct H1 as [H1|(t & Ht & H1)]; [|exists t; auto].
  destruct H2 as [H2|(t & Ht & H2)]; [lia|exists t; auto].
Qed.

(** Two clients with the same token store, the first object of the heap. *)
Module TwoClients.
Definition config : ClientConfig := default_config "id" "secret".
Definition first : CTraderClient * heap := new_CTraderClient config (Some 0%nat) [AnotherObject []].
Definition second : CTraderClient * heap := new_CTraderClient config (Some 0%nat) (first.2 ++ []).

Lemma first_built : new_CTraderClient config (Some 0%nat) [AnotherObject []] = (first.1, first.2).
Proof. apply surjective_pairing. Qed.
Lemma second_built : new_CTraderClient config (Some 0%nat) (first.2 ++ []) = (second.1, second.2).
Proof. apply surjective_pairing. Qed.

(** Each reaches it through its refresher. *)
Lemma through_refresher (c : CTraderClient) :
  c_refresher c ∈ client_fields c.
Proof. unfold client_fields. set_solver. Qed.

Lemma first_reaches : client_reaches second.2 first.1 0%nat.
Proof.
  exists (c_refresher first.1). split; [apply through_refresher|]. apply rtc_once.
  eexists. split; [vm_compute; reflexivity|]. apply (bool_decide_unpack _). vm_compute. exact I.
Qed.

Lemma second_reaches : client_reaches second.2 second.1 0%nat.
Proof.
  exists (c_refresher second.1). split; [apply through_refresher|]. apply rtc_once.
  eexists. split; [vm_compute; reflexivity|]. apply (bool_decide_unpack _). vm_compute. exact I.
Qed.
End TwoClients.

Lemma clients_share_nothing_witness :
  exists t, (Some 0%nat = Some t \/ Some 0%nat = Some t) /\ reaches TwoClients.second.2 t 0%nat.
Proof.
  exact (clients_share_nothing TwoClients.config TwoClients.config (Some 0%nat) (Some 0%nat) [AnotherObject []] []
    TwoClients.first.2 TwoClients.second.2 TwoClients.first.1 TwoClients.second.1 0%nat
    TwoClients.first_built TwoClients.second_built TwoClients.first_reaches TwoClients.second_reaches).
Defined.

(** Within a client there is one of each, and everything uses it. Whatever sends, sends on
    the one protocol; whatever publishes, publishes on the one emitter; the manager, the
    refresher and the recovery keep the one session store, and the latter two authenticate
    with the former, which restores the subscriptions of the very namespace the caller
    subscribes with; the protocol reports to the supervisor, the supervisor and the router
    to the recovery; the token store goes to the refresher alone. A clock that is given
    drives all three timers, otherwise each makes its own. These are the objects the
    properties of the client give its caller. *)
Theorem graph_wired (config : ClientConfig) (token_store clock : option ref) (h : heap) :
  let '(g, h') := build_graph config token_store clock h in
  let c := from_graph g in
  exists sessions c1 c2 c3,
    h' !! client_protocol c = Some (AProtocol (g_transport g) (reconnect_attempts config) (reconnect_min_wait config)
      (reconnect_max_wait config) new_protocol (Some (g_supervisor g))) /\
    h' !! g_supervisor g =
      Some (AConnectionSupervisor (g_transport g) (client_protocol c) (g_heartbeat g) [g_recovery g] false) /\
    h' !! g_heartbeat g =
      Some (AHeartbeatManager (client_protocol c) (heartbeat_interval config) (heartbeat_timeout config) c1) /\
    h' !! client_market_data c = Some (AMarketDataAPI (client_protocol c) (g_emitter g) (request_timeout config) empty_table) /\
    h' !! sessions = Some (ASessionStore empty_store) /\
    h' !! client_auth c = Some (AnAuthManager (client_protocol c) (g_emitter g) (client_id config) (client_secret config) sessions
      (Some (client_market_data c)) false) /\
    h' !! g_refresher g = Some (ATokenRefresher (client_protocol c) sessions (client_auth c) (g_emitter g) (refresh_policy config)
      c2 token_store) /\
    h' !! g_recovery g = Some (ASessionRecovery sessions (client_auth c) (g_emitter g) (reauth_policy config) c3) /\
    h' !! g_router g = Some (AnEventRouter (client_protocol c) (g_emitter g) (g_recovery g)) /\
    h' !! g_emitter g = Some (AnEventEmitter []) /\
    h' !! client_accounts c = Some (ANamespace Accounts (client_protocol c) (request_timeout config)) /\
    h' !! client_symbols c = Some (ANamespace Symbols (client_protocol c) (request_timeout config)) /\
    h' !! client_trading c = Some (ANamespace Trading (client_protocol c) (request_timeout config)) /\
    match clock with
    | Some clk => c1 = clk /\ c2 = clk /\ c3 = clk
    | None => NoDup [c1; c2; c3] /\ Forall (fun clk => h' !! clk = Some MonotonicClock) [c1; c2; c3]
    end.
Proof.
  rewrite build_graph_layout. set (n := length h).
  assert (Hat : forall k, (h ++ graph_objects config token_store clock n) !! (n + k)%nat =
    graph_objects config token_store clock n !! k) by (intros k; rewrite lookup_app_r by (unfold n; lia); f_equal; unfold n; lia).
  assert (Hat0 : (h ++ graph_objects config token_store clock n) !! n = graph_objects config token_store clock n !! 0%nat)
    by (rewrite <- (Hat 0%nat); f_equal; lia).
  set (go := graph_objects config token_store clock n) in *.
  destruct clock as [c|].
  - exists (n + 6)%nat, c, c, c. unfold graph_refs. cbn. rewrite ?Hat0, !Hat. by split_and!.
  - exists (n + 7)%nat, (n + 2)%nat, (n + 9)%nat, (n + 11)%nat. unfold graph_refs. cbn. rewrite ?Hat0, !Hat.
    split_and!; try reflexivity.
    + repeat (apply NoDup_cons_2; [rewrite ?not_elem_of_cons; repeat split; try lia; apply not_elem_of_nil|]).
      apply NoDup_nil_2.
    + repeat (apply Forall_cons_2; [by rewrite Hat|]). apply Forall_nil_2.
Qed.
