(* ===== verification/Healing.v ===== *)
(** * How the client heals

    The components put together: what becomes of an account whose session was dropped, and
    of all of them when the link was, as the tasks of [Client] run one after the other. *)

From S2P Require Import Prelude Errors Enums Numbers Wire Effects.
From S2P Require Import Supervisor Protocol Link Models Session Events World MarketData Auth Recovery Refresh Client.
From stdpp Require Import options.
Import AuthTrigger(auth_trigger).
Open Scope string_scope.
Open Scope list_scope.
Open Scope Z_scope.

(** ** A drop and its repair *)

(** What is subscribed again for an account. *)
Definition reapplied (account_id : Z) (t : StandingTable) : list (message * Cls.msg_class) :=
  match standing_of account_id t with Some s => restore_requests account_id s | None => [] end.

Lemma reapplied_restoration (id : Z) (t : StandingTable) : restoration id (standing_of id t) (reapplied id t).
Proof. unfold reapplied. destruct (standing_of id t); [apply restore_requests_restoration|done]. Qed.

(** The answers an account meets with on its return: the authorization's, those to what is
    subscribed again, and what publishing the return gives. *)
Record answers := mk_answers {
  ans_credentials : AccountCredentials;
  ans_accepted : message;
  ans_subscriptions : list (res message);
  ans_published : message;
}.

(** They let it in. *)
Definition welcome (t : StandingTable) (b : answers) : Prop :=
  class_of (ans_accepted b) = Cls.ProtoOAAccountAuthRes /\
  Forall2 accepts (reapplied (account_id (ans_credentials b)) t) (ans_subscriptions b).

Definition welcome_steps (b : answers) : list (env_step World) :=
  quiet (Ok (ans_accepted b)) :: (quiet <$> ans_subscriptions b) ++ [quiet (Ok (ans_published b))].

Section repair.
Context (config : ClientConfig).
#[local] Set Default Proof Using "Type".
Implicit Types (o : list (env_step World)) (w : World) (c : AccountCredentials) (b : answers).

(** What the client does on an account's return: it authorizes it, subscribes it again and
    announces it. *)
Definition return_acts (t : StandingTable) (b : answers) : list action :=
  let c := ans_credentials b in
  ASend (MAccountAuthReq (account_id c) (access_token c)) AUTH_TIMEOUT ::
  sends (request_timeout config) (reapplied (account_id c) t) ++
  [AEmit (ReadyEvent (account_id c) AuthTrigger.ACCOUNT_REAUTH)].

(** What a held account is. *)
Lemma held_account id c w :
  credentials id (w_store w) = Some c -> is_authorized id (w_store w) = true ->
  dict_get id (accounts (w_store w)) = Some (mk_tracked c (Some Authorized)).
Proof.
  unfold credentials, is_authorized. destruct (dict_get id _) as [[c' [[]|]]|]; simpl; try done. by intros [= ->].
Qed.

(** The probe says no. *)
Lemma run_probe_refused id t a o w :
  is_token_failure a = false ->
  probe_session (SessionAuthenticator := graph_auth config) id t (quiet (Err (APIError a)) :: o) w =
  mk_result (Done false) w [ASend (MTraderReq id) t] o.
Proof.
  intros Ha. cbn [probe_session graph_auth AuthManager]. unfold manager_probe_session, try_except.
  rewrite (bind_eq _ _ _ _ _ (run_request _ _ _ _ _ _)). cbn [mbind res_bind out]. unfold ended, except_APIError.
  cbn [as_APIError fmap option_fmap option_map out]. by rewrite Ha.
Qed.

Lemma run_dropped id a m o w :
  is_refreshing id (w_store w) = false -> is_authorized id (w_store w) = true -> id ∉ w_verifying w ->
  is_token_failure a = false ->
  handle_account_disconnect (A := graph_auth config) id (quiet (Err (APIError a)) :: quiet (Ok m) :: o) w =
  mk_result (Done ()) (set_signal true (set_store (fun _ => (flag_for_recovery id (w_store w)).2) w))
    [ASend (MTraderReq id) PROBE_TIMEOUT; AEmit (AccountDisconnectEvent id)] o.
Proof.
  intros Hr Hauth Hver Ha. rewrite run_handle, run_settled, decide_True, run_try_finally, run_check by done.
  rewrite run_probe_refused by done. cbn [out]. unfold continue. cbn [state rest acts]. rewrite run_report, run_emit.
  cbn [out state rest acts app]. f_equal. unfold set_verifying, set_signal, set_store. cbn. f_equal. set_solver.
Qed.

(** Re-applying what is recorded, when every request is accepted. *)
Lemma run_restore_accepted id rs o w :
  table_wf (w_standing w) -> Forall2 accepts (reapplied id (w_standing w)) rs -> Forall is_quiet o ->
  restore_account (Some (graph_restorer config)) id ((quiet <$> rs) ++ o) w =
  mk_result (Done ()) w (sends (request_timeout config) (reapplied id (w_standing w))) o.
Proof.
  intros Ht Hrs Ho. unfold reapplied in *. cbn [restore_account restore graph_restorer market_data_restorer].
  destruct (standing_of id (w_standing w)) as [s|] eqn:Hs.
  - rewrite (restore_undisturbed _ _ s) by (done || by apply Forall_quiet_app).
    unfold try_except. by rewrite run_send_all.
  - apply Forall2_nil_inv_l in Hrs as ->. unfold restore_standing. rewrite bind_gets.
    unfold standing_of in Hs. destruct (dict_get id (table_refs (w_standing w))) as [r|] eqn:Hr; [|done].
    destruct (lookup_lt_is_Some_2 (table_records (w_standing w)) r) as [x Hx]; [by eapply twf_range|].
    cbn in Hs. by rewrite Hx in Hs.
Qed.

(** The authorization, when it is accepted and when it fails. *)
Lemma run_establish_accepted b o w :
  is_expired (w_time w) (ans_credentials b) = false -> table_wf (w_standing w) -> welcome (w_standing w) b ->
  Forall is_quiet o ->
  establish (SessionAuthenticator := graph_auth config) (ans_credentials b) AuthTrigger.ACCOUNT_REAUTH AUTH_TIMEOUT
    (welcome_steps b ++ o) w =
  mk_result (Done ()) (set_store (authorize (ans_credentials b)) w) (return_acts (w_standing w) b) o.
Proof.
  intros Hexp Ht [Hm Hrs] Ho. cbn [establish graph_auth AuthManager]. unfold welcome_steps. cbn [app].
  rewrite run_establish by done.
  cbn [env_reply quiet mbind res_bind]. unfold narrow_response, rt_AccountAuthRes, rt_unit. cbn [rt_narrow].
  rewrite decide_True by done. cbv zeta. rewrite decide_False by done. unfold continue at 1.
  cbn [rest state acts env_act quiet]. rewrite <- (assoc_L (++)).
  rewrite (bind_eq _ _ _ _ _ (run_restore_accepted (account_id (ans_credentials b)) (ans_subscriptions b)
    ([quiet (Ok (ans_published b))] ++ o) (set_store (authorize (ans_credentials b)) w) Ht Hrs ltac:(by constructor))).
  done.
Qed.

Lemma run_establish_refused c e o w :
  is_expired (w_time w) c = false ->
  establish (SessionAuthenticator := graph_auth config) c AuthTrigger.ACCOUNT_REAUTH AUTH_TIMEOUT (quiet (Err e) :: o) w =
  mk_result (Raised (as_auth_error (account_id c) e)) w
    [ASend (MAccountAuthReq (account_id c) (access_token c)) AUTH_TIMEOUT] o.
Proof. intros Hexp. cbn [establish graph_auth AuthManager]. by rewrite run_establish. Qed.

(** The delays before the attempts after the [n]th, what the oracle does while they fail, and
    what the client does. *)
Definition delays (n k : nat) : list seconds :=
  (fun i => match backoff_delay (reauth_policy config) (Z.of_nat i) with Ok d => d | Err _ => 0 end) <$> seq (S n) k.
Definition setbacks (es : list exn) (ds : list seconds) : list (env_step World) :=
  zip es ds ≫= fun ed => [quiet (Err ed.1); elapse ed.2].
Definition attempts (c : AccountCredentials) (ds : list seconds) : list action :=
  ds ≫= fun d => [ASend (MAccountAuthReq (account_id c) (access_token c)) AUTH_TIMEOUT; AWaitSignal (Some d)].
Definition total (ds : list seconds) : seconds := foldr Z.add 0 ds.

Lemma delay_pos n :
  0 < min_wait (reauth_policy config) -> 0 < max_wait (reauth_policy config) -> (n < 1024)%nat ->
  exists d, backoff_delay (reauth_policy config) (Z.of_nat n + 1) = Ok d /\ 0 < d /\
    forall k, delays n (S k) = d :: delays (S n) k.
Proof.
  intros Hmin Hmax Hn. replace (Z.of_nat n + 1) with (Z.of_nat (S n)) by lia. eexists. split; [apply backoff_delay_Ok; lia|].
  split; [eapply (backoff_pos _ (Z.of_nat (S n))); [done|done|lia|apply backoff_delay_Ok; lia]|].
  intros k. unfold delays. cbn [seq fmap list_fmap]. by rewrite backoff_delay_Ok by lia.
Qed.

Lemma total_nonneg n k :
  0 < min_wait (reauth_policy config) -> 0 < max_wait (reauth_policy config) -> (n + k <= 1024)%nat -> 0 <= total (delays n k).
Proof.
  intros Hmin Hmax. revert n. induction k as [|k IH]; intros n Hk; [done|].
  destruct (delay_pos n Hmin Hmax ltac:(lia)) as (d & _ & Hd & ->). cbn. specialize (IH (S n) ltac:(lia)).
  unfold total in IH. lia.
Qed.

(** An attempt that fails, and the wait for the next. *)
Lemma one_setback c e (n k : nat) (at_ d : seconds) later w :
  w_recovery_running w = true -> w_app_auth_pending w = false ->
  dict_get (account_id c) (accounts (w_store w)) = Some (mk_tracked c (Some (AwaitingRecovery (Z.of_nat n) at_))) ->
  awaiting_recovery (w_store w) = [mk_pending (account_id c) c (Z.of_nat n) at_] -> at_ <= w_now w ->
  is_expired (w_time w) c = false -> retried (as_auth_error (account_id c) e) = true ->
  backoff_delay (reauth_policy config) (Z.of_nat n + 1) = Ok d -> 0 < d ->
  let w1 := set_store (reschedule_recovery (account_id c) (Z.of_nat (S n)) (w_now w + d)) (set_signal false w) in
  let r := reauth_loop (A := graph_auth config) (reauth_policy config) k later (advance d w1) in
  dict_get (account_id c) (accounts (w_store w1)) =
    Some (mk_tracked c (Some (AwaitingRecovery (Z.of_nat (S n)) (w_now w + d)))) /\
  awaiting_recovery (w_store w1) = [mk_pending (account_id c) c (Z.of_nat (S n)) (w_now w + d)] /\
  reauth_loop (A := graph_auth config) (reauth_policy config) (S (S k)) (quiet (Err e) :: elapse d :: later) w =
  mk_result (out r) (state r)
    (ASend (MAccountAuthReq (account_id c) (access_token c)) AUTH_TIMEOUT :: AWaitSignal (Some d) :: acts r) (rest r).
Proof.
  intros Hrun Hpend Hget Hq Hdue Hexp He Hd Hpos. cbv zeta. set (w1 := set_store _ (set_signal false w)).
  assert (Hget1 : dict_get (account_id c) (accounts (w_store w1)) =
    Some (mk_tracked c (Some (AwaitingRecovery (Z.of_nat (S n)) (w_now w + d))))).
  { cbn [w1 w_store set_store set_signal]. unfold reschedule_recovery. rewrite Hget. cbn. by rewrite dict_get_set_eq. }
  assert (Hq1 : awaiting_recovery (w_store w1) = [mk_pending (account_id c) c (Z.of_nat (S n)) (w_now w + d)]).
  { cbn [w1 w_store set_store set_signal]. unfold reschedule_recovery. rewrite Hget. cbn [is_awaiting session_of].
    by rewrite (awaiting_after_set _ _ _ _ Hget Hq). }
  assert (Hpass : reauth_pass (A := graph_auth config) (reauth_policy config) (quiet (Err e) :: elapse d :: later) w =
    mk_result (Done ()) w1 [ASend (MAccountAuthReq (account_id c) (access_token c)) AUTH_TIMEOUT] (elapse d :: later)).
  { rewrite (run_due_pass _ _ _ w Hpend Hq Hdue).
    rewrite (run_setback (reauth_policy config) (mk_pending (account_id c) c (Z.of_nat n) at_) _ _ _ _ _ _ d
      (run_establish_refused c e (elapse d :: later) (set_signal false w) Hexp) He Hd).
    cbn [pr_account_id pr_attempts]. unfold w1. by rewrite Nat2Z.inj_succ. }
  split; [done|]. split; [done|]. cbn [reauth_loop]. rewrite bind_gets, Hrun, (bind_eq _ _ _ _ _ Hpass).
  cbn [out]. unfold continue at 1. cbn [state rest acts].
  rewrite (bind_gets w_recovery_running _ _ w1). replace (w_recovery_running w1) with true by done.
  assert (Hwoken : env_reply (elapse d) ≠ Err Cancelled) by (cbn; discriminate).
  assert (Hnot : pr_next_attempt_at (mk_pending (account_id c) c (Z.of_nat (S n)) (w_now w + d)) > w_now w1) by (cbn; lia).
  rewrite (bind_eq _ _ _ _ _ (run_waiting_pass _ _ (elapse d) later w1 Hpend Hq1 (Z.gt_lt _ _ Hnot) Hwoken)).
  cbn [out]. unfold continue at 1. cbn [state rest acts env_act elapse pr_next_attempt_at app].
  replace (w_now w + d - w_now w1) with d by (cbn; lia). done.
Qed.

(** One account, its attempt due, that fails as often as there are answers in [es]. *)
Lemma loop_perseveres b es (c := ans_credentials b) : forall (n : nat) (at_ : seconds) w,
  0 < min_wait (reauth_policy config) -> 0 < max_wait (reauth_policy config) -> (n + length es <= 1024)%nat ->
  Forall (fun e => retried (as_auth_error (account_id c) e) = true) es ->
  w_recovery_running w = true -> w_app_auth_pending w = false ->
  dict_get (account_id c) (accounts (w_store w)) = Some (mk_tracked c (Some (AwaitingRecovery (Z.of_nat n) at_))) ->
  awaiting_recovery (w_store w) = [mk_pending (account_id c) c (Z.of_nat n) at_] -> at_ <= w_now w ->
  w_time w + total (delays n (length es)) < expires_at c -> table_wf (w_standing w) -> welcome (w_standing w) b ->
  reauth_loop (A := graph_auth config) (reauth_policy config) (S (2 * length es))
    (setbacks es (delays n (length es)) ++ welcome_steps b) w =
  mk_result Suspended (advance (total (delays n (length es))) (set_signal false (set_store (authorize c) w)))
    (attempts c (delays n (length es)) ++ return_acts (w_standing w) b) [].
Proof.
  induction es as [|e es IH]; intros n at_ w Hmin Hmax Hn Hes Hrun Hpend Hget Hq Hdue Hfresh Ht Hb.
  { cbn [length Nat.mul setbacks zip_with mbind list_bind app] in *. cbn [reauth_loop]. rewrite bind_gets, Hrun.
    assert (Hexp : is_expired (w_time (set_signal false w)) c = false) by (apply Z.leb_gt; cbn in *; lia).
    pose proof (run_establish_accepted b [] (set_signal false w) Hexp Ht Hb (Forall_nil_2 _)) as E.
    rewrite app_nil_r in E. rewrite (bind_eq _ _ _ _ _ (run_due_pass _ _ _ w Hpend Hq Hdue)).
    rewrite recover_one_other by (cbn [pr_credentials]; fold c in E; rewrite E; done). cbn [pr_credentials].
    fold c in E. rewrite E. cbn [out]. unfold continue, unfinished. cbn [out state acts rest]. rewrite app_nil_r. f_equal.
    unfold advance, set_signal, set_store. cbn. f_equal; lia. }
  apply Forall_cons in Hes as [He Hes]. cbn [length] in *.
  destruct (delay_pos n Hmin Hmax ltac:(lia)) as (d & Hd & Hpos & Hds). rewrite Hds in *.
  pose proof (total_nonneg (S n) (length es) Hmin Hmax ltac:(lia)) as Hrest.
  assert (Htotal : total (d :: delays (S n) (length es)) = d + total (delays (S n) (length es))) by done.
  rewrite Htotal in *. replace (S (2 * S (length es))) with (S (S (S (2 * length es)))) by lia.
  edestruct (one_setback c e n (S (2 * length es)) at_ d) as (Hget1 & Hq1 & E); [done..|apply Z.leb_gt; lia|done|exact Hd|done|].
  cbn [setbacks zip_with mbind list_bind app fst snd]. rewrite E.
  rewrite (IH (S n) (w_now w + d)); [|done|done|lia|done|done|done|exact Hget1|exact Hq1|cbn; lia|cbn; lia|done|done].
  cbn [out state acts rest attempts mbind list_bind app]. f_equal.
  unfold advance, set_signal, set_store, authorize, reschedule_recovery, with_accounts. cbn. rewrite Hget. cbn.
  rewrite dict_set_set. f_equal; lia.
Qed.
End repair.

(** ** An outage and its repair *)

Section outage.
Context (config : ClientConfig).
#[local] Set Default Proof Using "Type".
Implicit Types (o : list (env_step World)) (w : World) (b : answers) (bs : list answers).

(** The application's turn. *)
Definition app_request : action := ASend (MApplicationAuthReq (client_id config) (client_secret config)) AUTH_TIMEOUT.

Definition as_app_error (e : exn) : exn :=
  match e with APIError a => ApplicationAuthError (error_code a) (description a) | _ => e end.

Lemma as_app_error_Exception e : is_Exception (as_app_error e) = is_Exception e.
Proof. by destruct e. Qed.

Lemma run_app_refused e o w :
  authenticate_app (SessionAuthenticator := graph_auth config) AUTH_TIMEOUT (quiet (Err e) :: o) w =
  mk_result (Raised (as_app_error e)) w [app_request] o.
Proof.
  cbn [authenticate_app graph_auth AuthManager]. unfold manager_authenticate_app.
  rewrite (bind_eq _ _ _ _ _ (try_except_eq _ _ _ _ _ (run_request _ _ _ _ _ _))). cbn [mbind res_bind out].
  by destruct e.
Qed.

Lemma run_app_accepted m o w :
  class_of m = Cls.ProtoOAApplicationAuthRes ->
  authenticate_app (SessionAuthenticator := graph_auth config) AUTH_TIMEOUT (quiet (Ok m) :: o) w =
  mk_result (Done ()) (set_app_authenticated true w) [app_request] o.
Proof.
  intros Hm. cbn [authenticate_app graph_auth AuthManager]. unfold manager_authenticate_app.
  rewrite (bind_eq _ _ _ _ _ (try_except_eq _ _ _ _ _ (run_request _ _ _ _ _ _))). cbn [mbind res_bind out].
  unfold narrow_response, rt_ApplicationAuthRes, rt_unit. cbn [rt_narrow]. by rewrite decide_True.
Qed.

(** Every account returns, one after the other. *)
Lemma welcome_steps_quiet bs : Forall is_quiet (concat (welcome_steps <$> bs)).
Proof.
  apply Forall_concat, Forall_fmap, Forall_true. intros b. constructor; [done|].
  apply Forall_quiet_app. by repeat constructor.
Qed.

Lemma run_returns bs : forall w,
  table_wf (w_standing w) -> Forall (welcome (w_standing w)) bs ->
  Forall (fun b => w_time w < expires_at (ans_credentials b)) bs ->
  for_each ((fun b => mk_pending (account_id (ans_credentials b)) (ans_credentials b) 0 0) <$> bs)
    (recover_one (A := graph_auth config) (reauth_policy config)) (concat (welcome_steps <$> bs)) w =
  mk_result (Done ()) (set_store (fun s => foldl (fun s c => authorize c s) s (ans_credentials <$> bs)) w)
    (concat (return_acts config (w_standing w) <$> bs)) [].
Proof.
  induction bs as [|b bs IH]; intros w Ht Hb Hexp; [by destruct w|].
  apply Forall_cons in Hb as [Hb Hbs], Hexp as [He Hes]. cbn [fmap list_fmap concat for_each foldl].
  assert (E : establish (SessionAuthenticator := graph_auth config) (ans_credentials b) AuthTrigger.ACCOUNT_REAUTH AUTH_TIMEOUT
      (welcome_steps b ++ concat (welcome_steps <$> bs)) w =
    mk_result (Done ()) (set_store (authorize (ans_credentials b)) w) (return_acts config (w_standing w) b)
      (concat (welcome_steps <$> bs))).
  { apply run_establish_accepted; [apply Z.leb_gt; lia|done|done|apply welcome_steps_quiet]. }
  assert (E1 : recover_one (A := graph_auth config) (reauth_policy config)
      (mk_pending (account_id (ans_credentials b)) (ans_credentials b) 0 0) (welcome_steps b ++ concat (welcome_steps <$> bs)) w =
    mk_result (Done ()) (set_store (authorize (ans_credentials b)) w) (return_acts config (w_standing w) b)
      (concat (welcome_steps <$> bs))) by (rewrite recover_one_other; cbn [pr_credentials]; by rewrite E).
  rewrite (bind_eq _ _ _ _ _ E1).
  cbn [out]. unfold continue. cbn [state rest acts].
  rewrite (IH (set_store (authorize (ans_credentials b)) w)) by done. done.
Qed.
(** The answers while the application is refused, and what the client does. *)
Definition app_attempts (ds : list seconds) : list action := ds ≫= fun d => [app_request; AWaitSignal (Some d)].

(** The turn that succeeds, with every account due. *)
Lemma run_app_success m bs w :
  bs ≠ [] -> class_of m = Cls.ProtoOAApplicationAuthRes -> w_app_auth_pending w = true -> w_app_auth_next_at w <= w_now w ->
  0 <= w_now w ->
  awaiting_recovery (w_store w) = (fun b => mk_pending (account_id (ans_credentials b)) (ans_credentials b) 0 0) <$> bs ->
  table_wf (w_standing w) -> Forall (welcome (w_standing w)) bs ->
  Forall (fun b => w_time w < expires_at (ans_credentials b)) bs ->
  reauth_pass (A := graph_auth config) (reauth_policy config) (quiet (Ok m) :: concat (welcome_steps <$> bs)) w =
  mk_result (Done ())
    (set_store (fun s => foldl (fun s c => authorize c s) s (ans_credentials <$> bs))
       (set_app_auth false 0 (w_app_auth_next_at w) (set_app_authenticated true (set_signal false w))))
    (app_request :: concat (return_acts config (w_standing w) <$> bs)) [].
Proof.
  intros Hne Hm Hp Hnext Hnow Hq Ht Hb Hexp.
  pose proof (run_app_back (reauth_policy config) _ _ _ _ _
    (run_app_accepted m (concat (welcome_steps <$> bs)) (set_signal false w) Hm)) as E.
  rewrite (run_app_turn _ _ _ _ Hp Hnext E). cbn [out]. unfold continue. cbn [state rest acts].
  set (w1 := set_app_auth false 0 _ _).
  assert (Hq1 : awaiting_recovery (w_store w1) =
    (fun b => mk_pending (account_id (ans_credentials b)) (ans_credentials b) 0 0) <$> bs) by exact Hq.
  rewrite run_all_due; rewrite Hq1.
  - by rewrite run_returns.
  - by destruct bs.
  - apply Forall_fmap, Forall_true. intros b. exact Hnow.
Qed.

(** The loop's passes while the application is refused. *)
Lemma app_wait_step k d o w :
  w_recovery_running w = true -> w_app_auth_pending w = true -> w_app_auth_next_at w = w_now w + d -> 0 < d ->
  let r := reauth_loop (A := graph_auth config) (reauth_policy config) k o (advance d (set_signal false w)) in
  reauth_loop (A := graph_auth config) (reauth_policy config) (S k) (elapse d :: o) w =
  mk_result (out r) (state r) (AWaitSignal (Some d) :: acts r) (rest r).
Proof.
  intros Hrun Hp Hnext Hd. cbv zeta.
  assert (Hwoken : env_reply (elapse d) ≠ Err Cancelled) by (cbn; discriminate).
  assert (Hnow : w_now w < w_app_auth_next_at w) by lia.
  pose proof (run_app_wait (A := graph_auth config) (reauth_policy config) (elapse d) o w Hp Hnow Hwoken) as E.
  replace (w_app_auth_next_at w - w_now w) with d in E by lia.
  cbn [reauth_loop]. rewrite bind_gets, Hrun. by rewrite (bind_eq _ _ _ _ _ E).
Qed.

Lemma app_fail_step k e d o w :
  w_recovery_running w = true -> w_app_auth_pending w = true -> w_app_auth_next_at w <= w_now w -> is_Exception e = true ->
  backoff_delay (reauth_policy config) (w_app_auth_attempts w + 1) = Ok d ->
  let r := reauth_loop (A := graph_auth config) (reauth_policy config) k o
             (set_app_auth true (w_app_auth_attempts w + 1) (w_now w + d) (set_signal false w)) in
  reauth_loop (A := graph_auth config) (reauth_policy config) (S k) (quiet (Err e) :: o) w =
  mk_result (out r) (state r) (app_request :: acts r) (rest r).
Proof.
  intros Hrun Hp Hnext He Hd. cbv zeta.
  pose proof (run_app_setback (reauth_policy config) _ _ _ _ _ _ d (run_app_refused e o (set_signal false w))
    (eq_trans (as_app_error_Exception e) He) Hd) as E.
  pose proof (run_app_turn (reauth_policy config) _ _ _ Hp Hnext E) as Ep. cbn [out ended] in Ep.
  cbn [reauth_loop]. rewrite bind_gets, Hrun. rewrite (bind_eq _ _ _ _ _ Ep). cbn [out ended]. unfold continue.
  cbn [state rest acts ended w_app_auth_pending w_app_auth_attempts w_now set_signal]. by rewrite Hp.
Qed.

(** The application refused as often as there are answers in [es]; then everyone returns. *)
Lemma app_loop_perseveres m bs es : forall (n : nat) (d : seconds) w,
  bs ≠ [] -> class_of m = Cls.ProtoOAApplicationAuthRes ->
  0 < min_wait (reauth_policy config) -> 0 < max_wait (reauth_policy config) -> (S n + length es <= 1024)%nat ->
  Forall (fun e => is_Exception e = true) es ->
  w_recovery_running w = true -> w_app_auth_pending w = true -> w_app_auth_attempts w = Z.of_nat (S n) ->
  w_app_auth_next_at w = w_now w + d -> 0 < d -> 0 <= w_now w ->
  awaiting_recovery (w_store w) = (fun b => mk_pending (account_id (ans_credentials b)) (ans_credentials b) 0 0) <$> bs ->
  table_wf (w_standing w) -> Forall (welcome (w_standing w)) bs ->
  Forall (fun b => w_time w + d + total (delays config (S n) (length es)) < expires_at (ans_credentials b)) bs ->
  exists w', reauth_loop (A := graph_auth config) (reauth_policy config) (2 * S (length es))
      (elapse d :: setbacks es (delays config (S n) (length es)) ++ quiet (Ok m) :: concat (welcome_steps <$> bs)) w =
    mk_result Suspended w'
      (AWaitSignal (Some d) :: app_attempts (delays config (S n) (length es)) ++
       app_request :: concat (return_acts config (w_standing w) <$> bs)) [] /\
    w_store w' = foldl (fun s c => authorize c s) (w_store w) (ans_credentials <$> bs) /\
    w_standing w' = w_standing w /\ w_app_authenticated w' = true /\ w_app_auth_pending w' = false /\
    w_now w' = w_now w + d + total (delays config (S n) (length es)).
Proof.
  induction es as [|e es IH]; intros n d w Hne Hm Hmin Hmax Hn Hes Hrun Hp Hatt Hnext Hd Hnow Hq Ht Hb Hexp.
  - cbn [length Nat.mul Nat.add setbacks zip_with mbind list_bind app] in *. rewrite app_wait_step by done.
    set (w1 := advance d (set_signal false w)).
    assert (Hexp1 : Forall (fun b => w_time w1 < expires_at (ans_credentials b)) bs)
      by (eapply Forall_impl; [exact Hexp|]; cbn; intros b; lia).
    assert (Hdue : w_app_auth_next_at w1 <= w_now w1) by (cbn; lia).
    assert (Hnow1 : 0 <= w_now w1) by (cbn; lia).
    pose proof (run_app_success m bs w1 Hne Hm Hp Hdue Hnow1 Hq Ht Hb Hexp1) as E.
    cbn [reauth_loop]. rewrite bind_gets. replace (w_recovery_running w1) with true by done.
    rewrite (bind_eq _ _ _ _ _ E). cbn [out]. unfold continue, unfinished. cbn [out state acts rest]. rewrite app_nil_r.
    eexists. split; [done|]. cbn. split_and!; try done. lia.
  - apply Forall_cons in Hes as [He Hes]. cbn [length] in *.
    destruct (delay_pos config (S n) Hmin Hmax ltac:(lia)) as (d' & Hd' & Hpos & Hds). rewrite Hds in *.
    change (total (d' :: ?l)) with (d' + total l) in *.
    replace (2 * S (S (length es)))%nat with (S (S (2 * S (length es)))) by lia.
    change (setbacks (e :: es) (d' :: ?l)) with (quiet (Err e) :: elapse d' :: setbacks es l). cbn [app].
    rewrite app_wait_step by done.
    set (w1 := advance d (set_signal false w)).
    assert (Hb1 : backoff_delay (reauth_policy config) (w_app_auth_attempts w1 + 1) = Ok d')
      by (cbn [w1 w_app_auth_attempts advance set_signal]; by rewrite Hatt).
    rewrite (app_fail_step _ e d') by (done || (cbn; lia)).
    edestruct (IH (S n) d' (set_app_auth true (w_app_auth_attempts w1 + 1) (w_now w1 + d') (set_signal false w1)))
      as (w' & E & H1 & H2 & H3 & H4 & H5); try done; [lia|cbn; lia|cbn; lia|..].
    { eapply Forall_impl; [exact Hexp|]. cbn. intros b. lia. }
    exists w'. rewrite E. cbn [out state acts rest app_attempts mbind list_bind app]. split; [done|].
    rewrite H1, H2, H5. cbn. split_and!; try done. lia.
Qed.
(** What the recovery does when told, the supervisor and the protocol only pass on. *)
Lemma run_link_restored `{Stops : StopStrategies} `{Waits : WaitStrategies} o w r :
  Recovery.on_connection_restored (A := graph_auth config) (reauth_policy config) o w = r -> out r = Done () ->
  run_task config None TLinkRestored o w = r.
Proof.
  intros E Hr. cbn [run_task].
  assert (Hsup : supervisor_restored (mret ()) (add_listener (graph_recovery config) []) o w = r).
  { transitivity (for_each (add_listener (graph_recovery config) []) (fun l => logged (Supervisor.on_connection_restored l)) o w);
      [exact (bind_ret_l () _ o w)|].
    rewrite run_for_each_logged. unfold add_listener. cbn [app fmap list_fmap told graph_recovery Supervisor.on_connection_restored].
    rewrite E, Hr. destruct r as [x st ac rs]. cbn in *. subst x. cbn. by rewrite app_nil_r. }
  transitivity (logged (supervisor_restored (mret ()) (add_listener (graph_recovery config) [])) o w); [done|].
  rewrite run_logged, Hsup, Hr. destruct r as [x st ac rs]. cbn in *. by subst x.
Qed.

Lemma run_restored_refused e m w :
  is_Exception e = true ->
  Recovery.on_connection_restored (A := graph_auth config) (reauth_policy config) [quiet (Err e); quiet (Ok m)] w =
  mk_result (Done ()) (armed (reauth_policy config) w) [app_request; AEmit (ReconnectedEvent false [] [])] [].
Proof.
  intros He. unfold Recovery.on_connection_restored.
  pose proof (run_first_app_auth (A := graph_auth config) (reauth_policy config) [quiet (Err e); quiet (Ok m)] w) as E.
  rewrite run_app_refused in E. cbv zeta in E. cbn [out state acts rest] in E. rewrite as_app_error_Exception, He, run_emit in E.
  by rewrite (bind_eq _ _ _ _ _ E).
Qed.

(** Every account flagged. *)
Lemma armed_store policy w :
  store_wf (w_store w) -> w_store (armed policy (set_store invalidate_all w)) =
    session_all (Some (AwaitingRecovery 0 0)) (w_store w).
Proof.
  intros Hwf. unfold armed. cbn [w_store set_signal set_store set_app_auth].
  change invalidate_all with (session_all None). rewrite held_ids by by apply session_all_wf.
  unfold flag_all. rewrite flag_every_account, session_all_twice; [done|apply session_all_wf, Hwf|].
  unfold session_all, with_accounts. cbn [accounts]. apply Forall_fmap, Forall_true. by intros [k t].
Qed.
End outage.

Import Tenacity.

(** ** Properties *)

(** C9. A dropped session comes back as it was, however often that fails at first, provided
    the server takes the account and its subscriptions back in the end ([welcome]), before
    its token expires, and no other task interferes or account waits to recover. The server
    drops one that is held, authorized and not being refreshed or checked; the check confirms it, so the account is
    flagged and published, and from then on it is not authorized and the recovery loop has
    been woken. If the server then fails to accept it [k <= 1024] times, for any reason but
    that it is logged in already, the loop has it back after [2 k + 1] passes: each failure
    is followed by the wait its backoff asks for, the attempt that is accepted by the
    requests its record asks for, all of them and no other ([restoration]), and only then
    is the account announced; but for the wake-up signal, which is down, and the time, all
    the client keeps is as before the drop. *)
Theorem dropped_session_returns `{Stops : StopStrategies} `{Waits : WaitStrategies} (config : ClientConfig)
    (b : answers) (a : api_error) (m : message) (es : list exn) (w : World) (c := ans_credentials b) (id := account_id c)
    (ds := delays config 0 (length es))
    (Hheld : credentials id (w_store w) = Some c) (Hauth : is_authorized id (w_store w) = true)
    (Hidle : is_refreshing id (w_store w) = false /\ id ∉ w_verifying w /\ w_app_auth_pending w = false)
    (Hrun : w_recovery_running w = true) (Hnone : awaiting_recovery (w_store w) = []) (Hclock : 0 <= w_now w)
    (Hpolicy : 0 < min_wait (reauth_policy config) /\ 0 < max_wait (reauth_policy config))
    (Hfresh : w_time w + total ds < expires_at c) (Ht : table_wf (w_standing w))
    (Ha : is_token_failure a = false) (Hes : Forall (fun e => retried (as_auth_error id e) = true) es)
    (Hmany : (length es <= 1024)%nat) (Hb : welcome (w_standing w) b) :
  let told := run_task config None (TAccountDisconnect id) [quiet (Err (APIError a)); quiet (Ok m)] w in
  let back := reauth_loop (A := graph_auth config) (reauth_policy config) (S (2 * length es))
                (setbacks es ds ++ welcome_steps b) (state told) in
  out told = Done () /\
  acts told = [ASend (MTraderReq id) PROBE_TIMEOUT; AEmit (AccountDisconnectEvent id)] /\
  is_authorized id (w_store (state told)) = false /\ w_reauth_signal (state told) = true /\
  rest back = [] /\
  (exists requests, restoration id (standing_of id (w_standing w)) requests /\
     acts back = attempts c ds ++ ASend (MAccountAuthReq id (access_token c)) AUTH_TIMEOUT ::
       sends (request_timeout config) requests ++ [AEmit (ReadyEvent id AuthTrigger.ACCOUNT_REAUTH)]) /\
  state back = advance (total ds) (set_signal false w).
Proof.
  destruct Hidle as (Hr & Hver & Hpend), Hpolicy as [Hmin Hmax]. cbv zeta. cbn [run_task].
  rewrite run_dropped by done. cbn [out acts state].
  pose proof (held_account id c w Hheld Hauth) as Hget.
  set (flagged := mk_tracked c (Some (AwaitingRecovery 0 0))).
  assert (Hflag : (flag_for_recovery id (w_store w)).2 = with_accounts (dict_set id flagged) (w_store w))
    by (unfold flag_for_recovery; by rewrite Hget).
  rewrite Hflag. set (w1 := set_signal true _).
  assert (Hget1 : dict_get id (accounts (w_store w1)) = Some flagged) by (cbn; by rewrite dict_get_set_eq).
  assert (Hq1 : awaiting_recovery (w_store w1) = [mk_pending id c 0 0])
    by (cbn [w1 w_store set_signal set_store]; by rewrite (awaiting_after_set _ _ _ _ Hget Hnone)).
  unfold ds in *. rewrite (loop_perseveres config b es 0 0 w1) by (done || lia). cbn [out acts state rest].
  split_and!; try done.
  - unfold is_authorized. by rewrite Hget1.
  - eexists. split; [apply reapplied_restoration|done].
  - unfold w1, set_signal, set_store, authorize, with_accounts. cbn. fold c. fold id. rewrite dict_set_set, (dict_set_get _ _ _ Hget).
    destruct w as [st]. cbn. by destruct st.
Qed.

Lemma sample_table_wf : table_wf (mk_table [(7, 0%nat)] [sample_standing]).
Proof.
  split.
  - apply NoDup_singleton.
  - intros id r. cbn. case_decide; [|done]. intros [= <-]. lia.
  - intros id id' r. cbn. repeat case_decide; congruence.
Qed.

Definition minute_credentials : AccountCredentials := mk_credentials 7 "token" "refresh" (60 * second).

(** An account that watches two symbols is dropped; the first attempt finds the server under
    maintenance and the second gets no answer. *)
Lemma dropped_session_returns_witness
    (w := set_recovery_running true (set_standing (fun _ => mk_table [(7, 0%nat)] [sample_standing])
      (set_store (authorize minute_credentials) idle_world))) :
  let told := run_task (default_config "id" "secret") None (TAccountDisconnect 7)
                [quiet (Err (APIError (api_error_of "NOT_CONNECTED" None))); quiet (Ok MHeartbeatEvent)] w in
  let back := reauth_loop (A := graph_auth (default_config "id" "secret")) default_reauth_policy 5
                [quiet (Err (APIError (api_error_of "SERVER_IS_UNDER_MAINTENANCE" None))); elapse second;
                 quiet (Err TimeoutError); elapse (2 * second);
                 quiet (Ok (MAccountAuthRes 7)); quiet (Ok MSubscribeSpotsRes); quiet (Ok MSubscribeLiveTrendbarRes);
                 quiet (Ok MHeartbeatEvent)] (state told) in
  is_authorized 7 (w_store (state told)) = false /\ state back = advance (3 * second) (set_signal false w) /\
  (exists requests, restoration 7 (Some sample_standing) requests /\
     acts back = [ASend (MAccountAuthReq 7 "token") AUTH_TIMEOUT; AWaitSignal (Some second);
                  ASend (MAccountAuthReq 7 "token") AUTH_TIMEOUT; AWaitSignal (Some (2 * second));
                  ASend (MAccountAuthReq 7 "token") AUTH_TIMEOUT] ++ sends (30 * second) requests ++
                 [AEmit (ReadyEvent 7 AuthTrigger.ACCOUNT_REAUTH)]) /\
  acts back = [ASend (MAccountAuthReq 7 "token") AUTH_TIMEOUT; AWaitSignal (Some second);
               ASend (MAccountAuthReq 7 "token") AUTH_TIMEOUT; AWaitSignal (Some (2 * second));
               ASend (MAccountAuthReq 7 "token") AUTH_TIMEOUT; ASend (MSubscribeSpotsReq 7 [1; 2] true) (30 * second);
               ASend (MSubscribeLiveTrendbarReq 7 1 ProtoOATrendbarPeriod.M5) (30 * second);
               AEmit (ReadyEvent 7 AuthTrigger.ACCOUNT_REAUTH)].
Proof.
  destruct (dropped_session_returns (default_config "id" "secret")
    (mk_answers minute_credentials (MAccountAuthRes 7) [Ok MSubscribeSpotsRes; Ok MSubscribeLiveTrendbarRes] MHeartbeatEvent)
    (api_error_of "NOT_CONNECTED" None) MHeartbeatEvent
    [APIError (api_error_of "SERVER_IS_UNDER_MAINTENANCE" None); TimeoutError] w eq_refl eq_refl)
    as (_ & _ & H1 & _ & _ & H2 & H3); try reflexivity.
  - split; [reflexivity|split; [apply not_elem_of_empty|reflexivity]].
  - split; reflexivity.
  - apply sample_table_wf.
  - repeat constructor.
  - cbn. lia.
  - split; [reflexivity|]. vm_compute. repeat constructor.
  - split; [exact H1|split; [etransitivity; [exact H3|reflexivity]|split]].
    + destruct H2 as (requests & Hr & E). exists requests. split; [exact Hr|]. etransitivity; [exact E|reflexivity].
    + vm_compute. reflexivity.
Defined.

(** C8. An outage heals completely, however long the application is refused, provided the
    server then takes every account and each of its subscriptions back ([welcome]), no token
    expires meanwhile, and no other task interferes. From the moment the drop is reported no
    session counts as live. If the link comes back but the application is refused
    [1 + length es <= 1024] times, that is published and retried with the growing waits of
    the backoff, nothing being sent for any account meanwhile; once it is accepted, every
    account held returns in the order it came, each with the requests its record asks for,
    all of them and no other ([restoration]), and announced last. In the end every session
    is live, with the credentials it had, and nothing is left to retry. *)
Theorem outage_healed `{Stops : StopStrategies} `{Waits : WaitStrategies} (config : ClientConfig)
    (bs : list answers) (m0 m : message) (e0 : exn) (es : list exn) (w : World) (ds := delays config 0 (S (length es)))
    (Hwf : store_wf (w_store w)) (Hall : ans_credentials <$> bs = all_credentials (w_store w)) (Hne : bs ≠ [])
    (Hrun : w_recovery_running w = true) (Hclock : 0 <= w_now w)
    (Hpolicy : 0 < min_wait (reauth_policy config) /\ 0 < max_wait (reauth_policy config))
    (Hes : Forall (fun e => is_Exception e = true) (e0 :: es)) (Hmany : (S (length es) <= 1024)%nat)
    (Hm : class_of m = Cls.ProtoOAApplicationAuthRes) (Ht : table_wf (w_standing w)) (Hb : Forall (welcome (w_standing w)) bs)
    (Hfresh : Forall (fun b => w_time w + total ds < expires_at (ans_credentials b)) bs) :
  let lost := run_task config None TLinkLost [] w in
  let restored := run_task config None TLinkRestored [quiet (Err e0); quiet (Ok m0)] (state lost) in
  let back := reauth_loop (A := graph_auth config) (reauth_policy config) (2 * S (length es))
                (tail (setbacks (e0 :: es) ds) ++ quiet (Ok m) :: concat (welcome_steps <$> bs)) (state restored) in
  authorized_ids (w_store (state lost)) = [] /\
  out restored = Done () /\ acts restored = [app_request config; AEmit (ReconnectedEvent false [] [])] /\
  rest back = [] /\
  (exists requests, Forall2 (fun b => let id := account_id (ans_credentials b) in
       restoration id (standing_of id (w_standing w))) bs requests /\
     acts back = tail (app_attempts config ds) ++ app_request config ::
       concat (zip_with (fun b reqs => let c := ans_credentials b in
         ASend (MAccountAuthReq (account_id c) (access_token c)) AUTH_TIMEOUT ::
         sends (request_timeout config) reqs ++ [AEmit (ReadyEvent (account_id c) AuthTrigger.ACCOUNT_REAUTH)]) bs requests)) /\
  w_store (state back) = session_all (Some Authorized) (w_store w) /\ w_standing (state back) = w_standing w /\
  w_app_authenticated (state back) = true /\ w_app_auth_pending (state back) = false /\
  w_now (state back) = w_now w + total ds.
Proof.
  destruct Hpolicy as [Hmin Hmax]. apply Forall_cons in Hes as [He0 Hes]. cbv zeta.
  set (w1 := set_store invalidate_all (set_app_auth false (w_app_auth_attempts w) (w_app_auth_next_at w) w)).
  assert (Elost : run_task config None TLinkLost [] w = mk_result (Done ()) w1 [] []) by reflexivity.
  rewrite Elost. cbn [state out acts rest].
  rewrite (run_link_restored config _ _ _ (run_restored_refused config e0 m0 w1 He0) eq_refl). cbn [state out acts rest].
  destruct (delay_pos config 0 Hmin Hmax ltac:(lia)) as (d & Hd & Hpos & Hds).
  assert (Hd1 : d = Z.min (min_wait (reauth_policy config)) (max_wait (reauth_policy config))).
  { rewrite backoff_delay_Ok in Hd by lia. injection Hd as <-. by rewrite Z.mul_1_r. }
  unfold ds in *. rewrite Hds in *. change (total (d :: ?l)) with (d + total l) in *.
  pose proof (armed_store (reauth_policy config) (set_app_auth false (w_app_auth_attempts w) (w_app_auth_next_at w) w) Hwf) as Hstore.
  fold w1 in Hstore. cbn [w_store set_app_auth] in Hstore.
  destruct (app_loop_perseveres config m bs es 0 d (armed (reauth_policy config) w1)) as (w' & E & H1 & H2 & H3 & H4 & H5);
    try done; [cbn; lia| |eapply Forall_impl; [exact Hfresh|]; cbn; intros b; lia|].
  { rewrite Hstore, awaiting_session_all, (items_credentials _ Hwf), <-Hall, <-!list_fmap_compose. done. }
  change (tail (setbacks (e0 :: es) (d :: ?l))) with (elapse d :: setbacks es l). cbn [app].
  rewrite E. cbn [rest acts state]. split_and!; try done.
  - apply invalidate_all_authorized.
  - exists ((fun b => reapplied (account_id (ans_credentials b)) (w_standing w)) <$> bs). split.
    + apply Forall2_fmap_r, Forall_Forall2_diag, Forall_true. intros b. apply reapplied_restoration.
    + by rewrite zip_with_fmap_r, zip_with_diag.
  - rewrite H1, Hstore, Hall, <-(all_credentials_session_all (Some (AwaitingRecovery 0 0))),
      authorize_every_account by by apply session_all_wf. apply session_all_twice.
  - rewrite H5. cbn. lia.
Qed.

Definition other_credentials : AccountCredentials := mk_credentials 8 "other" "refresh" (60 * second).

(** Two accounts, one with subscriptions; the application is refused twice. *)
Lemma outage_healed_witness
    (s := authorize other_credentials (authorize minute_credentials empty_store))
    (w := set_recovery_running true (set_standing (fun _ => mk_table [(7, 0%nat)] [sample_standing]) (set_store (fun _ => s) idle_world))) :
  let restored := run_task (default_config "id" "secret") None TLinkRestored [quiet (Err TimeoutError); quiet (Ok MHeartbeatEvent)]
                    (state (run_task (default_config "id" "secret") None TLinkLost [] w)) in
  let back := reauth_loop (A := graph_auth (default_config "id" "secret")) default_reauth_policy 4
                [elapse second; quiet (Err (APIError (api_error_of "CH_CLIENT_AUTH_FAILURE" None))); elapse (2 * second);
                 quiet (Ok MApplicationAuthRes);
                 quiet (Ok (MAccountAuthRes 7)); quiet (Ok MSubscribeSpotsRes); quiet (Ok MSubscribeLiveTrendbarRes);
                 quiet (Ok MHeartbeatEvent);
                 quiet (Ok (MAccountAuthRes 8)); quiet (Ok MHeartbeatEvent)] (state restored) in
  authorized_ids (w_store (state back)) = [7; 8] /\ w_now (state back) = w_now w + 3 * second /\
  (exists r7 r8, restoration 7 (Some sample_standing) r7 /\ restoration 8 None r8) /\
  acts back = [AWaitSignal (Some second); app_request (default_config "id" "secret"); AWaitSignal (Some (2 * second));
               app_request (default_config "id" "secret");
               ASend (MAccountAuthReq 7 "token") AUTH_TIMEOUT; ASend (MSubscribeSpotsReq 7 [1; 2] true) (30 * second);
               ASend (MSubscribeLiveTrendbarReq 7 1 ProtoOATrendbarPeriod.M5) (30 * second);
               AEmit (ReadyEvent 7 AuthTrigger.ACCOUNT_REAUTH);
               ASend (MAccountAuthReq 8 "other") AUTH_TIMEOUT; AEmit (ReadyEvent 8 AuthTrigger.ACCOUNT_REAUTH)].
Proof.
  destruct (outage_healed (default_config "id" "secret")
    [mk_answers minute_credentials (MAccountAuthRes 7) [Ok MSubscribeSpotsRes; Ok MSubscribeLiveTrendbarRes] MHeartbeatEvent;
     mk_answers other_credentials (MAccountAuthRes 8) [] MHeartbeatEvent]
    MHeartbeatEvent MApplicationAuthRes TimeoutError [APIError (api_error_of "CH_CLIENT_AUTH_FAILURE" None)] w)
    as (_ & _ & _ & _ & H1 & H2 & _ & _ & _ & H3); try reflexivity.
  - apply (run_op_wf (OpAuthorize _)), (run_op_wf (OpAuthorize _)), empty_store_wf.
  - discriminate.
  - split; reflexivity.
  - repeat constructor.
  - cbn. lia.
  - apply sample_table_wf.
  - repeat (constructor; [split; [reflexivity|vm_compute; repeat constructor]|]). constructor.
  - repeat constructor.
  - split; [exact (f_equal authorized_ids H2)|split; [exact H3|split]].
    + destruct H1 as (requests & Hr & _). inversion Hr as [|? r1 ? ? H7 Hr']; subst.
      inversion Hr' as [|? r2 ? ? H8 Hr'']; subst. exists r1, r2. split; [exact H7|exact H8].
    + vm_compute. reflexivity.
Defined.
